(* ===== verification/_CoqProject ===== *)
-Q . S2P
Prelude.v
Machine.v
Str.v
Bitmap.v
KList.v
Stdio.v
Paging.v
Kernel.v
Thread.v
Timer.v
Sync.v
Ioqueue.v
SyncLogic.v
Console.v
Debug.v
Threads.v
Keyboard.v
KbdLogic.v
System.v
Memory.v
PageHeap.v
Arena.v
PageAlloc.v
ArenaHeap.v
HeapSpec.v
Malloc.v
MemInit.v
Global.v
Interrupt.v
Tss.v
Syscall.v
Spawn.v
SpawnLogic.v
ThreadInit.v
Process.v
Exec.v
Printk.v
Boot.v
Run.v
LockRun.v
Ide.v
UserPage.v
IdeSpec.v
IdeLogic.v
IdeRW.v
IdeIrq.v
IdeParts.v
IdeHeap.v
IdeScan.v
Inode.v
File.v
FsDisk.v
InodeOpen.v
Fs.v
FsFormat.v
Dir.v
FsDir.v
Path.v
Init.v
Startup.v
Programs.v
