(* ===== verification/Prelude.v ===== *)
(** * Origin OS (x86): a verification development

    The program is a small 32-bit teaching kernel: a boot loader that leaves
    the machine in protected mode with paging on, and a kernel with threads
    scheduled by the clock, blocking locks, a keyboard and a console, a page
    allocator and a byte heap, user processes with their own page directory,
    system calls, an IDE driver and the beginning of a file system.

    ** The program's parts and the files that model them

    - [Prelude.v]: C integers as [Z] with explicit wrap-around
      ([lib/stdint.h]), the error monad [M S A] with its outcomes (a result, a
      failed [ASSERT] or [PANIC], fuel used up), automation.
    - [Machine.v]: byte-addressed RAM, eflags and the interrupt flag
      ([kernel/interrupt.c]: [intr_enable], [intr_disable], ...).
    - [Str.v], [Bitmap.v], [KList.v], [Stdio.v]: [lib/string.c],
      [lib/kernel/bitmap.c], [lib/kernel/list.c], [lib/stdio.c], each function
      with its loops over the bytes it reads and writes.
    - [Paging.v]: the two-level page table as the processor walks it, with the
      directory's last slot pointing back at the directory, and the functions of
      [kernel/memory.c] that edit it through that slot.
    - [Memory.v], [PageHeap.v]: pools, addresses, mapping, [malloc_page] and
      [mfree_page] of [kernel/memory.c]; [PageHeap.v] has the heap invariant.
    - [Kernel.v]: the globals of the kernel in one record per source file,
      and kernel computations: resumption trees that return, panic, leave
      through [switch_to], or stand where an interrupt may be taken.
    - [Thread.v], [Threads.v]: [thread/thread.c], and what it calls of
      [userprog/process.c] and [userprog/tss.c].
    - [Timer.v], [Sync.v], [Ioqueue.v], [Console.v], [Keyboard.v]:
      [device/timer.c], [thread/sync.c], [device/ioqueue.c],
      [device/console.c], [device/keyboard.c].
    - [SyncLogic.v], [KbdLogic.v]: a rely-guarantee logic for kernel
      computations, with rules for locks, blocking, yielding and interrupts.
    - [System.v]: the kernel as a step relation on configurations (the
      running computation, the suspended threads), in which the scheduler
      chooses the next thread and an interrupt may arrive at every window.
    - [Arena.v]: the byte heap of [kernel/memory.c] ([sys_malloc], [sys_free],
      block descriptors, arenas); [PageAlloc.v] is the interface (a class)
      between it and the page allocator, [ArenaHeap.v] and [HeapSpec.v] its
      invariant, [Malloc.v] its theorems.  [MemInit.v]: the loader's page
      tables and what [mem_init] makes of them.
    - [Global.v], [Interrupt.v], [Tss.v]: the constants of [kernel/global.h]
      and what the processor reads in a descriptor; [kernel/interrupt.c]'s
      tables and the 8259A pair; [userprog/tss.c].
    - [Syscall.v]: [userprog/syscall-init.c], [lib/user/syscall.c] and the
      entry [syscall_handler] of [kernel/kernel.S].
    - [Spawn.v], [Process.v]: thread creation of [thread/thread.c];
      [userprog/process.c].  [SpawnLogic.v], [ThreadInit.v], [Exec.v] and
      [UserPage.v] are the theorems on [thread_start], [thread_init],
      [process_execute], [get_a_page] and [start_process].
    - [Debug.v]: [kernel/debug.c].
    - [Printk.v], [Boot.v]: [lib/kernel/stdio-kernel.c] and [printf]; the
      initialisation of the clock (with the 8253) and of the keyboard.
    - [Ide.v]: [device/ide.c].  [Run.v] is total correctness of a kernel
      computation against an environment, [LockRun.v] the interface (a class)
      of a lock used under one, [IdeSpec.v] an ATA drive and the
      driver's commands, [IdeLogic.v] a thread's use of a channel, [IdeRW.v]
      reading and writing sectors, [IdeIrq.v] the interrupt handler,
      [IdeParts.v] the entries of a sector's partition table, [IdeHeap.v] the
      byte heap beside the disk with interrupts on, [IdeScan.v] the recursive
      scan of a disk.
    - [Inode.v], [File.v], [Fs.v], [Dir.v]: [fs/inode.c], [fs/file.c],
      [fs/fs.c], [fs/dir.c], as far as they are C; [InodeOpen.v] the table of
      open inodes, [FsDisk.v] what reaches the disk, [FsFormat.v] the layout
      of a formatted partition, [FsDir.v] a new entry in a directory,
      [Path.v] the path functions of [fs/dir.c].
    - [Init.v], [Programs.v]: [kernel/init.c] and [kernel/main.c].
      [Startup.v] composes the initialisation of all parts.

    ** State and operations

    A [struct] of the code is a Record with the code's field names, an enum an
    Inductive with its constructors, a C function a Definition of the same name
    in a monad, its loops Fixpoints named after it.  Memory that the code
    reaches by pointers (strings, bitmaps, list nodes) is the byte map
    [ram]; page tables are words of physical memory ([pwords]).  The ready and
    all-thread lists and the waiters of a semaphore are sequences of PCB
    addresses: [KList.list_is_sequence] is the theorem that the linked lists
    of [list.c] are such sequences.

    Interrupts: a computation that runs with the interrupt flag set has a
    [Window] after each statement of the synchronisation code, where [System.v]
    may run the clock's or the keyboard's handler.  Handlers run with
    interrupts off, as the gates of the IDT are interrupt gates.

    ** What the theorems show

    - The kernel under interrupts: no assertion fails in any interleaving
      ([System.kernel_never_panics]), the invariant that ties lists, statuses,
      lock owners and waiters holds throughout, with every blocked thread where
      a wakeup finds it ([System.kernel_invariant]), the scheduler implements
      its policy and activates the next thread's address space
      ([System.schedule_refines]), locks
      exclude and nest ([System.lock_section], [System.lock_reentrant]).
      Two interleavings the code does not mean to allow are exhibited:
      [System.allocate_pid_race] and [System.ioq_sleeps_beside_char].
    - The start: from the loader's state [init_all] brings up every part that
      the other theorems take as given ([Startup.init_core_ok]), so the system
      of threads that starts with the first [intr_enable] never panics
      ([Startup.boot_never_panics]).
    - The page heap: its invariant from the loader's tables on
      ([MemInit.mem_init_ok]), allocation, release, their round trip, exhaustion, and
      the mapping of one page with or without a new page table.
    - The byte heap: blocks are of the best fitting class and private,
      freeing gives back exactly the block, and the pages of its arena exactly
      when no other block of it is in use ([Malloc.sys_malloc_ok],
      [Malloc.sys_free_ok]).
    - Threads and processes: a new thread's task, first frame and place in the
      lists ([SpawnLogic.thread_start_ok]); the main and the idle thread
      ([ThreadInit.thread_init_ok]); a new process with its address space
      ([Exec.process_execute_ok]) and its way into user mode, if it is not
      switched out before it has read where its frame goes
      ([UserPage.start_process_ok]).
    - Tables and calls: the IDT's gates for the 0x30 vectors that have an entry
      stub and for system calls, the GDT's entries and the system calls are
      what the processor needs ([Interrupt.idt_init_ok], [Tss.tss_init_ok],
      [Syscall.syscalls_dispatch]); for the vectors between, the code reads past
      its table of entries; the second disk's line stays masked, the
      I/O map is misplaced, and the clock runs at the wrong rate
      ([Interrupt.pic_init_lines], [Tss.tss_init_opens_disk],
      [Boot.timer_init_divisor]).
    - The disk: [ide_read] and [ide_write] move whole sectors, whatever the
      rest of the kernel does meanwhile, one at a time from and to any drive
      that follows the PIO handshake, more with one command from and to a drive
      that streams them ([IdeRW.ide_read_ok],
      [IdeRW.ide_write_ok], [IdeRW.ide_write_read],
      [IdeIrq.intr_hd_handler_ok]); [partition_scan] finds what a reference
      recursion over the drive's sectors finds ([IdeScan.partition_scan_ok]),
      and a fourth primary partition fails its assertion
      ([IdeParts.partition_table_ok]).
    - The file system: an inode written back is at its place in the table and
      nothing else changes ([FsDisk.inode_sync_ok]), the list of open inodes
      is a table of numbers and counts ([InodeOpen.inode_open_again],
      [InodeOpen.inode_close_ok]), the block bitmap is the one meant
      ([FsFormat.block_bitmap_built]), a new entry goes to the first free
      place of a directory ([FsDir.sync_dir_entry_ok]); numbers of inodes are cut to
      8 bits, bitmaps are written back from the wrong address, and the data
      area is misplaced ([FsDisk.bitmap_sync_shifted],
      [FsFormat.format_overruns]), and the depth of a path has nothing to do
      with the path ([Path.path_depth_cnt_blind]).
    - The library: strings, bitmaps, lists, numerals and formatted output
      against reference definitions on lists of bytes.
    - Devices: the queue is a FIFO, the keyboard handler is a step of a key
      machine for each of the 256 bytes, [put_int], [printk] and [panic_spin]
      print what they are given.

    ** Hardware and the rest of the kernel

    What a port answers is a parameter ([bus]).  The theorems about the disk
    assume of it [IdeSpec.ata_bus], the handshake of the ATA PIO protocols:
    before each sector of a command the drive may be busy; when it has the
    data, or room for them, it clears BSY and sets DRQ, and only after the
    status register has been seen so does the data register move the sector's
    words.  How many looks find the drive busy ([a_slow], fewer than the 29999
    after which [busy_wait] gives up) and whether it goes from one sector of a
    command to the next without a pause ([a_stream]) is the drive's own affair.
    The driver looks at the status once per command, so a transfer of more
    than one sector needs a drive that streams ([IdeLogic.paced]), which the
    theorems state as a hypothesis; single sectors do not.  While the thread is
    away they assume [IdeLogic.absent]: nobody else uses the channel or writes
    the thread's memory, the thread returns only when it was made ready, and the
    channel's interrupt comes after a command, for a read when the sector is
    there, and does what [IdeIrq.intr_hd_handler_ok] and
    [IdeIrq.served_answers] show.  What else the
    caller relies on meanwhile is a frame relation of its own choice
    ([IdeLogic.frame_laws]): the environment is assumed to keep it, the
    theorems show that the driver does.  [IdeLogic.no_frame] asks for
    nothing; the scan of a disk asks with [IdeHeap.heap_kept] that others keep
    off the kernel's byte heap and that no process has been made yet.  A starting
    process assumes [UserPage.spared]: nobody else takes the user pool's lock
    or touches the process's own memory and user pages meanwhile, and page
    tables can still be allocated.

    ** Fuel

    Loops of the code that have no syntactic bound take a fuel argument and
    answer [NoFuel] ([KNoFuel]) when it is used up; the theorems name an amount
    that is enough: more than the length of the string, the list or the format,
    33 digits for [itoa] (a 32-bit number has at most 32 in any base), and more
    than the number of steps of the run for the loops that wait for another
    thread ([sema_down], [ioq_getchar], [ticks_to_sleep]).  The loops of the
    disk driver take a round for every 256 sectors and one to end
    ([IdeLogic.rounds_for]); two rounds of [sema_down] are enough there.  A
    write that finds the drive busy sleeps, and no number of rounds is enough
    for a clock that stands still: [Run.runs_or] lets the fuel run out there,
    and only for a drive that may be busy ([IdeRW.may_wait]).  The
    scan of a disk takes a [depth] as long as the chain of its extended
    partitions and a page of the heap for every table it reads.

    ** What is not modelled

    The boot loader (but for the page tables it leaves,
    [MemInit.loader_tables]) and the assembly stubs but [switch_to] and
    [syscall_handler]; where the interrupt entry stubs lie (of their table,
    [image_ok] has the 0x30 entries that [kernel.S] defines); video memory, the cursor and scrolling (the console is
    the sequence of characters printed); the contents of kernel stacks but for
    a new thread's first frame (a suspended thread is its continuation; the
    stack pointer that [switch_to] stores in [self_kstack] is the next value of
    an arbitrary sequence, [esps], as its depth is not in the source).
    Interrupts are taken between the statements of the synchronisation code, of
    the driver and of [start_process], not within a statement.
    Page tables are words of physical memory and data are bytes at virtual
    addresses: a heap page that becomes a page directory is carried over by
    [Process.claim_words].  In the byte heap a critical section under the
    pool's lock is one step.  Of the file system, the functions that do not
    compile at this commit: [get_free_slot_in_global], [dir_open],
    [search_dir_entry] and [search_file]; [fs.h]'s missing semicolons are read
    as if they were there.  Definitions without theorems so far: the
    identification of disks and the rest of [ide_init], [inode_open] of an
    inode that has to be read, [mount_partition], [filesys_init], the rest of
    [init_all], and the threads and programs of [Programs.v]. *)

From stdpp Require Export prelude gmap strings.
From Stdlib Require Export ZArith Lia.

#[export] Set Default Goal Selector "!".
Global Open Scope Z_scope.

(** ** Machine integers

    C integers are [Z] values kept in range by explicit wrap-around, one
    function per width and signedness of [lib/stdint.h]. *)

Definition u8 (x : Z) : Z := x mod 256.
Definition u16 (x : Z) : Z := x mod 65536.
Definition u32 (x : Z) : Z := x mod 4294967296.
Definition i8 (x : Z) : Z := (x + 128) mod 256 - 128.
Definition i16 (x : Z) : Z := (x + 32768) mod 65536 - 32768.
Definition i32 (x : Z) : Z := (x + 2147483648) mod 4294967296 - 2147483648.

(** [DIV_ROUND_UP(X, STEP)] of [kernel/global.h], on [uint32_t] operands. *)
Definition DIV_ROUND_UP (X STEP : Z) : Z := u32 (X + STEP - 1) / STEP.

Definition PG_SIZE : Z := 4096.

Ltac unfold_ints := unfold u8, u16, u32, i8, i16, i32 in *.

(** [zmod_lia] is [lia] with the equations of [/] and [mod] by constants. *)
Ltac zmod_lia := unfold_ints; Z.div_mod_to_equations; lia.

Lemma u8_range x : 0 <= u8 x < 256.
Proof. zmod_lia. Qed.
Lemma u16_range x : 0 <= u16 x < 65536.
Proof. zmod_lia. Qed.
Lemma u32_range x : 0 <= u32 x < 4294967296.
Proof. zmod_lia. Qed.
Lemma i32_range x : -2147483648 <= i32 x < 2147483648.
Proof. zmod_lia. Qed.

Lemma u8_id x : 0 <= x < 256 -> u8 x = x.
Proof. apply Z.mod_small. Qed.
Lemma u16_id x : 0 <= x < 65536 -> u16 x = x.
Proof. apply Z.mod_small. Qed.
Lemma u32_id x : 0 <= x < 4294967296 -> u32 x = x.
Proof. apply Z.mod_small. Qed.
Lemma i32_id x : -2147483648 <= x < 2147483648 -> i32 x = x.
Proof. zmod_lia. Qed.
Lemma u8_idem x : u8 (u8 x) = u8 x.
Proof. apply u8_id, u8_range. Qed.
Lemma u32_idem x : u32 (u32 x) = u32 x.
Proof. apply u32_id, u32_range. Qed.
Lemma u32_i32 x : u32 (i32 x) = u32 x.
Proof. zmod_lia. Qed.

(** ** Masks

    The masks of the paging code, as quotients and remainders. *)

Lemma land_high_mask v n m :
  0 <= n -> 0 <= v < 4294967296 -> m = Z.ldiff (Z.ones 32) (Z.ones n) ->
  Z.land v m = v / 2 ^ n * 2 ^ n.
Proof.
  intros Hn Hv ->.
  assert (Hv' : Z.land v (Z.ones 32) = v).
  { rewrite Z.land_ones by lia. apply Z.mod_small. change (2 ^ 32) with 4294967296. lia. }
  replace (Z.land v (Z.ldiff (Z.ones 32) (Z.ones n))) with (Z.ldiff v (Z.ones n)).
  - by rewrite Z.ldiff_ones_r, Z.shiftl_mul_pow2, Z.shiftr_div_pow2 by lia.
  - rewrite <- Hv' at 1. apply Z.bits_inj'. intros i Hi.
    rewrite !Z.ldiff_spec, !Z.land_spec, !Z.ldiff_spec. by rewrite andb_assoc.
Qed.

Lemma land_page v : 0 <= v < 4294967296 -> Z.land v 0xfffff000 = v / 4096 * 4096.
Proof. intros. by apply (land_high_mask v 12). Qed.
Lemma land_dir v : 0 <= v < 4294967296 -> Z.land v 0xffc00000 = v / 4194304 * 4194304.
Proof. intros. by apply (land_high_mask v 22). Qed.
Lemma land_off v : Z.land v 0xfff = v mod 4096.
Proof. by apply (Z.land_ones v 12). Qed.
Lemma land_tbl v : 0 <= v < 4294967296 -> Z.land v 0x3ff000 = v / 4096 mod 1024 * 4096.
Proof.
  intros Hv. replace (Z.land v 0x3ff000) with (Z.land (Z.land v 0xfffff000) (Z.ones 22)).
  - rewrite land_page, Z.land_ones by lia. change (2 ^ 22) with 4194304.
    Z.div_mod_to_equations; lia.
  - by rewrite <- Z.land_assoc.
Qed.

(** ** Lists *)

Lemma in_tail {A} (x : A) l : x ∈ tail l -> x ∈ l.
Proof. destruct l; [done|]. simpl. intros. by apply list_elem_of_further. Qed.

Lemma in_removelast {A} (x : A) l : x ∈ removelast l -> x ∈ l.
Proof.
  induction l as [|y [|z l] IH]; [done|by intros ?%not_elem_of_nil|].
  change (x ∈ y :: removelast (z :: l) -> x ∈ y :: z :: l).
  rewrite !(elem_of_cons _ x y). intros [?|?]; auto.
Qed.

Lemma filter_all {A} (P : A -> Prop) `{!forall x, Decision (P x)} (xs : list A) :
  (forall x, x ∈ xs -> P x) -> filter P xs = xs.
Proof.
  induction xs as [|x xs IH]; intros Hxs; [done|]. rewrite filter_cons.
  rewrite decide_True by (apply Hxs, list_elem_of_here). f_equal. apply IH.
  intros y Hy. apply Hxs. by apply list_elem_of_further.
Qed.

Lemma filter_none {A} (P : A -> Prop) `{!forall x, Decision (P x)} (xs : list A) :
  (forall x, x ∈ xs -> ~ P x) -> filter P xs = [].
Proof.
  induction xs as [|x xs IH]; intros Hxs; [done|]. rewrite filter_cons.
  rewrite decide_False by (apply Hxs, list_elem_of_here). apply IH.
  intros y Hy. apply Hxs. by apply list_elem_of_further.
Qed.

(** ** Outcomes and the state monad

    A computation of the kernel either returns ([Ok]), ends in
    [panic_spin] through [ASSERT] or [PANIC] ([Panic], with the text the
    macro prints), or exhausts the fuel given to a loop that the C code
    does not bound ([NoFuel]). *)

Inductive outcome (A : Type) : Type :=
| Ok (a : A)
| Panic (condition : string)
| NoFuel.
Arguments Ok {A} a.
Arguments Panic {A} condition.
Arguments NoFuel {A}.

#[export] Instance outcome_eq_dec {A} `{EqDecision A} : EqDecision (outcome A).
Proof. solve_decision. Defined.

Definition M (S A : Type) : Type := S -> outcome (A * S).

#[export] Instance M_ret {S} : MRet (M S) := fun _ a s => Ok (a, s).
#[export] Instance M_bind {S} : MBind (M S) := fun _ _ f m s =>
  match m s with
  | Ok (a, s') => f a s'
  | Panic c => Panic c
  | NoFuel => NoFuel
  end.

Definition panic {S A} (c : string) : M S A := fun _ => Panic c.
Definition no_fuel {S A} : M S A := fun _ => NoFuel.
Definition gets {S A} (f : S -> A) : M S A := fun s => Ok (f s, s).
Definition modify {S} (f : S -> S) : M S unit := fun s => Ok (tt, f s).

(** [ASSERT(CONDITION)] of [kernel/debug.h] in the build without [NDEBUG]. *)
Definition ASSERT {S} (b : bool) (c : string) : M S unit :=
  if b then mret tt else panic c.

Lemma bind_Ok_inv {S A B} (m : M S A) (f : A -> M S B) s r :
  (m ≫= f) s = Ok r -> exists a s1, m s = Ok (a, s1) /\ f a s1 = Ok r.
Proof.
  unfold mbind, M_bind. destruct (m s) as [[a s1]| |]; [|done..]. eauto.
Qed.

Lemma bind_Ok {S A B} (m : M S A) (f : A -> M S B) s a s1 :
  m s = Ok (a, s1) -> (m ≫= f) s = f a s1.
Proof. unfold mbind, M_bind. by intros ->. Qed.

Lemma bind_assoc {S A B C} (m : M S A) (f : A -> M S B) (g : B -> M S C) s :
  ((m ≫= f) ≫= g) s = (m ≫= (fun a => f a ≫= g)) s.
Proof. unfold mbind, M_bind. by destruct (m s) as [[? ?]| |]. Qed.

Lemma Ok_val {A S} (a b : A) (s : S) : a = b -> Ok (a, s) = Ok (b, s).
Proof. by intros ->. Qed.

(** [mstep] runs the first action of a bind whose outcome is an equation of
    the context or computes. *)
Ltac mstep :=
  match goal with
  | |- context [mbind ?f ?m ?s] =>
      match goal with
      | H : m s = Ok _ |- _ => rewrite (bind_Ok m f s _ _ H)
      end
  | |- context [mbind ?f ?m ?s] =>
      erewrite (bind_Ok m f s) by reflexivity
  end.

(** [minv H] splits a hypothesis [(m ≫= f) s = Ok r] into its two runs. *)
Ltac minv H :=
  let a := fresh "a" in let s1 := fresh "s1" in let H1 := fresh "Hm" in
  apply bind_Ok_inv in H as (a & s1 & H1 & H).

(** A loop run for at most [n] rounds: the body answers [inl] to go round
    again and [inr] to leave. *)
Fixpoint iter_fuel {S A B} (n : nat) (body : A -> M S (A + B)) (a : A) : M S B :=
  match n with
  | O => no_fuel
  | S n => r ← body a;
           match r with
           | inl a' => iter_fuel n body a'
           | inr b => mret b
           end
  end.

Lemma iter_fuel_S {S A B} n (body : A -> M S (A + B)) a s :
  iter_fuel (Datatypes.S n) body a s =
  (r ← body a; match r with inl a' => iter_fuel n body a' | inr b => mret b end) s.
Proof. done. Qed.

(** Total correctness of [iter_fuel]: an invariant the body preserves and a
    measure it decreases; more fuel than the measure reaches the exit. *)
Lemma iter_fuel_total {S A B} (body : A -> M S (A + B))
    (I : A -> S -> Prop) (mu : A -> S -> nat) (Q : B -> S -> Prop) :
  (forall a s, I a s -> exists r s', body a s = Ok (r, s') /\
     match r with
     | inl a' => I a' s' /\ (mu a' s' < mu a s)%nat
     | inr b => Q b s'
     end) ->
  forall n a s, I a s -> (mu a s < n)%nat ->
  exists b s', iter_fuel n body a s = Ok (b, s') /\ Q b s'.
Proof.
  intros Hbody n. induction n as [|n IH]; intros a s HI Hn; [lia|].
  destruct (Hbody a s HI) as (r & s' & Hr & Hpost).
  rewrite iter_fuel_S, (bind_Ok _ _ _ _ _ Hr).
  destruct r as [a'|b].
  - destruct Hpost as [HI' Hlt]. apply IH; [done|lia].
  - by exists b, s'.
Qed.
