(* ===== verification/Machine.v ===== *)
(** * The machine under the kernel

    What every component shares: the byte memory at the kernel's virtual
    addresses, the [eflags] register, the trace of port accesses and the
    characters sent to the screen; and the interrupt-flag operations of
    [kernel/interrupt.c], which the list and thread code call around every
    change of a shared list. *)
From S2P Require Import Prelude.

(** An access to an I/O port: [outb], [outsw], [inb], [insw] of
    [lib/kernel/io.h], with the byte or the 16-bit word transferred. *)
Inductive port_io :=
| Outb (port data : Z) | Outw (port data : Z) | Inb (port data : Z) | Inw (port data : Z).
#[export] Instance port_io_eq_dec : EqDecision port_io.
Proof. solve_decision. Defined.

Record mach := Mach {
  ram : gmap Z Z;          (* byte at each virtual address, 0 when absent *)
  eflags : Z;              (* the flags register *)
  ports : list port_io;    (* port accesses, oldest first *)
  screen : list Z          (* characters printed, oldest first *)
}.

Definition set_ram (r : gmap Z Z) (m : mach) : mach :=
  Mach r (eflags m) (ports m) (screen m).
Definition set_eflags (e : Z) (m : mach) : mach :=
  Mach (ram m) e (ports m) (screen m).

(** ** Bytes and little-endian words *)

Definition ld8 (r : gmap Z Z) (a : Z) : Z := u8 (default 0 (r !! a)).
Definition st8 (r : gmap Z Z) (a v : Z) : gmap Z Z := <[a := u8 v]> r.
Definition ld32 (r : gmap Z Z) (a : Z) : Z :=
  ld8 r a + 256 * ld8 r (a + 1) + 65536 * ld8 r (a + 2) + 16777216 * ld8 r (a + 3).
Definition st32 (r : gmap Z Z) (a v : Z) : gmap Z Z :=
  st8 (st8 (st8 (st8 r a v) (a + 1) (v / 256)) (a + 2) (v / 65536)) (a + 3) (v / 16777216).

Definition ld16 (r : gmap Z Z) (a : Z) : Z := ld8 r a + 256 * ld8 r (a + 1).
Definition st16 (r : gmap Z Z) (a v : Z) : gmap Z Z := st8 (st8 r a v) (a + 1) (v / 256).

Lemma ld8_range r a : 0 <= ld8 r a < 256.
Proof. apply u8_range. Qed.
Lemma ld32_range r a : 0 <= ld32 r a < 4294967296.
Proof.
  unfold ld32. pose proof (ld8_range r a). pose proof (ld8_range r (a + 1)).
  pose proof (ld8_range r (a + 2)). pose proof (ld8_range r (a + 3)). lia.
Qed.

Lemma ld8_st8_eq r a v : ld8 (st8 r a v) a = u8 v.
Proof. unfold ld8, st8. rewrite lookup_insert_eq. simpl. apply u8_idem. Qed.
Lemma ld8_st8_ne r a b v : a <> b -> ld8 (st8 r a v) b = ld8 r b.
Proof. intros. unfold ld8, st8. by rewrite lookup_insert_ne. Qed.
Lemma ld8_st8 r a b v : ld8 (st8 r a v) b = if decide (a = b) then u8 v else ld8 r b.
Proof. case_decide; [subst; apply ld8_st8_eq|by apply ld8_st8_ne]. Qed.

Lemma ld8_st16_ne r a b v : b < a \/ a + 2 <= b -> ld8 (st16 r a v) b = ld8 r b.
Proof. intros. unfold st16. rewrite !ld8_st8_ne by lia. done. Qed.
Lemma ld16_st16_eq r a v : ld16 (st16 r a v) a = u16 v.
Proof.
  unfold ld16, st16. rewrite !ld8_st8. repeat (case_decide; try lia). zmod_lia.
Qed.
Lemma ld16_st16_ne r a b v : b + 2 <= a \/ a + 2 <= b -> ld16 (st16 r a v) b = ld16 r b.
Proof. intros. unfold ld16. rewrite !ld8_st16_ne by lia. done. Qed.
Lemma ld16_st8_ne r a b v : a < b \/ b + 2 <= a -> ld16 (st8 r a v) b = ld16 r b.
Proof. intros. unfold ld16. rewrite !ld8_st8_ne by lia. done. Qed.
Lemma ld16_range r a : 0 <= ld16 r a < 65536.
Proof. unfold ld16. pose proof (ld8_range r a). pose proof (ld8_range r (a + 1)). lia. Qed.

Lemma ld8_st32_ne r a b v : b < a \/ a + 4 <= b -> ld8 (st32 r a v) b = ld8 r b.
Proof. intros. unfold st32. rewrite !ld8_st8_ne by lia. done. Qed.

Lemma ld32_st32_eq r a v : ld32 (st32 r a v) a = u32 v.
Proof.
  unfold ld32, st32. rewrite !ld8_st8.
  repeat (case_decide; try lia). zmod_lia.
Qed.

Lemma ld32_st32_ne r a b v :
  b + 4 <= a \/ a + 4 <= b -> ld32 (st32 r a v) b = ld32 r b.
Proof. intros. unfold ld32. rewrite !ld8_st32_ne by lia. done. Qed.

Lemma ld32_st8_ne r a b v :
  a < b \/ b + 4 <= a -> ld32 (st8 r a v) b = ld32 r b.
Proof. intros. unfold ld32. rewrite !ld8_st8_ne by lia. done. Qed.

(** The [n] addresses from [a] on. *)
Definition within (a n p : Z) : Prop := a <= p < a + n.

(** Two memories that agree on a range of addresses; what a piece of code
    leaves alone. *)
Definition agree (P : Z -> Prop) (r r' : gmap Z Z) : Prop :=
  forall a, P a -> ld8 r' a = ld8 r a.

Lemma agree_refl P r : agree P r r.
Proof. by intros a. Qed.
Lemma agree_trans P r1 r2 r3 : agree P r1 r2 -> agree P r2 r3 -> agree P r1 r3.
Proof. intros H1 H2 a Ha. by rewrite H2, H1. Qed.
Lemma agree_weaken (P Q : Z -> Prop) r r' :
  (forall a, P a -> Q a) -> agree Q r r' -> agree P r r'.
Proof. intros HPQ H a Ha. by apply H, HPQ. Qed.
Lemma agree_ld32 P r r' a :
  agree P r r' -> (forall i, a <= i < a + 4 -> P i) -> ld32 r' a = ld32 r a.
Proof. intros H HP. unfold ld32. rewrite !H by (apply HP; lia). done. Qed.
Lemma agree_ld16 P r r' a : agree P r r' -> P a -> P (a + 1) -> ld16 r' a = ld16 r a.
Proof. intros H H0 H1. unfold ld16. by rewrite !H. Qed.
Lemma agree_st8 (P : Z -> Prop) r a v : ~ P a -> agree P r (st8 r a v).
Proof. intros HP b Hb. apply ld8_st8_ne. congruence. Qed.
Lemma agree_st16 (P : Z -> Prop) r a v : ~ P a -> ~ P (a + 1) -> agree P r (st16 r a v).
Proof. intros H0 H1 b Hb. unfold st16. rewrite !ld8_st8_ne by congruence. done. Qed.
Lemma agree_st32 (P : Z -> Prop) r a v :
  (forall i, a <= i < a + 4 -> ~ P i) -> agree P r (st32 r a v).
Proof.
  intros HP b Hb. apply ld8_st32_ne.
  destruct (decide (a <= b < a + 4)); [by destruct (HP b)|lia].
Qed.

#[export] Instance agree_preorder P : PreOrder (agree P).
Proof. split; [intros r; apply agree_refl|intros r1 r2 r3; apply agree_trans]. Qed.

#[export] Instance agree_proper : Proper (pointwise_relation Z iff ==> eq ==> eq ==> iff) agree.
Proof.
  intros P Q HPQ r _ <- r' _ <-. split; apply agree_weaken; intros a; apply HPQ.
Qed.

Definition load8 (a : Z) : M mach Z := gets (fun m => ld8 (ram m) a).
Definition store8 (a v : Z) : M mach unit :=
  modify (fun m => set_ram (st8 (ram m) a v) m).
Definition load32 (a : Z) : M mach Z := gets (fun m => ld32 (ram m) a).
Definition store32 (a v : Z) : M mach unit :=
  modify (fun m => set_ram (st32 (ram m) a v) m).

(** ** Ports: [lib/kernel/io.h]

    What a port answers is the hardware's affair: a function of the accesses
    made so far, a parameter of the code that reads ports. *)

Definition set_ports (l : list port_io) (m : mach) : mach :=
  Mach (ram m) (eflags m) l (screen m).
Definition log_io (e : port_io) : M mach unit := modify (fun m => set_ports (ports m ++ [e]) m).

Record bus := Bus {
  in8 : list port_io -> Z -> Z;
  in16 : list port_io -> Z -> Z
}.

Definition outb (port data : Z) : M mach unit := log_io (Outb (u16 port) (u8 data)).
Definition inb (hw : bus) (port : Z) : M mach Z :=
  l ← gets ports;
  let data := u8 (in8 hw l (u16 port)) in
  log_io (Inb (u16 port) data);; mret data.

Definition load16 (a : Z) : M mach Z :=
  gets (fun m => ld16 (ram m) a).
Definition store16 (a v : Z) : M mach unit := modify (fun m => set_ram (st16 (ram m) a v) m).

(** [cld; rep insw] and [cld; rep outsw], [word_cnt] words. *)
Fixpoint insw (hw : bus) (word_cnt : nat) (port addr : Z) : M mach unit :=
  match word_cnt with
  | O => mret tt
  | S n =>
      l ← gets ports;
      let data := u16 (in16 hw l (u16 port)) in
      log_io (Inw (u16 port) data);;
      store16 addr data;;
      insw hw n port (u32 (addr + 2))
  end.

Fixpoint outsw (word_cnt : nat) (port addr : Z) : M mach unit :=
  match word_cnt with
  | O => mret tt
  | S n =>
      data ← load16 addr;
      log_io (Outw (u16 port) data);;
      outsw n port (u32 (addr + 2))
  end.

(** ** Interrupt flag: [kernel/interrupt.c] *)

Definition EFLAGS_IF : Z := 0x200.

Inductive intr_status := INTR_OFF | INTR_ON.
#[export] Instance intr_status_eq_dec : EqDecision intr_status.
Proof. solve_decision. Defined.

(** [enum intr_status] as the integer the C code stores. *)
Definition intr_status_Z (st : intr_status) : Z :=
  match st with INTR_OFF => 0 | INTR_ON => 1 end.

(** The instructions [sti] and [cli]: bit 9 of [eflags]. *)
Definition sti : M mach unit := modify (fun m => set_eflags (Z.setbit (eflags m) 9) m).
Definition cli : M mach unit := modify (fun m => set_eflags (Z.clearbit (eflags m) 9) m).

Definition intr_get_status : M mach intr_status :=
  e ← gets eflags;
  mret (if decide (Z.land EFLAGS_IF e <> 0) then INTR_ON else INTR_OFF).

Definition intr_enable : M mach intr_status :=
  st ← intr_get_status;
  if decide (st = INTR_ON) then mret INTR_ON
  else sti;; mret INTR_OFF.

Definition intr_disable : M mach intr_status :=
  st ← intr_get_status;
  if decide (st = INTR_ON) then cli;; mret INTR_ON
  else mret INTR_OFF.

Definition intr_set_status (status : intr_status) : M mach intr_status :=
  if decide (Z.land (intr_status_Z status) (intr_status_Z INTR_ON) <> 0)
  then intr_enable else intr_disable.

(** The bracket the kernel writes around a critical section:
    [old_status = intr_disable(); ...; intr_set_status(old_status);] *)
Definition irqsave {A} (body : M mach A) : M mach A :=
  old_status ← intr_disable; a ← body; intr_set_status old_status;; mret a.

(** The interrupt flag as a Boolean. *)
Definition IF (m : mach) : bool := Z.testbit (eflags m) 9.

Lemma land_IF e : Z.land EFLAGS_IF e = if Z.testbit e 9 then 512 else 0.
Proof.
  apply Z.bits_inj'. intros n Hn. rewrite Z.land_spec.
  change EFLAGS_IF with (2 ^ 9).
  destruct (decide (n = 9)) as [->|Hne].
  - rewrite Z.pow2_bits_true by lia. by destruct (Z.testbit e 9).
  - rewrite Z.pow2_bits_false by lia.
    destruct (Z.testbit e 9); [|by rewrite Z.bits_0].
    change 512 with (2 ^ 9). by rewrite Z.pow2_bits_false by lia.
Qed.

Lemma intr_get_status_eq m :
  intr_get_status m = Ok (if IF m then INTR_ON else INTR_OFF, m).
Proof.
  unfold intr_get_status, gets, IF, mbind, M_bind. rewrite land_IF.
  destruct (Z.testbit (eflags m) 9); by case_decide.
Qed.

Lemma intr_disable_eq m :
  intr_disable m = Ok (if IF m then INTR_ON else INTR_OFF,
                       if IF m then set_eflags (Z.clearbit (eflags m) 9) m else m).
Proof.
  unfold intr_disable. rewrite (bind_Ok _ _ _ _ _ (intr_get_status_eq m)).
  by destruct (IF m).
Qed.

Lemma intr_enable_eq m :
  intr_enable m = Ok (if IF m then INTR_ON else INTR_OFF,
                      if IF m then m else set_eflags (Z.setbit (eflags m) 9) m).
Proof.
  unfold intr_enable. rewrite (bind_Ok _ _ _ _ _ (intr_get_status_eq m)).
  by destruct (IF m).
Qed.

Lemma setbit_clearbit_id e : Z.testbit e 9 = true -> Z.setbit (Z.clearbit e 9) 9 = e.
Proof.
  intros H. apply Z.bits_inj'. intros n Hn.
  rewrite Z.setbit_eqb, Z.clearbit_eqb by lia.
  destruct (Z.eqb_spec 9 n); [subst; by rewrite H|].
  by rewrite andb_true_r.
Qed.

Lemma IF_clearbit m e : IF (set_eflags (Z.clearbit e 9) m) = false.
Proof.
  change (Z.testbit (Z.clearbit e 9) 9 = false).
  by rewrite Z.clearbit_eqb, Z.eqb_refl, andb_false_r.
Qed.

(** A section bracketed by [intr_disable] and [intr_set_status] runs with
    the flag clear and ends with [eflags] as it was. *)
Definition irq_off (m : mach) : mach :=
  if IF m then set_eflags (Z.clearbit (eflags m) 9) m else m.

Lemma irq_off_IF m : IF (irq_off m) = false.
Proof. unfold irq_off. destruct (IF m) eqn:E; [apply IF_clearbit|done]. Qed.
Lemma irq_off_ram m : ram (irq_off m) = ram m.
Proof. unfold irq_off. by destruct (IF m). Qed.

Lemma irq_section {A} (body : M mach A) (m m' : mach) (a : A) :
  body (irq_off m) = Ok (a, m') -> eflags m' = eflags (irq_off m) ->
  irqsave body m = Ok (a, set_eflags (eflags m) m').
Proof.
  unfold irqsave.
  intros Hb He.
  rewrite (bind_Ok _ _ _ _ _ (intr_disable_eq m)). fold (irq_off m).
  rewrite (bind_Ok _ _ _ _ _ Hb).
  unfold irq_off in He. unfold intr_set_status. destruct (IF m) eqn:E; simpl.
  - erewrite (bind_Ok intr_enable) by apply intr_enable_eq.
    assert (IF m' = false) as ->.
    { unfold IF. rewrite He. apply (IF_clearbit m). }
    rewrite He. simpl. rewrite setbit_clearbit_id by done. done.
  - erewrite (bind_Ok intr_disable) by apply intr_disable_eq.
    assert (IF m' = false) as -> by (unfold IF; by rewrite He).
    rewrite <- He. by destruct m'.
Qed.

(** A critical section that only writes memory. *)
Lemma irqsave_ram {A} (body : M mach A) (m : mach) (a : A) (r' : gmap Z Z) :
  (forall m0, ram m0 = ram m -> body m0 = Ok (a, set_ram r' m0)) ->
  irqsave body m = Ok (a, set_ram r' m).
Proof.
  intros Hb.
  rewrite (irq_section body m (set_ram r' (irq_off m)) a);
    [|apply Hb, irq_off_ram|done].
  unfold irq_off. by destruct (IF m).
Qed.

(** The same, for the memory the section leaves. *)
Lemma irqsave_mem {A} (body : M mach A) (m : mach) (a : A) (r' : gmap Z Z) :
  body (irq_off m) = Ok (a, set_ram r' (irq_off m)) -> irqsave body m = Ok (a, set_ram r' m).
Proof.
  intros Hb. rewrite (irq_section body m (set_ram r' (irq_off m)) a) by done.
  unfold irq_off. by destruct (IF m).
Qed.

Lemma set_eflags_ram m e : ram (set_eflags e m) = ram m.
Proof. done. Qed.

Create Rewrite HintDb mach.
#[export] Hint Rewrite set_eflags_ram irq_off_ram : mach.

(** Setting the flag to a value, as [intr_set_status] does. *)
Definition irq_on (m : mach) : mach :=
  if IF m then m else set_eflags (Z.setbit (eflags m) 9) m.
Definition set_if (b : bool) (m : mach) : mach := if b then irq_on m else irq_off m.

Lemma set_if_IF b m : IF (set_if b m) = b.
Proof.
  destruct b; simpl; [|apply irq_off_IF]. unfold irq_on. destruct (IF m) eqn:E; [done|].
  change (Z.testbit (Z.setbit (eflags m) 9) 9 = true). by rewrite Z.setbit_eq.
Qed.

Lemma set_if_id b m : IF m = b -> set_if b m = m.
Proof. intros <-. unfold set_if, irq_on, irq_off. by destruct (IF m). Qed.

Lemma intr_set_status_eq (b : bool) m :
  intr_set_status (if b then INTR_ON else INTR_OFF) m =
  Ok (if IF m then INTR_ON else INTR_OFF, set_if b m).
Proof. unfold intr_set_status. destruct b; [apply intr_enable_eq|apply intr_disable_eq]. Qed.

Lemma set_if_irq_off m : set_if (IF m) (irq_off m) = m.
Proof.
  unfold irq_off. destruct (IF m) eqn:E; [|by apply set_if_id].
  unfold set_if, irq_on. rewrite IF_clearbit. simpl. rewrite setbit_clearbit_id by done.
  by destruct m.
Qed.
