(* ===== verification/Str.v ===== *)
(** * C strings and memory blocks: [lib/string.c]

    Every function runs on the byte memory of the machine.  [char] is the
    signed character of the i386 ABI, so comparisons of characters are
    comparisons of [i8] values, and [*str == ch] with a [uint8_t] compares
    an [i8] with a value between 0 and 255.  The loops over a string are
    bounded by a fuel argument; [cstr] strings shorter than the fuel never
    exhaust it. *)
From S2P Require Import Prelude Machine.

(** ** The code *)

(** [while (size-- > 0) *dst++ = value;] *)
Fixpoint memset_loop (size : nat) (dst value : Z) : M mach unit :=
  match size with
  | O => mret tt
  | S size => store8 dst value;; memset_loop size (dst + 1) value
  end.

Definition memset (dst value size : Z) : M mach unit :=
  ASSERT (bool_decide (dst <> 0)) "dst_ != NULL";;
  memset_loop (Z.to_nat size) dst value.

Fixpoint memcpy_loop (size : nat) (dst src : Z) : M mach unit :=
  match size with
  | O => mret tt
  | S size => c ← load8 src; store8 dst c;; memcpy_loop size (dst + 1) (src + 1)
  end.

Definition memcpy (dst src size : Z) : M mach unit :=
  ASSERT (bool_decide (dst <> 0 /\ src <> 0)) "dst_ != NULL && src_ != NULL";;
  memcpy_loop (Z.to_nat size) dst src.

Fixpoint memcmp_loop (size : nat) (a b : Z) : M mach Z :=
  match size with
  | O => mret 0
  | S size =>
      ca ← load8 a; cb ← load8 b;
      if decide (i8 ca <> i8 cb)
      then mret (if decide (i8 ca > i8 cb) then 1 else -1)
      else memcmp_loop size (a + 1) (b + 1)
  end.

Definition memcmp (a b size : Z) : M mach Z :=
  ASSERT (bool_decide (a <> 0 \/ b <> 0)) "a != NULL || b != NULL";;
  memcmp_loop (Z.to_nat size) a b.

(** The copying loop: a character is stored, then tested. *)
Fixpoint strcpy_loop (fuel : nat) (dst src : Z) : M mach unit :=
  match fuel with
  | O => no_fuel
  | S fuel =>
      c ← load8 src; store8 dst c;;
      if decide (c <> 0) then strcpy_loop fuel (dst + 1) (src + 1) else mret tt
  end.

Definition strcpy (fuel : nat) (dst src : Z) : M mach Z :=
  ASSERT (bool_decide (dst <> 0 /\ src <> 0)) "dst_ != NULL && src_ != NULL";;
  strcpy_loop fuel dst src;; mret dst.

(** The empty loop over [p++]: the pointer one past the terminator. *)
Fixpoint skip_str (fuel : nat) (p : Z) : M mach Z :=
  match fuel with
  | O => no_fuel
  | S fuel =>
      c ← load8 p;
      if decide (c <> 0) then skip_str fuel (p + 1) else mret (p + 1)
  end.

Definition strlen (fuel : nat) (str : Z) : M mach Z :=
  ASSERT (bool_decide (str <> 0)) "str != NULL";;
  p ← skip_str fuel str;
  mret (u32 (p - str - 1)).

Fixpoint strcmp_loop (fuel : nat) (a b : Z) : M mach Z :=
  match fuel with
  | O => no_fuel
  | S fuel =>
      ca ← load8 a; cb ← load8 b;
      if decide (i8 ca <> 0 /\ i8 ca = i8 cb)
      then strcmp_loop fuel (a + 1) (b + 1)
      else mret (if decide (i8 ca < i8 cb) then -1
                 else if decide (i8 ca > i8 cb) then 1 else 0)
  end.

Definition strcmp (fuel : nat) (a b : Z) : M mach Z :=
  ASSERT (bool_decide (a <> 0 /\ b <> 0)) "a != NULL && b != NULL";;
  strcmp_loop fuel a b.

Fixpoint strchr_loop (fuel : nat) (str ch : Z) : M mach Z :=
  match fuel with
  | O => no_fuel
  | S fuel =>
      c ← load8 str;
      if decide (c <> 0) then
        if decide (i8 c = ch) then mret str else strchr_loop fuel (str + 1) ch
      else mret 0
  end.

Definition strchr (fuel : nat) (str ch : Z) : M mach Z :=
  ASSERT (bool_decide (str <> 0)) "str != NULL";;
  strchr_loop fuel str ch.

Fixpoint strrchr_loop (fuel : nat) (str ch last_char : Z) : M mach Z :=
  match fuel with
  | O => no_fuel
  | S fuel =>
      c ← load8 str;
      if decide (c <> 0) then
        strrchr_loop fuel (str + 1) ch (if decide (i8 c = ch) then str else last_char)
      else mret last_char
  end.

Definition strrchr (fuel : nat) (str ch : Z) : M mach Z :=
  ASSERT (bool_decide (str <> 0)) "str !=NULL";;
  strrchr_loop fuel str ch 0.

Definition strcat (fuel : nat) (dst src : Z) : M mach Z :=
  ASSERT (bool_decide (dst <> 0 /\ src <> 0)) "dst_ != NULL && src_ != NULL";;
  str ← skip_str fuel dst;
  strcpy_loop fuel (str - 1) src;;
  mret dst.

Fixpoint strchrs_loop (fuel : nat) (p ch ch_cnt : Z) : M mach Z :=
  match fuel with
  | O => no_fuel
  | S fuel =>
      c ← load8 p;
      if decide (c <> 0) then
        strchrs_loop fuel (p + 1) ch (if decide (i8 c = ch) then u32 (ch_cnt + 1) else ch_cnt)
      else mret ch_cnt
  end.

Definition strchrs (fuel : nat) (str ch : Z) : M mach Z :=
  ASSERT (bool_decide (str <> 0)) "str != NULL";;
  strchrs_loop fuel str ch 0.

(** ** Strings in memory *)

(** The characters [s], none of them NUL, lie at [a] followed by a NUL. *)
Fixpoint cstr (r : gmap Z Z) (a : Z) (s : list Z) : Prop :=
  match s with
  | [] => ld8 r a = 0
  | c :: s => ld8 r a = c /\ c <> 0 /\ cstr r (a + 1) s
  end.

Lemma cstr_agree r r' a s :
  agree (fun x => a <= x <= a + Z.of_nat (length s)) r r' -> cstr r a s -> cstr r' a s.
Proof.
  revert a. induction s as [|c s IH]; intros a Hag; simpl in *.
  - intros <-. apply Hag. lia.
  - intros (<- & Hc & Hs). split_and!; [apply Hag; lia|done|].
    apply IH; [|done]. eapply agree_weaken; [|exact Hag]. simpl. lia.
Qed.

Lemma cstr_bytes r a s : cstr r a s -> Forall (fun c => 0 < c < 256) s.
Proof.
  revert a. induction s as [|c s IH]; intros a; simpl; [by constructor|].
  intros (<- & Hc & Hs). constructor; [|by eapply IH].
  pose proof (ld8_range r a). lia.
Qed.

Lemma cstr_inj r a s1 s2 : cstr r a s1 -> cstr r a s2 -> s1 = s2.
Proof.
  revert a s2. induction s1 as [|c s1 IH]; intros a [|d s2]; simpl.
  - done.
  - intros ? (? & ? & ?). congruence.
  - intros (? & ? & ?) ?. congruence.
  - intros (<- & ? & ?) (<- & ? & ?). f_equal. eauto.
Qed.

(** [memset] and [memcpy] as functions on the memory. *)
Fixpoint ram_fill (r : gmap Z Z) (a v : Z) (n : nat) : gmap Z Z :=
  match n with O => r | S n => ram_fill (st8 r a v) (a + 1) v n end.

Lemma memset_loop_eq n dst v m :
  memset_loop n dst v m = Ok (tt, set_ram (ram_fill (ram m) dst v n) m).
Proof.
  revert dst m. induction n as [|n IH]; intros dst m; simpl; [by destruct m|].
  mstep. by rewrite IH.
Qed.

Lemma ld8_ram_fill r a v n b :
  ld8 (ram_fill r a v n) b =
  if decide (a <= b < a + Z.of_nat n) then u8 v else ld8 r b.
Proof.
  revert r a. induction n as [|n IH]; intros r a; simpl.
  - case_decide; [lia|done].
  - rewrite IH, ld8_st8. repeat case_decide; try lia; done.
Qed.

Lemma ld32_ram_fill0 r a n b :
  a <= b -> b + 4 <= a + Z.of_nat n -> ld32 (ram_fill r a 0 n) b = 0.
Proof.
  intros. unfold ld32. rewrite !ld8_ram_fill.
  repeat (case_decide; [|lia]). done.
Qed.

Lemma memset_eq dst v size m :
  dst <> 0 ->
  memset dst v size m = Ok (tt, set_ram (ram_fill (ram m) dst v (Z.to_nat size)) m).
Proof.
  intros. unfold memset. rewrite bool_decide_true by done.
  mstep. apply memset_loop_eq.
Qed.

Fixpoint ram_copy (r : gmap Z Z) (dst src : Z) (n : nat) : gmap Z Z :=
  match n with
  | O => r
  | S n => ram_copy (st8 r dst (ld8 r src)) (dst + 1) (src + 1) n
  end.

Lemma memcpy_loop_eq n dst src m :
  memcpy_loop n dst src m = Ok (tt, set_ram (ram_copy (ram m) dst src n) m).
Proof.
  revert dst src m. induction n as [|n IH]; intros dst src m; simpl; [by destruct m|].
  mstep. mstep. by rewrite IH.
Qed.

Lemma ld8_ram_copy r dst src n b :
  (dst <= src \/ src + Z.of_nat n <= dst) ->
  ld8 (ram_copy r dst src n) b =
  if decide (dst <= b < dst + Z.of_nat n) then ld8 r (src + (b - dst)) else ld8 r b.
Proof.
  revert r dst src. induction n as [|n IH]; intros r dst src Hov; simpl.
  - case_decide; [lia|done].
  - rewrite IH by lia. rewrite !ld8_st8. 
    repeat case_decide; try lia; rewrite ?(u8_id _ (ld8_range _ _)); f_equal; lia.
Qed.

Lemma memcpy_eq dst src size m :
  dst <> 0 -> src <> 0 ->
  memcpy dst src size m = Ok (tt, set_ram (ram_copy (ram m) dst src (Z.to_nat size)) m).
Proof.
  intros. unfold memcpy. rewrite bool_decide_true by done.
  mstep. apply memcpy_loop_eq.
Qed.

(** ** Strings: the functions against their specifications *)

Lemma cstr_ext r r' a b s :
  (forall i, 0 <= i <= Z.of_nat (length s) -> ld8 r' (b + i) = ld8 r (a + i)) ->
  cstr r a s -> cstr r' b s.
Proof.
  revert a b. induction s as [|c s IH]; intros a b Hext; simpl in *.
  - intros <-. specialize (Hext 0). rewrite !Z.add_0_r in Hext. apply Hext. lia.
  - intros (<- & Hc & Hs). split_and!; [|done|].
    + specialize (Hext 0). rewrite !Z.add_0_r in Hext. apply Hext. lia.
    + eapply IH; [|done]. intros i Hi.
      replace (b + 1 + i) with (b + (i + 1)) by lia.
      replace (a + 1 + i) with (a + (i + 1)) by lia.
      apply Hext. lia.
Qed.

Lemma cstr_app r a s1 s2 :
  cstr r a (s1 ++ s2) <->
  (forall i c, s1 !! i = Some c -> ld8 r (a + Z.of_nat i) = c /\ c <> 0) /\
  cstr r (a + Z.of_nat (length s1)) s2.
Proof.
  revert a. induction s1 as [|c s1 IH]; intros a; simpl.
  - rewrite Z.add_0_r. split; [|by intros [_ ?]]. intros. split; [|done].
    intros i d Hi. done.
  - rewrite IH. replace (a + 1 + Z.of_nat (length s1)) with (a + Z.of_nat (S (length s1))) by lia.
    split.
    + intros (Hc & Hne & Hi & Hs). split; [|done]. intros [|i] d; simpl.
      * intros [= <-]. by rewrite Z.add_0_r.
      * intros Hd. destruct (Hi i d Hd) as [<- ?]. split; [f_equal; lia|done].
    + intros [Hi Hs].
      destruct (Hi 0%nat c) as [Hc Hne]; [done|]. rewrite Z.add_0_r in Hc.
      split_and!; [done..| |done]. intros i d Hd.
      destruct (Hi (S i) d Hd) as [<- ?]. split; [f_equal; lia|done].
Qed.

Lemma skip_str_spec n p s m :
  cstr (ram m) p s -> (length s < n)%nat ->
  skip_str n p m = Ok (p + Z.of_nat (length s) + 1, m).
Proof.
  revert p s. induction n as [|n IH]; intros p s Hs Hn; [lia|].
  destruct s as [|c s]; simpl in *; mstep.
  - rewrite Hs. apply Ok_val. lia.
  - destruct Hs as (-> & Hc & Hs). rewrite decide_True by done.
    erewrite IH by (done || lia). apply Ok_val. lia.
Qed.

Lemma strlen_spec n p s m :
  p <> 0 -> cstr (ram m) p s -> (length s < n)%nat ->
  strlen n p m = Ok (u32 (Z.of_nat (length s)), m).
Proof.
  intros Hp Hs Hn. unfold strlen. rewrite bool_decide_true by done. mstep.
  erewrite (bind_Ok (skip_str n p)) by (by apply skip_str_spec).
  apply Ok_val. f_equal. lia.
Qed.

Lemma strcpy_loop_spec n dst src s m :
  cstr (ram m) src s -> (length s < n)%nat ->
  (dst <= src \/ src + Z.of_nat (length s) < dst) ->
  strcpy_loop n dst src m = Ok (tt, set_ram (ram_copy (ram m) dst src (S (length s))) m).
Proof.
  revert dst src s m. induction n as [|n IH]; intros dst src s m Hs Hn Hov; [lia|].
  destruct s as [|c s]; simpl in *; mstep; mstep.
  - by rewrite Hs.
  - destruct Hs as (-> & Hc & Hs). rewrite decide_True by done.
    erewrite IH with (s := s); [done| |lia|lia].
    eapply cstr_agree; [|done]. apply agree_st8. lia.
Qed.

Lemma strcpy_eq n dst src s m :
  dst <> 0 -> src <> 0 -> cstr (ram m) src s -> (length s < n)%nat ->
  (dst <= src \/ src + Z.of_nat (length s) < dst) ->
  strcpy n dst src m = Ok (dst, set_ram (ram_copy (ram m) dst src (S (length s))) m).
Proof.
  intros. unfold strcpy. rewrite bool_decide_true by done. mstep.
  erewrite (bind_Ok (strcpy_loop n dst src)) by (by apply strcpy_loop_spec). done.
Qed.

(** [strcpy] copies the string and its terminator and nothing else. *)
Theorem strcpy_spec n dst src s m :
  dst <> 0 -> src <> 0 -> cstr (ram m) src s -> (length s < n)%nat ->
  (dst <= src \/ src + Z.of_nat (length s) < dst) ->
  exists r', strcpy n dst src m = Ok (dst, set_ram r' m) /\ cstr r' dst s /\
    agree (fun x => ~ dst <= x <= dst + Z.of_nat (length s)) (ram m) r'.
Proof.
  intros Hd Hsrc Hs Hn Hov.
  exists (ram_copy (ram m) dst src (S (length s))). split_and!.
  - by apply strcpy_eq.
  - eapply cstr_ext; [|exact Hs]. intros i Hi.
    rewrite ld8_ram_copy by lia. rewrite decide_True by lia. f_equal. lia.
  - intros x Hx. rewrite ld8_ram_copy by lia. rewrite decide_False by lia. done.
Qed.

(** The comparison [strcmp] computes, on the characters: the first place
    where the strings differ, the terminator included, decides, and the
    characters compare as signed bytes. *)
Fixpoint str_order (s1 s2 : list Z) : Z :=
  match s1, s2 with
  | [], [] => 0
  | [], d :: _ => Z.sgn (0 - i8 d)
  | c :: _, [] => Z.sgn (i8 c)
  | c :: s1, d :: s2 => if decide (c = d) then str_order s1 s2 else Z.sgn (i8 c - i8 d)
  end.

Lemma i8_inj c d : 0 <= c < 256 -> 0 <= d < 256 -> i8 c = i8 d -> c = d.
Proof. zmod_lia. Qed.

Lemma i8_nonzero c : 0 < c < 256 -> i8 c <> 0.
Proof. zmod_lia. Qed.

Lemma sgn_cases x y :
  (if decide (x < y) then -1 else if decide (x > y) then 1 else 0) = Z.sgn (x - y).
Proof. repeat case_decide; lia. Qed.

Lemma strcmp_loop_spec n a b s1 s2 m :
  cstr (ram m) a s1 -> cstr (ram m) b s2 -> (length s1 < n)%nat ->
  strcmp_loop n a b m = Ok (str_order s1 s2, m).
Proof.
  revert a b s1 s2. induction n as [|n IH]; intros a b s1 s2 H1 H2 Hn; [lia|].
  pose proof (cstr_bytes _ _ _ H1) as B1. pose proof (cstr_bytes _ _ _ H2) as B2.
  destruct s1 as [|c s1], s2 as [|d s2]; simpl in *; mstep; mstep; rewrite sgn_cases.
  - by rewrite H1, H2.
  - destruct H2 as (-> & _). rewrite H1. done.
  - destruct H1 as (-> & _). rewrite H2. change (i8 0) with 0.
    inversion B1; subst. rewrite decide_False; [by rewrite Z.sub_0_r|].
    intros [? ?]. by apply (i8_nonzero c).
  - destruct H1 as (-> & Hc & H1), H2 as (-> & Hd & H2).
    inversion B1; inversion B2; subst. destruct (decide (c = d)) as [->|Hne].
    + rewrite decide_True by (split; [by apply i8_nonzero|done]).
      apply IH; [done..|lia].
    + rewrite decide_False; [done|]. intros [_ Heq]. apply Hne, i8_inj; [lia..|done].
Qed.

Lemma str_order_range s1 s2 : str_order s1 s2 = -1 \/ str_order s1 s2 = 0 \/ str_order s1 s2 = 1.
Proof.
  revert s2. induction s1 as [|c s1 IH]; intros [|d s2]; simpl; try lia.
  case_decide; [apply IH|lia].
Qed.

Lemma str_order_antisym s1 s2 : str_order s2 s1 = - str_order s1 s2.
Proof.
  revert s2. induction s1 as [|c s1 IH]; intros [|d s2]; simpl; try lia.
  destruct (decide (c = d)) as [->|Hne].
  - rewrite decide_True by done. apply IH.
  - rewrite decide_False by done. lia.
Qed.

Lemma str_order_zero s1 s2 :
  Forall (fun c => 0 < c < 256) s1 -> Forall (fun c => 0 < c < 256) s2 ->
  str_order s1 s2 = 0 <-> s1 = s2.
Proof.
  intros H1. revert s2. induction H1 as [|c s1 Hc H1 IH]; intros s2 H2;
    (destruct H2 as [|d s2 Hd H2]); simpl.
  - done.
  - pose proof (i8_nonzero d Hd). split; [lia|done].
  - pose proof (i8_nonzero c Hc). split; [lia|done].
  - destruct (decide (c = d)) as [->|Hne].
    + rewrite IH by done. split; [by intros ->|by intros [= ->]].
    + split; [|congruence]. intros Hs. destruct Hne. apply i8_inj; lia.
Qed.

Lemma strcmp_eq n a b s1 s2 m :
  a <> 0 -> b <> 0 -> cstr (ram m) a s1 -> cstr (ram m) b s2 -> (length s1 < n)%nat ->
  strcmp n a b m = Ok (str_order s1 s2, m).
Proof.
  intros. unfold strcmp. rewrite bool_decide_true by done. mstep.
  by apply strcmp_loop_spec.
Qed.

(** Positions of a character, compared as [*str == ch] compares it. *)
Definition hits (ch c : Z) : Prop := i8 c = ch.
#[export] Instance hits_dec ch c : Decision (hits ch c).
Proof. unfold hits. apply _. Defined.

Lemma strchr_loop_spec n str ch s m :
  cstr (ram m) str s -> (length s < n)%nat ->
  strchr_loop n str ch m =
  Ok (match list_find (hits ch) s with Some (i, _) => str + Z.of_nat i | None => 0 end, m).
Proof.
  revert str s. induction n as [|n IH]; intros str s Hs Hn; [lia|].
  destruct s as [|c s]; simpl in *; mstep.
  - by rewrite Hs.
  - destruct Hs as (-> & Hc & Hs). rewrite decide_True by done.
    destruct (decide (hits ch c)) as [Hh|Hh].
    { rewrite decide_True by done. apply Ok_val. lia. }
    rewrite decide_False by done.
    rewrite IH with (s := s) by (done || lia). apply Ok_val.
    destruct (list_find _ s) as [[i d]|]; simpl; lia.
Qed.

(** [strchr] answers the first position of the character, or NULL. *)
Lemma strchr_spec n str ch s m :
  str <> 0 -> cstr (ram m) str s -> (length s < n)%nat ->
  strchr n str ch m =
  Ok (match list_find (hits ch) s with Some (i, _) => str + Z.of_nat i | None => 0 end, m).
Proof.
  intros. unfold strchr. rewrite bool_decide_true by done. mstep.
  by apply strchr_loop_spec.
Qed.

Lemma strrchr_loop_spec n str ch last s m :
  cstr (ram m) str s -> (length s < n)%nat ->
  strrchr_loop n str ch last m =
  Ok (match list_find (hits ch) (reverse s) with
      | Some (i, _) => str + Z.of_nat (length s) - 1 - Z.of_nat i
      | None => last end, m).
Proof.
  revert str s last. induction n as [|n IH]; intros str s last Hs Hn; [lia|].
  destruct s as [|c s]; simpl in *; mstep.
  - by rewrite Hs.
  - destruct Hs as (-> & Hc & Hs). rewrite decide_True by done.
    rewrite IH with (s := s) by (done || lia). apply Ok_val.
    rewrite reverse_cons. destruct (list_find _ (reverse s)) as [[i d]|] eqn:E.
    + erewrite list_find_app_l by done. simpl. lia.
    + rewrite list_find_app_r by done. simpl. rewrite length_reverse.
      destruct (decide (hits ch c)) as [Hh|Hh]; simpl.
      * rewrite decide_True by done. lia.
      * by rewrite decide_False.
Qed.

(** [strrchr] answers the last position of the character, or NULL; the
    comparison is of a signed character with an unsigned byte. *)
Theorem strrchr_spec n str ch s m :
  str <> 0 -> cstr (ram m) str s -> (length s < n)%nat ->
  strrchr n str ch m =
  Ok (match list_find (hits ch) (reverse s) with
      | Some (i, _) => str + Z.of_nat (length s) - 1 - Z.of_nat i
      | None => 0 end, m).
Proof.
  intros. unfold strrchr. rewrite bool_decide_true by done. mstep.
  by apply strrchr_loop_spec.
Qed.

Lemma strchrs_loop_spec n p ch cnt s m :
  cstr (ram m) p s -> (length s < n)%nat -> cnt = u32 cnt ->
  strchrs_loop n p ch cnt m =
  Ok (u32 (cnt + Z.of_nat (length (filter (hits ch) s))), m).
Proof.
  revert p s cnt. induction n as [|n IH]; intros p s cnt Hs Hn Hc0; [lia|].
  destruct s as [|c s]; simpl in *; mstep.
  - rewrite Hs. apply Ok_val. by rewrite Z.add_0_r.
  - destruct Hs as (-> & Hc & Hs). rewrite decide_True by done.
    rewrite IH with (s := s);
      [|done|lia|case_decide; [by rewrite u32_idem|done]].
    apply Ok_val. rewrite filter_cons. destruct (decide (hits ch c)) as [Hh|Hh].
    + rewrite decide_True by done. simpl. zmod_lia.
    + by rewrite decide_False.
Qed.

(** [strcat] appends: the destination holds the concatenation. *)
Theorem strcat_spec n dst src s1 s2 m :
  dst <> 0 -> src <> 0 -> cstr (ram m) dst s1 -> cstr (ram m) src s2 ->
  (length s1 < n)%nat -> (length s2 < n)%nat ->
  (dst + Z.of_nat (length s1) + Z.of_nat (length s2) < src \/
   src + Z.of_nat (length s2) < dst) ->
  exists r', strcat n dst src m = Ok (dst, set_ram r' m) /\ cstr r' dst (s1 ++ s2).
Proof.
  intros Hd Hs H1 H2 Hn1 Hn2 Hov.
  set (end1 := dst + Z.of_nat (length s1)).
  exists (ram_copy (ram m) end1 src (S (length s2))). split.
  - unfold strcat. rewrite bool_decide_true by done. mstep.
    erewrite (bind_Ok (skip_str n dst)) by (by apply skip_str_spec).
    replace (dst + Z.of_nat (length s1) + 1 - 1) with end1 by lia.
    erewrite (bind_Ok (strcpy_loop n end1 src)); [done|].
    apply strcpy_loop_spec; [done..|lia].
  - apply cstr_app. split.
    + intros i c Hi. pose proof (lookup_lt_Some _ _ _ Hi).
      rewrite <- (app_nil_r s1) in H1. apply cstr_app in H1 as [H1 _].
      rewrite ld8_ram_copy by lia. rewrite decide_False by lia. by apply H1.
    + eapply cstr_ext; [|exact H2]. intros i Hi.
      rewrite ld8_ram_copy by lia. rewrite decide_True by lia. f_equal. lia.
Qed.

(** [strcmp] answers 0 for equal strings only, 1 or -1 otherwise, and the
    opposite with its arguments exchanged. *)
Theorem strcmp_spec n a b s1 s2 m :
  a <> 0 -> b <> 0 -> cstr (ram m) a s1 -> cstr (ram m) b s2 ->
  (length s1 < n)%nat -> (length s2 < n)%nat ->
  exists c, strcmp n a b m = Ok (c, m) /\ strcmp n b a m = Ok (- c, m) /\
    (c = 0 <-> s1 = s2) /\ (c = -1 \/ c = 0 \/ c = 1).
Proof.
  intros Ha Hb H1 H2 Hn1 Hn2. exists (str_order s1 s2).
  split; [by apply strcmp_eq|]. split; [rewrite <- str_order_antisym; by apply strcmp_eq|].
  split; [|apply str_order_range]. apply str_order_zero; by eapply cstr_bytes.
Qed.

(** ** Instances *)

(** A memory with the given bytes from an address on, zero elsewhere. *)
Fixpoint bytes_at (a : Z) (s : list Z) (r : gmap Z Z) : gmap Z Z :=
  match s with [] => r | c :: s => bytes_at (a + 1) s (st8 r a c) end.

(** "ab" at 16 and "ba" at 32. *)
Definition demo_mach : mach :=
  Mach (bytes_at 16 [97; 98] (bytes_at 32 [98; 97] ∅)) 0x202 [] [].

Lemma demo_ab : cstr (ram demo_mach) 16 [97; 98].
Proof. by vm_compute. Qed.
Lemma demo_ba : cstr (ram demo_mach) 32 [98; 97].
Proof. by vm_compute. Qed.

Lemma strcpy_spec_witness :
  exists r', strcpy 5 64 16 demo_mach = Ok (64, set_ram r' demo_mach) /\ cstr r' 64 [97; 98] /\
    agree (fun x => ~ 64 <= x <= 64 + 2) (ram demo_mach) r'.
Proof. apply (strcpy_spec 5 64 16 [97; 98]); [done|done|apply demo_ab|simpl; lia|simpl; lia]. Defined.

Lemma strcmp_spec_witness :
  exists c, strcmp 5 16 32 demo_mach = Ok (c, demo_mach) /\
    strcmp 5 32 16 demo_mach = Ok (- c, demo_mach) /\
    (c = 0 <-> [97; 98] = [98; 97]) /\ (c = -1 \/ c = 0 \/ c = 1).
Proof. apply strcmp_spec; [done|done|apply demo_ab|apply demo_ba|simpl; lia|simpl; lia]. Defined.

Lemma strrchr_spec_witness :
  strrchr 5 16 97 demo_mach = Ok (16, demo_mach).
Proof. apply (strrchr_spec 5 16 97 [97; 98]); [done|apply demo_ab|simpl; lia]. Defined.

Lemma strcat_spec_witness :
  exists r', strcat 5 16 32 demo_mach = Ok (16, set_ram r' demo_mach) /\
    cstr r' 16 [97; 98; 98; 97].
Proof.
  apply (strcat_spec 5 16 32 [97; 98] [98; 97]);
    [done|done|apply demo_ab|apply demo_ba|simpl; lia..].
Defined.
