(* ===== verification/Bitmap.v ===== *)
(** * Allocation bitmaps: [lib/kernel/bitmap.c]

    A bitmap is a length in bytes and a pointer to its bytes in memory; the
    functions read and write the memory at that pointer, beyond its end too
    when the code does. *)
From S2P Require Import Prelude Machine Str.

Definition BITMAP_MASK : Z := 1.

Record bitmap := Bitmap {
  btmp_bytes_len : Z;
  bits : Z
}.

Definition bitmap_init (btmp : bitmap) : M mach unit :=
  memset (bits btmp) 0 (btmp_bytes_len btmp).

(** The [int] the C function returns: zero when the bit is clear. *)
Definition bitmap_scan_test (btmp : bitmap) (bit_idx : Z) : M mach Z :=
  let byte_idx := bit_idx / 8 in
  let bit_odd := bit_idx mod 8 in
  v ← load8 (bits btmp + byte_idx);
  mret (Z.land v (Z.shiftl BITMAP_MASK bit_odd)).

(** The first loop of [bitmap_scan]; the byte is read before the bound is
    tested. *)
Fixpoint scan_byte (fuel : nat) (btmp : bitmap) (idx_byte : Z) : M mach Z :=
  match fuel with
  | O => no_fuel
  | S fuel =>
      v ← load8 (bits btmp + idx_byte);
      if decide (0xff = v /\ idx_byte < btmp_bytes_len btmp)
      then scan_byte fuel btmp (u32 (idx_byte + 1))
      else mret idx_byte
  end.

(** The second loop: the first clear bit of the byte. *)
Fixpoint scan_bit (fuel : nat) (btmp : bitmap) (idx_byte idx_bit : Z) : M mach Z :=
  match fuel with
  | O => no_fuel
  | S fuel =>
      v ← load8 (bits btmp + idx_byte);
      if decide (Z.land (u8 (Z.shiftl BITMAP_MASK idx_bit)) v <> 0)
      then scan_bit fuel btmp idx_byte (idx_bit + 1)
      else mret idx_bit
  end.

(** The third loop, [while (bit_left-- > 0)]: counts consecutive clear bits. *)
Fixpoint scan_run (bit_left : nat) (btmp : bitmap) (cnt count next_bit : Z) : M mach Z :=
  match bit_left with
  | O => mret (-1)
  | S bit_left =>
      t ← bitmap_scan_test btmp next_bit;
      let count := if decide (t = 0) then u32 (count + 1) else 0 in
      if decide (count = cnt) then mret (i32 (u32 (next_bit - cnt + 1)))
      else scan_run bit_left btmp cnt count (u32 (next_bit + 1))
  end.

Definition bitmap_scan (btmp : bitmap) (cnt : Z) : M mach Z :=
  let len := btmp_bytes_len btmp in
  idx_byte ← scan_byte (S (Z.to_nat len)) btmp 0;
  ASSERT (bool_decide (idx_byte < len)) "idx_byte <  btmp->btmp_bytes_len";;
  if decide (idx_byte = len) then mret (-1)
  else
    idx_bit ← scan_bit 9 btmp idx_byte 0;
    let bit_idx_start := i32 (u32 (idx_byte * 8 + idx_bit)) in
    if decide (cnt = 1) then mret bit_idx_start
    else
      let bit_left := u32 (len * 8 - bit_idx_start) in
      let next_bit := u32 (bit_idx_start + 1) in
      scan_run (Z.to_nat bit_left) btmp cnt 1 next_bit.

Definition bitmap_set (btmp : bitmap) (bit_idx value : Z) : M mach unit :=
  ASSERT (bool_decide (value = 0 \/ value = 1)) "(value==0)||(value==1)";;
  let byte_idx := bit_idx / 8 in
  let bit_odd := bit_idx mod 8 in
  v ← load8 (bits btmp + byte_idx);
  if decide (value <> 0)
  then store8 (bits btmp + byte_idx) (Z.lor v (Z.shiftl BITMAP_MASK bit_odd))
  else store8 (bits btmp + byte_idx) (Z.land v (Z.lnot (Z.shiftl BITMAP_MASK bit_odd))).

(** ** Bits of a memory *)

(** Bit [i] of the bitmap whose bytes start at [base]. *)
Definition rbit (r : gmap Z Z) (base i : Z) : bool :=
  Z.testbit (ld8 r (base + i / 8)) (i mod 8).

Definition free_run (f : Z -> bool) (q cnt : Z) : Prop :=
  forall i, q <= i < q + cnt -> f i = false.

(** What [bitmap_scan] answers: the first run of [cnt] clear bits.  A run of
    two bits or more may end one bit past the bitmap. *)
Definition scan_result (f : Z -> bool) (len cnt r : Z) : Prop :=
  (r = -1 /\ forall q, 0 <= q -> q + cnt <= 8 * len + 1 -> ~ free_run f q cnt) \/
  (0 <= r /\ r + cnt <= 8 * len + (if decide (cnt = 1) then 0 else 1) /\
   free_run f r cnt /\ forall q, 0 <= q < r -> ~ free_run f q cnt).

(** Bitmaps small enough for an [int] to index. *)
Definition bitmap_wf (b : bitmap) : Prop :=
  0 <= btmp_bytes_len b /\ 8 * btmp_bytes_len b < 2147483647.

Lemma testbit_byte_high x n : 0 <= x < 256 -> 8 <= n -> Z.testbit x n = false.
Proof.
  intros Hx Hn. apply Z.testbit_false; [lia|].
  rewrite Z.div_small; [done|]. split; [lia|].
  apply Z.lt_le_trans with (2 ^ 8); [lia|]. apply Z.pow_le_mono_r; lia.
Qed.

Lemma land_bit_zero x i : 0 <= i -> Z.land x (Z.shiftl 1 i) = 0 <-> Z.testbit x i = false.
Proof.
  intros Hi. split.
  - intros H. apply (f_equal (fun z => Z.testbit z i)) in H.
    rewrite Z.land_spec, Z.shiftl_1_l, Z.pow2_bits_true, andb_true_r, Z.bits_0 in H by lia. done.
  - intros H. apply Z.bits_inj'. intros n Hn.
    rewrite Z.land_spec, Z.shiftl_1_l, Z.pow2_bits_eqb, Z.bits_0 by lia.
    destruct (Z.eqb_spec i n) as [<-|]; [by rewrite H|apply andb_false_r].
Qed.

Lemma u8_shiftl_bit i : 0 <= i < 8 -> u8 (Z.shiftl 1 i) = Z.shiftl 1 i.
Proof.
  intros Hi. apply u8_id. rewrite Z.shiftl_1_l. split; [lia|].
  change 256 with (2 ^ 8). apply Z.pow_lt_mono_r; lia.
Qed.

Lemma byte_not_full x : 0 <= x < 256 -> x <> 255 -> exists j, 0 <= j < 8 /\ Z.testbit x j = false.
Proof.
  intros Hx Hne.
  destruct (decide (Forall (fun j => Z.testbit x j = true) (seqZ 0 8))) as [Hall|Hex].
  - destruct Hne. apply Z.bits_inj'. intros n Hn. change 255 with (Z.ones 8).
    destruct (decide (n < 8)).
    + rewrite Z.ones_spec_low by lia.
      rewrite Forall_forall in Hall. apply Hall, elem_of_seqZ. lia.
    + rewrite testbit_byte_high, Z.ones_spec_high by lia. done.
  - apply not_Forall_Exists in Hex; [|apply _].
    apply Exists_exists in Hex as (j & Hj%elem_of_seqZ & Hf). exists j.
    split; [lia|]. by apply not_true_is_false.
Qed.

Lemma rbit_agree (P : Z -> Prop) r r' base i :
  agree P r r' -> P (base + i / 8) -> rbit r' base i = rbit r base i.
Proof. intros H HP. unfold rbit. by rewrite H. Qed.

(** ** [bitmap_set], [bitmap_scan_test], [bitmap_init] *)

(** The byte [bitmap_set] writes. *)
Definition ram_set_bit (r : gmap Z Z) (base i : Z) (b : bool) : gmap Z Z :=
  let a := base + i / 8 in
  st8 r a (if b then Z.lor (ld8 r a) (Z.shiftl 1 (i mod 8))
           else Z.land (ld8 r a) (Z.lnot (Z.shiftl 1 (i mod 8)))).

Lemma bitmap_set_eq b i v m :
  v = 0 \/ v = 1 ->
  bitmap_set b i v m = Ok (tt, set_ram (ram_set_bit (ram m) (bits b) i (bool_decide (v = 1))) m).
Proof. unfold bitmap_set. intros [-> | ->]; done. Qed.

Lemma testbit_u8 x j : 0 <= j < 8 -> Z.testbit (u8 x) j = Z.testbit x j.
Proof. intros. unfold u8. change 256 with (2 ^ 8). apply Z.mod_pow2_bits_low. lia. Qed.

Lemma rbit_set r base i j b :
  0 <= i -> 0 <= j ->
  rbit (ram_set_bit r base i b) base j = if decide (i = j) then b else rbit r base j.
Proof.
  intros Hi Hj. unfold rbit, ram_set_bit.
  assert (0 <= i mod 8 < 8) by (apply Z.mod_pos_bound; lia).
  assert (0 <= j mod 8 < 8) by (apply Z.mod_pos_bound; lia).
  rewrite ld8_st8. destruct (decide (base + i / 8 = base + j / 8)) as [Heq|Hne].
  - rewrite testbit_u8 by done. rewrite <- Heq. destruct (decide (i = j)) as [->|Hij].
    + destruct b.
      * rewrite Z.lor_spec, Z.shiftl_1_l, Z.pow2_bits_true by lia. apply orb_true_r.
      * rewrite Z.land_spec, Z.lnot_spec, Z.shiftl_1_l, Z.pow2_bits_true by lia.
        apply andb_false_r.
    + assert (i mod 8 <> j mod 8) by (intros ?; apply Hij; Z.div_mod_to_equations; lia).
      destruct b.
      * rewrite Z.lor_spec, Z.shiftl_1_l, Z.pow2_bits_false by lia. apply orb_false_r.
      * rewrite Z.land_spec, Z.lnot_spec, Z.shiftl_1_l, Z.pow2_bits_false by lia.
        apply andb_true_r.
  - rewrite decide_False; [done|]. by intros ->.
Qed.

Lemma ram_set_bit_agree r base i b :
  agree (fun a => a <> base + i / 8) r (ram_set_bit r base i b).
Proof. apply agree_st8. naive_solver. Qed.

Lemma bitmap_scan_test_eq b i m :
  exists v, bitmap_scan_test b i m = Ok (v, m) /\ (v = 0 <-> rbit (ram m) (bits b) i = false).
Proof.
  eexists. split; [reflexivity|]. unfold BITMAP_MASK, rbit.
  apply land_bit_zero, Z.mod_pos_bound. lia.
Qed.

(** [bitmap_init] clears every bit and touches only the bitmap's bytes. *)
Lemma bitmap_init_spec b m :
  bits b <> 0 -> 0 <= btmp_bytes_len b ->
  exists r', bitmap_init b m = Ok (tt, set_ram r' m) /\
    (forall i, 0 <= i < 8 * btmp_bytes_len b -> rbit r' (bits b) i = false) /\
    agree (fun a => ~ bits b <= a < bits b + btmp_bytes_len b) (ram m) r'.
Proof.
  intros Hb Hlen. eexists. split; [by apply memset_eq|].
  split.
  - intros i Hi. unfold rbit. rewrite ld8_ram_fill, decide_True; [apply Z.bits_0|].
    Z.div_mod_to_equations; lia.
  - intros a Ha. rewrite ld8_ram_fill, decide_False by lia. done.
Qed.

(** ** [bitmap_scan] *)

Section Scan.
Context (b : bitmap) (m : mach).
Let f : Z -> bool := rbit (ram m) (bits b).
Let len : Z := btmp_bytes_len b.

Lemma full_byte_bits k i :
  ld8 (ram m) (bits b + k) = 255 -> 8 * k <= i < 8 * k + 8 -> f i = true.
Proof.
  intros Hk Hi. unfold f, rbit. replace (i / 8) with k by (Z.div_mod_to_equations; lia).
  rewrite Hk. assert (0 <= i mod 8 < 8) by (apply Z.mod_pos_bound; lia).
  change 255 with (Z.ones 8). apply Z.ones_spec_low. lia.
Qed.

Lemma scan_byte_spec n k :
  bitmap_wf b -> 0 <= k <= len -> (Z.to_nat (len - k) < n)%nat ->
  (forall i, 0 <= i < 8 * k -> f i = true) ->
  exists k', scan_byte n b k m = Ok (k', m) /\ k <= k' <= len /\
    (forall i, 0 <= i < 8 * k' -> f i = true) /\
    (k' < len -> ld8 (ram m) (bits b + k') <> 255).
Proof.
  intros Hwf. unfold bitmap_wf in Hwf. fold len in Hwf.
  revert k. induction n as [|n IH]; intros k Hk Hn Hf; [lia|].
  simpl. mstep. destruct (decide _) as [[Hv Hlt]|Hne].
  - fold len in Hlt. rewrite u32_id by lia.
    destruct (IH (k + 1)) as (k' & Hr & Hk' & Hf' & Hx); [lia|lia| |].
    { intros i Hi. destruct (decide (i < 8 * k)); [apply Hf; lia|].
      apply full_byte_bits with k; [done|lia]. }
    exists k'. split_and!; [done|lia|lia|done|done].
  - exists k. split_and!; [done|lia|lia|done|]. intros Hlt Hv. by apply Hne.
Qed.

Lemma scan_bit_spec n k j :
  0 <= j <= 7 -> (Z.to_nat (8 - j) < n)%nat ->
  (exists j', j <= j' < 8 /\ Z.testbit (ld8 (ram m) (bits b + k)) j' = false) ->
  (forall i, 0 <= i < j -> Z.testbit (ld8 (ram m) (bits b + k)) i = true) ->
  exists j', scan_bit n b k j m = Ok (j', m) /\ j <= j' <= 7 /\
    (forall i, 0 <= i < j' -> Z.testbit (ld8 (ram m) (bits b + k)) i = true) /\
    Z.testbit (ld8 (ram m) (bits b + k)) j' = false.
Proof.
  revert j. induction n as [|n IH]; intros j Hj Hn Hex Hlow; [lia|].
  simpl. mstep. unfold BITMAP_MASK. rewrite u8_shiftl_bit, Z.land_comm by lia.
  destruct (decide _) as [Hv|Hv].
  - rewrite land_bit_zero, not_false_iff_true in Hv by lia.
    destruct Hex as (j1 & Hj1 & Hb1).
    assert (j1 <> j) by congruence.
    destruct (IH (j + 1)) as (j' & Hr & Hj' & Hl & Hb); [lia|lia|by exists j1; split; [lia|]| |].
    { intros i Hi. destruct (decide (i = j)) as [->|]; [done|apply Hlow; lia]. }
    exists j'. split_and!; [done|lia|lia|done|done].
  - apply dec_stable in Hv. rewrite land_bit_zero in Hv by lia.
    exists j. split_and!; [done|lia|lia|done|done].
Qed.

Lemma scan_run_spec n cnt c nb :
  2 <= cnt < 2147483648 -> 0 <= c < cnt -> c <= nb ->
  0 <= nb -> nb + Z.of_nat n < 2147483648 ->
  (forall i, nb - c <= i < nb -> f i = false) ->
  (nb - c = 0 \/ f (nb - c - 1) = true) ->
  (forall q, 0 <= q -> q + cnt <= nb -> ~ free_run f q cnt) ->
  exists r, scan_run n b cnt c nb m = Ok (r, m) /\
    ((r = -1 /\ forall q, 0 <= q -> q + cnt <= nb + Z.of_nat n -> ~ free_run f q cnt) \/
     (0 <= r /\ r + cnt <= nb + Z.of_nat n /\ free_run f r cnt /\
      forall q, 0 <= q < r -> ~ free_run f q cnt)).
Proof.
  intros Hcnt. revert c nb.
  induction n as [|n IH]; intros c nb Hc Hcn Hnb Hbnd Hfree Hmax Hnone.
  { exists (-1). split; [done|]. left. split; [done|].
    intros q Hq Hle. apply Hnone; lia. }
  simpl. destruct (bitmap_scan_test_eq b nb m) as (v & Hv & Hiff).
  rewrite (bind_Ok _ _ _ _ _ Hv). fold f in Hiff. rewrite (u32_id (nb + 1)) by lia.
  destruct (decide (v = 0)) as [Hv0|Hv0].
  - apply Hiff in Hv0. rewrite (u32_id (c + 1)) by lia.
    destruct (decide (c + 1 = cnt)) as [Hfin|Hnf].
    + exists (nb - cnt + 1). rewrite (u32_id (nb - cnt + 1)), (i32_id (nb - cnt + 1)) by lia.
      split; [done|]. right. split_and!; [lia|lia| |].
      * intros i Hi. destruct (decide (i = nb)) as [->|]; [done|apply Hfree; lia].
      * intros q Hq. apply Hnone; lia.
    + edestruct (IH (c + 1) (nb + 1)) as (r & Hr & Hpost); [lia..| | | |].
      * intros i Hi. destruct (decide (i = nb)) as [->|]; [done|apply Hfree; lia].
      * by replace (nb + 1 - (c + 1)) with (nb - c) by lia.
      * intros q Hq Hle Hrun. destruct (decide (q + cnt <= nb)); [by eapply Hnone|].
        destruct Hmax as [|Hmax]; [lia|].
        rewrite Hrun in Hmax by lia. done.
      * exists r. split; [done|].
        by replace (nb + 1 + Z.of_nat n) with (nb + Z.of_nat (S n)) in Hpost by lia.
  - rewrite Hiff, not_false_iff_true in Hv0.
    rewrite (decide_False (P := 0 = cnt)) by lia.
    edestruct (IH 0 (nb + 1)) as (r & Hr & Hpost); [lia..| | | |].
    * intros i Hi. lia.
    * right. by replace (nb + 1 - 0 - 1) with nb by lia.
    * intros q Hq Hle Hrun. destruct (decide (q + cnt <= nb)); [by eapply Hnone|].
      rewrite Hrun in Hv0 by lia. done.
    * exists r. split; [done|].
      by replace (nb + 1 + Z.of_nat n) with (nb + Z.of_nat (S n)) in Hpost by lia.
Qed.

(** On a bitmap with a clear bit, [bitmap_scan] answers the first run. *)
Lemma bitmap_scan_spec cnt :
  bitmap_wf b -> 1 <= cnt < 2147483648 ->
  (exists i, 0 <= i < 8 * len /\ f i = false) ->
  exists r, bitmap_scan b cnt m = Ok (r, m) /\ scan_result f len cnt r.
Proof.
  intros Hwf Hcnt (i0 & Hi0 & Hf0). pose proof Hwf as [Hl Hl2]. fold len in Hl, Hl2.
  unfold bitmap_scan. fold len.
  destruct (scan_byte_spec (S (Z.to_nat len)) 0) as (k & Hk & Hkr & Hkf & Hkx);
    [done|lia|lia|lia|].
  rewrite (bind_Ok _ _ _ _ _ Hk).
  assert (k < len).
  { destruct (decide (k = len)) as [->|]; [|lia]. rewrite Hkf in Hf0 by lia. done. }
  rewrite bool_decide_true by done. mstep. rewrite decide_False by lia.
  destruct (byte_not_full (ld8 (ram m) (bits b + k))) as (j0 & Hj0 & Hb0);
    [apply ld8_range|by apply Hkx|].
  destruct (scan_bit_spec 9 k 0) as (j & Hj & Hjr & Hjl & Hjb); [lia|lia|by exists j0|lia|].
  rewrite (bind_Ok _ _ _ _ _ Hj).
  rewrite (u32_id (k * 8 + j)), (i32_id (k * 8 + j)) by lia.
  assert (Hfree : f (k * 8 + j) = false).
  { unfold f, rbit. replace ((k * 8 + j) / 8) with k by (Z.div_mod_to_equations; lia).
    by replace ((k * 8 + j) mod 8) with j by (Z.div_mod_to_equations; lia). }
  assert (Hused : forall i, 0 <= i < k * 8 + j -> f i = true).
  { intros i Hi. destruct (decide (i < 8 * k)); [apply Hkf; lia|].
    unfold f, rbit. replace (i / 8) with k by (Z.div_mod_to_equations; lia).
    apply Hjl. Z.div_mod_to_equations; lia. }
  destruct (decide (cnt = 1)) as [->|Hc1].
  - exists (k * 8 + j). split; [done|]. right. rewrite decide_True by done.
    split_and!; [lia|lia| |].
    + intros i Hi. by replace i with (k * 8 + j) by lia.
    + intros q Hq Hrun. specialize (Hrun q). rewrite Hused in Hrun by lia.
      assert (true = false) by (apply Hrun; lia). done.
  - rewrite (u32_id (len * 8 - (k * 8 + j))), (u32_id (k * 8 + j + 1)) by lia.
    destruct (scan_run_spec (Z.to_nat (len * 8 - (k * 8 + j))) cnt 1 (k * 8 + j + 1))
      as (r & Hr & Hpost); [lia..| | | |].
    + intros i Hi. by replace i with (k * 8 + j) by lia.
    + destruct (decide (k * 8 + j = 0)); [left; lia|right; apply Hused; lia].
    + intros q Hq Hle Hrun. specialize (Hrun q). rewrite Hused in Hrun by lia.
      assert (true = false) by (apply Hrun; lia). done.
    + exists r. split; [done|]. unfold scan_result. rewrite decide_False by done.
      replace (k * 8 + j + 1 + Z.of_nat (Z.to_nat (len * 8 - (k * 8 + j))))
        with (8 * len + 1) in Hpost by lia. done.
Qed.

(** On a bitmap with no clear bit the [ASSERT] fires; the [return -1]
    behind it is never reached. *)
Lemma bitmap_scan_full cnt :
  bitmap_wf b -> (forall i, 0 <= i < 8 * len -> f i = true) ->
  bitmap_scan b cnt m = Panic "idx_byte <  btmp->btmp_bytes_len".
Proof.
  intros Hwf Hall. pose proof Hwf as [Hl Hl2]. fold len in Hl, Hl2.
  unfold bitmap_scan. fold len.
  destruct (scan_byte_spec (S (Z.to_nat len)) 0) as (k & Hk & Hkr & Hkf & Hkx);
    [done|lia|lia|lia|].
  rewrite (bind_Ok _ _ _ _ _ Hk). rewrite bool_decide_false; [done|].
  intros Hlt. destruct (byte_not_full (ld8 (ram m) (bits b + k))) as (j & Hj & Hb);
    [apply ld8_range|by apply Hkx|].
  assert (f (8 * k + j) = false) as Hf.
  { unfold f, rbit. replace ((8 * k + j) / 8) with k by (Z.div_mod_to_equations; lia).
    by replace ((8 * k + j) mod 8) with j by (Z.div_mod_to_equations; lia). }
  rewrite Hall in Hf by lia. done.
Qed.
End Scan.

(** ** Theorems *)

(** C35: On a bitmap with a clear bit, [bitmap_scan] answers the first run of
    [cnt] clear bits, or -1 when there is none; a run of two or more may
    include one bit behind the bitmap, which the code tests. *)
Theorem bitmap_scan_first b m cnt :
  bitmap_wf b -> 1 <= cnt < 2147483648 ->
  (exists i, 0 <= i < 8 * btmp_bytes_len b /\ rbit (ram m) (bits b) i = false) ->
  exists r, bitmap_scan b cnt m = Ok (r, m) /\
    scan_result (rbit (ram m) (bits b)) (btmp_bytes_len b) cnt r.
Proof. apply bitmap_scan_spec. Qed.

(** One byte, the low seven bits set. *)
Definition demo_bits : mach := Mach {[ 0x9a000 := 127; 0x9a001 := 254 ]} 2 [] [].

Lemma bitmap_scan_first_witness :
  exists r, bitmap_scan (Bitmap 1 0x9a000) 2 demo_bits = Ok (r, demo_bits) /\
    scan_result (rbit (ram demo_bits) 0x9a000) 1 2 r.
Proof.
  apply (bitmap_scan_first (Bitmap 1 0x9a000)); [done|lia|]. exists 7. by vm_compute.
Defined.

(** The run [bitmap_scan] answers can lie partly outside the bitmap: two
    bits asked of an eight-bit map with one clear bit are "found" at 7. *)
Theorem bitmap_scan_overrun :
  bitmap_scan (Bitmap 1 0x9a000) 2 demo_bits = Ok (7, demo_bits).
Proof. by vm_compute. Qed.

(** [bitmap_set] changes one bit of the bitmap and no other memory than
    that bit's byte. *)
Theorem bitmap_set_one b i v m :
  v = 0 \/ v = 1 -> 0 <= i ->
  exists r', bitmap_set b i v m = Ok (tt, set_ram r' m) /\
    (forall j, 0 <= j -> rbit r' (bits b) j =
       if decide (i = j) then bool_decide (v = 1) else rbit (ram m) (bits b) j) /\
    agree (fun a => a <> bits b + i / 8) (ram m) r'.
Proof.
  intros Hv Hi. eexists. split; [by apply bitmap_set_eq|]. split.
  - intros j Hj. by apply rbit_set.
  - apply ram_set_bit_agree.
Qed.

Lemma bitmap_set_one_witness :
  exists r', bitmap_set (Bitmap 1 0x9a000) 7 1 demo_bits = Ok (tt, set_ram r' demo_bits) /\
    (forall j, 0 <= j -> rbit r' 0x9a000 j =
       if decide (7 = j) then bool_decide (1 = 1) else rbit (ram demo_bits) 0x9a000 j) /\
    agree (fun a => a <> 0x9a000 + 7 / 8) (ram demo_bits) r'.
Proof. apply (bitmap_set_one (Bitmap 1 0x9a000) 7 1 demo_bits); [by right|lia]. Defined.
