(* ===== verification/KList.v ===== *)
(** * Doubly linked lists: [lib/kernel/list.c]

    A [struct list] at address [l] holds a head element at [l] and a tail
    element at [l + 8]; a [struct list_elem] at [e] holds [prev] at [e] and
    [next] at [e + 4].  The functions read and write these words; the
    theorems relate them to operations on sequences of element addresses. *)
From S2P Require Import Prelude Machine.

(** ** The code *)

Definition head_of (l : Z) : Z := l.
Definition tail_of (l : Z) : Z := l + 8.

Definition get_prev (e : Z) : M mach Z := load32 e.
Definition get_next (e : Z) : M mach Z := load32 (e + 4).
Definition set_prev (e v : Z) : M mach unit := store32 e v.
Definition set_next (e v : Z) : M mach unit := store32 (e + 4) v.

Definition list_init (l : Z) : M mach unit :=
  set_prev (head_of l) 0;;
  set_next (head_of l) (tail_of l);;
  set_prev (tail_of l) (head_of l);;
  set_next (tail_of l) 0.

Definition list_insert_before (before elem : Z) : M mach unit :=
  irqsave (
    p ← get_prev before; set_next p elem;;
    p ← get_prev before; set_prev elem p;;
    set_next elem before;;
    set_prev before elem).

Definition list_push (plist elem : Z) : M mach unit :=
  first ← get_next (head_of plist);
  list_insert_before first elem.

Definition list_append (plist elem : Z) : M mach unit :=
  list_insert_before (tail_of plist) elem.

Definition list_remove (pelem : Z) : M mach unit :=
  irqsave (
    p ← get_prev pelem; n ← get_next pelem; set_next p n;;
    n ← get_next pelem; p ← get_prev pelem; set_prev n p).

Definition list_pop (plist : Z) : M mach Z :=
  elem ← get_next (head_of plist);
  list_remove elem;;
  mret elem.

Fixpoint elem_find_loop (fuel : nat) (plist obj_elem elem : Z) : M mach bool :=
  match fuel with
  | O => no_fuel
  | S fuel =>
      if decide (elem <> tail_of plist) then
        if decide (elem = obj_elem) then mret true
        else n ← get_next elem; elem_find_loop fuel plist obj_elem n
      else mret false
  end.

Definition elem_find (fuel : nat) (plist obj_elem : Z) : M mach bool :=
  elem ← get_next (head_of plist);
  elem_find_loop fuel plist obj_elem elem.

Definition list_empty (plist : Z) : M mach bool :=
  n ← get_next (head_of plist);
  mret (bool_decide (n = tail_of plist)).

Fixpoint list_traversal_loop (fuel : nat) (plist : Z) (func : Z -> Z -> M mach bool)
    (arg elem : Z) : M mach Z :=
  match fuel with
  | O => no_fuel
  | S fuel =>
      if decide (elem <> tail_of plist) then
        stop ← func elem arg;
        if (stop : bool) then mret elem
        else n ← get_next elem; list_traversal_loop fuel plist func arg n
      else mret 0
  end.

Definition list_traversal (fuel : nat) (plist : Z) (func : Z -> Z -> M mach bool)
    (arg : Z) : M mach Z :=
  elem ← get_next (head_of plist);
  empty ← list_empty plist;
  if (empty : bool) then mret 0
  else list_traversal_loop fuel plist func arg elem.

Fixpoint list_len_loop (fuel : nat) (plist elem length : Z) : M mach Z :=
  match fuel with
  | O => no_fuel
  | S fuel =>
      if decide (elem <> tail_of plist) then
        n ← get_next elem; list_len_loop fuel plist n (u32 (length + 1))
      else mret length
  end.

Definition list_len (fuel : nat) (plist : Z) : M mach Z :=
  elem ← get_next (head_of plist);
  list_len_loop fuel plist elem 0.

(** ** Sequences in memory *)

Abbreviation lnext r x := (ld32 r (x + 4)).
Abbreviation lprev r x := (ld32 r x).

Definition linked (r : gmap Z Z) (x y : Z) : Prop := lnext r x = y /\ lprev r y = x.

Fixpoint links (r : gmap Z Z) (ns : list Z) : Prop :=
  match ns with
  | x :: ((y :: _) as t) => linked r x y /\ links r t
  | _ => True
  end.

(** Elements do not overlap. *)
Definition apart (x y : Z) : Prop := x + 8 <= y \/ y + 8 <= x.

Fixpoint sep (ns : list Z) : Prop :=
  match ns with
  | [] => True
  | x :: ns => Forall (apart x) ns /\ sep ns
  end.

Definition addr_ok (x : Z) : Prop := 0 <= x < 4294967296.

Definition nodes (l : Z) (xs : list Z) : list Z := head_of l :: xs ++ [tail_of l].

(** The list at [l] links exactly the elements [xs], in order. *)
Record list_at (r : gmap Z Z) (l : Z) (xs : list Z) : Prop := {
  la_links : links r (nodes l xs);
  la_sep : sep (nodes l xs);
  la_addr : Forall addr_ok (nodes l xs)
}.

(** Addresses outside the given elements. *)
Definition outside (ns : list Z) (p : Z) : Prop := Forall (fun x => ~ x <= p < x + 8) ns.

#[export] Instance apart_sym : Symmetric apart.
Proof. intros x y [?|?]; [by right|by left]. Qed.

Lemma sep_app xs ys :
  sep (xs ++ ys) <-> sep xs /\ sep ys /\ forall x y, x ∈ xs -> y ∈ ys -> apart x y.
Proof.
  induction xs as [|z xs IH]; simpl.
  - split; [intros ?; split_and!; [done..|]|naive_solver].
    intros x y Hx. by apply not_elem_of_nil in Hx.
  - rewrite Forall_app, IH, !Forall_forall. setoid_rewrite elem_of_cons. naive_solver.
Qed.

#[export] Instance sep_Permutation : Proper (Permutation ==> iff) sep.
Proof.
  intros xs ys Hp. induction Hp as [|x xs ys Hp IH|x y xs|xs ys zs _ IH1 _ IH2]; simpl.
  - done.
  - by rewrite IH, Hp.
  - rewrite !Forall_cons. split; intros ([? ?] & ? & ?); split_and!; by try symmetry.
  - by rewrite IH1.
Qed.

Lemma links_cons2 r x y ns : links r (x :: y :: ns) <-> linked r x y /\ links r (y :: ns).
Proof. done. Qed.

Lemma links_split r xs x y ys :
  links r (xs ++ x :: y :: ys) <->
  links r (xs ++ [x]) /\ linked r x y /\ links r (y :: ys).
Proof.
  induction xs as [|z xs IH].
  - cbn [app]. rewrite links_cons2. simpl. tauto.
  - destruct xs as [|z' xs]; cbn [app] in *.
    + rewrite !links_cons2. simpl. tauto.
    + rewrite !links_cons2, IH. tauto.
Qed.

Lemma links_ext r r' ns :
  (forall x, x ∈ removelast ns -> lnext r' x = lnext r x) ->
  (forall y, y ∈ tail ns -> lprev r' y = lprev r y) ->
  links r ns -> links r' ns.
Proof.
  induction ns as [|x [|y ns] IH]; [done..|]. intros Hn Hp. rewrite !links_cons2.
  intros [[Hl1 Hl2] Hls]. split.
  - split; [rewrite Hn; [done|]|rewrite Hp; [done|]]; simpl; set_solver.
  - apply IH; [| |done]; intros z Hz.
    + apply Hn. simpl in *. set_solver.
    + apply Hp. simpl in *. set_solver.
Qed.

Lemma links_agree r r' ns :
  agree (fun p => ~ outside ns p) r r' -> links r ns -> links r' ns.
Proof.
  intros Hag. assert (Hin : forall x, x ∈ ns -> forall p, x <= p < x + 8 -> ~ outside ns p).
  { intros x Hx p Hp Ho. unfold outside in Ho. rewrite Forall_forall in Ho. by apply (Ho x Hx). }
  apply links_ext; intros x Hx; eapply agree_ld32; try exact Hag; intros i Hi.
  - apply Hin with x; [by apply in_removelast|lia].
  - apply Hin with x; [by apply in_tail|lia].
Qed.

Lemma list_at_agree r r' l xs :
  agree (fun p => ~ outside (nodes l xs) p) r r' -> list_at r l xs -> list_at r' l xs.
Proof. intros Hag [H1 H2 H3]. split; [by eapply links_agree|done..]. Qed.

(** ** Insertion and removal on memories *)

Definition ram_insert (r : gmap Z Z) (before elem : Z) : gmap Z Z :=
  let r1 := st32 r (lprev r before + 4) elem in
  let r2 := st32 r1 elem (lprev r1 before) in
  let r3 := st32 r2 (elem + 4) before in
  st32 r3 before elem.

Definition ram_unlink (r : gmap Z Z) (e : Z) : gmap Z Z :=
  let r1 := st32 r (lprev r e + 4) (lnext r e) in
  st32 r1 (lnext r1 e) (lprev r1 e).

Lemma list_insert_before_eq before elem m :
  list_insert_before before elem m = Ok (tt, set_ram (ram_insert (ram m) before elem) m).
Proof. apply irqsave_ram. intros m0 Hm. unfold ram_insert. rewrite <- Hm. by destruct m0. Qed.

Lemma list_remove_eq e m :
  list_remove e m = Ok (tt, set_ram (ram_unlink (ram m) e) m).
Proof. apply irqsave_ram. intros m0 Hm. unfold ram_unlink. rewrite <- Hm. by destruct m0. Qed.

Ltac apart_lia := unfold apart, addr_ok in *; lia.

(** The words of [x] after a store to a word of [y]. *)
Lemma ld_st_apart r x y v i j :
  apart x y -> 0 <= i <= 4 -> 0 <= j <= 4 -> ld32 (st32 r (y + j) v) (x + i) = ld32 r (x + i).
Proof. intros. apply ld32_st32_ne. apart_lia. Qed.

Section Insert.
Context (r : gmap Z Z) (p before elem : Z).
Context (Hp : lprev r before = p) (Hpb : apart p before)
        (Hep : apart elem p) (Heb : apart elem before).
Context (Hap : addr_ok p) (Hab : addr_ok before) (Hae : addr_ok elem).

Lemma ram_insert_unfold :
  ram_insert r before elem =
  st32 (st32 (st32 (st32 r (p + 4) elem) elem p) (elem + 4) before) before elem.
Proof.
  unfold ram_insert. rewrite Hp. rewrite (ld32_st32_ne r) by apart_lia. by rewrite Hp.
Qed.

Lemma ram_insert_linked1 : linked (ram_insert r before elem) p elem.
Proof.
  rewrite ram_insert_unfold. split.
  - rewrite !(ld32_st32_ne _ _ (p + 4)) by apart_lia.
    rewrite ld32_st32_eq. by apply u32_id.
  - rewrite !(ld32_st32_ne _ before elem), (ld32_st32_ne _ (elem + 4)) by apart_lia.
    rewrite ld32_st32_eq. by apply u32_id.
Qed.

Lemma ram_insert_linked2 : linked (ram_insert r before elem) elem before.
Proof.
  rewrite ram_insert_unfold. split.
  - rewrite (ld32_st32_ne _ before) by apart_lia.
    rewrite ld32_st32_eq. by apply u32_id.
  - rewrite ld32_st32_eq. by apply u32_id.
Qed.

Lemma ram_insert_next x : apart x p -> apart x elem -> x = before \/ apart x before ->
  lnext (ram_insert r before elem) x = lnext r x.
Proof.
  intros. rewrite ram_insert_unfold. rewrite !ld32_st32_ne by apart_lia. done.
Qed.

Lemma ram_insert_prev x : x = p \/ apart x p -> apart x elem -> apart x before ->
  lprev (ram_insert r before elem) x = lprev r x.
Proof.
  intros. rewrite ram_insert_unfold. rewrite !ld32_st32_ne by apart_lia. done.
Qed.

Lemma ram_insert_agree (P : Z -> Prop) :
  (forall a, P a -> outside [p; before; elem] a) ->
  agree P r (ram_insert r before elem).
Proof.
  intros HP a Ha. apply HP in Ha. unfold outside in Ha.
  rewrite !Forall_cons in Ha. rewrite ram_insert_unfold, !ld8_st32_ne by lia. done.
Qed.
End Insert.

Section Unlink.
Context (r : gmap Z Z) (p e q : Z).
Context (Hpe : linked r p e) (Heq : linked r e q).
Context (Hape : apart p e) (Haeq : apart e q) (Hapq : apart p q).
Context (Hap : addr_ok p) (Haq : addr_ok q).

Lemma ram_unlink_unfold : ram_unlink r e = st32 (st32 r (p + 4) q) q p.
Proof.
  destruct Hpe as [_ Hp], Heq as [Hq _]. unfold ram_unlink. rewrite Hp, Hq.
  by rewrite !(ld32_st32_ne r) by apart_lia; rewrite Hp, Hq.
Qed.

Lemma ram_unlink_linked : linked (ram_unlink r e) p q.
Proof.
  rewrite ram_unlink_unfold. split.
  - rewrite (ld32_st32_ne _ q) by apart_lia. rewrite ld32_st32_eq. by apply u32_id.
  - rewrite ld32_st32_eq. by apply u32_id.
Qed.

Lemma ram_unlink_next x : apart x p -> x = q \/ apart x q ->
  lnext (ram_unlink r e) x = lnext r x.
Proof. intros. rewrite ram_unlink_unfold. rewrite !ld32_st32_ne by apart_lia. done. Qed.

Lemma ram_unlink_prev x : x = p \/ apart x p -> apart x q ->
  lprev (ram_unlink r e) x = lprev r x.
Proof. intros. rewrite ram_unlink_unfold. rewrite !ld32_st32_ne by apart_lia. done. Qed.

Lemma ram_unlink_agree (P : Z -> Prop) :
  (forall a, P a -> outside [p; q] a) -> agree P r (ram_unlink r e).
Proof.
  intros HP a Ha. apply HP in Ha. unfold outside in Ha.
  rewrite !Forall_cons in Ha. rewrite ram_unlink_unfold, !ld8_st32_ne by lia. done.
Qed.
End Unlink.

(** ** Insertion and removal on sequences *)

Lemma outside_Permutation ns ns' p : ns ≡ₚ ns' -> outside ns p -> outside ns' p.
Proof. intros Hp. unfold outside. by rewrite Hp. Qed.

Lemma outside_sub ns ns' p : ns' ⊆ ns -> outside ns p -> outside ns' p.
Proof. unfold outside. rewrite !Forall_forall. set_solver. Qed.

Lemma insert_links r A p before B elem :
  links r (A ++ p :: before :: B) -> sep (elem :: A ++ p :: before :: B) ->
  Forall addr_ok (elem :: A ++ p :: before :: B) ->
  links (ram_insert r before elem) (A ++ p :: elem :: before :: B) /\
  agree (outside (elem :: A ++ p :: before :: B)) r (ram_insert r before elem).
Proof.
  intros (HA & Hpb & HB)%links_split [He Hs] Hok.
  apply sep_app in Hs as (HsA & (HpB & HbB & HsB) & HAB).
  rewrite Forall_app, !Forall_cons in He. destruct He as (HeA & Hep & Heb & HeB).
  rewrite Forall_cons, Forall_app, !Forall_cons in Hok.
  destruct Hok as (Hoe & HoA & Hop & Hob & HoB).
  rewrite Forall_forall in HeA, HeB, HpB, HbB.
  assert (Hapb : apart p before) by (apply HpB; set_solver).
  assert (HxA : forall x, x ∈ A -> apart x p /\ apart x before /\ apart x elem).
  { intros x Hx. split_and!; [apply HAB; set_solver..|]. symmetry. by apply HeA. }
  assert (HxB : forall x, x ∈ B -> apart x p /\ apart x before /\ apart x elem).
  { intros x Hx. split_and!; symmetry; [apply HpB; set_solver|by apply HbB|by apply HeB]. }
  destruct Hpb as [_ Hprev]. split.
  - apply links_split. split_and!.
    + eapply links_ext; [| |exact HA].
      * rewrite removelast_last. intros x (? & ? & ?)%HxA.
        apply ram_insert_next with p; auto.
      * intros y [Hy|Hy%list_elem_of_singleton]%in_tail%elem_of_app.
        -- apply HxA in Hy as (? & ? & ?). apply ram_insert_prev with p; auto.
        -- subst y. apply ram_insert_prev with p; auto; by symmetry.
    + by apply ram_insert_linked1.
    + apply links_cons2. split; [by apply ram_insert_linked2 with p|].
      eapply links_ext; [| |exact HB].
      * intros x [->|Hx]%in_removelast%elem_of_cons.
        -- apply ram_insert_next with p; auto; by symmetry.
        -- apply HxB in Hx as (? & ? & ?). apply ram_insert_next with p; auto.
      * intros x (? & ? & ?)%HxB. apply ram_insert_prev with p; auto.
  - apply ram_insert_agree with p; try done. intros a. apply outside_sub. set_solver.
Qed.

Lemma unlink_links r A p e q B :
  links r (A ++ p :: e :: q :: B) -> sep (A ++ p :: e :: q :: B) ->
  Forall addr_ok (A ++ p :: e :: q :: B) ->
  links (ram_unlink r e) (A ++ p :: q :: B) /\
  agree (outside (A ++ p :: e :: q :: B)) r (ram_unlink r e).
Proof.
  intros (HA & Hpe & Heq & HB)%links_split Hs Hok.
  apply sep_app in Hs as (HsA & (HpB & HeB & HqB & HsB) & HAB).
  rewrite Forall_app, !Forall_cons in Hok. destruct Hok as (_ & Hop & Hoe & Hoq & _).
  rewrite Forall_forall in HpB, HeB, HqB.
  assert (Hape : apart p e) by (apply HpB; set_solver).
  assert (Hapq : apart p q) by (apply HpB; set_solver).
  assert (Haeq : apart e q) by (apply HeB; set_solver).
  assert (HxA : forall x, x ∈ A -> apart x p /\ apart x q).
  { intros x Hx. split; apply HAB; set_solver. }
  assert (HxB : forall x, x ∈ B -> apart x p /\ apart x q).
  { intros x Hx. split; symmetry; [apply HpB; set_solver|by apply HqB]. }
  split.
  - apply links_split. split_and!.
    + eapply links_ext; [| |exact HA].
      * rewrite removelast_last. intros x (? & ?)%HxA.
        apply ram_unlink_next with p q; auto.
      * intros y [Hy|Hy%list_elem_of_singleton]%in_tail%elem_of_app.
        -- apply HxA in Hy as (? & ?). apply ram_unlink_prev with p q; auto.
        -- subst y. apply ram_unlink_prev with p q; auto.
    + by apply ram_unlink_linked.
    + eapply links_ext; [| |exact HB].
      * intros x [->|Hx]%in_removelast%elem_of_cons.
        -- apply ram_unlink_next with p q; auto; by symmetry.
        -- apply HxB in Hx as (? & ?). apply ram_unlink_next with p q; auto.
      * intros x (? & ?)%HxB. apply ram_unlink_prev with p q; auto.
  - apply ram_unlink_agree with p q; try done. intros a. apply outside_sub. set_solver.
Qed.

(** The nodes around a position of the sequence. *)
Lemma nodes_app l xs ys : nodes l (xs ++ ys) = (head_of l :: xs) ++ (ys ++ [tail_of l]).
Proof. unfold nodes. by rewrite app_assoc. Qed.

Lemma nodes_split l xs ys : exists A p B,
  head_of l :: xs = A ++ [p] /\ ys ++ [tail_of l] = List.hd (tail_of l) ys :: B /\
  nodes l (xs ++ ys) = A ++ p :: List.hd (tail_of l) ys :: B /\
  forall e, nodes l (xs ++ e :: ys) = A ++ p :: e :: List.hd (tail_of l) ys :: B.
Proof.
  destruct (exists_last (l := head_of l :: xs)) as (A & p & HA); [done|].
  exists A, p, (tail (ys ++ [tail_of l])).
  assert (HB : ys ++ [tail_of l] = List.hd (tail_of l) ys :: tail (ys ++ [tail_of l]))
    by (by destruct ys).
  split_and!; [done|done| |intros e]; rewrite nodes_app, HA, <- app_assoc; simpl.
  - by rewrite <- HB.
  - by rewrite <- HB.
Qed.

Lemma list_insert_at r l xs ys e :
  list_at r l (xs ++ ys) -> sep (e :: nodes l (xs ++ ys)) -> addr_ok e ->
  list_at (ram_insert r (List.hd (tail_of l) ys) e) l (xs ++ e :: ys) /\
  agree (outside (e :: nodes l (xs ++ ys))) r (ram_insert r (List.hd (tail_of l) ys) e).
Proof.
  intros [Hl Hs Ho] Hse Hoe.
  destruct (nodes_split l xs ys) as (A & p & B & _ & _ & HN & HN').
  rewrite HN in *.
  destruct (insert_links r A p (List.hd (tail_of l) ys) B e) as [Hl' Hag]; [done..|by constructor|].
  assert (Hperm : nodes l (xs ++ e :: ys) ≡ₚ e :: A ++ p :: List.hd (tail_of l) ys :: B).
  { rewrite HN', (Permutation_swap e p). symmetry. apply Permutation_middle. }
  split; [split|done].
  - by rewrite HN'.
  - by rewrite Hperm.
  - rewrite Hperm. by constructor.
Qed.

Lemma list_unlink_at r l xs ys e :
  list_at r l (xs ++ e :: ys) ->
  list_at (ram_unlink r e) l (xs ++ ys) /\
  agree (outside (nodes l (xs ++ e :: ys))) r (ram_unlink r e).
Proof.
  intros [Hl Hs Ho].
  destruct (nodes_split l xs ys) as (A & p & B & _ & _ & HN & HN').
  rewrite HN' in *.
  destruct (unlink_links r A p e (List.hd (tail_of l) ys) B) as [Hl' Hag]; [done..|].
  split; [split|done]; rewrite HN.
  - done.
  - apply sep_app in Hs as (HA & (HpB & HeB & HqB & HB) & HAB).
    rewrite !Forall_cons in HpB. apply sep_app. split_and!; [done| |].
    + simpl. rewrite Forall_cons. tauto.
    + intros x y Hx Hy. apply HAB; [done|]. set_solver.
  - apply Forall_app in Ho as [HA HB]. rewrite !Forall_cons in HB.
    apply Forall_app. split; [done|]. rewrite !Forall_cons. tauto.
Qed.

(** ** The functions refine sequence operations *)

Lemma la_next_hd r l xs : list_at r l xs -> lnext r (head_of l) = List.hd (tail_of l) xs.
Proof. intros [Hl _ _]. unfold nodes in Hl. destruct xs; simpl in Hl; by destruct Hl as [[? _] _]. Qed.

Lemma la_step r l xs x ys : list_at r l (xs ++ x :: ys) -> lnext r x = List.hd (tail_of l) ys.
Proof.
  intros [Hl _ _]. destruct (nodes_split l xs ys) as (A & p & B & _ & _ & _ & HN').
  rewrite HN' in Hl. apply links_split in Hl as (_ & _ & Hl).
  apply links_cons2 in Hl as [[Hl _] _]. done.
Qed.

Lemma la_tail_notin r l xs : list_at r l xs -> tail_of l ∉ xs.
Proof.
  intros [_ Hs _] Hin. unfold nodes in Hs. destruct Hs as [_ Hs].
  apply sep_app in Hs as (_ & _ & Hs).
  destruct (Hs (tail_of l) (tail_of l)) as [?|?]; [done|set_solver|lia|lia].
Qed.

Lemma list_init_spec l m :
  addr_ok l -> addr_ok (tail_of l) ->
  exists r', list_init l m = Ok (tt, set_ram r' m) /\ list_at r' l [] /\
    agree (outside (nodes l [])) (ram m) r'.
Proof.
  intros Hl Ht. unfold tail_of in *. eexists. split; [reflexivity|]. simpl.
  unfold head_of, tail_of in *. split; [split|].
  - simpl. split_and!; [split|done].
    + unfold head_of, tail_of. rewrite !(ld32_st32_ne _ _ (l + 4)) by lia.
      rewrite ld32_st32_eq. by apply u32_id.
    + unfold head_of, tail_of. rewrite (ld32_st32_ne _ (l + 8 + 4)) by lia.
      rewrite ld32_st32_eq. by apply u32_id.
  - simpl. split_and!; repeat constructor. unfold apart, head_of, tail_of. lia.
  - apply Forall_cons. split; [done|]. apply Forall_cons. by split.
  - intros a Ha. unfold outside, nodes in Ha. simpl in Ha.
    rewrite !Forall_cons in Ha. unfold head_of, tail_of in Ha.
    rewrite !ld8_st32_ne by lia. done.
Qed.

(** A fresh element for a list: it overlaps no node of it. *)
Definition fresh_elem (l : Z) (xs : list Z) (e : Z) : Prop :=
  addr_ok e /\ Forall (apart e) (nodes l xs).

Lemma list_append_spec l xs e m :
  list_at (ram m) l xs -> fresh_elem l xs e ->
  exists r', list_append l e m = Ok (tt, set_ram r' m) /\ list_at r' l (xs ++ [e]) /\
    agree (outside (e :: nodes l xs)) (ram m) r'.
Proof.
  intros Hl [Hoe Hf]. unfold list_append. rewrite list_insert_before_eq.
  eexists. split; [done|].
  rewrite <- (app_nil_r xs) in Hl. pose proof (la_sep _ _ _ Hl) as Hs.
  destruct (list_insert_at (ram m) l xs [] e) as [H1 H2]; [done| |done|].
  - split; [by rewrite app_nil_r|done].
  - rewrite app_nil_r in H2. done.
Qed.

Lemma list_push_spec l xs e m :
  list_at (ram m) l xs -> fresh_elem l xs e ->
  exists r', list_push l e m = Ok (tt, set_ram r' m) /\ list_at r' l (e :: xs) /\
    agree (outside (e :: nodes l xs)) (ram m) r'.
Proof.
  intros Hl [Hoe Hf]. unfold list_push, get_next, load32. mstep.
  rewrite (la_next_hd _ _ _ Hl), list_insert_before_eq.
  eexists. split; [done|].
  destruct (list_insert_at (ram m) l [] xs e) as [H1 H2]; [done| |done|by split].
  split; [done|by apply la_sep with (ram m)].
Qed.

Lemma list_remove_spec l xs e ys m :
  list_at (ram m) l (xs ++ e :: ys) ->
  exists r', list_remove e m = Ok (tt, set_ram r' m) /\ list_at r' l (xs ++ ys) /\
    agree (outside (nodes l (xs ++ e :: ys))) (ram m) r'.
Proof.
  intros Hl. rewrite list_remove_eq. eexists. split; [done|].
  by apply list_unlink_at.
Qed.

Lemma list_pop_spec l x xs m :
  list_at (ram m) l (x :: xs) ->
  exists r', list_pop l m = Ok (x, set_ram r' m) /\ list_at r' l xs /\
    agree (outside (nodes l (x :: xs))) (ram m) r'.
Proof.
  intros Hl. unfold list_pop, get_next, load32. mstep.
  rewrite (la_next_hd _ _ _ Hl). simpl.
  destruct (list_remove_spec l [] x xs m Hl) as (r' & Hr & H1 & H2).
  exists r'. rewrite (bind_Ok _ _ _ _ _ Hr). done.
Qed.

Lemma list_empty_spec l xs m :
  list_at (ram m) l xs -> list_empty l m = Ok (bool_decide (xs = []), m).
Proof.
  intros Hl. unfold list_empty, get_next, load32. mstep. apply Ok_val.
  rewrite (la_next_hd _ _ _ Hl). apply bool_decide_ext.
  destruct xs as [|x xs]; [done|]. simpl. split; [|done]. intros ->.
  destruct (la_tail_notin _ _ _ Hl). set_solver.
Qed.

Lemma elem_find_loop_spec n l e xs ys m :
  list_at (ram m) l (xs ++ ys) -> (length ys < n)%nat ->
  elem_find_loop n l e (List.hd (tail_of l) ys) m = Ok (bool_decide (e ∈ ys), m).
Proof.
  revert xs ys. induction n as [|n IH]; intros xs ys Hl Hn; [lia|].
  destruct ys as [|y ys]; simpl in *.
  - rewrite decide_False by naive_solver. done.
  - assert (y <> tail_of l).
    { intros ->. destruct (la_tail_notin _ _ _ Hl). set_solver. }
    rewrite decide_True by done. case_decide as Hye.
    + subst. apply Ok_val. rewrite bool_decide_true; [done|]. set_solver.
    + unfold get_next, load32. mstep. rewrite (la_step _ _ _ _ _ Hl).
      rewrite (IH (xs ++ [y]) ys); [|by rewrite <- app_assoc|lia].
      apply Ok_val, bool_decide_ext. set_solver.
Qed.

Lemma elem_find_spec n l e xs m :
  list_at (ram m) l xs -> (length xs < n)%nat ->
  elem_find n l e m = Ok (bool_decide (e ∈ xs), m).
Proof.
  intros Hl Hn. unfold elem_find, get_next, load32. mstep.
  rewrite (la_next_hd _ _ _ Hl). by apply elem_find_loop_spec with (xs := []).
Qed.

Lemma list_len_loop_spec n l k xs ys m :
  list_at (ram m) l (xs ++ ys) -> (length ys < n)%nat -> k = u32 k ->
  list_len_loop n l (List.hd (tail_of l) ys) k m = Ok (u32 (k + Z.of_nat (length ys)), m).
Proof.
  revert xs ys k. induction n as [|n IH]; intros xs ys k Hl Hn Hk; [lia|].
  destruct ys as [|y ys]; simpl in *.
  - rewrite decide_False by naive_solver. apply Ok_val. by rewrite Z.add_0_r.
  - assert (y <> tail_of l).
    { intros ->. destruct (la_tail_notin _ _ _ Hl). set_solver. }
    rewrite decide_True by done. unfold get_next, load32. mstep.
    rewrite (la_step _ _ _ _ _ Hl).
    rewrite (IH (xs ++ [y]) ys); [|by rewrite <- app_assoc|lia|by rewrite u32_idem].
    apply Ok_val. zmod_lia.
Qed.

Lemma list_len_spec n l xs m :
  list_at (ram m) l xs -> (length xs < n)%nat ->
  list_len n l m = Ok (u32 (Z.of_nat (length xs)), m).
Proof.
  intros Hl Hn. unfold list_len, get_next, load32. mstep.
  rewrite (la_next_hd _ _ _ Hl). by apply list_len_loop_spec with (xs := []).
Qed.

(** [list_traversal] with a callback that only looks: the first element the
    callback accepts, or NULL. *)
Lemma list_traversal_loop_spec n l func arg (P : Z -> bool) xs ys m :
  list_at (ram m) l (xs ++ ys) -> (length ys < n)%nat ->
  (forall y, y ∈ ys -> func y arg m = Ok (P y, m)) ->
  list_traversal_loop n l func arg (List.hd (tail_of l) ys) m =
  Ok (match list_find P ys with Some (_, y) => y | None => 0 end, m).
Proof.
  revert xs ys. induction n as [|n IH]; intros xs ys Hl Hn HP; [lia|].
  destruct ys as [|y ys]; simpl in *.
  - rewrite decide_False by naive_solver. done.
  - assert (y <> tail_of l).
    { intros ->. destruct (la_tail_notin _ _ _ Hl). set_solver. }
    rewrite decide_True by done. rewrite (bind_Ok _ _ _ _ _ (HP y ltac:(set_solver))).
    destruct (P y) eqn:HPy.
    + by rewrite decide_True.
    + rewrite decide_False by (by intros []). unfold get_next, load32. mstep.
      rewrite (la_step _ _ _ _ _ Hl).
      rewrite (IH (xs ++ [y]) ys); [|by rewrite <- app_assoc|lia|set_solver].
      apply Ok_val. by destruct (list_find P ys) as [[? ?]|].
Qed.

Lemma list_traversal_spec n l func arg (P : Z -> bool) xs m :
  list_at (ram m) l xs -> (length xs < n)%nat ->
  (forall y, y ∈ xs -> func y arg m = Ok (P y, m)) ->
  list_traversal n l func arg m =
  Ok (match list_find P xs with Some (_, y) => y | None => 0 end, m).
Proof.
  intros Hl Hn HP. unfold list_traversal, get_next, load32. mstep.
  rewrite (bind_Ok _ _ _ _ _ (list_empty_spec _ _ _ Hl)).
  destruct xs as [|x xs]; [done|]. rewrite bool_decide_false by done.
  rewrite (la_next_hd _ _ _ Hl). by apply list_traversal_loop_spec with (xs := []).
Qed.

(** ** Theorems *)

(** C36: The doubly linked list in memory is the sequence of its elements:
    appending, pushing and removing edit the sequence, popping takes its
    first element; each changes no byte but the links of the list's nodes
    and of the element. *)
Theorem list_is_sequence l xs e m :
  list_at (ram m) l xs -> fresh_elem l xs e ->
  (exists r', list_append l e m = Ok (tt, set_ram r' m) /\ list_at r' l (xs ++ [e]) /\
     agree (outside (e :: nodes l xs)) (ram m) r') /\
  (exists r', list_push l e m = Ok (tt, set_ram r' m) /\ list_at r' l (e :: xs) /\
     agree (outside (e :: nodes l xs)) (ram m) r') /\
  (forall ys x zs, xs = ys ++ x :: zs ->
     exists r', list_remove x m = Ok (tt, set_ram r' m) /\ list_at r' l (ys ++ zs) /\
       agree (outside (nodes l xs)) (ram m) r') /\
  (forall x ys, xs = x :: ys ->
     exists r', list_pop l m = Ok (x, set_ram r' m) /\ list_at r' l ys /\
       agree (outside (nodes l xs)) (ram m) r').
Proof.
  intros Hl He. split; [by apply list_append_spec|]. split; [by apply list_push_spec|]. split.
  - intros ys x zs ->. by apply list_remove_spec.
  - intros x ys ->. by apply list_pop_spec.
Qed.

(** the queries answer membership, emptiness and length of the sequence,
    and leave memory alone. *)
Theorem list_queries n l xs e m :
  list_at (ram m) l xs -> (length xs < n)%nat ->
  elem_find n l e m = Ok (bool_decide (e ∈ xs), m) /\
  list_empty l m = Ok (bool_decide (xs = []), m) /\
  list_len n l m = Ok (u32 (Z.of_nat (length xs)), m).
Proof.
  intros Hl Hn. split; [by apply elem_find_spec|]. split; [by apply list_empty_spec|].
  by apply list_len_spec.
Qed.

(** A list at 0x100 holding the element 0x200. *)
Definition demo_list : mach :=
  Mach (st32 (st32 (st32 (st32 ∅ 0x104 0x200) 0x200 0x100) 0x204 0x108) 0x108 0x200) 2 [] [].

Lemma demo_list_at : list_at (ram demo_list) 0x100 [0x200].
Proof.
  split.
  - by vm_compute.
  - repeat constructor; unfold apart, tail_of, head_of; lia.
  - repeat constructor; unfold addr_ok, tail_of, head_of; lia.
Qed.

Lemma list_is_sequence_witness :
  (exists r', list_append 0x100 0x300 demo_list = Ok (tt, set_ram r' demo_list) /\
     list_at r' 0x100 [0x200; 0x300] /\
     agree (outside [0x300; 0x100; 0x200; 0x108]) (ram demo_list) r') /\
  (exists r', list_push 0x100 0x300 demo_list = Ok (tt, set_ram r' demo_list) /\
     list_at r' 0x100 [0x300; 0x200] /\
     agree (outside [0x300; 0x100; 0x200; 0x108]) (ram demo_list) r') /\
  (forall ys x zs, [0x200] = ys ++ x :: zs ->
     exists r', list_remove x demo_list = Ok (tt, set_ram r' demo_list) /\ list_at r' 0x100 (ys ++ zs) /\
       agree (outside [0x100; 0x200; 0x108]) (ram demo_list) r') /\
  (forall x ys, [0x200] = x :: ys ->
     exists r', list_pop 0x100 demo_list = Ok (x, set_ram r' demo_list) /\ list_at r' 0x100 ys /\
       agree (outside [0x100; 0x200; 0x108]) (ram demo_list) r').
Proof.
  apply (list_is_sequence 0x100 [0x200] 0x300); [apply demo_list_at|].
  split; [unfold addr_ok; lia|]. repeat constructor; unfold apart, tail_of, head_of; lia.
Defined.

Lemma list_queries_witness :
  elem_find 2 0x100 0x200 demo_list = Ok (bool_decide (0x200 ∈ [0x200]), demo_list) /\
  list_empty 0x100 demo_list = Ok (bool_decide ([0x200] = []), demo_list) /\
  list_len 2 0x100 demo_list = Ok (u32 (Z.of_nat (length [0x200])), demo_list).
Proof. apply (list_queries 2 0x100 [0x200] 0x200); [apply demo_list_at|simpl; lia]. Defined.
