(* ===== verification/Stdio.v ===== *)
(** * Formatted output: [lib/stdio.c]

    [itoa] and [vsprintf] on the byte memory.  A [va_list] is the address
    of the last argument consumed; [va_arg] moves it by four and reads
    there, as the macro does. *)
From S2P Require Import Prelude Machine Str.

(** ** The code *)

(** [itoa] advances the caller's buffer pointer; here it returns it. *)
Fixpoint itoa (fuel : nat) (value buf_ptr base : Z) : M mach Z :=
  match fuel with
  | O => no_fuel
  | S fuel =>
      let m := value mod base in
      let i := value / base in
      buf_ptr ← (if decide (i <> 0) then itoa fuel i buf_ptr base else mret buf_ptr);
      store8 buf_ptr (if decide (m < 10) then m + 48 else m - 10 + 65);;
      mret (buf_ptr + 1)
  end.

(** Rounds enough for a [uint32_t] in any base from 2 on. *)
Definition itoa_fuel : nat := 33.

(** The [while (index_char)] loop of [vsprintf]; [sfuel] bounds the loops
    over a [%s] argument. *)
Fixpoint vsprintf_loop (fuel sfuel : nat) (buf_ptr index_ptr index_char ap : Z) : M mach unit :=
  match fuel with
  | O => no_fuel
  | S fuel =>
      if decide (index_char <> 0) then
        if decide (index_char <> 37 (* '%' *)) then
          store8 buf_ptr index_char;;
          index_char ← load8 (index_ptr + 1);
          vsprintf_loop fuel sfuel (buf_ptr + 1) (index_ptr + 1) index_char ap
        else
          let index_ptr := index_ptr + 1 in
          index_char ← load8 index_ptr;
          if decide (index_char = 120 (* 'x' *)) then
            arg_int ← load32 (ap + 4);
            buf_ptr ← itoa itoa_fuel (u32 arg_int) buf_ptr 16;
            index_char ← load8 (index_ptr + 1);
            vsprintf_loop fuel sfuel buf_ptr (index_ptr + 1) index_char (ap + 4)
          else if decide (index_char = 99 (* 'c' *)) then
            c ← load8 (ap + 4);
            store8 buf_ptr c;;
            index_char ← load8 (index_ptr + 1);
            vsprintf_loop fuel sfuel (buf_ptr + 1) (index_ptr + 1) index_char (ap + 4)
          else if decide (index_char = 115 (* 's' *)) then
            arg_str ← load32 (ap + 4);
            strcpy sfuel buf_ptr arg_str;;
            n ← strlen sfuel arg_str;
            index_char ← load8 (index_ptr + 1);
            vsprintf_loop fuel sfuel (buf_ptr + n) (index_ptr + 1) index_char (ap + 4)
          else if decide (index_char = 100 (* 'd' *)) then
            arg_int ← load32 (ap + 4);
            let arg_int := i32 arg_int in
            r ← (if decide (arg_int < 0)
                 then store8 buf_ptr 45 (* '-' *);; mret (i32 (0 - arg_int), buf_ptr + 1)
                 else mret (arg_int, buf_ptr));
            buf_ptr ← itoa itoa_fuel (u32 r.1) r.2 10;
            index_char ← load8 (index_ptr + 1);
            vsprintf_loop fuel sfuel buf_ptr (index_ptr + 1) index_char (ap + 4)
          else
            vsprintf_loop fuel sfuel buf_ptr index_ptr index_char ap
      else mret tt
  end.

Definition vsprintf (fuel sfuel : nat) (str format ap : Z) : M mach Z :=
  index_char ← load8 format;
  vsprintf_loop fuel sfuel str format index_char ap;;
  strlen sfuel str.

(** [sprintf]: the arguments follow the address of [format] on the stack. *)
Definition sprintf (fuel sfuel : nat) (buf format format_addr : Z) : M mach Z :=
  vsprintf fuel sfuel buf format format_addr.

(** ** Numerals *)

Definition digit_char (d : Z) : Z := if decide (d < 10) then d + 48 else d - 10 + 65.
Definition digit_val (c : Z) : Z := if decide (c < 65) then c - 48 else c - 65 + 10.

Fixpoint numeral (fuel : nat) (base v : Z) : list Z :=
  match fuel with
  | O => []
  | S fuel => (if decide (v / base <> 0) then numeral fuel base (v / base) else []) ++
              [digit_char (v mod base)]
  end.

(** The number a numeral denotes, most significant digit first. *)
Definition numeral_value (base : Z) (s : list Z) : Z :=
  foldl (fun acc c => acc * base + digit_val c) 0 s.

Lemma digit_val_char d : 0 <= d < 16 -> digit_val (digit_char d) = d.
Proof. intros. unfold digit_val, digit_char. repeat case_decide; lia. Qed.

Lemma digit_char_range d : 0 <= d < 16 -> 0 < digit_char d < 128.
Proof. intros. unfold digit_char. case_decide; lia. Qed.

Lemma numeral_value_snoc base s c :
  numeral_value base (s ++ [c]) = numeral_value base s * base + digit_val c.
Proof. unfold numeral_value. by rewrite foldl_app. Qed.

Lemma numeral_fuel_step n b v :
  2 <= b -> 0 <= v < 2 ^ Z.of_nat (S n) -> v / b <> 0 -> 0 <= v / b < 2 ^ Z.of_nat n.
Proof.
  intros Hb Hv _. rewrite Nat2Z.inj_succ, Z.pow_succ_r in Hv by lia. split.
  - apply Z.div_pos; lia.
  - apply Z.div_lt_upper_bound; [lia|]. nia.
Qed.

(** The numeral of a number denotes the number. *)
Lemma numeral_value_numeral n base v :
  2 <= base <= 16 -> 0 <= v < 2 ^ Z.of_nat n -> (0 < n)%nat ->
  numeral_value base (numeral n base v) = v.
Proof.
  intros Hb. revert v. induction n as [|n IH]; intros v Hv Hn; [lia|]. simpl.
  assert (Hm : 0 <= v mod base < base) by (apply Z.mod_pos_bound; lia).
  rewrite numeral_value_snoc, digit_val_char by lia.
  case_decide as Hd.
  - destruct n as [|n].
    { change (2 ^ Z.of_nat 1) with 2 in Hv. rewrite Z.div_small in Hd by lia. done. }
    rewrite IH; [|apply numeral_fuel_step; [lia|done..]|lia].
    pose proof (Z.div_mod v base). lia.
  - simpl. pose proof (Z.div_mod v base). unfold numeral_value. simpl. lia.
Qed.

Lemma numeral_chars n base v :
  2 <= base <= 16 -> Forall (fun c => 0 < c < 128) (numeral n base v).
Proof.
  intros Hb. revert v. induction n as [|n IH]; intros v; simpl; [constructor|].
  assert (Hm : 0 <= v mod base < base) by (apply Z.mod_pos_bound; lia).
  apply Forall_app. split; [case_decide; [apply IH|constructor]|].
  constructor; [apply digit_char_range; lia|constructor].
Qed.

(** ** Bytes written at the end of a buffer *)

(** The memory after the characters [s] are stored from [p] on. *)
Fixpoint ram_puts (r : gmap Z Z) (p : Z) (s : list Z) : gmap Z Z :=
  match s with [] => r | c :: s => ram_puts (st8 r p c) (p + 1) s end.

Lemma ram_puts_app r p s1 s2 :
  ram_puts r p (s1 ++ s2) = ram_puts (ram_puts r p s1) (p + Z.of_nat (length s1)) s2.
Proof.
  revert r p. induction s1 as [|c s1 IH]; intros r p; simpl.
  - by rewrite Z.add_0_r.
  - rewrite IH. f_equal. lia.
Qed.

Lemma ld8_ram_puts r p s a :
  ld8 (ram_puts r p s) a =
  if decide (p <= a) then
    match s !! Z.to_nat (a - p) with Some c => u8 c | None => ld8 r a end
  else ld8 r a.
Proof.
  revert r p. induction s as [|c s IH]; intros r p; simpl.
  - by case_decide.
  - rewrite IH, ld8_st8. destruct (decide (p = a)) as [->|Hne].
    + rewrite decide_False by lia. rewrite decide_True by lia.
      by rewrite Z.sub_diag.
    + destruct (decide (p <= a)); [|by rewrite decide_False by lia].
      rewrite decide_True by lia.
      replace (Z.to_nat (a - p)) with (S (Z.to_nat (a - (p + 1)))) by lia. done.
Qed.

Lemma ld8_ram_puts_out r p s a :
  a < p \/ p + Z.of_nat (length s) <= a -> ld8 (ram_puts r p s) a = ld8 r a.
Proof.
  intros Ha. rewrite ld8_ram_puts. case_decide; [|done].
  rewrite lookup_ge_None_2; [done|lia].
Qed.

Lemma itoa_eq n value buf base m :
  2 <= base <= 16 -> 0 <= value < 2 ^ Z.of_nat n -> (0 < n)%nat ->
  itoa n value buf base m =
  Ok (buf + Z.of_nat (length (numeral n base value)),
      set_ram (ram_puts (ram m) buf (numeral n base value)) m).
Proof.
  intros Hb. revert value buf m. induction n as [|n IH]; intros v buf m Hv Hn; [lia|].
  simpl. destruct (decide (v / base <> 0)) as [Hd|Hd].
  - destruct n as [|n].
    { change (2 ^ Z.of_nat 1) with 2 in Hv. rewrite Z.div_small in Hd by lia. done. }
    erewrite bind_Ok by (apply IH; [apply numeral_fuel_step; [lia|done..]|lia]).
    mstep. rewrite length_app, ram_puts_app. unfold mret, M_ret. do 2 f_equal. simpl. lia.
  - done.
Qed.

(** [itoa] writes a numeral that denotes the value, for both bases used. *)
Lemma itoa_spec base value buf m :
  base = 10 \/ base = 16 -> 0 <= value < 4294967296 ->
  exists s, itoa itoa_fuel value buf base m =
              Ok (buf + Z.of_nat (length s), set_ram (ram_puts (ram m) buf s) m) /\
            numeral_value base s = value /\ s = numeral itoa_fuel base value.
Proof.
  intros Hb Hv. exists (numeral itoa_fuel base value).
  assert (0 <= value < 2 ^ Z.of_nat itoa_fuel) by (change (2 ^ Z.of_nat itoa_fuel) with 8589934592; lia).
  assert (0 < itoa_fuel)%nat by (unfold itoa_fuel; lia).
  split_and!; [apply itoa_eq; [lia|done..]|apply numeral_value_numeral; [lia|done..]|done].
Qed.

(** ** What a format asks for *)

Inductive fmt_arg :=
| AWord (w : Z)           (* a 32-bit argument of %x or %d *)
| AChar (c : Z)           (* a character argument of %c *)
| AStr (s : list Z).      (* a string argument of %s *)

Definition hex_text (w : Z) : list Z := numeral itoa_fuel 16 w.
Definition dec_text (w : Z) : list Z :=
  if decide (i32 w < 0) then 45 :: numeral itoa_fuel 10 (u32 (i32 (0 - i32 w)))
  else numeral itoa_fuel 10 (u32 (i32 w)).

(** The text of a format.  A [%] before any other character is dropped and
    that character is taken as if it stood alone: [%q] prints [q], and the
    second sign of [%%] opens a directive of its own. *)
Fixpoint render (f : list Z) (args : list fmt_arg) : option (list Z) :=
  match f with
  | [] => Some []
  | c :: f1 =>
      if decide (c <> 37) then (c ::.) <$> render f1 args
      else match f1 with
           | [] => Some []
           | d :: f2 =>
               if decide (d = 120) then
                 match args with
                 | AWord w :: args => (hex_text w ++.) <$> render f2 args
                 | _ => None
                 end
               else if decide (d = 99) then
                 match args with
                 | AChar c :: args => (c ::.) <$> render f2 args
                 | _ => None
                 end
               else if decide (d = 115) then
                 match args with
                 | AStr s :: args => (s ++.) <$> render f2 args
                 | _ => None
                 end
               else if decide (d = 100) then
                 match args with
                 | AWord w :: args => (dec_text w ++.) <$> render f2 args
                 | _ => None
                 end
               else render f1 args
           end
  end.

(** A decimal text denotes the signed argument, the most negative one too. *)
Lemma dec_text_value w :
  (i32 w < 0 -> exists s, dec_text w = 45 :: s /\ numeral_value 10 s = - i32 w) /\
  (0 <= i32 w -> numeral_value 10 (dec_text w) = i32 w).
Proof.
  assert (Hv : forall v, 0 <= v < 4294967296 ->
            numeral_value 10 (numeral itoa_fuel 10 v) = v).
  { intros v Hv. apply numeral_value_numeral; [lia| |unfold itoa_fuel; lia].
    change (2 ^ Z.of_nat itoa_fuel) with 8589934592. lia. }
  pose proof (i32_range w). unfold dec_text. split; intros Hw.
  - rewrite decide_True by done. eexists. split; [done|].
    rewrite Hv by apply u32_range. zmod_lia.
  - rewrite decide_False by lia. rewrite Hv by apply u32_range. zmod_lia.
Qed.

Opaque itoa_fuel.

Section Vsprintf.
(** The buffer is [lo .. hi - 1]; [sfuel] bounds the string loops. *)
Context (lo hi : Z) (sfuel : nat) (Hlo : 0 < lo).

Definition out_of_buf (a n : Z) : Prop := a + n <= lo \/ hi <= a.

Definition arg_at (r : gmap Z Z) (p : Z) (arg : fmt_arg) : Prop :=
  out_of_buf p 4 /\
  match arg with
  | AWord w => ld32 r p = w
  | AChar c => ld8 r p = c /\ c <> 0
  | AStr s => ld32 r p <> 0 /\ cstr r (ld32 r p) s /\ (length s < sfuel)%nat /\
              Z.of_nat (length s) < 4294967296 /\
              out_of_buf (ld32 r p) (Z.of_nat (length s) + 1)
  end.

Fixpoint args_at (r : gmap Z Z) (ap : Z) (args : list fmt_arg) : Prop :=
  match args with
  | [] => True
  | a :: args => arg_at r (ap + 4) a /\ args_at r (ap + 4) args
  end.

(** The buffer holds the characters [out] and is zero behind them. *)
Definition filled (r : gmap Z Z) (out : list Z) : Prop :=
  (forall i c, out !! i = Some c -> ld8 r (lo + Z.of_nat i) = c) /\
  (forall a, lo + Z.of_nat (length out) <= a < hi -> ld8 r a = 0).

Abbreviation same_outside := (agree (fun a => ~ lo <= a < hi)).

Lemma arg_at_same r r' p arg : same_outside r r' -> arg_at r p arg -> arg_at r' p arg.
Proof.
  intros Hs [Ho Ha]. split; [done|]. unfold out_of_buf in *.
  assert (ld32 r' p = ld32 r p) as Hp by (apply (agree_ld32 _ _ _ _ Hs); lia).
  destruct arg as [w|c|s].
  - congruence.
  - rewrite (Hs p) by lia. done.
  - rewrite Hp. destruct Ha as (? & ? & ? & ? & ?). split_and!; try done.
    eapply cstr_agree; [|done]. eapply agree_weaken; [|exact Hs]. simpl. lia.
Qed.

Lemma args_at_same r r' ap args : same_outside r r' -> args_at r ap args -> args_at r' ap args.
Proof.
  intros Hs. revert ap. induction args as [|a args IH]; intros ap; simpl; [done|].
  intros [??]. split; [by eapply arg_at_same|auto].
Qed.

Lemma filled_puts r out s :
  filled r out -> Forall (fun c => 0 < c < 256) s ->
  lo + Z.of_nat (length (out ++ s)) <= hi ->
  filled (ram_puts r (lo + Z.of_nat (length out)) s) (out ++ s) /\
  same_outside r (ram_puts r (lo + Z.of_nat (length out)) s).
Proof.
  intros [H1 H2] Hs Hlen. rewrite length_app in Hlen. split; [split|].
  - intros i c Hi. rewrite ld8_ram_puts. apply lookup_app_Some in Hi as [Hi|[Hge Hi]].
    + apply lookup_lt_Some in Hi as Hlt. rewrite decide_False by lia. auto.
    + rewrite decide_True by lia.
      replace (Z.to_nat (lo + Z.of_nat i - (lo + Z.of_nat (length out))))
        with (i - length out)%nat by lia.
      rewrite Hi. apply u8_id. rewrite Forall_forall in Hs.
      apply list_elem_of_lookup_2, Hs in Hi. lia.
  - intros a Ha. rewrite length_app in Ha. rewrite ld8_ram_puts_out by lia. apply H2. lia.
  - intros a Ha. apply ld8_ram_puts_out. lia.
Qed.

Lemma filled_copy r out src s :
  filled r out -> cstr r src s -> out_of_buf src (Z.of_nat (length s) + 1) ->
  lo + Z.of_nat (length (out ++ s)) < hi ->
  let r' := ram_copy r (lo + Z.of_nat (length out)) src (S (length s)) in
  filled r' (out ++ s) /\ same_outside r r'.
Proof.
  intros [H1 H2] Hs Ho Hlen. unfold out_of_buf in Ho. rewrite length_app in Hlen.
  assert (Hsrc : forall i c, (s ++ [0]) !! i = Some c -> ld8 r (src + Z.of_nat i) = c).
  { intros i c Hi. apply lookup_app_Some in Hi as [Hi|[Hge Hi]].
    - rewrite <- (app_nil_r s) in Hs. apply cstr_app in Hs as [Hs _]. by apply Hs.
    - apply list_lookup_singleton_Some in Hi as [? <-].
      rewrite <- (app_nil_r s) in Hs. apply cstr_app in Hs as [_ Hs].
      by replace i with (length s) by lia. }
  cbv zeta. split; [split|].
  - intros i c Hi. rewrite ld8_ram_copy by lia.
    apply lookup_app_Some in Hi as [Hi|[Hge Hi]].
    + apply lookup_lt_Some in Hi as Hlt. rewrite decide_False by lia. auto.
    + apply lookup_lt_Some in Hi as Hlt. rewrite decide_True by lia.
      rewrite <- (Hsrc (i - length out)%nat c) by (by apply lookup_app_l_Some).
      f_equal. lia.
  - intros a Ha. rewrite length_app in Ha. rewrite ld8_ram_copy by lia. case_decide.
    + rewrite <- (Hsrc (length s) 0) by (by apply list_lookup_middle). f_equal. lia.
    + apply H2. lia.
  - intros a Ha. rewrite ld8_ram_copy by lia. rewrite decide_False by lia. done.
Qed.

Lemma filled_cstr r out :
  filled r out -> Forall (fun c => 0 < c < 256) out ->
  lo + Z.of_nat (length out) < hi -> cstr r lo out.
Proof.
  intros [H1 H2] Hout Hlen. rewrite <- (app_nil_r out). apply cstr_app. split.
  - intros i c Hi. split; [auto|]. rewrite Forall_forall in Hout.
    apply list_elem_of_lookup_2, Hout in Hi. lia.
  - apply H2. lia.
Qed.

(** The rest of the format, from a state where [out] is printed. *)
Definition loop_ok (n : nat) (out f : list Z) (idx ap : Z) (args : list fmt_arg)
    (res : list Z) (m : mach) : Prop :=
  exists r', vsprintf_loop n sfuel (lo + Z.of_nat (length out)) idx (List.hd 0 f) ap m =
               Ok (tt, set_ram r' m) /\
             filled r' (out ++ res) /\ same_outside (ram m) r'.

(** One directive that printed [s] and goes on with [f]. *)
Lemma loop_ok_step n out s f idx ap args res (m : mach) (r1 : gmap Z Z) :
  same_outside (ram m) r1 ->
  loop_ok n (out ++ s) f idx ap args res (set_ram r1 m) ->
  exists r', vsprintf_loop n sfuel (lo + Z.of_nat (length out) + Z.of_nat (length s))
               idx (List.hd 0 f) ap (set_ram r1 m) = Ok (tt, set_ram r' m) /\
             filled r' (out ++ s ++ res) /\ same_outside (ram m) r'.
Proof.
  intros Hs (r' & Hr & Hf & Ha). exists r'.
  rewrite length_app, Nat2Z.inj_add, Z.add_assoc in Hr. rewrite app_assoc.
  split_and!; [done|done|]. by transitivity r1.
Qed.

Lemma ram_set_ram r m : ram (set_ram r m) = r.
Proof. done. Qed.

Lemma cstr_hd r idx f : cstr r idx f -> ld8 r idx = List.hd 0 f.
Proof. destruct f; simpl; [done|]. by intros [? _]. Qed.

Lemma cstr_tail r idx c f : cstr r idx (c :: f) -> cstr r (idx + 1) f.
Proof. by intros (_ & _ & ?). Qed.

Lemma cstr_same r r' idx f :
  same_outside r r' -> out_of_buf idx (Z.of_nat (length f) + 1) -> cstr r idx f -> cstr r' idx f.
Proof.
  intros Hs Ho. apply cstr_agree. eapply agree_weaken; [|exact Hs].
  unfold out_of_buf in Ho. simpl. lia.
Qed.

Lemma hex_text_eq w buf m :
  itoa itoa_fuel (u32 (ld32 (ram m) w)) buf 16 m =
  Ok (buf + Z.of_nat (length (hex_text (ld32 (ram m) w))),
      set_ram (ram_puts (ram m) buf (hex_text (ld32 (ram m) w))) m).
Proof.
  rewrite u32_id by apply ld32_range.
  destruct (itoa_spec 16 (ld32 (ram m) w) buf m) as (s & Hi & _ & ->);
    [by right|apply ld32_range|]. exact Hi.
Qed.

Lemma text_chars : forall w, Forall (fun c => 0 < c < 256) (hex_text w) /\
                             Forall (fun c => 0 < c < 256) (dec_text w).
Proof.
  assert (Hn : forall b v, 2 <= b <= 16 -> Forall (fun c => 0 < c < 256) (numeral itoa_fuel b v)).
  { intros b v Hb. eapply Forall_impl; [by apply numeral_chars|]. simpl. lia. }
  intros w. split; [apply Hn; lia|]. unfold dec_text.
  case_decide; [constructor; [lia|]|]; apply Hn; lia.
Qed.

(** The [%d] directive: sign and digits. *)
Lemma dec_text_eq w buf m :
  (r ← (if decide (i32 w < 0)
        then store8 buf 45;; mret (i32 (0 - i32 w), buf + 1)
        else mret (i32 w, buf));
   itoa itoa_fuel (u32 r.1) r.2 10) m =
  Ok (buf + Z.of_nat (length (dec_text w)), set_ram (ram_puts (ram m) buf (dec_text w)) m).
Proof.
  unfold dec_text. case_decide.
  - mstep. cbn [fst snd].
    destruct (itoa_spec 10 (u32 (i32 (0 - i32 w))) (buf + 1) (set_ram (st8 (ram m) buf 45) m))
      as (s & Hi & _ & ->); [by left|apply u32_range|].
    rewrite Hi. unfold mret, M_ret. do 2 f_equal. simpl. lia.
  - mstep. cbn [fst snd].
    destruct (itoa_spec 10 (u32 (i32 w)) buf m) as (s & Hi & _ & ->);
      [by left|apply u32_range|]. exact Hi.
Qed.

(** What the loop needs before the rest [f] of the format. *)
Record loop_pre (n : nat) (out f : list Z) (idx ap : Z) (args : list fmt_arg) (res : list Z) (m : mach) : Prop := {
  lp_format : cstr (ram m) idx f;
  lp_format_out : out_of_buf idx (Z.of_nat (length f) + 1);
  lp_args : args_at (ram m) ap args;
  lp_render : render f args = Some res;
  lp_filled : filled (ram m) out;
  lp_fuel : (length f < n)%nat;
  lp_room : lo + Z.of_nat (length (out ++ res)) < hi
}.

(** The loop with [n] rounds does what is asked of it. *)
Definition loops (n : nat) : Prop :=
  forall out f idx ap args res m, loop_pre n out f idx ap args res m -> loop_ok n out f idx ap args res m.

(** The character after a directive that printed [s]. *)
Lemma loop_next n (m : mach) (r1 : gmap Z Z) out s g idx ap args res :
  loops n -> same_outside (ram m) r1 -> filled r1 (out ++ s) ->
  cstr (ram m) idx g -> out_of_buf idx (Z.of_nat (length g) + 1) -> args_at (ram m) ap args ->
  render g args = Some res -> (length g < n)%nat -> lo + Z.of_nat (length (out ++ s ++ res)) < hi ->
  exists r', (index_char ← load8 idx;
              vsprintf_loop n sfuel (lo + Z.of_nat (length out) + Z.of_nat (length s)) idx index_char ap)
               (set_ram r1 m) = Ok (tt, set_ram r' m) /\
             filled r' (out ++ s ++ res) /\ same_outside (ram m) r'.
Proof.
  intros IH Hs Hf Hg Hog Ha Hr Hn Hlen. mstep.
  rewrite ram_set_ram, (cstr_hd r1 idx g) by (by eapply cstr_same).
  apply loop_ok_step with args; [done|]. apply IH.
  split; simpl; [by eapply cstr_same|done|by eapply args_at_same|done..|by rewrite <- app_assoc].
Qed.

(** A directive that puts the characters [s]. *)
Lemma puts_next n (m : mach) out s g idx ap args res :
  loops n -> filled (ram m) out -> Forall (fun c => 0 < c < 256) s ->
  cstr (ram m) idx g -> out_of_buf idx (Z.of_nat (length g) + 1) -> args_at (ram m) ap args ->
  render g args = Some res -> (length g < n)%nat -> lo + Z.of_nat (length (out ++ s ++ res)) < hi ->
  exists r', (index_char ← load8 idx;
              vsprintf_loop n sfuel (lo + Z.of_nat (length out) + Z.of_nat (length s)) idx index_char ap)
               (set_ram (ram_puts (ram m) (lo + Z.of_nat (length out)) s) m) = Ok (tt, set_ram r' m) /\
             filled r' (out ++ s ++ res) /\ same_outside (ram m) r'.
Proof.
  intros IH Hfl Hs Hg Hog Ha Hr Hn Hlen.
  destruct (filled_puts (ram m) out s) as [Hf1 Hs1]; [done|done| |].
  { rewrite !length_app in *. lia. }
  by eapply loop_next.
Qed.

(** The [%s] directive. *)
Lemma str_next n (m : mach) out s g idx ap args res :
  loops n -> filled (ram m) out -> arg_at (ram m) (ap + 4) (AStr s) ->
  cstr (ram m) idx g -> out_of_buf idx (Z.of_nat (length g) + 1) -> args_at (ram m) (ap + 4) args ->
  render g args = Some res -> (length g < n)%nat -> lo + Z.of_nat (length (out ++ s ++ res)) < hi ->
  exists r', (strcpy sfuel (lo + Z.of_nat (length out)) (ld32 (ram m) (ap + 4));;
              k ← strlen sfuel (ld32 (ram m) (ap + 4));
              index_char ← load8 idx;
              vsprintf_loop n sfuel (lo + Z.of_nat (length out) + k) idx index_char (ap + 4)) m =
               Ok (tt, set_ram r' m) /\
             filled r' (out ++ s ++ res) /\ same_outside (ram m) r'.
Proof.
  intros IH Hfl [_ (Hq & Hw & Hwn & Hwl & Hwo)] Hg Hog Ha Hr Hn Hlen.
  pose proof Hlen as Hlen'. rewrite !length_app in Hlen'. unfold out_of_buf in Hwo.
  destruct (filled_copy (ram m) out (ld32 (ram m) (ap + 4)) s) as [Hf1 Hs1];
    [done..|rewrite length_app; lia|]. cbv zeta in Hf1, Hs1.
  rewrite (bind_Ok _ _ _ _ _ (strcpy_eq sfuel (lo + Z.of_nat (length out))
    (ld32 (ram m) (ap + 4)) s m ltac:(lia) Hq Hw Hwn ltac:(lia))).
  assert (Hw1 : cstr (ram_copy (ram m) (lo + Z.of_nat (length out))
                        (ld32 (ram m) (ap + 4)) (S (length s))) (ld32 (ram m) (ap + 4)) s)
    by (by eapply cstr_same).
  rewrite (bind_Ok _ _ _ _ _ (strlen_spec sfuel _ s
    (set_ram (ram_copy (ram m) _ _ (S (length s))) m) Hq Hw1 Hwn)).
  rewrite u32_id by lia. by eapply loop_next.
Qed.

(** The character [d] after a [%]. *)
Lemma directive_next n (m : mach) out d f idx ap args res :
  loops n -> loop_pre (S n) out (37 :: d :: f) idx ap args res m ->
  loop_ok (S n) out (37 :: d :: f) idx ap args res m.
Proof.
  intros IH [Hf Hof Ha Hr Hfl Hn Hlen]. unfold loop_ok. simpl in Hr, Hof, Hn.
  apply cstr_tail in Hf. pose proof (cstr_tail _ _ _ _ Hf) as Hf2.
  cbn [List.hd vsprintf_loop]. rewrite decide_True, decide_False by lia. mstep.
  rewrite (cstr_hd _ _ _ Hf). cbn [List.hd].
  assert (Hof2 : out_of_buf (idx + 1 + 1) (Z.of_nat (length f) + 1)) by (unfold out_of_buf in *; lia).
  destruct (decide (d = 120)) as [Hx|Hx].
  { destruct args as [|[w|?|?] args]; try done. apply fmap_Some in Hr as (res' & Hr & ->).
    destruct Ha as [[_ Hw] Ha]. simpl in Hw. mstep. rewrite (bind_Ok _ _ _ _ _ (hex_text_eq _ _ _)), Hw.
    eapply puts_next; try done; [apply text_chars|lia]. }
  destruct (decide (d = 99)) as [Hch|Hch].
  { destruct args as [|[?|w|?] args]; try done. apply fmap_Some in Hr as (res' & Hr & ->).
    destruct Ha as [[_ [Hw Hw0]] Ha]. mstep. mstep. rewrite Hw.
    apply (puts_next n m out [w] f (idx + 1 + 1) (ap + 4) args res'); try done; [|lia].
    apply Forall_singleton. pose proof (ld8_range (ram m) (ap + 4)). lia. }
  destruct (decide (d = 115)) as [Hst|Hst].
  { destruct args as [|[?|?|w] args]; try done. apply fmap_Some in Hr as (res' & Hr & ->).
    destruct Ha as [Hw Ha]. mstep. eapply str_next; try done. lia. }
  destruct (decide (d = 100)) as [Hd|Hd].
  { destruct args as [|[w|?|?] args]; try done. apply fmap_Some in Hr as (res' & Hr & ->).
    destruct Ha as [[_ Hw] Ha]. simpl in Hw. mstep. rewrite Hw, <- bind_assoc, (bind_Ok _ _ _ _ _ (dec_text_eq _ _ _)).
    eapply puts_next; try done; [apply text_chars|lia]. }
  apply (IH out (d :: f) (idx + 1) ap args res m). split; simpl; try done; [|lia]. unfold out_of_buf in *. lia.
Qed.

Lemma vsprintf_loop_spec n : loops n.
Proof.
  induction n as [|n IH]; intros out f idx ap args res m HP; [destruct HP; lia|].
  pose proof HP as [Hf Hof Ha Hr Hfl Hn Hlen].
  destruct f as [|c f]; unfold loop_ok; simpl in Hr.
  { injection Hr as <-. exists (ram m). rewrite app_nil_r. by destruct m. }
  pose proof (cstr_bytes _ _ _ Hf) as Hb. apply Forall_cons in Hb as [Hc _]. simpl in Hof, Hn.
  destruct (decide (c = 37)) as [->|Hp].
  - destruct f as [|d f]; [|by apply (directive_next n m out d f idx ap args res)].
    injection Hr as <-. apply cstr_tail in Hf. cbn [List.hd vsprintf_loop].
    rewrite decide_True, decide_False by lia. mstep. rewrite (cstr_hd _ _ _ Hf).
    destruct n as [|n]; [simpl in Hn; lia|]. exists (ram m). rewrite app_nil_r. by destruct m.
  - rewrite decide_True in Hr by done. apply fmap_Some in Hr as (res' & Hr & ->).
    cbn [List.hd vsprintf_loop]. rewrite !decide_True by lia. mstep. apply cstr_tail in Hf as Hf2.
    apply (puts_next n m out [c] f (idx + 1) ap args res'); try done; [by apply Forall_singleton| |lia].
    unfold out_of_buf in *. lia.
Qed.

(** [vsprintf] into a zeroed buffer large enough: it writes the text of
    the format, nothing outside the buffer, and returns its length. *)
Lemma vsprintf_text n format f ap args res m :
  cstr (ram m) format f -> out_of_buf format (Z.of_nat (length f) + 1) ->
  args_at (ram m) ap args -> render f args = Some res ->
  filled (ram m) [] -> (length f < n)%nat -> (length res < sfuel)%nat ->
  Forall (fun c => 0 < c < 256) res ->
  lo + Z.of_nat (length res) < hi -> hi <= 4294967296 ->
  exists r', vsprintf n sfuel lo format ap m = Ok (Z.of_nat (length res), set_ram r' m) /\
             cstr r' lo res /\ same_outside (ram m) r'.
Proof.
  intros Hf Hof Ha Hr Hfl Hn Hns Hres Hlen Hhi.
  destruct (vsprintf_loop_spec n [] f format ap args res m) as (r' & Hrun & Hfill & Hsame);
    [by split|].
  assert (Hc : cstr r' lo res) by (by apply filled_cstr).
  exists r'. split_and!; [|done|done]. unfold vsprintf. mstep.
  rewrite (cstr_hd _ _ _ Hf). simpl in Hrun. rewrite Z.add_0_r in Hrun.
  rewrite (bind_Ok _ _ _ _ _ Hrun), (strlen_spec sfuel lo res) by (done || lia).
  apply Ok_val, u32_id. lia.
Qed.
End Vsprintf.

(** The rendered text has no NUL when the arguments have none. *)
Lemma render_chars f args res :
  Forall (fun c => 0 < c < 256) f ->
  Forall (fun a => match a with
                   | AWord _ => True
                   | AChar c => 0 < c < 256
                   | AStr s => Forall (fun c => 0 < c < 256) s
                   end) args ->
  render f args = Some res -> Forall (fun c => 0 < c < 256) res.
Proof.
  remember (length f) as k eqn:Hk. revert f args res Hk.
  induction k as [k IH] using lt_wf_ind. intros [|c f] args res -> Hf Ha Hr; simpl in *.
  { injection Hr as <-. constructor. }
  apply Forall_cons in Hf as [Hc Hf]. case_decide as Hp.
  { apply fmap_Some in Hr as (r & Hr & ->). constructor; [done|].
    by apply (IH (length f) ltac:(lia) f args). }
  destruct f as [|d f]; [by injection Hr as <-|].
  pose proof Hf as [Hd Hf2]%Forall_cons. simpl in IH.
  repeat case_decide;
    try (destruct args as [|[?|?|?] args]; try done;
         apply Forall_cons in Ha as [Ha0 Ha];
         apply fmap_Some in Hr as (r & Hr & ->);
         apply (IH (length f) ltac:(lia) f args r) in Hr; [|done..]).
  - apply Forall_app. split; [apply text_chars|done].
  - by constructor.
  - by apply Forall_app.
  - apply Forall_app. split; [apply text_chars|done].
  - by apply (IH (S (length f)) ltac:(lia) (d :: f) args).
Qed.

(** ** Theorems *)

(** C37: [vsprintf] into a zeroed buffer that is large enough writes the text
    of the format with its arguments, nothing outside the buffer, and returns
    the text's length. *)
Theorem vsprintf_spec lo hi sfuel n format f ap args res m :
  0 < lo -> cstr (ram m) format f -> out_of_buf lo hi format (Z.of_nat (length f) + 1) ->
  args_at lo hi sfuel (ram m) ap args -> render f args = Some res ->
  filled lo hi (ram m) [] -> (length f < n)%nat -> (length res < sfuel)%nat ->
  Forall (fun c => 0 < c < 256) res ->
  lo + Z.of_nat (length res) < hi -> hi <= 4294967296 ->
  exists r', vsprintf n sfuel lo format ap m = Ok (Z.of_nat (length res), set_ram r' m) /\
             cstr r' lo res /\ agree (fun a => ~ lo <= a < hi) (ram m) r'.
Proof. intros Hlo. by apply vsprintf_text. Qed.

(** "a%d%x" with -5 and 255. *)
Definition demo_fmt : mach :=
  Mach (st32 (st32 (bytes_at 16 [97; 37; 100; 37; 120] ∅) 36 4294967291) 40 255) 2 [] [].

Lemma vsprintf_spec_witness :
  exists r', vsprintf 10 10 64 16 32 demo_fmt = Ok (5, set_ram r' demo_fmt) /\
    cstr r' 64 [97; 45; 53; 70; 70] /\ agree (fun a => ~ 64 <= a < 80) (ram demo_fmt) r'.
Proof.
  apply (vsprintf_spec 64 80 10 10 16 [97; 37; 100; 37; 120] 32 [AWord 4294967291; AWord 255]
           [97; 45; 53; 70; 70]); try lia; try (simpl; lia).
  - by vm_compute.
  - left. simpl. lia.
  - split; [split; [left; lia|]|split; [split; [left; lia|]|done]]; by vm_compute.
  - by vm_compute.
  - split; [done|]. intros a Ha. simpl in Ha.
    unfold demo_fmt. cbn [ram]. unfold ld8, bytes_at, st32, st8.
    rewrite !lookup_insert_ne by lia. by rewrite lookup_empty.
  - repeat constructor.
Defined.

(** The digits [itoa] writes are the numeral of the value. *)
Theorem itoa_numeral base value buf m :
  base = 10 \/ base = 16 -> 0 <= value < 4294967296 ->
  exists s, itoa itoa_fuel value buf base m =
              Ok (buf + Z.of_nat (length s), set_ram (ram_puts (ram m) buf s) m) /\
            numeral_value base s = value.
Proof.
  intros Hb Hv. destruct (itoa_spec base value buf m Hb Hv) as (s & Hs & Hn & _). by exists s.
Qed.

Lemma itoa_numeral_witness :
  exists s, itoa itoa_fuel 255 64 16 demo_fmt =
              Ok (64 + Z.of_nat (length s), set_ram (ram_puts (ram demo_fmt) 64 s) demo_fmt) /\
            numeral_value 16 s = 255.
Proof. apply itoa_numeral; [by right|lia]. Defined.
