(* ===== verification/Paging.v ===== *)
(** * Page tables: the addressing half of [kernel/memory.c]

    Physical words, the two-level walk the processor performs on them, and
    the functions of [kernel/memory.c] that reach page-table entries
    through the recursive directory slot 1023. *)
From S2P Require Import Prelude.

Definition PG_P_1 : Z := 1.
Definition PG_RW_W : Z := 2.
Definition PG_US_U : Z := 4.

(** ** The processor's side *)

Record paging := Paging {
  cr3 : Z;                   (* physical address of the page directory *)
  pwords : gmap Z Z          (* 32-bit word at each physical address *)
}.

Definition pread (pg : paging) (a : Z) : Z := u32 (default 0 (pwords pg !! a)).
Definition pwrite (pg : paging) (a v : Z) : paging :=
  Paging (cr3 pg) (<[a := u32 v]> (pwords pg)).

(** Fields of a linear address and of an entry (Intel SDM, 32-bit paging). *)
Definition dir_index (v : Z) : Z := v / 4194304.
Definition tbl_index (v : Z) : Z := v / 4096 mod 1024.
Definition page_off (v : Z) : Z := v mod 4096.
Definition present (e : Z) : bool := Z.testbit e 0.
Definition frame (e : Z) : Z := e / 4096 * 4096.

Definition pde_word (pg : paging) (v : Z) : Z := cr3 pg + 4 * dir_index v.
Definition pde (pg : paging) (v : Z) : Z := pread pg (pde_word pg v).
Definition pte_word (pg : paging) (v : Z) : Z := frame (pde pg v) + 4 * tbl_index v.
Definition pte (pg : paging) (v : Z) : Z := pread pg (pte_word pg v).

Definition walk (pg : paging) (v : Z) : option Z :=
  if present (pde pg v) && present (pte pg v)
  then Some (frame (pte pg v) + page_off v) else None.

Definition page_fault {S A} : M S A := panic "#PF Page-Fault Exception".

(** A 32-bit access at a linear address. *)
Definition vload32 (v : Z) : M paging Z := fun pg =>
  match walk pg v with Some p => Ok (pread pg p, pg) | None => page_fault pg end.
Definition vstore32 (v w : Z) : M paging unit := fun pg =>
  match walk pg v with Some p => Ok (tt, pwrite pg p w) | None => page_fault pg end.

(** ** The code *)

Definition PDE_IDX (addr : Z) : Z := Z.shiftr (Z.land addr 0xFFC00000) 22.
Definition PTE_IDX (addr : Z) : Z := Z.shiftr (Z.land addr 0x003FF000) 12.

Definition pte_ptr (vaddr : Z) : Z :=
  u32 (0xffc00000 + Z.shiftr (Z.land vaddr 0xffc00000) 10 + PTE_IDX vaddr * 4).

Definition pde_ptr (vaddr : Z) : Z := u32 (0xfffff000 + PDE_IDX vaddr * 4).

Definition addr_v2p (vaddr : Z) : M paging Z :=
  w ← vload32 (pte_ptr vaddr);
  mret (u32 (Z.land w 0xfffff000 + Z.land vaddr 0x00000fff)).

(** [*pte &= ~PG_P_1]; the translation cache [invlpg] concerns is not part
    of the machine. *)
Definition page_table_pte_remove (vaddr : Z) : M paging unit :=
  w ← vload32 (pte_ptr vaddr);
  vstore32 (pte_ptr vaddr) (Z.land w (u32 (Z.lnot PG_P_1))).

(** [(page_phyaddr | PG_US_U | PG_RW_W | PG_P_1)] *)
Definition entry (phyaddr : Z) : Z :=
  Z.lor (Z.lor (Z.lor phyaddr PG_US_U) PG_RW_W) PG_P_1.

(** ** The recursive slot *)

Definition vaddr_ok (v : Z) : Prop := 0 <= v < 4294967296.

(** Directory slot 1023 points back at the directory. *)
Definition rec_slot (pg : paging) : Prop :=
  cr3 pg mod 4096 = 0 /\
  present (pread pg (cr3 pg + 4 * 1023)) = true /\
  frame (pread pg (cr3 pg + 4 * 1023)) = cr3 pg.

Lemma pread_range pg a : 0 <= pread pg a < 4294967296.
Proof. apply u32_range. Qed.

Lemma pread_pwrite pg a b v :
  pread (pwrite pg a v) b = if decide (a = b) then u32 v else pread pg b.
Proof.
  unfold pread, pwrite. simpl. rewrite lookup_insert.
  case_decide; [|done]. simpl. apply u32_idem.
Qed.

Lemma PDE_IDX_eq v : vaddr_ok v -> PDE_IDX v = dir_index v.
Proof.
  intros Hv. unfold PDE_IDX, dir_index. rewrite land_dir, Z.shiftr_div_pow2 by (done || lia).
  change (2 ^ 22) with 4194304. apply Z.div_mul. lia.
Qed.

Lemma PTE_IDX_eq v : vaddr_ok v -> PTE_IDX v = tbl_index v.
Proof.
  intros Hv. unfold PTE_IDX, tbl_index. rewrite land_tbl, Z.shiftr_div_pow2 by (done || lia).
  change (2 ^ 12) with 4096. apply Z.div_mul. lia.
Qed.

Lemma dir_index_range v : vaddr_ok v -> 0 <= dir_index v < 1024.
Proof. unfold vaddr_ok, dir_index. intros. Z.div_mod_to_equations; lia. Qed.
Lemma tbl_index_range v : 0 <= tbl_index v < 1024.
Proof. apply Z.mod_pos_bound. lia. Qed.

Lemma pte_ptr_eq v :
  vaddr_ok v -> pte_ptr v = 0xffc00000 + 4096 * dir_index v + 4 * tbl_index v.
Proof.
  intros Hv. unfold pte_ptr. rewrite PTE_IDX_eq, land_dir, Z.shiftr_div_pow2 by (done || lia).
  change (2 ^ 10) with 1024. pose proof (dir_index_range v Hv). pose proof (tbl_index_range v).
  replace (v / 4194304 * 4194304 / 1024) with (4096 * dir_index v)
    by (unfold dir_index; Z.div_mod_to_equations; lia).
  rewrite u32_id by lia. lia.
Qed.

Lemma pde_ptr_eq v : vaddr_ok v -> pde_ptr v = 0xfffff000 + 4 * dir_index v.
Proof.
  intros Hv. unfold pde_ptr. rewrite PDE_IDX_eq by done.
  pose proof (dir_index_range v Hv). rewrite u32_id by lia. lia.
Qed.

(** The indices of the addresses the two functions answer. *)
Lemma pte_ptr_fields v : vaddr_ok v ->
  dir_index (pte_ptr v) = 1023 /\ tbl_index (pte_ptr v) = dir_index v /\
  page_off (pte_ptr v) = 4 * tbl_index v.
Proof.
  intros Hv. rewrite pte_ptr_eq by done.
  pose proof (dir_index_range v Hv). pose proof (tbl_index_range v).
  generalize dependent (dir_index v). generalize dependent (tbl_index v).
  intros t Ht d Hd. unfold dir_index, tbl_index, page_off.
  split_and!; Z.div_mod_to_equations; lia.
Qed.

Lemma pde_ptr_fields v : vaddr_ok v ->
  dir_index (pde_ptr v) = 1023 /\ tbl_index (pde_ptr v) = 1023 /\
  page_off (pde_ptr v) = 4 * dir_index v.
Proof.
  intros Hv. rewrite pde_ptr_eq by done. pose proof (dir_index_range v Hv).
  generalize dependent (dir_index v). intros d Hd. unfold dir_index, tbl_index, page_off.
  split_and!; Z.div_mod_to_equations; lia.
Qed.

Lemma walk_fields pg v :
  walk pg v =
  let pd := pread pg (cr3 pg + 4 * dir_index v) in
  let pt := pread pg (frame pd + 4 * tbl_index v) in
  if present pd && present pt then Some (frame pt + page_off v) else None.
Proof. done. Qed.

(** Reading or writing through [pde_ptr v] reaches the word the processor
    uses as the directory entry of [v]. *)
Lemma walk_pde_ptr pg v :
  vaddr_ok v -> rec_slot pg -> walk pg (pde_ptr v) = Some (pde_word pg v).
Proof.
  intros Hv (_ & Hp & Hf). rewrite walk_fields.
  destruct (pde_ptr_fields v Hv) as (-> & -> & ->). simpl.
  rewrite Hp, Hf, Hp, Hf. done.
Qed.

(** Reading or writing through [pte_ptr v] reaches the word the processor
    uses as the table entry of [v], when a table is installed. *)
Lemma walk_pte_ptr pg v :
  vaddr_ok v -> rec_slot pg ->
  walk pg (pte_ptr v) = if present (pde pg v) then Some (pte_word pg v) else None.
Proof.
  intros Hv (_ & Hp & Hf). rewrite walk_fields.
  destruct (pte_ptr_fields v Hv) as (-> & -> & ->). simpl.
  rewrite Hp, Hf. done.
Qed.

(** [addr_v2p] answers what the processor's walk answers. *)
Lemma addr_v2p_walk pg v p :
  vaddr_ok v -> rec_slot pg -> walk pg v = Some p -> addr_v2p v pg = Ok (p, pg).
Proof.
  intros Hv Hr Hw. unfold walk in Hw.
  destruct (present (pde pg v)) eqn:Hpd; [|done].
  destruct (present (pte pg v)) eqn:Hpt; [|done]. injection Hw as <-.
  unfold addr_v2p, vload32, mbind, M_bind. rewrite walk_pte_ptr, Hpd by done.
  apply Ok_val. pose proof (pread_range pg (pte_word pg v)) as Hr1.
  rewrite land_page, land_off by done. fold (pte pg v) in *. fold (page_off v).
  unfold frame, page_off. unfold vaddr_ok in Hv. apply u32_id.
  Z.div_mod_to_equations; lia.
Qed.

(** ** Installing entries *)

Lemma entry_eq p : p mod 4096 = 0 -> entry p = p + 7.
Proof.
  intros Hp. unfold entry, PG_US_U, PG_RW_W, PG_P_1. rewrite <- !Z.lor_assoc.
  change (Z.lor 4 (Z.lor 2 1)) with 7.
  assert (Hl : Z.land p 7 = 0).
  { change 7 with (Z.ones 3). rewrite Z.land_ones by lia. change (2 ^ 3) with 8.
    Z.div_mod_to_equations; lia. }
  by rewrite <- Z.lxor_lor, <- Z.add_nocarry_lxor.
Qed.

Definition frame_ok (p : Z) : Prop := 0 <= p < 4294967296 /\ p mod 4096 = 0.

Lemma entry_spec p : frame_ok p ->
  u32 (entry p) = entry p /\ present (entry p) = true /\ frame (entry p) = p.
Proof.
  intros [Hr Hp]. rewrite entry_eq by done. split_and!.
  - apply u32_id. Z.div_mod_to_equations; lia.
  - unfold present. rewrite Z.bit0_odd, Z.odd_add.
    assert (Hodd : Z.odd p = false).
    { rewrite Zodd_mod. Z.div_mod_to_equations. destruct (Z.eqb_spec r0 1); lia. }
    by rewrite Hodd.
  - unfold frame. Z.div_mod_to_equations; lia.
Qed.

(** The directory is recursive and no page table lies in the directory. *)
Definition tables_ok (pg : paging) : Prop :=
  rec_slot pg /\
  forall u, vaddr_ok u -> dir_index u < 1023 -> present (pde pg u) = true ->
            frame (pde pg u) <> cr3 pg.

Lemma frame_mod e : frame e mod 4096 = 0.
Proof. unfold frame. apply Z.mod_mul. lia. Qed.

(** Words of different frames are different words. *)
Lemma word_ne a b i j :
  a mod 4096 = 0 -> b mod 4096 = 0 -> a <> b -> 0 <= i < 1024 -> 0 <= j < 1024 ->
  a + 4 * i <> b + 4 * j.
Proof. intros. Z.div_mod_to_equations; lia. Qed.

Section Store.
Context (pg : paging) (v e : Z).
Context (Hok : tables_ok pg) (Hv : vaddr_ok v) (Hd : dir_index v < 1023).
Context (Hp : present (pde pg v) = true).
Let pg' : paging := pwrite pg (pte_word pg v) e.

Lemma store_pte_dir d : 0 <= d < 1024 ->
  pread pg' (cr3 pg' + 4 * d) = pread pg (cr3 pg + 4 * d).
Proof.
  intros Hd'. subst pg'. simpl. rewrite pread_pwrite, decide_False; [done|].
  destruct Hok as [(Hc & _) Ht]. unfold pte_word.
  apply word_ne; [apply frame_mod|done|by apply Ht|apply tbl_index_range|done].
Qed.

Lemma store_pte_pde u : vaddr_ok u -> pde pg' u = pde pg u.
Proof. intros Hu. by apply store_pte_dir, dir_index_range. Qed.

Lemma store_pte_tables_ok : tables_ok pg'.
Proof.
  destruct Hok as [(Hc & Hr1 & Hr2) Ht]. split.
  - split; [done|]. rewrite store_pte_dir by lia. done.
  - intros u Hu Hdu. rewrite store_pte_pde by done. by apply Ht.
Qed.

(** The new entry is what the processor finds at [v] and at every other
    address served by the same word; nothing else changes. *)
Lemma store_pte_walk u : vaddr_ok u ->
  walk pg' u =
  if present (pde pg u) then
    let t := if decide (pte_word pg u = pte_word pg v) then u32 e else pte pg u in
    if present t then Some (frame t + page_off u) else None
  else None.
Proof.
  intros Hu. unfold walk. rewrite store_pte_pde by done.
  destruct (present (pde pg u)); [|done]. simpl.
  unfold pte at 1 2. unfold pte_word at 1 2. rewrite store_pte_pde by done.
  fold (pte_word pg u). subst pg'. rewrite pread_pwrite.
  by rewrite (decide_ext (pte_word pg v = pte_word pg u) (pte_word pg u = pte_word pg v)) by done.
Qed.
End Store.

(** Page-table pages that are in use serve a word each. *)
Definition same_slot (pg : paging) (u v : Z) : Prop :=
  present (pde pg u) = true /\ pte_word pg u = pte_word pg v.

(** [*pte = entry] and [*pte &= ~PG_P_1] through the recursive slot. *)
Lemma vstore_pte_eq pg v w :
  vaddr_ok v -> rec_slot pg -> present (pde pg v) = true ->
  vstore32 (pte_ptr v) w pg = Ok (tt, pwrite pg (pte_word pg v) w).
Proof. intros. unfold vstore32. by rewrite walk_pte_ptr, H1 by done. Qed.

Lemma vload_pte_eq pg v :
  vaddr_ok v -> rec_slot pg -> present (pde pg v) = true ->
  vload32 (pte_ptr v) pg = Ok (pte pg v, pg).
Proof. intros. unfold vload32. by rewrite walk_pte_ptr, H1 by done. Qed.

Lemma vload_pde_eq pg v :
  vaddr_ok v -> rec_slot pg -> vload32 (pde_ptr v) pg = Ok (pde pg v, pg).
Proof. intros. unfold vload32. by rewrite walk_pde_ptr by done. Qed.

Lemma vstore_pde_eq pg v w :
  vaddr_ok v -> rec_slot pg ->
  vstore32 (pde_ptr v) w pg = Ok (tt, pwrite pg (pde_word pg v) w).
Proof. intros. unfold vstore32. by rewrite walk_pde_ptr by done. Qed.

Lemma clear_present w : 0 <= w < 4294967296 -> present (u32 (Z.land w (u32 (Z.lnot PG_P_1)))) = false.
Proof.
  intros Hw. unfold present, u32. change 4294967296 with (2 ^ 32).
  rewrite Z.mod_pow2_bits_low by lia. rewrite Z.land_spec.
  change (Z.testbit (Z.lnot PG_P_1 mod 2 ^ 32) 0) with false. apply andb_false_r.
Qed.

(** After [page_table_pte_remove] the address no longer translates, nor does
    any address served by the same word; every other one is untouched. *)
Lemma page_table_pte_remove_spec pg v :
  vaddr_ok v -> tables_ok pg -> dir_index v < 1023 -> present (pde pg v) = true ->
  exists pg', page_table_pte_remove v pg = Ok (tt, pg') /\ tables_ok pg' /\ cr3 pg' = cr3 pg /\
    forall u, vaddr_ok u ->
      walk pg' u = if decide (same_slot pg u v) then None else walk pg u.
Proof.
  intros Hv Hok Hd Hp. pose proof Hok as [Hrec _].
  eexists. split.
  { unfold page_table_pte_remove. rewrite (bind_Ok _ _ _ _ _ (vload_pte_eq pg v Hv Hrec Hp)).
    by apply vstore_pte_eq. }
  split; [by apply store_pte_tables_ok|]. split; [done|].
  intros u Hu. rewrite store_pte_walk by done. unfold same_slot, walk.
  destruct (present (pde pg u)) eqn:Hpu; simpl.
  - destruct (decide (pte_word pg u = pte_word pg v)) as [He|He].
    + case_decide; [|naive_solver]. by rewrite clear_present by apply pread_range.
    + case_decide; [naive_solver|done].
  - done.
Qed.

(** ** Installing a page table *)

Fixpoint vmemset_words (n : nat) (va : Z) : M paging unit :=
  match n with
  | O => mret tt
  | S n => vstore32 va 0;; vmemset_words n (va + 4)
  end.

(** The words the loop clears. *)
Fixpoint pzero (pg : paging) (a : Z) (n : nat) : paging :=
  match n with O => pg | S n => pzero (pwrite pg a 0) (a + 4) n end.

Lemma pzero_cr3 pg a n : cr3 (pzero pg a n) = cr3 pg.
Proof. revert pg a. induction n as [|n IH]; intros pg a; simpl; [done|]. by rewrite IH. Qed.

Lemma pread_pzero pg a n b :
  pread (pzero pg a n) b =
  if decide (a <= b < a + 4 * Z.of_nat n /\ (b - a) mod 4 = 0) then 0 else pread pg b.
Proof.
  revert pg a. induction n as [|n IH]; intros pg a; simpl.
  - rewrite decide_False by lia. done.
  - rewrite IH, pread_pwrite. destruct (decide (a = b)) as [->|Hne].
    + rewrite decide_False by lia.
      rewrite decide_True by (rewrite Z.sub_diag; split; [lia|done]). done.
    + destruct (decide (a + 4 <= b < _ /\ _)) as [[H1 H2]|H1];
        [rewrite decide_True|rewrite decide_False]; try done.
      * split; [lia|]. Z.div_mod_to_equations; lia.
      * intros [H2 H3]. apply H1. split; Z.div_mod_to_equations; lia.
Qed.

Section Install.
Context (pg : paging) (v f : Z).
Context (Hok : tables_ok pg) (Hv : vaddr_ok v) (Hd : dir_index v < 1023).
Context (Hnp : present (pde pg v) = false) (Hf : frame_ok f) (Hfc : f <> cr3 pg).
Let pg1 : paging := pwrite pg (pde_word pg v) (entry f).
Let pg2 : paging := pzero pg1 f 1024.

Lemma install_dir1 d : 0 <= d < 1024 ->
  pread pg1 (cr3 pg + 4 * d) = if decide (d = dir_index v) then entry f else pread pg (cr3 pg + 4 * d).
Proof.
  intros Hd'. subst pg1. rewrite pread_pwrite. unfold pde_word.
  destruct (entry_spec f Hf) as [-> _]. repeat case_decide; try lia; done.
Qed.

Lemma install_dir d : 0 <= d < 1024 ->
  pread pg2 (cr3 pg + 4 * d) = if decide (d = dir_index v) then entry f else pread pg (cr3 pg + 4 * d).
Proof.
  intros Hd'. subst pg2. rewrite pread_pzero, decide_False; [by apply install_dir1|].
  destruct Hok as [(Hc & _) _], Hf as [_ Hfm]. Z.div_mod_to_equations; lia.
Qed.

Lemma install_cr3 : cr3 pg2 = cr3 pg.
Proof. subst pg2. by rewrite pzero_cr3. Qed.

Lemma install_pde u : vaddr_ok u ->
  pde pg2 u = if decide (dir_index u = dir_index v) then entry f else pde pg u.
Proof. intros Hu. unfold pde, pde_word. rewrite install_cr3. by apply install_dir, dir_index_range. Qed.

Lemma install_rec1 : rec_slot pg1.
Proof.
  destruct Hok as [(Hc & Hr1 & Hr2) _]. split; [done|]. simpl.
  change (cr3 pg1) with (cr3 pg). rewrite install_dir1, decide_False by lia. done.
Qed.

Lemma install_tables_ok : tables_ok pg2.
Proof.
  destruct Hok as [(Hc & Hr1 & Hr2) Ht]. split.
  - unfold rec_slot. rewrite install_cr3, install_dir, decide_False by lia. done.
  - intros u Hu Hdu. rewrite install_pde, install_cr3 by done. case_decide.
    + intros _. by destruct (entry_spec f Hf) as (_ & _ & ->).
    + by apply Ht.
Qed.

(** The loop clears the new table through its recursive address. *)
Lemma vmemset_table n i : 0 <= i -> i + Z.of_nat n <= 1024 ->
  forall pg0, rec_slot pg0 -> cr3 pg0 = cr3 pg -> pde pg0 v = entry f ->
  vmemset_words n (0xffc00000 + 4096 * dir_index v + 4 * i) pg0 =
  Ok (tt, pzero pg0 (f + 4 * i) n).
Proof.
  revert i. induction n as [|n IH]; intros i Hi Hn pg0 Hr Hc Hp0; [done|].
  pose proof (dir_index_range v Hv) as Hdr.
  assert (Hw : walk pg0 (0xffc00000 + 4096 * dir_index v + 4 * i) = Some (f + 4 * i)).
  { rewrite walk_fields.
    replace (dir_index (0xffc00000 + 4096 * dir_index v + 4 * i)) with 1023
      by (unfold dir_index at 1; Z.div_mod_to_equations; lia).
    replace (tbl_index (0xffc00000 + 4096 * dir_index v + 4 * i)) with (dir_index v)
      by (unfold tbl_index; Z.div_mod_to_equations; lia).
    replace (page_off (0xffc00000 + 4096 * dir_index v + 4 * i)) with (4 * i)
      by (unfold page_off; Z.div_mod_to_equations; lia).
    destruct Hr as (_ & Hr1 & Hr2). cbv zeta. rewrite Hr1, Hr2. simpl.
    fold (pde_word pg0 v). fold (pde pg0 v). rewrite Hp0.
    destruct (entry_spec f Hf) as (_ & -> & ->). done. }
  simpl. unfold vstore32 at 1, mbind, M_bind. rewrite Hw.
  replace (0xffc00000 + 4096 * dir_index v + 4 * i + 4)
    with (0xffc00000 + 4096 * dir_index v + 4 * (i + 1)) by lia.
  replace (f + 4 * i + 4) with (f + 4 * (i + 1)) by lia.
  assert (Hne : forall d, 0 <= d < 1024 ->
    pread (pwrite pg0 (f + 4 * i) 0) (cr3 pg0 + 4 * d) = pread pg0 (cr3 pg0 + 4 * d)).
  { intros d Hd'. rewrite pread_pwrite, decide_False; [done|]. rewrite Hc.
    destruct Hf as [_ Hfm], Hr as [Hcm _]. rewrite Hc in Hcm. apply word_ne; try done. lia. }
  apply IH; [lia|lia| |done|].
  - destruct Hr as (Hr0 & Hr1 & Hr2). split; [done|]. simpl.
    change (cr3 (pwrite pg0 (f + 4 * i) 0)) with (cr3 pg0). by rewrite Hne by lia.
  - unfold pde, pde_word. change (cr3 (pwrite pg0 (f + 4 * i) 0)) with (cr3 pg0).
    by rewrite Hne.
Qed.

(** A fresh table maps nothing; the other directory slots are untouched,
    so are the tables they point at, unless they are the new frame. *)
Lemma install_pte_zero u : vaddr_ok u -> dir_index u = dir_index v -> pte pg2 u = 0.
Proof.
  intros Hu He. unfold pte, pte_word. rewrite install_pde, decide_True by done.
  destruct (entry_spec f Hf) as (_ & _ & ->). pose proof (tbl_index_range u).
  subst pg2. rewrite pread_pzero, decide_True; [done|].
  split; [lia|]. Z.div_mod_to_equations; lia.
Qed.

Lemma install_walk u : vaddr_ok u -> dir_index u < 1023 ->
  (present (pde pg u) = true -> frame (pde pg u) <> f) ->
  walk pg2 u = walk pg u.
Proof.
  intros Hu Hdu Hfr. unfold walk. rewrite install_pde by done.
  destruct (decide (dir_index u = dir_index v)) as [He|He].
  - rewrite install_pte_zero, andb_false_r by done.
    assert (Hpu : pde pg u = pde pg v) by (unfold pde, pde_word; by rewrite He).
    by rewrite Hpu, Hnp.
  - destruct (present (pde pg u)) eqn:Hpu; [|done]. specialize (Hfr eq_refl).
    assert (Hpte : pte pg2 u = pte pg u).
    { unfold pte, pte_word. rewrite install_pde, decide_False by done.
      pose proof (tbl_index_range u). destruct Hf as [_ Hfm].
      pose proof (frame_mod (pde pg u)). subst pg2. rewrite pread_pzero, decide_False.
      - subst pg1. rewrite pread_pwrite, decide_False; [done|]. unfold pde_word.
        destruct Hok as [(Hc & _) Ht]. apply word_ne; try done.
        + intros Heq. by apply (Ht u Hu Hdu Hpu).
        + by apply dir_index_range.
      - Z.div_mod_to_equations; lia. }
    by rewrite Hpte.
Qed.
End Install.
