(* ===== verification/Kernel.v ===== *)
(** * The kernel state and kernel computations

    The state of the kernel's global variables, in one record per source
    file, and the monad of kernel code.  A kernel computation runs on the
    current thread's stack until it returns, panics, reaches [switch_to]
    ([Switch]: control leaves to another thread; the function is what this
    thread does when it is switched back), or reaches a point where the
    interrupt flag is set and an interrupt may be taken ([Window]). *)
From S2P Require Import Prelude Machine Bitmap Paging.

(** ** Threads: [thread/thread.h] *)

Definition MAX_FILES_OPEN_PER_PROC : nat := 8.
Definition STACK_MAGIC : Z := 0x19870916.

Inductive task_status :=
| TASK_RUNING | TASK_READY | TASK_BLOCKED | TASK_WAITING | TASK_HANGING | TASK_DIED.
#[export] Instance task_status_eq_dec : EqDecision task_status.
Proof. solve_decision. Defined.

(** [struct virtual_addr] of [kernel/memory.h]. *)
Record virtual_addr := VirtualAddr {
  vaddr_bitmap : bitmap;
  vaddr_start : Z
}.

(** [struct task_struct].  The list tags are the thread's membership in the
    lists of the state below; the [mem_block_desc] array lies in memory at
    [u_block_descs] of the PCB's address. *)
Record task_struct := Task {
  self_kstack : Z;
  pid : Z;
  status : task_status;
  name : list Z;
  priority : Z;
  ticks : Z;
  elapsed_ticks : Z;
  fd_table : list Z;
  pgdir : Z;
  userprog_vaddr : virtual_addr;
  stack_magic : Z
}.

(** A PCB after [memset(pthread, 0, sizeof( *pthread))]. *)
Definition task_zero : task_struct :=
  Task 0 0 TASK_RUNING [] 0 0 0 (replicate MAX_FILES_OPEN_PER_PROC 0) 0
    (VirtualAddr (Bitmap 0 0) 0) 0.

Definition set_self_kstack (v : Z) (t : task_struct) : task_struct :=
  Task v (pid t) (status t) (name t) (priority t) (ticks t) (elapsed_ticks t)
    (fd_table t) (pgdir t) (userprog_vaddr t) (stack_magic t).
Definition set_status (v : task_status) (t : task_struct) : task_struct :=
  Task (self_kstack t) (pid t) v (name t) (priority t) (ticks t) (elapsed_ticks t)
    (fd_table t) (pgdir t) (userprog_vaddr t) (stack_magic t).
Definition set_ticks (v : Z) (t : task_struct) : task_struct :=
  Task (self_kstack t) (pid t) (status t) (name t) (priority t) v (elapsed_ticks t)
    (fd_table t) (pgdir t) (userprog_vaddr t) (stack_magic t).
Definition set_elapsed_ticks (v : Z) (t : task_struct) : task_struct :=
  Task (self_kstack t) (pid t) (status t) (name t) (priority t) (ticks t) v
    (fd_table t) (pgdir t) (userprog_vaddr t) (stack_magic t).
Definition set_fd_table (v : list Z) (t : task_struct) : task_struct :=
  Task (self_kstack t) (pid t) (status t) (name t) (priority t) (ticks t) (elapsed_ticks t)
    v (pgdir t) (userprog_vaddr t) (stack_magic t).
Definition set_pgdir (v : Z) (t : task_struct) : task_struct :=
  Task (self_kstack t) (pid t) (status t) (name t) (priority t) (ticks t) (elapsed_ticks t)
    (fd_table t) v (userprog_vaddr t) (stack_magic t).
Definition set_userprog_vaddr (v : virtual_addr) (t : task_struct) : task_struct :=
  Task (self_kstack t) (pid t) (status t) (name t) (priority t) (ticks t) (elapsed_ticks t)
    (fd_table t) (pgdir t) v (stack_magic t).

(** The globals of [thread/thread.c].  A [struct list] of tags is the
    sequence of the PCB addresses whose tag is linked in it. *)
Record thread_st := ThreadSt {
  tasks : gmap Z task_struct;      (* PCBs by address *)
  running : Z;                     (* the PCB the stack pointer lies in *)
  thread_ready_list : list Z;
  thread_all_list : list Z;
  main_thread : Z;
  idle_thread : Z;
  next_pid : Z;
  (* The stack pointers that [switch_to] will find and store, switch by
     switch: how deep a thread's stack is then is the compiler's, and no
     definition writes this field but the switch, which takes the first. *)
  esps : nat -> Z
}.

(** ** Locks: [thread/sync.h] *)

(** The locks of the kernel, and its semaphores: the one inside each lock
    and the [disk_done] of each IDE channel. *)
Inductive lock_id :=
| pid_lock | kernel_pool_lock | user_pool_lock | console_lock | kbd_buf_lock
| channel_lock (channel_no : nat).
Inductive sema_id :=
| lock_semaphore (l : lock_id)
| disk_done (channel_no : nat).

#[export] Instance lock_id_eq_dec : EqDecision lock_id.
Proof. solve_decision. Defined.
#[export] Instance sema_id_eq_dec : EqDecision sema_id.
Proof. solve_decision. Defined.

#[export] Instance lock_id_countable : Countable lock_id.
Proof.
  apply (inj_countable'
    (fun l => match l with
              | pid_lock => 0 | kernel_pool_lock => 1 | user_pool_lock => 2
              | console_lock => 3 | kbd_buf_lock => 4 | channel_lock n => 5 + n
              end)%nat
    (fun n => match n with
              | 0 => pid_lock | 1 => kernel_pool_lock | 2 => user_pool_lock
              | 3 => console_lock | 4 => kbd_buf_lock
              | S (S (S (S (S n)))) => channel_lock n
              end)%nat).
  by intros [].
Defined.

#[export] Instance sema_id_countable : Countable sema_id.
Proof.
  apply (inj_countable'
    (fun s => match s with lock_semaphore l => inl l | disk_done n => inr n end)
    (fun x => match x with inl l => lock_semaphore l | inr n => disk_done n end)).
  by intros [].
Defined.

Record semaphore := Sema {
  value : Z;
  waiters : list Z                 (* PCB addresses, in list order *)
}.

(** [struct lock] apart from its semaphore. *)
Record lock := Lock {
  holder : Z;
  holder_repeat_nr : Z
}.

Record sync_st := SyncSt {
  semas : gmap sema_id semaphore;
  locks : gmap lock_id lock
}.

(** ** Memory pools: [struct pool] of [kernel/memory.c] *)

Record pool := Pool {
  pool_bitmap : bitmap;
  phy_addr_start : Z;
  pool_size : Z
}.

Record mem_st := MemSt {
  kernel_pool : pool;
  user_pool : pool;
  kernel_vaddr : virtual_addr
}.

(** ** Devices: [device/ioqueue.h], [device/keyboard.c], [device/timer.c] *)

Record ioqueue := IOQueue {
  producer : Z;
  consumer : Z;
  buf : list Z;
  head : Z;
  tail : Z
}.

Record dev_st := DevSt {
  sys_ticks : Z;                   (* [ticks] of timer.c *)
  kbd_buf : ioqueue;
  ctrl_status : bool;
  shift_status : bool;
  alt_status : bool;
  caps_lock_status : bool;
  ext_scancode : bool
}.

(** ** The whole state *)

Record kst := Kst {
  km : mach;
  kp : paging;
  tss_esp0 : Z;                    (* [tss.esp0] of userprog/tss.c *)
  kt : thread_st;
  ks : sync_st;
  kmem : mem_st;
  kdev : dev_st
}.

Definition set_km (v : mach) (k : kst) : kst :=
  Kst v (kp k) (tss_esp0 k) (kt k) (ks k) (kmem k) (kdev k).
Definition set_kp (v : paging) (k : kst) : kst :=
  Kst (km k) v (tss_esp0 k) (kt k) (ks k) (kmem k) (kdev k).
Definition set_esp0 (v : Z) (k : kst) : kst :=
  Kst (km k) (kp k) v (kt k) (ks k) (kmem k) (kdev k).
Definition set_kt (v : thread_st) (k : kst) : kst :=
  Kst (km k) (kp k) (tss_esp0 k) v (ks k) (kmem k) (kdev k).
Definition set_ks (v : sync_st) (k : kst) : kst :=
  Kst (km k) (kp k) (tss_esp0 k) (kt k) v (kmem k) (kdev k).
Definition set_kmem (v : mem_st) (k : kst) : kst :=
  Kst (km k) (kp k) (tss_esp0 k) (kt k) (ks k) v (kdev k).
Definition set_kdev (v : dev_st) (k : kst) : kst :=
  Kst (km k) (kp k) (tss_esp0 k) (kt k) (ks k) (kmem k) v.

(** ** Kernel computations *)

Inductive res (A : Type) : Type :=
| Done (a : A) (k : kst)
| KPanic (condition : string)
| KNoFuel
| Switch (k : kst) (resume : kst -> res A)
| Window (k : kst) (resume : kst -> res A).
Arguments Done {A} a k.
Arguments KPanic {A} condition.
Arguments KNoFuel {A}.
Arguments Switch {A} k resume.
Arguments Window {A} k resume.

Definition K (A : Type) : Type := kst -> res A.

Fixpoint res_bind {A B} (r : res A) (f : A -> K B) : res B :=
  match r with
  | Done a k => f a k
  | KPanic c => KPanic c
  | KNoFuel => KNoFuel
  | Switch k c => Switch k (fun k' => res_bind (c k') f)
  | Window k c => Window k (fun k' => res_bind (c k') f)
  end.

#[export] Instance K_ret : MRet K := fun _ a k => Done a k.
#[export] Instance K_bind : MBind K := fun _ _ f m k => res_bind (m k) f.

Definition kpanic {A} (c : string) : K A := fun _ => KPanic c.
Definition kno_fuel {A} : K A := fun _ => KNoFuel.
Definition kget {A} (f : kst -> A) : K A := fun k => Done (f k) k.
Definition kmod (f : kst -> kst) : K unit := fun k => Done tt (f k).

Definition KASSERT (b : bool) (c : string) : K unit :=
  if b then mret tt else kpanic c.

(** Code of the lower layers run inside the kernel. *)
Definition lift {S A} (get : kst -> S) (put : S -> kst -> kst) (m : M S A) : K A :=
  fun k => match m (get k) with
           | Ok (a, s) => Done a (put s k)
           | Panic c => KPanic c
           | NoFuel => KNoFuel
           end.
Definition on_mach {A} : M mach A -> K A := lift km set_km.
Definition on_paging {A} : M paging A -> K A := lift kp set_kp.

(** A point with no code where an interrupt is taken if the flag is set. *)
Definition irq_window : K unit := fun k =>
  if IF (km k) then Window k (fun k' => Done tt k') else Done tt k.

Lemma kbind_Done {A B} (m : K A) (f : A -> K B) k a k1 :
  m k = Done a k1 -> (m ≫= f) k = f a k1.
Proof. unfold mbind, K_bind. by intros ->. Qed.

Lemma kbind_Switch {A B} (m : K A) (f : A -> K B) k k1 c :
  m k = Switch k1 c -> (m ≫= f) k = Switch k1 (fun k' => res_bind (c k') f).
Proof. unfold mbind, K_bind. by intros ->. Qed.

Lemma lift_Ok {S A} (get : kst -> S) put (m : M S A) k a s :
  m (get k) = Ok (a, s) -> lift get put m k = Done a (put s k).
Proof. unfold lift. by intros ->. Qed.

(** [kstep] runs the first action of a kernel bind that computes or whose
    run is an equation of the context. *)
Ltac kstep := cbv beta;
  match goal with
  | |- context [@mbind K K_bind ?A ?B ?f ?m ?s] =>
      match goal with
      | H : m s = Done _ _ |- _ => rewrite (kbind_Done m f s _ _ H)
      end
  | |- context [@mbind K K_bind ?A ?B ?f ?m ?s] =>
      erewrite (kbind_Done m f s) by reflexivity
  | |- @mbind K K_bind _ _ _ _ _ = _ =>
      etransitivity; [eapply kbind_Done; reflexivity|]; cbv beta
  end.

(** The bracket [intr_disable] / [intr_set_status] around kernel code. *)
Definition kirqsave {A} (body : K A) : K A :=
  old_status ← on_mach intr_disable; a ← body;
  on_mach (intr_set_status old_status);; mret a.

Lemma set_km_id k : set_km (km k) k = k.
Proof. by destruct k. Qed.

Lemma kbind_assoc {A B C} (m : K A) (f : A -> K B) (g : B -> K C) k a k1 :
  m k = Done a k1 -> ((m ≫= f) ≫= g) k = (f a ≫= g) k1.
Proof. unfold mbind, K_bind. by intros ->. Qed.

(** The bracket around code that changes memory only. *)
Lemma kirqsave_ram {A} (body : K A) k a k1 r :
  body (set_km (irq_off (km k)) k) = Done a k1 -> km k1 = set_ram r (irq_off (km k)) ->
  kirqsave body k = Done a (set_km (set_ram r (km k)) k1).
Proof.
  intros Hb Hm. unfold kirqsave.
  assert (Hd : on_mach intr_disable k =
               Done (if IF (km k) then INTR_ON else INTR_OFF) (set_km (irq_off (km k)) k)).
  { unfold on_mach. erewrite lift_Ok by apply intr_disable_eq. done. }
  kstep. kstep. unfold irq_off in Hm. unfold intr_set_status, on_mach.
  destruct (IF (km k)) eqn:E; simpl.
  - erewrite kbind_Done.
    2:{ apply lift_Ok. rewrite Hm. apply intr_enable_eq. }
    change (IF (set_ram r (set_eflags (Z.clearbit (eflags (km k)) 9) (km k))))
      with (IF (set_eflags (Z.clearbit (eflags (km k)) 9) (km k))). rewrite IF_clearbit. simpl. rewrite setbit_clearbit_id by done. by destruct (km k).
  - erewrite kbind_Done.
    2:{ apply lift_Ok. rewrite Hm. apply intr_disable_eq. }
    change (IF (set_ram r (km k))) with (IF (km k)). by rewrite E.
Qed.

(** The bracket around code that leaves the machine alone. *)
Lemma kirqsave_Done {A} (body : K A) k a k1 :
  body (set_km (irq_off (km k)) k) = Done a k1 -> km k1 = irq_off (km k) ->
  kirqsave body k = Done a (set_km (km k) k1).
Proof.
  intros Hb Hm. rewrite (kirqsave_ram body k a k1 (ram (km k)) Hb); [by destruct (km k)|].
  rewrite Hm. unfold irq_off. by destruct (km k), (IF _).
Qed.

Lemma irq_off_id m : IF m = false -> irq_off m = m.
Proof. unfold irq_off. by intros ->. Qed.

Lemma kirqsave_off {A} (body : K A) k a k1 :
  IF (km k) = false -> body k = Done a k1 -> km k1 = km k -> kirqsave body k = Done a k1.
Proof.
  intros Hi Hb Hm. rewrite (kirqsave_Done body k a k1).
  - by rewrite <- Hm, set_km_id.
  - by rewrite irq_off_id, set_km_id.
  - by rewrite irq_off_id.
Qed.

(** A step that changes memory only. *)
Definition kwith_ram (f : gmap Z Z -> gmap Z Z) (k : kst) : kst :=
  set_km (set_ram (f (ram (km k))) (km k)) k.

Lemma kwith_ram_twice f g k : kwith_ram g (kwith_ram f k) = kwith_ram (fun r => g (f r)) k.
Proof. done. Qed.

Lemma on_mach_ram (a : M mach unit) f k :
  (forall m, a m = Ok (tt, set_ram (f (ram m)) m)) -> on_mach a k = Done tt (kwith_ram f k).
Proof. intros H. unfold on_mach. by erewrite lift_Ok by apply H. Qed.

Lemma on_mach_store32 a v k :
  on_mach (store32 a v) k = Done tt (kwith_ram (fun r => st32 r a v) k).
Proof. done. Qed.

(** The state the loader hands to [main]: globals zero, interrupts off, the
    loader's page directory, the boot stack's page as the running thread. *)
Definition bss_kst : kst :=
  Kst (Mach ∅ 2 [] []) (Paging 0x100000 ∅) 0
    (ThreadSt ∅ 0xc009e000 [] [] 0 0 0 (fun _ => 0)) (SyncSt ∅ ∅)
    (MemSt (Pool (Bitmap 0 0) 0 0) (Pool (Bitmap 0 0) 0 0) (VirtualAddr (Bitmap 0 0) 0))
    (DevSt 0 (IOQueue 0 0 (replicate 64 0) 0 0) false false false false false).
