(* ===== verification/Thread.v ===== *)
(** * The scheduler: [thread/thread.c]

    [schedule], [thread_yield], [thread_block], [thread_unblock] and the
    activation of the next task's address space ([userprog/process.c],
    [userprog/tss.c]).  A thread list is the sequence of PCB addresses whose
    tag it links; KList proves that the list functions of
    [lib/kernel/list.c] implement these sequence operations and leave the
    interrupt flag as it was. *)
From S2P Require Import Prelude Machine Paging Kernel.

(** ** Access to PCBs and to the ready list *)

Definition running_thread : K Z := kget (fun k => running (kt k)).

Definition task_at (th : thread_st) (t : Z) : task_struct := default task_zero (tasks th !! t).

Definition set_tasks (v : gmap Z task_struct) (th : thread_st) : thread_st :=
  ThreadSt v (running th) (thread_ready_list th) (thread_all_list th)
    (main_thread th) (idle_thread th) (next_pid th) (esps th).
Definition set_running (v : Z) (th : thread_st) : thread_st :=
  ThreadSt (tasks th) v (thread_ready_list th) (thread_all_list th)
    (main_thread th) (idle_thread th) (next_pid th) (esps th).
Definition set_ready (v : list Z) (th : thread_st) : thread_st :=
  ThreadSt (tasks th) (running th) v (thread_all_list th)
    (main_thread th) (idle_thread th) (next_pid th) (esps th).
Definition set_all (v : list Z) (th : thread_st) : thread_st :=
  ThreadSt (tasks th) (running th) (thread_ready_list th) v
    (main_thread th) (idle_thread th) (next_pid th) (esps th).

Definition upd_kt (f : thread_st -> thread_st) : K unit := kmod (fun k => set_kt (f (kt k)) k).

Definition get_task (t : Z) : K task_struct := kget (fun k => task_at (kt k) t).
Definition upd_task_st (t : Z) (f : task_struct -> task_struct) (th : thread_st) : thread_st :=
  set_tasks (<[t := f (task_at th t)]> (tasks th)) th.
Definition upd_task (t : Z) (f : task_struct -> task_struct) : K unit :=
  upd_kt (upd_task_st t f).

Definition ready_list : K (list Z) := kget (fun k => thread_ready_list (kt k)).
Definition ready_append (t : Z) : K unit :=
  upd_kt (fun th => set_ready (thread_ready_list th ++ [t]) th).
Definition ready_push (t : Z) : K unit :=
  upd_kt (fun th => set_ready (t :: thread_ready_list th) th).
Definition all_append (t : Z) : K unit :=
  upd_kt (fun th => set_all (thread_all_list th ++ [t]) th).
(** [list_pop]; every caller has asserted that the list is not empty. *)
Definition ready_pop : K Z :=
  rl ← ready_list;
  match rl with
  | [] => kpanic "list_pop of an empty list"
  | t :: rl => upd_kt (set_ready rl);; mret t
  end.

Definition in_list (t : Z) (l : list Z) : bool := bool_decide (t ∈ l).

(** ** Activation of a task: [userprog/process.c], [userprog/tss.c] *)

Definition page_dir_activate (p_thread : Z) : K unit :=
  t ← get_task p_thread;
  page_phy_addr ← (if decide (pgdir t <> 0) then on_paging (addr_v2p (pgdir t))
                   else mret 0x100000);
  kmod (fun k => set_kp (Paging page_phy_addr (pwords (kp k))) k).

Definition update_tss_esp (pthread : Z) : K unit := kmod (set_esp0 (u32 (pthread + PG_SIZE))).

Definition process_activate (p_thread : Z) : K unit :=
  KASSERT (bool_decide (p_thread <> 0)) "p_thread != NULL";;
  page_dir_activate p_thread;;
  t ← get_task p_thread;
  if decide (pgdir t <> 0) then update_tss_esp p_thread else mret tt.

(** ** Scheduling *)

(** [switch_to(cur, next)] of [thread/switch.S]: the registers of [cur] go
    to its stack, the stack pointer to [cur->self_kstack], and the stack of
    [next] is taken.  A thread that has been away finds its stack pointer in
    [self_kstack], at a depth that the source does not say ([esps]). *)
Definition set_esps (v : nat -> Z) (th : thread_st) : thread_st :=
  ThreadSt (tasks th) (running th) (thread_ready_list th) (thread_all_list th)
    (main_thread th) (idle_thread th) (next_pid th) v.
Definition store_esp (cur : Z) (th : thread_st) : thread_st :=
  set_esps (fun n => esps th (S n)) (upd_task_st cur (set_self_kstack (esps th 0%nat)) th).
Definition switch_to (cur next : Z) : K unit := fun k =>
  Switch (set_kt (set_running next (store_esp cur (kt k))) k) (fun k' => Done tt k').

Definition blocking (st : task_status) : bool :=
  bool_decide (st = TASK_BLOCKED) || bool_decide (st = TASK_WAITING) ||
  bool_decide (st = TASK_HANGING).

Definition thread_unblock (pthread : Z) : K unit :=
  kirqsave (
    t ← get_task pthread;
    KASSERT (blocking (status t))
      "((pthread->status == TASK_BLOCKED) || (pthread->status == TASK_WAITING) || (pthread->status == TASK_HANGING))";;
    if decide (status t <> TASK_READY) then
      rl ← ready_list;
      KASSERT (negb (in_list pthread rl)) "!elem_find(&thread_ready_list, &pthread->general_tag)";;
      (if in_list pthread rl then kpanic "Thread Unblock: Blocked thread un ready list" else mret tt);;
      ready_push pthread;;
      upd_task pthread (set_status TASK_READY)
    else mret tt).

Definition schedule : K unit :=
  st ← on_mach intr_get_status;
  KASSERT (bool_decide (st = INTR_OFF)) "intr_get_status() == INTR_OFF";;
  cur ← running_thread;
  t ← get_task cur;
  (if decide (status t = TASK_RUNING) then
     rl ← ready_list;
     KASSERT (negb (in_list cur rl)) "!elem_find(&thread_ready_list, &cur->general_tag)";;
     ready_append cur;;
     upd_task cur (fun t => set_ticks (priority t) t);;
     upd_task cur (set_status TASK_READY)
   else mret tt);;
  rl ← ready_list;
  (if bool_decide (rl = []) then
     idle ← kget (fun k => idle_thread (kt k)); thread_unblock idle
   else mret tt);;
  rl ← ready_list;
  KASSERT (bool_decide (rl <> [])) "!list_empty(&thread_ready_list)";;
  next ← ready_pop;
  upd_task next (set_status TASK_RUNING);;
  process_activate next;;
  switch_to cur next.

Definition thread_yield : K unit :=
  cur ← running_thread;
  old_status ← on_mach intr_disable;
  rl ← ready_list;
  KASSERT (negb (in_list cur rl)) "!elem_find(&thread_ready_list, &cur->general_tag)";;
  ready_append cur;;
  upd_task cur (set_status TASK_READY);;
  schedule;;
  on_mach (intr_set_status old_status);;
  mret tt.

Definition thread_block (stat : task_status) : K unit :=
  KASSERT (blocking stat)
    "(stat == TASK_BLOCKED) || (stat == TASK_WAITING) || (stat == TASK_HANGING)";;
  old_status ← on_mach intr_disable;
  cur_thread ← running_thread;
  upd_task cur_thread (set_status stat);;
  schedule;;
  on_mach (intr_set_status old_status);;
  mret tt.

(** ** The scheduler's invariant *)

Definition status_of (th : thread_st) (t : Z) : option task_status := status <$> tasks th !! t.

(** Page directories: every task's directory is reachable from every
    directory in use, with the same physical address. *)
Definition dirs_ok (ts : gmap Z task_struct) (pg : paging) : Prop :=
  exists dirset : Z -> Prop, dirset (cr3 pg) /\ dirset 0x100000 /\
    forall t tk, ts !! t = Some tk -> pgdir tk <> 0 ->
      exists ph, dirset ph /\ forall d, dirset d ->
        addr_v2p (pgdir tk) (Paging d (pwords pg)) = Ok (ph, Paging d (pwords pg)).

(** What holds on entry to [schedule], whatever became of the current
    thread: the ready list holds exactly the READY threads, once each; no
    other thread runs; the idle thread can be woken. *)
Record sched_ok (th : thread_st) : Prop := {
  so_nodup : NoDup (thread_ready_list th);
  so_ready : forall t, t ∈ thread_ready_list th <-> status_of th t = Some TASK_READY;
  so_run : forall t, status_of th t = Some TASK_RUNING -> t = running th;
  so_cur : is_Some (tasks th !! running th);
  so_idle : is_Some (tasks th !! idle_thread th) /\
            status_of th (idle_thread th) <> Some TASK_DIED;
  so_null : tasks th !! 0 = None
}.

(** What holds while a thread runs. *)
Definition sched_inv (th : thread_st) : Prop :=
  sched_ok th /\ status_of th (running th) = Some TASK_RUNING.

(** The scheduler's policy, as a function on the thread table: a running
    thread is put last with a new time slice, an empty list is refilled with
    the idle thread, the first thread is taken, the thread that goes leaves
    its stack pointer. *)
Definition requeue (th : thread_st) : thread_st :=
  if decide (status_of th (running th) = Some TASK_RUNING) then
    upd_task_st (running th) (fun t => set_status TASK_READY (set_ticks (priority t) t))
      (set_ready (thread_ready_list th ++ [running th]) th)
  else th.

Definition wake_idle (th : thread_st) : thread_st :=
  if decide (thread_ready_list th = []) then
    upd_task_st (idle_thread th) (set_status TASK_READY) (set_ready [idle_thread th] th)
  else th.

Definition pick_next (th : thread_st) : thread_st :=
  match thread_ready_list th with
  | [] => th
  | next :: rl => set_running next (upd_task_st next (set_status TASK_RUNING) (set_ready rl th))
  end.

Definition sched_step (th : thread_st) : thread_st :=
  store_esp (running th) (pick_next (wake_idle (requeue th))).

(** ** Lemmas *)

Lemma status_of_upd t f th u :
  status_of (upd_task_st t f th) u =
  if decide (u = t) then Some (status (f (task_at th t))) else status_of th u.
Proof.
  unfold status_of, upd_task_st. simpl. rewrite lookup_insert.
  repeat case_decide; congruence || done.
Qed.

Lemma upd_task_twice t f g th :
  upd_task_st t g (upd_task_st t f th) = upd_task_st t (fun x => g (f x)) th.
Proof.
  unfold upd_task_st, task_at, set_tasks. simpl.
  by rewrite lookup_insert_eq, insert_insert_eq.
Qed.

Lemma upd_task_ready t f rl th :
  upd_task_st t f (set_ready rl th) = set_ready rl (upd_task_st t f th).
Proof. done. Qed.

Lemma is_Some_upd t f th u :
  is_Some (tasks (upd_task_st t f th) !! u) <-> u = t \/ is_Some (tasks th !! u).
Proof. unfold upd_task_st. simpl. rewrite lookup_insert_is_Some'. naive_solver. Qed.

Definition no_run (th : thread_st) : Prop := forall t, status_of th t <> Some TASK_RUNING.

Lemma status_of_task_at th t st : status_of th t = Some st -> status (task_at th t) = st.
Proof. unfold status_of, task_at. destruct (tasks th !! t); simpl; congruence. Qed.

Lemma requeue_ok th : sched_ok th -> sched_ok (requeue th) /\ no_run (requeue th).
Proof.
  intros [Hnd Hrd Hrun Hcur [Hidle Hid] Hnull]. unfold requeue. case_decide as Hst.
  - assert (Hnin : running th ∉ thread_ready_list th) by (rewrite Hrd, Hst; done).
    split; [split|]; simpl.
    + apply NoDup_app. split_and!; [done| |apply NoDup_singleton]. set_solver.
    + intros t. rewrite elem_of_app, list_elem_of_singleton, Hrd.
      rewrite upd_task_ready. change (status_of (set_ready ?l ?x)) with (status_of x).
      rewrite status_of_upd. simpl. case_decide; naive_solver.
    + intros t. rewrite upd_task_ready. change (status_of (set_ready ?l ?x)) with (status_of x).
      rewrite status_of_upd. simpl. case_decide; [done|auto].
    + rewrite lookup_insert_eq. done.
    + rewrite upd_task_ready. change (status_of (set_ready ?l ?x)) with (status_of x).
      rewrite status_of_upd. simpl. split; [|by case_decide].
      rewrite lookup_insert_is_Some'. auto.
    + rewrite lookup_insert_ne; [done|]. intros E. rewrite E in Hcur.
      destruct Hcur. congruence.
    + intros t. rewrite upd_task_ready. change (status_of (set_ready ?l ?x)) with (status_of x).
      rewrite status_of_upd. simpl. case_decide; [done|]. intros Ht. by apply Hrun in Ht.
  - split; [by split|]. intros t Ht. apply Hrun in Ht as Heq. congruence.
Qed.

Lemma no_run_blocking th t :
  no_run th -> is_Some (tasks th !! t) -> status_of th t <> Some TASK_DIED ->
  status_of th t <> Some TASK_READY -> blocking (status (task_at th t)) = true.
Proof.
  unfold no_run, status_of, task_at. intros Hnr [tk Htk]. specialize (Hnr t).
  rewrite Htk in *. simpl in *. destruct (status tk); done.
Qed.

Lemma wake_idle_ok th :
  sched_ok th -> no_run th ->
  sched_ok (wake_idle th) /\ no_run (wake_idle th) /\ thread_ready_list (wake_idle th) <> [].
Proof.
  intros [Hnd Hrd Hrun Hcur [Hidle Hid] Hnull] Hnr. unfold wake_idle. case_decide as Hrl.
  - assert (Hidle0 : idle_thread th <> 0).
    { intros E. rewrite E in Hidle. destruct Hidle. congruence. }
    split_and!; [split|..]; simpl; try done.
    + apply NoDup_singleton.
    + intros t. rewrite upd_task_ready. change (status_of (set_ready ?l ?x)) with (status_of x).
      rewrite status_of_upd, list_elem_of_singleton. simpl.
      case_decide; [naive_solver|]. rewrite <- Hrd, Hrl, elem_of_nil. done.
    + intros t. rewrite upd_task_ready. change (status_of (set_ready ?l ?x)) with (status_of x).
      rewrite status_of_upd. simpl. case_decide; [done|auto].
    + rewrite lookup_insert_is_Some'. auto.
    + rewrite upd_task_ready. change (status_of (set_ready ?l ?x)) with (status_of x).
      rewrite status_of_upd. simpl. rewrite decide_True by done.
      split; [|done]. rewrite lookup_insert_is_Some'. auto.
    + by rewrite lookup_insert_ne.
    + intros t. rewrite upd_task_ready. change (status_of (set_ready ?l ?x)) with (status_of x).
      rewrite status_of_upd. simpl. case_decide; [done|apply Hnr].
  - split_and!; [by split|done|done].
Qed.

Lemma pick_next_inv th :
  sched_ok th -> no_run th -> thread_ready_list th <> [] -> sched_inv (pick_next th).
Proof.
  intros [Hnd Hrd Hrun Hcur [Hidle Hid] Hnull] Hnr Hne. unfold pick_next.
  destruct (thread_ready_list th) as [|n rl] eqn:Hrl; [done|].
  apply NoDup_cons in Hnd as [Hn Hnd].
  assert (Hnst : status_of th n = Some TASK_READY) by (apply Hrd; set_solver).
  assert (Hst : forall u, status_of (pick_next th) u =
                  if decide (u = n) then Some TASK_RUNING else status_of th u).
  { intros u. unfold pick_next. rewrite Hrl.
    change (status_of (set_running ?a ?x)) with (status_of x).
    by rewrite status_of_upd. }
  unfold pick_next in Hst. rewrite Hrl in Hst.
  split; [split|]; simpl; try done.
  - intros t. rewrite Hst. case_decide as Htn; [subst; naive_solver|].
    rewrite <- Hrd. set_solver.
  - intros t. rewrite Hst. case_decide; [done|]. intros Ht. by apply Hnr in Ht.
  - by rewrite lookup_insert_eq.
  - rewrite Hst. split; [rewrite lookup_insert_is_Some'; auto|by case_decide].
  - rewrite lookup_insert_ne; [done|]. intros ->.
    unfold status_of in Hnst. by rewrite Hnull in Hnst.
  - rewrite Hst. by rewrite decide_True.
Qed.

Lemma task_at_status th t : is_Some (tasks th !! t) -> status_of th t = Some (status (task_at th t)).
Proof. intros [tk Ht]. unfold status_of, task_at. by rewrite Ht. Qed.

(** A change of a PCB that leaves its status alone. *)
Lemma sched_inv_upd t f th :
  is_Some (tasks th !! t) -> (forall x, status (f x) = status x) ->
  sched_inv th -> sched_inv (upd_task_st t f th).
Proof.
  intros Ht Hf [[Hnd Hrd Hrun Hcur [Hidle Hid] Hnull] Hst].
  assert (Hs : forall u, status_of (upd_task_st t f th) u = status_of th u).
  { intros u. rewrite status_of_upd. case_decide; [|done]. subst u.
    by rewrite Hf, (task_at_status _ _ Ht). }
  split; [split|]; try done.
  - intros u. by rewrite Hs.
  - intros u. rewrite Hs. apply Hrun.
  - apply is_Some_upd. by right.
  - rewrite Hs. split; [apply is_Some_upd; by right|done].
  - simpl. rewrite lookup_insert_ne; [done|]. intros ->. destruct Ht. congruence.
  - by rewrite Hs.
Qed.

(** No thread disappears before the switch. *)
Lemma picked_tasks th t : is_Some (tasks th !! t) -> is_Some (tasks (pick_next (wake_idle (requeue th))) !! t).
Proof.
  intros Ht. assert (H1 : is_Some (tasks (requeue th) !! t)).
  { unfold requeue. case_decide; [|done]. apply is_Some_upd. by right. }
  assert (H2 : is_Some (tasks (wake_idle (requeue th)) !! t)).
  { unfold wake_idle. case_decide; [|done]. apply is_Some_upd. by right. }
  unfold pick_next. destruct (thread_ready_list _); [done|]. apply is_Some_upd. by right.
Qed.

(** One pass of the scheduler's policy establishes the invariant. *)
Lemma sched_step_inv th : sched_ok th -> sched_inv (sched_step th).
Proof.
  intros Hok. destruct (requeue_ok th Hok) as [Hok1 Hnr1].
  destruct (wake_idle_ok _ Hok1 Hnr1) as (Hok2 & Hnr2 & Hne).
  pose proof (pick_next_inv _ Hok2 Hnr2 Hne) as Hp.
  destruct (sched_inv_upd (running th) (set_self_kstack (esps (pick_next (wake_idle (requeue th))) 0%nat))
    (pick_next (wake_idle (requeue th)))) as [[] Hst]; [|done|exact Hp|by split].
  apply picked_tasks, Hok.
Qed.

(** ** The code implements the policy *)

Lemma in_list_spec t l : in_list t l = true <-> t ∈ l.
Proof. apply bool_decide_eq_true. Qed.

(** [thread_unblock] puts a blocked thread first in the ready list. *)
Definition unblock_st (t : Z) (th : thread_st) : thread_st :=
  upd_task_st t (set_status TASK_READY) (set_ready (t :: thread_ready_list th) th).

Lemma thread_unblock_eq t k :
  blocking (status (task_at (kt k) t)) = true -> t ∉ thread_ready_list (kt k) ->
  thread_unblock t k = Done tt (set_kt (unblock_st t (kt k)) k).
Proof.
  intros Hb Hn. unfold thread_unblock.
  rewrite (kirqsave_Done _ _ tt
    (set_kt (unblock_st t (kt k)) (set_km (irq_off (km k)) k))).
  - by destruct k.
  - kstep. simpl. rewrite Hb. kstep.
    rewrite decide_True by (intros E; by rewrite E in Hb).
    kstep. simpl. unfold in_list. rewrite bool_decide_false by done. kstep. kstep.
    unfold upd_task, upd_kt, ready_push. kstep. unfold kmod. simpl. done.
  - done.
Qed.

Lemma paging_eta pg : Paging (cr3 pg) (pwords pg) = pg.
Proof. by destruct pg. Qed.

Lemma page_dir_activate_eq t k :
  dirs_ok (tasks (kt k)) (kp k) -> exists ph,
    page_dir_activate t k = Done tt (set_kp (Paging ph (pwords (kp k))) k) /\
    dirs_ok (tasks (kt k)) (Paging ph (pwords (kp k))) /\
    (if decide (pgdir (task_at (kt k) t) = 0) then ph = 0x100000
     else addr_v2p (pgdir (task_at (kt k) t)) (kp k) = Ok (ph, kp k)).
Proof.
  intros (ds & Hc & H0 & Hd). unfold page_dir_activate. kstep. unfold task_at.
  destruct (decide (pgdir (default task_zero (tasks (kt k) !! t)) <> 0)) as [Hpg|Hpg].
  - destruct (decide (pgdir (default task_zero (tasks (kt k) !! t)) = 0)) as [?|_]; [done|].
    destruct (tasks (kt k) !! t) as [tk|] eqn:Ht; [|done]. simpl in *.
    destruct (Hd t tk Ht Hpg) as (ph & Hph & Hv). specialize (Hv (cr3 (kp k)) Hc).
    rewrite paging_eta in Hv. exists ph. split_and!; [|by exists ds|exact Hv].
    unfold on_paging. erewrite kbind_Done by (apply lift_Ok; exact Hv). by destruct k.
  - exists 0x100000.
    destruct (decide (pgdir (default task_zero (tasks (kt k) !! t)) = 0)) as [_|Hn]; [|by destruct Hpg].
    split_and!; [by destruct k as [? [] ? ? ? ? ?]|by exists ds|done].
Qed.

(** The directory [d] and the ring 0 stack [e0] that are active when [t]
    runs: a kernel thread has the kernel's directory and leaves the stack as
    it was, a process has its own directory, by its physical address, and
    enters the kernel on top of its PCB's page. *)
Definition activated (t : Z) (k : kst) (d e0 : Z) : Prop :=
  if decide (pgdir (task_at (kt k) t) = 0) then d = 0x100000 /\ e0 = tss_esp0 k
  else addr_v2p (pgdir (task_at (kt k) t)) (kp k) = Ok (d, kp k) /\ e0 = u32 (t + PG_SIZE).

Lemma process_activate_eq t k :
  t <> 0 -> dirs_ok (tasks (kt k)) (kp k) -> exists ph e0,
    process_activate t k = Done tt (set_esp0 e0 (set_kp (Paging ph (pwords (kp k))) k)) /\
    dirs_ok (tasks (kt k)) (Paging ph (pwords (kp k))) /\ activated t k ph e0.
Proof.
  intros Ht Hd. destruct (page_dir_activate_eq t k Hd) as (ph & Hr & Hd' & Hph).
  unfold activated, process_activate. rewrite bool_decide_true by done. exists ph. kstep. kstep.
  kstep. case_decide as Hpg; case_decide; try done.
  - exists (tss_esp0 k). destruct Hph. split; [by destruct k|done].
  - by eexists.
Qed.

Lemma dirs_ok_upd t f th pg :
  is_Some (tasks th !! t) -> (forall x, pgdir (f x) = pgdir x) ->
  dirs_ok (tasks th) pg -> dirs_ok (tasks (upd_task_st t f th)) pg.
Proof.
  intros [tk Ht] Hf (ds & Hc & H0 & Hd). exists ds. split_and!; [done..|].
  intros u uk. simpl. rewrite lookup_insert. unfold task_at. rewrite Ht. simpl.
  case_decide as Hu; [|by apply Hd]. intros [= <-]. rewrite Hf. by apply (Hd t tk).
Qed.

(** The store of [switch_to] leaves the directories alone. *)
Lemma store_esp_pgdir c t th : pgdir (task_at (store_esp c th) t) = pgdir (task_at th t).
Proof.
  unfold store_esp. change (task_at (set_esps ?e ?x) t) with (task_at x t). unfold task_at at 1.
  simpl. rewrite lookup_insert. case_decide; [subst|done]. done.
Qed.

Lemma dirs_ok_store c th pg :
  is_Some (tasks th !! c) -> dirs_ok (tasks th) pg -> dirs_ok (tasks (store_esp c th)) pg.
Proof. intros Hc. by apply (dirs_ok_upd c (set_self_kstack (esps th 0%nat))). Qed.

Lemma dirs_ok_unstore c th pg :
  is_Some (tasks th !! c) -> dirs_ok (tasks (store_esp c th)) pg -> dirs_ok (tasks th) pg.
Proof.
  intros [ck Hc] (ds & Hcr & H0 & Hd). exists ds. split_and!; [done..|]. intros u uk Hu Hpg.
  destruct (decide (u = c)) as [->|Hne].
  - rewrite Hc in Hu. injection Hu as <-.
    apply (Hd c (set_self_kstack (esps th 0%nat) ck)); [|done].
    simpl. rewrite lookup_insert_eq. unfold task_at. by rewrite Hc.
  - apply (Hd u uk); [|done]. simpl. by rewrite lookup_insert_ne.
Qed.

Lemma sched_step_dirs th pg :
  sched_ok th -> dirs_ok (tasks th) pg -> dirs_ok (tasks (sched_step th)) pg.
Proof.
  intros Hok Hd. pose proof (requeue_ok th Hok) as [Hok1 Hnr1].
  destruct (wake_idle_ok _ Hok1 Hnr1) as (Hok2 & Hnr2 & Hne).
  assert (H1 : dirs_ok (tasks (requeue th)) pg).
  { unfold requeue. case_decide; [|done]. apply dirs_ok_upd; [apply Hok|done|done]. }
  assert (H2 : dirs_ok (tasks (wake_idle (requeue th))) pg).
  { unfold wake_idle. case_decide; [|done]. apply dirs_ok_upd; [apply Hok1|done|done]. }
  unfold sched_step. apply dirs_ok_store; [apply picked_tasks, Hok|]. unfold pick_next.
  destruct (thread_ready_list (wake_idle (requeue th))) as [|n rl] eqn:E; [done|].
  apply dirs_ok_upd; [|done|done]. simpl.
  assert (Hn : status_of (wake_idle (requeue th)) n = Some TASK_READY).
  { apply Hok2. rewrite E. set_solver. }
  unfold status_of in Hn. destruct (tasks _ !! n); [by eexists|done].
Qed.

(** The current thread goes to the end of the ready list. *)
Lemma requeue_run {B} (f : unit -> K B) k :
  sched_ok (kt k) ->
  ((if decide (status (task_at (kt k) (running (kt k))) = TASK_RUNING) then
      rl ← ready_list;
      KASSERT (negb (in_list (running (kt k)) rl)) "!elem_find(&thread_ready_list, &cur->general_tag)";;
      ready_append (running (kt k));;
      upd_task (running (kt k)) (fun t => set_ticks (priority t) t);;
      upd_task (running (kt k)) (set_status TASK_READY)
    else mret tt) ≫= f) k = f tt (set_kt (requeue (kt k)) k).
Proof.
  intros Hok. apply kbind_Done. unfold requeue. rewrite (task_at_status _ _ (so_cur _ Hok)).
  destruct (decide (status (task_at (kt k) (running (kt k))) = TASK_RUNING)) as [E|E].
  - rewrite decide_True by (by rewrite E). kstep. unfold in_list. rewrite bool_decide_false.
    2:{ rewrite (so_ready _ Hok), (task_at_status _ _ (so_cur _ Hok)), E. done. }
    kstep. kstep. kstep. unfold upd_task, upd_kt, kmod. simpl. by rewrite upd_task_twice.
  - rewrite decide_False by congruence. by destruct k.
Qed.

(** An empty ready list is refilled with the idle thread. *)
Lemma wake_run {B} (f : unit -> K B) k :
  sched_ok (kt k) -> no_run (kt k) ->
  ((if bool_decide (thread_ready_list (kt k) = []) then
      idle ← kget (fun k => idle_thread (kt k)); thread_unblock idle
    else mret tt) ≫= f) k = f tt (set_kt (wake_idle (kt k)) k).
Proof.
  intros Hok Hnr. apply kbind_Done. unfold wake_idle. case_decide as E.
  - rewrite bool_decide_true by done. kstep. rewrite thread_unblock_eq.
    + simpl. unfold unblock_st. by rewrite E.
    + apply no_run_blocking; [done|apply Hok..|]. rewrite <- (so_ready _ Hok), E. apply not_elem_of_nil.
    + rewrite E. apply not_elem_of_nil.
  - rewrite bool_decide_false by done. by destruct k.
Qed.

(** [schedule] with interrupts off never panics: it switches to the thread
    the policy picks, in its address space, and returns at once when this
    thread is resumed. *)
Lemma schedule_run k :
  sched_ok (kt k) -> IF (km k) = false -> dirs_ok (tasks (kt k)) (kp k) ->
  exists d e0, schedule k =
    Switch (set_esp0 e0 (set_kp (Paging d (pwords (kp k))) (set_kt (sched_step (kt k)) k)))
      (fun k' => Done tt k') /\
    activated (running (sched_step (kt k))) (set_kt (sched_step (kt k)) k) d e0 /\
    dirs_ok (tasks (sched_step (kt k))) (Paging d (pwords (kp k))).
Proof.
  intros Hok Hi Hd. unfold schedule, on_mach.
  assert (Hpl : is_Some (tasks (pick_next (wake_idle (requeue (kt k)))) !! running (kt k)))
    by apply picked_tasks, Hok.
  pose proof (sched_step_dirs _ _ Hok Hd) as Hd3.
  pose proof (requeue_ok _ Hok) as [Hok1 Hnr1].
  destruct (wake_idle_ok _ Hok1 Hnr1) as (Hok2 & Hnr2 & Hne).
  erewrite kbind_Done.
  2:{ apply lift_Ok. rewrite intr_get_status_eq, Hi. done. }
  rewrite bool_decide_true by done. kstep. kstep. kstep. rewrite set_km_id.
  rewrite requeue_run by done. set (R := requeue (kt k)) in *. kstep.
  change (thread_ready_list (kt (set_kt R k))) with (thread_ready_list R).
  rewrite (wake_run _ (set_kt R k)) by done. change (kt (set_kt R k)) with R.
  set (W := wake_idle R) in *. kstep. simpl.
  rewrite bool_decide_true by done. kstep.
  (* the first thread is taken *)
  unfold sched_step in *. fold R in Hd3, Hpl |- *. fold W in Hd3, Hpl |- *. unfold pick_next in *.
  assert (Hnx : forall n rl, thread_ready_list W = n :: rl -> n <> 0).
  { intros n rl E ->. assert (H0 : status_of W 0 = Some TASK_READY).
    { apply Hok2. rewrite E. set_solver. }
    unfold status_of in H0. by rewrite (so_null _ Hok2) in H0. }
  unfold ready_pop, ready_list.
  destruct (thread_ready_list W) as [|n rl] eqn:E; [done|].
  erewrite kbind_Done.
  2:{ kstep. simpl. rewrite E. reflexivity. }
  kstep. simpl.
  match goal with |- context [mbind ?f (process_activate n) ?k0] =>
    destruct (process_activate_eq n k0) as (ph & e0 & Hpa & Hd4 & Hact) end.
  { by eapply Hnx. }
  { eapply dirs_ok_unstore; [exact Hpl|exact Hd3]. }
  rewrite (kbind_Done _ _ _ _ _ Hpa). exists ph, e0. split; [reflexivity|]. split.
  - unfold activated in *. cbn [kt set_kt running set_running store_esp set_esps set_tasks upd_task_st kp tss_esp0] in *.
    rewrite store_esp_pgdir. exact Hact.
  - exact (dirs_ok_store (running (kt k)) _ _ Hpl Hd4).
Qed.

(** The same, whatever the directory. *)
Lemma schedule_eq k :
  sched_ok (kt k) -> IF (km k) = false -> dirs_ok (tasks (kt k)) (kp k) ->
  exists pg e0, schedule k =
    Switch (set_esp0 e0 (set_kp pg (set_kt (sched_step (kt k)) k))) (fun k' => Done tt k') /\
    pwords pg = pwords (kp k) /\ dirs_ok (tasks (sched_step (kt k))) pg.
Proof.
  intros Hok Hi Hd. destruct (schedule_run k Hok Hi Hd) as (d & e0 & Hs & _ & Hd').
  by exists (Paging d (pwords (kp k))), e0.
Qed.

(** ** Blocking and yielding *)

Lemma on_mach_disable k :
  on_mach intr_disable k =
  Done (if IF (km k) then INTR_ON else INTR_OFF) (set_km (irq_off (km k)) k).
Proof. unfold on_mach. erewrite lift_Ok by apply intr_disable_eq. done. Qed.

Lemma on_mach_set_status (b : bool) k :
  on_mach (intr_set_status (if b then INTR_ON else INTR_OFF)) k =
  Done (if IF (km k) then INTR_ON else INTR_OFF) (set_km (set_if b (km k)) k).
Proof. unfold on_mach. erewrite lift_Ok by apply intr_set_status_eq. done. Qed.

(** The thread table on which [thread_block] and [thread_yield] call
    [schedule]. *)
Definition block_st (stat : task_status) (th : thread_st) : thread_st :=
  upd_task_st (running th) (set_status stat) th.
Definition yield_st (th : thread_st) : thread_st :=
  upd_task_st (running th) (set_status TASK_READY)
    (set_ready (thread_ready_list th ++ [running th]) th).

Lemma block_st_ok stat th :
  blocking stat = true -> sched_inv th -> sched_ok (block_st stat th).
Proof.
  intros Hb [[Hnd Hrd Hrun Hcur [Hidle Hid] Hnull] Hst]. unfold block_st.
  split; try done.
  - intros t. rewrite status_of_upd. simpl. rewrite Hrd. case_decide; [|done].
    subst t. rewrite Hst. split; [done|]. intros [= ->]. done.
  - intros t. rewrite status_of_upd. simpl. case_decide; auto.
  - apply is_Some_upd. by left.
  - split; [apply is_Some_upd; by right|]. rewrite status_of_upd. simpl.
    case_decide; [|done]. intros [= ->]. done.
  - simpl. rewrite lookup_insert_ne; [done|]. intros E. rewrite E in Hcur.
    destruct Hcur. congruence.
Qed.

Lemma yield_st_ok th : sched_inv th -> sched_ok (yield_st th).
Proof.
  intros [[Hnd Hrd Hrun Hcur [Hidle Hid] Hnull] Hst]. unfold yield_st.
  rewrite upd_task_ready.
  assert (Hnin : running th ∉ thread_ready_list th) by (rewrite Hrd, Hst; done).
  split; simpl; try done.
  - apply NoDup_app. split_and!; [done| |apply NoDup_singleton]. set_solver.
  - intros t. change (status_of (set_ready ?l ?x)) with (status_of x).
    rewrite status_of_upd, elem_of_app, list_elem_of_singleton, Hrd. simpl.
    case_decide; naive_solver.
  - intros t. change (status_of (set_ready ?l ?x)) with (status_of x).
    rewrite status_of_upd. simpl. case_decide; [done|auto].
  - by rewrite lookup_insert_eq.
  - change (status_of (set_ready ?l ?x)) with (status_of x).
    rewrite status_of_upd. simpl. split; [rewrite lookup_insert_is_Some'; auto|by case_decide].
  - rewrite lookup_insert_ne; [done|]. intros E. rewrite E in Hcur.
    destruct Hcur. congruence.
Qed.

(** The state in which another thread runs after a switch from [k]. *)
Definition switched (pg : paging) (e0 : Z) (th : thread_st) (k : kst) : kst :=
  set_esp0 e0 (set_kp pg (set_kt th (set_km (irq_off (km k)) k))).

Lemma thread_block_eq stat k :
  blocking stat = true -> sched_inv (kt k) -> dirs_ok (tasks (kt k)) (kp k) ->
  let th := sched_step (block_st stat (kt k)) in
  exists pg e0 c, thread_block stat k = Switch (switched pg e0 th k) c /\
    (forall k', c k' = Done tt (set_km (set_if (IF (km k)) (km k')) k')) /\
    pwords pg = pwords (kp k) /\ dirs_ok (tasks th) pg.
Proof.
  intros Hb Hinv Hd th. unfold thread_block. rewrite Hb. kstep.
  pose proof (on_mach_disable k) as Hdis. kstep. kstep. kstep.
  destruct (schedule_eq (set_kt (block_st stat (kt k)) (set_km (irq_off (km k)) k)))
    as (pg & e0 & Hs & Hpw & Hd').
  { by apply block_st_ok. }
  { simpl. apply irq_off_IF. }
  { simpl. apply dirs_ok_upd; [apply Hinv|done|done]. }
  exists pg, e0. eexists. split_and!; [|..|exact Hpw|exact Hd'].
  - etransitivity; [eapply kbind_Switch, Hs|]. reflexivity.
  - intros k'.
    exact (kbind_Done _ (fun _ => mret tt) _ _ _ (on_mach_set_status (IF (km k)) k')).
Qed.

Lemma thread_yield_eq k :
  sched_inv (kt k) -> dirs_ok (tasks (kt k)) (kp k) ->
  let th := sched_step (yield_st (kt k)) in
  exists pg e0 c, thread_yield k = Switch (switched pg e0 th k) c /\
    (forall k', c k' = Done tt (set_km (set_if (IF (km k)) (km k')) k')) /\
    pwords pg = pwords (kp k) /\ dirs_ok (tasks th) pg.
Proof.
  intros Hinv Hd th. unfold thread_yield. kstep.
  pose proof (on_mach_disable k) as Hdis. kstep. kstep. cbn [kt set_km].
  unfold in_list. rewrite bool_decide_false.
  2:{ rewrite (so_ready _ (proj1 Hinv)). by rewrite (proj2 Hinv). }
  kstep. kstep. kstep.
  destruct (schedule_eq (set_kt (yield_st (kt k)) (set_km (irq_off (km k)) k)))
    as (pg & e0 & Hs & Hpw & Hd').
  { by apply yield_st_ok. }
  { simpl. apply irq_off_IF. }
  { apply (dirs_ok_upd (running (kt k)) _ (set_ready (thread_ready_list (kt k) ++ [running (kt k)]) (kt k))); [exact (so_cur _ (proj1 Hinv))|done|done]. }
  exists pg, e0. eexists. split_and!; [|..|exact Hpw|exact Hd'].
  - etransitivity; [eapply kbind_Switch, Hs|]. reflexivity.
  - intros k'.
    exact (kbind_Done _ (fun _ => mret tt) _ _ _ (on_mach_set_status (IF (km k)) k')).
Qed.
