(* ===== verification/Timer.v ===== *)
(** * The timer: [device/timer.c]

    The clock interrupt's accounting and time slices, the programming of the
    8253 and the conversion of milliseconds to ticks. *)
From S2P Require Import Prelude Machine Paging Kernel Thread.

Definition set_sys_ticks (v : Z) (d : dev_st) : dev_st :=
  DevSt v (kbd_buf d) (ctrl_status d) (shift_status d) (alt_status d) (caps_lock_status d)
    (ext_scancode d).

Definition intr_timer_handler : K unit :=
  cur_thread ← running_thread;
  t ← get_task cur_thread;
  KASSERT (bool_decide (stack_magic t = 0x19870916)) "cur_thread->stack_magic == 0x19870916";;
  upd_task cur_thread (fun t => set_elapsed_ticks (u32 (elapsed_ticks t + 1)) t);;
  kmod (fun k => set_kdev (set_sys_ticks (u32 (sys_ticks (kdev k) + 1)) (kdev k)) k);;
  t ← get_task cur_thread;
  if decide (ticks t = 0) then schedule
  else upd_task cur_thread (fun t => set_ticks (u8 (ticks t - 1)) t).

Definition IRQ0_FREQUENCY : Z := 100.
Definition INPUT_FREQUENCY : Z := 1193180.
Definition mil_seconds_per_intr : Z := 1000 / IRQ0_FREQUENCY.

(** The loop of [ticks_to_sleep]. *)
Fixpoint ticks_to_sleep_loop (fuel : nat) (start_tick sleep_ticks : Z) : K unit :=
  match fuel with
  | O => kno_fuel
  | S fuel =>
      irq_window;;
      now ← kget (fun k => sys_ticks (kdev k));
      if decide (u32 (now - start_tick) < sleep_ticks) then
        thread_yield;;
        ticks_to_sleep_loop fuel start_tick sleep_ticks
      else mret tt
  end.

Definition ticks_to_sleep (fuel : nat) (sleep_ticks : Z) : K unit :=
  start_tick ← kget (fun k => sys_ticks (kdev k));
  ticks_to_sleep_loop fuel start_tick sleep_ticks.

Definition mtime_sleep (fuel : nat) (m_seconds : Z) : K unit :=
  let sleep_ticks := DIV_ROUND_UP m_seconds mil_seconds_per_intr in
  KASSERT (bool_decide (sleep_ticks > 0)) "sleep_ticks > 0";;
  ticks_to_sleep fuel sleep_ticks.
