(* ===== verification/Sync.v ===== *)
(** * Semaphores and locks: [thread/sync.c]

    The operations of [thread/sync.c] on the kernel state, with a point
    [irq_window] between the statements that run with interrupts enabled.
    The loop of [sema_down] takes fuel: each round blocks the thread, and how
    often a thread is woken only to find the semaphore taken again depends on
    the other threads. *)
From S2P Require Import Prelude Machine Paging Kernel Thread.

(** ** The state *)

Definition sema_at (s : sync_st) (i : sema_id) : semaphore := default (Sema 0 []) (semas s !! i).
Definition lock_at (s : sync_st) (l : lock_id) : lock := default (Lock 0 0) (locks s !! l).

Definition set_value (v : Z) (p : semaphore) : semaphore := Sema v (waiters p).
Definition set_waiters (w : list Z) (p : semaphore) : semaphore := Sema (value p) w.
Definition set_holder (h : Z) (l : lock) : lock := Lock h (holder_repeat_nr l).
Definition set_repeat (n : Z) (l : lock) : lock := Lock (holder l) n.

Definition upd_sema_st (i : sema_id) (f : semaphore -> semaphore) (s : sync_st) : sync_st :=
  SyncSt (<[i := f (sema_at s i)]> (semas s)) (locks s).
Definition upd_lock_st (l : lock_id) (f : lock -> lock) (s : sync_st) : sync_st :=
  SyncSt (semas s) (<[l := f (lock_at s l)]> (locks s)).

Definition get_sema (i : sema_id) : K semaphore := kget (fun k => sema_at (ks k) i).
Definition upd_sema (i : sema_id) (f : semaphore -> semaphore) : K unit :=
  kmod (fun k => set_ks (upd_sema_st i f (ks k)) k).
Definition get_lock (l : lock_id) : K lock := kget (fun k => lock_at (ks k) l).
Definition upd_lock (l : lock_id) (f : lock -> lock) : K unit :=
  kmod (fun k => set_ks (upd_lock_st l f (ks k)) k).

(** ** The operations *)

Definition sema_init (psema : sema_id) (v : Z) : K unit :=
  upd_sema psema (set_value (u8 v));;
  upd_sema psema (set_waiters []).

Definition lock_init (plock : lock_id) : K unit :=
  upd_lock plock (set_holder 0);;
  upd_lock plock (set_repeat 0);;
  sema_init (lock_semaphore plock) 1.

(** The loop [while (psema->value == 0)]. *)
Fixpoint sema_wait (fuel : nat) (psema : sema_id) : K unit :=
  match fuel with
  | O => kno_fuel
  | S fuel =>
      p ← get_sema psema;
      if decide (value p = 0) then
        cur ← running_thread;
        KASSERT (negb (in_list cur (waiters p)))
          "!elem_find(&psema->waiters, &running_thread()->general_tag)";;
        (if in_list cur (waiters p) then
           kpanic "sema_down: thread blocked has been in waiter list" else mret tt);;
        upd_sema psema (fun p => set_waiters (waiters p ++ [cur]) p);;
        thread_block TASK_BLOCKED;;
        sema_wait fuel psema
      else mret tt
  end.

Definition sema_down (fuel : nat) (psema : sema_id) : K unit :=
  old_status ← on_mach intr_disable;
  sema_wait fuel psema;;
  upd_sema psema (fun p => set_value (u8 (value p - 1)) p);;
  p ← get_sema psema;
  KASSERT (bool_decide (value p = 0)) "psema->value == 0";;
  on_mach (intr_set_status old_status);;
  mret tt.

(** [list_pop(&psema->waiters)] of a list that is not empty. *)
Definition waiters_pop (psema : sema_id) : K Z :=
  p ← get_sema psema;
  match waiters p with
  | [] => kpanic "list_pop of an empty list"
  | t :: ws => upd_sema psema (set_waiters ws);; mret t
  end.

Definition sema_up (psema : sema_id) : K unit :=
  old_status ← on_mach intr_disable;
  p ← get_sema psema;
  KASSERT (bool_decide (value p = 0)) "psema->value == 0";;
  (if decide (waiters p <> []) then
     thread_blocked ← waiters_pop psema; thread_unblock thread_blocked
   else mret tt);;
  upd_sema psema (fun p => set_value (u8 (value p + 1)) p);;
  p ← get_sema psema;
  KASSERT (bool_decide (value p = 1)) "psema->value == 1";;
  on_mach (intr_set_status old_status);;
  mret tt.

Definition lock_acquire (fuel : nat) (plock : lock_id) : K unit :=
  irq_window;;
  l ← get_lock plock;
  cur ← running_thread;
  if decide (holder l <> cur) then
    irq_window;;
    sema_down fuel (lock_semaphore plock);;
    irq_window;;
    cur ← running_thread;
    upd_lock plock (set_holder cur);;
    irq_window;;
    l ← get_lock plock;
    KASSERT (bool_decide (holder_repeat_nr l = 0)) "plock->holder_repeat_nr == 0";;
    irq_window;;
    upd_lock plock (set_repeat 1)
  else
    irq_window;;
    upd_lock plock (fun l => set_repeat (u32 (holder_repeat_nr l + 1)) l).

Definition lock_release (plock : lock_id) : K unit :=
  irq_window;;
  l ← get_lock plock;
  cur ← running_thread;
  KASSERT (bool_decide (holder l = cur)) "plock->holder == running_thread()";;
  irq_window;;
  l ← get_lock plock;
  if decide (holder_repeat_nr l > 1) then
    irq_window;;
    upd_lock plock (fun l => set_repeat (u32 (holder_repeat_nr l - 1)) l)
  else
    irq_window;;
    l ← get_lock plock;
    KASSERT (bool_decide (holder_repeat_nr l = 1)) "plock->holder_repeat_nr == 1";;
    irq_window;;
    upd_lock plock (set_holder 0);;
    irq_window;;
    upd_lock plock (set_repeat 0);;
    irq_window;;
    sema_up (lock_semaphore plock).

(** ** Lookups *)

Lemma sema_at_upd i f s j :
  sema_at (upd_sema_st i f s) j = if decide (j = i) then f (sema_at s i) else sema_at s j.
Proof.
  unfold sema_at, upd_sema_st. simpl. rewrite lookup_insert.
  repeat case_decide; congruence || done.
Qed.

Lemma lock_at_upd l f s j :
  lock_at (upd_lock_st l f s) j = if decide (j = l) then f (lock_at s l) else lock_at s j.
Proof.
  unfold lock_at, upd_lock_st. simpl. rewrite lookup_insert.
  repeat case_decide; congruence || done.
Qed.

Lemma lock_at_upd_sema i f s l : lock_at (upd_sema_st i f s) l = lock_at s l.
Proof. done. Qed.
Lemma sema_at_upd_lock l f s i : sema_at (upd_lock_st l f s) i = sema_at s i.
Proof. done. Qed.

Create Rewrite HintDb sync.
#[export] Hint Rewrite sema_at_upd lock_at_upd lock_at_upd_sema sema_at_upd_lock : sync.

(** ** The operations that do not block *)

(** A free semaphore is taken at once. *)
Lemma sema_down_free fuel i k :
  value (sema_at (ks k) i) = 1 ->
  sema_down (S fuel) i k = Done tt (set_ks (upd_sema_st i (set_value 0) (ks k)) k).
Proof.
  intros Hv. unfold sema_down. pose proof (on_mach_disable k) as Hd. kstep.
  assert (Hw : sema_wait (S fuel) i (set_km (irq_off (km k)) k) =
               Done tt (set_km (irq_off (km k)) k)).
  { simpl. kstep. simpl. by rewrite Hv. }
  kstep. kstep. kstep. cbn [ks set_ks set_km]. rewrite sema_at_upd, decide_True by done.
  simpl. rewrite Hv. kstep.
  etransitivity; [eapply kbind_Done, on_mach_set_status|].
  unfold mret, K_ret. f_equal. cbn [km set_ks set_km].
  replace (upd_sema_st i _ _) with (upd_sema_st i (set_value 0) (ks k)).
  - rewrite set_if_irq_off. by destruct k.
  - unfold upd_sema_st. by rewrite Hv.
Qed.

(** Release with nobody waiting. *)
Lemma sema_up_free i k :
  sema_at (ks k) i = Sema 0 [] ->
  sema_up i k = Done tt (set_ks (upd_sema_st i (set_value 1) (ks k)) k).
Proof.
  intros Hv. unfold sema_up. pose proof (on_mach_disable k) as Hd. kstep. kstep.
  cbn [ks set_km]. rewrite Hv. kstep. rewrite decide_False by (simpl; auto).
  kstep. kstep. kstep. cbn [ks set_ks set_km]. rewrite sema_at_upd, decide_True by done.
  rewrite Hv. kstep.
  etransitivity; [eapply kbind_Done, on_mach_set_status|].
  unfold mret, K_ret. f_equal. cbn [km set_ks set_km].
  replace (upd_sema_st i _ _) with (upd_sema_st i (set_value 1) (ks k)).
  - rewrite set_if_irq_off. by destruct k.
  - unfold upd_sema_st. by rewrite Hv.
Qed.

(** The state after the first waiter [t] has been made ready. *)
Definition woken (i : sema_id) (t : Z) (ws : list Z) (k : kst) : kst :=
  set_ks (upd_sema_st i (fun _ => Sema 1 ws) (ks k)) (set_kt (unblock_st t (kt k)) k).

Lemma sema_up_wake i t ws k :
  sema_at (ks k) i = Sema 0 (t :: ws) -> blocking (status (task_at (kt k) t)) = true ->
  t ∉ thread_ready_list (kt k) ->
  sema_up i k = Done tt (woken i t ws k).
Proof.
  intros Hv Hb Hn. unfold sema_up. pose proof (on_mach_disable k) as Hd. kstep. kstep.
  cbn [ks set_km]. rewrite Hv. kstep. rewrite decide_True by done.
  set (k1 := set_ks (upd_sema_st i (set_waiters ws) (ks k)) (set_km (irq_off (km k)) k)).
  assert (Hp : waiters_pop i (set_km (irq_off (km k)) k) = Done t k1).
  { unfold waiters_pop. kstep. cbn [ks set_km]. rewrite Hv. simpl. by kstep. }
  assert (Hu : thread_unblock t k1 = Done tt (set_kt (unblock_st t (kt k)) k1)).
  { exact (thread_unblock_eq t k1 Hb Hn). }
  assert (Hw : (waiters_pop i ≫= (fun t => thread_unblock t)) (set_km (irq_off (km k)) k) =
               Done tt (set_kt (unblock_st t (kt k)) k1)).
  { by kstep. }
  kstep. kstep. kstep. unfold k1. cbn [ks set_ks set_km set_kt].
  rewrite !sema_at_upd, !decide_True by done. rewrite Hv. kstep.
  etransitivity; [eapply kbind_Done, on_mach_set_status|].
  unfold mret, K_ret. f_equal. cbn [km set_ks set_km].
  unfold woken. replace (upd_sema_st i _ (upd_sema_st _ _ _))
    with (upd_sema_st i (fun _ => Sema 1 ws) (ks k)).
  - rewrite set_if_irq_off. by destruct k.
  - unfold upd_sema_st. simpl. rewrite insert_insert_eq.
    fold (upd_sema_st i (set_waiters ws) (ks k)). by rewrite sema_at_upd, decide_True, Hv.
Qed.

(** ** A lock nobody holds, taken with interrupts off *)

Definition lock_free (l : lock_id) (k : kst) : Prop :=
  lock_at (ks k) l = Lock 0 0 /\ sema_at (ks k) (lock_semaphore l) = Sema 1 [].

(** The locks but those of [ls], and the other semaphores, are as they were. *)
Definition locks_but (ls : list lock_id) (s s' : sync_st) : Prop :=
  (forall l, l ∉ ls -> lock_at s' l = lock_at s l) /\
  (forall i, (forall l, i = lock_semaphore l -> l ∉ ls) -> sema_at s' i = sema_at s i).

Lemma locks_but_trans ls ls1 ls2 s1 s2 s3 :
  locks_but ls1 s1 s2 -> locks_but ls2 s2 s3 -> ls1 ⊆ ls -> ls2 ⊆ ls -> locks_but ls s1 s3.
Proof.
  intros [A1 A2] [B1 B2] I1 I2. split.
  - intros l Hl. rewrite B1, A1; auto.
  - intros i Hi. rewrite B2, A2; [done|..]; intros l E Hl; apply (Hi l E); auto.
Qed.

Lemma locks_but_same ls s1 s2 s3 : locks_but ls s1 s2 -> locks_but ls s2 s3 -> locks_but ls s1 s3.
Proof. intros H1 H2. by apply (locks_but_trans ls ls ls _ s2). Qed.

Lemma locks_but_free ls l k k' : locks_but ls (ks k) (ks k') -> l ∉ ls -> lock_free l k -> lock_free l k'.
Proof.
  intros [H1 H2] Hl [F1 F2]. split; [by rewrite H1|]. rewrite H2; [done|]. by intros l' [= <-].
Qed.

(** What a run of updates to one lock leaves. *)
Ltac locks_but_upd :=
  let l' := fresh "l'" in let H := fresh "H" in
  split; [intros l' H|intros l' H]; autorewrite with sync;
  rewrite ?decide_False; try done; intros ->;
  first [apply H; left | apply (H _ eq_refl); left].

Lemma lock_init_free l k :
  exists s, lock_init l k = Done tt (set_ks s k) /\ lock_free l (set_ks s k) /\
    locks_but [l] (ks k) s.
Proof.
  eexists. split; [reflexivity|]. unfold lock_free. cbn [ks set_ks]. autorewrite with sync.
  rewrite !decide_True by done. split; [done|]. locks_but_upd.
Qed.

Lemma irq_window_off k : IF (km k) = false -> irq_window k = Done tt k.
Proof. intros H. unfold irq_window. by rewrite H. Qed.

Ltac kwindow := cbv beta;
  match goal with
  | |- context [@mbind K K_bind _ _ ?f irq_window ?s] =>
      rewrite (kbind_Done irq_window f s tt s (irq_window_off s ltac:(assumption)))
  end.

Lemma lock_acquire_free fuel l k :
  IF (km k) = false -> lock_free l k -> running (kt k) <> 0 ->
  exists s, lock_acquire (S fuel) l k = Done tt (set_ks s k) /\
    lock_at s l = Lock (running (kt k)) 1 /\ sema_at s (lock_semaphore l) = Sema 0 [] /\
    locks_but [l] (ks k) s.
Proof.
  intros HI [Hl Hs] Hr. unfold lock_acquire. kwindow. unfold get_lock. kstep. rewrite Hl.
  unfold running_thread. kstep. simpl holder. rewrite decide_True by done. kwindow.
  rewrite (kbind_Done _ _ _ _ _ (sema_down_free fuel (lock_semaphore l) k ltac:(by rewrite Hs))).
  kwindow. kstep. kstep. kwindow. kstep.
  cbn [ks set_ks]. rewrite lock_at_upd, decide_True, lock_at_upd_sema, Hl by done. simpl holder_repeat_nr.
  rewrite bool_decide_true by done. kstep. kwindow.
  eexists. split; [reflexivity|]. cbn [ks set_ks]. autorewrite with sync.
  rewrite !decide_True by done. rewrite Hl, Hs. split; [done|]. split; [done|]. locks_but_upd.
Qed.

Lemma lock_release_free l t k :
  IF (km k) = false -> lock_at (ks k) l = Lock t 1 -> running (kt k) = t ->
  sema_at (ks k) (lock_semaphore l) = Sema 0 [] ->
  exists s, lock_release l k = Done tt (set_ks s k) /\ lock_free l (set_ks s k) /\
    locks_but [l] (ks k) s.
Proof.
  intros HI Hl Ht Hs. unfold lock_release. kwindow. unfold get_lock. kstep. kstep. rewrite Hl, Ht. simpl holder.
  rewrite bool_decide_true by done. kstep. kwindow. kstep. rewrite Hl. simpl holder_repeat_nr.
  rewrite decide_False by (simpl; lia). kwindow. kstep. rewrite Hl. simpl holder_repeat_nr.
  rewrite bool_decide_true by done. kstep. kwindow. kstep. kwindow. kstep. kwindow.
  rewrite sema_up_free.
  - eexists. split; [reflexivity|]. unfold lock_free. cbn [ks set_ks]. autorewrite with sync.
    rewrite !decide_True by done. rewrite Hl, Hs. split; [done|]. locks_but_upd.
  - cbn [ks set_ks]. autorewrite with sync. exact Hs.
Qed.
