(* ===== verification/Ioqueue.v ===== *)
(** * The bounded buffer: [device/ioqueue.c]

    The ring buffer [kbd_buf] between the keyboard interrupt and the threads
    that read characters, and its meaning as a bounded queue: [contents]. *)
From S2P Require Import Prelude Machine Paging Kernel Thread Sync.

Definition BUFFSIZE : Z := 64.

(** ** State *)

Definition set_buf (v : list Z) (q : ioqueue) : ioqueue :=
  IOQueue (producer q) (consumer q) v (head q) (tail q).
Definition set_head (v : Z) (q : ioqueue) : ioqueue :=
  IOQueue (producer q) (consumer q) (buf q) v (tail q).
Definition set_tail (v : Z) (q : ioqueue) : ioqueue :=
  IOQueue (producer q) (consumer q) (buf q) (head q) v.

(** The two fields of type [struct task_struct*]. *)
Inductive waiter := Producer | Consumer.
Definition get_waiter (w : waiter) (q : ioqueue) : Z :=
  match w with Producer => producer q | Consumer => consumer q end.
Definition set_waiter (w : waiter) (v : Z) (q : ioqueue) : ioqueue :=
  match w with
  | Producer => IOQueue v (consumer q) (buf q) (head q) (tail q)
  | Consumer => IOQueue (producer q) v (buf q) (head q) (tail q)
  end.

Definition set_kbd_buf (q : ioqueue) (d : dev_st) : dev_st :=
  DevSt (sys_ticks d) q (ctrl_status d) (shift_status d) (alt_status d) (caps_lock_status d)
    (ext_scancode d).

Definition get_ioq : K ioqueue := kget (fun k => kbd_buf (kdev k)).
Definition upd_ioq_st (f : ioqueue -> ioqueue) (k : kst) : kst :=
  set_kdev (set_kbd_buf (f (kbd_buf (kdev k))) (kdev k)) k.
Definition upd_ioq (f : ioqueue -> ioqueue) : K unit := kmod (upd_ioq_st f).

(** ** The code *)

Definition ioqueue_init : K unit :=
  lock_init kbd_buf_lock;;
  upd_ioq (set_waiter Consumer 0);;
  upd_ioq (set_waiter Producer 0);;
  upd_ioq (set_tail 0);;
  upd_ioq (set_head 0).

Definition next_pos (pos : Z) : Z := Z.rem (i32 (pos + 1)) BUFFSIZE.

Definition ASSERT_INTR_OFF : K unit :=
  st ← on_mach intr_get_status;
  KASSERT (bool_decide (st = INTR_OFF)) "intr_get_status() == INTR_OFF".

Definition ioq_full : K bool :=
  ASSERT_INTR_OFF;;
  q ← get_ioq;
  mret (bool_decide (next_pos (head q) = tail q)).

Definition ioq_empty : K bool :=
  ASSERT_INTR_OFF;;
  q ← get_ioq;
  mret (bool_decide (tail q = head q)).

Definition ioq_wait (w : waiter) : K unit :=
  q ← get_ioq;
  KASSERT (bool_decide (get_waiter w q = 0)) "*waiter == NULL && waiter != NULL";;
  cur ← running_thread;
  upd_ioq (set_waiter w cur);;
  thread_block TASK_BLOCKED.

Definition wakeup (w : waiter) : K unit :=
  q ← get_ioq;
  KASSERT (bool_decide (get_waiter w q <> 0)) "*waiter != NULL";;
  thread_unblock (get_waiter w q);;
  upd_ioq (set_waiter w 0).

(** The loop that waits while [blocked] holds. *)
Fixpoint ioq_wait_while (fuel : nat) (blocked : K bool) (w : waiter) : K unit :=
  match fuel with
  | O => kno_fuel
  | S fuel' =>
      b ← blocked;
      if (b : bool) then
        lock_acquire fuel kbd_buf_lock;;
        ioq_wait w;;
        lock_release kbd_buf_lock;;
        ioq_wait_while fuel' blocked w
      else mret tt
  end.

Definition buf_at (q : ioqueue) (i : Z) : Z := default 0 (buf q !! Z.to_nat i).

Definition ioq_getchar (fuel : nat) : K Z :=
  ASSERT_INTR_OFF;;
  ioq_wait_while fuel ioq_empty Consumer;;
  q ← get_ioq;
  let byte := buf_at q (tail q) in
  upd_ioq (fun q => set_tail (next_pos (tail q)) q);;
  q ← get_ioq;
  (if decide (producer q <> 0) then wakeup Producer else mret tt);;
  mret byte.

Definition ioq_putchar (fuel : nat) (byte : Z) : K unit :=
  ASSERT_INTR_OFF;;
  ioq_wait_while fuel ioq_full Producer;;
  upd_ioq (fun q => set_buf (<[Z.to_nat (head q) := i8 byte]> (buf q)) q);;
  upd_ioq (fun q => set_head (next_pos (head q)) q);;
  q ← get_ioq;
  if decide (consumer q <> 0) then wakeup Consumer else mret tt.

(** ** The queue it holds *)

Record ioq_wf (q : ioqueue) : Prop := {
  iq_len : length (buf q) = 64%nat;
  iq_head : 0 <= head q < BUFFSIZE;
  iq_tail : 0 <= tail q < BUFFSIZE
}.

Definition count (q : ioqueue) : nat := Z.to_nat ((head q - tail q) mod BUFFSIZE).

(** The characters from the read cursor to the write cursor. *)
Definition contents (q : ioqueue) : list Z :=
  (fun i => buf_at q ((tail q + Z.of_nat i) mod BUFFSIZE)) <$> seq 0 (count q).

Lemma next_pos_eq pos : 0 <= pos < BUFFSIZE -> next_pos pos = (pos + 1) mod BUFFSIZE.
Proof.
  unfold next_pos, BUFFSIZE. intros H. rewrite i32_id by lia. apply Z.rem_mod_nonneg; lia.
Qed.

Lemma next_pos_range pos : 0 <= pos < BUFFSIZE -> 0 <= next_pos pos < BUFFSIZE.
Proof. intros H. rewrite next_pos_eq by done. apply Z.mod_pos_bound. done. Qed.

Lemma contents_length q : length (contents q) = count q.
Proof. unfold contents. by rewrite length_fmap, length_seq. Qed.

Lemma count_bound q : (count q <= 63)%nat.
Proof.
  unfold count, BUFFSIZE. pose proof (Z.mod_pos_bound (head q - tail q) 64). lia.
Qed.

(** Full and empty, as the code tests them. *)
Lemma full_count q : ioq_wf q -> next_pos (head q) = tail q <-> count q = 63%nat.
Proof.
  intros [_ Hh Ht]. rewrite next_pos_eq by done. unfold count, BUFFSIZE in *.
  zmod_lia.
Qed.

Lemma empty_count q : ioq_wf q -> tail q = head q <-> contents q = [].
Proof.
  intros [_ Hh Ht]. rewrite <- length_zero_iff_nil, contents_length.
  unfold count, BUFFSIZE in *. zmod_lia.
Qed.

(** What the two cursor moves do to the queue. *)
Definition put_st (byte : Z) (q : ioqueue) : ioqueue :=
  set_head (next_pos (head q)) (set_buf (<[Z.to_nat (head q) := byte]> (buf q)) q).
Definition get_st (q : ioqueue) : ioqueue := set_tail (next_pos (tail q)) q.

Lemma buf_at_insert q i j v :
  ioq_wf q -> 0 <= i < BUFFSIZE -> 0 <= j ->
  buf_at (set_buf (<[Z.to_nat i := v]> (buf q)) q) j = if decide (j = i) then v else buf_at q j.
Proof.
  intros [Hl _ _] Hi Hj. unfold buf_at, set_buf, BUFFSIZE in *. simpl. case_decide as E.
  - subst j. rewrite list_lookup_insert_eq by lia. done.
  - rewrite list_lookup_insert_ne by lia. done.
Qed.

Lemma put_contents q byte :
  ioq_wf q -> next_pos (head q) <> tail q ->
  ioq_wf (put_st byte q) /\ contents (put_st byte q) = contents q ++ [byte].
Proof.
  intros Hwf Hnf. pose proof Hwf as [Hl Hh Ht]. split.
  { split; simpl; [by rewrite length_insert|by apply next_pos_range|done]. }
  assert (Hc : count (put_st byte q) = S (count q)).
  { unfold count. simpl. rewrite full_count in Hnf by done.
    rewrite next_pos_eq by done. unfold count, BUFFSIZE in *. zmod_lia. }
  assert (Hat : forall j, 0 <= j -> buf_at (put_st byte q) j =
                  if decide (j = head q) then byte else buf_at q j).
  { intros j Hj. by apply (buf_at_insert q (head q) j byte Hwf Hh). }
  unfold contents. rewrite Hc, seq_S, fmap_app. simpl. f_equal.
  - apply list_fmap_ext. intros i x Hx. apply lookup_seq in Hx as [-> Hx]. simpl.
    rewrite Hat by (apply Z.mod_pos_bound; done). rewrite decide_False; [done|].
    unfold count, BUFFSIZE in *. zmod_lia.
  - f_equal. rewrite Hat by (apply Z.mod_pos_bound; done). rewrite decide_True; [done|].
    unfold count, BUFFSIZE in *. zmod_lia.
Qed.

Lemma get_contents q :
  ioq_wf q -> tail q <> head q ->
  ioq_wf (get_st q) /\ contents q = buf_at q (tail q) :: contents (get_st q).
Proof.
  intros Hwf Hne. pose proof Hwf as [Hl Hh Ht]. split.
  { split; simpl; [done|done|by apply next_pos_range]. }
  assert (Hc : count q = S (count (get_st q))).
  { unfold count. simpl. rewrite next_pos_eq by done. unfold BUFFSIZE in *. zmod_lia. }
  unfold contents. rewrite Hc. simpl. f_equal.
  - f_equal. unfold BUFFSIZE in *. zmod_lia.
  - rewrite <- fmap_S_seq, <- list_fmap_compose. apply list_fmap_ext. intros i x Hx.
    unfold compose, buf_at, get_st. simpl. rewrite next_pos_eq by done. do 3 f_equal.
    unfold BUFFSIZE in *. zmod_lia.
Qed.

(** ** The operations, interrupts being off *)

Lemma ASSERT_INTR_OFF_eq k : IF (km k) = false -> ASSERT_INTR_OFF k = Done tt k.
Proof.
  intros Hi. unfold ASSERT_INTR_OFF.
  assert (H : on_mach intr_get_status k = Done INTR_OFF k).
  { unfold on_mach. erewrite lift_Ok by apply intr_get_status_eq. by rewrite Hi, set_km_id. }
  by kstep.
Qed.

Lemma ioq_full_eq k :
  IF (km k) = false ->
  ioq_full k = Done (bool_decide (next_pos (head (kbd_buf (kdev k))) = tail (kbd_buf (kdev k)))) k.
Proof. intros Hi. unfold ioq_full. pose proof (ASSERT_INTR_OFF_eq k Hi). by kstep. Qed.

Lemma ioq_empty_eq k :
  IF (km k) = false ->
  ioq_empty k = Done (bool_decide (tail (kbd_buf (kdev k)) = head (kbd_buf (kdev k)))) k.
Proof. intros Hi. unfold ioq_empty. pose proof (ASSERT_INTR_OFF_eq k Hi). by kstep. Qed.

(** The state after the waiter recorded in a field has been woken. *)
Definition woken_waiter (w : waiter) (k : kst) : kst :=
  let t := get_waiter w (kbd_buf (kdev k)) in
  if decide (t <> 0) then upd_ioq_st (set_waiter w 0) (set_kt (unblock_st t (kt k)) k) else k.

(** A recorded waiter is blocked. *)
Definition waiter_ok (w : waiter) (k : kst) : Prop :=
  let t := get_waiter w (kbd_buf (kdev k)) in
  t <> 0 -> blocking (status (task_at (kt k) t)) = true /\ t ∉ thread_ready_list (kt k).

Lemma wakeup_eq w k :
  get_waiter w (kbd_buf (kdev k)) <> 0 -> waiter_ok w k ->
  wakeup w k = Done tt (upd_ioq_st (set_waiter w 0)
                 (set_kt (unblock_st (get_waiter w (kbd_buf (kdev k))) (kt k)) k)).
Proof.
  intros Hne Hok. destruct (Hok Hne) as [Hb Hn]. unfold wakeup. kstep.
  rewrite bool_decide_true by done. kstep.
  pose proof (thread_unblock_eq _ k Hb Hn). by kstep.
Qed.

Lemma wake_if_eq w k :
  waiter_ok w k ->
  (q ← get_ioq; if decide (get_waiter w q <> 0) then wakeup w else mret tt) k =
  Done tt (woken_waiter w k).
Proof.
  intros Hok. unfold woken_waiter. kstep. case_decide as Hne; [|done]. by apply wakeup_eq.
Qed.

(** [ioq_putchar] into a queue that is not full. *)
Lemma ioq_putchar_eq fuel byte k :
  IF (km k) = false -> waiter_ok Consumer k ->
  next_pos (head (kbd_buf (kdev k))) <> tail (kbd_buf (kdev k)) ->
  ioq_putchar (S fuel) byte k =
  Done tt (woken_waiter Consumer (upd_ioq_st (put_st (i8 byte)) k)).
Proof.
  intros Hi Hw Hnf. unfold ioq_putchar. pose proof (ASSERT_INTR_OFF_eq k Hi). kstep.
  assert (Hl : ioq_wait_while (S fuel) ioq_full Producer k = Done tt k).
  { cbn [ioq_wait_while]. pose proof (ioq_full_eq k Hi) as Hf. kstep.
    by rewrite bool_decide_false. }
  kstep. kstep. kstep.
  exact (wake_if_eq Consumer (upd_ioq_st (put_st (i8 byte)) k) Hw).
Qed.

(** [ioq_getchar] from a queue that is not empty. *)
Lemma ioq_getchar_eq fuel k :
  IF (km k) = false -> waiter_ok Producer k ->
  tail (kbd_buf (kdev k)) <> head (kbd_buf (kdev k)) ->
  ioq_getchar (S fuel) k =
  Done (buf_at (kbd_buf (kdev k)) (tail (kbd_buf (kdev k))))
       (woken_waiter Producer (upd_ioq_st get_st k)).
Proof.
  intros Hi Hw Hne. unfold ioq_getchar. pose proof (ASSERT_INTR_OFF_eq k Hi). kstep.
  assert (Hl : ioq_wait_while (S fuel) ioq_empty Consumer k = Done tt k).
  { cbn [ioq_wait_while]. pose proof (ioq_empty_eq k Hi) as Hf. kstep.
    by rewrite bool_decide_false. }
  kstep. kstep. kstep.
  pose proof (wake_if_eq Producer (upd_ioq_st get_st k) Hw) as Hwk. cbn [get_waiter] in Hwk.
  unfold mbind at 1, K_bind at 1 in Hwk. cbn [get_ioq kget res_bind] in Hwk.
  kstep. etransitivity; [eapply kbind_Done; exact Hwk|]. done.
Qed.

Lemma woken_waiter_queue w k :
  ioq_wf (kbd_buf (kdev k)) ->
  ioq_wf (kbd_buf (kdev (woken_waiter w k))) /\
  contents (kbd_buf (kdev (woken_waiter w k))) = contents (kbd_buf (kdev k)).
Proof.
  intros [Hl Hh Ht]. unfold woken_waiter. case_decide; [|by split].
  destruct w; (split; [by split|done]).
Qed.

(** The thread recorded at an end of the queue, if there is one, has been made
    ready and stands first in the ready list, and the record is cleared; the
    other end's record, the other threads and the rest of the kernel are as
    they were. *)
Record end_woken (w : waiter) (k k' : kst) : Prop := {
  ew_record : get_waiter w (kbd_buf (kdev k')) = 0;
  ew_other w' : w' <> w -> get_waiter w' (kbd_buf (kdev k')) = get_waiter w' (kbd_buf (kdev k));
  ew_none : get_waiter w (kbd_buf (kdev k)) = 0 -> kt k' = kt k;
  ew_ready t : get_waiter w (kbd_buf (kdev k)) = t -> t <> 0 ->
    status_of (kt k') t = Some TASK_READY /\
    thread_ready_list (kt k') = t :: thread_ready_list (kt k) /\
    running (kt k') = running (kt k) /\ forall u, u <> t -> tasks (kt k') !! u = tasks (kt k) !! u;
  ew_rest : k' = set_kdev (set_kbd_buf (kbd_buf (kdev k')) (kdev k)) (set_kt (kt k') k)
}.

Lemma woken_end w f k :
  (forall w', get_waiter w' (f (kbd_buf (kdev k))) = get_waiter w' (kbd_buf (kdev k))) ->
  end_woken w k (woken_waiter w (upd_ioq_st f k)).
Proof.
  intros Hf. unfold woken_waiter. cbn [kdev kt upd_ioq_st set_kdev kbd_buf set_kbd_buf]. rewrite Hf.
  case_decide as E.
  - split; cbn [kdev kt upd_ioq_st set_kdev set_kt kbd_buf set_kbd_buf].
    + by destruct w.
    + intros w' Hw'. rewrite <- Hf. by destruct w, w'.
    + done.
    + intros t <- _. unfold unblock_st. split; [by rewrite status_of_upd, decide_True|].
      split; [done|]. split; [done|]. intros u Hu. simpl. by rewrite lookup_insert_ne.
    + by destruct k as [? ? ? ? ? ? []].
  - split; cbn [kdev kt upd_ioq_st set_kdev set_kt kbd_buf set_kbd_buf].
    + by rewrite Hf.
    + intros w' _. apply Hf.
    + done.
    + intros t <- Ht. done.
    + by destruct k as [? ? ? ? ? ? []].
Qed.

Lemma ioq_put_fifo fuel byte k :
  IF (km k) = false -> ioq_wf (kbd_buf (kdev k)) -> waiter_ok Consumer k ->
  (length (contents (kbd_buf (kdev k))) < 63)%nat ->
  exists k', ioq_putchar (S fuel) byte k = Done tt k' /\ ioq_wf (kbd_buf (kdev k')) /\
    contents (kbd_buf (kdev k')) = contents (kbd_buf (kdev k)) ++ [i8 byte] /\
    end_woken Consumer k k'.
Proof.
  intros Hi Hwf Hw Hlen. rewrite contents_length in Hlen.
  assert (Hnf : next_pos (head (kbd_buf (kdev k))) <> tail (kbd_buf (kdev k))).
  { rewrite full_count by done. lia. }
  destruct (put_contents _ (i8 byte) Hwf Hnf) as [Hwf' Hc'].
  eexists. split; [by apply ioq_putchar_eq|].
  destruct (woken_waiter_queue Consumer (upd_ioq_st (put_st (i8 byte)) k) Hwf') as [H1 H2].
  split_and!; [exact H1|by rewrite H2|]. apply woken_end. by intros [].
Qed.

Lemma ioq_get_fifo fuel k c cs :
  IF (km k) = false -> ioq_wf (kbd_buf (kdev k)) -> waiter_ok Producer k ->
  contents (kbd_buf (kdev k)) = c :: cs ->
  exists k', ioq_getchar (S fuel) k = Done c k' /\ ioq_wf (kbd_buf (kdev k')) /\
    contents (kbd_buf (kdev k')) = cs /\ end_woken Producer k k'.
Proof.
  intros Hi Hwf Hw Hc.
  assert (Hne : tail (kbd_buf (kdev k)) <> head (kbd_buf (kdev k))).
  { rewrite empty_count by done. congruence. }
  destruct (get_contents _ Hwf Hne) as [Hwf' Hc']. rewrite Hc in Hc'. injection Hc' as Hc1 Hc2.
  eexists. rewrite Hc1. split; [by apply ioq_getchar_eq|].
  destruct (woken_waiter_queue Producer (upd_ioq_st get_st k) Hwf') as [H1 H2].
  split_and!; [exact H1|rewrite H2; by symmetry|]. apply woken_end. by intros [].
Qed.

(** ** Theorems *)

(** C34: The queue is a FIFO: [ioq_putchar] with room puts the character last;
    [ioq_getchar] with a character there takes the first.  The thread recorded
    as waiting at the other end becomes READY and stands first in the ready
    list, its record is cleared, and nothing else changes. *)
Theorem ioq_is_fifo fuel k :
  IF (km k) = false -> ioq_wf (kbd_buf (kdev k)) ->
  (forall byte, waiter_ok Consumer k -> (length (contents (kbd_buf (kdev k))) < 63)%nat ->
     exists k', ioq_putchar (S fuel) byte k = Done tt k' /\ ioq_wf (kbd_buf (kdev k')) /\
       contents (kbd_buf (kdev k')) = contents (kbd_buf (kdev k)) ++ [i8 byte] /\
       end_woken Consumer k k') /\
  (forall c cs, waiter_ok Producer k -> contents (kbd_buf (kdev k)) = c :: cs ->
     exists k', ioq_getchar (S fuel) k = Done c k' /\ ioq_wf (kbd_buf (kdev k')) /\
       contents (kbd_buf (kdev k')) = cs /\ end_woken Producer k k').
Proof.
  intros Hi Hwf. split; [intros byte|intros c cs]; intros Hw Hc; [by apply ioq_put_fifo|by apply ioq_get_fifo].
Qed.

(** A queue whose characters wrap round the end of the buffer, with a thread
    waiting at each end. *)
Definition demo_ioq : kst :=
  set_kt (ThreadSt {[ 0xc0101000 := set_status TASK_BLOCKED task_zero;
                      0xc0102000 := set_status TASK_BLOCKED task_zero ]}
            0xc009e000 [0xc0100000] [] 0 0 0 (fun _ => 0))
    (set_kdev (set_kbd_buf (IOQueue 0xc0102000 0xc0101000 (98 :: replicate 62 0 ++ [97]) 1 63)
                 (kdev bss_kst)) bss_kst).

Lemma demo_ioq_waiter w : waiter_ok w demo_ioq.
Proof.
  intros _. destruct w; (split; [done|]);
    change (thread_ready_list (kt demo_ioq)) with [0xc0100000]; by intros ?%list_elem_of_singleton.
Qed.

Lemma ioq_is_fifo_witness :
  (exists k', ioq_putchar 1 99 demo_ioq = Done tt k' /\ contents (kbd_buf (kdev k')) = [97; 98; 99] /\
     thread_ready_list (kt k') = [0xc0101000; 0xc0100000] /\
     status_of (kt k') 0xc0101000 = Some TASK_READY) /\
  (exists k', ioq_getchar 1 demo_ioq = Done 97 k' /\ contents (kbd_buf (kdev k')) = [98] /\
     thread_ready_list (kt k') = [0xc0102000; 0xc0100000] /\
     status_of (kt k') 0xc0102000 = Some TASK_READY).
Proof.
  destruct (ioq_is_fifo 0 demo_ioq) as [Hput Hget]; [done|done|]. split.
  - destruct (Hput 99) as (k' & H1 & _ & H2 & H3); [apply demo_ioq_waiter|vm_compute; lia|].
    destruct (ew_ready _ _ _ H3 0xc0101000) as (H4 & H5 & _); [reflexivity|done|].
    exists k'. by split_and!.
  - destruct (Hget 97 [98]) as (k' & H1 & _ & H2 & H3); [apply demo_ioq_waiter|reflexivity|].
    destruct (ew_ready _ _ _ H3 0xc0102000) as (H4 & H5 & _); [reflexivity|done|].
    exists k'. by split_and!.
Defined.
