(* ===== verification/SyncLogic.v ===== *)
(** * Concurrent correctness of the scheduler and the locks

    A step-indexed rely/guarantee logic over the computations of Kernel.
    [safe n t Q G k r]: the computation [r] of thread [t], last resumed in
    state [k] with lock owners [G], reaches neither a panic nor the end of its
    fuel within [n] switches and windows, hands over a state that satisfies
    the system's invariant at each of them, and ends in [Q].  The last part
    runs whole systems of threads and interrupts and shows that the logic is
    adequate. *)
From S2P Require Import Prelude Machine Paging Kernel Thread Timer Sync Ioqueue.

(** ** The invariant *)

(** Which thread is past [sema_down] and not past [sema_up] of a lock. *)
Abbreviation owners := (gmap lock_id Z).

(** The holder and the repeat count of a lock that [t] owns: [lock_acquire]
    has taken the semaphore, has stored the holder, has stored the count;
    [lock_release] has cleared the holder, has cleared the count. *)
Inductive held (t : Z) : lock -> Prop :=
| held_taken : held t (Lock 0 0)
| held_named : held t (Lock t 0)
| held_counted n : 1 <= n < 4294967296 -> held t (Lock t n)
| held_unnamed : held t (Lock 0 1).

Definition lock_ok (G : owners) (th : thread_st) (s : sync_st) (l : lock_id) : Prop :=
  (value (sema_at s (lock_semaphore l)) = 1 /\ G !! l = None /\ lock_at s l = Lock 0 0) \/
  (value (sema_at s (lock_semaphore l)) = 0 /\
   exists t, G !! l = Some t /\ is_Some (tasks th !! t) /\ held t (lock_at s l)).

Lemma held_holder t lk : held t lk -> holder lk = 0 \/ holder lk = t.
Proof. intros []; auto. Qed.

(** Waiters are blocked, wait once and for one semaphore, and the idle
    thread never waits. *)
Record waiting_ok (th : thread_st) (s : sync_st) : Prop := {
  wt_nodup : forall i, NoDup (waiters (sema_at s i));
  wt_blocked : forall i t, t ∈ waiters (sema_at s i) ->
    status_of th t = Some TASK_BLOCKED /\ t <> idle_thread th;
  wt_one : forall i j t, t ∈ waiters (sema_at s i) -> t ∈ waiters (sema_at s j) -> i = j
}.

(** The keyboard's queue: nobody waits to put; a thread recorded as waiting to
    get is blocked, waits for nothing else and owns the queue's lock. *)
Record kbd_ok (G : owners) (th : thread_st) (s : sync_st) (q : ioqueue) : Prop := {
  kb_wf : ioq_wf q;
  kb_producer : producer q = 0;
  kb_consumer : consumer q <> 0 ->
    status_of th (consumer q) = Some TASK_BLOCKED /\ consumer q <> idle_thread th /\
    (forall i, consumer q ∉ waiters (sema_at s i)) /\ G !! kbd_buf_lock = Some (consumer q)
}.

(** Somebody will wake [t]: it waits for a semaphore or is the recorded
    consumer. *)
Definition recorded (s : sync_st) (q : ioqueue) (t : Z) : Prop :=
  (exists i, t ∈ waiters (sema_at s i)) \/ (t <> 0 /\ consumer q = t).

(** A thread that is neither ready nor running, other than the idle thread,
    is BLOCKED and recorded: nobody sleeps unrecorded. *)
Definition blocked_ok (th : thread_st) (s : sync_st) (q : ioqueue) : Prop :=
  forall t st, t <> idle_thread th -> status_of th t = Some st -> blocking st = true ->
    st = TASK_BLOCKED /\ recorded s q t.

Section logic.
Context (live : gset lock_id).   (* the initialised locks *)

Record inv (G : owners) (k : kst) : Prop := {
  iv_sched : sched_inv (kt k);
  iv_dirs : dirs_ok (tasks (kt k)) (kp k);
  iv_magic : forall t, is_Some (tasks (kt k) !! t) ->
    stack_magic (task_at (kt k) t) = STACK_MAGIC;
  iv_wait : waiting_ok (kt k) (ks k);
  iv_blocked : blocked_ok (kt k) (ks k) (kbd_buf (kdev k));
  iv_lock : forall l, l ∈ live -> lock_ok G (kt k) (ks k) l;
  iv_kbd : kbd_ok G (kt k) (ks k) (kbd_buf (kdev k))
}.

Definition at_t (t : Z) (b : bool) (G : owners) (k : kst) : Prop :=
  inv G k /\ running (kt k) = t /\ IF (km k) = b.
End logic.

(** ** Rely and guarantee *)

(** The data a lock protects: its own fields, and the counter of
    [allocate_pid] under [pid_lock]. *)
Definition same_under (l : lock_id) (k k' : kst) : Prop :=
  lock_at (ks k') l = lock_at (ks k) l /\
  (l = pid_lock -> next_pid (kt k') = next_pid (kt k)).

Definition same_threads (th th' : thread_st) : Prop :=
  idle_thread th' = idle_thread th /\
  forall u, is_Some (tasks th' !! u) <-> is_Some (tasks th !! u).

(** What the others may do while [t] is not running. *)
Definition rely (t : Z) (G : owners) (k : kst) (G' : owners) (k' : kst) : Prop :=
  same_threads (kt k) (kt k') /\
  forall l, (G' !! l = Some t <-> G !! l = Some t) /\
            (G !! l = Some t -> same_under l k k').

(** What [t] does to the others. *)
Definition guar (t : Z) (G : owners) (k : kst) (G' : owners) (k' : kst) : Prop :=
  same_threads (kt k) (kt k') /\
  forall u l, u <> t -> (G' !! l = Some u <-> G !! l = Some u) /\
                        (G !! l = Some u -> same_under l k k').

Lemma same_under_refl l k : same_under l k k.
Proof. by split. Qed.
Lemma same_under_trans l k1 k2 k3 :
  same_under l k1 k2 -> same_under l k2 k3 -> same_under l k1 k3.
Proof. unfold same_under. intros [H1 H2] [H3 H4]. split; [congruence|]. intros. rewrite H4; auto. Qed.
Lemma same_threads_refl th : same_threads th th.
Proof. by split. Qed.
Lemma same_threads_trans th1 th2 th3 :
  same_threads th1 th2 -> same_threads th2 th3 -> same_threads th1 th3.
Proof. intros [H1 H2] [H3 H4]. split; [congruence|]. intros u. by rewrite H4. Qed.

Lemma rely_refl t G k : rely t G k G k.
Proof. split; [apply same_threads_refl|]. intros l. split; [done|]. intros. apply same_under_refl. Qed.
Lemma rely_trans t G1 k1 G2 k2 G3 k3 :
  rely t G1 k1 G2 k2 -> rely t G2 k2 G3 k3 -> rely t G1 k1 G3 k3.
Proof.
  intros [Ht1 H1] [Ht2 H2]. split; [by eapply same_threads_trans|]. intros l.
  specialize (H1 l) as [H1 H1']. specialize (H2 l) as [H2 H2'].
  split; [by rewrite H2|]. intros Hl. eapply same_under_trans; [by apply H1'|].
  by apply H2', H1.
Qed.
Lemma guar_refl t G k : guar t G k G k.
Proof. split; [apply same_threads_refl|]. intros u l _. split; [done|]. intros. apply same_under_refl. Qed.
Lemma guar_rely t u G k G' k' : u <> t -> guar t G k G' k' -> rely u G k G' k'.
Proof. intros Hu [Ht H]. split; [done|]. intros l. by apply H. Qed.
Lemma guar_trans t G1 k1 G2 k2 G3 k3 :
  guar t G1 k1 G2 k2 -> guar t G2 k2 G3 k3 -> guar t G1 k1 G3 k3.
Proof.
  intros H1 H2. split; [eapply same_threads_trans; [apply H1|apply H2]|].
  intros u l Hu. by eapply (rely_trans u G1 k1 G2 k2); apply guar_rely with t.
Qed.

(** ** Safety of a computation *)

Section safe.
Context (live : gset lock_id).

Fixpoint safe {A} (n : nat) (t : Z) (Q : A -> owners -> kst -> Prop)
    (G0 : owners) (k0 : kst) (r : res A) {struct r} : Prop :=
  match n with
  | O => True
  | S m =>
      match r with
      | Done a k => exists G, guar t G0 k0 G k /\ Q a G k
      | KPanic _ => False
      | KNoFuel => False
      | Switch k c =>
          exists G, guar t G0 k0 G k /\ inv live G k /\ IF (km k) = false /\
            forall G' k', at_t live t false G' k' -> rely t G k G' k' ->
              safe m t Q G' k' (c k')
      | Window k c =>
          exists G, guar t G0 k0 G k /\ at_t live t true G k /\
            forall G' k', at_t live t true G' k' -> rely t G k G' k' ->
              safe m t Q G' k' (c k')
      end
  end.

Lemma safe_0 {A} t (Q : A -> owners -> kst -> Prop) G k r : safe 0 t Q G k r.
Proof. by destruct r. Qed.

Lemma safe_mono {A} n m t (Q : A -> owners -> kst -> Prop) G k r :
  (m <= n)%nat -> safe n t Q G k r -> safe m t Q G k r.
Proof.
  revert n m G k. induction r as [a k1|c| |k1 c IH|k1 c IH]; intros n m G k Hm;
    (destruct m as [|m]; [intros; apply safe_0|]); (destruct n as [|n]; [lia|]); simpl; try done.
  - intros (G1 & Hg & Hi & Hif & Hc). exists G1. split_and!; [done..|].
    intros G' k' Ha Hr. eapply IH; [|by apply Hc]. lia.
  - intros (G1 & Hg & Hi & Hc). exists G1. split_and!; [done..|].
    intros G' k' Ha Hr. eapply IH; [|by apply Hc]. lia.
Qed.

(** Steps of [t] itself may precede the computation. *)
Lemma safe_base {A} n t (Q : A -> owners -> kst -> Prop) G0 k0 G k r :
  guar t G0 k0 G k -> safe n t Q G k r -> safe n t Q G0 k0 r.
Proof.
  intros Hg. destruct n as [|n]; [intros; apply safe_0|]. destruct r; simpl; try done.
  - intros (G1 & Hg1 & HQ). exists G1. split; [by eapply guar_trans|done].
  - intros (G1 & Hg1 & HQ). exists G1. split; [by eapply guar_trans|done].
  - intros (G1 & Hg1 & HQ). exists G1. split; [by eapply guar_trans|done].
Qed.

Lemma safe_bind {A B} n t (Q : B -> owners -> kst -> Prop) (R : A -> owners -> kst -> Prop)
    G k (m : K A) (f : A -> K B) :
  safe n t R G k (m k) ->
  (forall n' a G' k', (n' <= n)%nat -> R a G' k' -> safe n' t Q G' k' (f a k')) ->
  safe n t Q G k ((m ≫= f) k).
Proof.
  unfold mbind, K_bind. generalize (m k). intros r. clear m. revert n G k.
  induction r as [a k1|c| |k1 c IH|k1 c IH]; intros n G k Hs Hf;
    (destruct n as [|n]; [apply safe_0|]); try done.
  - destruct Hs as (G1 & Hg & HR). eapply safe_base; [done|]. by apply Hf.
  - destruct Hs as (G1 & Hg & Hi & Hif & Hc). exists G1. split_and!; [done..|].
    intros G' k' Ha Hr. eapply IH; [by apply Hc|]. intros. apply Hf; [lia|done].
  - destruct Hs as (G1 & Hg & Hi & Hc). exists G1. split_and!; [done..|].
    intros G' k' Ha Hr. eapply IH; [by apply Hc|]. intros. apply Hf; [lia|done].
Qed.

Lemma safe_conseq {A} n t (Q R : A -> owners -> kst -> Prop) G k r :
  safe n t R G k r -> (forall a G' k', R a G' k' -> Q a G' k') -> safe n t Q G k r.
Proof.
  intros Hs HRQ. revert n G k Hs.
  induction r as [a k1|c| |k1 c IH|k1 c IH]; intros n G k Hs;
    (destruct n as [|n]; [apply safe_0|]); try done.
  - destruct Hs as (G1 & Hg & HR). exists G1. auto.
  - destruct Hs as (G1 & Hg & Hi & Hif & Hc). exists G1. split_and!; [done..|].
    intros G' k' Ha Hr. by apply IH, Hc.
  - destruct Hs as (G1 & Hg & Hi & Hc). exists G1. split_and!; [done..|].
    intros G' k' Ha Hr. by apply IH, Hc.
Qed.

Lemma safe_Done {A} n t (Q : A -> owners -> kst -> Prop) G k a k1 G1 :
  guar t G k G1 k1 -> Q a G1 k1 -> safe n t Q G k (Done a k1).
Proof. destruct n; [done|]. intros. by exists G1. Qed.

(** A point where interrupts may be taken. *)
Lemma safe_window {A} n t b (Q : A -> owners -> kst -> Prop) G k (f : unit -> K A) :
  at_t live t b G k ->
  (forall n' G' k', (n' <= n)%nat -> at_t live t b G' k' -> rely t G k G' k' ->
     safe n' t Q G' k' (f tt k')) ->
  safe n t Q G k ((irq_window ≫= f) k).
Proof.
  intros Ha Hf. destruct n as [|n]; [apply safe_0|].
  unfold mbind, K_bind, irq_window. destruct Ha as (Hi & Hr & Hb) eqn:E. rewrite Hb.
  destruct b; [|apply Hf; [done..|apply rely_refl]].
  exists G. split_and!; [apply guar_refl|done|]. intros G' k' Ha' Hr'.
  apply Hf; [lia|done|done].
Qed.
End safe.

(** ** Steps of the thread table *)

(** A change of the thread table that blocks and wakes nobody but the idle
    thread. *)
Record th_step (th th' : thread_st) : Prop := {
  ts_same : same_threads th th';
  ts_magic : forall u, is_Some (tasks th !! u) ->
    stack_magic (task_at th' u) = stack_magic (task_at th u);
  ts_pid : next_pid th' = next_pid th;
  ts_blocked : forall u st, u <> idle_thread th -> blocking st = true ->
    status_of th u = Some st <-> status_of th' u = Some st
}.

Lemma th_step_refl th : th_step th th.
Proof. split; try done; apply same_threads_refl. Qed.

Lemma th_step_trans th1 th2 th3 : th_step th1 th2 -> th_step th2 th3 -> th_step th1 th3.
Proof.
  intros [Hs1 Hm1 Hp1 Hb1] [Hs2 Hm2 Hp2 Hb2]. split.
  - by eapply same_threads_trans.
  - intros u Hu. rewrite Hm2, Hm1; [done|done|]. by apply Hs1.
  - congruence.
  - intros u st Hu Hst. rewrite Hb1 by done. apply Hb2; [|done]. by rewrite (proj1 Hs1).
Qed.

Lemma task_at_upd t f th u :
  task_at (upd_task_st t f th) u = if decide (u = t) then f (task_at th t) else task_at th u.
Proof.
  unfold task_at, upd_task_st. simpl. rewrite lookup_insert.
  repeat case_decide; congruence || done.
Qed.

Lemma th_step_upd t f th :
  is_Some (tasks th !! t) -> (forall x, stack_magic (f x) = stack_magic x) ->
  (t <> idle_thread th -> status (f (task_at th t)) <> status (task_at th t) ->
   blocking (status (task_at th t)) = false /\ blocking (status (f (task_at th t))) = false) ->
  th_step th (upd_task_st t f th).
Proof.
  intros Ht Hf Hb. split; [split; [done|]|..].
  - intros u. rewrite is_Some_upd. naive_solver.
  - intros u Hu. rewrite task_at_upd. case_decide; subst; auto.
  - done.
  - intros u st Hu Hst. rewrite status_of_upd. case_decide; [|done]. subst u.
    assert (Hs : status_of th t = Some (status (task_at th t))).
    { unfold status_of, task_at. destruct Ht as [x ->]. done. }
    rewrite Hs. destruct (decide (status (f (task_at th t)) = status (task_at th t))) as [->|Hne];
      [done|]. destruct (Hb Hu Hne). split; intros [= <-]; congruence.
Qed.

Lemma th_step_ready rl th : th_step th (set_ready rl th).
Proof. by split. Qed.
Lemma th_step_running t th : th_step th (set_running t th).
Proof. by split. Qed.

Lemma sched_step_th_step th : sched_ok th -> th_step th (sched_step th).
Proof.
  intros Hok. destruct (requeue_ok th Hok) as [Hok1 Hnr1].
  destruct (wake_idle_ok _ Hok1 Hnr1) as (Hok2 & Hnr2 & Hne).
  assert (H1 : th_step th (requeue th)).
  { unfold requeue. case_decide as Hd; [|apply th_step_refl].
    eapply th_step_trans; [apply th_step_ready|].
    apply th_step_upd; [apply Hok|done|]. intros _ _. split; [|done].
    apply status_of_task_at in Hd. change (task_at (set_ready ?l ?x)) with (task_at x).
    by rewrite Hd. }
  assert (H2 : th_step (requeue th) (wake_idle (requeue th))).
  { unfold wake_idle. case_decide; [|apply th_step_refl].
    eapply th_step_trans; [apply th_step_ready|].
    apply th_step_upd; [apply Hok1|done|]. intros Hni. by destruct Hni. }
  eapply th_step_trans; [exact H1|]. eapply th_step_trans; [exact H2|].
  assert (H3 : forall x, is_Some (tasks x !! running th) -> th_step x (store_esp (running th) x)).
  { intros x Hx. assert (H : th_step x (upd_task_st (running th) (set_self_kstack (esps x 0%nat)) x)).
    { by apply th_step_upd. }
    by destruct H. }
  unfold sched_step. eapply th_step_trans; [|apply H3, picked_tasks, Hok]. unfold pick_next.
  destruct (thread_ready_list (wake_idle (requeue th))) as [|n rl] eqn:E; [done|].
  assert (Hn : status_of (wake_idle (requeue th)) n = Some TASK_READY).
  { apply Hok2. rewrite E. set_solver. }
  eapply th_step_trans; [apply th_step_ready|].
  eapply th_step_trans; [|apply th_step_running].
  apply th_step_upd; [|done|].
  - simpl. unfold status_of in Hn. destruct (tasks _ !! n); [by eexists|done].
  - intros _ _. apply status_of_task_at in Hn.
    change (task_at (set_ready rl ?x)) with (task_at x). by rewrite Hn.
Qed.

Lemma waiting_ok_step th th' s : th_step th th' -> waiting_ok th s -> waiting_ok th' s.
Proof.
  intros Hs [Hn Hb Ho]. split; [done| |done].
  intros i t Ht. destruct (Hb i t Ht) as [Hst Hi]. split.
  - by apply (ts_blocked _ _ Hs).
  - by rewrite (proj1 (ts_same _ _ Hs)).
Qed.

Lemma blocked_ok_step th th' s q : th_step th th' -> blocked_ok th s q -> blocked_ok th' s q.
Proof.
  intros Hs Hb t st Ht Hst Hbl. rewrite (proj1 (ts_same _ _ Hs)) in Ht.
  apply (Hb t st); [done| |done]. by apply (ts_blocked _ _ Hs).
Qed.

(** A change of the records that drops no thread. *)
Lemma blocked_ok_sync th s s' q :
  (forall i u, u ∈ waiters (sema_at s i) -> u ∈ waiters (sema_at s' i)) ->
  blocked_ok th s q -> blocked_ok th s' q.
Proof.
  intros Hw Hb t st Ht Hst Hbl. destruct (Hb t st Ht Hst Hbl) as [E [[i Hi]|Hc]].
  - split; [done|]. left. exists i. by apply Hw.
  - split; [done|]. by right.
Qed.

Lemma blocked_ok_value th s q i v :
  blocked_ok th s q -> blocked_ok th (upd_sema_st i (set_value v) s) q.
Proof.
  apply blocked_ok_sync. intros j u. rewrite sema_at_upd. by case_decide; subst.
Qed.

(** The running thread blocks after it has been recorded. *)
Lemma blocked_ok_block th s s' q q' :
  (forall u, recorded s q u -> recorded s' q' u) -> recorded s' q' (running th) ->
  blocked_ok th s q -> blocked_ok (block_st TASK_BLOCKED th) s' q'.
Proof.
  intros Hmono Hrun Hb t st Ht Hst Hbl. unfold block_st in Hst. rewrite status_of_upd in Hst.
  case_decide as E.
  - subst t. injection Hst as <-. by split.
  - destruct (Hb t st Ht Hst Hbl) as [? Hr]. split; [done|]. by apply Hmono.
Qed.

(** A recorded thread is woken and its record cleared. *)
Lemma blocked_ok_unblock th s s' q q' w :
  (forall u, u <> w -> recorded s q u -> recorded s' q' u) ->
  blocked_ok th s q -> blocked_ok (unblock_st w th) s' q'.
Proof.
  intros Hmono Hb t st Ht Hst Hbl. unfold unblock_st in Hst. rewrite status_of_upd in Hst.
  case_decide as E.
  - injection Hst as <-. done.
  - destruct (Hb t st Ht Hst Hbl) as [? Hr]. split; [done|]. by apply Hmono.
Qed.

Lemma waiting_ok_upd_lock th s l f : waiting_ok th s -> waiting_ok th (upd_lock_st l f s).
Proof. by intros [Hn Hb Ho]. Qed.

Lemma waiting_ok_value th s i v : waiting_ok th s -> waiting_ok th (upd_sema_st i (set_value v) s).
Proof.
  intros [Hn Hb Ho].
  assert (He : forall j, waiters (sema_at (upd_sema_st i (set_value v) s) j) =
                         waiters (sema_at s j)).
  { intros j. rewrite sema_at_upd. by case_decide; subst. }
  split.
  - intros j. by rewrite He.
  - intros j t. rewrite He. apply Hb.
  - intros j j' t. rewrite !He. apply Ho.
Qed.

Lemma lock_ok_step G th th' s l :
  same_threads th th' -> lock_ok G th s l -> lock_ok G th' s l.
Proof.
  intros [_ Hs] [?|(? & t & ? & ? & ?)]; [by left|right]. split; [done|].
  exists t. by rewrite Hs.
Qed.

Lemma kbd_ok_step G th th' s q : th_step th th' -> kbd_ok G th s q -> kbd_ok G th' s q.
Proof.
  intros Hs [Hwf Hp Hc]. split; [done|done|]. intros Hq.
  destruct (Hc Hq) as (Hb & Hi & Hw & HG). split_and!; [|by rewrite (proj1 (ts_same _ _ Hs))|done..].
  by apply (ts_blocked _ _ Hs).
Qed.

(** The running thread is not the recorded consumer. *)
Lemma kbd_ok_running G th s q :
  sched_inv th -> kbd_ok G th s q -> consumer q <> 0 -> consumer q <> running th.
Proof. intros [_ Hst] Hq Hne E. apply (kb_consumer _ _ _ _ Hq) in Hne as [Hb _]. congruence. Qed.

(** A change of semaphores and owners that adds no waiter but the running
    thread and keeps the owner of the queue's lock, unless it is the running
    thread. *)
Lemma kbd_ok_sync G G' th s s' q :
  sched_inv th -> kbd_ok G th s q ->
  (forall u i, u <> running th -> u ∈ waiters (sema_at s' i) -> u ∈ waiters (sema_at s i)) ->
  (forall u, u <> running th -> G !! kbd_buf_lock = Some u -> G' !! kbd_buf_lock = Some u) ->
  kbd_ok G' th s' q.
Proof.
  intros Hs Hq Hw HG. pose proof Hq as [Hwf Hp Hc]. split; [done|done|]. intros Hne.
  pose proof (kbd_ok_running _ _ _ _ Hs Hq Hne) as Hrun.
  destruct (Hc Hne) as (Hb & Hi & Hwt & HGo). split_and!; [done|done| |by apply HG].
  intros i Hin. by apply (Hwt i), Hw.
Qed.

(** What a thread that calls [schedule] hands over. *)
Section switching.
Context (live : gset lock_id).

Lemma inv_th_step G k th pg e0 m :
  inv live G k -> sched_inv th -> dirs_ok (tasks th) pg -> th_step (kt k) th ->
  inv live G (set_esp0 e0 (set_kp pg (set_kt th (set_km m k)))).
Proof.
  intros [Hs Hd Hm Hw Hbl Hl Hq] Hs' Hd' Hst. split; simpl; [done|done|..].
  - intros t Ht. rewrite (ts_magic _ _ Hst); [apply Hm|]; by apply (ts_same _ _ Hst).
  - by eapply waiting_ok_step.
  - by eapply blocked_ok_step.
  - intros l Hlive. eapply lock_ok_step; [apply Hst|by apply Hl].
  - by eapply kbd_ok_step.
Qed.

Lemma guar_th_step t G k th pg e0 m :
  th_step (kt k) th -> guar t G k G (set_esp0 e0 (set_kp pg (set_kt th (set_km m k)))).
Proof.
  intros Hst. split; [apply Hst|]. intros u l _. split; [done|]. intros _.
  split; [done|]. intros _. apply Hst.
Qed.

Lemma at_t_switched b t G k pg e0 th :
  at_t live t b G k -> sched_inv th -> dirs_ok (tasks th) pg -> th_step (kt k) th ->
  guar t G k G (switched pg e0 th k) /\ inv live G (switched pg e0 th k) /\
  IF (km (switched pg e0 th k)) = false.
Proof.
  intros (Hi & _ & _) Hs Hd Hst. split_and!.
  - by apply guar_th_step.
  - by apply inv_th_step.
  - apply irq_off_IF.
Qed.
End switching.

(** ** The operations of sync.c *)

Section ops.
Context (live : gset lock_id).
Local Abbreviation at_t := (at_t live).
Local Abbreviation safe := (safe live).

Lemma at_t_task t b G k : at_t t b G k -> is_Some (tasks (kt k) !! t).
Proof. intros ([[Hok _] _ _ _ _ _ _] & <- & _). apply Hok. Qed.
Lemma at_t_status t b G k : at_t t b G k -> status_of (kt k) t = Some TASK_RUNING.
Proof. intros ([[_ Hst] _ _ _ _ _ _] & <- & _). done. Qed.
Lemma rely_not_idle t G k G' k' :
  rely t G k G' k' -> t <> idle_thread (kt k) -> t <> idle_thread (kt k').
Proof. intros [[H _] _]. congruence. Qed.

Lemma same_threads_block stat th :
  sched_inv th -> same_threads th (block_st stat th).
Proof.
  intros Hs. split; [done|]. intros u. unfold block_st. rewrite is_Some_upd.
  pose proof (so_cur _ (proj1 Hs)). naive_solver.
Qed.

(** [thread_block] of a thread that some list remembers. *)
Lemma safe_block {A} n t b (Q : A -> owners -> kst -> Prop) G k (f : unit -> K A) stat :
  blocking stat = true ->
  running (kt k) = t -> IF (km k) = b ->
  sched_inv (kt k) -> dirs_ok (tasks (kt k)) (kp k) ->
  (forall th pg e0, sched_inv th -> dirs_ok (tasks th) pg ->
     th_step (block_st stat (kt k)) th -> inv live G (switched pg e0 th k)) ->
  (forall n' G' k', (n' < n)%nat -> at_t t b G' k' -> rely t G k G' k' ->
     safe n' t Q G' k' (f tt k')) ->
  safe n t Q G k ((thread_block stat ≫= f) k).
Proof.
  intros Hb Hrun Hif Hs Hd Hinv Hf. destruct n as [|n]; [apply safe_0|].
  destruct (thread_block_eq stat k Hb Hs Hd) as (pg & e0 & c & Heq & Hc & Hpw & Hd').
  pose proof (block_st_ok _ _ Hb Hs) as Hbok.
  rewrite (kbind_Switch _ _ _ _ _ Heq).
  set (th := sched_step (block_st stat (kt k))) in *.
  pose proof (sched_step_th_step _ Hbok : th_step _ th) as Hsc.
  assert (Hst : same_threads (kt k) th).
  { eapply same_threads_trans; [|apply Hsc]. by apply same_threads_block. }
  assert (Hsu : forall l, same_under l k (switched pg e0 th k)).
  { intros l. split; [done|]. intros _. apply (ts_pid _ _ Hsc). }
  exists G. split_and!.
  - split; [exact Hst|]. intros u l _. by split.
  - apply Hinv; [by apply sched_step_inv|done|done].
  - apply irq_off_IF.
  - intros G' k' (Hi & Hr & Hif') Hrely. rewrite Hc. simpl.
    set (k'' := set_km _ k').
    assert (Ha : at_t t b G' k'').
    { unfold k''. split_and!; [|done|].
      - destruct Hi. by split.
      - simpl. by rewrite set_if_IF. }
    apply (safe_base live n t Q G' k' G' k''); [by split; [apply same_threads_refl|]|].
    apply Hf; [lia|done|].
    eapply rely_trans; [|eapply rely_trans; [exact Hrely|]].
    + split; [exact Hst|]. intros l. by split.
    + split; [apply same_threads_refl|]. intros l. by split.
Qed.

Lemma waiting_ok_enqueue th s i :
  sched_inv th -> running th <> idle_thread th -> waiting_ok th s ->
  waiting_ok (block_st TASK_BLOCKED th)
    (upd_sema_st i (fun p => set_waiters (waiters p ++ [running th]) p) s).
Proof.
  intros [Hok Hst] Hid [Hn Hb Ho].
  assert (Hnin : forall j, running th ∉ waiters (sema_at s j)).
  { intros j Hj. apply Hb in Hj as [? _]. congruence. }
  assert (Hin : forall j t,
    t ∈ waiters (sema_at (upd_sema_st i (fun p => set_waiters (waiters p ++ [running th]) p) s) j)
    <-> t ∈ waiters (sema_at s j) \/ (j = i /\ t = running th)).
  { intros j t. rewrite sema_at_upd. case_decide; simpl; [|naive_solver].
    rewrite elem_of_app, list_elem_of_singleton. naive_solver. }
  split.
  - intros j. rewrite sema_at_upd. case_decide; [simpl|apply Hn].
    apply NoDup_app. split_and!; [apply Hn| |apply NoDup_singleton]. set_solver.
  - intros j t. rewrite Hin. unfold block_st. rewrite status_of_upd. simpl.
    intros [Ht|[-> ->]]; [|by rewrite decide_True].
    destruct (Hb j t Ht) as [Hs Hti]. case_decide; done.
  - intros j j' t. rewrite !Hin. intros [H1|[-> ->]] [H2|[-> H2]].
    + by eapply Ho.
    + subst. by apply Hnin in H1.
    + by apply Hnin in H2.
    + done.
Qed.

Lemma blocked_ok_enqueue th s q i :
  blocked_ok th s q ->
  blocked_ok (block_st TASK_BLOCKED th)
    (upd_sema_st i (fun p => set_waiters (waiters p ++ [running th]) p) s) q.
Proof.
  apply blocked_ok_block.
  - intros u [[j Hj]|Hc]; [|by right]. left. exists j. rewrite sema_at_upd.
    case_decide; [|done]. subst j. simpl. set_solver.
  - left. exists i. rewrite sema_at_upd, decide_True by done. simpl. set_solver.
Qed.

Lemma kbd_ok_block G th s q stat :
  sched_inv th -> kbd_ok G th s q -> kbd_ok G (block_st stat th) s q.
Proof.
  intros Hs Hq. pose proof Hq as [Hwf Hp Hc]. split; [done|done|]. intros Hne.
  pose proof (kbd_ok_running _ _ _ _ Hs Hq Hne) as Hrun.
  destruct (Hc Hne) as (Hb & Hi & Hwt & HGo). split_and!; [|done..].
  unfold block_st. rewrite status_of_upd. by case_decide.
Qed.

Lemma safe_enqueue {A} n t (Q : A -> owners -> kst -> Prop) G k (f : unit -> K A) i :
  at_t t false G k -> t <> idle_thread (kt k) ->
  (forall n' G' k', (n' < n)%nat -> at_t t false G' k' -> rely t G k G' k' ->
     safe n' t Q G' k' (f tt k')) ->
  safe n t Q G k
    ((thread_block TASK_BLOCKED ≫= f)
       (set_ks (upd_sema_st i (fun p => set_waiters (waiters p ++ [t]) p) (ks k)) k)).
Proof.
  intros (Hi & Hr & Hif) Hid Hf. destruct Hi as [Hs Hd Hm Hw Hbl Hl Hq] eqn:E. clear E.
  set (k1 := set_ks _ k).
  apply (safe_base live n t Q G k G k1); [split; [apply same_threads_refl|by intros]|].
  apply (safe_block n t false Q G k1 f TASK_BLOCKED eq_refl Hr Hif Hs Hd).
  - intros th pg e0 Hs' Hd' Hst. subst t.
    assert (Hst0 : same_threads (kt k) th /\
              (forall u, is_Some (tasks (kt k) !! u) ->
                 stack_magic (task_at th u) = stack_magic (task_at (kt k) u))).
    { destruct Hst as [Hsm Hmg _ _]. split.
      - eapply same_threads_trans; [|exact Hsm]. by apply same_threads_block.
      - intros u Hu. rewrite Hmg by (unfold block_st; rewrite is_Some_upd; auto).
        unfold block_st. rewrite task_at_upd. by case_decide; subst. }
    destruct Hst0 as [Hsm Hmg]. split; simpl; [done|done|..].
    + intros u Hu. apply Hsm in Hu. rewrite Hmg by done. by apply Hm.
    + eapply waiting_ok_step; [exact Hst|]. by apply waiting_ok_enqueue.
    + eapply blocked_ok_step; [exact Hst|]. by apply blocked_ok_enqueue.
    + intros l Hlive. eapply lock_ok_step; [exact Hsm|].
      specialize (Hl l Hlive). unfold lock_ok in *. autorewrite with sync.
      case_decide as E; [rewrite E in *|]; simpl; exact Hl.
    + eapply kbd_ok_step; [exact Hst|]. apply kbd_ok_block; [done|].
      apply (kbd_ok_sync G G (kt k) (ks k)); [done|done| |done].
      intros u j Hu. rewrite sema_at_upd. case_decide; [subst j|done]. simpl. set_solver.
  - intros n' G' k' Hn Ha Hrel. apply Hf; [done|done|].
    eapply rely_trans; [|exact Hrel]. split; [apply same_threads_refl|by intros].
Qed.

(** [sema_wait] leaves the loop only when the semaphore is up. *)
Lemma safe_sema_wait n fuel t (Q : unit -> owners -> kst -> Prop) G k i :
  (n <= fuel)%nat -> at_t t false G k -> t <> idle_thread (kt k) ->
  (forall G' k', at_t t false G' k' -> rely t G k G' k' ->
     value (sema_at (ks k') i) <> 0 -> Q tt G' k') ->
  safe n t Q G k (sema_wait fuel i k).
Proof.
  revert n G k. induction fuel as [|fuel IH]; intros n G k Hn Ha Hid HQ.
  { replace n with 0%nat by lia. apply safe_0. }
  simpl. kstep. case_decide as Hv.
  2:{ eapply safe_Done; [apply guar_refl|]. apply HQ; [done|apply rely_refl|done]. }
  kstep. rewrite (proj1 (proj2 Ha)).
  assert (Hnin : in_list t (waiters (sema_at (ks k) i)) = false).
  { apply bool_decide_false. intros Hin. pose proof (at_t_status _ _ _ _ Ha) as Hst.
    destruct Ha as (Hi & _). apply (wt_blocked _ _ (iv_wait _ _ _ Hi)) in Hin as [? _].
    congruence. }
  rewrite Hnin. kstep. kstep. kstep.
  apply safe_enqueue; [done|done|]. intros n' G' k' Hn' Ha' Hr'.
  apply IH; [lia|done|by eapply rely_not_idle|].
  intros G2 k2 Ha2 Hr2. apply HQ; [done|]. by eapply rely_trans.
Qed.

(** Changing only the interrupt flag. *)
Lemma at_t_km t b b' G k m :
  at_t t b G k -> IF m = b' -> at_t t b' G (set_km m k).
Proof. intros (Hi & Hr & _) Hm. split_and!; [destruct Hi; by split|done|done]. Qed.
Lemma guar_km t G k m : guar t G k G (set_km m k).
Proof. split; [apply same_threads_refl|by intros]. Qed.
Lemma rely_km t G k m : rely t G k G (set_km m k).
Proof. split; [apply same_threads_refl|by intros]. Qed.

(** The two ghost steps: [t] takes the lock as it lowers the semaphore,
    and gives it up as it raises it. *)
Lemma take_lock t b G k l :
  l ∈ live -> at_t t b G k -> value (sema_at (ks k) (lock_semaphore l)) <> 0 ->
  let k' := set_ks (upd_sema_st (lock_semaphore l)
                      (fun p => set_value (u8 (value p - 1)) p) (ks k)) k in
  at_t t b (<[l := t]> G) k' /\ guar t G k (<[l := t]> G) k' /\
  value (sema_at (ks k') (lock_semaphore l)) = 0 /\
  lock_at (ks k') l = Lock 0 0 /\ G !! l = None.
Proof.
  intros Hlive Ha Hv k'. pose proof (at_t_task _ _ _ _ Ha) as Ht.
  destruct Ha as (Hi & Hr & Hif).
  destruct (iv_lock _ _ _ Hi l Hlive) as [(Hv1 & HG & Hlk)|(Hv0 & _)]; [|done].
  assert (Hs : upd_sema_st (lock_semaphore l) (fun p => set_value (u8 (value p - 1)) p) (ks k) =
               upd_sema_st (lock_semaphore l) (set_value 0) (ks k)).
  { unfold upd_sema_st. by rewrite Hv1. }
  subst k'. rewrite Hs. clear Hs. cbn [ks set_ks].
  split_and!; [split_and!|..]; try done.
  - destruct Hi as [Hs Hd Hm Hw Hbl Hl Hq]. split; try done.
    + by apply waiting_ok_value.
    + by apply blocked_ok_value.
    + intros l' Hlive'. destruct (decide (l' = l)) as [->|Hne].
      * right. cbn [ks set_ks kt]. autorewrite with sync. rewrite decide_True by done.
        split; [done|]. exists t. rewrite lookup_insert_eq, Hlk. auto using held.
      * specialize (Hl l' Hlive'). unfold lock_ok in *. cbn [ks set_ks kt].
        autorewrite with sync. rewrite decide_False by congruence.
        by rewrite lookup_insert_ne.
    + apply (kbd_ok_sync G _ _ (ks k)); [done|done|..].
      * intros u i _. cbn [ks set_ks]. rewrite sema_at_upd. by case_decide; subst.
      * intros u Hu Hg. rewrite lookup_insert_ne; [done|]. congruence.
  - split; [apply same_threads_refl|]. intros u l' Hu. rewrite lookup_insert.
    case_decide; [subst l'; rewrite HG; split; [split; congruence|done]|by split].
  - autorewrite with sync. by rewrite decide_True.
Qed.

Lemma safe_sema_down n fuel t b (Q : unit -> owners -> kst -> Prop) G k l :
  (n <= fuel)%nat -> l ∈ live -> at_t t b G k -> t <> idle_thread (kt k) ->
  (forall G' k', at_t t b G' k' -> G' !! l = Some t -> rely t G k (delete l G') k' ->
     lock_at (ks k') l = Lock 0 0 -> Q tt G' k') ->
  safe n t Q G k (sema_down fuel (lock_semaphore l) k).
Proof.
  intros Hn Hlive Ha Hid HQ. unfold sema_down.
  pose proof (on_mach_disable k) as Hd. kstep. clear Hd.
  set (k0 := set_km (irq_off (km k)) k).
  assert (Ha0 : at_t t false G k0) by (eapply at_t_km; [done|apply irq_off_IF]).
  apply (safe_base live n t Q G k G k0); [apply guar_km|].
  eapply (safe_bind live n t Q
    (fun _ G' k' => at_t t false G' k' /\ rely t G k G' k' /\
                    value (sema_at (ks k') (lock_semaphore l)) <> 0)).
  - apply safe_sema_wait; [done|done|done|]. intros G' k' Ha' Hr' Hv. split_and!; [done| |done].
    eapply rely_trans; [apply (rely_km t G k (irq_off (km k)))|done].
  - intros n' _ G' k' _ (Ha' & Hr' & Hv). kstep. kstep.
    destruct (take_lock t false G' k' l Hlive Ha' Hv) as (Ha2 & Hg2 & Hv2 & Hl2 & HG2).
    set (k2 := set_ks _ k') in *. rewrite Hv2. kstep.
    rewrite (proj2 (proj2 Ha)). rewrite (kbind_Done _ _ _ _ _ (on_mach_set_status b k2)).
    eapply safe_Done.
    + eapply guar_trans; [exact Hg2|]. apply guar_km.
    + apply HQ; [eapply at_t_km; [done|apply set_if_IF]|apply lookup_insert_eq| |done].
      rewrite delete_insert_eq, delete_id by done.
      eapply rely_trans; [exact Hr'|]. split; [apply same_threads_refl|by intros].
Qed.

Lemma waiting_ok_pop th s i t ws :
  waiting_ok th s -> sema_at s i = Sema 0 (t :: ws) ->
  waiting_ok (unblock_st t th) (upd_sema_st i (fun _ => Sema 1 ws) s).
Proof.
  intros [Hn Hb Ho] Hi.
  assert (Hin : forall j u, u ∈ waiters (sema_at (upd_sema_st i (fun _ => Sema 1 ws) s) j) ->
                 u ∈ waiters (sema_at s j) /\ u <> t).
  { intros j u. rewrite sema_at_upd. pose proof (Hn i) as Hni. rewrite Hi in Hni. simpl in Hni.
    apply NoDup_cons in Hni as [Hni _]. case_decide as Hj; simpl.
    - intros Hu. subst j. rewrite Hi. simpl. set_solver.
    - intros Hu. split; [done|]. intros ->. apply Hj. apply (Ho j i t); [done|].
      rewrite Hi. simpl. set_solver. }
  split.
  - intros j. rewrite sema_at_upd. case_decide; [|apply Hn]. simpl.
    pose proof (Hn i) as Hni. rewrite Hi in Hni. by apply NoDup_cons in Hni as [_ ?].
  - intros j u Hu. apply Hin in Hu as [Hu Hut]. destruct (Hb j u Hu) as [Hst Hid].
    split; [|done]. unfold unblock_st. rewrite status_of_upd. by case_decide.
  - intros j j' u Hu Hu'. apply Hin in Hu as [Hu _], Hu' as [Hu' _]. by eapply Ho.
Qed.

Lemma unblock_st_inv t th :
  sched_inv th -> status_of th t = Some TASK_BLOCKED -> sched_inv (unblock_st t th).
Proof.
  intros [[Hnd Hrd Hrun Hcur [Hidle Hid] Hnull] Hst] Ht. unfold unblock_st.
  assert (Htr : t <> running th) by congruence.
  assert (Hs : forall u, status_of (upd_task_st t (set_status TASK_READY)
                 (set_ready (t :: thread_ready_list th) th)) u =
                 (if decide (u = t) then Some TASK_READY else status_of th u)).
  { intros u. by rewrite status_of_upd. }
  assert (Hts : is_Some (tasks th !! t)).
  { unfold status_of in Ht. destruct (tasks th !! t); [by eexists|done]. }
  split; [split|]; simpl; try done.
  - apply NoDup_cons. split; [|done]. rewrite Hrd. congruence.
  - intros u. rewrite Hs, elem_of_cons, Hrd. case_decide; naive_solver.
  - intros u. rewrite Hs. case_decide; [done|auto].
  - rewrite lookup_insert_is_Some'. auto.
  - rewrite Hs. split; [rewrite lookup_insert_is_Some'; auto|by case_decide].
  - rewrite lookup_insert_ne; [done|]. intros ->. destruct Hts. congruence.
  - rewrite Hs. by rewrite decide_False.
Qed.

Lemma rely_delete t G k G' k' l :
  rely t G k G' k' -> rely t (delete l G) k (delete l G') k'.
Proof.
  intros [Ht Hl]. split; [done|]. intros l'. rewrite !lookup_delete.
  specialize (Hl l'). case_decide; [by split|done].
Qed.

Lemma unblock_same_threads t th : is_Some (tasks th !! t) -> same_threads th (unblock_st t th).
Proof.
  intros Ht. split; [done|]. intros u. unfold unblock_st. rewrite is_Some_upd. simpl.
  naive_solver.
Qed.

Lemma kbd_ok_unblock G th s q w :
  kbd_ok G th s q -> w <> consumer q -> kbd_ok G (unblock_st w th) s q.
Proof.
  intros [Hwf Hp Hc] Hw. split; [done|done|]. intros Hne.
  destruct (Hc Hne) as (Hb & Hi & Hwt & HGo). split_and!; [|done..].
  unfold unblock_st. rewrite status_of_upd. by case_decide.
Qed.

(** Giving up ownership of [l] changes nobody else's. *)
Lemma give_up_rel t G k l th s :
  G !! l = Some t -> lock_at (ks k) l = Lock 0 0 -> same_threads (kt k) th ->
  next_pid th = next_pid (kt k) -> (forall l', lock_at s l' = lock_at (ks k) l') ->
  guar t G k (delete l G) (set_ks s (set_kt th k)) /\
  rely t (delete l G) k (delete l G) (set_ks s (set_kt th k)).
Proof.
  intros HG Hlk Hst Hp Hs. split; split; [done| |done|].
  - intros u l' Hu. rewrite lookup_delete. split; [case_decide; subst; naive_solver|].
    intros _. split; [apply Hs|done].
  - intros l'. split; [done|]. intros _. split; [apply Hs|done].
Qed.

Lemma give_up_locks G k l th s ws :
  (forall l', l' ∈ live -> lock_ok G (kt k) (ks k) l') -> lock_at (ks k) l = Lock 0 0 ->
  same_threads (kt k) th -> (forall l', lock_at s l' = lock_at (ks k) l') ->
  (forall l', sema_at s (lock_semaphore l') =
     if decide (l' = l) then Sema 1 ws else sema_at (ks k) (lock_semaphore l')) ->
  forall l', l' ∈ live -> lock_ok (delete l G) th s l'.
Proof.
  intros Hl Hlk Hst Hs1 Hs2 l' Hl'.
  pose proof (lock_ok_step _ _ _ _ _ Hst (Hl l' Hl')) as Hok.
  unfold lock_ok in *. rewrite Hs1, Hs2. case_decide as E.
  - subst l'. left. by rewrite lookup_delete_eq, Hlk.
  - by rewrite lookup_delete_ne.
Qed.

(** [sema_up] by the owner, nobody waiting. *)
Lemma sema_up_lock_free t b G k l :
  l ∈ live -> at_t t b G k -> G !! l = Some t -> lock_at (ks k) l = Lock 0 0 ->
  sema_at (ks k) (lock_semaphore l) = Sema 0 [] ->
  exists k', sema_up (lock_semaphore l) k = Done tt k' /\ at_t t b (delete l G) k' /\
    guar t G k (delete l G) k' /\ rely t (delete l G) k (delete l G) k'.
Proof.
  intros Hlive (Hi & Hr & Hif) HG Hlk He.
  exists (set_ks (upd_sema_st (lock_semaphore l) (set_value 1) (ks k)) k).
  split; [by apply sema_up_free|]. split.
  - split_and!; [|done|done]. destruct Hi as [Hs Hd Hm Hwt Hbl Hl Hq]. split; try done.
    + by apply waiting_ok_value.
    + by apply blocked_ok_value.
    + apply (give_up_locks G k l _ _ []); [done|done|apply same_threads_refl|done|].
      intros l'. simpl. rewrite sema_at_upd. rewrite He. repeat case_decide; done || congruence.
    + apply (kbd_ok_sync G _ _ (ks k)); [done|done|..].
      * intros u i _. cbn [ks set_ks]. rewrite sema_at_upd. by case_decide; subst.
      * intros u Hu Hg. cbn [kt set_ks] in Hu. rewrite lookup_delete_ne by congruence. done.
  - destruct (give_up_rel t G k l (kt k) (upd_sema_st (lock_semaphore l) (set_value 1) (ks k)))
      as [H1 H2]; [done|done|apply same_threads_refl|done|done|]. destruct k; split; [exact H1|exact H2].
Qed.

(** [sema_up] by the owner, [w] waiting first. *)
Lemma sema_up_lock_wake t b G k l w ws :
  l ∈ live -> at_t t b G k -> G !! l = Some t -> lock_at (ks k) l = Lock 0 0 ->
  sema_at (ks k) (lock_semaphore l) = Sema 0 (w :: ws) ->
  exists k', sema_up (lock_semaphore l) k = Done tt k' /\ at_t t b (delete l G) k' /\
    guar t G k (delete l G) k' /\ rely t (delete l G) k (delete l G) k'.
Proof.
  intros Hlive (Hi & Hr & Hif) HG Hlk He.
  pose proof (wt_blocked _ _ (iv_wait _ _ _ Hi) (lock_semaphore l) w) as Hb.
  rewrite He in Hb. destruct Hb as [Hst Hid]; [simpl; set_solver|].
  assert (Hws : is_Some (tasks (kt k) !! w)).
  { unfold status_of in Hst. destruct (tasks (kt k) !! w); [by eexists|done]. }
  exists (woken (lock_semaphore l) w ws k). split.
  { apply sema_up_wake; [done|by rewrite (status_of_task_at _ _ _ Hst)|].
    rewrite (so_ready _ (proj1 (iv_sched _ _ _ Hi))). congruence. }
  destruct (give_up_rel t G k l (unblock_st w (kt k)) (upd_sema_st (lock_semaphore l) (fun _ => Sema 1 ws) (ks k)))
      as [H1 H2]; [done|done|by apply unblock_same_threads|done|done|].
  split; [|split; [exact H1|exact H2]].
  split_and!; [|done|done]. destruct Hi as [Hs Hd Hm Hwt Hbl Hl Hq]. split.
  - by apply unblock_st_inv.
  - by apply (dirs_ok_upd w _ (set_ready (w :: thread_ready_list (kt k)) (kt k))).
  - intros u Hu. apply (unblock_same_threads w (kt k) Hws) in Hu. simpl.
    unfold unblock_st. rewrite task_at_upd. case_decide; [subst u|]; by apply Hm.
  - by apply waiting_ok_pop.
  - eapply blocked_ok_unblock; [|exact Hbl]. intros u Hu [[i Hin]|Hc]; [|by right].
    left. exists i. cbn [ks woken set_ks]. rewrite sema_at_upd. case_decide; [|done].
    subst i. rewrite He in Hin. simpl in *. set_solver.
  - apply (give_up_locks G k l _ _ ws); [done|done|by apply unblock_same_threads|done|].
    intros l'. simpl. rewrite sema_at_upd. repeat case_decide; done || congruence.
  - apply (kbd_ok_unblock _ _ _ _ w).
    + apply (kbd_ok_sync G _ _ (ks k)); [done|done|..].
      * intros u i _. cbn [ks woken set_ks]. rewrite sema_at_upd.
        case_decide; [subst i; rewrite He; simpl; set_solver|done].
      * intros u Hu Hg. cbn [kt set_ks] in Hu. rewrite lookup_delete_ne by congruence. done.
    + intros Ew. assert (Hw0 : w <> 0).
      { intros E. rewrite E, (so_null _ (proj1 Hs)) in Hws. by destruct Hws. }
      change (w = consumer (kbd_buf (kdev k))) in Ew. rewrite Ew in Hw0.
      destruct (kb_consumer _ _ _ _ Hq Hw0) as (_ & _ & Hnw & _).
      apply (Hnw (lock_semaphore l)). rewrite He, <- Ew. simpl. set_solver.
Qed.

(** [sema_up] by the owner. *)
Lemma sema_up_lock t b G k l :
  l ∈ live -> at_t t b G k -> G !! l = Some t -> lock_at (ks k) l = Lock 0 0 ->
  exists k', sema_up (lock_semaphore l) k = Done tt k' /\ at_t t b (delete l G) k' /\
    guar t G k (delete l G) k' /\ rely t (delete l G) k (delete l G) k'.
Proof.
  intros Hlive Ha HG Hlk.
  pose proof (iv_lock _ _ _ (proj1 Ha) l Hlive) as [(_ & ? & _)|(Hv & _)]; [congruence|].
  destruct (sema_at (ks k) (lock_semaphore l)) as [v [|w ws]] eqn:He; simpl in *; subst v.
  - by apply sema_up_lock_free.
  - by eapply sema_up_lock_wake.
Qed.

Lemma own_update t b G k l f :
  l ∈ live -> at_t t b G k -> G !! l = Some t ->
  held t (f (lock_at (ks k) l)) ->
  let k' := set_ks (upd_lock_st l f (ks k)) k in
  at_t t b G k' /\ guar t G k G k' /\ rely t (delete l G) k (delete l G) k' /\
  lock_at (ks k') l = f (lock_at (ks k) l).
Proof.
  intros Hlive Ha HG Hf k'. pose proof (at_t_task _ _ _ _ Ha) as Ht.
  destruct Ha as (Hi & Hr & Hif). subst k'. split_and!; [split_and!; [|done|done]|..].
  - destruct Hi as [Hs Hd Hm Hw Hbl Hl Hq].
    split; [done..|by apply waiting_ok_upd_lock|by eapply blocked_ok_sync, Hbl| |].
    2:{ by apply (kbd_ok_sync G G _ (ks k)). }
    intros l' Hl'. specialize (Hl l' Hl').
    unfold lock_ok in *. cbn [ks set_ks kt]. autorewrite with sync.
    destruct (decide (l' = l)) as [->|]; [|done]. right.
    destruct Hl as [(_ & ? & _)|(Hv & _)]; [congruence|]. eauto.
  - split; [apply same_threads_refl|]. intros u l' Hu. split; [done|]. intros Hl'.
    split; [|done]. cbn [ks set_ks]. autorewrite with sync. case_decide; [congruence|done].
  - split; [apply same_threads_refl|]. intros l'. split; [done|]. rewrite lookup_delete.
    case_decide; [done|]. intros _. split; [|done]. cbn [ks set_ks].
    autorewrite with sync. by rewrite decide_False.
  - cbn [ks set_ks]. autorewrite with sync. by rewrite decide_True.
Qed.

Lemma same_under_rely t G k G' k' l :
  rely t G k G' k' -> G !! l = Some t -> G' !! l = Some t /\ lock_at (ks k') l = lock_at (ks k) l.
Proof. intros [_ Hr] HG. destruct (Hr l) as [HG' Hs]. split; [by apply HG'|by apply Hs]. Qed.

(** A step from [k] to [k'] that keeps everything but lock [l]'s fields,
    inside the ownership of [l]. *)
Lemma rely_chain t G k G1 k1 G2 k2 l :
  rely t G k (delete l G1) k1 -> rely t G1 k1 G2 k2 -> rely t G k (delete l G2) k2.
Proof. intros H1 H2. eapply rely_trans; [exact H1|]. by apply rely_delete. Qed.

Definition acquired (t : Z) (b : bool) (l : lock_id) (n : Z) (G : owners) (k : kst)
    (G' : owners) (k' : kst) : Prop :=
  at_t t b G' k' /\ G' !! l = Some t /\ lock_at (ks k') l = Lock t n /\
  rely t G k (delete l G') k'.

(** [lock_acquire] of a lock the thread does not hold. *)
Lemma safe_lock_acquire n fuel t b G k l :
  (n <= fuel)%nat -> l ∈ live -> at_t t b G k -> t <> idle_thread (kt k) ->
  G !! l <> Some t ->
  safe n t (fun _ G' k' => acquired t b l 1 G k G' k') G k (lock_acquire fuel l k).
Proof.
  intros Hn Hlive Ha Hid HG. unfold lock_acquire.
  apply (safe_window live n t b); [done|]. intros n1 G1 k1 Hn1 Ha1 Hr1.
  assert (HG1 : G1 !! l <> Some t) by (destruct Hr1 as [_ Hr1]; by rewrite (proj1 (Hr1 l))).
  pose proof (at_t_task _ _ _ _ Ha1) as Ht.
  kstep. kstep. rewrite decide_True.
  2:{ destruct Ha1 as (Hi & Hrun & _). rewrite Hrun. intros Hh.
      destruct (iv_lock _ _ _ Hi l Hlive) as [(_ & _ & Hlk)|(_ & u & HGu & _ & Hhu)].
      - rewrite Hlk in Hh. simpl in Hh. subst t. rewrite <- Hh in Ht.
        rewrite (so_null _ (proj1 (iv_sched _ _ _ Hi))) in Ht. by destruct Ht.
      - apply held_holder in Hhu. rewrite Hh in Hhu. destruct Hhu as [Hhu|Hhu]; [|congruence].
        rewrite Hhu in Ht. rewrite (so_null _ (proj1 (iv_sched _ _ _ Hi))) in Ht.
        by destruct Ht. }
  apply (safe_window live n1 t b); [done|]. intros n2 G2 k2 Hn2 Ha2 Hr2.
  eapply (safe_bind live n2 t _ (fun _ G3 k3 => at_t t b G3 k3 /\ G3 !! l = Some t /\
    rely t G2 k2 (delete l G3) k3 /\ lock_at (ks k3) l = Lock 0 0)).
  { apply (safe_sema_down n2 fuel t b); [lia|done|done| |naive_solver].
    eapply rely_not_idle; [exact Hr2|]. by eapply rely_not_idle. }
  intros n3 _ G3 k3 Hn3 (Ha3 & HG3 & Hr3 & Hl3).
  pose proof (rely_trans _ _ _ _ _ _ _ Hr1 (rely_trans _ _ _ _ _ _ _ Hr2 Hr3)) as Hr03.
  apply (safe_window live n3 t b); [done|]. intros n4 G4 k4 Hn4 Ha4 Hr4.
  destruct (same_under_rely _ _ _ _ _ _ Hr4 HG3) as [HG4 Hl4]. rewrite Hl3 in Hl4.
  pose proof (rely_chain _ _ _ _ _ _ _ _ Hr03 Hr4) as Hr04.
  kstep. kstep. rewrite (proj1 (proj2 Ha4)).
  destruct (own_update t b G4 k4 l (set_holder t) Hlive Ha4 HG4) as (Ha5 & Hg5 & Hr5 & Hl5).
  { rewrite Hl4. constructor. }
  apply (safe_base live n4 t _ _ _ _ _ _ Hg5).
  apply (safe_window live n4 t b); [done|]. intros n6 G6 k6 Hn6 Ha6 Hr6.
  destruct (same_under_rely _ _ _ _ _ _ Hr6 HG4) as [HG6 Hl6]. rewrite Hl5, Hl4 in Hl6.
  pose proof (rely_chain _ _ _ _ _ _ _ _ (rely_trans _ _ _ _ _ _ _ Hr04 Hr5) Hr6) as Hr06.
  kstep. rewrite Hl6. kstep.
  apply (safe_window live n6 t b); [done|]. intros n7 G7 k7 Hn7 Ha7 Hr7.
  destruct (same_under_rely _ _ _ _ _ _ Hr7 HG6) as [HG7 Hl7]. rewrite Hl6 in Hl7.
  pose proof (rely_chain _ _ _ _ _ _ _ _ Hr06 Hr7) as Hr07.
  destruct (own_update t b G7 k7 l (set_repeat 1) Hlive Ha7 HG7) as (Ha8 & Hg8 & Hr8 & Hl8).
  { rewrite Hl7. by constructor. }
  eapply safe_Done; [exact Hg8|]. split_and!; [apply Ha8..|done| |].
  - rewrite Hl8, Hl7. done.
  - by eapply rely_trans.
Qed.

(** [lock_acquire] of a lock the thread holds counts. *)
Lemma safe_lock_reacquire n fuel t b G k l m :
  l ∈ live -> at_t t b G k -> G !! l = Some t -> lock_at (ks k) l = Lock t m ->
  0 <= m < 4294967295 ->
  safe n t (fun _ G' k' => acquired t b l (m + 1) (delete l G) k G' k') G k
    (lock_acquire fuel l k).
Proof.
  intros Hlive Ha HG Hl Hm. unfold lock_acquire.
  apply (safe_window live n t b); [done|]. intros n1 G1 k1 Hn1 Ha1 Hr1.
  destruct (same_under_rely _ _ _ _ _ _ Hr1 HG) as [HG1 Hl1]. rewrite Hl in Hl1.
  kstep. kstep. rewrite Hl1, (proj1 (proj2 Ha1)), decide_False by (simpl; auto).
  apply (safe_window live n1 t b); [done|]. intros n2 G2 k2 Hn2 Ha2 Hr2.
  destruct (same_under_rely _ _ _ _ _ _ Hr2 HG1) as [HG2 Hl2]. rewrite Hl1 in Hl2.
  edestruct (own_update t b G2 k2 l) as (Ha8 & Hg8 & Hr8 & Hl8); [done..| |].
  2:{ eapply safe_Done; [exact Hg8|]. split_and!; [apply Ha8..|done| |].
      - rewrite Hl8, Hl2. unfold set_repeat. simpl. by rewrite u32_id by lia.
      - eapply rely_trans; [|exact Hr8].
        apply rely_delete. by eapply rely_trans. }
  rewrite Hl2. unfold set_repeat. simpl. rewrite u32_id by lia. constructor. lia.
Qed.

(** [lock_release] by the holder: of a nested acquisition, and of the
    outermost one. *)
Lemma safe_lock_release_nested n t b G k l m :
  l ∈ live -> at_t t b G k -> G !! l = Some t -> lock_at (ks k) l = Lock t m ->
  1 < m < 4294967296 ->
  safe n t (fun _ G' k' => acquired t b l (m - 1) (delete l G) k G' k') G k (lock_release l k).
Proof.
  intros Hlive Ha HG Hl Hm. unfold lock_release.
  apply (safe_window live n t b); [done|]. intros n1 G1 k1 Hn1 Ha1 Hr1.
  destruct (same_under_rely _ _ _ _ _ _ Hr1 HG) as [HG1 Hl1]. rewrite Hl in Hl1.
  kstep. kstep. rewrite Hl1, (proj1 (proj2 Ha1)), bool_decide_true by done. kstep.
  apply (safe_window live n1 t b); [done|]. intros n2 G2 k2 Hn2 Ha2 Hr2.
  destruct (same_under_rely _ _ _ _ _ _ Hr2 HG1) as [HG2 Hl2]. rewrite Hl1 in Hl2.
  kstep. rewrite Hl2, decide_True by (simpl; lia).
  apply (safe_window live n2 t b); [done|]. intros n3 G3 k3 Hn3 Ha3 Hr3.
  destruct (same_under_rely _ _ _ _ _ _ Hr3 HG2) as [HG3 Hl3]. rewrite Hl2 in Hl3.
  edestruct (own_update t b G3 k3 l) as (Ha8 & Hg8 & Hr8 & Hl8); [done..| |].
  2:{ eapply safe_Done; [exact Hg8|]. split_and!; [apply Ha8..|done| |].
      - rewrite Hl8, Hl3. unfold set_repeat. simpl. by rewrite u32_id by lia.
      - eapply rely_trans; [|exact Hr8].
        apply rely_delete. eapply rely_trans; [exact Hr1|]. by eapply rely_trans. }
  rewrite Hl3. unfold set_repeat. simpl. rewrite u32_id by lia. constructor. lia.
Qed.

Definition released (t : Z) (b : bool) (l : lock_id) (G : owners) (k : kst)
    (G' : owners) (k' : kst) : Prop :=
  at_t t b G' k' /\ rely t (delete l G) k G' k'.

Lemma safe_lock_release n t b G k l :
  l ∈ live -> at_t t b G k -> G !! l = Some t -> lock_at (ks k) l = Lock t 1 ->
  safe n t (fun _ G' k' => released t b l G k G' k') G k (lock_release l k).
Proof.
  intros Hlive Ha HG Hl. unfold lock_release.
  apply (safe_window live n t b); [done|]. intros n1 G1 k1 Hn1 Ha1 Hr1.
  destruct (same_under_rely _ _ _ _ _ _ Hr1 HG) as [HG1 Hl1]. rewrite Hl in Hl1.
  kstep. kstep. rewrite Hl1, (proj1 (proj2 Ha1)), bool_decide_true by done. kstep.
  apply (safe_window live n1 t b); [done|]. intros n2 G2 k2 Hn2 Ha2 Hr2.
  destruct (same_under_rely _ _ _ _ _ _ Hr2 HG1) as [HG2 Hl2]. rewrite Hl1 in Hl2.
  kstep. rewrite Hl2, decide_False by (simpl; lia).
  apply (safe_window live n2 t b); [done|]. intros n3 G3 k3 Hn3 Ha3 Hr3.
  destruct (same_under_rely _ _ _ _ _ _ Hr3 HG2) as [HG3 Hl3]. rewrite Hl2 in Hl3.
  kstep. rewrite Hl3. kstep.
  apply (safe_window live n3 t b); [done|]. intros n4 G4 k4 Hn4 Ha4 Hr4.
  destruct (same_under_rely _ _ _ _ _ _ Hr4 HG3) as [HG4 Hl4]. rewrite Hl3 in Hl4.
  pose proof (rely_trans _ _ _ _ _ _ _ (rely_trans _ _ _ _ _ _ _ Hr1 Hr2)
                (rely_trans _ _ _ _ _ _ _ Hr3 Hr4)) as Hr04.
  apply (rely_delete _ _ _ _ _ l) in Hr04.
  kstep. destruct (own_update t b G4 k4 l (set_holder 0)) as (Ha5 & Hg5 & Hr5 & Hl5);
    [done..|by rewrite Hl4; constructor|].
  apply (safe_base live n4 t _ _ _ _ _ _ Hg5).
  apply (safe_window live n4 t b); [done|]. intros n6 G6 k6 Hn6 Ha6 Hr6.
  destruct (same_under_rely _ _ _ _ _ _ Hr6 HG4) as [HG6 Hl6]. rewrite Hl5, Hl4 in Hl6.
  pose proof (rely_chain _ _ _ _ _ _ _ _ (rely_trans _ _ _ _ _ _ _ Hr04 Hr5) Hr6) as Hr06.
  kstep. destruct (own_update t b G6 k6 l (set_repeat 0)) as (Ha7 & Hg7 & Hr7 & Hl7);
    [done..|by rewrite Hl6; constructor|].
  apply (safe_base live n6 t _ _ _ _ _ _ Hg7).
  apply (safe_window live n6 t b); [done|]. intros n8 G8 k8 Hn8 Ha8 Hr8.
  destruct (same_under_rely _ _ _ _ _ _ Hr8 HG6) as [HG8 Hl8]. rewrite Hl7, Hl6 in Hl8.
  pose proof (rely_chain _ _ _ _ _ _ _ _ (rely_trans _ _ _ _ _ _ _ Hr06 Hr7) Hr8) as Hr08.
  destruct (sema_up_lock t b G8 k8 l) as (k9 & -> & Ha9 & Hg9 & Hr9); [done..|].
  eapply safe_Done; [exact Hg9|]. split; [done|]. by eapply rely_trans.
Qed.

(** A change of the thread table by the running thread. *)
Lemma at_t_th t b G k th :
  at_t t b G k -> th_step (kt k) th -> running th = t -> sched_inv th ->
  dirs_ok (tasks th) (kp k) ->
  at_t t b G (set_kt th k) /\ guar t G k G (set_kt th k) /\ rely t G k G (set_kt th k).
Proof.
  intros (Hi & Hr & Hif) Hst Hrun Hs Hd.
  assert (Hsu : forall l, same_under l k (set_kt th k)).
  { intros l. split; [done|]. intros _. apply Hst. }
  split; [|split; split; [apply Hst|by intros|apply Hst|by intros]].
  split_and!; [|done|done].
  pose proof (inv_th_step live G k th (kp k) (tss_esp0 k) (km k) Hi Hs Hd Hst) as H.
  by destruct k.
Qed.

Lemma at_t_upd t b G k f :
  at_t t b G k -> (forall x, status (f x) = status x) ->
  (forall x, stack_magic (f x) = stack_magic x) -> (forall x, pgdir (f x) = pgdir x) ->
  let k' := set_kt (upd_task_st t f (kt k)) k in
  at_t t b G k' /\ guar t G k G k' /\ rely t G k G k'.
Proof.
  intros Ha Hf1 Hf2 Hf3 k'. pose proof (at_t_task _ _ _ _ Ha) as Ht.
  destruct Ha as (Hi & Hr & Hif) eqn:E. clear E.
  apply at_t_th; [done| |done| |].
  - apply th_step_upd; [done|done|]. intros _ Hb. by rewrite Hf1 in Hb.
  - apply sched_inv_upd; [done|done|apply Hi].
  - apply dirs_ok_upd; [done|done|apply Hi].
Qed.

Lemma at_t_kdev t b G k d :
  at_t t b G k -> kbd_buf d = kbd_buf (kdev k) ->
  at_t t b G (set_kdev d k) /\ guar t G k G (set_kdev d k) /\ rely t G k G (set_kdev d k).
Proof.
  intros (Hi & Hr & Hif) Hq. split.
  - split_and!; [destruct Hi; split; try done; simpl; by rewrite Hq|done|done].
  - split; split; [apply same_threads_refl|by intros|apply same_threads_refl|by intros].
Qed.

(** A switch away from the running thread, to any thread table it can
    reach. *)
Lemma safe_switch {A} n t b (Q : A -> owners -> kst -> Prop) G k th pg e0 m c :
  at_t t b G k -> th_step (kt k) th -> sched_inv th -> dirs_ok (tasks th) pg -> IF m = false ->
  (forall n' G' k', (n' < n)%nat -> at_t t false G' k' -> rely t G k G' k' ->
     safe n' t Q G' k' (c k')) ->
  safe n t Q G k (Switch (set_esp0 e0 (set_kp pg (set_kt th (set_km m k)))) c).
Proof.
  intros (Hi & Hr & Hif) Hst Hs Hd Hm Hc. destruct n as [|n]; [done|].
  exists G. split_and!; [by apply guar_th_step|by apply inv_th_step|done|].
  intros G' k' Ha' Hr'. apply Hc; [lia|done|]. eapply rely_trans; [|exact Hr'].
  split; [apply Hst|]. intros l. split; [done|]. intros _. split; [done|]. intros _. apply Hst.
Qed.

Lemma safe_yield {A} n t b (Q : A -> owners -> kst -> Prop) G k (f : unit -> K A) :
  at_t t b G k ->
  (forall n' G' k', (n' < n)%nat -> at_t t b G' k' -> rely t G k G' k' ->
     safe n' t Q G' k' (f tt k')) ->
  safe n t Q G k ((thread_yield ≫= f) k).
Proof.
  intros Ha Hf. destruct Ha as (Hi & Hr & Hif) eqn:E. clear E.
  pose proof (iv_sched _ _ _ Hi) as Hs. pose proof (yield_st_ok _ Hs) as Hyok.
  destruct (thread_yield_eq k Hs (iv_dirs _ _ _ Hi)) as (pg & e0 & c & Heq & Hc & Hpw & Hd').
  rewrite (kbind_Switch _ _ _ _ _ Heq).
  apply (safe_switch n t b); [done| |by apply sched_step_inv|done|apply irq_off_IF|].
  - eapply th_step_trans; [|by apply sched_step_th_step]. unfold yield_st.
    rewrite upd_task_ready. eapply th_step_trans; [|apply th_step_ready].
    apply th_step_upd; [apply (so_cur _ (proj1 Hs))|done|].
    intros _ _. pose proof (status_of_task_at _ _ _ (proj2 Hs)) as ->. done.
  - intros n' G' k' Hn' Ha' Hr'. rewrite Hc. simpl.
    set (k2 := set_km _ k'). apply (safe_base live n' t Q G' k' G' k2); [apply guar_km|].
    apply Hf; [done| |].
    + eapply at_t_km; [done|]. by rewrite set_if_IF.
    + eapply rely_trans; [exact Hr'|]. apply rely_km.
Qed.

(** The idle thread's [thread_block(TASK_BLOCKED)]. *)
Lemma safe_idle_block n t b G k :
  at_t t b G k -> t = idle_thread (kt k) ->
  safe n t (fun _ G' k' => at_t t b G' k' /\ rely t G k G' k') G k (thread_block TASK_BLOCKED k).
Proof.
  intros Ha Hid. destruct Ha as (Hi & Hr & Hif) eqn:E. clear E.
  pose proof (iv_sched _ _ _ Hi) as Hs.
  pose proof (block_st_ok TASK_BLOCKED _ eq_refl Hs) as Hbok.
  destruct (thread_block_eq TASK_BLOCKED k eq_refl Hs (iv_dirs _ _ _ Hi))
    as (pg & e0 & c & -> & Hc & Hpw & Hd').
  apply (safe_switch n t b); [done| |by apply sched_step_inv|done|apply irq_off_IF|].
  - eapply th_step_trans; [|by apply sched_step_th_step]. unfold block_st.
    apply th_step_upd; [apply (so_cur _ (proj1 Hs))|done|].
    intros Hni. destruct Hni. by rewrite (proj1 (proj2 Ha)).
  - intros n' G' k' _ Ha' Hr'. rewrite Hc. eapply safe_Done; [apply guar_km|]. split.
    + eapply at_t_km; [done|]. by rewrite set_if_IF.
    + eapply rely_trans; [exact Hr'|]. apply rely_km.
Qed.

(** The clock interrupt. *)
Lemma safe_timer n t G k :
  at_t t false G k ->
  safe n t (fun _ G' k' => at_t t false G' k' /\ rely t G k G' k') G k (intr_timer_handler k).
Proof.
  intros Ha. unfold intr_timer_handler. kstep. kstep. rewrite (proj1 (proj2 Ha)).
  rewrite bool_decide_true.
  2:{ apply (iv_magic _ _ _ (proj1 Ha)). by eapply at_t_task. }
  kstep. kstep. kstep. kstep.
  destruct (at_t_upd t false G k (fun t => set_elapsed_ticks (u32 (elapsed_ticks t + 1)) t))
    as (Ha1 & Hg1 & Hr1); [done..|].
  set (k1 := set_kt _ k) in *.
  destruct (at_t_kdev t false G k1 (set_sys_ticks (u32 (sys_ticks (kdev k1) + 1)) (kdev k1)) Ha1 eq_refl)
    as (Ha2 & Hg2 & Hr2).
  set (k2 := set_kdev _ k1) in *.
  apply (safe_base live n t _ G k G k2); [by eapply guar_trans|].
  pose proof (rely_trans _ _ _ _ _ _ _ Hr1 Hr2) as Hr02.
  case_decide as Htk.
  - pose proof (iv_sched _ _ _ (proj1 Ha2)) as Hs.
    destruct (schedule_eq k2 (proj1 Hs) (proj2 (proj2 Ha2)) (iv_dirs _ _ _ (proj1 Ha2)))
      as (pg & e0 & -> & Hpw & Hd').
    replace (set_kt (sched_step (kt k2)) k2)
      with (set_kt (sched_step (kt k2)) (set_km (km k2) k2)) by (by rewrite set_km_id).
    apply (safe_switch n t false); [done|by apply sched_step_th_step, Hs|
      by apply sched_step_inv, Hs|done|apply Ha2|].
    intros n' G' k' _ Ha' Hr'. eapply safe_Done; [apply guar_refl|]. split; [done|].
    by eapply rely_trans.
  - destruct (at_t_upd t false G k2 (fun t => set_ticks (u8 (ticks t - 1)) t))
      as (Ha3 & Hg3 & Hr3); [done..|].
    eapply safe_Done; [exact Hg3|]. split; [done|]. by eapply rely_trans.
Qed.
End ops.
