(* ===== verification/Console.v ===== *)
(** * The console: [device/console.c]

    The routines of [lib/kernel/print.S] as the sequence of characters they
    send to the screen, and the console's functions, which print under
    [console_lock]. *)
From S2P Require Import Prelude Machine Str Paging Kernel Thread Sync SyncLogic.

(** ** [lib/kernel/print.S] *)

Definition print (cs : list Z) (m : mach) : mach :=
  Mach (ram m) (eflags m) (ports m) (screen m ++ cs).

Definition put_char (char_asci : Z) : M mach unit := modify (print [u8 char_asci]).

(** The characters of a string up to its NUL. *)
Fixpoint put_str_loop (fuel : nat) (a : Z) : M mach unit :=
  match fuel with
  | O => no_fuel
  | S fuel =>
      c ← load8 a;
      if decide (c = 0) then mret tt else put_char c;; put_str_loop fuel (u32 (a + 1))
  end.
Definition put_str (fuel : nat) (message : Z) : M mach unit := put_str_loop fuel message.

(** The digits of [put_int]: base 16, capital letters, no leading zeros. *)
Definition hex_digit (d : Z) : Z := if decide (d <= 9) then d + 48 else d - 10 + 65.
Definition hex_digits8 (n : Z) : list Z :=
  (fun i => hex_digit (n / 16 ^ i mod 16)) <$> [7; 6; 5; 4; 3; 2; 1; 0].
Fixpoint skip_zeros (cs : list Z) : list Z :=
  match cs with
  | [] => []
  | [c] => [c]
  | c :: cs => if decide (c = 48) then skip_zeros cs else c :: cs
  end.
Definition put_int (number : Z) : M mach unit :=
  modify (print (skip_zeros (hex_digits8 (u32 number)))).

(** [put_str] of a literal of the source, and of one that ends a line. *)
Definition codes (s : string) : list Z :=
  (fun c => Z.of_N (Ascii.N_of_ascii c)) <$> String.list_ascii_of_string s.
Definition put_lit (s : string) : M mach unit := modify (print (codes s)).
Definition put_line (s : string) : M mach unit := modify (print (codes s ++ [10])).

(** ** [device/console.c] *)

Definition console_init : K unit := lock_init console_lock.
Definition console_acquire (fuel : nat) : K unit := lock_acquire fuel console_lock.
Definition console_release : K unit := lock_release console_lock.

Definition console_put_str (fuel sfuel : nat) (str : Z) : K unit :=
  console_acquire fuel;; on_mach (put_str sfuel str);; console_release.
Definition console_put_char (fuel : nat) (char_asci : Z) : K unit :=
  console_acquire fuel;; on_mach (put_char char_asci);; console_release.
Definition console_put_int (fuel : nat) (num : Z) : K unit :=
  console_acquire fuel;; on_mach (put_int num);; console_release.

(** ** Lemmas *)

Lemma print_print cs cs' m : print cs' (print cs m) = print (cs ++ cs') m.
Proof. unfold print. simpl. by rewrite app_assoc. Qed.

Lemma print_nil m : print [] m = m.
Proof. unfold print. rewrite app_nil_r. by destruct m. Qed.

(** [put_str] prints the string and stops at its end. *)
Lemma put_str_eq s a fuel m :
  cstr (ram m) a s -> 0 <= a -> a + Z.of_nat (length s) < 4294967296 ->
  (length s < fuel)%nat -> put_str fuel a m = Ok (tt, print s m).
Proof.
  unfold put_str. revert s a m. induction fuel as [|fuel IH]; intros s a m Hs Ha Hb Hf; [lia|].
  pose proof (cstr_bytes _ _ _ Hs) as Hby. simpl. mstep.
  destruct s as [|c s].
  - simpl in Hs. rewrite Hs, decide_True by done. by rewrite print_nil.
  - destruct Hs as (Hc & Hc0 & Hs). apply Forall_cons in Hby as [Hcb _].
    cbn [length] in *. rewrite Hc, decide_False by done. mstep.
    rewrite u8_id, u32_id by lia. rewrite (IH s); [by rewrite print_print|done|lia..].
Qed.

Lemma put_char_eq c m : put_char c m = Ok (tt, print [u8 c] m).
Proof. done. Qed.
Lemma put_int_eq n m : put_int n m = Ok (tt, print (skip_zeros (hex_digits8 (u32 n))) m).
Proof. done. Qed.

(** The digits read back as the number. *)
Definition hex_value (c : Z) : Z := if decide (c < 65) then c - 48 else c - 65 + 10.
Definition hex_read (cs : list Z) : Z := fold_left (fun v c => 16 * v + hex_value c) cs 0.

Lemma hex_digit_value d : 0 <= d < 16 -> hex_value (hex_digit d) = d.
Proof. unfold hex_value, hex_digit. intros. repeat case_decide; lia. Qed.

Lemma hex_read_zeros cs : hex_read (skip_zeros cs) = hex_read cs.
Proof.
  induction cs as [|c [|d cs] IH]; [done|done|].
  change (skip_zeros (c :: d :: cs)) with
    (if decide (c = 48) then skip_zeros (d :: cs) else c :: d :: cs).
  case_decide as Hc; [|done]. rewrite IH. by subst c.
Qed.

Lemma hex_digits8_read n : 0 <= n < 4294967296 -> hex_read (hex_digits8 n) = n.
Proof.
  intros Hn. unfold hex_read, hex_digits8. cbn [fmap list_fmap fold_left].
  rewrite !hex_digit_value by (apply Z.mod_pos_bound; lia).
  change (16 ^ 7) with 268435456. change (16 ^ 6) with 16777216. change (16 ^ 5) with 1048576.
  change (16 ^ 4) with 65536. change (16 ^ 3) with 4096. change (16 ^ 2) with 256.
  change (16 ^ 1) with 16. change (16 ^ 0) with 1. zmod_lia.
Qed.

(** With interrupts off and nobody else at the console the string is printed
    at once. *)
Lemma console_put_str_free lk sf str s k :
  IF (km k) = false -> lock_free console_lock k -> running (kt k) <> 0 ->
  cstr (ram (km k)) str s -> 0 <= str -> str + Z.of_nat (length s) < 4294967296 ->
  (length s < sf)%nat ->
  exists sy, console_put_str (S lk) sf str k = Done tt (set_ks sy (set_km (print s (km k)) k)) /\
    lock_free console_lock (set_ks sy k).
Proof.
  intros HI Hf Hr Hs Ha Hb Hsf. unfold console_put_str, console_acquire, console_release.
  destruct (lock_acquire_free lk console_lock k HI Hf Hr) as (s1 & Hacq & Hl1 & Hs1 & _).
  assert (Hput : on_mach (put_str sf str) (set_ks s1 k) =
                 Done tt (set_km (print s (km k)) (set_ks s1 k))).
  { unfold on_mach. erewrite lift_Ok; [done|]. by apply put_str_eq; [exact Hs|lia..]. }
  destruct (lock_release_free console_lock (running (kt k)) (set_km (print s (km k)) (set_ks s1 k)))
    as (s2 & Hrel & Hf2 & _); [exact HI|exact Hl1|done|exact Hs1|].
  exists s2. split; [|exact Hf2].
  rewrite (kbind_Done _ _ _ _ _ Hacq), (kbind_Done _ _ _ _ _ Hput), Hrel. by destruct k.
Qed.

(** ** Code under a lock *)

Section critical.
Context (live : gset lock_id).

(** A section of code between [lock_acquire] and [lock_release] of one
    lock, itself safe while it owns the lock, is a safe call. *)
Lemma safe_critical n fuel t G k l (body : K unit) :
  (n <= fuel)%nat -> l ∈ live -> at_t live t true G k -> t <> idle_thread (kt k) ->
  G !! l <> Some t ->
  (forall n' G' k', (n' <= n)%nat -> acquired live t true l 1 G k G' k' ->
     safe live n' t (fun _ G2 k2 => acquired live t true l 1 G k G2 k2) G' k' (body k')) ->
  safe live n t (fun _ G' k' => at_t live t true G' k' /\ rely t G k G' k') G k
    ((lock_acquire fuel l;; body;; lock_release l) k).
Proof.
  intros Hn Hl Ha Hid HG Hbody.
  eapply safe_bind; [by apply (safe_lock_acquire live n fuel t true)|].
  intros n1 [] G1 k1 Hn1 Hacq. eapply safe_bind; [by apply Hbody|].
  intros n2 [] G2 k2 Hn2 (Ha2 & HG2 & Hl2 & Hr2).
  eapply safe_conseq; [by apply (safe_lock_release live n2 t true)|].
  intros _ G3 k3 (Ha3 & Hr3). split; [done|]. by eapply rely_trans.
Qed.

(** Output to the screen inside the section. *)
Lemma safe_print n t l G0 k0 G k (m : M mach unit) cs :
  acquired live t true l 1 G0 k0 G k ->
  m (km k) = Ok (tt, print cs (km k)) ->
  safe live n t (fun _ G2 k2 => acquired live t true l 1 G0 k0 G2 k2) G k (on_mach m k).
Proof.
  intros (Ha & HG & Hl & Hr) Hm. unfold on_mach. rewrite (lift_Ok km set_km m k _ _ Hm).
  eapply safe_Done; [apply guar_km|]. split_and!; try done.
  eapply at_t_km; [done|]. apply Ha.
Qed.

Lemma safe_console n fuel t G k (m : M mach unit) :
  (n <= fuel)%nat -> console_lock ∈ live -> at_t live t true G k ->
  t <> idle_thread (kt k) -> G !! console_lock <> Some t ->
  (forall ma, exists cs, m ma = Ok (tt, print cs ma)) ->
  safe live n t (fun _ G' k' => at_t live t true G' k' /\ rely t G k G' k') G k
    ((console_acquire fuel;; on_mach m;; console_release) k).
Proof.
  intros Hn Hl Ha Hid HG Hm. apply safe_critical; try done.
  intros n' G' k' _ Hacq. destruct (Hm (km k')) as [cs Hcs]. by eapply safe_print.
Qed.
End critical.

(** the characters [put_int] prints are the number in base 16. *)
Theorem put_int_prints n m :
  0 <= n < 4294967296 ->
  exists cs, put_int n m = Ok (tt, print cs m) /\ hex_read cs = n /\ cs <> [].
Proof.
  intros Hn. eexists. split; [apply put_int_eq|]. rewrite u32_id by done. split.
  - rewrite hex_read_zeros. by apply hex_digits8_read.
  - unfold hex_digits8. simpl. by repeat case_decide.
Qed.

Lemma put_int_prints_witness :
  exists cs, put_int 48879 demo_mach = Ok (tt, print cs demo_mach) /\ hex_read cs = 48879 /\
    cs <> [].
Proof. apply put_int_prints. lia. Defined.
