(* ===== verification/Debug.v ===== *)
(** * The kernel's panic: [kernel/debug.c]

    What a failed [ASSERT] runs.  The rest of the development stops at a
    failed [ASSERT] ([Panic] of Machine.v); this file holds the message that
    is then on the screen and the state the processor spins in. *)
From S2P Require Import Prelude Machine Str Console.

(** [put_str] of the message's first literal. *)
Definition error_line : list Z := [10; 10; 10] ++ codes "!!!!! error !!!!!" ++ [10].

(** [panic_spin], up to its [while(1);]. *)
Definition panic_spin (sfuel : nat) (filename line func condition : Z) : M mach unit :=
  intr_disable;;
  modify (print error_line);;
  put_lit "filename:";; put_str sfuel filename;; put_line "";;
  put_lit "line:0x";; put_int line;; put_line "";;
  put_lit "function:";; put_str sfuel func;; put_line "";;
  put_lit "condition:";; put_str sfuel condition;; put_line "".

(** A string of the kernel image that [put_str] can print. *)
Definition printable (sfuel : nat) (r : gmap Z Z) (a : Z) (s : list Z) : Prop :=
  cstr r a s /\ 0 <= a /\ a + Z.of_nat (length s) < 4294967296 /\ (length s < sfuel)%nat.

Lemma put_str_printable sfuel a s m :
  printable sfuel (ram m) a s -> put_str sfuel a m = Ok (tt, print s m).
Proof. intros (Hs & Ha & Hb & Hf). by apply put_str_eq. Qed.

(** The lines of the message. *)
Definition panic_text (filename : list Z) (line : Z) (func condition : list Z) : list Z :=
  error_line ++ (codes "filename:" ++ filename ++ [10]) ++
  (codes "line:0x" ++ skip_zeros (hex_digits8 (u32 line)) ++ [10]) ++
  (codes "function:" ++ func ++ [10]) ++ (codes "condition:" ++ condition ++ [10]).

(** One line of the message. *)
Lemma put_labelled label cs m (p q : M mach unit) :
  p (print (codes label) m) = Ok (tt, print cs (print (codes label) m)) ->
  (put_lit label;; p;; put_line "";; q) m = q (print (codes label ++ cs ++ [10]) m).
Proof.
  intros Hp. erewrite (bind_Ok (put_lit label)) by done. rewrite (bind_Ok _ _ _ _ _ Hp).
  erewrite (bind_Ok (put_line "")) by done. by rewrite !print_print.
Qed.

(** [panic_spin] turns interrupts off and prints the message of the failed
    assertion: the file, the line in base 16, the function and the condition,
    a line each.  It leaves memory and the ports alone. *)
Theorem panic_spin_prints sfuel filename line func condition sf sg sc m :
  printable sfuel (ram m) filename sf -> printable sfuel (ram m) func sg ->
  printable sfuel (ram m) condition sc ->
  panic_spin sfuel filename line func condition m =
    Ok (tt, print (panic_text sf line sg sc) (irq_off m)) /\ IF (irq_off m) = false.
Proof.
  intros Hf Hg Hc. split; [|apply (set_if_IF false)]. unfold panic_spin.
  assert (Hram : ram (irq_off m) = ram m) by (unfold irq_off; by destruct (IF m)).
  rewrite (bind_Ok _ _ _ _ _ (intr_disable_eq m)). fold (irq_off m). mstep. cbv beta.
  rewrite <-Hram in Hf, Hg, Hc. unfold panic_text.
  rewrite (put_labelled _ sf) by (by apply put_str_printable).
  rewrite (put_labelled _ (skip_zeros (hex_digits8 (u32 line)))) by apply put_int_eq.
  rewrite (put_labelled _ sg) by (by apply put_str_printable).
  erewrite (bind_Ok (put_lit "condition:")) by done.
  erewrite (bind_Ok (put_str sfuel condition)) by (by apply put_str_printable).
  unfold put_line, modify. by rewrite !print_print.
Qed.

Lemma panic_spin_prints_witness :
  panic_spin 9 16 0x2f 32 16 demo_mach =
    Ok (tt, print (panic_text [97; 98] 0x2f [98; 97] [97; 98]) (irq_off demo_mach)) /\
  IF (irq_off demo_mach) = false.
Proof.
  apply panic_spin_prints; repeat split; [apply demo_ab| | | |apply demo_ba| | | |apply demo_ab| | |];
    simpl; lia.
Defined.
