(* ===== verification/Threads.v ===== *)
(** * Thread identity and entry: [thread/thread.c]

    The functions of [thread/thread.c] that use the locks: [allocate_pid];
    and the bodies [kernel_thread] and [idle]. *)
From S2P Require Import Prelude Machine Paging Kernel Thread Timer Sync SyncLogic Console.

Definition set_pid (v : Z) (t : task_struct) : task_struct :=
  Task (self_kstack t) v (status t) (name t) (priority t) (ticks t) (elapsed_ticks t)
    (fd_table t) (pgdir t) (userprog_vaddr t) (stack_magic t).
Definition set_next_pid (v : Z) (th : thread_st) : thread_st :=
  ThreadSt (tasks th) (running th) (thread_ready_list th) (thread_all_list th)
    (main_thread th) (idle_thread th) v (esps th).

(** [next_pid++] is a load and a store; the value returned is loaded again
    after the lock is released. *)
Definition allocate_pid (fuel : nat) : K Z :=
  lock_acquire fuel pid_lock;;
  irq_window;;
  p ← kget (fun k => next_pid (kt k));
  irq_window;;
  upd_kt (set_next_pid (i16 (p + 1)));;
  lock_release pid_lock;;
  irq_window;;
  kget (fun k => next_pid (kt k)).

(** [sti; hlt]: interrupts are enabled and one is awaited. *)
Definition sti_hlt : K unit :=
  kmod (fun k => set_km (irq_on (km k)) k);; irq_window.

(** One round of the loop of [idle]. *)
Definition idle_round : K unit := thread_block TASK_BLOCKED;; sti_hlt.

(** ** Safety *)

Section threads.
Context (live : gset lock_id).

Lemma at_t_next_pid t b G k v :
  at_t live t b G k -> G !! pid_lock = Some t ->
  let k' := set_kt (set_next_pid v (kt k)) k in
  at_t live t b G k' /\ guar t G k G k' /\
  rely t (delete pid_lock G) k (delete pid_lock G) k'.
Proof.
  intros (Hi & Hr & Hif) HG. split_and!; [split_and!; [|done|done]|..].
  - destruct Hi as [[Hok Hst] Hd Hm Hw Hbk Hl Hq]. split; [|done|done| |done|done|].
    + split; [|done]. by destruct Hok.
    + by destruct Hw.
    + by destruct Hq.
  - split; [by split|]. intros u l Hu. split; [done|]. intros Hl.
    split; [done|]. intros ->. congruence.
  - split; [by split|]. intros l. split; [done|]. rewrite lookup_delete.
    case_decide; [done|]. intros _. by split.
Qed.

(** The critical section counts once: nobody else changes [next_pid]
    between its load and its store. *)
Lemma safe_allocate_pid n fuel t G k :
  (n <= fuel)%nat -> pid_lock ∈ live -> at_t live t true G k -> t <> idle_thread (kt k) ->
  G !! pid_lock <> Some t ->
  safe live n t (fun _ G' k' => at_t live t true G' k' /\ rely t G k G' k') G k
    (allocate_pid fuel k).
Proof.
  intros Hn Hlive Ha Hid HG. unfold allocate_pid.
  eapply safe_bind; [by apply (safe_lock_acquire live n fuel t true)|].
  intros n1 [] G1 k1 _ (Ha1 & HG1 & Hl1 & Hr1).
  apply (safe_window live n1 t true); [done|]. intros n2 G2 k2 Hn2 Ha2 Hr2.
  destruct (same_under_rely _ _ _ _ _ _ Hr2 HG1) as [HG2 Hl2]. rewrite Hl1 in Hl2.
  kstep. apply (safe_window live n2 t true); [done|]. intros n3 G3 k3 Hn3 Ha3 Hr3.
  destruct (same_under_rely _ _ _ _ _ _ Hr3 HG2) as [HG3 Hl3]. rewrite Hl2 in Hl3.
  kstep. pose proof (rely_chain _ _ _ _ _ _ _ _ (rely_chain _ _ _ _ _ _ _ _ Hr1 Hr2) Hr3) as Hr03.
  destruct (at_t_next_pid t true G3 k3 (i16 (next_pid (kt k2) + 1)) Ha3 HG3) as (Ha4 & Hg4 & Hr4).
  apply (safe_base live n3 t _ _ _ _ _ _ Hg4).
  eapply safe_bind; [by apply (safe_lock_release live n3 t true)|].
  intros n5 [] G5 k5 _ (Ha5 & Hr5).
  apply (safe_window live n5 t true); [done|]. intros n6 G6 k6 _ Ha6 Hr6.
  eapply safe_Done; [apply guar_refl|]. split; [done|].
  eapply rely_trans; [exact Hr03|]. eapply rely_trans; [exact Hr4|].
  by eapply rely_trans.
Qed.

Lemma safe_idle_round n t G k :
  at_t live t true G k -> t = idle_thread (kt k) ->
  safe live n t (fun _ G' k' => at_t live t true G' k' /\ rely t G k G' k') G k (idle_round k).
Proof.
  intros Ha Hid. unfold idle_round, sti_hlt. eapply safe_bind; [by apply safe_idle_block|].
  intros n1 [] G1 k1 _ (Ha1 & Hr1). kstep.
  set (k2 := set_km _ k1).
  assert (Ha2 : at_t live t true G1 k2) by (eapply at_t_km; [done|apply (set_if_IF true)]).
  apply (safe_base live n1 t _ G1 k1 G1 k2); [apply guar_km|].
  destruct n1 as [|n1]; [apply safe_0|].
  unfold irq_window. rewrite (proj2 (proj2 Ha2)). exists G1. split_and!; [apply guar_refl|apply Ha2..|].
  intros G3 k3 Ha3 Hr3. eapply safe_Done; [apply guar_refl|]. split; [done|].
  eapply rely_trans; [exact Hr1|]. eapply rely_trans; [apply rely_km|exact Hr3].
Qed.

(** [thread_yield] and the loops over it. *)
Lemma safe_thread_yield n t G k :
  at_t live t true G k ->
  safe live n t (fun _ G' k' => at_t live t true G' k' /\ rely t G k G' k') G k (thread_yield k).
Proof.
  intros Ha. pose proof (iv_sched _ _ _ (proj1 Ha)) as Hs.
  destruct (thread_yield_eq k Hs (iv_dirs _ _ _ (proj1 Ha)))
    as (pg & e0 & c & Heq & Hc & Hpw & Hd').
  pose proof (safe_yield live n t true
    (fun (_ : unit) G' k' => at_t live t true G' k' /\ rely t G k G' k') G k
    (fun _ => mret tt) Ha) as Hy.
  rewrite (kbind_Switch _ _ _ _ _ Heq) in Hy. rewrite Heq.
  destruct n as [|n]; [done|].
  destruct Hy as (G1 & Hg1 & Hi1 & Hif1 & Hk1).
  { intros n' G' k' _ Ha' Hr'. by eapply safe_Done; [apply guar_refl|]. }
  exists G1. split_and!; [done..|]. intros G' k' Ha' Hr'. specialize (Hk1 G' k' Ha' Hr').
  rewrite Hc in Hk1 |- *. exact Hk1.
Qed.

Lemma safe_sleep_loop n fuel t G k start_tick sleep_ticks :
  (n <= fuel)%nat -> at_t live t true G k ->
  safe live n t (fun _ G' k' => at_t live t true G' k' /\ rely t G k G' k') G k
    (ticks_to_sleep_loop fuel start_tick sleep_ticks k).
Proof.
  revert n G k. induction fuel as [|fuel IH]; intros n G k Hn Ha.
  { replace n with 0%nat by lia. apply safe_0. }
  cbn [ticks_to_sleep_loop]. apply (safe_window live n t true); [done|].
  intros n1 G1 k1 Hn1 Ha1 Hr1. kstep. case_decide.
  - apply (safe_yield live n1 t true); [done|]. intros n2 G2 k2 Hn2 Ha2 Hr2.
    eapply safe_conseq; [apply IH; [lia|done]|]. intros _ G3 k3 (Ha3 & Hr3).
    split; [done|]. eapply rely_trans; [exact Hr1|]. by eapply rely_trans.
  - by eapply safe_Done; [apply guar_refl|].
Qed.

Lemma safe_mtime_sleep n fuel t G k ms :
  (n <= fuel)%nat -> at_t live t true G k -> 0 < ms < 4294967287 ->
  safe live n t (fun _ G' k' => at_t live t true G' k' /\ rely t G k G' k') G k
    (mtime_sleep fuel ms k).
Proof.
  intros Hn Ha Hms. unfold mtime_sleep. rewrite bool_decide_true.
  2:{ unfold DIV_ROUND_UP, mil_seconds_per_intr, IRQ0_FREQUENCY.
      change (1000 / 100) with 10. rewrite u32_id by lia.
      assert (1 <= (ms + 10 - 1) / 10); [|lia].
      apply Z.div_le_lower_bound; lia. }
  kstep. unfold ticks_to_sleep. kstep. by apply safe_sleep_loop.
Qed.
End threads.
