(* ===== verification/Keyboard.v ===== *)
(** * The keyboard: [device/keyboard.c]

    The keyboard interrupt: scancodes from port 0x60 into modifier state and
    characters of [kbd_buf]. *)
From S2P Require Import Prelude Machine Paging Kernel Thread Sync Console Ioqueue.

(** ** The tables *)

Definition shift_l_make : Z := 0x2a.
Definition shift_r_make : Z := 0x36.
Definition alt_l_make : Z := 0x38.
Definition alt_r_make : Z := 0xe038.
Definition ctrl_l_make : Z := 0x1d.
Definition ctrl_r_make : Z := 0xe01d.
Definition caps_lock_make : Z := 0x3a.

(** [keymap]: the character of each make code without and with shift, 0 for
    an invisible key. *)
Definition keymap : list (Z * Z) :=
  [
    (0, 0); (27, 27); (49, 33); (50, 64); (51, 35); (52, 36); (53, 37); (54, 94); (55,
    38); (56, 42); (57, 40); (48, 41); (45, 95); (61, 43); (8, 8); (9, 9); (113, 81);
    (119, 87); (101, 69); (114, 82); (116, 84); (121, 89); (117, 85); (105, 73); (111,
    79); (112, 80); (91, 123); (93, 125); (13, 13); (0, 0); (97, 65); (115, 83); (100,
    68); (102, 70); (103, 71); (104, 72); (106, 74); (107, 75); (108, 76); (59, 58);
    (39, 34); (96, 126); (0, 0); (92, 124); (122, 90); (120, 88); (99, 67); (118, 86);
    (98, 66); (110, 78); (109, 77); (44, 60); (46, 62); (47, 63); (0, 0); (42, 42); (0,
    0); (32, 32); (0, 0)
  ].

(** ** State *)

Definition set_ctrl (b : bool) (d : dev_st) : dev_st :=
  DevSt (sys_ticks d) (kbd_buf d) b (shift_status d) (alt_status d) (caps_lock_status d)
    (ext_scancode d).
Definition set_shift (b : bool) (d : dev_st) : dev_st :=
  DevSt (sys_ticks d) (kbd_buf d) (ctrl_status d) b (alt_status d) (caps_lock_status d)
    (ext_scancode d).
Definition set_alt (b : bool) (d : dev_st) : dev_st :=
  DevSt (sys_ticks d) (kbd_buf d) (ctrl_status d) (shift_status d) b (caps_lock_status d)
    (ext_scancode d).
Definition set_caps (b : bool) (d : dev_st) : dev_st :=
  DevSt (sys_ticks d) (kbd_buf d) (ctrl_status d) (shift_status d) (alt_status d) b
    (ext_scancode d).
Definition set_ext (b : bool) (d : dev_st) : dev_st :=
  DevSt (sys_ticks d) (kbd_buf d) (ctrl_status d) (shift_status d) (alt_status d)
    (caps_lock_status d) b.
Definition upd_dev (f : dev_st -> dev_st) : K unit := kmod (fun k => set_kdev (f (kdev k)) k).

(** ** The interrupt handler *)

(** The keys whose shifted character does not depend on caps lock. *)
Definition two_letters (scancode : Z) : bool :=
  (scancode <? 0x0e) || (scancode =? 0x29) || (scancode =? 0x1a) || (scancode =? 0x1b) ||
  (scancode =? 0x2b) || (scancode =? 0x27) || (scancode =? 0x28) || (scancode =? 0x33) ||
  (scancode =? 0x34) || (scancode =? 0x35).

(** [keymap[index][shift]]; reading past the table is an error. *)
Definition keymap_at (index : Z) (shift : bool) : K Z :=
  match keymap !! Z.to_nat index with
  | Some p => mret (if shift then p.2 else p.1)
  | None => kpanic "keymap out of bounds"
  end.

Definition unknown_key : list Z := [117; 110; 107; 110; 111; 119; 110; 32; 107; 101; 121; 10].

(** [data] is the byte [inb(KBD_BUF_PORT)] reads. *)
Definition intr_keyboard_handler (fuel : nat) (data : Z) : K unit :=
  d ← kget kdev;
  let ctrl_down_last := ctrl_status d in
  let shift_down_last := shift_status d in
  let caps_lock_last := caps_lock_status d in
  let scancode := u8 data in
  if scancode =? 0xe0 then upd_dev (set_ext true)
  else
    scancode ← (if ext_scancode d then upd_dev (set_ext false);; mret (Z.lor 0xe000 scancode)
                else mret scancode);
    if negb (Z.land scancode 0x80 =? 0) then
      let make_code := Z.land scancode 0xff7f in
      if (make_code =? ctrl_l_make) || (make_code =? ctrl_r_make) then upd_dev (set_ctrl false)
      else if (make_code =? shift_l_make) || (make_code =? shift_r_make) then
        upd_dev (set_shift false)
      else if (make_code =? alt_l_make) || (make_code =? alt_r_make) then
        upd_dev (set_alt false)
      else mret tt
    else if ((0 <? scancode) && (scancode <? 0x3b)) || (scancode =? alt_r_make) ||
            (scancode =? ctrl_r_make) then
      let shift := if two_letters scancode then shift_down_last
                   else shift_down_last || caps_lock_last in
      let scancode := Z.land scancode 0xff in
      cur_char ← keymap_at scancode shift;
      let cur_char := if ctrl_down_last && ((cur_char =? 108) || (cur_char =? 117))
                      then cur_char - 97 else cur_char in
      if negb (cur_char =? 0) then
        full ← ioq_full;
        if (full : bool) then mret tt else ioq_putchar fuel cur_char
      else if (scancode =? ctrl_l_make) || (scancode =? ctrl_r_make) then upd_dev (set_ctrl true)
      else if (scancode =? shift_l_make) || (scancode =? shift_r_make) then
        upd_dev (set_shift true)
      else if (scancode =? alt_l_make) || (scancode =? alt_r_make) then upd_dev (set_alt true)
      else if scancode =? caps_lock_make then
        upd_dev (fun d => set_caps (negb (caps_lock_status d)) d)
      else mret tt
    else on_mach (modify (print unknown_key)).

(** ** The key machine

    What the handler computes apart from the queue: from the modifiers and a
    byte to the modifiers, the character typed and whether the key is
    unknown. *)

Record mods := Mods { m_ctrl : bool; m_shift : bool; m_alt : bool; m_caps : bool; m_ext : bool }.
#[export] Instance mods_eq_dec : EqDecision mods.
Proof. solve_decision. Defined.

Definition mods_of (d : dev_st) : mods :=
  Mods (ctrl_status d) (shift_status d) (alt_status d) (caps_lock_status d) (ext_scancode d).
Definition put_mods (s : mods) (d : dev_st) : dev_st :=
  DevSt (sys_ticks d) (kbd_buf d) (m_ctrl s) (m_shift s) (m_alt s) (m_caps s) (m_ext s).

Inductive event := ENone | EChar (c : Z) | EUnknown.
#[export] Instance event_eq_dec : EqDecision event.
Proof. solve_decision. Defined.

(** The four kinds of keys, by make code with its prefix. *)
Inductive key := KCtrl | KShift | KAlt | KCaps | KText (base shifted : Z) (letter : bool) | KOther.

Definition key_of (ext : bool) (code : Z) : key :=
  if ext then
    if code =? 0x1d then KCtrl else if code =? 0x38 then KAlt else KOther
  else if code =? 0x1d then KCtrl
  else if (code =? 0x2a) || (code =? 0x36) then KShift
  else if code =? 0x38 then KAlt
  else if code =? 0x3a then KCaps
  else if (code =? 0) || (0x3b <=? code) then KOther
  else match keymap !! Z.to_nat code with
       | Some (b, s) => KText b s (negb (two_letters code))
       | None => KOther
       end.

(** Control with [l] or [u] gives the control character the shell expects. *)
Definition text_char (s : mods) (base shifted : Z) (letter : bool) : Z :=
  let c := if m_shift s || letter && m_caps s then shifted else base in
  if m_ctrl s && ((c =? 108) || (c =? 117)) then c - 97 else c.

Definition key_step (s : mods) (data : Z) : mods * event :=
  if data =? 0xe0 then (Mods (m_ctrl s) (m_shift s) (m_alt s) (m_caps s) true, ENone)
  else
    let down := data <? 128 in
    let up s' e := (Mods (m_ctrl s') (m_shift s') (m_alt s') (m_caps s') false, e) in
    match key_of (m_ext s) (if down then data else data - 128) with
    | KCtrl => up (Mods down (m_shift s) (m_alt s) (m_caps s) false) ENone
    | KShift => up (Mods (m_ctrl s) down (m_alt s) (m_caps s) false) ENone
    | KAlt => up (Mods (m_ctrl s) (m_shift s) down (m_caps s) false) ENone
    | KCaps => up (Mods (m_ctrl s) (m_shift s) (m_alt s)
                     (if down then negb (m_caps s) else m_caps s) false) ENone
    | KText b sh letter => up s (if down then EChar (text_char s b sh letter) else ENone)
    | KOther => up s (if down then EUnknown else ENone)
    end.

(** ** The handler is the key machine *)

(** The handler's branches on the modifiers and the byte alone; [None] where
    the table would be read out of bounds. *)
Definition code_step (s : mods) (data : Z) : option (mods * event) :=
  let with_ext b := Mods (m_ctrl s) (m_shift s) (m_alt s) (m_caps s) b in
  if data =? 0xe0 then Some (with_ext true, ENone)
  else
    let scancode := if m_ext s then Z.lor 0xe000 data else data in
    let ctrl b := (Mods b (m_shift s) (m_alt s) (m_caps s) false, ENone) in
    let shift b := (Mods (m_ctrl s) b (m_alt s) (m_caps s) false, ENone) in
    let alt b := (Mods (m_ctrl s) (m_shift s) b (m_caps s) false, ENone) in
    if negb (Z.land scancode 0x80 =? 0) then
      let make_code := Z.land scancode 0xff7f in
      Some (if (make_code =? ctrl_l_make) || (make_code =? ctrl_r_make) then ctrl false
            else if (make_code =? shift_l_make) || (make_code =? shift_r_make) then shift false
            else if (make_code =? alt_l_make) || (make_code =? alt_r_make) then alt false
            else (with_ext false, ENone))
    else if ((0 <? scancode) && (scancode <? 0x3b)) || (scancode =? alt_r_make) ||
            (scancode =? ctrl_r_make) then
      let sh := if two_letters scancode then m_shift s else m_shift s || m_caps s in
      let index := Z.land scancode 0xff in
      match keymap !! Z.to_nat index with
      | None => None
      | Some p =>
          let c := if sh then p.2 else p.1 in
          let c := if m_ctrl s && ((c =? 108) || (c =? 117)) then c - 97 else c in
          Some (if negb (c =? 0) then (with_ext false, EChar c)
                else if (index =? ctrl_l_make) || (index =? ctrl_r_make) then ctrl true
                else if (index =? shift_l_make) || (index =? shift_r_make) then shift true
                else if (index =? alt_l_make) || (index =? alt_r_make) then alt true
                else if index =? caps_lock_make then
                  (Mods (m_ctrl s) (m_shift s) (m_alt s) (negb (m_caps s)) false, ENone)
                else (with_ext false, ENone))
      end
    else Some (with_ext false, EUnknown).

Definition all_mods : list mods :=
  b1 ← [true; false]; b2 ← [true; false]; b3 ← [true; false]; b4 ← [true; false];
  b5 ← [true; false]; [Mods b1 b2 b3 b4 b5].

Lemma all_mods_in s : s ∈ all_mods.
Proof.
  apply (bool_decide_unpack (s ∈ all_mods)). by destruct s as [[] [] [] [] []].
Qed.

Lemma code_step_check :
  forallb (fun s => forallb (fun i =>
    bool_decide (code_step s (Z.of_nat i) = Some (key_step s (Z.of_nat i)))) (seq 0 256)) all_mods
  = true.
Proof. vm_compute. reflexivity. Qed.

Lemma code_step_key_step s data : 0 <= data < 256 -> code_step s data = Some (key_step s data).
Proof.
  intros Hd. pose proof code_step_check as H. rewrite forallb_forall in H.
  specialize (H s (proj1 (list_elem_of_In _ _) (all_mods_in s))).
  rewrite forallb_forall in H. specialize (H (Z.to_nat data)).
  rewrite in_seq, Z2Nat.id in H by lia.
  apply (bool_decide_eq_true _). apply H. lia.
Qed.

Definition set_mods_k (s : mods) (k : kst) : kst := set_kdev (put_mods s (kdev k)) k.

(** The effect of an event. *)
Definition deliver (fuel : nat) (e : event) : K unit :=
  match e with
  | ENone => mret tt
  | EChar c => full ← ioq_full; if (full : bool) then mret tt else ioq_putchar fuel c
  | EUnknown => on_mach (modify (print unknown_key))
  end.

Lemma handler_code_step fuel data k s e :
  0 <= data < 256 ->
  code_step (mods_of (kdev k)) data = Some (s, e) ->
  intr_keyboard_handler fuel data k = deliver fuel e (set_mods_k s k).
Proof.
  intros Hd. unfold intr_keyboard_handler. kstep. rewrite (u8_id data) by done.
  unfold code_step, set_mods_k, mods_of, put_mods. destruct k as [m pg e0 th sy me d].
  destruct d as [tk q b1 b2 b3 b4 b5]. cbn [kdev m_ctrl m_shift m_alt m_caps m_ext
    ctrl_status shift_status alt_status caps_lock_status ext_scancode].
  destruct (data =? 224); [by intros [= <- <-]|].
  set (sc := if b5 then Z.lor 0xe000 data else data).
  assert (Hsc : forall f : Z -> K unit,
    ((if b5 then upd_dev (set_ext false);; mret (Z.lor 0xe000 data) else mret data) ≫= f)
      (Kst m pg e0 th sy me (DevSt tk q b1 b2 b3 b4 b5)) =
    f sc (Kst m pg e0 th sy me (DevSt tk q b1 b2 b3 b4 false))).
  { intros f. subst sc. by destruct b5. }
  rewrite Hsc. clear Hsc.
  destruct (negb (Z.land sc 128 =? 0)).
  { repeat case_match; intros [= <- <-]; done. }
  destruct ((0 <? sc) && (sc <? 59) || (sc =? alt_r_make) || (sc =? ctrl_r_make)).
  2:{ by intros [= <- <-]. }
  unfold keymap_at. destruct (keymap !! Z.to_nat (Z.land sc 255)) as [[c1 c2]|]; [|done].
  kstep. cbn [fst snd].
  set (c := if b1 && _ then _ else _).
  destruct (negb (c =? 0)); [by intros [= <- <-]|].
  repeat case_match; intros [= <- <-]; done.
Qed.

(** ** Theorems *)

(** C33: For every byte the keyboard can send and every modifier state, the
    handler is one step of the key machine followed by the delivery of its
    event; in particular it never reads outside [keymap]. *)
Theorem keyboard_handler_refines fuel data k :
  0 <= data < 256 ->
  let se := key_step (mods_of (kdev k)) data in
  intr_keyboard_handler fuel data k = deliver fuel se.2 (set_mods_k se.1 k).
Proof.
  intros Hd se. apply handler_code_step; [done|].
  rewrite code_step_key_step by done. subst se. by destruct (key_step _ _).
Qed.

Lemma keyboard_handler_refines_witness :
  0 <= 0x1e < 256 /\
  intr_keyboard_handler 1 0x1e (set_km (Mach ∅ 2 [] []) bss_kst) =
  deliver 1 (EChar 97) (set_km (Mach ∅ 2 [] []) bss_kst).
Proof. split; [lia|]. exact (keyboard_handler_refines 1 0x1e (set_km (Mach ∅ 2 [] []) bss_kst) ltac:(lia)). Defined.
