(* ===== verification/KbdLogic.v ===== *)
(** * Safety of the keyboard's two sides

    The keyboard interrupt as a handler and [ioq_getchar] as a call, in the
    logic of SyncLogic. *)
From S2P Require Import Prelude Machine Paging Kernel Thread Timer Sync Ioqueue SyncLogic Console.
From S2P Require Import Keyboard.

Section kbd.
Context (live : gset lock_id).
Local Abbreviation at_t := (at_t live).
Local Abbreviation safe := (safe live).

(** A change of the queue that keeps its well-formedness and waiters. *)
Lemma at_t_ioq t b G k f :
  at_t t b G k -> ioq_wf (f (kbd_buf (kdev k))) ->
  producer (f (kbd_buf (kdev k))) = 0 ->
  consumer (f (kbd_buf (kdev k))) = consumer (kbd_buf (kdev k)) ->
  at_t t b G (upd_ioq_st f k) /\ guar t G k G (upd_ioq_st f k) /\ rely t G k G (upd_ioq_st f k).
Proof.
  intros (Hi & Hr & Hif) Hwf Hp Hc. split.
  - split_and!; [|done|done]. destruct Hi as [Hs Hd Hm Hw Hbl Hl Hq]. split; try done.
    { unfold blocked_ok, recorded. cbn [kdev upd_ioq_st set_kdev kbd_buf set_kbd_buf]. by rewrite Hc. }
    split; simpl; [done|done|]. intros Hne. rewrite Hc in *. by apply (kb_consumer _ _ _ _ Hq).
  - split; split; [apply same_threads_refl|by intros|apply same_threads_refl|by intros].
Qed.

Lemma at_t_waiter t b G k : at_t t b G k -> waiter_ok Consumer k.
Proof.
  intros (Hi & _ & _). unfold waiter_ok. cbn [get_waiter]. intros Hne.
  destruct (kb_consumer _ _ _ _ (iv_kbd _ _ _ Hi) Hne) as (Hb & _).
  split; [by rewrite (status_of_task_at _ _ _ Hb)|].
  rewrite (so_ready _ (proj1 (iv_sched _ _ _ Hi))). simpl. congruence.
Qed.

(** Waking the recorded consumer. *)
Lemma at_t_wake t b G k :
  at_t t b G k ->
  at_t t b G (woken_waiter Consumer k) /\ guar t G k G (woken_waiter Consumer k) /\
  rely t G k G (woken_waiter Consumer k).
Proof.
  intros Ha. unfold woken_waiter. case_decide as Hne; [|split_and!; [apply Ha..|apply guar_refl|apply rely_refl]].
  simpl in Hne. pose proof Ha as (Hi & Hr & Hif).
  pose proof (kb_consumer _ _ _ _ (iv_kbd _ _ _ Hi) Hne) as (Hb & Hid & Hnw & _).
  set (c := get_waiter Consumer (kbd_buf (kdev k))) in *. simpl in c.
  assert (Hct : is_Some (tasks (kt k) !! c)).
  { unfold status_of in Hb. subst c. destruct (tasks (kt k) !! _); [by eexists|done]. }
  assert (Hst : same_threads (kt k) (unblock_st c (kt k))) by (by apply unblock_same_threads).
  split; [|split; split; [exact Hst|by intros|exact Hst|by intros]].
  split_and!; [|done|done]. destruct Hi as [Hs Hd Hm Hw Hbl Hl Hq].
  assert (Hstat : forall u, u <> c -> status_of (unblock_st c (kt k)) u = status_of (kt k) u).
  { intros u Hu. unfold unblock_st. rewrite status_of_upd. by case_decide. }
  split.
  - by apply unblock_st_inv.
  - by apply (dirs_ok_upd c _ (set_ready (c :: thread_ready_list (kt k)) (kt k))).
  - intros u Hu. apply Hst in Hu. simpl. unfold unblock_st. rewrite task_at_upd.
    case_decide; [subst u|]; by apply Hm.
  - destruct Hw as [Hn Hwb Ho]. split; [done| |done]. intros i u Hu.
    destruct (Hwb i u Hu) as [Hus Hui]. split; [|done]. simpl. rewrite Hstat; [done|].
    intros ->. by apply (Hnw i).
  - eapply blocked_ok_unblock; [|exact Hbl]. intros u Hu [Hin|[_ Hu']]; [by left|]. by destruct Hu.
  - intros l Hlive. by apply (lock_ok_step G (kt k)), Hl.
  - destruct Hq as [Hwf Hp Hc]. split; simpl; [by destruct Hwf|done|done].
Qed.

Lemma safe_putchar n fuel t G k c :
  at_t t false G k -> next_pos (head (kbd_buf (kdev k))) <> tail (kbd_buf (kdev k)) ->
  safe n t (fun _ G' k' => at_t t false G' k' /\ rely t G k G' k') G k (ioq_putchar (S fuel) c k).
Proof.
  intros Ha Hnf. pose proof Ha as (Hi & _ & Hif).
  rewrite ioq_putchar_eq; [|done|by eapply at_t_waiter|done].
  pose proof (iv_kbd _ _ _ Hi) as [Hwf Hp Hc].
  destruct (at_t_ioq t false G k (put_st (i8 c)) Ha) as (Ha1 & Hg1 & Hr1);
    [by apply put_contents|done|done|].
  destruct (at_t_wake t false G _ Ha1) as (Ha2 & Hg2 & Hr2).
  eapply safe_Done; [by eapply guar_trans|]. split; [done|]. by eapply rely_trans.
Qed.

Lemma safe_keyboard n fuel t G k data :
  0 <= data < 256 -> at_t t false G k ->
  safe n t (fun _ G' k' => at_t t false G' k' /\ rely t G k G' k') G k
    (intr_keyboard_handler (S fuel) data k).
Proof.
  intros Hd Ha.
  destruct (key_step (mods_of (kdev k)) data) as [s e] eqn:E.
  rewrite (handler_code_step (S fuel) data k s e); [|done|by rewrite code_step_key_step, E].
  destruct (at_t_kdev live t false G k (put_mods s (kdev k)) Ha eq_refl) as (Ha1 & Hg1 & Hr1).
  change (set_kdev (put_mods s (kdev k)) k) with (set_mods_k s k) in *.
  apply (safe_base live n t _ _ _ _ _ _ Hg1).
  destruct e as [|c|]; cbn [deliver].
  - by eapply safe_Done; [apply guar_refl|].
  - pose proof (ioq_full_eq (set_mods_k s k) (proj2 (proj2 Ha1))) as Hf. kstep.
    case_bool_decide as Hnf; [by eapply safe_Done; [apply guar_refl|]|].
    eapply safe_conseq; [by apply safe_putchar|]. intros [] G' k' (Ha' & Hr').
    split; [done|]. by eapply rely_trans.
  - eapply safe_Done; [apply guar_km|]. split; [eapply at_t_km; [exact Ha1|apply Ha1]|].
    eapply rely_trans; [exact Hr1|apply rely_km].
Qed.

(** ** The reader *)

Lemma safe_ioq_wait {A} n t G k (Q : A -> owners -> kst -> Prop) (f : unit -> K A) :
  at_t t false G k -> t <> idle_thread (kt k) -> G !! kbd_buf_lock = Some t ->
  (forall n' G' k', (n' < n)%nat -> at_t t false G' k' -> rely t G k G' k' ->
     safe n' t Q G' k' (f tt k')) ->
  safe n t Q G k ((ioq_wait Consumer ≫= f) k).
Proof.
  intros Ha Hid HG Hf. pose proof Ha as (Hi & Hr & Hif). pose proof Hi as [Hs Hd Hm Hw Hbk Hl Hq].
  assert (Hc0 : consumer (kbd_buf (kdev k)) = 0).
  { destruct (decide (consumer (kbd_buf (kdev k)) = 0)) as [?|Hne]; [done|].
    pose proof (kbd_ok_running _ _ _ _ Hs Hq Hne) as Hrun.
    destruct (kb_consumer _ _ _ _ Hq Hne) as (_ & _ & _ & HGo). congruence. }
  set (k1 := upd_ioq_st (set_waiter Consumer t) k).
  assert (Hw1 : (ioq_wait Consumer ≫= f) k = (thread_block TASK_BLOCKED ≫= f) k1).
  { unfold mbind, K_bind. f_equal. unfold ioq_wait. kstep. simpl.
    rewrite bool_decide_true by done. kstep. kstep. rewrite Hr. by kstep. }
  rewrite Hw1. clear Hw1.
  apply (safe_base live n t Q G k G k1); [split; [apply same_threads_refl|by intros]|].
  apply (safe_block live n t false Q G k1 f TASK_BLOCKED eq_refl Hr Hif Hs Hd).
  - intros th pg e0 Hs' Hd' Hst. subst t.
    assert (Hst1 : th_step (block_st TASK_BLOCKED (kt k)) th) by exact Hst.
    assert (Hsm : same_threads (kt k) th).
    { eapply same_threads_trans; [|apply Hst1]. by apply same_threads_block. }
    assert (Hbl : status_of (block_st TASK_BLOCKED (kt k)) (running (kt k)) = Some TASK_BLOCKED).
    { unfold block_st. rewrite status_of_upd. by rewrite decide_True. }
    split; simpl; [done|done|..].
    + intros u Hu. apply Hsm in Hu as Hu'. rewrite (ts_magic _ _ Hst1).
      2:{ by apply same_threads_block. }
      unfold block_st. rewrite task_at_upd. case_decide; [subst u|]; by apply Hm.
    + eapply waiting_ok_step; [exact Hst1|]. destruct Hw as [Hn Hwb Ho]. split; [done| |done].
      intros i u Hu. destruct (Hwb i u Hu) as [Hus Hui]. split; [|done].
      unfold block_st. rewrite status_of_upd. case_decide; [done|done].
    + eapply blocked_ok_step; [exact Hst1|]. eapply blocked_ok_block; [| |exact Hbk].
      * intros u [Hin|[Hne Hu]]; [by left|]. congruence.
      * right. split; [|done]. intros E. destruct Hs as [Hok _].
        destruct (so_cur _ Hok) as [tk Htk]. rewrite E in Htk. by rewrite (so_null _ Hok) in Htk.
    + intros l Hlive. by apply (lock_ok_step G (kt k)), Hl.
    + eapply kbd_ok_step; [exact Hst1|]. pose proof (kb_wf _ _ _ _ Hq) as [Hwl Hwh Hwt].
      split; simpl; [by split|by apply (kb_producer _ _ _ _ Hq)|]. intros _.
      split_and!; [done|done| |done].
      intros i Hin. apply (wt_blocked _ _ Hw) in Hin as [Hb _].
      rewrite (proj2 Hs) in Hb. done.
  - intros n' G' k' Hn Ha' Hr'. apply Hf; [done|done|].
    eapply rely_trans; [|exact Hr']. split; [apply same_threads_refl|by intros].
Qed.

Lemma safe_ioq_wait_while n fuel t G k (Q : unit -> owners -> kst -> Prop) :
  (n <= fuel)%nat -> kbd_buf_lock ∈ live -> at_t t false G k -> t <> idle_thread (kt k) ->
  G !! kbd_buf_lock <> Some t ->
  (forall G' k', at_t t false G' k' -> rely t G k G' k' ->
     tail (kbd_buf (kdev k')) <> head (kbd_buf (kdev k')) -> Q tt G' k') ->
  safe n t Q G k (ioq_wait_while fuel ioq_empty Consumer k).
Proof.
  revert n G k. induction fuel as [|fuel IH]; intros n G k Hn Hl Ha Hid HG HQ.
  { replace n with 0%nat by lia. apply safe_0. }
  cbn [ioq_wait_while]. pose proof (ioq_empty_eq k (proj2 (proj2 Ha))) as He. kstep.
  case_bool_decide as Hne.
  2:{ eapply safe_Done; [apply guar_refl|]. by apply HQ; [|apply rely_refl|]. }
  eapply safe_bind; [by apply (safe_lock_acquire live n (S fuel) t false)|].
  intros n1 [] G1 k1 Hn1 (Ha1 & HG1 & Hl1 & Hr1).
  apply safe_ioq_wait; [done| |done|].
  { by eapply (rely_not_idle t G k (delete kbd_buf_lock G1)). }
  intros n2 G2 k2 Hn2 Ha2 Hr2.
  destruct (same_under_rely _ _ _ _ _ _ Hr2 HG1) as [HG2 Hl2]. rewrite Hl1 in Hl2.
  eapply safe_bind; [by apply (safe_lock_release live n2 t false)|].
  intros n3 [] G3 k3 Hn3 (Ha3 & Hr3).
  assert (Hr03 : rely t G k G3 k3).
  { eapply rely_trans; [exact (rely_chain _ _ _ _ _ _ _ _ Hr1 Hr2)|exact Hr3]. }
  apply IH; [lia|done|done|by eapply rely_not_idle| |].
  { destruct Hr03 as [_ Hr03]. by rewrite (proj1 (Hr03 kbd_buf_lock)). }
  intros G4 k4 Ha4 Hr4 Hq4. apply HQ; [done| |done]. by eapply rely_trans.
Qed.

Lemma safe_ioq_getchar n fuel t G k :
  (n <= fuel)%nat -> kbd_buf_lock ∈ live -> at_t t false G k -> t <> idle_thread (kt k) ->
  G !! kbd_buf_lock <> Some t ->
  safe n t (fun _ G' k' => at_t t false G' k' /\ rely t G k G' k') G k (ioq_getchar fuel k).
Proof.
  intros Hn Hl Ha Hid HG. unfold ioq_getchar.
  pose proof (ASSERT_INTR_OFF_eq k (proj2 (proj2 Ha))). kstep.
  eapply (safe_bind live n t _ (fun _ G' k' => at_t t false G' k' /\ rely t G k G' k' /\
    tail (kbd_buf (kdev k')) <> head (kbd_buf (kdev k')))).
  { apply safe_ioq_wait_while; [done..|]. intros G' k' Ha' Hr' Hq'. by split_and!. }
  intros n1 [] G1 k1 _ (Ha1 & Hr1 & Hne).
  pose proof (iv_kbd _ _ _ (proj1 Ha1)) as [Hwf Hp Hc].
  kstep. kstep. kstep. rewrite decide_False by (simpl; auto). kstep.
  destruct (at_t_ioq t false G1 k1 get_st Ha1) as (Ha2 & Hg2 & Hr2);
    [by apply get_contents|done|done|].
  eapply safe_Done; [exact Hg2|]. split; [done|]. by eapply rely_trans.
Qed.

(** A thread reads a character as the assertion of [ioq_getchar] demands:
    with interrupts off. *)
Lemma safe_getchar_call n fuel t G k :
  (n <= fuel)%nat -> kbd_buf_lock ∈ live -> at_t t true G k -> t <> idle_thread (kt k) ->
  G !! kbd_buf_lock <> Some t ->
  safe n t (fun _ G' k' => at_t t true G' k' /\ rely t G k G' k') G k
    (kirqsave (ioq_getchar fuel) k).
Proof.
  intros Hn Hl Ha Hid HG. unfold kirqsave. pose proof (on_mach_disable k) as Hd. kstep.
  rewrite (proj2 (proj2 Ha)). set (k0 := set_km _ k).
  assert (Ha0 : at_t t false G k0) by (eapply at_t_km; [done|apply irq_off_IF]).
  apply (safe_base live n t _ G k G k0); [apply guar_km|].
  eapply safe_bind; [by apply safe_ioq_getchar|].
  intros n1 c G1 k1 _ (Ha1 & Hr1).
  rewrite (kbind_Done _ _ _ _ _ (on_mach_set_status true k1)).
  eapply safe_Done; [apply guar_km|]. split; [eapply at_t_km; [done|apply set_if_IF]|].
  eapply rely_trans; [apply (rely_km t G k)|]. eapply rely_trans; [exact Hr1|apply rely_km].
Qed.
End kbd.
