(* ===== verification/System.v ===== *)
(** * Systems of threads and interrupts

    A configuration runs the computation of one thread; the others are
    suspended in [switch_to].  A thread that has finished a call makes
    another one that its program allows.  Where interrupts are enabled an
    interrupt may be taken.  The adequacy theorem: if every call and every
    handler is safe in the logic of SyncLogic, no run panics. *)
From S2P Require Import Prelude Machine Str Bitmap Paging Kernel Thread Timer Sync SyncLogic.
From S2P Require Import Console Threads Ioqueue Keyboard KbdLogic.

Record cfg := Cfg {
  thr : Z;                              (* the running thread *)
  tree : res unit;                      (* the rest of its call *)
  conts : gmap Z (kst -> res unit)      (* the suspended threads *)
}.

(** The processor clears the flag on the way into a handler ([kernel/kernel.S],
    interrupt gates) and [iret] sets it again. *)
Definition interrupt (h : K unit) : K unit :=
  kmod (fun k => set_km (irq_off (km k)) k);;
  h;;
  kmod (fun k => set_km (irq_on (km k)) k).

Section system.
Context (prog : Z -> K unit -> Prop) (handler : K unit -> Prop).

Inductive step : cfg -> cfg -> Prop :=
| step_call t k cs o :
    prog t o -> step (Cfg t (Done tt k) cs) (Cfg t (o k) cs)
| step_done_irq t k cs h :
    handler h -> step (Cfg t (Done tt k) cs) (Cfg t (interrupt h k) cs)
| step_go t k c cs : step (Cfg t (Window k c) cs) (Cfg t (c k) cs)
| step_irq t k c cs h :
    handler h ->
    step (Cfg t (Window k c) cs) (Cfg t ((interrupt h ≫= ((fun _ k' => Window k' c) : unit -> K unit)) k) cs)
| step_switch t k c cs u f :
    running (kt k) = u -> <[t := c]> cs !! u = Some f ->
    step (Cfg t (Switch k c) cs) (Cfg u (f k) (<[t := c]> cs)).

(** Neither a panic, nor out of fuel, nor a switch to a thread that does
    not exist. *)
Definition running_well (c : cfg) : Prop :=
  match tree c with
  | Done _ _ | Window _ _ => True
  | KPanic _ | KNoFuel => False
  | Switch k f => is_Some (<[thr c := f]> (conts c) !! running (kt k))
  end.

Context (live : gset lock_id) (idle : Z).
Local Abbreviation at_t := (at_t live).
Local Abbreviation safe := (safe live).

(** Between calls: interrupts on, no lock held. *)
Definition between (t : Z) (_ : unit) (G : owners) (k : kst) : Prop :=
  at_t t true G k /\ idle_thread (kt k) = idle /\ forall l, G !! l <> Some t.

Lemma between_rely t G k G' k' :
  between t tt G k -> at_t t true G' k' -> rely t G k G' k' -> between t tt G' k'.
Proof.
  intros (_ & Hid & HG) Ha [[Hid' _] Hl]. split_and!; [apply Ha..|congruence|].
  intros l. by rewrite (proj1 (Hl l)).
Qed.

Definition prog_ok (N : nat) : Prop := forall u o n G k,
  prog u o -> (n <= N)%nat -> between u tt G k -> safe n u (between u) G k (o k).
Definition handler_ok : Prop := forall h t n G k,
  handler h -> at_t t false G k ->
  safe n t (fun _ G' k' => at_t t false G' k' /\ rely t G k G' k') G k (h k).

Definition resumable (n : nat) (u : Z) (f : kst -> res unit) (G : owners) (k : kst) : Prop :=
  forall G' k', at_t u false G' k' -> rely u G k G' k' ->
    safe n u (between u) G' k' (f k').

Definition cfg_ok (n : nat) (c : cfg) : Prop := exists G k,
  safe n (thr c) (between (thr c)) G k (tree c) /\
  forall u, u <> thr c -> is_Some (tasks (kt k) !! u) ->
    exists f, conts c !! u = Some f /\ resumable n u f G k.

Lemma resumable_guar n m t u f G k G' k' :
  (m <= n)%nat -> u <> t -> guar t G k G' k' -> resumable n u f G k -> resumable m u f G' k'.
Proof.
  intros Hm Hu Hg Hf G2 k2 Ha Hr. eapply safe_mono; [exact Hm|]. apply Hf; [done|].
  eapply rely_trans; [|exact Hr]. by eapply guar_rely.
Qed.

Lemma suspended_guar n m t cs G k G' k' :
  (m <= n)%nat -> guar t G k G' k' ->
  (forall u, u <> t -> is_Some (tasks (kt k) !! u) ->
     exists f, cs !! u = Some f /\ resumable n u f G k) ->
  (forall u, u <> t -> is_Some (tasks (kt k') !! u) ->
     exists f, (cs : gmap Z (kst -> res unit)) !! u = Some f /\ resumable m u f G' k').
Proof.
  intros Hm Hg Hs u Hu Ht. destruct (Hs u Hu) as (f & Hf & Hres).
  - by apply Hg in Ht.
  - exists f. split; [done|]. by eapply resumable_guar.
Qed.

Lemma safe_interrupt n t G k h :
  handler_ok -> handler h -> at_t t true G k ->
  safe n t (fun _ G' k' => at_t t true G' k' /\ rely t G k G' k') G k (interrupt h k).
Proof.
  intros Hh Hhh Ha. unfold interrupt. kstep.
  apply (safe_base live n t _ G k G (set_km (irq_off (km k)) k)); [apply guar_km|].
  eapply safe_bind; [apply Hh; [done|]; eapply at_t_km; [done|apply irq_off_IF]|].
  intros n' _ G' k' _ (Ha' & Hr'). unfold kmod. eapply safe_Done; [apply guar_km|].
  split; [eapply at_t_km; [done|apply (set_if_IF true)]|].
  eapply rely_trans; [apply (rely_km t G k (irq_off (km k)))|].
  eapply rely_trans; [exact Hr'|apply rely_km].
Qed.

Lemma cfg_ok_step N n c c' :
  (n <= N)%nat -> prog_ok N -> handler_ok -> cfg_ok (S n) c -> step c c' -> cfg_ok n c'.
Proof.
  intros Hn Hp Hh (G0 & k0 & Hs & Hothers) Hstep.
  destruct Hstep as [t k cs o Ho|t k cs h Hhh|t k c cs|t k c cs h Hhh|t k c cs u f Hu Hf];
    simpl in *.
  - destruct Hs as (G & Hg & Hb). exists G, k. split; [by apply Hp|].
    eapply suspended_guar; [|done|done]; lia.
  - destruct Hs as (G & Hg & Ha & Hid & Hb). exists G, k. split.
    + eapply safe_conseq; [by apply safe_interrupt|]. intros [] G' k' (Ha' & Hr').
      eapply between_rely; [|exact Ha'|exact Hr']. by split.
    + eapply suspended_guar; [|done|done]; lia.
  - destruct Hs as (G & Hg & Ha & Hc). exists G, k. split; [by apply Hc, rely_refl|].
    eapply suspended_guar; [|done|done]; lia.
  - destruct Hs as (G & Hg & Ha & Hc). exists G, k. split.
    + eapply safe_bind; [by apply safe_interrupt|]. intros n' _ G' k' Hn' (Ha' & Hr').
      destruct n' as [|n']; [done|]. exists G'. split_and!; [apply guar_refl|done|].
      intros G2 k2 Ha2 Hr2. eapply safe_mono; [|apply Hc; [done|]]; [lia|].
      by eapply rely_trans.
    + eapply suspended_guar; [|done|done]; lia.
  - destruct Hs as (G & Hg & Hi & Hif & Hc). exists G, k.
    assert (Hall : forall v, is_Some (tasks (kt k) !! v) ->
              exists g, <[t := c]> cs !! v = Some g /\ resumable n v g G k).
    { intros v Hv. destruct (decide (v = t)) as [->|Hvt].
      - exists c. rewrite lookup_insert_eq. by split.
      - rewrite lookup_insert_ne by done. revert v Hvt Hv.
        eapply suspended_guar; [|done|done]; lia. }
    split.
    + destruct (Hall u) as (g & Hg1 & Hres).
      { subst u. apply (so_cur _ (proj1 (iv_sched _ _ _ Hi))). }
      rewrite Hf in Hg1. injection Hg1 as <-. apply Hres; [by split_and!|apply rely_refl].
    + intros v _ Hv. by apply Hall.
Qed.

Lemma cfg_ok_running n c : cfg_ok (S n) c -> running_well c.
Proof.
  intros (G0 & k0 & Hs & Hothers). unfold running_well. destruct c as [t r cs]. simpl in *.
  destruct r as [a k|s| |k c|k c]; try done.
  destruct Hs as (G & Hg & Hi & Hif & Hc).
  pose proof (so_cur _ (proj1 (iv_sched _ _ _ Hi))) as Hcur.
  destruct (decide (running (kt k) = t)) as [->|Hne]; [by rewrite lookup_insert_eq|].
  rewrite lookup_insert_ne by done. apply Hg in Hcur.
  destruct (Hothers _ Hne Hcur) as (f & -> & _). by eexists.
Qed.

(** Adequacy. *)
Lemma system_cfg_ok N m c c' :
  prog_ok N -> handler_ok -> cfg_ok N c -> nsteps step m c c' -> (m < N)%nat ->
  cfg_ok (N - m) c'.
Proof.
  intros Hp Hh Hc Hsteps Hm.
  assert (Hgen : forall m n0 c, (m < n0)%nat -> (n0 <= N)%nat -> cfg_ok n0 c ->
            nsteps step m c c' -> cfg_ok (n0 - m) c'); [|by apply (Hgen m N c)].
  clear m c Hc Hsteps Hm. intros m. induction m as [|m IH]; intros n0 c Hm Hle Hc Hsteps.
  - inversion Hsteps; subst. by rewrite Nat.sub_0_r.
  - inversion Hsteps as [|? ? c1 ? Hst Hsteps']; subst.
    destruct n0 as [|n0]; [lia|].
    replace (S n0 - S m)%nat with (n0 - m)%nat by lia.
    apply (IH n0 c1); [lia|lia| |done]. eapply cfg_ok_step; [|done..]. lia.
Qed.

Lemma system_safe N m c c' :
  prog_ok N -> handler_ok -> cfg_ok N c -> nsteps step m c c' -> (m < N)%nat ->
  running_well c'.
Proof.
  intros Hp Hh Hc Hsteps Hm. apply (cfg_ok_running (N - m - 1)).
  replace (S (N - m - 1)) with (N - m)%nat by lia. by apply (system_cfg_ok N m c).
Qed.
End system.

(** ** The kernel's threads *)

(** What a kernel thread of this system calls: [thread_yield],
    [mtime_sleep], the statement [pthread->pid = allocate_pid()] of
    [init_thread], the console's functions, [ioq_getchar] of the keyboard's
    queue; and what the idle thread does. *)
Inductive kernel_call (idle : Z) (fuel : nat) : Z -> K unit -> Prop :=
| call_yield t : kernel_call idle fuel t thread_yield
| call_sleep t ms : 0 < ms < 4294967287 -> kernel_call idle fuel t (mtime_sleep fuel ms)
| call_pid t : t <> idle ->
    kernel_call idle fuel t (p ← allocate_pid fuel; upd_task t (set_pid p))
| call_put_char t c : t <> idle -> kernel_call idle fuel t (console_put_char fuel c)
| call_put_int t n : t <> idle -> kernel_call idle fuel t (console_put_int fuel n)
| call_getchar t : t <> idle ->
    kernel_call idle fuel t (_ ← kirqsave (ioq_getchar fuel); mret tt)
| call_idle : kernel_call idle fuel idle idle_round.

(** The interrupts: the clock, and the keyboard with any byte. *)
Inductive kernel_handler (fuel : nat) : K unit -> Prop :=
| irq_clock : kernel_handler fuel intr_timer_handler
| irq_keyboard data : 0 <= data < 256 ->
    kernel_handler fuel (intr_keyboard_handler (S fuel) data).

(** A thread that has never run is about to enter [kernel_thread]. *)
Definition thread_entry : kst -> res unit := fun k => (on_mach intr_enable;; mret tt) k.

(** A configuration in which one thread runs with interrupts enabled, all
    others are new, and every lock of [live] is free. *)
Definition booted (live : gset lock_id) (idle : Z) (c : cfg) : Prop := exists k,
  tree c = Done tt k /\ at_t live (thr c) true ∅ k /\ idle_thread (kt k) = idle /\
  forall u, u <> thr c -> is_Some (tasks (kt k) !! u) -> conts c !! u = Some thread_entry.

Section kernel.
Context (live : gset lock_id) (idle : Z) (fuel : nat).
Hypothesis live_pid : pid_lock ∈ live.
Hypothesis live_console : console_lock ∈ live.
Hypothesis live_kbd : kbd_buf_lock ∈ live.

Lemma kernel_calls_ok : prog_ok (kernel_call idle fuel) live idle fuel.
Proof.
  intros u o n G k Ho Hn Hb. pose proof Hb as (Ha & Hid & HG).
  assert (Hend : forall r, safe live n u
              (fun _ G' k' => at_t live u true G' k' /\ rely u G k G' k') G k r ->
            safe live n u (between live idle u) G k r).
  { intros r Hr. eapply safe_conseq; [exact Hr|]. intros [] G' k' [Ha' Hr'].
    by eapply between_rely. }
  destruct Ho as [t|t ms Hms|t Ht|t c Ht|t m Ht|t Ht|]; apply Hend.
  - by apply safe_thread_yield.
  - by apply safe_mtime_sleep.
  - eapply safe_bind; [apply safe_allocate_pid; try done; by rewrite Hid|].
    intros n' p G' k' _ (Ha' & Hr').
    destruct (at_t_upd live t true G' k' (set_pid p)) as (Ha2 & Hg2 & Hr2); [done..|].
    eapply safe_Done; [exact Hg2|]. split; [done|]. by eapply rely_trans.
  - apply safe_console; try done; [by rewrite Hid|]. intros ma. eexists. apply put_char_eq.
  - apply safe_console; try done; [by rewrite Hid|]. intros ma. eexists. apply put_int_eq.
  - eapply safe_bind; [apply safe_getchar_call; try done; by rewrite Hid|].
    intros n' c G' k' _ (Ha' & Hr'). by eapply safe_Done; [apply guar_refl|].
  - by apply safe_idle_round.
Qed.

Lemma kernel_handlers_ok : handler_ok (kernel_handler fuel) live.
Proof.
  intros h t n G k [|data Hd] Ha; [by apply safe_timer|by apply safe_keyboard].
Qed.

Lemma booted_ok n c : booted live idle c -> cfg_ok live idle n c.
Proof.
  intros (k & Ht & Ha & Hid & Hc). exists ∅, k. rewrite Ht. split.
  - eapply safe_Done; [apply guar_refl|]. split_and!; [apply Ha..|done|]. done.
  - intros u Hu Htu. exists thread_entry. split; [by apply Hc|].
    intros G' k' Ha' Hr'. unfold thread_entry. 
    pose proof (on_mach_set_status true k' : on_mach intr_enable k' = _) as Hen.
    kstep. eapply safe_Done; [apply guar_km|]. split_and!.
    + eapply at_t_km; [done|apply (set_if_IF true)].
    + simpl. destruct Hr' as [[Hi _] _]. congruence.
    + intros l. destruct Hr' as [_ Hl]. by rewrite (proj1 (Hl l)).
Qed.
End kernel.

(** ** Running a configuration *)

(** A run is chosen by a list of moves: which call is made, where the clock
    interrupts, and otherwise the next step. *)
Inductive move := MYield | MPid | MGetchar | MIdle | MIrq | MKey (data : Z) | MGo.

Definition move_call (idle : Z) (fuel : nat) (t : Z) (mv : move) : option (K unit) :=
  match mv with
  | MYield => Some thread_yield
  | MPid => if decide (t = idle) then None
            else Some (p ← allocate_pid fuel; upd_task t (set_pid p))
  | MIdle => if decide (t = idle) then Some idle_round else None
  | MGetchar => if decide (t = idle) then None
                else Some (_ ← kirqsave (ioq_getchar fuel); mret tt)
  | MIrq | MKey _ | MGo => None
  end.

Definition move_irq (fuel : nat) (mv : move) : option (K unit) :=
  match mv with
  | MIrq => Some intr_timer_handler
  | MKey data => if decide (0 <= data < 256) then Some (intr_keyboard_handler (S fuel) data)
                 else None
  | _ => None
  end.

Definition move1 (idle : Z) (fuel : nat) (mv : move) (c : cfg) : option cfg :=
  match mv, tree c with
  | MIrq, Done _ k | MKey _, Done _ k =>
      h ← move_irq fuel mv; Some (Cfg (thr c) (interrupt h k) (conts c))
  | MIrq, Window k f | MKey _, Window k f =>
      h ← move_irq fuel mv;
      Some (Cfg (thr c) ((interrupt h ≫=
              ((fun _ k' => Window k' f) : unit -> K unit)) k) (conts c))
  | MGo, Window k f => Some (Cfg (thr c) (f k) (conts c))
  | MGo, Switch k f =>
      g ← <[thr c := f]> (conts c) !! running (kt k);
      Some (Cfg (running (kt k)) (g k) (<[thr c := f]> (conts c)))
  | _, Done _ k => o ← move_call idle fuel (thr c) mv; Some (Cfg (thr c) (o k) (conts c))
  | _, _ => None
  end.

Fixpoint run (idle : Z) (fuel : nat) (mvs : list move) (c : cfg) : option cfg :=
  match mvs with
  | [] => Some c
  | mv :: mvs => c' ← move1 idle fuel mv c; run idle fuel mvs c'
  end.

Abbreviation kernel_step idle fuel :=
  (step (kernel_call idle fuel) (kernel_handler fuel)).

Lemma move1_step idle fuel mv c c' :
  move1 idle fuel mv c = Some c' -> kernel_step idle fuel c c'.
Proof.
  destruct c as [t r cs]. unfold move1. simpl.
  assert (Hcall : forall k, (o ← move_call idle fuel t mv; Some (Cfg t (o k) cs)) = Some c' ->
            kernel_step idle fuel (Cfg t (Done tt k) cs) c').
  { intros k. destruct (move_call idle fuel t mv) as [o|] eqn:Eo; simpl; [|done].
    intros [= <-]. constructor. unfold move_call in Eo.
    destruct mv; repeat case_decide; simplify_eq; by constructor. }
  assert (Hirq : forall h, move_irq fuel mv = Some h -> kernel_handler fuel h).
  { intros h. destruct mv; simpl; repeat case_decide; intros; simplify_eq; by constructor. }
  destruct mv as [| | | | |data|]; destruct r as [[] k| | |k f|k f];
    try done; try (by apply Hcall).
  1-4: destruct (move_irq _ _) as [h|] eqn:Eh; simpl; [|done]; intros [= <-]; constructor;
    by apply Hirq.
  - simpl. destruct (<[t:=f]> cs !! running (kt k)) as [g|] eqn:Eg; simpl; [|done].
    intros [= <-]. by constructor.
  - intros [= <-]. by constructor.
Qed.

Lemma run_steps idle fuel mvs c c' :
  run idle fuel mvs c = Some c' -> nsteps (kernel_step idle fuel) (length mvs) c c'.
Proof.
  revert c. induction mvs as [|mv mvs IH]; intros c; simpl; [intros [= <-]; constructor|].
  destruct (move1 idle fuel mv c) as [c1|] eqn:E; simpl; [|done].
  intros H. econstructor; [by eapply move1_step|by apply IH].
Qed.

(** ** A booted system of three threads *)

Definition main_pcb : Z := 0xc009e000.
Definition idle_pcb : Z := 0xc0100000.
Definition work_pcb : Z := 0xc0101000.

(** A kernel thread as [init_thread] leaves it. *)
Definition kthread (t : Z) (st : task_status) (prio : Z) : task_struct :=
  Task (t + 4096) 0 st [] prio prio 0 [0; 1; 2; -1; -1; -1; -1; -1] 0
    (VirtualAddr (Bitmap 0 0) 0) STACK_MAGIC.

Definition demo_live : gset lock_id := {[ pid_lock; console_lock; kbd_buf_lock ]}.

Definition demo_kst : kst :=
  Kst (Mach ∅ 0x202 [] []) (Paging 0x100000 ∅) 0
    (ThreadSt {[ main_pcb := kthread main_pcb TASK_RUNING 1;
                 idle_pcb := kthread idle_pcb TASK_READY 1;
                 work_pcb := kthread work_pcb TASK_READY 1 ]}
       main_pcb [idle_pcb; work_pcb] [main_pcb; idle_pcb; work_pcb] main_pcb idle_pcb 0 (fun _ => 0))
    (SyncSt {[ lock_semaphore pid_lock := Sema 1 []; lock_semaphore console_lock := Sema 1 [];
              lock_semaphore kbd_buf_lock := Sema 1 [] ]} ∅)
    (MemSt (Pool (Bitmap 0 0) 0 0) (Pool (Bitmap 0 0) 0 0) (VirtualAddr (Bitmap 0 0) 0))
    (DevSt 0 (IOQueue 0 0 (replicate 64 0) 0 0) false false false false false).

Definition demo_cfg : cfg :=
  Cfg main_pcb (Done tt demo_kst) {[ idle_pcb := thread_entry; work_pcb := thread_entry ]}.

Lemma demo_tasks u tk :
  tasks (kt demo_kst) !! u = Some tk ->
  (u = main_pcb /\ tk = kthread main_pcb TASK_RUNING 1) \/
  (u = idle_pcb /\ tk = kthread idle_pcb TASK_READY 1) \/
  (u = work_pcb /\ tk = kthread work_pcb TASK_READY 1).
Proof.
  simpl. rewrite !lookup_insert. rewrite lookup_singleton.
  repeat case_decide; naive_solver.
Qed.

Lemma demo_booted : booted demo_live idle_pcb demo_cfg.
Proof.
  exists demo_kst. split_and!; [done|split_and!; [|done|done]|done|].
  - split.
    + split; [split|done].
      * apply NoDup_cons. split; [by intros ?%list_elem_of_singleton|apply NoDup_singleton].
      * intros t. change (thread_ready_list (kt demo_kst)) with [idle_pcb; work_pcb].
        unfold status_of. split.
        -- rewrite !elem_of_cons, elem_of_nil. intros [->|[->|[]]]; done.
        -- destruct (tasks (kt demo_kst) !! t) as [tk|] eqn:E; [|done].
           apply demo_tasks in E as [[-> ->]|[[-> ->]|[-> ->]]]; simpl; set_solver.
      * intros t. unfold status_of. destruct (tasks (kt demo_kst) !! t) as [tk|] eqn:E; [|done].
        by apply demo_tasks in E as [[-> ->]|[[-> ->]|[-> ->]]].
      * by eexists.
      * split; [by eexists|done].
      * done.
    + exists (fun d => d = 0x100000). split_and!; [done|done|]. intros t tk E.
      by apply demo_tasks in E as [[-> ->]|[[-> ->]|[-> ->]]].
    + intros t [tk E]. unfold task_at. rewrite E. simpl.
      by apply demo_tasks in E as [[-> ->]|[[-> ->]|[-> ->]]].
    + assert (Hw : forall i, waiters (sema_at (ks demo_kst) i) = []).
      { intros i. unfold sema_at. simpl. rewrite !lookup_insert, lookup_singleton.
        by repeat case_decide. }
      split; intros; [rewrite Hw; constructor|..]; by rewrite Hw, elem_of_nil in *.
    + intros t st _ Hst Hbl. unfold status_of in Hst.
      destruct (tasks (kt demo_kst) !! t) as [tk|] eqn:E; [|done]. injection Hst as <-.
      by apply demo_tasks in E as [[-> ->]|[[-> ->]|[-> ->]]].
    + intros l Hl. left. unfold demo_live in Hl.
      rewrite !elem_of_union, !elem_of_singleton in Hl. by destruct Hl as [[->| ->]| ->].
    + split; [by split|done|done].
  - intros u Hu [tk E]. apply demo_tasks in E as [[-> ->]|[[-> ->]|[-> ->]]]; done.
Qed.

Lemma run_exists idle fuel mvs c :
  match run idle fuel mvs c with Some _ => true | None => false end = true ->
  exists c', nsteps (kernel_step idle fuel) (length mvs) c c'.
Proof.
  destruct (run idle fuel mvs c) as [c'|] eqn:E; [|done]. intros _. exists c'.
  by apply run_steps.
Qed.

Lemma run_check idle fuel mvs c (P : kst -> bool) :
  match run idle fuel mvs c with
  | Some (Cfg _ (Done tt k) _) => P k
  | _ => false
  end = true ->
  exists c' k, nsteps (kernel_step idle fuel) (length mvs) c c' /\ tree c' = Done tt k /\ P k = true.
Proof.
  destruct (run idle fuel mvs c) as [[t [[] k| | | |] cs]|] eqn:E; try done. intros HP.
  eexists _, k. split_and!; [by apply run_steps|done|done].
Qed.

(** The same, with one more step. *)
Lemma run_check2 idle fuel mvs mv c (P Q : kst -> bool) :
  match run idle fuel mvs c with
  | Some (Cfg t (Done tt k) cs) =>
      P k && match move1 idle fuel mv (Cfg t (Done tt k) cs) with
             | Some (Cfg _ (Done tt k2) _) => Q k2
             | _ => false
             end
  | _ => false
  end = true ->
  exists c1 k1 c2 k2, nsteps (kernel_step idle fuel) (length mvs) c c1 /\ tree c1 = Done tt k1 /\
    P k1 = true /\ kernel_step idle fuel c1 c2 /\ tree c2 = Done tt k2 /\ Q k2 = true.
Proof.
  destruct (run idle fuel mvs c) as [[t [[] k| | | |] cs]|] eqn:E; try done.
  intros [HP HQ]%andb_prop.
  destruct (move1 idle fuel mv _) as [[t2 [[] k2| | | |] cs2]|] eqn:E2; try done.
  eexists _, k, _, k2. split_and!; [by apply run_steps|done|done|by eapply move1_step|done|done].
Qed.

(** The main thread allocates a pid up to the release of the lock; then the
    clock takes the processor away. *)
Lemma demo_run : exists c', nsteps (kernel_step idle_pcb 20) 16 demo_cfg c'.
Proof.
  apply (run_exists idle_pcb 20 ([MPid] ++ replicate 13 MGo ++ [MIrq; MIrq])).
  vm_compute. reflexivity.
Qed.

(** ** Theorems *)

(** C1: The kernel's threads under a clock that may interrupt wherever
    interrupts are enabled never panic, never run out of fuel and never
    switch to a thread that does not exist, in any run shorter than the
    fuel. *)
Theorem kernel_never_panics live idle fuel m c c' :
  pid_lock ∈ live -> console_lock ∈ live -> kbd_buf_lock ∈ live -> booted live idle c ->
  nsteps (kernel_step idle fuel) m c c' -> (m < fuel)%nat -> running_well c'.
Proof.
  intros Hp Hco Hk Hb Hsteps Hm.
  eapply (system_safe (kernel_call idle fuel) _ live idle fuel m c c');
    [by apply kernel_calls_ok|apply kernel_handlers_ok|by apply booted_ok|done|done].
Qed.

Lemma kernel_never_panics_witness :
  exists c', nsteps (kernel_step idle_pcb 20) 16 demo_cfg c' /\ running_well c'.
Proof.
  destruct demo_run as [c' Hs]. exists c'. split; [exact Hs|].
  apply (kernel_never_panics demo_live idle_pcb 20 16 demo_cfg c');
    [set_solver|set_solver|set_solver|exact demo_booted|exact Hs|lia].
Defined.



(** C38: [allocate_pid] returns a value it loads after releasing [pid_lock]: two
    threads can be given the same pid. *)
Theorem allocate_pid_race :
  exists n c' k, nsteps (kernel_step idle_pcb 40) n demo_cfg c' /\ tree c' = Done tt k /\
    pid (task_at (kt k) main_pcb) = 2 /\ pid (task_at (kt k) work_pcb) = 2.
Proof.
  destruct (run_check idle_pcb 40 ([MPid] ++ replicate 13 MGo ++
      [MIrq; MIrq; MGo; MIdle; MGo; MPid] ++ replicate 14 MGo ++ [MIrq; MIrq; MGo; MGo]) demo_cfg
      (fun k => (pid (task_at (kt k) main_pcb) =? 2) && (pid (task_at (kt k) work_pcb) =? 2)))
    as (c' & k & Hs & Ht & Hk); [vm_compute; reflexivity|].
  apply andb_prop in Hk as [Hm%Z.eqb_eq Hw%Z.eqb_eq]. eexists _, c', k. by split_and!.
Qed.

(** C39: A thread that waits for the queue's lock in [ioq_getchar] does not look
    at the queue again once it has the lock: it goes to sleep as the consumer,
    holding the lock, although a character is there, and the next key press
    wakes it beside two. *)
Theorem ioq_sleeps_beside_char :
  exists n c' k, nsteps (kernel_step idle_pcb 40) n demo_cfg c' /\ tree c' = Done tt k /\
    contents (kbd_buf (kdev k)) = [98] /\ consumer (kbd_buf (kdev k)) = work_pcb /\
    status (task_at (kt k) work_pcb) = TASK_BLOCKED /\
    lock_at (ks k) kbd_buf_lock = Lock work_pcb 1 /\
    exists c2 k2, kernel_step idle_pcb 40 c' c2 /\ tree c2 = Done tt k2 /\
      contents (kbd_buf (kdev k2)) = [98; 99] /\ consumer (kbd_buf (kdev k2)) = 0 /\
      status (task_at (kt k2) work_pcb) = TASK_READY.
Proof.
  destruct (run_check2 idle_pcb 40 [MGetchar; MGo; MIdle; MGo; MGetchar; MGo; MGo;
      MKey 0x1e; MKey 0x30; MIdle; MGo; MYield; MGo; MGo] (MKey 0x2e) demo_cfg
      (fun k => bool_decide ((contents (kbd_buf (kdev k)), consumer (kbd_buf (kdev k)),
                  status (task_at (kt k) work_pcb),
                  holder (lock_at (ks k) kbd_buf_lock), holder_repeat_nr (lock_at (ks k) kbd_buf_lock))
                  = ([98], work_pcb, TASK_BLOCKED, work_pcb, 1)))
      (fun k => bool_decide ((contents (kbd_buf (kdev k)), consumer (kbd_buf (kdev k)),
                  status (task_at (kt k) work_pcb)) = ([98; 99], 0, TASK_READY))))
    as (c1 & k1 & c2 & k2 & Hs & Ht & Hk%bool_decide_eq_true & Hs2 & Ht2 & Hk2%bool_decide_eq_true);
    [vm_compute; reflexivity|].
  injection Hk as H1 H2 H3 H4 H5. injection Hk2 as G1 G2 G3.
  eexists _, c1, k1. split_and!; try done.
  - destruct (lock_at (ks k1) kbd_buf_lock). simpl in *. congruence.
  - exists c2, k2. by split_and!.
Qed.

(** C5: [schedule], called with interrupts off, implements the policy: the
    running thread goes to the end of the ready list with a new time slice, an
    empty list is refilled with the idle thread, the first thread runs next;
    it runs under its own page directory and enters the kernel on top of its
    own PCB's page if it is a process, under the kernel's directory otherwise;
    the thread that goes leaves its stack pointer in [self_kstack]; control
    leaves through [switch_to] and [schedule] returns as soon as the thread is
    switched back. *)
Theorem schedule_refines k :
  sched_ok (kt k) -> IF (km k) = false -> dirs_ok (tasks (kt k)) (kp k) ->
  let th := sched_step (kt k) in
  let next := task_at th (running th) in
  exists d e0, schedule k =
    Switch (set_esp0 e0 (set_kp (Paging d (pwords (kp k))) (set_kt th k))) (fun k' => Done tt k') /\
    sched_inv th /\ dirs_ok (tasks th) (Paging d (pwords (kp k))) /\
    (pgdir next = 0 -> d = 0x100000 /\ e0 = tss_esp0 k) /\
    (pgdir next <> 0 -> addr_v2p (pgdir next) (kp k) = Ok (d, kp k) /\
       e0 = u32 (running th + PG_SIZE)).
Proof.
  intros Hok Hi Hd th next. destruct (schedule_run k Hok Hi Hd) as (d & e0 & Hs & Ha & Hd').
  exists d, e0. split; [done|]. split; [by apply sched_step_inv|]. split; [done|].
  unfold activated in Ha. cbn [kt set_kt kp tss_esp0] in Ha. fold th in Ha. fold next in Ha.
  by destruct (decide (pgdir next = 0)); split.
Qed.

Lemma demo_at : at_t demo_live main_pcb true ∅ demo_kst.
Proof. destruct demo_booted as (k & [= <-] & Ha & _). exact Ha. Qed.

(** Interrupts off, and the first ready thread a process: its directory at
    0x210000, reached through the kernel's and through itself. *)
Definition demo_process : thread_st :=
  upd_task_st work_pcb (set_pgdir 0xc0200000) (set_ready [work_pcb; idle_pcb] (kt demo_kst)).
Definition demo_words : gmap Z Z :=
  {[ 0x100000 + 4 * 768 := 0x101007; 0x100000 + 4 * 1023 := 0x100007;
     0x101000 + 4 * 512 := 0x210007;
     0x210000 + 4 * 768 := 0x101007; 0x210000 + 4 * 1023 := 0x210007 ]}.
Definition demo_off : kst :=
  set_km (Mach ∅ 2 [] []) (set_kp (Paging 0x100000 demo_words) (set_kt demo_process demo_kst)).

Lemma demo_off_sched : sched_ok (kt demo_off).
Proof.
  pose proof (iv_sched _ _ _ (proj1 demo_at)) as Hs.
  apply (sched_inv_upd work_pcb (set_pgdir 0xc0200000)); [by eexists|done|].
  destruct Hs as [[Hnd Hrd Hrun Hcur Hidle Hnull] Hst]. split; [|exact Hst]. split; try done.
  - apply NoDup_cons. split; [by intros ?%list_elem_of_singleton|apply NoDup_singleton].
  - intros t. change (status_of (set_ready ?l ?x)) with (status_of x). rewrite <- Hrd.
    change (thread_ready_list (kt demo_kst)) with [idle_pcb; work_pcb]. simpl. set_solver.
Qed.

Lemma demo_off_dirs : dirs_ok (tasks (kt demo_off)) (kp demo_off).
Proof.
  exists (fun d => d = 0x100000 \/ d = 0x210000). split_and!; [by left|by left|].
  intros t tk E Hpg. exists 0x210000. split; [by right|]. intros d Hd.
  assert (Htk : pgdir tk = 0xc0200000).
  { change (tasks (kt demo_off)) with (<[work_pcb := set_pgdir 0xc0200000 (kthread work_pcb TASK_READY 1)]> (tasks (kt demo_kst))) in E.
    rewrite lookup_insert in E. case_decide; [by injection E as <-|].
    by apply demo_tasks in E as [[-> ->]|[[-> ->]|[-> ->]]]. }
  rewrite Htk. destruct Hd as [-> | ->]; vm_compute; reflexivity.
Qed.

Lemma schedule_refines_witness :
  exists d e0, schedule demo_off =
    Switch (set_esp0 e0 (set_kp (Paging d demo_words) (set_kt (sched_step demo_process) demo_off)))
      (fun k' => Done tt k') /\
    running (sched_step demo_process) = work_pcb /\
    addr_v2p 0xc0200000 (kp demo_off) = Ok (d, kp demo_off) /\ e0 = work_pcb + 4096.
Proof.
  destruct (schedule_refines demo_off demo_off_sched) as (d & e0 & Hs & _ & _ & _ & Ha);
    [reflexivity|exact demo_off_dirs|].
  exists d, e0. split; [exact Hs|]. split; [reflexivity|]. apply Ha. discriminate.
Defined.

(** C6: Code between [lock_acquire] and [lock_release] of one lock, safe while it
    owns the lock, is safe as a whole; the lock is free of the thread again
    afterwards, and while the code is suspended nobody changes what the lock
    protects. *)
Theorem lock_section live n fuel t G k l (body : K unit) :
  (n <= fuel)%nat -> l ∈ live -> at_t live t true G k -> t <> idle_thread (kt k) ->
  G !! l <> Some t ->
  (forall n' G' k', (n' <= n)%nat -> acquired live t true l 1 G k G' k' ->
     safe live n' t (fun _ G2 k2 => acquired live t true l 1 G k G2 k2) G' k' (body k')) ->
  safe live n t (fun _ G' k' => at_t live t true G' k' /\ rely t G k G' k') G k
    ((lock_acquire fuel l;; body;; lock_release l) k).
Proof. apply safe_critical. Qed.

Lemma lock_section_witness :
  safe demo_live 9 main_pcb (fun _ G' k' => at_t demo_live main_pcb true G' k' /\
      rely main_pcb ∅ demo_kst G' k') ∅ demo_kst
    ((lock_acquire 9 console_lock;; on_mach (put_char 97);; lock_release console_lock) demo_kst).
Proof.
  apply (lock_section demo_live 9 9 main_pcb ∅ demo_kst console_lock (on_mach (put_char 97)));
    [lia|set_solver|exact demo_at|done|done|].
  intros n' G' k' _ Ha. by eapply safe_print.
Defined.

(** The holder may acquire its lock again: the lock counts, and releasing
    undoes the acquisition. *)
Theorem lock_reentrant live n fuel t b G k l m :
  l ∈ live -> at_t live t b G k -> G !! l = Some t -> lock_at (ks k) l = Lock t m ->
  1 <= m < 4294967295 ->
  safe live n t (fun _ G' k' => at_t live t b G' k' /\ G' !! l = Some t /\
      lock_at (ks k') l = Lock t m) G k
    ((lock_acquire fuel l;; lock_release l) k).
Proof.
  intros Hl Ha HG Hlk Hm.
  eapply safe_bind; [apply (safe_lock_reacquire live n fuel t b G k l m); try done; lia|].
  intros n' [] G1 k1 _ (Ha1 & HG1 & Hl1 & Hr1).
  eapply safe_conseq;
    [apply (safe_lock_release_nested live n' t b G1 k1 l (m + 1)); try done; lia|].
  intros [] G2 k2 (Ha2 & HG2 & Hl2 & Hr2). split; [done|]. split; [done|].
  rewrite Hl2. f_equal. lia.
Qed.

(** The main thread holding the console's lock. *)
Definition demo_held : kst :=
  set_ks (upd_lock_st console_lock (fun _ => Lock main_pcb 1)
    (upd_sema_st (lock_semaphore console_lock) (set_value 0) (ks demo_kst))) demo_kst.

Lemma demo_held_at : at_t demo_live main_pcb true (<[console_lock := main_pcb]> ∅) demo_held.
Proof.
  pose proof demo_at as Ha.
  destruct (take_lock demo_live main_pcb true ∅ demo_kst console_lock) as (Ha1 & _ & _ & _ & _);
    [set_solver|exact Ha|done|].
  destruct (own_update demo_live main_pcb true _ _ console_lock (fun _ => Lock main_pcb 1)
    ltac:(set_solver) Ha1 (lookup_insert_eq _ _ _)) as (Ha2 & _); [by constructor|]. exact Ha2.
Qed.

Lemma lock_reentrant_witness :
  safe demo_live 9 main_pcb (fun _ G' k' => at_t demo_live main_pcb true G' k' /\
      G' !! console_lock = Some main_pcb /\ lock_at (ks k') console_lock = Lock main_pcb 1)
    (<[console_lock := main_pcb]> ∅) demo_held
    ((lock_acquire 9 console_lock;; lock_release console_lock) demo_held).
Proof.
  apply (lock_reentrant demo_live 9 9 main_pcb true _ demo_held console_lock 1);
    [set_solver|exact demo_held_at|apply lookup_insert_eq|reflexivity|lia].
Defined.
