(* ===== verification/Memory.v ===== *)
(** * Page allocation: [kernel/memory.c]

    The physical pools, the virtual address pools and the functions that
    allocate, map, unmap and free whole pages.  They run on the part of the
    kernel state they use, [vm]; the kernel heap's data are the flat memory
    of Machine at the kernel's virtual addresses. *)
From S2P Require Import Prelude Machine Str Bitmap Paging Kernel Thread Sync Console.

Inductive pool_flags := PF_KERNEL | PF_USER.
#[export] Instance pool_flags_eq_dec : EqDecision pool_flags.
Proof. solve_decision. Defined.

(** What the memory functions work on: memory, page tables, pools, and the
    PCB of the running thread. *)
Record vm := Vm {
  vmach : mach;
  vpg : paging;
  vmem : mem_st;
  vcur : task_struct
}.

Definition set_vmach (m : mach) (s : vm) : vm := Vm m (vpg s) (vmem s) (vcur s).
Definition set_vpg (p : paging) (s : vm) : vm := Vm (vmach s) p (vmem s) (vcur s).
Definition set_vmem (v : mem_st) (s : vm) : vm := Vm (vmach s) (vpg s) v (vcur s).

Definition vlift {S A} (get : vm -> S) (put : S -> vm -> vm) (m : M S A) : M vm A :=
  fun s => match m (get s) with
           | Ok (a, x) => Ok (a, put x s)
           | Panic c => Panic c
           | NoFuel => NoFuel
           end.
Definition on_m {A} : M mach A -> M vm A := vlift vmach set_vmach.
Definition on_p {A} : M paging A -> M vm A := vlift vpg set_vpg.

(** The running thread's view in a kernel computation. *)
Definition vm_of (k : kst) : vm := Vm (km k) (kp k) (kmem k) (task_at (kt k) (running (kt k))).
Definition vm_put (s : vm) (k : kst) : kst :=
  Kst (vmach s) (vpg s) (tss_esp0 k) (upd_task_st (running (kt k)) (fun _ => vcur s) (kt k))
    (ks k) (vmem s) (kdev k).
Definition on_vm {A} : M vm A -> K A := lift vm_of vm_put.

(** ** Pools *)

Definition get_pool (pf : pool_flags) : M vm pool :=
  gets (fun s => match pf with PF_KERNEL => kernel_pool (vmem s) | PF_USER => user_pool (vmem s) end).

(** [palloc]: the physical address of a page of the pool, or [NULL]. *)
Definition palloc (m_pool : pool_flags) : M vm Z :=
  p ← get_pool m_pool;
  bit_idx ← on_m (bitmap_scan (pool_bitmap p) 1);
  if decide (bit_idx = -1) then mret 0
  else
    on_m (bitmap_set (pool_bitmap p) bit_idx 1);;
    mret (u32 (phy_addr_start p + bit_idx * PG_SIZE)).

(** [while (cnt < pg_cnt) bitmap_set(b, start + cnt++, v);] *)
Fixpoint set_run (n : nat) (b : bitmap) (i v : Z) : M mach unit :=
  match n with
  | O => mret tt
  | S n => bitmap_set b i v;; set_run n b (i + 1) v
  end.

(** The virtual address pool [pf] names. *)
Definition get_vaddr (pf : pool_flags) : M vm virtual_addr :=
  gets (fun s => match pf with
                 | PF_KERNEL => kernel_vaddr (vmem s)
                 | PF_USER => userprog_vaddr (vcur s)
                 end).

Definition vaddr_get (pf : pool_flags) (pg_cnt : Z) : M vm Z :=
  va ← get_vaddr pf;
  bit_idx_start ← on_m (bitmap_scan (vaddr_bitmap va) pg_cnt);
  if decide (bit_idx_start = -1) then mret 0
  else
    on_m (set_run (Z.to_nat pg_cnt) (vaddr_bitmap va) bit_idx_start 1);;
    mret (u32 (vaddr_start va + bit_idx_start * PG_SIZE)).

(** ** Page tables *)

Definition page_table_add (vaddr page_phyaddr : Z) : M vm unit :=
  let pde := pde_ptr vaddr in
  let pte := pte_ptr vaddr in
  e ← on_p (vload32 pde);
  if decide (Z.land e 1 <> 0) then
    t ← on_p (vload32 pte);
    ASSERT (bool_decide (Z.land t 1 = 0)) "!(*pte & 0x00000001)";;
    on_p (vstore32 pte (entry page_phyaddr))
  else
    pde_phyaddr ← palloc PF_KERNEL;
    on_p (vstore32 pde (entry pde_phyaddr));;
    on_p (vmemset_words 1024 (Z.land pte 0xfffff000));;
    t ← on_p (vload32 pte);
    ASSERT (bool_decide (Z.land t 1 = 0)) "!(*pte & 0x00000001)";;
    on_p (vstore32 pte (entry page_phyaddr)).

(** The loop of [malloc_page]: [false] when the pool is exhausted. *)
Fixpoint map_pages (n : nat) (pf : pool_flags) (vaddr : Z) : M vm bool :=
  match n with
  | O => mret true
  | S n =>
      page_phyaddr ← palloc pf;
      if decide (page_phyaddr = 0) then mret false
      else page_table_add vaddr page_phyaddr;; map_pages n pf (u32 (vaddr + PG_SIZE))
  end.

Definition malloc_page (pf : pool_flags) (pg_cnt : Z) : M vm Z :=
  ASSERT (bool_decide (pg_cnt > 0 /\ pg_cnt < 3840)) "pg_cnt > 0 && pg_cnt < 3840";;
  vaddr_start ← vaddr_get pf pg_cnt;
  if decide (vaddr_start = 0) then mret 0
  else
    ok ← map_pages (Z.to_nat pg_cnt) pf vaddr_start;
    mret (if (ok : bool) then vaddr_start else 0).

(** [memset] of [pg_cnt] pages, where the allocation succeeded. *)
Definition zero_pages (vaddr pg_cnt : Z) : M vm unit :=
  if decide (vaddr <> 0) then on_m (memset vaddr 0 (u32 (pg_cnt * PG_SIZE))) else mret tt.

Definition get_kernel_pages (pg_cnt : Z) : M vm Z :=
  vaddr ← malloc_page PF_KERNEL pg_cnt;
  zero_pages vaddr pg_cnt;;
  mret vaddr.

Definition get_user_pages (fuel : nat) (pg_cnt : Z) : K Z :=
  lock_acquire fuel user_pool_lock;;
  vaddr ← on_vm (malloc_page PF_USER pg_cnt);
  on_vm (zero_pages vaddr pg_cnt);;
  lock_release user_pool_lock;;
  mret vaddr.

Definition pool_lock (pf : pool_flags) : lock_id :=
  match pf with PF_KERNEL => kernel_pool_lock | PF_USER => user_pool_lock end.

(** The marking of [get_a_page]'s page in the virtual pool. *)
Definition mark_page (pf : pool_flags) (vaddr : Z) : M vm unit :=
  va ← get_vaddr pf;
  let bit_idx := i32 (u32 (vaddr - vaddr_start va) / PG_SIZE) in
  ASSERT (bool_decide (bit_idx > 0)) "bit_idx > 0";;
  on_m (bitmap_set (vaddr_bitmap va) bit_idx 1).

(** [get_a_page] keeps the pool's lock when the pool is exhausted. *)
Definition get_a_page (fuel : nat) (pf : pool_flags) (vaddr : Z) : K Z :=
  lock_acquire fuel (pool_lock pf);;
  cur ← kget (fun k => task_at (kt k) (running (kt k)));
  (if decide (pgdir cur <> 0 /\ pf = PF_USER) then on_vm (mark_page PF_USER vaddr)
   else if decide (pgdir cur = 0 /\ pf = PF_KERNEL) then on_vm (mark_page PF_KERNEL vaddr)
   else kpanic "get_a_page:not allowed kernel allocing userspace or user allocing kernelspace by get_a_page");;
  page_phyaddr ← on_vm (palloc pf);
  if decide (page_phyaddr = 0) then mret 0
  else
    on_vm (page_table_add vaddr page_phyaddr);;
    lock_release (pool_lock pf);;
    mret vaddr.

(** ** Freeing *)

Definition pfree (page_phy_addr : Z) : M vm unit :=
  up ← get_pool PF_USER;
  kp ← get_pool PF_KERNEL;
  let p := if decide (page_phy_addr >= phy_addr_start up) then up else kp in
  let bit_idx := u32 (page_phy_addr - phy_addr_start p) / PG_SIZE in
  on_m (bitmap_set (pool_bitmap p) bit_idx 0).

Definition vaddr_remove (pf : pool_flags) (vaddr pg_cnt : Z) : M vm unit :=
  va ← get_vaddr pf;
  let bit_idx_start := u32 (vaddr - vaddr_start va) / PG_SIZE in
  on_m (set_run (Z.to_nat pg_cnt) (vaddr_bitmap va) bit_idx_start 0).

(** The two loops of [mfree_page]; [in_pool] is the loop's assertion. *)
Fixpoint unmap_pages (n : nat) (in_pool : Z -> bool) (msg : string) (vaddr : Z) : M vm unit :=
  match n with
  | O => mret tt
  | S n =>
      page_phy_addr ← on_p (addr_v2p vaddr);
      ASSERT (bool_decide (page_phy_addr mod PG_SIZE = 0) && in_pool page_phy_addr) msg;;
      pfree page_phy_addr;;
      on_p (page_table_pte_remove vaddr);;
      unmap_pages n in_pool msg (u32 (vaddr + PG_SIZE))
  end.

Definition mfree_page (pf : pool_flags) (vaddr pg_cnt : Z) : M vm unit :=
  ASSERT (bool_decide (pg_cnt >= 1) && bool_decide (vaddr mod PG_SIZE = 0))
    "pg_cnt >= 1 && vaddr % PG_SIZE == 0";;
  page_phy_addr ← on_p (addr_v2p vaddr);
  ASSERT (bool_decide (page_phy_addr mod PG_SIZE = 0) && bool_decide (page_phy_addr >= 0x102000))
    "(page_phy_addr % PG_SIZE) == 0 && page_phy_addr >= 0x102000";;
  up ← get_pool PF_USER;
  kp ← get_pool PF_KERNEL;
  (if decide (page_phy_addr >= phy_addr_start up) then
     unmap_pages (Z.to_nat pg_cnt)
       (fun p => bool_decide (p >= phy_addr_start up))
       "(page_phy_addr % PG_SIZE) == 0 && page_phy_addr >= user_pool.phy_addr_start" vaddr
   else
     unmap_pages (Z.to_nat pg_cnt)
       (fun p => bool_decide (p >= phy_addr_start kp) && bool_decide (p < phy_addr_start up))
       "(page_phy_addr % PG_SIZE) == 0 && page_phy_addr >= kernel_pool.phy_addr_start && page_phy_addr < user_pool.phy_addr_start"
       vaddr);;
  vaddr_remove pf vaddr pg_cnt.

(** ** Initialisation *)

Definition MEM_BITMAP_BASE : Z := 0xc009a000.
Definition K_HEAP_START : Z := 0xc0100000.

Definition mem_pool_init (all_mem : Z) : K unit :=
  on_mach (put_line "    mem_pool_init start");;
  let page_table_size := PG_SIZE * (1 + 1 + 254) in
  let used_mem := page_table_size + 0x100000 in
  let free_mem := u32 (all_mem - used_mem) in
  let all_free_pages := u16 (free_mem / PG_SIZE) in
  let kernel_free_pages := u16 (all_free_pages / 2) in
  let user_free_pages := u16 (all_free_pages - kernel_free_pages) in
  let kbm_length := kernel_free_pages / 8 in
  let ubm_length := user_free_pages / 8 in
  let kp_start := used_mem in
  let up_start := u32 (kp_start + kernel_free_pages * PG_SIZE) in
  let kpool := Pool (Bitmap kbm_length MEM_BITMAP_BASE) kp_start (kernel_free_pages * PG_SIZE) in
  let upool := Pool (Bitmap ubm_length (MEM_BITMAP_BASE + kbm_length)) up_start
                 (user_free_pages * PG_SIZE) in
  kmod (fun k => set_kmem (MemSt kpool upool (kernel_vaddr (kmem k))) k);;
  on_mach (put_lit "        kernel_pool.bitmap_start:";;
           put_int (bits (pool_bitmap kpool));;
           put_lit "kernel_pool.phy_addr_start:";;
           put_int (phy_addr_start kpool);;
           put_line "";;
           put_lit "        user_pool.bitmap_start:";;
           put_int (bits (pool_bitmap upool));;
           put_lit "user_pool.phy_addr_start:";;
           put_int (phy_addr_start upool);;
           put_line "");;
  on_mach (bitmap_init (pool_bitmap kpool));;
  on_mach (bitmap_init (pool_bitmap upool));;
  lock_init kernel_pool_lock;;
  lock_init user_pool_lock;;
  let kvaddr := VirtualAddr (Bitmap kbm_length (MEM_BITMAP_BASE + kbm_length + ubm_length))
                  K_HEAP_START in
  kmod (fun k => set_kmem (MemSt (kernel_pool (kmem k)) (user_pool (kmem k)) kvaddr) k);;
  on_mach (bitmap_init (vaddr_bitmap kvaddr));;
  on_mach (put_line "    mem_pool_init done").
