(* ===== verification/PageHeap.v ===== *)
(** * The kernel's page heap

    What [malloc_page] and [mfree_page] of [kernel/memory.c] promise for
    [PF_KERNEL]: the invariant that ties the two bitmaps to the page tables,
    and the effect of the functions on the set of mapped pages. *)
From S2P Require Import Prelude Machine Str Bitmap Paging Kernel Thread Sync Console Memory.

(** ** Sections of a bitmap *)

Lemma set_run_spec n b i v m :
  0 <= i -> v = 0 \/ v = 1 ->
  exists r', set_run n b i v m = Ok (tt, set_ram r' m) /\
    (forall j, 0 <= j -> rbit r' (bits b) j =
       if decide (i <= j < i + Z.of_nat n) then bool_decide (v = 1) else rbit (ram m) (bits b) j) /\
    agree (fun a => ~ (bits b + i / 8 <= a <= bits b + (i + Z.of_nat n - 1) / 8)) (ram m) r'.
Proof.
  intros Hi Hv. revert i m Hi. induction n as [|n IH]; intros i m Hi.
  - exists (ram m). split_and!; [by destruct m| |done].
    intros j Hj. rewrite decide_False by lia. done.
  - cbn [set_run]. rewrite (bind_Ok _ _ _ _ _ (bitmap_set_eq b i v m Hv)).
    destruct (IH (i + 1) (set_ram (ram_set_bit (ram m) (bits b) i (bool_decide (v = 1))) m))
      as (r' & -> & Hr & Hag); [lia|]. exists r'. split_and!; [done| |].
    + intros j Hj. rewrite Hr by done. simpl. rewrite rbit_set by done.
      repeat case_decide; lia || done.
    + intros a Ha. rewrite Hag.
      * simpl. apply ram_set_bit_agree. intros ->. apply Ha.
        pose proof (Z.div_le_mono i (i + Z.of_nat (S n) - 1) 8). lia.
      * pose proof (Z.div_le_mono i (i + 1) 8).
        replace (i + 1 + Z.of_nat n - 1) with (i + Z.of_nat (S n) - 1) by lia. lia.
Qed.

Lemma rbit_outside (P : Z -> Prop) r r' base len i :
  agree P r r' -> (forall a, base <= a < base + len -> P a) -> 0 <= i < 8 * len ->
  rbit r' base i = rbit r base i.
Proof.
  intros Hag HP Hi. eapply rbit_agree; [exact Hag|]. apply HP. Z.div_mod_to_equations; lia.
Qed.

(** [bitmap_scan] finds a run inside the bitmap when there is one. *)
Lemma bitmap_scan_found b m cnt q :
  bitmap_wf b -> 1 <= cnt < 2147483648 -> 0 <= q -> q + cnt <= 8 * btmp_bytes_len b ->
  free_run (rbit (ram m) (bits b)) q cnt ->
  exists r, bitmap_scan b cnt m = Ok (r, m) /\ 0 <= r /\ r + cnt <= 8 * btmp_bytes_len b /\
    free_run (rbit (ram m) (bits b)) r cnt /\
    (forall p, 0 <= p -> free_run (rbit (ram m) (bits b)) p cnt -> r <= p).
Proof.
  intros Hwf Hc Hq Hqe Hrun.
  destruct (bitmap_scan_spec b m cnt Hwf Hc) as (r & Hr & Hres).
  { exists q. split; [lia|]. apply Hrun. lia. }
  exists r. split; [done|]. destruct Hres as [[_ Hno]|(Hr0 & _ & Hfr & Hfirst)].
  - destruct (Hno q Hq); [lia|done].
  - assert (Hle : forall p, 0 <= p -> free_run (rbit (ram m) (bits b)) p cnt -> r <= p).
    { intros p Hp Hpr. destruct (decide (r <= p)); [done|]. destruct (Hfirst p); [lia|done]. }
    split_and!; try done. specialize (Hle q Hq Hrun). lia.
Qed.

(** ** The heap *)

Section view.
Context (s : vm).

Definition kbm : bitmap := pool_bitmap (kernel_pool (vmem s)).
Definition vbm : bitmap := vaddr_bitmap (kernel_vaddr (vmem s)).
Definition nframes : Z := 8 * btmp_bytes_len kbm.
Definition npages : Z := 8 * btmp_bytes_len vbm.
(** Is the frame, the page allocated; addresses of both. *)
Definition kbit (f : Z) : bool := rbit (ram (vmach s)) (bits kbm) f.
Definition vbit (i : Z) : bool := rbit (ram (vmach s)) (bits vbm) i.
Definition frame_addr (f : Z) : Z := phy_addr_start (kernel_pool (vmem s)) + 4096 * f.
Definition page_addr (i : Z) : Z := vaddr_start (kernel_vaddr (vmem s)) + 4096 * i.
(** The page-table entry of a heap page. *)
Definition hpte (i : Z) : Z := pte (vpg s) (page_addr i).
End view.

(** The invariant; [pend i]: page [i] is marked in the bitmap and not mapped
    (yet, or any more). *)
Record kheap_pend (pend : Z -> Prop) (s : vm) : Prop := {
  kh_kwf : bitmap_wf (kbm s);
  kh_vwf : bitmap_wf (vbm s);
  kh_sep : bits (kbm s) + btmp_bytes_len (kbm s) <= bits (vbm s) \/
           bits (vbm s) + btmp_bytes_len (vbm s) <= bits (kbm s);
  kh_frames : 0x102000 <= frame_addr s 0 /\ frame_addr s 0 mod 4096 = 0 /\
              frame_addr s (nframes s) <= phy_addr_start (user_pool (vmem s)) < 4294967296;
  kh_pages : 0 < page_addr s 0 /\ page_addr s 0 mod 4096 = 0 /\
             page_addr s (npages s) <= 0xffc00000;
  kh_tables : tables_ok (vpg s);
  kh_pde : forall i, 0 <= i < npages s -> present (pde (vpg s) (page_addr s i)) = true;
  kh_slots : forall i j, 0 <= i < npages s -> 0 <= j < npages s ->
    pte_word (vpg s) (page_addr s i) = pte_word (vpg s) (page_addr s j) -> i = j;
  kh_clear : forall i, 0 <= i < npages s -> vbit s i = false \/ pend i ->
    present (hpte s i) = false;
  kh_set : forall i, 0 <= i < npages s -> vbit s i = true -> ~ pend i ->
    present (hpte s i) = true /\
    exists f, 0 <= f < nframes s /\ frame (hpte s i) = frame_addr s f /\ kbit s f = true;
  kh_inj : forall i j, 0 <= i < npages s -> 0 <= j < npages s ->
    present (hpte s i) = true -> present (hpte s j) = true ->
    frame (hpte s i) = frame (hpte s j) -> i = j
}.

Definition kheap : vm -> Prop := kheap_pend (fun _ => False).

(** What an operation on the heap leaves alone: all but the bytes of the two
    bitmaps and the entries of the heap's pages. *)
Record heap_frame (s s' : vm) : Prop := {
  hf_mem : vmem s' = vmem s;
  hf_cur : vcur s' = vcur s;
  hf_cr3 : cr3 (vpg s') = cr3 (vpg s);
  hf_pde : forall u, vaddr_ok u -> pde (vpg s') u = pde (vpg s) u;
  hf_mach : vmach s' = set_ram (ram (vmach s')) (vmach s);
  hf_ram : agree (fun a => ~ (bits (kbm s) <= a < bits (kbm s) + btmp_bytes_len (kbm s)) /\
                           ~ (bits (vbm s) <= a < bits (vbm s) + btmp_bytes_len (vbm s)))
             (ram (vmach s)) (ram (vmach s'));
  hf_words : forall w,
    (forall i, 0 <= i < npages s -> vaddr_ok (page_addr s i) ->
       w <> pte_word (vpg s) (page_addr s i)) ->
    pread (vpg s') w = pread (vpg s) w
}.

Lemma heap_frame_refl s : heap_frame s s.
Proof. split; try done. by destruct s as [[] ? ? ?]. Qed.

Lemma heap_frame_trans s1 s2 s3 : heap_frame s1 s2 -> heap_frame s2 s3 -> heap_frame s1 s3.
Proof.
  intros [H1 H2 H3 Hp H4 H5 H6] [G1 G2 G3 Gp G4 G5 G6]. split; [congruence..| | | |].
  - intros u Hu. rewrite Gp by done. by apply Hp.
  - rewrite G4. rewrite H4. done.
  - unfold kbm, vbm in *. rewrite H1 in G5. by transitivity (ram (vmach s2)).
  - intros w Hw. rewrite G6, H6; [done|done|]. unfold npages, vbm, page_addr in *. rewrite H1.
    intros i Hi Hv. unfold pte_word. rewrite Hp by done. by apply Hw.
Qed.

Lemma heap_frame_views s s' : heap_frame s s' ->
  kbm s' = kbm s /\ vbm s' = vbm s /\ nframes s' = nframes s /\ npages s' = npages s /\
  (forall f, frame_addr s' f = frame_addr s f) /\ (forall i, page_addr s' i = page_addr s i).
Proof. intros [H _ _ _ _ _ _]. unfold nframes, npages, frame_addr, page_addr, kbm, vbm. by rewrite H. Qed.

(** ** Facts about addresses *)

Section facts.
Context (pend : Z -> Prop) (s : vm) (H : kheap_pend pend s).

Lemma page_addr_ok i : 0 <= i < npages s ->
  vaddr_ok (page_addr s i) /\ dir_index (page_addr s i) < 1023 /\
  page_addr s i mod 4096 = 0 /\ 0 < page_addr s i.
Proof.
  intros Hi. destruct (kh_pages _ _ H) as (Hp & Ha & He). unfold page_addr in *.
  unfold vaddr_ok, dir_index. split_and!; [lia|lia| | |lia]; Z.div_mod_to_equations; lia.
Qed.

Lemma frame_addr_ok f : 0 <= f < nframes s -> frame_ok (frame_addr s f) /\ 0 < frame_addr s f.
Proof.
  intros Hf. destruct (kh_frames _ _ H) as (Hp & Ha & He). unfold frame_addr in *.
  unfold frame_ok. split_and!; [lia|lia| |lia]. Z.div_mod_to_equations; lia.
Qed.

Lemma hpte_other i j e : 0 <= i < npages s -> 0 <= j < npages s ->
  let pg' := pwrite (vpg s) (pte_word (vpg s) (page_addr s i)) e in
  pte pg' (page_addr s j) = if decide (j = i) then u32 e else hpte s j.
Proof.
  intros Hi Hj pg'. destruct (page_addr_ok i Hi) as (Hv & Hd & _).
  destruct (page_addr_ok j Hj) as (Hv' & _).
  assert (Hpde : pde pg' (page_addr s j) = pde (vpg s) (page_addr s j)).
  { apply store_pte_pde; try done; [apply (kh_tables _ _ H)|by apply (kh_pde _ _ H)]. }
  unfold pte at 1, pte_word at 1. rewrite Hpde. fold (pte_word (vpg s) (page_addr s j)).
  subst pg'. rewrite pread_pwrite. unfold hpte.
  case_decide as E; case_decide as E'; [done| |by subst|done].
  destruct E'. symmetry. by apply (kh_slots _ _ H).
Qed.
End facts.

(** ** Steps *)

Lemma vlift_Ok {S A} (get : vm -> S) put (m : M S A) s a x :
  m (get s) = Ok (a, x) -> vlift get put m s = Ok (a, put x s).
Proof. unfold vlift. by intros ->. Qed.

Lemma on_m_Ok {A} (m : M mach A) s a x :
  m (vmach s) = Ok (a, x) -> on_m m s = Ok (a, set_vmach x s).
Proof. apply (vlift_Ok vmach set_vmach). Qed.

Lemma on_p_Ok {A} (m : M paging A) s a x :
  m (vpg s) = Ok (a, x) -> on_p m s = Ok (a, set_vpg x s).
Proof. apply (vlift_Ok vpg set_vpg). Qed.

Lemma set_ram_id m : set_ram (ram m) m = m.
Proof. by destruct m. Qed.

(** A state that differs in memory only. *)
Definition with_ram (r : gmap Z Z) (s : vm) : vm := set_vmach (set_ram r (vmach s)) s.

Lemma set_vmach_id s : set_vmach (vmach s) s = s.
Proof. by destruct s. Qed.
Lemma set_vpg_id s : set_vpg (vpg s) s = s.
Proof. by destruct s. Qed.

Definition pool_of (pf : pool_flags) (s : vm) : pool :=
  match pf with PF_KERNEL => kernel_pool (vmem s) | PF_USER => user_pool (vmem s) end.

(** A pool with a clear bit gives the frame of one. *)
Lemma palloc_pool pf s q :
  let p := pool_of pf s in let b := pool_bitmap p in
  bitmap_wf b -> 0 <= q < 8 * btmp_bytes_len b -> rbit (ram (vmach s)) (bits b) q = false ->
  0 <= phy_addr_start p -> phy_addr_start p + 4096 * (8 * btmp_bytes_len b) <= 4294967296 ->
  exists f, palloc pf s = Ok (phy_addr_start p + 4096 * f,
                              with_ram (ram_set_bit (ram (vmach s)) (bits b) f true) s) /\
    0 <= f < 8 * btmp_bytes_len b /\ rbit (ram (vmach s)) (bits b) f = false.
Proof.
  intros p b Hwf Hq Hqf H0 Htop.
  destruct (bitmap_scan_found b (vmach s) 1 q) as (f & Hr & Hr0 & Hre & Hrun & _); [done|lia|lia|lia| |].
  { intros i Hi. by replace i with q by lia. }
  exists f. split; [|split; [lia|apply Hrun; lia]].
  unfold palloc. mstep. change (match pf with PF_KERNEL => _ | PF_USER => _ end) with p. fold b.
  rewrite (bind_Ok _ _ _ _ _ (on_m_Ok _ _ _ _ Hr)). rewrite decide_False by lia. rewrite set_vmach_id.
  rewrite (bind_Ok _ _ _ _ _ (on_m_Ok _ _ _ _ (bitmap_set_eq _ f 1 _ (or_intror eq_refl)))).
  apply Ok_val. unfold PG_SIZE. rewrite u32_id; lia.
Qed.

Section steps.
Context (pend : Z -> Prop) (s : vm) (H : kheap_pend pend s).

(** Changing frame bits only. *)
Lemma frame_bit_heap f b : 0 <= f < nframes s ->
  let s' := with_ram (ram_set_bit (ram (vmach s)) (bits (kbm s)) f b) s in
  heap_frame s s' /\
  (forall j, 0 <= j -> kbit s' j = if decide (j = f) then b else kbit s j) /\
  (forall i, 0 <= i < npages s -> vbit s' i = vbit s i).
Proof.
  intros Hf s'. pose proof (ram_set_bit_agree (ram (vmach s)) (bits (kbm s)) f b) as Hag.
  unfold nframes in Hf. split_and!.
  - split; try done. intros a Ha. apply Hag. intros ->. apply (proj1 Ha).
    Z.div_mod_to_equations; lia.
  - intros j Hj. unfold kbit. simpl.
    change (bits (kbm s')) with (bits (kbm s)). rewrite rbit_set by lia.
    by rewrite (decide_ext (f = j) (j = f)).
  - intros i Hi. unfold vbit. eapply rbit_outside; [exact Hag| |exact Hi].
    intros a Ha E. destruct (kh_sep _ _ H); Z.div_mod_to_equations; lia.
Qed.

Lemma palloc_spec :
  (exists f, 0 <= f < nframes s /\ kbit s f = false) ->
  exists f r', palloc PF_KERNEL s = Ok (frame_addr s f, with_ram r' s) /\
    0 <= f < nframes s /\ kbit s f = false /\
    heap_frame s (with_ram r' s) /\
    (forall j, 0 <= j -> kbit (with_ram r' s) j = if decide (j = f) then true else kbit s j) /\
    (forall i, 0 <= i < npages s -> vbit (with_ram r' s) i = vbit s i).
Proof.
  intros (q & Hq & Hqf).
  destruct (palloc_pool PF_KERNEL s q (kh_kwf _ _ H) Hq Hqf) as (f & Hp & Hf & Hff).
  - destruct (kh_frames _ _ H) as (H0 & _ & _). unfold frame_addr in H0. cbn [pool_of]. lia.
  - destruct (kh_frames _ _ H) as (H0 & _ & H1). unfold frame_addr, nframes, kbm in *. cbn [pool_of]. lia.
  - exists f, (ram_set_bit (ram (vmach s)) (bits (kbm s)) f true). split; [exact Hp|].
    split; [exact Hf|]. split; [exact Hff|by apply frame_bit_heap].
Qed.

(** Finding and marking a run of pages. *)
Lemma vaddr_get_spec cnt q :
  1 <= cnt < 2147483648 -> 0 <= q -> q + cnt <= npages s -> free_run (vbit s) q cnt ->
  exists i r', vaddr_get PF_KERNEL cnt s = Ok (page_addr s i, with_ram r' s) /\
    0 <= i /\ i + cnt <= npages s /\ free_run (vbit s) i cnt /\
    (forall p, 0 <= p -> free_run (vbit s) p cnt -> i <= p) /\
    heap_frame s (with_ram r' s) /\
    (forall j, 0 <= j -> vbit (with_ram r' s) j =
       if decide (i <= j < i + cnt) then true else vbit s j) /\
    (forall f, 0 <= f < nframes s -> kbit (with_ram r' s) f = kbit s f).
Proof.
  intros Hc Hq Hqe Hrun.
  destruct (bitmap_scan_found (vbm s) (vmach s) cnt q (kh_vwf _ _ H)) as (i & Hi & Hi0 & Hie & Hir & Hfst);
    [done..|].
  destruct (set_run_spec (Z.to_nat cnt) (vbm s) i 1 (vmach s) Hi0) as (r' & Hset & Hbits & Hag);
    [by right|]. rewrite Z2Nat.id in Hbits, Hag by lia.
  assert (Hin : forall a, bits (vbm s) + i / 8 <= a <= bits (vbm s) + (i + cnt - 1) / 8 ->
            bits (vbm s) <= a < bits (vbm s) + btmp_bytes_len (vbm s)).
  { intros a Ha. Z.div_mod_to_equations; lia. }
  exists i, r'. split_and!; try done.
  - unfold vaddr_get. mstep. rewrite (bind_Ok _ _ _ _ _ (on_m_Ok _ _ _ _ Hi)).
    rewrite decide_False by lia. rewrite set_vmach_id.
    rewrite (bind_Ok _ _ _ _ _ (on_m_Ok _ _ _ _ Hset)).
    apply Ok_val. destruct (page_addr_ok _ _ H i) as [Hok _]; [unfold npages; lia|].
    unfold page_addr, vaddr_ok, PG_SIZE in *. rewrite u32_id; lia.
  - split; try done. intros a [_ Ha]. apply Hag. intros Hx. by apply Ha, Hin.
  - intros f Hf. unfold kbit. eapply rbit_outside; [exact Hag| |exact Hf].
    intros a Ha Hx%Hin. destruct (kh_sep _ _ H); lia.
Qed.
End steps.

Lemma land1_present e : Z.land e 1 = if present e then 1 else 0.
Proof.
  unfold present. rewrite Z.bit0_odd. change 1 with (Z.ones 1) at 1.
  rewrite Z.land_ones by lia. apply Zmod_odd.
Qed.

(** [page_table_add] where the page table exists. *)
Lemma page_table_add_eq v phy s :
  vaddr_ok v -> tables_ok (vpg s) -> present (pde (vpg s) v) = true ->
  present (pte (vpg s) v) = false ->
  page_table_add v phy s =
  Ok (tt, set_vpg (pwrite (vpg s) (pte_word (vpg s) v) (entry phy)) s).
Proof.
  intros Hv [Hrec _] Hp Hnp. unfold page_table_add.
  rewrite (bind_Ok _ _ _ _ _ (on_p_Ok _ _ _ _ (vload_pde_eq _ v Hv Hrec))).
  rewrite set_vpg_id. rewrite land1_present, Hp. rewrite decide_True by done.
  rewrite (bind_Ok _ _ _ _ _ (on_p_Ok _ _ _ _ (vload_pte_eq _ v Hv Hrec Hp))).
  rewrite set_vpg_id, land1_present, Hnp. mstep.
  rewrite (on_p_Ok _ _ _ _ (vstore_pte_eq _ v (entry phy) Hv Hrec Hp)). done.
Qed.

(** ** Counting free frames *)

Definition clear_bits (g : Z -> bool) (n : Z) : list Z := filter (fun f => g f = false) (seqZ 0 n).
Definition nfree (s : vm) : nat := length (clear_bits (kbit s) (nframes s)).

Lemma filter_same (g g' : Z -> bool) (l : list Z) :
  (forall x, x ∈ l -> g' x = g x) ->
  filter (fun x => g x = false) l = filter (fun x => g' x = false) l.
Proof.
  induction l as [|x l IH]; intros Hs; [done|]. rewrite !filter_cons, (Hs x) by set_solver.
  rewrite IH; [done|]. intros y Hy. apply Hs. set_solver.
Qed.

Lemma filter_set (g g' : Z -> bool) f (l : list Z) :
  NoDup l -> f ∈ l -> g f = false -> g' f = true -> (forall x, x ∈ l -> x <> f -> g' x = g x) ->
  length (filter (fun x => g x = false) l) = S (length (filter (fun x => g' x = false) l)).
Proof.
  induction l as [|x l IH]; intros Hnd Hf Hg Hg' Hs; [by apply elem_of_nil in Hf|].
  apply NoDup_cons in Hnd as [Hx Hnd]. rewrite !filter_cons. apply elem_of_cons in Hf as [<-|Hf].
  - rewrite decide_True by done. rewrite decide_False by congruence. simpl. f_equal. f_equal.
    apply filter_same. intros y Hy. apply Hs; [set_solver|congruence].
  - assert (Hxf : x <> f) by (by intros ->). rewrite (Hs x) by set_solver.
    case_decide; simpl; rewrite IH; auto; intros y Hy; apply Hs; set_solver.
Qed.

Lemma nfree_pos s : (0 < nfree s)%nat -> exists f, 0 <= f < nframes s /\ kbit s f = false.
Proof.
  unfold nfree, clear_bits. intros Hn.
  destruct (filter _ _) as [|f l] eqn:E; simpl in Hn; [lia|].
  assert (Hf : f ∈ filter (fun f => kbit s f = false) (seqZ 0 (nframes s))) by (rewrite E; set_solver).
  apply list_elem_of_filter in Hf as [Hf Hin%elem_of_seqZ]. exists f. split; [lia|done].
Qed.

Lemma nfree_take s s' f :
  nframes s' = nframes s -> 0 <= f < nframes s -> kbit s f = false -> kbit s' f = true ->
  (forall j, 0 <= j < nframes s -> j <> f -> kbit s' j = kbit s j) -> nfree s = S (nfree s').
Proof.
  intros Hn Hf H1 H2 H3. unfold nfree, clear_bits. rewrite Hn.
  apply (filter_set (kbit s) (kbit s') f); [apply NoDup_seqZ|apply elem_of_seqZ; lia|done|done|].
  intros x Hx%elem_of_seqZ. apply H3. lia.
Qed.

(** ** Moves of the invariant *)

(** Bits change, the page tables do not. *)
Lemma kheap_bits (pend pend' : Z -> Prop) s s' :
  kheap_pend pend s -> heap_frame s s' -> vpg s' = vpg s ->
  (forall i, 0 <= i < npages s -> vbit s' i = false \/ pend' i -> vbit s i = false \/ pend i) ->
  (forall i, 0 <= i < npages s -> vbit s' i = true -> ~ pend' i -> vbit s i = true /\ ~ pend i) ->
  (forall i f, 0 <= i < npages s -> 0 <= f < nframes s -> vbit s' i = true -> ~ pend' i ->
     frame (hpte s i) = frame_addr s f -> kbit s f = true -> kbit s' f = true) ->
  kheap_pend pend' s'.
Proof.
  intros [H1 H2 H3 H4 H5 H6 H7 H8 H9 H10 H11] Hfr Hpg Hc Hs Hk.
  destruct (heap_frame_views _ _ Hfr) as (Ek & Ev & En & Ep & Ef & Ea).
  assert (Eh : forall i, hpte s' i = hpte s i) by (intros i; unfold hpte; by rewrite Hpg, Ea).
  split; rewrite ?Ek, ?Ev, ?En, ?Ep, ?Ef, ?Ea, ?Hpg; try done.
  - by rewrite (hf_mem _ _ Hfr).
  - intros i Hi. rewrite Ea. by apply H7.
  - intros i j. rewrite !Ea. apply H8.
  - intros i Hi Hx. rewrite Eh. apply H9; [done|]. by apply Hc.
  - intros i Hi Hx Hy. destruct (Hs i Hi Hx Hy) as [Hx' Hy']. rewrite Eh.
    destruct (H10 i Hi Hx' Hy') as (Hp & f & Hf & Hfa & Hkf). split; [done|].
    exists f. rewrite Ef. split; [done|]. split; [done|]. by apply (Hk i f).
  - intros i j. rewrite !Eh. apply H11.
Qed.

Lemma kheap_pend_ext (pend pend' : Z -> Prop) s :
  (forall i, 0 <= i < npages s -> pend i <-> pend' i) -> kheap_pend pend s -> kheap_pend pend' s.
Proof.
  intros He H. apply (kheap_bits pend pend' s s); [done|apply heap_frame_refl|done|..].
  - intros i Hi. rewrite He by done. tauto.
  - intros i Hi. rewrite He by done. tauto.
  - done.
Qed.

(** A present entry belongs to an allocated page. *)
Lemma present_allocated pend s i :
  kheap_pend pend s -> 0 <= i < npages s -> present (hpte s i) = true ->
  exists f, 0 <= f < nframes s /\ frame (hpte s i) = frame_addr s f /\ kbit s f = true.
Proof.
  intros H Hi Hp. destruct (vbit s i) eqn:Hv.
  - apply (kh_set _ _ H i Hi Hv). intros Hpd. rewrite (kh_clear _ _ H i Hi) in Hp by auto. done.
  - rewrite (kh_clear _ _ H i Hi) in Hp by auto. done.
Qed.

Lemma frame_addr_inj s f g : frame_addr s f = frame_addr s g -> f = g.
Proof. unfold frame_addr. lia. Qed.

Section entry_moves.
Context (pend : Z -> Prop) (s : vm) (H : kheap_pend pend s) (i : Z).
Context (Hi : 0 <= i < npages s) (Hv : vbit s i = true).

Definition with_pte (e : Z) : vm :=
  set_vpg (pwrite (vpg s) (pte_word (vpg s) (page_addr s i)) e) s.

Lemma with_pte_frame e : heap_frame s (with_pte e).
Proof.
  destruct (page_addr_ok _ _ H i Hi) as (Hva & Hd & _).
  split; try done; [|symmetry; apply set_ram_id|].
  - intros u Hu. apply store_pte_pde; [apply H|done|done|by apply (kh_pde _ _ H)|done].
  - intros w Hw. cbn [vpg with_pte set_vpg]. rewrite pread_pwrite, decide_False; [done|].
    intros E. by apply (Hw i Hi Hva).
Qed.

Lemma with_pte_hpte e j : 0 <= j < npages s ->
  hpte (with_pte e) j = if decide (j = i) then u32 e else hpte s j.
Proof. intros Hj. by apply (hpte_other pend s H i j e Hi Hj). Qed.

Lemma with_pte_pde e j : 0 <= j < npages s ->
  pde (vpg (with_pte e)) (page_addr s j) = pde (vpg s) (page_addr s j).
Proof.
  intros Hj. destruct (page_addr_ok _ _ H j Hj) as (Hvj & _).
  destruct (page_addr_ok _ _ H i Hi) as (Hva & Hd & _).
  apply store_pte_pde; [apply H|done|done|by apply (kh_pde _ _ H)|done].
Qed.

Lemma with_pte_slot e j : 0 <= j < npages s ->
  pte_word (vpg (with_pte e)) (page_addr (with_pte e) j) = pte_word (vpg s) (page_addr s j).
Proof.
  intros Hj. unfold pte_word. change (page_addr (with_pte e) j) with (page_addr s j).
  by rewrite with_pte_pde.
Qed.

(** Mapping a page to a frame that no page is mapped to. *)
Lemma kheap_map f :
  pend i -> 0 <= f < nframes s -> kbit s f = true ->
  (forall j, 0 <= j < npages s -> present (hpte s j) = true -> frame (hpte s j) <> frame_addr s f) ->
  kheap_pend (fun j => pend j /\ j <> i) (with_pte (entry (frame_addr s f))).
Proof.
  intros Hpi Hf Hk Hnew. destruct (frame_addr_ok _ _ H f Hf) as [Hfok _].
  destruct (entry_spec _ Hfok) as (He1 & He2 & He3).
  destruct (page_addr_ok _ _ H i Hi) as (Hva & Hd & _).
  pose proof (kh_pde _ _ H i Hi) as Hpde.
  pose proof (fun j Hj => with_pte_hpte (entry (frame_addr s f)) j Hj) as Hh.
  split; try apply H.
  - by apply store_pte_tables_ok; [apply H|..].
  - intros j Hj. destruct (page_addr_ok _ _ H j Hj) as (Hvj & _).
    etransitivity; [|exact (kh_pde _ _ H j Hj)]. f_equal. by apply with_pte_pde.
  - intros j k Hj Hk'. rewrite !with_pte_slot by done. by apply (kh_slots _ _ H).
  - intros j Hj Hx. rewrite Hh by done. case_decide as E.
    + subst j. destruct Hx as [Hx|[_ Hx]]; [|done].
      change (vbit s i = false) in Hx. congruence.
    + apply (kh_clear _ _ H j Hj). destruct Hx as [Hx|[Hx _]]; [by left|by right].
  - intros j Hj Hx Hy. rewrite Hh by done. case_decide as E.
    + rewrite He1, He3. split; [done|]. by exists f.
    + apply (kh_set _ _ H j Hj); [done|]. tauto.
  - intros j k Hj Hk'. rewrite !Hh by done. repeat case_decide; subst; try done.
    + rewrite He1, He3. intros _ Hpk Hfk. symmetry in Hfk. by destruct (Hnew k Hk' Hpk).
    + rewrite He1, He3. intros Hpj _ Hfj. by destruct (Hnew j Hj Hpj).
    + by apply (kh_inj _ _ H).
Qed.

(** Unmapping a page. *)
Lemma kheap_unmap e :
  present (u32 e) = false -> kheap_pend (fun j => pend j \/ j = i) (with_pte e).
Proof.
  intros He. destruct (page_addr_ok _ _ H i Hi) as (Hva & Hd & _).
  pose proof (kh_pde _ _ H i Hi) as Hpde.
  pose proof (fun j Hj => with_pte_hpte e j Hj) as Hh.
  split; try apply H.
  - by apply store_pte_tables_ok; [apply H|..].
  - intros j Hj. destruct (page_addr_ok _ _ H j Hj) as (Hvj & _).
    etransitivity; [|exact (kh_pde _ _ H j Hj)]. f_equal. by apply with_pte_pde.
  - intros j k Hj Hk'. rewrite !with_pte_slot by done. by apply (kh_slots _ _ H).
  - intros j Hj Hx. rewrite Hh by done. case_decide as E; [done|].
    apply (kh_clear _ _ H j Hj). destruct Hx as [Hx|[Hx|Hx]]; [by left|by right|done].
  - intros j Hj Hx Hy. rewrite Hh by done. rewrite decide_False by tauto.
    apply (kh_set _ _ H j Hj); [done|]. tauto.
  - intros j k Hj Hk'. rewrite !Hh by done. repeat case_decide; subst; try congruence.
    by apply (kh_inj _ _ H).
Qed.
End entry_moves.

(** ** [malloc_page] *)

(** The pages [i .. i+n-1] of [s'] are mapped to frames free in [s]; other
    pages are as in [s]; exactly those frames became used. *)
Record mapped_run (s s' : vm) (i n : Z) : Prop := {
  mr_frame : heap_frame s s';
  mr_other : forall j, 0 <= j < npages s -> ~ (i <= j < i + n) -> hpte s' j = hpte s j;
  mr_new : forall j, i <= j < i + n -> exists f, 0 <= f < nframes s /\ kbit s f = false /\
             frame (hpte s' j) = frame_addr s f;
  mr_used : forall f, 0 <= f < nframes s ->
    kbit s' f = true <->
    kbit s f = true \/ exists j, i <= j < i + n /\ frame (hpte s' j) = frame_addr s f;
  mr_vbit : forall j, 0 <= j < npages s -> vbit s' j = vbit s j;
  mr_nfree : Z.of_nat (nfree s) = n + Z.of_nat (nfree s')
}.

Definition run_of (i n : Z) : Z -> Prop := fun j => i <= j < i + n.

Lemma map_one s i n :
  kheap_pend (run_of i (n + 1)) s -> 0 <= i -> 0 <= n -> i + n + 1 <= npages s ->
  (forall j, run_of i (n + 1) j -> vbit s j = true) -> (0 < nfree s)%nat ->
  exists f s1, palloc PF_KERNEL s = Ok (frame_addr s f, s1) /\ 0 <= f < nframes s /\
    page_table_add (page_addr s i) (frame_addr s f) s1 =
      Ok (tt, with_pte s1 i (entry (frame_addr s f))) /\
    kheap_pend (run_of (i + 1) n) (with_pte s1 i (entry (frame_addr s f))) /\
    mapped_run s (with_pte s1 i (entry (frame_addr s f))) i 1 /\
    nfree s = S (nfree (with_pte s1 i (entry (frame_addr s f)))).
Proof.
  intros H Hi Hn Hin Hvb Hfree.
  destruct (palloc_spec _ s H (nfree_pos s Hfree)) as (f & r' & Hpa & Hf & Hkf & Hfr & Hk & Hvv).
  set (s1 := with_ram r' s) in *. exists f, s1. split; [done|]. split; [done|].
  assert (Hpr : run_of i (n + 1) i) by (unfold run_of; lia).
  assert (Hir : 0 <= i < npages s) by lia.
  assert (H1 : kheap_pend (run_of i (n + 1)) s1).
  { apply (kheap_bits (run_of i (n + 1)) _ s); try done.
    - intros j Hj. by rewrite Hvv.
    - intros j Hj. rewrite Hvv by done. tauto.
    - intros j g Hj Hg _ _ _ Hkg. rewrite Hk by lia. by case_decide. }
  assert (Hi1 : 0 <= i < npages s1) by exact Hir.
  assert (Hv1 : vbit s1 i = true) by (rewrite Hvv by done; by apply Hvb).
  assert (Hk1 : kbit s1 f = true) by (rewrite Hk by lia; by rewrite decide_True).
  assert (Hnew : forall j, 0 <= j < npages s1 -> present (hpte s1 j) = true ->
            frame (hpte s1 j) <> frame_addr s1 f).
  { intros j Hj Hp Hfa. destruct (present_allocated _ s j H Hj Hp) as (g & Hg & Hga & Hkg).
    change (frame (hpte s j) = frame_addr s f) in Hfa. rewrite Hga in Hfa. apply frame_addr_inj in Hfa. congruence. }
  pose proof (kheap_map _ s1 H1 i Hi1 Hv1 f Hpr Hf Hk1 Hnew) as H2.
  destruct (page_addr_ok _ _ H1 i Hi1) as (Hva & Hd & _).
  assert (Hnf : nfree s = S (nfree (with_pte s1 i (entry (frame_addr s f))))).
  { apply (nfree_take s _ f); [done|done|done|exact Hk1|].
    intros j Hj Hne. change (kbit s1 j = kbit s j). rewrite Hk by lia. by rewrite decide_False. }
  split_and!; [| | |done].
  - apply (page_table_add_eq (page_addr s1 i)); [done|apply H1|by apply (kh_pde _ _ H1)|].
    apply (kh_clear _ _ H1 i Hi1). by right.
  - eapply kheap_pend_ext; [|exact H2]. intros j _. unfold run_of. lia.
  - destruct (frame_addr_ok _ _ H1 f Hf) as [Hfok _]. destruct (entry_spec _ Hfok) as (He1 & _ & He3).
    split; [| | | | |rewrite Hnf; lia].
    + eapply heap_frame_trans; [exact Hfr|]. by apply (with_pte_frame _ _ H1).
    + intros j Hj Hne. rewrite (with_pte_hpte _ s1 H1 i Hi1) by done. by rewrite decide_False by lia.
    + intros j Hj. exists f. split; [done|]. split; [done|].
      rewrite (with_pte_hpte _ s1 H1 i Hi1) by (change (npages s1) with (npages s); lia).
      rewrite decide_True by lia. change (frame_addr s1 f) with (frame_addr s f) in *. by rewrite He1, He3.
    + intros g Hg. change (kbit (with_pte s1 i (entry (frame_addr s f))) g) with (kbit s1 g).
      assert (Hfi : frame (hpte (with_pte s1 i (entry (frame_addr s f))) i) = frame_addr s f).
      { rewrite (with_pte_hpte _ s1 H1 i Hi1) by done. rewrite decide_True by done.
        change (frame_addr s1 f) with (frame_addr s f) in *. by rewrite He1, He3. }
      rewrite Hk by lia. case_decide as E.
      * subst g. split; [|done]. intros _. right. exists i. split; [lia|done].
      * split; [by left|]. intros [?|(j & Hj & Hfj)]; [done|].
        replace j with i in Hfj by lia. rewrite Hfi in Hfj. by apply frame_addr_inj in Hfj.
    + exact Hvv.
Qed.

Lemma mapped_run_app s s1 s2 i n :
  mapped_run s s1 i 1 -> mapped_run s1 s2 (i + 1) n -> 0 <= i -> 0 <= n -> i + n + 1 <= npages s ->
  mapped_run s s2 i (n + 1).
Proof.
  intros [F1 O1 N1 U1 V1 L1] [F2 O2 N2 U2 V2 L2] Hi Hn Hin.
  destruct (heap_frame_views _ _ F1) as (Ek & Ev & En & Ep & Ef & Ea).
  rewrite En, ?Ep in *. split.
  - by eapply heap_frame_trans.
  - intros j Hj Hne. rewrite O2 by lia. apply O1; lia.
  - intros j Hj. destruct (decide (j = i)) as [->|Hji].
    + destruct (N1 i) as (f & Hf & Hk & Hfr); [lia|]. exists f. split; [done|]. split; [done|].
      by rewrite O2 by lia.
    + destruct (N2 j) as (f & Hf & Hk & Hfr); [lia|]. exists f. split; [done|].
      split; [|by rewrite Hfr, Ef]. destruct (kbit s f) eqn:E; [|done].
      assert (kbit s1 f = true); [|congruence]. apply U1; [done|]. by left.
  - intros f Hf. rewrite U2, U1 by done. rewrite Ef. split.
    + intros [[Hk|(j & Hj & Hfr)]|(j & Hj & Hfr)]; [by left|right|right].
      * exists j. split; [lia|]. by rewrite O2 by lia.
      * exists j. split; [lia|done].
    + intros [Hk|(j & Hj & Hfr)]; [left; by left|]. destruct (decide (j = i)) as [->|Hji].
      * left. right. exists i. split; [lia|]. by rewrite <- O2 by lia.
      * right. exists j. split; [lia|done].
  - intros j Hj. rewrite V2 by done. by apply V1.
  - lia.
Qed.

Lemma map_pages_spec n s i :
  kheap_pend (run_of i (Z.of_nat n)) s -> 0 <= i -> i + Z.of_nat n <= npages s ->
  (forall j, run_of i (Z.of_nat n) j -> vbit s j = true) -> (n <= nfree s)%nat ->
  exists s', map_pages n PF_KERNEL (page_addr s i) s = Ok (true, s') /\ kheap s' /\
    mapped_run s s' i (Z.of_nat n).
Proof.
  revert s i. induction n as [|n IH]; intros s i H Hi Hin Hvb Hfree.
  - exists s. split; [done|]. split.
    + eapply kheap_pend_ext; [|exact H]. intros j _. unfold run_of. lia.
    + split; try done; [apply heap_frame_refl|intros j Hj; lia|].
      intros f _. split; [by left|]. intros [?|(j & Hj & _)]; [done|lia].
  - replace (Z.of_nat (S n)) with (Z.of_nat n + 1) in * by lia.
    destruct (map_one s i (Z.of_nat n) H Hi) as (f & s1 & Hpa & Hf & Hadd & H2 & Hm1 & Hnf);
      [lia|lia|done|lia|].
    set (s2 := with_pte s1 i (entry (frame_addr s f))) in *.
    destruct (heap_frame_views _ _ (mr_frame _ _ _ _ Hm1)) as (Ek & Ev & En & Ep & Ef & Ea).
    destruct (IH s2 (i + 1)) as (s' & Hs' & Hk' & Hm2); [done|lia|rewrite Ep; lia| |lia|].
    { intros j Hj. unfold run_of in *. rewrite (mr_vbit _ _ _ _ Hm1) by lia. apply Hvb. lia. }
    exists s'. split; [|split; [done|by eapply mapped_run_app; [| |lia..]]].
    cbn [map_pages]. rewrite (bind_Ok _ _ _ _ _ Hpa).
    destruct (frame_addr_ok _ _ H f Hf) as [_ Hpos]. rewrite decide_False by lia.
    rewrite (bind_Ok _ _ _ _ _ Hadd).
    replace (u32 (page_addr s i + PG_SIZE)) with (page_addr s2 (i + 1)); [done|].
    rewrite Ea. destruct (kh_pages _ _ H) as (Hp & _ & He). unfold page_addr, PG_SIZE in *.
    rewrite u32_id; lia.
Qed.

(** What a successful allocation of [n] pages from page [i] on does. *)
Record allocated_run (s s' : vm) (i n : Z) : Prop := {
  ar_free : forall j, i <= j < i + n -> vbit s j = false;
  ar_frame : heap_frame s s';
  ar_vbit : forall j, 0 <= j < npages s ->
    vbit s' j = if decide (i <= j < i + n) then true else vbit s j;
  ar_other : forall j, 0 <= j < npages s -> ~ (i <= j < i + n) -> hpte s' j = hpte s j;
  ar_new : forall j, i <= j < i + n -> exists f, 0 <= f < nframes s /\ kbit s f = false /\
             frame (hpte s' j) = frame_addr s f;
  ar_used : forall f, 0 <= f < nframes s ->
    kbit s' f = true <->
    kbit s f = true \/ exists j, i <= j < i + n /\ frame (hpte s' j) = frame_addr s f;
  ar_first : forall q, 0 <= q -> q + n <= npages s -> free_run (vbit s) q n -> i <= q;
  ar_nfree : Z.of_nat (nfree s) = n + Z.of_nat (nfree s')
}.

Lemma malloc_page_kernel s cnt q :
  kheap s -> 0 < cnt < 3840 -> 0 <= q -> q + cnt <= npages s -> free_run (vbit s) q cnt ->
  (Z.to_nat cnt <= nfree s)%nat ->
  exists i s', malloc_page PF_KERNEL cnt s = Ok (page_addr s i, s') /\
    0 <= i /\ i + cnt <= npages s /\ kheap s' /\ allocated_run s s' i cnt.
Proof.
  intros H Hc Hq Hqe Hrun Hfree. unfold malloc_page. rewrite bool_decide_true by lia. mstep.
  destruct (vaddr_get_spec _ s H cnt q) as (i & r' & Hget & Hi & Hie & Hir & Hfst & Hfr & Hv & Hk);
    [lia|done..|]. rewrite (bind_Ok _ _ _ _ _ Hget).
  set (s1 := with_ram r' s) in *.
  destruct (page_addr_ok _ _ H i) as (_ & _ & _ & Hpos); [lia|]. rewrite decide_False by lia.
  assert (H1 : kheap_pend (run_of i cnt) s1).
  { apply (kheap_bits (fun _ => False) _ s); try done.
    - intros j Hj. rewrite Hv by lia. unfold run_of. case_decide as E; [|tauto].
      intros _. left. by apply Hir.
    - intros j Hj. rewrite Hv by lia. unfold run_of. case_decide as E; [tauto|]. tauto.
    - intros j f Hj Hf _ _ _. by rewrite Hk. }
  assert (Hnf : nfree s1 = nfree s).
  { unfold nfree, clear_bits. change (nframes s1) with (nframes s). f_equal.
    symmetry. apply filter_same. intros f Hf%elem_of_seqZ. apply Hk. lia. }
  destruct (map_pages_spec (Z.to_nat cnt) s1 i) as (s' & Hs' & Hk' & Hm).
  { by rewrite Z2Nat.id by lia. }
  { done. } { change (npages s1) with (npages s). lia. }
  { intros j Hj. unfold run_of in Hj. rewrite Hv by lia. by rewrite decide_True by lia. }
  { lia. }
  rewrite Z2Nat.id in Hm by lia.
  exists i, s'. split; [by rewrite (bind_Ok _ _ _ _ _ Hs')|]. split; [done|]. split; [done|].
  split; [done|]. destruct Hm as [F O N U V L]. split.
  - intros j Hj. by apply Hir.
  - by eapply heap_frame_trans.
  - intros j Hj. rewrite V by done. apply Hv. lia.
  - exact O.
  - intros j Hj. destruct (N j Hj) as (f & Hf & Hkf & Hfa). exists f.
    split; [done|]. split; [|done]. by rewrite <- Hk.
  - intros f Hf. rewrite U by done. by rewrite Hk.
  - intros p Hp _ Hpr. by apply Hfst.
  - lia.
Qed.

(** ** [mfree_page] *)

(** The pages [i .. i+n-1] lose their mappings and their frames. *)
Record unmapped_run (s s' : vm) (i n : Z) : Prop := {
  ur_frame : heap_frame s s';
  ur_other : forall j, 0 <= j < npages s -> ~ (i <= j < i + n) -> hpte s' j = hpte s j;
  ur_gone : forall j, i <= j < i + n -> present (hpte s' j) = false;
  ur_kbit : forall f, 0 <= f < nframes s ->
    kbit s' f = true <->
    kbit s f = true /\ forall j, i <= j < i + n -> frame (hpte s j) <> frame_addr s f;
  ur_vbit : forall j, 0 <= j < npages s -> vbit s' j = vbit s j
}.

Definition kernel_frame (s : vm) (p : Z) : bool :=
  bool_decide (p >= phy_addr_start (kernel_pool (vmem s))) &&
  bool_decide (p < phy_addr_start (user_pool (vmem s))).

Lemma pfree_eq pend s f :
  kheap_pend pend s -> 0 <= f < nframes s ->
  pfree (frame_addr s f) s =
  Ok (tt, with_ram (ram_set_bit (ram (vmach s)) (bits (kbm s)) f false) s).
Proof.
  intros H Hf. destruct (kh_frames _ _ H) as (Hlo & Hal & Hhi).
  unfold pfree. mstep. mstep. unfold frame_addr in *.
  rewrite decide_False by lia. replace (u32 _ / PG_SIZE) with f.
  - rewrite (on_m_Ok _ _ _ _ (bitmap_set_eq _ f 0 _ (or_introl eq_refl))). done.
  - unfold PG_SIZE. rewrite u32_id by lia.
    replace (_ + _ - _) with (f * 4096) by lia. symmetry. apply Z.div_mul. lia.
Qed.

(** The address of a mapped page translates to its frame. *)
Lemma page_v2p pend s i f :
  kheap_pend pend s -> 0 <= i < npages s -> present (hpte s i) = true ->
  frame (hpte s i) = frame_addr s f -> addr_v2p (page_addr s i) (vpg s) = Ok (frame_addr s f, vpg s).
Proof.
  intros H Hi Hp Hf. destruct (page_addr_ok _ _ H i Hi) as (Hva & Hd & Hal & _).
  apply addr_v2p_walk; [done|apply H|]. unfold walk. rewrite (kh_pde _ _ H i Hi).
  fold (hpte s i). rewrite Hp. simpl. f_equal. unfold page_off. rewrite Hal, Hf. lia.
Qed.

Lemma unmap_one s a m :
  kheap_pend (run_of a m) s -> 0 <= a -> 0 <= m -> a + m < npages s -> vbit s (a + m) = true ->
  exists f s', 0 <= f < nframes s /\ frame (hpte s (a + m)) = frame_addr s f /\
    addr_v2p (page_addr s (a + m)) (vpg s) = Ok (frame_addr s f, vpg s) /\
    (pfree (frame_addr s f);; on_p (page_table_pte_remove (page_addr s (a + m)))) s = Ok (tt, s') /\
    kheap_pend (run_of a (m + 1)) s' /\ unmapped_run s s' (a + m) 1.
Proof.
  intros H Ha Hm Hin Hv. set (i := a + m) in *. assert (Hi : 0 <= i < npages s) by lia.
  assert (Hnp : ~ run_of a m i) by (unfold run_of; lia).
  destruct (kh_set _ _ H i Hi Hv Hnp) as (Hp & f & Hf & Hfa & Hkf).
  destruct (page_addr_ok _ _ H i Hi) as (Hva & Hd & _).
  pose proof (kh_pde _ _ H i Hi) as Hpde. pose proof (kh_tables _ _ H) as [Hrec _].
  set (e := Z.land (hpte s i) (u32 (Z.lnot PG_P_1))).
  assert (He : present (u32 e) = false) by apply clear_present, pread_range.
  pose proof (kheap_unmap _ s H i Hi e He) as H1.
  set (s1 := with_pte s i e) in *.
  destruct (frame_bit_heap _ s1 H1 f false Hf) as (Hfr & Hk & Hvv).
  set (s2 := with_ram _ s1) in *.
  assert (Hh : forall j, 0 <= j < npages s -> hpte s2 j = if decide (j = i) then u32 e else hpte s j).
  { intros j Hj. exact (with_pte_hpte _ s H i Hi e j Hj). }
  exists f, s2. split; [done|]. split; [done|]. split; [by eapply page_v2p|]. split.
  { rewrite (bind_Ok _ _ _ _ _ (pfree_eq _ s f H Hf)).
    apply (on_p_Ok _ (with_ram _ s)). cbn [vpg with_ram set_vmach].
    unfold page_table_pte_remove.
    rewrite (bind_Ok _ _ _ _ _ (vload_pte_eq _ _ Hva Hrec Hpde)). by apply vstore_pte_eq. }
  split.
  - apply (kheap_bits (fun j => run_of a m j \/ j = i) _ s1); try done.
    + intros j Hj Hx. rewrite Hvv in Hx by done. unfold run_of in *. lia || (destruct Hx; [by left|right; lia]).
    + intros j Hj Hx Hy. rewrite Hvv in Hx by done. split; [done|]. unfold run_of in *. lia.
    + intros j g Hj Hg Hx Hy Hga Hkg. rewrite Hk by lia. case_decide as E; [|done].
      exfalso. subst g. assert (Hji : j <> i) by (unfold run_of in Hy; lia).
      assert (Hj1 : hpte s1 j = hpte s j).
      { change (hpte s1 j) with (hpte s2 j). rewrite Hh by done. by rewrite decide_False. }
      change (frame_addr s1 f) with (frame_addr s f) in Hga. apply Hji, (kh_inj _ _ H j i Hj Hi); [|done|congruence].
      rewrite Hvv in Hx by done. apply (kh_set _ _ H j Hj); [exact Hx|].
      unfold run_of in *. lia.
  - split.
    + eapply heap_frame_trans; [by apply (with_pte_frame _ _ H)|exact Hfr].
    + intros j Hj Hne. rewrite Hh by done. by rewrite decide_False by lia.
    + intros j Hj. rewrite Hh by lia. by rewrite decide_True by lia.
    + intros g Hg. rewrite Hk by lia. change (kbit s1 g) with (kbit s g). case_decide as E.
      * subst g. split; [done|]. intros [_ Hx]. by destruct (Hx i); [lia|].
      * split; [|tauto]. intros Hkg. split; [done|]. intros j Hj Hx.
        replace j with i in Hx by lia. rewrite Hfa in Hx. apply frame_addr_inj in Hx. congruence.
    + exact Hvv.
Qed.

Lemma unmapped_run_app s s1 s2 i n :
  unmapped_run s s1 i 1 -> unmapped_run s1 s2 (i + 1) n -> 0 <= i -> 0 <= n ->
  i + n + 1 <= npages s -> unmapped_run s s2 i (n + 1).
Proof.
  intros [F1 O1 N1 U1 V1] [F2 O2 N2 U2 V2] Hi Hn Hin.
  destruct (heap_frame_views _ _ F1) as (Ek & Ev & En & Ep & Ef & Ea).
  rewrite ?En, ?Ep in *. split.
  - by eapply heap_frame_trans.
  - intros j Hj Hne. rewrite O2 by lia. apply O1; lia.
  - intros j Hj. destruct (decide (j = i)) as [->|Hji]; [|apply N2; lia].
    rewrite O2 by lia. apply N1. lia.
  - intros f Hf. rewrite U2, U1 by done. split.
    + intros [[Hk H1] H2]. split; [done|]. intros j Hj. destruct (decide (j = i)) as [->|Hji].
      * apply H1. lia.
      * rewrite <- (O1 j), <- Ef by lia. apply H2. lia.
    + intros [Hk H1]. split; [split; [done|]|]; intros j Hj.
      * apply H1. lia.
      * rewrite O1, Ef by lia. apply H1. lia.
  - intros j Hj. rewrite V2 by done. by apply V1.
Qed.

Lemma unmap_pages_spec n msg s0 s a m :
  vmem s = vmem s0 ->
  kheap_pend (run_of a m) s -> 0 <= a -> 0 <= m -> a + m + Z.of_nat n <= npages s ->
  (forall j, a + m <= j < a + m + Z.of_nat n -> vbit s j = true) ->
  exists s', unmap_pages n (kernel_frame s0) msg (page_addr s (a + m)) s = Ok (tt, s') /\
    kheap_pend (run_of a (m + Z.of_nat n)) s' /\ unmapped_run s s' (a + m) (Z.of_nat n).
Proof.
  revert s m. induction n as [|n IH]; intros s m Hmem H Ha Hm Hin Hvb.
  - exists s. split; [done|]. split.
    + eapply kheap_pend_ext; [|exact H]. intros j _. unfold run_of. lia.
    + split; try done; [apply heap_frame_refl|intros j Hj; lia|].
      intros f _. split; [|tauto]. intros Hk. split; [done|]. lia.
  - destruct (unmap_one s a m H Ha Hm) as (f & s1 & Hf & Hfa & Hv2p & Hrun & H1 & Hu1);
      [lia|apply Hvb; lia|].
    destruct (heap_frame_views _ _ (ur_frame _ _ _ _ Hu1)) as (Ek & Ev & En & Ep & Ef & Ea).
    destruct (IH s1 (m + 1)) as (s' & Hs' & Hk' & Hu2); [|done|lia|lia|rewrite Ep; lia| |].
    { by rewrite (hf_mem _ _ (ur_frame _ _ _ _ Hu1)). }
    { intros j Hj. rewrite (ur_vbit _ _ _ _ Hu1) by lia. apply Hvb. lia. }
    exists s'. split.
    + cbn [unmap_pages]. rewrite (bind_Ok _ _ _ _ _ (on_p_Ok _ _ _ _ Hv2p)).
      rewrite set_vpg_id. destruct (kh_frames _ _ H) as (Hlo & Hal & Hhi).
      assert (Hin_pool : bool_decide (frame_addr s f mod PG_SIZE = 0) &&
                         kernel_frame s0 (frame_addr s f) = true).
      { apply andb_true_intro. split.
        - apply bool_decide_eq_true. apply (frame_addr_ok _ _ H f Hf).
        - unfold kernel_frame. rewrite <- Hmem. unfold frame_addr in *.
          rewrite !bool_decide_true by lia. done. }
      rewrite Hin_pool. mstep.
      rewrite <- bind_assoc. rewrite (bind_Ok _ _ _ _ _ Hrun).
      replace (u32 (page_addr s (a + m) + PG_SIZE)) with (page_addr s1 (a + (m + 1))); [done|].
      rewrite Ea. destruct (kh_pages _ _ H) as (Hp & _ & He). unfold page_addr, PG_SIZE in *.
      rewrite u32_id; lia.
    + split.
      * eapply kheap_pend_ext; [|exact Hk']. intros j _. unfold run_of. lia.
      * replace (Z.of_nat (S n)) with (Z.of_nat n + 1) by lia.
        replace (a + (m + 1)) with (a + m + 1) in Hu2 by lia.
        by eapply unmapped_run_app; [| |lia..].
Qed.

(** What freeing [n] pages from page [i] on does. *)
Record released_run (s s' : vm) (i n : Z) : Prop := {
  rr_frame : heap_frame s s';
  rr_vbit : forall j, 0 <= j < npages s ->
    vbit s' j = if decide (i <= j < i + n) then false else vbit s j;
  rr_other : forall j, 0 <= j < npages s -> ~ (i <= j < i + n) -> hpte s' j = hpte s j;
  rr_gone : forall j, i <= j < i + n -> present (hpte s' j) = false;
  rr_kbit : forall f, 0 <= f < nframes s ->
    kbit s' f = true <->
    kbit s f = true /\ forall j, i <= j < i + n -> frame (hpte s j) <> frame_addr s f
}.

(** Clearing the marks of a run of pages. *)
Lemma vaddr_remove_spec pend s i cnt :
  kheap_pend pend s -> 0 < cnt -> 0 <= i -> i + cnt <= npages s ->
  exists r', vaddr_remove PF_KERNEL (page_addr s i) cnt s = Ok (tt, with_ram r' s) /\
    heap_frame s (with_ram r' s) /\
    (forall j, 0 <= j -> vbit (with_ram r' s) j =
       if decide (i <= j < i + cnt) then false else vbit s j) /\
    (forall f, 0 <= f < nframes s -> kbit (with_ram r' s) f = kbit s f).
Proof.
  intros H Hc Hi Hin.
  destruct (set_run_spec (Z.to_nat cnt) (vbm s) i 0 (vmach s) Hi) as (r' & Hset & Hbits & Hag);
    [by left|]. rewrite Z2Nat.id in Hbits, Hag by lia.
  assert (Hidx : u32 (page_addr s i - vaddr_start (kernel_vaddr (vmem s))) / PG_SIZE = i).
  { destruct (kh_pages _ _ H) as (Hp0 & _ & He). unfold page_addr, PG_SIZE in *.
    rewrite u32_id by lia. replace (_ + _ - _) with (i * 4096) by lia. apply Z.div_mul. lia. }
  assert (Hin2 : forall x, bits (vbm s) + i / 8 <= x <= bits (vbm s) + (i + cnt - 1) / 8 ->
              bits (vbm s) <= x < bits (vbm s) + btmp_bytes_len (vbm s)).
  { intros x Hx. unfold npages in *. Z.div_mod_to_equations; lia. }
  exists r'. split; [|split; [|split]].
  - unfold vaddr_remove. mstep. rewrite Hidx. apply (on_m_Ok _ s _ _ Hset).
  - split; try done. intros x [_ Hx]. apply Hag. intros Hy. by apply Hx, Hin2.
  - intros j Hj. by apply Hbits.
  - intros g Hg. unfold kbit. eapply rbit_outside; [exact Hag| |exact Hg].
    intros x Hx Hy%Hin2. destruct (kh_sep _ _ H); lia.
Qed.

(** The checks of [mfree_page] on the first page's frame, and its choice of
    the kernel's pool. *)
Lemma mfree_page_checks s i cnt :
  kheap s -> 0 < cnt -> 0 <= i < npages s -> vbit s i = true ->
  exists msg, mfree_page PF_KERNEL (page_addr s i) cnt s =
    (unmap_pages (Z.to_nat cnt) (kernel_frame s) msg (page_addr s i);;
     vaddr_remove PF_KERNEL (page_addr s i) cnt) s.
Proof.
  intros H Hc Hi Hv. unfold mfree_page.
  destruct (page_addr_ok _ _ H i Hi) as (_ & _ & Hal & _).
  destruct (kh_set _ _ H i Hi Hv) as (Hp & f & Hf & Hfa & _); [tauto|].
  destruct (kh_frames _ _ H) as (Hlo & _ & Hhi). destruct (frame_addr_ok _ _ H f Hf) as [[_ Hfm] _].
  eexists.
  rewrite (bool_decide_true (cnt >= 1)), (bool_decide_true (page_addr s i mod PG_SIZE = 0)) by (done || lia).
  mstep. rewrite (bind_Ok _ _ _ _ _ (on_p_Ok _ _ _ _ (page_v2p _ s i f H Hi Hp Hfa))).
  rewrite set_vpg_id. rewrite (bool_decide_true (frame_addr s f mod PG_SIZE = 0)) by done.
  rewrite (bool_decide_true (frame_addr s f >= 0x102000)) by (unfold frame_addr in *; lia).
  mstep. mstep. mstep. rewrite decide_False by (unfold frame_addr in *; lia). reflexivity.
Qed.

Lemma mfree_page_kernel s i cnt :
  kheap s -> 0 < cnt -> 0 <= i -> i + cnt <= npages s ->
  (forall j, i <= j < i + cnt -> vbit s j = true) ->
  exists s', mfree_page PF_KERNEL (page_addr s i) cnt s = Ok (tt, s') /\ kheap s' /\
    released_run s s' i cnt.
Proof.
  intros H Hc Hi Hin Hvb.
  destruct (mfree_page_checks s i cnt H Hc) as (msg & Hm); [lia|apply Hvb; lia|].
  assert (Hz : kheap_pend (run_of i 0) s).
  { eapply kheap_pend_ext; [|exact H]. intros j _. unfold run_of. lia. }
  destruct (unmap_pages_spec (Z.to_nat cnt) msg s s i 0 eq_refl Hz Hi) as (s1 & Hs1 & H1 & Hu);
    [lia|rewrite Z2Nat.id by lia; lia|intros j Hj; apply Hvb; lia|].
  rewrite Z2Nat.id in H1, Hu by lia. rewrite !Z.add_0_r in Hs1, Hu. rewrite Z.add_0_l in H1.
  destruct Hu as [F O N U V]. destruct (heap_frame_views _ _ F) as (Ek & Ev & En & Ep & Ef & Ea).
  destruct (vaddr_remove_spec _ s1 i cnt H1 Hc Hi) as (r' & Hran & Hfr2 & Hvb2 & Hk2); [lia|].
  rewrite Ea in Hran. rewrite En in Hk2. set (s2 := with_ram r' s1) in *.
  exists s2. split; [by rewrite Hm, (bind_Ok _ _ _ _ _ Hs1)|]. split.
  - apply (kheap_bits (run_of i cnt) _ s1); try done.
    + intros j Hj Hx. rewrite Ep in Hj. rewrite Hvb2 in Hx by lia. unfold run_of.
      case_decide; [by right|]. destruct Hx as [Hx|[]]. by left.
    + intros j Hj Hx _. rewrite Ep in Hj. rewrite Hvb2 in Hx by lia. unfold run_of.
      by case_decide.
    + intros j g Hj Hg _ _ _. rewrite En in Hg. by rewrite Hk2.
  - split.
    + by eapply heap_frame_trans.
    + intros j Hj. rewrite Hvb2, V by lia. done.
    + exact O.
    + exact N.
    + intros g Hg. rewrite Hk2 by done. by apply U.
Qed.

(** ** A small heap: eight pages, eight frames, all free *)

Definition demo_pwords : gmap Z Z :=
  {[ 0x100000 + 4 * 768 := 0x101007; 0x100000 + 4 * 1023 := 0x100007 ]}.
Definition demo_vm : vm :=
  Vm (Mach ∅ 2 [] []) (Paging 0x100000 demo_pwords)
    (MemSt (Pool (Bitmap 1 0x9a000) 0x200000 0x8000) (Pool (Bitmap 1 0x9a001) 0x208000 0x8000)
       (VirtualAddr (Bitmap 1 0x9a002) 0xc0100000)) task_zero.

Lemma demo_pde v : vaddr_ok v -> dir_index v < 1023 ->
  pde (vpg demo_vm) v = if decide (dir_index v = 768) then 0x101007 else 0.
Proof.
  intros Hv Hd. unfold pde, pde_word, pread, demo_vm, demo_pwords. simpl.
  rewrite lookup_insert, lookup_singleton.
  case_decide as E1; case_decide as E2; try done; try (exfalso; lia).
  case_decide; [lia|done].
Qed.

Lemma demo_page i : 0 <= i < 8 ->
  dir_index (page_addr demo_vm i) = 768 /\ tbl_index (page_addr demo_vm i) = 256 + i.
Proof. intros Hi. unfold page_addr, dir_index, tbl_index. simpl. zmod_lia. Qed.

Lemma demo_word i : 0 <= i < 8 -> pte_word (vpg demo_vm) (page_addr demo_vm i) = 0x101400 + 4 * i.
Proof.
  intros Hi. destruct (demo_page i Hi) as [Hd Ht]. unfold pte_word.
  rewrite demo_pde, Hd, Ht, decide_True by (done || rewrite ?Hd; unfold vaddr_ok, page_addr; simpl; lia).
  change (frame 0x101007) with 0x101000. lia.
Qed.

Lemma demo_hpte i : 0 <= i < 8 -> hpte demo_vm i = 0.
Proof.
  intros Hi. unfold hpte, pte. rewrite demo_word by done. unfold pread, demo_vm, demo_pwords. simpl.
  rewrite lookup_insert, lookup_singleton. repeat case_decide; lia || done.
Qed.

Lemma demo_kheap : kheap demo_vm.
Proof.
  assert (Hvok : forall i, 0 <= i < 8 -> vaddr_ok (page_addr demo_vm i)).
  { intros i Hi. unfold vaddr_ok, page_addr. simpl. lia. }
  split; try done.
  - by left.
  - split; [done|]. intros u Hu Hd. rewrite demo_pde by done. by case_decide.
  - intros i Hi. destruct (demo_page i Hi) as [Hd Ht].
    rewrite demo_pde, Hd, decide_True by (done || rewrite ?Hd; auto; lia). done.
  - intros i j Hi Hj. change (npages demo_vm) with 8 in *. rewrite !demo_word by done. lia.
  - intros i Hi _. by rewrite demo_hpte.
  - intros i Hi Hv. unfold vbit, rbit, ld8 in Hv. simpl in Hv.
    rewrite lookup_empty in Hv. simpl in Hv. by rewrite Z.bits_0 in Hv.
  - intros i j Hi Hj Hp. by rewrite demo_hpte in Hp.
Qed.

(** ** Theorems *)

(** C14: With [cnt] free consecutive pages and [cnt] free frames,
    [malloc_page(PF_KERNEL, cnt)] succeeds: it returns the address of a run of
    pages that were free, maps them one to one to frames that were free,
    marks both, and changes no other page of the heap. *)
Theorem malloc_page_ok s cnt q :
  kheap s -> 0 < cnt < 3840 -> 0 <= q -> q + cnt <= npages s -> free_run (vbit s) q cnt ->
  (Z.to_nat cnt <= nfree s)%nat ->
  exists i s', malloc_page PF_KERNEL cnt s = Ok (page_addr s i, s') /\
    0 <= i /\ i + cnt <= npages s /\ kheap s' /\ allocated_run s s' i cnt.
Proof. apply malloc_page_kernel. Qed.

Lemma malloc_page_ok_witness :
  exists i s', malloc_page PF_KERNEL 3 demo_vm = Ok (page_addr demo_vm i, s') /\
    0 <= i /\ i + 3 <= npages demo_vm /\ kheap s' /\ allocated_run demo_vm s' i 3.
Proof.
  apply (malloc_page_ok demo_vm 3 2 demo_kheap); [lia|lia|done| |by vm_compute; lia].
  intros i Hi. unfold vbit, rbit, ld8. simpl. rewrite lookup_empty. apply Z.bits_0.
Defined.

(** C15: [mfree_page(PF_KERNEL, ...)] of allocated pages unmaps exactly them
    and frees exactly their frames and addresses. *)
Theorem mfree_page_ok s i cnt :
  kheap s -> 0 < cnt -> 0 <= i -> i + cnt <= npages s ->
  (forall j, i <= j < i + cnt -> vbit s j = true) ->
  exists s', mfree_page PF_KERNEL (page_addr s i) cnt s = Ok (tt, s') /\ kheap s' /\
    released_run s s' i cnt.
Proof. apply mfree_page_kernel. Qed.

Lemma demo_free_run q n : free_run (vbit demo_vm) q n.
Proof. intros i Hi. unfold vbit, rbit, ld8. simpl. rewrite lookup_empty. apply Z.bits_0. Qed.

Lemma mfree_page_ok_witness :
  exists i s s', 0 <= i /\ mfree_page PF_KERNEL (page_addr s i) 3 s = Ok (tt, s') /\ kheap s' /\
    released_run s s' i 3.
Proof.
  destruct (malloc_page_kernel demo_vm 3 2 demo_kheap) as (i & s & _ & Hi & Hie & H & [A1 A2 A3 _ _ _]);
    [lia|lia|done|apply demo_free_run|by vm_compute; lia|].
  destruct (heap_frame_views _ _ A2) as (_ & _ & _ & Ep & _ & _).
  destruct (mfree_page_ok s i 3 H) as (s' & Hs'); [lia|done|lia| |].
  - intros j Hj. rewrite A3 by lia. by rewrite decide_True.
  - by exists i, s, s'.
Defined.

(** The same pages and frames are in use, every address translates as before,
    and no word of the page tables but the entries of the heap's pages has
    changed. *)
Definition same_use (s s' : vm) : Prop :=
  (forall j, 0 <= j < npages s -> vbit s' j = vbit s j) /\
  (forall f, 0 <= f < nframes s -> kbit s' f = kbit s f) /\
  (forall u, vaddr_ok u -> walk (vpg s') u = walk (vpg s) u) /\
  heap_frame s s'.

(** If the entries of the heap's pages are the same, or not present before
    and after, every address translates as before. *)
Lemma same_walk s s' :
  heap_frame s s' ->
  (forall j, 0 <= j < npages s -> hpte s' j = hpte s j \/
     (present (hpte s j) = false /\ present (hpte s' j) = false)) ->
  forall u, vaddr_ok u -> walk (vpg s') u = walk (vpg s) u.
Proof.
  intros F Hh u Hu. pose proof (heap_frame_views _ _ F) as (_ & _ & _ & _ & _ & Ea).
  assert (Hw : forall v, vaddr_ok v -> pte_word (vpg s') v = pte_word (vpg s) v).
  { intros v Hv. unfold pte_word. by rewrite (hf_pde _ _ F). }
  assert (Hp : pte (vpg s') u = pte (vpg s) u \/
               (present (pte (vpg s) u) = false /\ present (pte (vpg s') u) = false)).
  { destruct (decide (Exists (fun j => vaddr_ok (page_addr s j) /\
        pte_word (vpg s) u = pte_word (vpg s) (page_addr s j)) (seqZ 0 (npages s)))) as [Hex|Hno].
    - apply Exists_exists in Hex as (j & Hj%elem_of_seqZ & Hv & E). specialize (Hh j ltac:(lia)).
      assert (E' : pte (vpg s') u = hpte s' j) by (unfold hpte, pte; by rewrite Ea, !Hw, E by done).
      assert (E0 : pte (vpg s) u = hpte s j) by (unfold hpte, pte; by rewrite E).
      by rewrite E', E0.
    - left. unfold pte. rewrite Hw by done. apply (hf_words _ _ F). intros j Hj Hv E. apply Hno.
      apply Exists_exists. exists j. split; [apply elem_of_seqZ; lia|done]. }
  unfold walk. rewrite (hf_pde _ _ F u Hu). destruct Hp as [->|[-> ->]]; [done|]. by rewrite andb_false_r.
Qed.

(** C16: Freeing what was allocated restores the heap: the same pages and
    frames are in use, every address translates as before, and of memory and
    the page tables at most bytes of the bitmaps and entries of the heap's
    pages have changed. *)
Theorem malloc_mfree_roundtrip s cnt q :
  kheap s -> 0 < cnt < 3840 -> 0 <= q -> q + cnt <= npages s -> free_run (vbit s) q cnt ->
  (Z.to_nat cnt <= nfree s)%nat ->
  exists v s1 s2, malloc_page PF_KERNEL cnt s = Ok (v, s1) /\
    mfree_page PF_KERNEL v cnt s1 = Ok (tt, s2) /\ kheap s2 /\ same_use s s2.
Proof.
  intros H Hc Hq Hqe Hrun Hfree.
  destruct (malloc_page_kernel s cnt q) as (i & s1 & Hm & Hi & Hie & H1 & [A1 A2 A3 A4 A5 A6]);
    [done..|].
  destruct (heap_frame_views _ _ A2) as (Ek & Ev & En & Ep & Ef & Ea).
  destruct (mfree_page_kernel s1 i cnt) as (s2 & Hf & H2 & [R1 R2 R3 R4 R5]); [done|lia|done|lia| |].
  { intros j Hj. rewrite A3 by lia. by rewrite decide_True. }
  rewrite Ea in Hf. exists (page_addr s i), s1, s2. split; [done|]. split; [done|]. split; [done|].
  destruct (heap_frame_views _ _ R1) as (Ek2 & Ev2 & En2 & Ep2 & Ef2 & Ea2).
  rewrite Ep, En in *. assert (F02 : heap_frame s s2) by (by eapply heap_frame_trans).
  split; [|split; [|split; [|exact F02]]].
  - intros j Hj. rewrite R2, A3 by done. case_decide; [|done]. symmetry. by apply A1.
  - intros f Hf'. destruct (kbit s f) eqn:E.
    + apply R5; [done|]. split; [apply A6; [done|by left]|]. intros j Hj Hx.
      destruct (A5 j Hj) as (g & Hg & Hkg & Hga). rewrite Hga, Ef in Hx.
      apply frame_addr_inj in Hx. congruence.
    + destruct (kbit s2 f) eqn:E2; [|done]. apply R5 in E2 as [Hk1 Hno]; [|done].
      apply A6 in Hk1; [|done]. destruct Hk1 as [Hk1|(j & Hj & Hfj)]; [congruence|].
      destruct (Hno j Hj). by rewrite Ef.
  - apply (same_walk s s2 F02). intros j Hj.
    destruct (decide (i <= j < i + cnt)) as [Hin|Hout].
    + right. split; [|by apply R4]. apply (kh_clear _ _ H j Hj). left. by apply A1.
    + left. by rewrite R3, A4 by lia.
Qed.

Lemma malloc_mfree_roundtrip_witness :
  exists v s1 s2, malloc_page PF_KERNEL 3 demo_vm = Ok (v, s1) /\
    mfree_page PF_KERNEL v 3 s1 = Ok (tt, s2) /\ kheap s2 /\ same_use demo_vm s2.
Proof.
  apply (malloc_mfree_roundtrip demo_vm 3 2 demo_kheap);
    [lia|lia|done|apply demo_free_run|by vm_compute; lia].
Defined.

(** An exhausted pool is a panic: [palloc] never returns [NULL], as the
    assertion in [bitmap_scan] fires first. *)
Theorem palloc_exhausted pf s p :
  get_pool pf s = Ok (p, s) -> bitmap_wf (pool_bitmap p) ->
  (forall f, 0 <= f < 8 * btmp_bytes_len (pool_bitmap p) ->
     rbit (ram (vmach s)) (bits (pool_bitmap p)) f = true) ->
  palloc pf s = Panic "idx_byte <  btmp->btmp_bytes_len".
Proof.
  intros Hp Hwf Hfull. unfold palloc. rewrite (bind_Ok _ _ _ _ _ Hp).
  unfold on_m, vlift, mbind, M_bind. by rewrite bitmap_scan_full.
Qed.

Lemma palloc_exhausted_witness :
  palloc PF_USER (set_vmach (Mach {[ 0x9a001 := 255 ]} 2 [] []) demo_vm) =
  Panic "idx_byte <  btmp->btmp_bytes_len".
Proof.
  apply (palloc_exhausted PF_USER _ (Pool (Bitmap 1 0x9a001) 0x208000 0x8000)); [done|done|].
  intros f Hf. simpl in Hf.
  assert (f = 0 \/ f = 1 \/ f = 2 \/ f = 3 \/ f = 4 \/ f = 5 \/ f = 6 \/ f = 7) as Hc by lia.
  by repeat (destruct Hc as [->|Hc]; [done|]); subst f.
Defined.

(** ** [page_table_add] in general *)

(** Two addresses share a page, or a page-table entry. *)
Definition alias (pg : paging) (u v : Z) : Prop :=
  u / 4096 = v / 4096 \/
  (present (pde pg u) = true /\ present (pde pg v) = true /\ pte_word pg u = pte_word pg v).

(** A frame [palloc] may hand out for a page table: not the directory, not a
    table in use. *)
Definition fresh_table (pg : paging) (f : Z) : Prop :=
  frame_ok f /\ f <> cr3 pg /\
  forall u, vaddr_ok u -> dir_index u < 1023 -> present (pde pg u) = true -> frame (pde pg u) <> f.

Lemma store_entry_walk pg v phy u :
  tables_ok pg -> vaddr_ok v -> dir_index v < 1023 -> present (pde pg v) = true ->
  frame_ok phy -> vaddr_ok u ->
  walk (pwrite pg (pte_word pg v) (entry phy)) u =
  if present (pde pg u) && bool_decide (pte_word pg u = pte_word pg v)
  then Some (phy + page_off u) else walk pg u.
Proof.
  intros Hok Hv Hd Hp Hphy Hu. destruct (entry_spec phy Hphy) as (He1 & He2 & He3).
  rewrite store_pte_walk by done. unfold walk.
  destruct (present (pde pg u)); [|done]. simpl.
  case_decide; case_bool_decide; try done. by rewrite He1, He2, He3.
Qed.

Lemma same_page_slot pg u v :
  vaddr_ok u -> vaddr_ok v -> u / 4096 = v / 4096 ->
  pde pg u = pde pg v /\ pte_word pg u = pte_word pg v.
Proof.
  intros Hu Hv He.
  assert (Hd : dir_index u = dir_index v) by (unfold dir_index; Z.div_mod_to_equations; lia).
  assert (Ht : tbl_index u = tbl_index v) by (unfold tbl_index; by rewrite He).
  assert (Hp : pde pg u = pde pg v) by (unfold pde, pde_word; by rewrite Hd).
  split; [done|]. unfold pte_word. by rewrite Hp, Ht.
Qed.

Lemma page_table_add_new v phy f s s1 :
  vaddr_ok v -> dir_index v < 1023 -> tables_ok (vpg s) -> present (pde (vpg s) v) = false ->
  palloc PF_KERNEL s = Ok (f, s1) -> vpg s1 = vpg s -> fresh_table (vpg s) f ->
  let pg2 := pzero (pwrite (vpg s) (pde_word (vpg s) v) (entry f)) f 1024 in
  page_table_add v phy s =
  Ok (tt, set_vpg (pwrite pg2 (pte_word pg2 v) (entry phy)) s1).
Proof.
  intros Hv Hd Hok Hnp Hpa Hpg (Hf & Hfc & Hfu) pg2. pose proof Hok as [Hrec _].
  pose proof (install_tables_ok (vpg s) v f Hok Hd Hf Hfc) as Hok2. fold pg2 in Hok2.
  assert (Hpde2 : pde pg2 v = entry f).
  { unfold pg2. by rewrite (install_pde (vpg s) v f Hok Hf Hfc), decide_True. }
  assert (Hp2 : present (pde pg2 v) = true) by (rewrite Hpde2; by apply entry_spec).
  unfold page_table_add.
  rewrite (bind_Ok _ _ _ _ _ (on_p_Ok _ _ _ _ (vload_pde_eq _ v Hv Hrec))).
  rewrite set_vpg_id, land1_present, Hnp. rewrite decide_False by (intros E; by apply E).
  rewrite (bind_Ok _ _ _ _ _ Hpa). rewrite <- Hpg in Hrec.
  rewrite (bind_Ok _ _ _ _ _ (on_p_Ok _ _ _ _ (vstore_pde_eq _ v (entry f) Hv Hrec))).
  rewrite Hpg. set (pg1 := pwrite (vpg s) (pde_word (vpg s) v) (entry f)) in *.
  assert (Ha : Z.land (pte_ptr v) 0xfffff000 = 0xffc00000 + 4096 * dir_index v + 4 * 0).
  { rewrite pte_ptr_eq by done. pose proof (dir_index_range v Hv). pose proof (tbl_index_range v).
    rewrite land_page by lia. Z.div_mod_to_equations; lia. }
  assert (Hset : vmemset_words 1024 (Z.land (pte_ptr v) 0xfffff000) pg1 = Ok (tt, pg2)).
  { rewrite Ha. rewrite (vmemset_table (vpg s) v f Hv Hd Hf Hfc 1024 0); try lia.
    - by rewrite Z.add_0_r.
    - by apply (install_rec1 (vpg s) v f Hok Hd).
    - done.
    - unfold pde, pde_word. unfold pg1. cbn [cr3 pwrite].
      rewrite (install_dir1 (vpg s) v f Hf) by (by apply dir_index_range). by rewrite decide_True. }
  rewrite (bind_Ok _ _ _ _ _ (on_p_Ok _ (set_vpg pg1 s1) _ _ Hset)).
  pose proof Hok2 as [Hrec2 _].
  rewrite (bind_Ok _ _ _ _ _ (on_p_Ok _ (set_vpg pg2 (set_vpg pg1 s1)) _ _
    (vload_pte_eq _ v Hv Hrec2 Hp2))).
  rewrite land1_present. rewrite (install_pte_zero (vpg s) v f Hok Hf Hfc v Hv eq_refl : pte pg2 v = 0).
  mstep. rewrite (on_p_Ok _ (set_vpg pg2 _) _ _ (vstore_pte_eq _ v (entry phy) Hv Hrec2 Hp2)). done.
Qed.

(** The same with the state: besides the tables only what [palloc] changed. *)
Lemma page_table_add_run s v phy f s1 :
  vaddr_ok v -> dir_index v < 1023 -> tables_ok (vpg s) -> frame_ok phy ->
  walk (vpg s) v = None ->
  palloc PF_KERNEL s = Ok (f, s1) -> vpg s1 = vpg s -> fresh_table (vpg s) f ->
  exists pg s2, page_table_add v phy s = Ok (tt, set_vpg pg s2) /\ (s2 = s \/ s2 = s1) /\
    walk pg v = Some (phy + page_off v) /\
    forall u, vaddr_ok u -> dir_index u < 1023 -> ~ alias (vpg s) u v -> walk pg u = walk (vpg s) u.
Proof.
  intros Hv Hd Hok Hphy Hw Hpa Hpg Hfr. destruct (present (pde (vpg s) v)) eqn:Hp.
  - assert (Hnp : present (pte (vpg s) v) = false).
    { unfold walk in Hw. rewrite Hp in Hw. by destruct (present (pte (vpg s) v)). }
    eexists _, s. split; [by apply page_table_add_eq|]. split; [by left|]. split.
    + rewrite store_entry_walk by done. by rewrite Hp, bool_decide_true.
    + intros u Hu Hdu Ha. rewrite store_entry_walk by done.
      destruct (present (pde (vpg s) u)) eqn:Hpu; [|done]. simpl.
      rewrite bool_decide_false; [done|]. intros E. apply Ha. right. done.
  - eexists _, s1. split; [by eapply page_table_add_new|]. split; [by right|].
    destruct Hfr as (Hf & Hfc & Hfu).
    set (pg2 := pzero _ f 1024).
    pose proof (install_tables_ok (vpg s) v f Hok Hd Hf Hfc) as Hok2. fold pg2 in Hok2.
    pose proof (install_pde (vpg s) v f Hok Hf Hfc) as Hpde. fold pg2 in Hpde.
    destruct (entry_spec f Hf) as (_ & He2 & He3).
    assert (Hp2 : present (pde pg2 v) = true) by (rewrite Hpde, decide_True by done; done).
    split.
    + rewrite store_entry_walk by done. by rewrite Hp2, bool_decide_true.
    + intros u Hu Hdu Ha. rewrite store_entry_walk by done.
      rewrite <- (install_walk (vpg s) v f Hok Hv Hp Hf Hfc u Hu Hdu (Hfu u Hu Hdu)). fold pg2.
      destruct (present (pde pg2 u)) eqn:Hpu; [|done]. cbn [andb].
      rewrite bool_decide_false; [done|]. intros E. apply Ha. left.
      unfold pte_word in E. rewrite !Hpde in E by done.
      pose proof (tbl_index_range u). pose proof (tbl_index_range v).
      rewrite (decide_True (P := dir_index v = dir_index v)) in E by done. rewrite He3 in E.
      destruct (decide (dir_index u = dir_index v)) as [Hdd|Hdd].
      * rewrite He3 in E. unfold dir_index, tbl_index in *. Z.div_mod_to_equations; lia.
      * exfalso. rewrite Hpde, decide_False in Hpu by done.
        revert E. apply word_ne; [apply frame_mod|apply Hf|by apply Hfu|done|done].
Qed.

(** The page just below the demonstration heap's table: a new table. *)

(** C17: [page_table_add(v, phy)] makes [v] translate to [phy] and changes no
    other translation, whether the page table exists or a fresh one is
    allocated, cleared through the recursive slot and installed. *)
Theorem page_table_add_maps s v phy f s1 :
  vaddr_ok v -> dir_index v < 1023 -> tables_ok (vpg s) -> frame_ok phy ->
  walk (vpg s) v = None ->
  palloc PF_KERNEL s = Ok (f, s1) -> vpg s1 = vpg s -> fresh_table (vpg s) f ->
  exists s', page_table_add v phy s = Ok (tt, s') /\
    walk (vpg s') v = Some (phy + page_off v) /\
    forall u, vaddr_ok u -> dir_index u < 1023 -> ~ alias (vpg s) u v ->
      walk (vpg s') u = walk (vpg s) u.
Proof.
  intros Hv Hd Hok Hphy Hw Hpa Hpg Hfr.
  destruct (page_table_add_run s v phy f s1) as (pg & s2 & Hr & _ & H1 & H2); [done..|].
  by exists (set_vpg pg s2).
Qed.

Lemma page_table_add_maps_witness :
  exists s', page_table_add 0xc0400000 0x205000 demo_vm = Ok (tt, s') /\
    walk (vpg s') 0xc0400000 = Some (0x205000 + page_off 0xc0400000) /\
    forall u, vaddr_ok u -> dir_index u < 1023 -> ~ alias (vpg demo_vm) u 0xc0400000 ->
      walk (vpg s') u = walk (vpg demo_vm) u.
Proof.
  destruct (palloc_spec _ demo_vm demo_kheap) as (f & r' & Hpa & Hf & _).
  { exists 0. by vm_compute. }
  apply (page_table_add_maps demo_vm 0xc0400000 0x205000 (frame_addr demo_vm f) (with_ram r' demo_vm));
    [done|done|apply (kh_tables _ _ demo_kheap)|done|reflexivity|exact Hpa|done|].
  destruct (frame_addr_ok _ _ demo_kheap f Hf) as [Hok _]. split; [done|].
  unfold frame_addr. simpl. split; [lia|]. intros u Hu Hd. rewrite demo_pde by done.
  case_decide; [|done]. intros _. change (frame 0x101007) with 0x101000. lia.
Defined.
