(* ===== verification/Arena.v ===== *)
(** * The byte heap: [sys_malloc] and [sys_free] of [kernel/memory.c]

    Requests of more than 1024 bytes get whole pages, smaller ones a block of
    one of seven sizes.  A page cut into blocks of one size, an arena, starts
    with a header; its free blocks are linked in the free list of the size's
    descriptor.  Headers, descriptors and links lie in memory, where the code
    puts them. *)
From S2P Require Import Prelude Machine Str Bitmap KList Paging Kernel Thread Sync Console Memory.

(** ** [struct mem_block_desc], [struct arena], [struct mem_block] *)

Definition DESC_CNT : nat := 7.

(** [struct mem_block_desc]: [block_size] at 0, [blocks_per_arena] at 4,
    [free_list] at 8. *)
Definition sizeof_mem_block_desc : Z := 24.
Definition desc_at (descs desc_idx : Z) : Z := descs + sizeof_mem_block_desc * desc_idx.
Definition block_size (d : Z) : M mach Z := load32 d.
Definition blocks_per_arena (d : Z) : M mach Z := load32 (d + 4).
Definition free_list (d : Z) : Z := d + 8.

(** [struct arena]: [desc] at 0, [cnt] at 4, [large] at 8. *)
Definition sizeof_arena : Z := 12.
Definition arena_desc (a : Z) : M mach Z := load32 a.
Definition arena_cnt (a : Z) : M mach Z := load32 (a + 4).
Definition arena_large (a : Z) : M mach Z := load32 (a + 8).
Definition set_arena (a desc cnt large : Z) : M mach unit :=
  store32 a desc;; store32 (a + 4) cnt;; store32 (a + 8) large.

(** ** Descriptors *)

(** The loop of [block_desc_init], [n] rounds before the end; both counters
    are [uint16_t]. *)
Fixpoint block_desc_loop (n : nat) (desc_array desc_idx bsize : Z) : M mach unit :=
  match n with
  | O => mret tt
  | S n =>
      let d := desc_at desc_array desc_idx in
      store32 d bsize;;
      store32 (d + 4) (u32 (PG_SIZE - sizeof_arena) / bsize);;
      list_init (free_list d);;
      block_desc_loop n desc_array (u16 (desc_idx + 1)) (u16 (bsize * 2))
  end.

Definition block_desc_init (desc_array : Z) : M mach unit :=
  block_desc_loop DESC_CNT desc_array 0 16.

Definition arena2block (a idx : Z) : M mach Z :=
  d ← arena_desc a;
  bsize ← block_size d;
  mret (u32 (a + sizeof_arena + idx * bsize)).

Definition block2arena (b : Z) : Z := Z.land b 0xfffff000.

(** The search for the first descriptor whose blocks are large enough. *)
Fixpoint find_desc (n : nat) (descs desc_idx size : Z) : M mach Z :=
  match n with
  | O => mret desc_idx
  | S n =>
      bsize ← block_size (desc_at descs desc_idx);
      if decide (size <= bsize) then mret desc_idx
      else find_desc n descs (u8 (desc_idx + 1)) size
  end.

(** ** Allocation *)

(** The loop that cuts arena [a] into blocks and links them. *)
Fixpoint split_loop (fuel lfuel : nat) (d a block_idx : Z) : M mach unit :=
  match fuel with
  | O => no_fuel
  | S fuel =>
      n ← blocks_per_arena d;
      if decide (block_idx < n) then
        b ← arena2block a block_idx;
        ad ← arena_desc a;
        found ← elem_find lfuel (free_list ad) b;
        ASSERT (negb found) "!elem_find(&a->desc->free_list, &b->free_elem)";;
        ad ← arena_desc a;
        list_append (free_list ad) b;;
        split_loop fuel lfuel d a (u32 (block_idx + 1))
      else mret tt
  end.

(** A fresh arena for descriptor [d]; [false] when there is no page. *)
Definition new_arena (fuel lfuel : nat) (PF : pool_flags) (d : Z) : M vm bool :=
  a ← malloc_page PF 1;
  if decide (a = 0) then mret false
  else
    on_m (memset a 0 PG_SIZE);;
    n ← on_m (blocks_per_arena d);
    on_m (set_arena a d n 0);;
    on_m (irqsave (split_loop fuel lfuel d a 0));;
    mret true.

(** The first free block of descriptor [d], cleared, its arena's count of
    free blocks decreased. *)
Definition take_block (d : Z) : M mach Z :=
  b ← list_pop (free_list d);
  bsize ← block_size d;
  memset b 0 bsize;;
  let a := block2arena b in
  cnt ← arena_cnt a;
  store32 (a + 4) (u32 (cnt - 1));;
  mret b.

Definition malloc_large (PF : pool_flags) (size : Z) : M vm Z :=
  let page_cnt := DIV_ROUND_UP (u32 (size + sizeof_arena)) PG_SIZE in
  a ← malloc_page PF page_cnt;
  if decide (a <> 0) then
    on_m (memset a 0 (u32 (page_cnt * PG_SIZE)));;
    on_m (set_arena a 0 page_cnt 1);;
    mret (a + sizeof_arena)
  else mret 0.

Definition malloc_small (fuel lfuel : nat) (PF : pool_flags) (descs size : Z) : M vm Z :=
  desc_idx ← on_m (find_desc DESC_CNT descs 0 size);
  let d := desc_at descs desc_idx in
  empty ← on_m (list_empty (free_list d));
  ok ← (if (empty : bool) then new_arena fuel lfuel PF d else mret true);
  if (ok : bool) then on_m (take_block d) else mret 0.

(** ** Release *)

(** The loop that unlinks the blocks of arena [a], all of them free. *)
Fixpoint unlink_loop (fuel lfuel : nat) (a block_idx : Z) : M mach unit :=
  match fuel with
  | O => no_fuel
  | S fuel =>
      d ← arena_desc a;
      n ← blocks_per_arena d;
      if decide (block_idx < n) then
        b ← arena2block a block_idx;
        d ← arena_desc a;
        found ← elem_find lfuel (free_list d) b;
        ASSERT found "elem_find(&a->desc->free_list, &b->free_elem)";;
        list_remove b;;
        unlink_loop fuel lfuel a (u32 (block_idx + 1))
      else mret tt
  end.

(** What [sys_free] does under the lock. *)
Definition free_block (fuel lfuel : nat) (PF : pool_flags) (ptr : Z) : M vm unit :=
  let b := ptr in
  let a := block2arena b in
  large ← on_m (arena_large a);
  ASSERT (bool_decide (large = 0) || bool_decide (large = 1)) "a->large == 0 || a->large == 1";;
  d ← on_m (arena_desc a);
  if decide (d = 0 /\ large = 1) then
    cnt ← on_m (arena_cnt a);
    mfree_page PF a cnt
  else
    on_m (list_append (free_list d) b);;
    cnt ← on_m (arena_cnt a);
    on_m (store32 (a + 4) (u32 (cnt + 1)));;
    cnt ← on_m (arena_cnt a);
    d ← on_m (arena_desc a);
    n ← on_m (blocks_per_arena d);
    if decide (cnt = n) then
      on_m (unlink_loop fuel lfuel a 0);;
      mfree_page PF a 1
    else mret tt.

(** ** The system calls

    [k_block_descs] is the address of the kernel's descriptors. *)

(** [u_block_descs] in [struct task_struct]. *)
Definition u_block_descs (t : Z) : Z := t + 100.

Definition heap_of (t_pgdir : Z) : pool_flags := if decide (t_pgdir = 0) then PF_KERNEL else PF_USER.

Definition sys_malloc (k_block_descs : Z) (lkfuel fuel lfuel : nat) (size : Z) : K Z :=
  cur_thread ← running_thread;
  cur ← get_task cur_thread;
  mem ← kget kmem;
  let PF := heap_of (pgdir cur) in
  let size_of_pool :=
    pool_size (match PF with PF_KERNEL => kernel_pool mem | PF_USER => user_pool mem end) in
  let descs := match PF with PF_KERNEL => k_block_descs | PF_USER => u_block_descs cur_thread end in
  if negb (bool_decide (size > 0) && bool_decide (size < size_of_pool)) then mret 0
  else
    lock_acquire lkfuel (pool_lock PF);;
    p ← on_vm (if decide (size > 1024) then malloc_large PF size
               else malloc_small fuel lfuel PF descs size);
    lock_release (pool_lock PF);;
    mret p.

Definition sys_free (lkfuel fuel lfuel : nat) (ptr : Z) : K unit :=
  KASSERT (bool_decide (ptr <> 0)) "ptr != NULL";;
  if decide (ptr <> 0) then
    cur_thread ← running_thread;
    cur ← get_task cur_thread;
    let PF := heap_of (pgdir cur) in
    (if decide (pgdir cur = 0) then
       KASSERT (bool_decide (ptr >= K_HEAP_START)) "(uint32_t)ptr >= K_HEAP_START"
     else mret tt);;
    lock_acquire lkfuel (pool_lock PF);;
    on_vm (free_block fuel lfuel PF ptr);;
    lock_release (pool_lock PF)
  else mret tt.

(** [mem_init]; the amount of memory is fixed in the code. *)
Definition mem_init (k_block_descs : Z) : K unit :=
  on_mach (put_line "mem_init start");;
  mem_pool_init 0x2000000;;
  on_mach (block_desc_init k_block_descs);;
  on_mach (put_line "mem_init done").
