(* ===== verification/PageAlloc.v ===== *)
(** * What the byte heap needs of the page allocator

    An interface: pages numbered from a base address, a set of used pages,
    the bytes the allocator keeps its bitmaps in, and the laws of
    [malloc_page] and [mfree_page].  The kernel's page heap implements it. *)
From S2P Require Import Prelude Machine Str Bitmap Paging Kernel Thread Sync Console Memory.
From S2P Require Import PageHeap.

(** A call of the allocator changes memory only in the allocator's bytes [P]. *)
Record pa_step (P : Z -> Prop) (s s' : vm) : Prop := {
  ps_mem : vmem s' = vmem s;
  ps_cur : vcur s' = vcur s;
  ps_cr3 : cr3 (vpg s') = cr3 (vpg s);
  ps_pde : forall u, vaddr_ok u -> pde (vpg s') u = pde (vpg s) u;
  ps_mach : vmach s' = set_ram (ram (vmach s')) (vmach s);
  ps_ram : agree (fun a => ~ P a) (ram (vmach s)) (ram (vmach s'))
}.

Class PageAlloc (pf : pool_flags) := {
  pa_inv : vm -> Prop;
  pa_base : vm -> Z;
  pa_pages : vm -> Z;
  pa_used : vm -> Z -> bool;
  pa_private : vm -> Z -> Prop;
  (** [n] more pages can be had. *)
  pa_room : vm -> Z -> Prop;
  pa_static s s' : vmem s' = vmem s -> vcur s' = vcur s ->
    pa_base s' = pa_base s /\ pa_pages s' = pa_pages s /\
    forall a, pa_private s' a <-> pa_private s a;
  pa_geometry s : pa_inv s ->
    0 < pa_base s /\ pa_base s mod 4096 = 0 /\ pa_base s + 4096 * pa_pages s <= 0xffc00000;
  pa_apart s a : pa_inv s -> pa_private s a ->
    ~ pa_base s <= a < pa_base s + 4096 * pa_pages s;
  pa_outside s r : pa_inv s -> agree (pa_private s) (ram (vmach s)) r ->
    pa_inv (with_ram r s) /\
    (forall i, 0 <= i < pa_pages s -> pa_used (with_ram r s) i = pa_used s i) /\
    (forall n, pa_room s n -> pa_room (with_ram r s) n);
  pa_malloc s n : pa_inv s -> 0 < n < 3840 -> pa_room s n ->
    exists i s', malloc_page pf n s = Ok (pa_base s + 4096 * i, s') /\
      0 <= i /\ i + n <= pa_pages s /\ pa_inv s' /\ pa_step (pa_private s) s s' /\
      (forall j, i <= j < i + n -> pa_used s j = false) /\
      (forall j, 0 <= j < pa_pages s ->
         pa_used s' j = if decide (i <= j < i + n) then true else pa_used s j);
  (** What a call leaves of the room. *)
  pa_room_left s n m i s' : pa_inv s -> 0 < n < 3840 -> 0 <= m -> pa_room s (n + m) ->
    malloc_page pf n s = Ok (pa_base s + 4096 * i, s') -> pa_room s' m;
  pa_room_less s n m : pa_room s n -> 0 <= m <= n -> pa_room s m;
  pa_mfree s i n : pa_inv s -> 0 < n -> 0 <= i -> i + n <= pa_pages s ->
    (forall j, i <= j < i + n -> pa_used s j = true) ->
    exists s', mfree_page pf (pa_base s + 4096 * i) n s = Ok (tt, s') /\
      pa_inv s' /\ pa_step (pa_private s) s s' /\
      (forall j, 0 <= j < pa_pages s ->
         pa_used s' j = if decide (i <= j < i + n) then false else pa_used s j) /\
      forall m, pa_room s m -> pa_room s' m
}.

(** ** The kernel's pages *)

(** The bytes of the two bitmaps. *)
Definition bitmap_bytes (s : vm) (a : Z) : Prop :=
  bits (kbm s) <= a < bits (kbm s) + btmp_bytes_len (kbm s) \/
  bits (vbm s) <= a < bits (vbm s) + btmp_bytes_len (vbm s).

(** The page heap, its bitmaps not in its own pages. *)
Record kernel_pages (s : vm) : Prop := {
  kp_heap : kheap s;
  kp_bitmaps : forall a, bitmap_bytes s a -> ~ page_addr s 0 <= a < page_addr s (npages s)
}.

(** The page tables of the current address space lie below the frames the
    page allocator hands out. *)
Definition tables_below (s : vm) : Prop :=
  forall u, vaddr_ok u -> present (pde (vpg s) u) = true -> frame (pde (vpg s) u) < frame_addr s 0.

Definition kernel_room (s : vm) (n : Z) : Prop :=
  (exists q, 0 <= q /\ q + n <= npages s /\ free_run (vbit s) q n) /\ (Z.to_nat n <= nfree s)%nat.

Lemma bitmap_bytes_bits s r :
  agree (bitmap_bytes s) (ram (vmach s)) r ->
  (forall i, 0 <= i < npages s -> vbit (with_ram r s) i = vbit s i) /\
  (forall f, 0 <= f < nframes s -> kbit (with_ram r s) f = kbit s f).
Proof.
  intros Hag. split; intros i Hi.
  - unfold vbit. eapply rbit_outside; [exact Hag| |exact Hi]. intros a Ha. by right.
  - unfold kbit. eapply rbit_outside; [exact Hag| |exact Hi]. intros a Ha. by left.
Qed.

Lemma kheap_outside s r :
  kheap s -> agree (bitmap_bytes s) (ram (vmach s)) r -> kheap (with_ram r s).
Proof.
  intros [H1 H2 H3 H4 H5 H6 H7 H8 H9 H10 H11] Hag.
  destruct (bitmap_bytes_bits s r Hag) as [Hv Hk]. split; try done.
  - intros i Hi. change (npages (with_ram r s)) with (npages s) in Hi. rewrite Hv by done.
    exact (H9 i Hi).
  - intros i Hi. change (npages (with_ram r s)) with (npages s) in Hi. rewrite Hv by done.
    intros Hu Hn. destruct (H10 i Hi Hu Hn) as (Hp & f & Hf & Hfa & Hkf). split; [done|].
    exists f. split; [done|]. split; [done|]. by rewrite Hk.
Qed.

Lemma heap_frame_step s s' : heap_frame s s' -> pa_step (bitmap_bytes s) s s'.
Proof.
  intros [H1 H2 H3 Hp H4 H5 _]. split; try done. eapply agree_weaken; [|exact H5].
  intros a Ha. unfold bitmap_bytes in Ha. simpl. tauto.
Qed.

(** The heap is what the pools, the tables and memory say. *)
Lemma kernel_pages_view s s' :
  vmem s' = vmem s -> vpg s' = vpg s -> ram (vmach s') = ram (vmach s) ->
  (kernel_pages s -> kernel_pages s') /\ (forall n, kernel_room s n -> kernel_room s' n) /\
  forall i, vbit s' i = vbit s i.
Proof.
  intros Em Ep Er. split_and!.
  - intros [[H1 H2 H3 H4 H5 H6 H7 H8 H9 H10 H11] Hb].
    unfold bitmap_bytes, hpte, nframes, npages, kbit, vbit, frame_addr, page_addr, kbm, vbm in *.
    rewrite <- ?Em, <- ?Ep, <- ?Er in *.
    split; [split|]; unfold bitmap_bytes, hpte, nframes, npages, kbit, vbit, frame_addr, page_addr, kbm, vbm; done.
  - unfold kernel_room, nfree, clear_bits, nframes, npages, kbit, vbit, kbm, vbm. by rewrite Em, Er.
  - intros i. unfold vbit, vbm. by rewrite Em, Er.
Qed.

Lemma kernel_room_outside s r n :
  agree (bitmap_bytes s) (ram (vmach s)) r -> kernel_room s n -> kernel_room (with_ram r s) n.
Proof.
  intros Hag [(q & Hq & Hqe & Hrun) Hn]. destruct (bitmap_bytes_bits s r Hag) as [Hv Hk].
  split.
  - exists q. split; [done|]. split; [done|]. intros i Hi. rewrite Hv by lia. by apply Hrun.
  - replace (nfree (with_ram r s)) with (nfree s); [done|]. unfold nfree, clear_bits.
    change (nframes (with_ram r s)) with (nframes s). f_equal. apply filter_same.
    intros f Hf%elem_of_seqZ. apply Hk. lia.
Qed.

Lemma kernel_pages_step s s' : kernel_pages s -> kheap s' -> heap_frame s s' -> kernel_pages s'.
Proof.
  intros [H1 H2] H' Hf. destruct (heap_frame_views _ _ Hf) as (Ek & Ev & En & Ep & Ef & Ea).
  split; [done|]. intros a. unfold bitmap_bytes. rewrite Ek, Ev, Ep, !Ea. apply H2.
Qed.

(** The run left is behind the pages taken, or in front of them. *)
Lemma kernel_room_left s n m i s' :
  kernel_pages s -> 0 < n < 3840 -> 0 <= m -> kernel_room s (n + m) ->
  malloc_page PF_KERNEL n s = Ok (page_addr s 0 + 4096 * i, s') -> kernel_room s' m.
Proof.
  intros Hs Hn Hm [(q & Hq & Hqe & Hrun) Hfree] Hmal. pose proof (kp_heap s Hs) as H.
  destruct (malloc_page_kernel s n q) as (i0 & s0 & Hm0 & Hi & Hie & _ & [A1 A2 A3 _ _ _ A7 A8]);
    [done..|lia|intros j Hj; apply Hrun; lia|lia|].
  rewrite Hm0 in Hmal. injection Hmal as Ei <-.
  assert (Hiq : i0 <= q) by (apply A7; [done|lia|intros j Hj; apply Hrun; lia]).
  destruct (heap_frame_views _ _ A2) as (_ & _ & _ & Ep & _ & _).
  split; [|lia]. rewrite Ep. exists (q + n). split; [lia|]. split; [lia|].
  intros j Hj. rewrite A3, decide_False by lia. apply Hrun. lia.
Qed.

(** Pages given back are room, too. *)
Lemma kernel_room_freed s s' i n m :
  released_run s s' i n -> kernel_room s m -> kernel_room s' m.
Proof.
  intros [F V _ _ K] [(q & Hq & Hqe & Hrun) Hfree].
  destruct (heap_frame_views _ _ F) as (_ & _ & En & Ep & _ & _). split.
  - rewrite Ep. exists q. split; [done|]. split; [done|]. intros j Hj. rewrite V by lia.
    case_decide; [done|]. by apply Hrun.
  - etransitivity; [exact Hfree|]. unfold nfree, clear_bits. rewrite En.
    apply submseteq_length, NoDup_submseteq; [apply NoDup_filter, NoDup_seqZ|].
    intros f [Hf Hin]%list_elem_of_filter. apply list_elem_of_filter. split; [|done].
    apply elem_of_seqZ in Hin. destruct (kbit s' f) eqn:E; [|done].
    apply K in E as [E _]; [|lia]. by rewrite E in Hf.
Qed.

#[export, refine] Instance kernel_PageAlloc : PageAlloc PF_KERNEL := {|
  pa_inv := kernel_pages;
  pa_base s := page_addr s 0;
  pa_pages := npages;
  pa_used := vbit;
  pa_private := bitmap_bytes;
  pa_room := kernel_room
|}.
Proof.
  - intros s s' Hm Hc. unfold npages, page_addr, bitmap_bytes, kbm, vbm. by rewrite Hm.
  - intros s [H _]. destruct (kh_pages _ _ H) as (H1 & H2 & H3).
    split; [done|]. split; [done|]. unfold page_addr in *. lia.
  - intros s a [_ H] Ha. specialize (H a Ha). unfold page_addr in *. lia.
  - intros s r [H Hb] Hag. split; [|split].
    + split; [by apply kheap_outside|exact Hb].
    + by apply bitmap_bytes_bits.
    + intros n. by apply kernel_room_outside.
  - intros s n Hs Hn [(q & Hq & Hqe & Hrun) Hfree].
    pose proof (kp_heap s Hs) as H. destruct (malloc_page_kernel s n q) as (i & s' & Hm & Hi & Hie & H' & [A1 A2 A3 A4 A5 A6 A7 A8]);
      [done..|].
    exists i, s'. split; [rewrite Hm; unfold page_addr; apply Ok_val; lia|].
    split; [done|]. split; [done|]. split; [by eapply kernel_pages_step|].
    split; [by apply heap_frame_step|]. by split.
  - intros s n m i s'. apply kernel_room_left.
  - intros s n m [(q & Hq & Hqe & Hrun) Hfree] Hm. split; [|lia]. exists q. split; [done|]. split; [lia|].
    intros i Hi. apply Hrun. lia.
  - intros s i n Hs Hn Hi Hie Hu. pose proof (kp_heap s Hs) as H.
    destruct (mfree_page_kernel s i n) as (s' & Hm & H' & HR); [done..|]. pose proof HR as [R1 R2 R3 R4 R5].
    exists s'. replace (page_addr s 0 + 4096 * i) with (page_addr s i) by (unfold page_addr; lia).
    split; [done|]. split; [by eapply kernel_pages_step|]. split; [by apply heap_frame_step|].
    split; [done|]. intros m. by apply (kernel_room_freed s s' i n).
Defined.

Lemma demo_pages : kernel_pages demo_vm.
Proof.
  split; [exact demo_kheap|]. intros a Ha. unfold bitmap_bytes in Ha. simpl in Ha.
  unfold page_addr. simpl. unfold npages. simpl. lia.
Qed.
