(* ===== verification/ArenaHeap.v ===== *)
(** * The byte heap is correct

    The invariant of the arenas and free lists in memory, its abstract view
    (which pages are cut into which blocks, which blocks are free), and the
    effect of [sys_malloc] and [sys_free] on the set of live blocks. *)
From S2P Require Import Prelude Machine Str Bitmap KList Paging Kernel Thread Sync Console Memory.
From S2P Require Import PageHeap PageAlloc Arena.

(** ** Size classes *)

(** Class [c] of 0..6 has blocks of 16, 32, ..., 1024 bytes. *)
Definition bsz (c : Z) : Z := 16 * 2 ^ c.
Definition per (c : Z) : Z := 4084 / bsz c.

Lemma class_facts c : 0 <= c < 7 ->
  16 <= bsz c <= 1024 /\ 3 <= per c <= 255 /\ per c * bsz c <= 4084 /\ bsz (c + 1) = 2 * bsz c.
Proof.
  intros Hc. assert (H : forall d, (fun d => bool_decide (
    16 <= bsz d <= 1024 /\ 3 <= per d <= 255 /\ per d * bsz d <= 4084 /\ bsz (d + 1) = 2 * bsz d)) d
    = true -> 16 <= bsz d <= 1024 /\ 3 <= per d <= 255 /\ per d * bsz d <= 4084 /\
              bsz (d + 1) = 2 * bsz d).
  { intros d Hd. by apply bool_decide_eq_true in Hd. }
  apply H. assert (Hx : c = 0 \/ c = 1 \/ c = 2 \/ c = 3 \/ c = 4 \/ c = 5 \/ c = 6) by lia.
  by destruct Hx as [->|[->|[->|[->|[->|[->| ->]]]]]].
Qed.

(** ** The abstract heap *)

Inductive arena_kind :=
| Small (c : Z)      (* one page of blocks of class [c] *)
| Large (n : Z).     (* [n] pages, one block *)

(** Arenas by the number of their first page; free lists by class. *)
Record gheap := GHeap {
  arenas : gmap Z arena_kind;
  frees : Z -> list Z
}.

Definition span (k : arena_kind) : Z := match k with Small _ => 1 | Large n => n end.
Definition set_frees (c : Z) (xs : list Z) (G : gheap) : gheap :=
  GHeap (arenas G) (fun c' => if decide (c' = c) then xs else frees G c').
Definition add_arena (p : Z) (k : arena_kind) (G : gheap) : gheap :=
  GHeap (<[p := k]> (arenas G)) (frees G).
Definition del_arena (p : Z) (G : gheap) : gheap := GHeap (delete p (arenas G)) (frees G).

Section layout.
(** The first page's address, the number of pages, the descriptors. *)
Context (B N D : Z).

Definition page_at (p : Z) : Z := B + 4096 * p.
Definition blk (p c k : Z) : Z := page_at p + 12 + k * bsz c.
Definition in_page (p x : Z) : Prop := page_at p <= x < page_at p + 4096.
#[export] Instance in_page_dec p x : Decision (in_page p x).
Proof. unfold in_page. apply _. Defined.
(** The free blocks of a list that lie in page [p]. *)
Definition count (p : Z) (xs : list Z) : Z := Z.of_nat (length (filter (in_page p) xs)).
Definition lst (c : Z) : Z := free_list (desc_at D c).

(** A block of [n] bytes at [x] that is allocated. *)
Inductive live (G : gheap) : Z -> Z -> Prop :=
| live_small p c k : arenas G !! p = Some (Small c) -> 0 <= k < per c ->
    blk p c k ∉ frees G c -> live G (blk p c k) (bsz c)
| live_large p n : arenas G !! p = Some (Large n) -> live G (page_at p + 12) (4096 * n - 12).

(** The address space the heap lives in. *)
Record layout : Prop := {
  ly_base : 0 < B /\ B mod 4096 = 0;
  ly_top : B + 4096 * N <= 0xffc00000;
  ly_descs : 0 < D /\ (D + 168 <= B \/ B + 4096 * N <= D) /\ D + 168 <= 4294967296
}.

Record heap_ok (G : gheap) : Prop := {
  ho_small p c : arenas G !! p = Some (Small c) -> 0 <= c < 7 /\ 0 <= p < N;
  ho_large p n : arenas G !! p = Some (Large n) -> 0 < n < 3840 /\ 0 <= p /\ p + n <= N;
  ho_disj p q k k' : arenas G !! p = Some k -> arenas G !! q = Some k' -> p <> q ->
    p + span k <= q \/ q + span k' <= p;
  ho_free c x : 0 <= c < 7 -> x ∈ frees G c ->
    exists p k, arenas G !! p = Some (Small c) /\ 0 <= k < per c /\ x = blk p c k;
  ho_nodup c : 0 <= c < 7 -> NoDup (frees G c)
}.

(** The abstract heap is what memory holds; [cnt p] is the count in the header
    of arena [p]. *)
Record heap_repr (r : gmap Z Z) (cnt : Z -> Z) (G : gheap) : Prop := {
  hr_size c : 0 <= c < 7 -> ld32 r (desc_at D c) = bsz c /\ ld32 r (desc_at D c + 4) = per c;
  hr_list c : 0 <= c < 7 -> list_at r (lst c) (frees G c);
  hr_small p c : arenas G !! p = Some (Small c) ->
    ld32 r (page_at p) = desc_at D c /\ ld32 r (page_at p + 8) = 0;
  hr_large p n : arenas G !! p = Some (Large n) ->
    ld32 r (page_at p) = 0 /\ ld32 r (page_at p + 8) = 1;
  hr_count p k : arenas G !! p = Some k -> ld32 r (page_at p + 4) = cnt p
}.

(** The counts are right: free blocks of a small arena, pages of a large one. *)
Definition counts_ok (cnt : Z -> Z) (G : gheap) : Prop := forall p k, arenas G !! p = Some k ->
  cnt p = match k with Small c => count p (frees G c) | Large n => n end.

(** ** Geometry *)

Lemma blk_page p c k : 0 <= c < 7 -> 0 <= k < per c ->
  page_at p + 12 <= blk p c k /\ blk p c k + bsz c <= page_at p + 4096.
Proof. intros Hc Hk. destruct (class_facts c Hc) as (H1 & H2 & H3 & _). unfold blk. nia. Qed.

Lemma blk_apart p q c k k' : 0 <= c < 7 -> 0 <= k < per c -> 0 <= k' < per c ->
  p <> q \/ k <> k' ->
  blk p c k + bsz c <= blk q c k' \/ blk q c k' + bsz c <= blk p c k.
Proof.
  intros Hc Hk Hk' Hne. pose proof (blk_page p c k Hc Hk). pose proof (blk_page q c k' Hc Hk').
  destruct (decide (p = q)) as [->|Hpq].
  - destruct (class_facts c Hc) as (H1 & _). unfold blk. nia.
  - unfold page_at in *. lia.
Qed.

Lemma blk_inj p q c k k' : 0 <= c < 7 -> 0 <= k < per c -> 0 <= k' < per c ->
  blk p c k = blk q c k' -> p = q /\ k = k'.
Proof.
  intros Hc Hk Hk' E. destruct (class_facts c Hc) as (H1 & _).
  destruct (decide (p = q /\ k = k')) as [|Hn]; [done|].
  destruct (blk_apart p q c k k') as [?|?]; [done..| | |]; lia.
Qed.

Lemma page_unique p q x : in_page p x -> in_page q x -> p = q.
Proof. unfold in_page, page_at. lia. Qed.

Lemma lst_range c : 0 <= c < 7 -> D + 8 <= lst c /\ lst c + 16 <= D + 168.
Proof. intros. unfold lst, free_list, desc_at, sizeof_mem_block_desc. lia. Qed.

(** ** What the operations on class [c] change *)

Context (Hly : layout).

(** The free blocks of a class. *)
Definition cells (G : gheap) (c i : Z) : Prop :=
  exists p k, arenas G !! p = Some (Small c) /\ 0 <= k < per c /\
    blk p c k ∈ frees G c /\ blk p c k <= i < blk p c k + bsz c.

(** The head of the class's list and its free blocks. *)
Definition changed (G : gheap) (c i : Z) : Prop := lst c <= i < lst c + 16 \/ cells G c i.

(** Addresses of live blocks, and everything that is not the heap's. *)
Definition others (G : gheap) (i : Z) : Prop :=
  (exists x n, live G x n /\ x <= i < x + n) \/
  ~ (D <= i < D + 168 \/ B <= i < B + 4096 * N).

Section facts.
Context (G : gheap) (Hok : heap_ok G).

Lemma arena_range p k : arenas G !! p = Some k -> 0 < span k /\ 0 <= p /\ p + span k <= N.
Proof.
  intros Hp. destruct k as [c|n]; simpl.
  - destruct (ho_small _ Hok p c Hp). lia.
  - destruct (ho_large _ Hok p n Hp). lia.
Qed.

Lemma arena_sep p q k k' i : arenas G !! p = Some k -> arenas G !! q = Some k' ->
  page_at p <= i < page_at p + 4096 * span k -> page_at q <= i < page_at q + 4096 * span k' ->
  p = q.
Proof.
  intros Hp Hq Hi Hi'. destruct (decide (p = q)) as [|Hne]; [done|].
  destruct (ho_disj _ Hok p q k k' Hp Hq Hne); unfold page_at in *; lia.
Qed.

Lemma live_in x n : live G x n -> exists p k, arenas G !! p = Some k /\
  page_at p + 12 <= x /\ x + n <= page_at p + 4096 * span k /\ 0 < n.
Proof.
  intros [p c k Hp Hk Hf|p m Hp].
  - destruct (ho_small _ Hok p c Hp) as [Hc _]. exists p, (Small c).
    pose proof (blk_page p c k Hc Hk). destruct (class_facts c Hc). simpl. split; [done|lia].
  - destruct (ho_large _ Hok p m Hp) as [Hm _]. exists p, (Large m). simpl. split; [done|lia].
Qed.

Lemma cells_in c i : cells G c i -> exists p, arenas G !! p = Some (Small c) /\
  page_at p + 12 <= i < page_at p + 4096 * span (Small c).
Proof.
  intros (p & k & Hp & Hk & _ & Hi). exists p. split; [done|].
  destruct (ho_small _ Hok p c Hp) as [Hc _]. pose proof (blk_page p c k Hc Hk). simpl. lia.
Qed.

Lemma in_heap p k i : arenas G !! p = Some k -> page_at p <= i < page_at p + 4096 * span k ->
  B <= i < B + 4096 * N /\ ~ D <= i < D + 168.
Proof.
  intros Hp Hi. destruct (arena_range p k Hp). destruct Hly as [_ _ [_ [? _]]].
  unfold page_at in *. lia.
Qed.

Lemma cell_unique c p k i : arenas G !! p = Some (Small c) -> 0 <= k < per c ->
  blk p c k <= i < blk p c k + bsz c -> cells G c i -> blk p c k ∈ frees G c.
Proof.
  intros Hp Hk Hi (q & k' & Hq & Hk' & Hf & Hi'). destruct (ho_small _ Hok p c Hp) as [Hc _].
  destruct (decide (p = q /\ k = k')) as [[-> ->]|Hne]; [done|].
  destruct (blk_apart p q c k k'); [done..|lia| |]; lia.
Qed.

Lemma header_cells c p k i : arenas G !! p = Some k -> page_at p <= i < page_at p + 12 ->
  ~ cells G c i.
Proof.
  intros Hp Hi (q & Hq & Hqi)%cells_in. destruct (arena_range p k Hp) as [Hs _].
  assert (p = q) as -> by (eapply (arena_sep p q k (Small c) i); try done; lia). lia.
Qed.

Lemma outside_nodes c i : 0 <= c < 7 -> ~ lst c <= i < lst c + 16 -> ~ cells G c i ->
  outside (nodes (lst c) (frees G c)) i.
Proof.
  intros Hc Hl Hn. unfold outside, nodes, head_of, tail_of.
  rewrite Forall_cons, Forall_app, Forall_singleton. split_and!; [lia| |lia].
  rewrite Forall_forall. intros x Hx Hi. apply Hn.
  destruct (ho_free _ Hok c x Hc Hx) as (p & k & Hp & Hk & ->). exists p, k.
  destruct (class_facts c Hc). split_and!; try done; lia.
Qed.
End facts.

Lemma heap_ok_set_frees G c ys :
  heap_ok G -> 0 <= c < 7 -> NoDup ys ->
  (forall x, x ∈ ys -> exists p k, arenas G !! p = Some (Small c) /\ 0 <= k < per c /\ x = blk p c k) ->
  heap_ok (set_frees c ys G).
Proof.
  intros [H1 H2 H3 H4 H5] Hc Hnd Hys. split; try done.
  - intros c' x Hc'. simpl. case_decide as E; [subst; apply Hys|by apply H4].
  - intros c' Hc'. simpl. case_decide; [done|by apply H5].
Qed.

Section changes.
Context (G : gheap) (Hok : heap_ok G).

Lemma outside_changed c i : 0 <= c < 7 -> ~ changed G c i -> outside (nodes (lst c) (frees G c)) i.
Proof.
  intros Hc Hn. apply (outside_nodes G Hok c i Hc); intros H; apply Hn; [by left|by right].
Qed.

Lemma changed_loc c i : 0 <= c < 7 -> changed G c i ->
  D + 24 * c + 8 <= i < D + 24 * c + 24 \/
  exists p, arenas G !! p = Some (Small c) /\ page_at p + 12 <= i < page_at p + 4096.
Proof.
  intros Hc [Hi|Hi].
  - left. unfold lst, free_list, desc_at, sizeof_mem_block_desc in *. lia.
  - right. apply (cells_in G Hok c i) in Hi as (p & Hp & Hi). exists p. simpl in Hi. split; [done|lia].
Qed.

(** Where [i] is decides which part of the heap it can belong to. *)
Lemma changed_descs c c' i : 0 <= c < 7 -> desc_at D c' <= i < desc_at D c' + 8 -> 0 <= c' < 7 ->
  ~ changed G c i.
Proof.
  intros Hc Hi Hc' [Hl|(p & Hp & Hpi)]%changed_loc; [| |done].
  - unfold desc_at, sizeof_mem_block_desc in *. lia.
  - destruct (in_heap G Hok p (Small c) i Hp) as [_ Hn]; [simpl; lia|]. apply Hn.
    unfold desc_at, sizeof_mem_block_desc in *. lia.
Qed.

Lemma changed_header c p k i : 0 <= c < 7 -> arenas G !! p = Some k ->
  page_at p <= i < page_at p + 12 -> ~ changed G c i.
Proof.
  intros Hc Hp Hi [Hl|(q & Hq & Hqi)]%changed_loc; [| |done].
  - destruct (arena_range G Hok p k Hp) as (Hs & _).
    destruct (in_heap G Hok p k i Hp) as [_ Hn]; [lia|]. lia.
  - destruct (arena_range G Hok p k Hp) as (Hs & _).
    assert (q = p) as -> by (eapply (arena_sep G Hok q p (Small c) k i); try done; simpl; lia). lia.
Qed.

Lemma changed_list c c' i : 0 <= c < 7 -> 0 <= c' < 7 -> c' <> c ->
  changed G c' i -> ~ changed G c i.
Proof.
  intros Hc Hc' Hne H'%changed_loc H%changed_loc; [|done..].
  destruct H' as [H'|(p & Hp & Hi)], H as [H|(q & Hq & Hi')]; [lia| | |].
  - destruct (in_heap G Hok q (Small c) i Hq) as [_ Hn]; simpl; lia.
  - destruct (in_heap G Hok p (Small c') i Hp) as [_ Hn]; simpl; lia.
  - assert (p = q) as -> by (eapply (arena_sep G Hok p q _ _ i); try done; simpl; lia). congruence.
Qed.

Lemma others_descs i : D <= i < D + 168 -> ~ others G i.
Proof.
  intros Hi [(x & n & Hl & Hx)|Hn]; [|lia].
  destruct (live_in G Hok x n Hl) as (p & k & Hp & Hxp & Hxn & _).
  destruct (in_heap G Hok p k i Hp) as [_ Hn]; lia.
Qed.

Lemma others_header p k i : arenas G !! p = Some k -> page_at p <= i < page_at p + 12 -> ~ others G i.
Proof.
  intros Hp Hi. destruct (arena_range G Hok p k Hp) as (Hs & _).
  intros [(x & n & Hl & Hx)|Hn].
  - destruct (live_in G Hok x n Hl) as (q & k' & Hq & Hxq & Hxn & _).
    assert (p = q) as -> by (eapply (arena_sep G Hok p q k k' i); try done; lia). lia.
  - destruct (in_heap G Hok p k i Hp); lia.
Qed.

Lemma others_changed c i : 0 <= c < 7 -> changed G c i -> ~ others G i.
Proof.
  intros Hc Hch Ho. destruct (changed_loc c i Hc Hch) as [Hi|(q & Hq & Hqi)].
  { apply (others_descs i); [lia|done]. }
  destruct Ho as [(x & n & Hl & Hi)|Hn].
  - destruct Hch as [Hh|Hcell].
    { pose proof (lst_range c Hc). destruct (in_heap G Hok q (Small c) i Hq); simpl in *; lia. }
    destruct Hl as [p c' k' Hp Hk' Hnf|p m Hp].
    + destruct (ho_small _ Hok _ _ Hp) as [Hc' _]. pose proof (blk_page p c' k' Hc' Hk').
      assert (q = p) as -> by (eapply (arena_sep G Hok q p _ _ i); try done; simpl; lia).
      rewrite Hq in Hp. injection Hp as <-. by apply Hnf, (cell_unique G Hok c p k' i).
    + assert (q = p) as -> by (eapply (arena_sep G Hok q p _ _ i); try done; simpl; lia).
      congruence.
  - destruct (in_heap G Hok q (Small c) i Hq); [simpl|]; lia.
Qed.

(** The heap's own data: descriptors' sizes, lists, headers. *)
Lemma heap_repr_agree (P : Z -> Prop) r r' cnt :
  heap_repr r cnt G -> agree (fun i => ~ P i) r r' ->
  (forall c i, 0 <= c < 7 -> desc_at D c <= i < desc_at D c + 8 -> ~ P i) ->
  (forall c i, 0 <= c < 7 -> changed G c i -> ~ P i) ->
  (forall p k i, arenas G !! p = Some k -> page_at p <= i < page_at p + 12 -> ~ P i) ->
  heap_repr r' cnt G.
Proof.
  intros [R1 R2 R3 R4 R5] Hag Hd Hl Hh.
  assert (Hhd : forall q k d, arenas G !! q = Some k -> 0 <= d <= 8 ->
            ld32 r' (page_at q + d) = ld32 r (page_at q + d)).
  { intros q k d Hq Hdr. eapply agree_ld32; [exact Hag|]. intros i Hi. apply (Hh q k); [done|lia]. }
  split.
  - intros c Hc. destruct (R1 c Hc) as [<- <-].
    split; eapply agree_ld32; try exact Hag; intros i Hi; apply (Hd c); try done; lia.
  - intros c Hc. eapply list_at_agree; [|by apply R2]. eapply agree_weaken; [|exact Hag].
    intros i Hi HP. apply Hi, outside_changed; [done|]. intros Hch. by apply (Hl c i).
  - intros q c Hq. destruct (R3 q c Hq) as [<- <-]. rewrite <- (Z.add_0_r (page_at q)) at 1 2.
    split; by eapply Hhd.
  - intros q n Hq. destruct (R4 q n Hq) as [<- <-]. rewrite <- (Z.add_0_r (page_at q)) at 1 2.
    split; by eapply Hhd.
  - intros q k Hq. rewrite <- (R5 q k Hq). by eapply Hhd.
Qed.

(** Writing live blocks, or memory that is not the heap's, leaves the heap
    as it is. *)
Lemma repr_others r r' cnt :
  heap_repr r cnt G -> agree (fun i => ~ others G i) r r' -> heap_repr r' cnt G.
Proof.
  intros Hr Hag. eapply heap_repr_agree; [done|exact Hag|..].
  - intros c i Hc Hi. apply others_descs. unfold desc_at, sizeof_mem_block_desc in *. lia.
  - intros c i. apply others_changed.
  - intros p k i. apply others_header.
Qed.
End changes.

(** An operation on the free list of one class. *)
Lemma repr_list G c ys xs r r' cnt :
  heap_ok (set_frees c ys G) -> 0 <= c < 7 -> heap_repr r cnt G ->
  agree (fun i => ~ changed (set_frees c ys G) c i) r r' ->
  list_at r' (lst c) xs -> heap_repr r' cnt (set_frees c xs G).
Proof.
  intros Hok Hc [R1 R2 R3 R4 R5] Hag Hl.
  assert (Hhd : forall q k d, arenas G !! q = Some k -> 0 <= d <= 8 ->
            ld32 r' (page_at q + d) = ld32 r (page_at q + d)).
  { intros q k d Hq Hdr. eapply agree_ld32; [exact Hag|]. intros i Hi.
    apply (changed_header _ Hok c q k); [done..|lia]. }
  split; simpl.
  - intros c' Hc'. destruct (R1 c' Hc') as [<- <-].
    split; eapply agree_ld32; try exact Hag; intros i Hi; apply (changed_descs _ Hok c c'); done || lia.
  - intros c' Hc'. case_decide as E; [by subst|]. eapply list_at_agree; [|by apply R2].
    eapply agree_weaken; [|exact Hag]. intros i Hi Hch. apply Hi.
    replace (frees G c') with (frees (set_frees c ys G) c') by (simpl; by rewrite decide_False).
    apply outside_changed; [done..|]. intros Hch'. by apply (changed_list _ Hok c c' i).
  - intros q c' Hq. destruct (R3 q c' Hq) as [<- <-]. rewrite <- (Z.add_0_r (page_at q)) at 1 2.
    split; by eapply Hhd.
  - intros q n Hq. destruct (R4 q n Hq) as [<- <-]. rewrite <- (Z.add_0_r (page_at q)) at 1 2.
    split; by eapply Hhd.
  - intros q k Hq. rewrite <- (R5 q k Hq). by eapply Hhd.
Qed.

(** ** Heaps with the same arenas and lists *)

#[export] Instance gheap_equiv : Equiv gheap := fun G G' =>
  arenas G = arenas G' /\ forall c, frees G c = frees G' c.

#[export] Instance gheap_equivalence : Equivalence (≡@{gheap}).
Proof.
  split.
  - by intros G.
  - intros G G' [H1 H2]. split; [done|]. intros c. by rewrite H2.
  - intros G1 G2 G3 [H1 H2] [H3 H4]. split; [congruence|]. intros c. by rewrite H2.
Qed.

Lemma set_frees_twice c xs ys G : set_frees c xs (set_frees c ys G) ≡ set_frees c xs G.
Proof. split; [done|]. intros c'. simpl. by case_decide. Qed.

Lemma set_frees_id c G : set_frees c (frees G c) G ≡ G.
Proof. split; [done|]. intros c'. simpl. case_decide; by subst. Qed.

#[export] Instance heap_ok_proper : Proper ((≡) ==> iff) heap_ok.
Proof.
  assert (H : forall G G', G ≡ G' -> heap_ok G -> heap_ok G').
  { intros G G' [Ea Ef] [H1 H2 H3 H4 H5]. split; rewrite <- ?Ea; try done; intros c.
    - intros x. rewrite <- Ef. apply H4.
    - rewrite <- Ef. apply H5. }
  intros G G' HG. split; by apply H.
Qed.

#[export] Instance heap_repr_proper r cnt : Proper ((≡) ==> iff) (heap_repr r cnt).
Proof.
  assert (H : forall G G', G ≡ G' -> heap_repr r cnt G -> heap_repr r cnt G').
  { intros G G' [Ea Ef] [H1 H2 H3 H4 H5]. split; rewrite <- ?Ea; try done; intros c.
    rewrite <- Ef. apply H2. }
  intros G G' HG. split; by apply H.
Qed.

#[export] Instance counts_ok_proper cnt : Proper ((≡) ==> iff) (counts_ok cnt).
Proof.
  assert (H : forall G G', G ≡ G' -> counts_ok cnt G -> counts_ok cnt G').
  { intros G G' [Ea Ef] H p k. rewrite <- Ea. intros Hp. rewrite (H p k Hp).
    destruct k; [by rewrite Ef|done]. }
  intros G G' HG. split; by apply H.
Qed.

#[export] Instance live_proper : Proper ((≡) ==> eq ==> eq ==> iff) live.
Proof.
  assert (H : forall G G' x n, G ≡ G' -> live G x n -> live G' x n).
  { intros G G' x n [Ea Ef] [p c k Hp Hk Hf|p m Hp]; rewrite Ea in Hp.
    - apply live_small; [done..|]. by rewrite <- Ef.
    - by apply live_large. }
  intros G G' HG x _ <- n _ <-. split; by apply H.
Qed.

#[export] Instance others_proper : Proper ((≡) ==> pointwise_relation Z iff) others.
Proof. intros G G' HG x. unfold others. by setoid_rewrite HG. Qed.
#[export] Instance others_at_proper : Proper ((≡) ==> eq ==> iff) others.
Proof. intros G G' HG x _ <-. by apply others_proper. Qed.

(** ** Taking a block *)

Lemma count_cons p x xs : count p (x :: xs) = (if decide (in_page p x) then 1 else 0) + count p xs.
Proof. unfold count. rewrite filter_cons. case_decide; simpl length; lia. Qed.

Lemma count_app p xs ys : count p (xs ++ ys) = count p xs + count p ys.
Proof. unfold count. rewrite filter_app, length_app. lia. Qed.

Lemma blk_in_page p c k : 0 <= c < 7 -> 0 <= k < per c -> in_page p (blk p c k).
Proof.
  intros Hc Hk. pose proof (blk_page p c k Hc Hk). destruct (class_facts c Hc).
  unfold in_page. lia.
Qed.

Lemma block2arena_blk p c k : 0 <= c < 7 -> 0 <= p < N -> 0 <= k < per c ->
  block2arena (blk p c k) = page_at p.
Proof.
  intros Hc Hp Hk. pose proof (blk_page p c k Hc Hk). destruct (class_facts c Hc).
  destruct Hly as [[? ?] ? _]. unfold block2arena, page_at in *.
  rewrite land_page by lia. Z.div_mod_to_equations; lia.
Qed.

(** The count of an arena's free blocks is at most the number of its blocks. *)
Lemma count_le G c p : heap_ok G -> 0 <= c < 7 ->
  count p (frees G c) <= per c.
Proof.
  intros Hok Hc. destruct (class_facts c Hc) as (_ & Hper & _). unfold count.
  assert (Hs : filter (in_page p) (frees G c) ⊆ blk p c <$> seqZ 0 (per c)).
  { intros x [Hx Hf]%list_elem_of_filter. destruct (ho_free _ Hok c x Hc Hf) as (q & k & Hq & Hk & ->).
    assert (p = q) as -> by (eapply page_unique; [done|by apply blk_in_page]).
    apply list_elem_of_fmap. exists k. split; [done|]. apply elem_of_seqZ. lia. }
  pose proof (submseteq_length _ _ (NoDup_submseteq _ _ (NoDup_filter _ _ (ho_nodup _ Hok c Hc)) Hs)) as Hl.
  rewrite length_fmap, length_seqZ in Hl. lia.
Qed.

Lemma st32_agree (P : Z -> Prop) r a v : (forall i, P i -> ~ a <= i < a + 4) -> agree P r (st32 r a v).
Proof. intros H. apply agree_st32. intros i Hi HP. by apply (H i). Qed.

Lemma fill_agree (P : Z -> Prop) r a v n : (forall i, P i -> ~ a <= i < a + Z.of_nat n) ->
  agree P r (ram_fill r a v n).
Proof. intros H i Hi. rewrite ld8_ram_fill. case_decide; [by destruct (H i Hi)|done]. Qed.

Definition set_cnt (p v : Z) (cnt : Z -> Z) : Z -> Z := fun q => if decide (q = p) then v else cnt q.

Lemma repr_count G r cnt p k v :
  heap_ok G -> heap_repr r cnt G -> arenas G !! p = Some k -> 0 <= v < 4294967296 ->
  heap_repr (st32 r (page_at p + 4) v) (set_cnt p v cnt) G /\
  agree (others G) r (st32 r (page_at p + 4) v).
Proof.
  intros Hok [R1 R2 R3 R4 R5] Hp Hv. set (r' := st32 _ _ _).
  destruct (arena_range G Hok p k Hp) as (Hs & _).
  assert (Hag : agree (fun i => ~ page_at p + 4 <= i < page_at p + 8) r r') by (apply st32_agree; lia).
  assert (Hw : forall a, a + 4 <= page_at p + 4 \/ page_at p + 8 <= a -> ld32 r' a = ld32 r a).
  { intros a Ha. apply ld32_st32_ne. lia. }
  split.
  2:{ eapply agree_weaken; [|exact Hag]. intros i Ho Hi. by apply (others_header G Hok p k i); [|lia|]. }
  split.
  - intros c Hc. destruct (R1 c Hc) as [<- <-].
    destruct (in_heap G Hok p k (page_at p + 4) Hp) as [_ Hn1]; [lia|].
    destruct (in_heap G Hok p k (page_at p + 7) Hp) as [_ Hn2]; [lia|].
    unfold desc_at, sizeof_mem_block_desc in *. split; apply Hw; lia.
  - intros c Hc. eapply list_at_agree; [|by apply R2]. eapply agree_weaken; [|exact Hag].
    intros i Hi Hin. apply Hi, (outside_changed _ Hok); [done|].
    by apply (changed_header G Hok c p k); [| |lia].
  - intros q c Hq. destruct (R3 q c Hq) as [<- <-]. split; apply Hw; unfold page_at; lia.
  - intros q n Hq. destruct (R4 q n Hq) as [<- <-]. split; apply Hw; unfold page_at; lia.
  - intros q k' Hq. unfold set_cnt. case_decide as E.
    + subst q. subst r'. rewrite ld32_st32_eq. by apply u32_id.
    + rewrite <- (R5 q k' Hq). apply Hw. unfold page_at. lia.
Qed.

Lemma page_at_pos p : 0 <= p < N -> 0 < page_at p /\ page_at p + 4096 <= 0xffc00000.
Proof. destruct Hly as [[? ?] ? _]. unfold page_at. lia. Qed.

(** The free list loses elements. *)
Lemma heap_ok_sub G c ys : heap_ok G -> 0 <= c < 7 -> ys ⊆ frees G c -> NoDup ys ->
  heap_ok (set_frees c ys G).
Proof.
  intros Hok Hc Hys Hnd. apply heap_ok_set_frees; [done..|]. intros y Hy.
  apply (ho_free _ Hok c y Hc). by apply Hys.
Qed.

Lemma others_sub G c ys : 0 <= c < 7 -> ys ⊆ frees G c -> forall i, others G i ->
  others (set_frees c ys G) i.
Proof.
  intros Hc Hys i [(x & n & Hl & Hi)|Hn]; [left|by right]. exists x, n. split; [|done].
  destruct Hl as [p c' k Hp Hk Hf|p m Hp]; [|by apply live_large].
  apply live_small; [done..|]. simpl. case_decide; [subst; set_solver|done].
Qed.

Lemma shrink_spec G c ys cnt r r' :
  heap_ok G -> heap_repr r cnt G -> 0 <= c < 7 -> ys ⊆ frees G c -> NoDup ys ->
  list_at r' (lst c) ys -> agree (outside (nodes (lst c) (frees G c))) r r' ->
  heap_ok (set_frees c ys G) /\ heap_repr r' cnt (set_frees c ys G) /\ agree (others G) r r'.
Proof.
  intros Hok Hr Hc Hys Hnd Hl Hag. split; [by apply heap_ok_sub|].
  assert (Hag' : forall Q : Z -> Prop, (forall i, Q i -> ~ changed G c i) -> agree Q r r').
  { intros Q HQ. eapply agree_weaken; [|exact Hag]. intros i Hi.
    apply (outside_changed _ Hok); auto. }
  split; [|apply Hag'; intros i Hi Hch; by apply (others_changed G Hok c i)].
  apply (repr_list G c (frees G c) ys r); [|done..| |done].
  - apply heap_ok_sub; [done..|by apply (ho_nodup _ Hok)].
  - apply Hag'. intros i Hi Hch. apply Hi. destruct Hch as [?|(p & k & Hp & Hk & Hf & Hx)]; [by left|right].
    exists p, k. simpl. by rewrite decide_True.
Qed.

Lemma pop_spec G c x xs cnt m :
  heap_ok G -> heap_repr (ram m) cnt G -> 0 <= c < 7 -> frees G c = x :: xs ->
  exists r', list_pop (lst c) m = Ok (x, set_ram r' m) /\ (x ∉ xs) /\
    heap_ok (set_frees c xs G) /\ heap_repr r' cnt (set_frees c xs G) /\
    agree (others G) (ram m) r'.
Proof.
  intros Hok Hr Hc Hf. pose proof (hr_list _ _ _ Hr c Hc) as Hl. rewrite Hf in Hl.
  destruct (list_pop_spec (lst c) x xs m Hl) as (r' & Hpop & Hl' & Hag). rewrite <- Hf in Hag.
  pose proof (ho_nodup _ Hok c Hc) as Hnd. rewrite Hf in Hnd. apply NoDup_cons in Hnd as [Hx Hnd].
  exists r'. split; [done|]. split; [done|]. apply shrink_spec; try done. rewrite Hf. set_solver.
Qed.

Lemma remove_spec G c ys x zs cnt m :
  heap_ok G -> heap_repr (ram m) cnt G -> 0 <= c < 7 -> frees G c = ys ++ x :: zs ->
  exists r', list_remove x m = Ok (tt, set_ram r' m) /\
    heap_ok (set_frees c (ys ++ zs) G) /\ heap_repr r' cnt (set_frees c (ys ++ zs) G) /\
    agree (others G) (ram m) r'.
Proof.
  intros Hok Hr Hc Hf. pose proof (hr_list _ _ _ Hr c Hc) as Hl. rewrite Hf in Hl.
  destruct (list_remove_spec (lst c) ys x zs m Hl) as (r' & Hrem & Hl' & Hag). rewrite <- Hf in Hag.
  pose proof (ho_nodup _ Hok c Hc) as Hnd. rewrite Hf in Hnd.
  exists r'. split; [done|]. apply shrink_spec; try done.
  - rewrite Hf. set_solver.
  - rewrite <- Permutation_middle in Hnd. by apply NoDup_cons in Hnd as [_ Hnd].
Qed.

(** Linking a block that was live. *)
Lemma append_spec G p c k cnt m :
  heap_ok G -> heap_repr (ram m) cnt G -> arenas G !! p = Some (Small c) -> 0 <= k < per c ->
  blk p c k ∉ frees G c ->
  let G' := set_frees c (frees G c ++ [blk p c k]) G in
  exists r', list_append (lst c) (blk p c k) m = Ok (tt, set_ram r' m) /\
    heap_ok G' /\ heap_repr r' cnt G' /\ agree (others G') (ram m) r'.
Proof.
  intros Hok Hr Hp Hk Hnf G'. destruct (ho_small _ Hok p c Hp) as [Hc Hpn].
  pose proof (blk_page p c k Hc Hk) as Hbp. destruct (page_at_pos p Hpn) as [Hpos Htop].
  destruct (class_facts c Hc) as (Hb & _).
  destruct (list_append_spec (lst c) (frees G c) (blk p c k) m) as (r' & Happ & Hl & Hag).
  - by apply (hr_list _ _ _ Hr).
  - split; [unfold addr_ok; lia|]. unfold nodes, head_of, tail_of.
    pose proof (lst_range c Hc). destruct (in_heap G Hok p (Small c) (blk p c k) Hp) as [Hin Hn]; [simpl; lia|].
    destruct (in_heap G Hok p (Small c) (blk p c k + 8) Hp) as [Hin' Hn']; [simpl; lia|].
    rewrite Forall_cons, Forall_app, Forall_singleton. unfold apart. split_and!; [lia| |lia].
    rewrite Forall_forall. intros y Hy. destruct (ho_free _ Hok c y Hc Hy) as (q & k' & Hq & Hk' & ->).
    destruct (blk_apart p q c k k') as [?|?]; [done..| |lia|lia].
    destruct (decide (p = q)) as [->|]; [right|by left]. intros ->. done.
  - exists r'. split; [done|].
    assert (Hok' : heap_ok G').
    { apply heap_ok_set_frees; [done..| |].
      - apply NoDup_app. split; [by apply (ho_nodup _ Hok)|]. split; [set_solver|apply NoDup_singleton].
      - intros y [Hy|Hy%list_elem_of_singleton]%elem_of_app; [by apply (ho_free _ Hok)|].
        subst y. by exists p, k. }
    split; [done|].
    assert (Hag' : forall Q : Z -> Prop, (forall i, Q i -> ~ changed G' c i) -> agree Q (ram m) r').
    { intros Q HQ. eapply agree_weaken; [|exact Hag]. intros i Hi.
      pose proof (outside_changed G' Hok' c i Hc (HQ i Hi)) as Ho. unfold G' in Ho. simpl in Ho.
      rewrite decide_True in Ho by done. unfold outside, nodes in *.
      rewrite !Forall_cons, !Forall_app, !Forall_singleton in *. tauto. }
    split; [|apply Hag'; intros i Hi Hch; by apply (others_changed G' Hok' c i)].
    apply (repr_list G c (frees G c ++ [blk p c k]) _ (ram m)); [done..|by apply Hag'|done].
Qed.

(** ** Taking a block *)

Lemma take_block_spec G c x xs cnt m :
  heap_ok G -> heap_repr (ram m) cnt G -> counts_ok cnt G -> 0 <= c < 7 -> frees G c = x :: xs ->
  exists r' cnt', take_block (desc_at D c) m = Ok (x, set_ram r' m) /\
    heap_ok (set_frees c xs G) /\ heap_repr r' cnt' (set_frees c xs G) /\
    counts_ok cnt' (set_frees c xs G) /\
    (forall i, x <= i < x + bsz c -> ld8 r' i = 0) /\ agree (others G) (ram m) r'.
Proof.
  intros Hok Hr Hcnt Hc Hf. destruct (class_facts c Hc) as (Hb & Hper & _).
  destruct (ho_free _ Hok c x Hc) as (p & k & Hp & Hk & Hx); [rewrite Hf; by apply list_elem_of_here|].
  destruct (ho_small _ Hok p c Hp) as [_ Hpn].
  pose proof (blk_page p c k Hc Hk) as Hbp. destruct (page_at_pos p Hpn) as [Hpos Htop].
  rewrite <- Hx in Hbp.
  destruct (pop_spec G c x xs cnt m) as (r1 & Hpop & Hnx & Hok1 & Hr1 & Hag1); [done..|].
  unfold take_block. change (free_list (desc_at D c)) with (lst c). rewrite (bind_Ok _ _ _ _ _ Hpop).
  unfold block_size, load32 at 1. mstep. simpl ram. rewrite (proj1 (hr_size _ _ _ Hr1 c Hc)).
  rewrite (bind_Ok _ _ _ _ _ (memset_eq x 0 (bsz c) (set_ram r1 m) ltac:(lia))). simpl ram.
  set (r2 := ram_fill r1 x 0 (Z.to_nat (bsz c))).
  assert (Hag2 : agree (fun i => ~ x <= i < x + bsz c) r1 r2) by (apply fill_agree; lia).
  assert (Hlive : live (set_frees c xs G) x (bsz c)).
  { subst x. apply live_small; [done..|]. simpl. by rewrite decide_True. }
  assert (Hr2 : heap_repr r2 cnt (set_frees c xs G)).
  { apply (repr_others _ Hok1 r1); [done|]. eapply agree_weaken; [|exact Hag2].
    intros i Hi Hxi. apply Hi. left. by exists x, (bsz c). }
  assert (Hcx : cnt p = 1 + count p xs).
  { rewrite (Hcnt p (Small c) Hp), Hf, count_cons, decide_True; [done|subst x; by apply blk_in_page]. }
  pose proof (count_le _ c p Hok1 Hc) as Hle. simpl in Hle. rewrite decide_True in Hle by done.
  assert (H0 : 0 <= count p xs) by (unfold count; lia).
  subst x. rewrite (block2arena_blk p c k Hc Hpn Hk). unfold arena_cnt, load32. mstep. simpl ram.
  rewrite (hr_count _ _ _ Hr2 p (Small c) Hp), Hcx.
  replace (u32 (1 + count p xs - 1)) with (count p xs) by (rewrite u32_id; lia).
  destruct (repr_count _ r2 cnt p (Small c) (count p xs) Hok1 Hr2 Hp) as [Hr3 Hag3]; [lia|].
  eexists _, _. split; [reflexivity|]. split; [done|]. split; [exact Hr3|]. split_and!.
  - intros q kd Hq. unfold set_cnt. simpl in *. case_decide as E.
    + subst q. rewrite Hp in Hq. injection Hq as <-. by rewrite decide_True.
    + rewrite (Hcnt q kd Hq). destruct kd as [c'|n]; [|done]. case_decide; [|done]. subst c'.
      rewrite Hf, count_cons, decide_False; [done|]. intros Hin. apply E.
      by apply (page_unique q p (blk p c k)); [|apply blk_in_page].
  - intros i Hi. rewrite Hag3; [|left; by exists (blk p c k), (bsz c)].
    unfold r2. rewrite ld8_ram_fill, decide_True; [done|lia].
  - assert (Hsub : forall i, others G i -> others (set_frees c xs G) i).
    { apply others_sub; [done|]. rewrite Hf. set_solver. }
    intros i Hi. rewrite Hag3 by auto. rewrite Hag2, Hag1; [done|done|].
    intros Hxi. apply (others_changed G Hok c i Hc); [|done]. right. exists p, k.
    split_and!; [done|lia|lia|rewrite Hf; by apply list_elem_of_here|lia|lia].
Qed.

(** ** Cutting a page into blocks *)

Lemma seqZ_snoc k : 0 <= k -> seqZ 0 (k + 1) = seqZ 0 k ++ [k].
Proof. intros Hk. by rewrite seqZ_app by lia. Qed.

Lemma arena2block_eq r cnt G p c k m :
  heap_ok G -> ram m = r -> heap_repr r cnt G -> arenas G !! p = Some (Small c) -> 0 <= k < per c ->
  arena2block (page_at p) k m = Ok (blk p c k, m).
Proof.
  intros Hok <- Hr Hp Hk. destruct (ho_small _ Hok p c Hp) as [Hc Hpn].
  pose proof (blk_page p c k Hc Hk). destruct (page_at_pos p Hpn). destruct (class_facts c Hc).
  unfold arena2block, arena_desc, block_size, load32. mstep. mstep. apply Ok_val.
  rewrite (proj1 (hr_small _ _ _ Hr p c Hp)), (proj1 (hr_size _ _ _ Hr c Hc)).
  unfold sizeof_arena. unfold blk in *. rewrite u32_id; lia.
Qed.

Lemma blocks_per_arena_eq cnt G c m : heap_repr (ram m) cnt G -> 0 <= c < 7 ->
  blocks_per_arena (desc_at D c) m = Ok (per c, m).
Proof.
  intros Hr Hc. unfold blocks_per_arena, load32, gets. by rewrite (proj2 (hr_size _ _ _ Hr c Hc)).
Qed.

Lemma arena_desc_eq cnt G p c m : heap_repr (ram m) cnt G -> arenas G !! p = Some (Small c) ->
  arena_desc (page_at p) m = Ok (desc_at D c, m).
Proof.
  intros Hr Hp. unfold arena_desc, load32, gets. by rewrite (proj1 (hr_small _ _ _ Hr p c Hp)).
Qed.

Lemma split_loop_spec fuel lfuel G p c k cnt m :
  heap_ok G -> heap_repr (ram m) cnt G -> arenas G !! p = Some (Small c) ->
  frees G c = blk p c <$> seqZ 0 k -> 0 <= k <= per c -> per c - k < Z.of_nat fuel ->
  per c <= Z.of_nat lfuel ->
  let G' := set_frees c (blk p c <$> seqZ 0 (per c)) G in
  exists r', split_loop fuel lfuel (desc_at D c) (page_at p) k m = Ok (tt, set_ram r' m) /\
    heap_ok G' /\ heap_repr r' cnt G' /\ agree (others G') (ram m) r'.
Proof.
  revert G k m. induction fuel as [|fuel IH]; intros G k m Hok Hr Hp Hf Hk Hfu Hlf; [lia|].
  destruct (ho_small _ Hok p c Hp) as [Hc Hpn]. destruct (class_facts c Hc) as (Hb & Hper & _).
  cbn [split_loop]. rewrite (bind_Ok _ _ _ _ _ (blocks_per_arena_eq _ _ c m Hr Hc)). cbv zeta.
  case_decide as Hlt.
  2:{ assert (k = per c) as -> by lia. exists (ram m). rewrite <- Hf.
      split; [by destruct m|]. by rewrite set_frees_id. }
  assert (Hk' : 0 <= k < per c) by lia.
  rewrite (bind_Ok _ _ _ _ _ (arena2block_eq _ _ _ p c k m Hok eq_refl Hr Hp Hk')).
  rewrite (bind_Ok _ _ _ _ _ (arena_desc_eq _ _ p c m Hr Hp)).
  assert (Hnf : blk p c k ∉ frees G c).
  { rewrite Hf. intros (j & E & Hj%elem_of_seqZ)%list_elem_of_fmap.
    destruct (blk_inj p p c k j Hc Hk'); [lia|done|lia]. }
  rewrite (bind_Ok _ _ _ _ _ (elem_find_spec lfuel (lst c) (blk p c k) _ m (hr_list _ _ _ Hr c Hc)
    ltac:(rewrite Hf, length_fmap, length_seqZ; lia))).
  rewrite bool_decide_false by done. mstep.
  rewrite (bind_Ok _ _ _ _ _ (arena_desc_eq _ _ p c m Hr Hp)).
  destruct (append_spec G p c k cnt m) as (r1 & Happ & Hok1 & Hr1 & Hag1); [done..|].
  change (free_list (desc_at D c)) with (lst c). rewrite (bind_Ok _ _ _ _ _ Happ).
  rewrite u32_id by lia.
  destruct (IH (set_frees c (frees G c ++ [blk p c k]) G) (k + 1) (set_ram r1 m))
    as (r' & Hrun & Hok' & Hr' & Hag'); [done|done|done| |lia|lia|lia|].
  { simpl. rewrite decide_True by done. by rewrite Hf, seqZ_snoc, fmap_app by lia. }
  rewrite set_frees_twice in Hok', Hr'. exists r'. split; [done|]. split; [done|]. split; [done|].
  intros i Hi. rewrite Hag' by (by rewrite set_frees_twice).
  apply Hag1. eapply (others_sub _ c (frees G c ++ [blk p c k])) in Hi; [|done|].
  - by rewrite set_frees_twice in Hi.
  - simpl. rewrite decide_True by done. rewrite Hf. intros y Hy.
    change [blk p c k] with (blk p c <$> [k]) in Hy. rewrite <- fmap_app, <- seqZ_snoc in Hy by lia.
    apply list_elem_of_fmap in Hy as (j & -> & Hj%elem_of_seqZ). apply list_elem_of_fmap.
    exists j. split; [done|]. apply elem_of_seqZ. lia.
Qed.

(** ** New arenas *)

(** No arena has a page among [p .. p+n-1]. *)
Definition unused (G : gheap) (p n : Z) : Prop := forall q k, arenas G !! q = Some k ->
  p + n <= q \/ q + span k <= p.

Definition kind_ok (p : Z) (k : arena_kind) : Prop :=
  0 <= p /\ p + span k <= N /\ match k with Small c => 0 <= c < 7 | Large n => 0 < n < 3840 end.

Definition kind_desc (k : arena_kind) : Z := match k with Small c => desc_at D c | Large _ => 0 end.
Definition kind_large (k : arena_kind) : Z := match k with Small _ => 0 | Large _ => 1 end.

Lemma kind_desc_range p k : kind_ok p k -> 0 <= kind_desc k < 4294967296.
Proof.
  intros (_ & _ & Hk). destruct Hly as [_ _ [? [_ ?]]]. destruct k; simpl; [|lia].
  unfold desc_at, sizeof_mem_block_desc. lia.
Qed.

Lemma unused_other G p k q k' : 0 < span k -> unused G p (span k) ->
  arenas (add_arena p k G) !! q = Some k' ->
  q = p /\ k' = k \/ q <> p /\ arenas G !! q = Some k'.
Proof.
  intros Hs Hu. simpl. rewrite lookup_insert. case_decide as E; [subst|]; intros Hq.
  - left. split; congruence.
  - right. by split.
Qed.

Lemma heap_ok_add G p k : heap_ok G -> unused G p (span k) -> kind_ok p k ->
  heap_ok (add_arena p k G).
Proof.
  intros Hok Hu (Hp & Hpn & Hk).
  assert (Hs : 0 < span k) by (destruct k; simpl; lia).
  split.
  - intros q c [[-> <-]|[_ Hq]]%unused_other; [simpl in *; lia|by apply (ho_small _ Hok)|done..].
  - intros q c [[-> <-]|[_ Hq]]%unused_other; [simpl in *; lia|by apply (ho_large _ Hok)|done..].
  - intros q q' k1 k2 [[-> ->]|[Hqp Hq]]%unused_other [[-> ->]|[Hqp' Hq']]%unused_other Hne; try done.
    + destruct (Hu q' k2 Hq'); lia.
    + destruct (Hu q k1 Hq); lia.
    + by apply (ho_disj _ Hok).
  - intros c x Hc Hx. destruct (ho_free _ Hok c x Hc Hx) as (q & j & Hq & Hj & ->). exists q, j.
    split; [|done]. simpl. rewrite lookup_insert_ne; [done|]. intros ->.
    destruct (Hu q _ Hq); simpl in *; lia.
  - apply (ho_nodup _ Hok).
Qed.

(** Memory of unused pages is nobody's. *)
Lemma repr_fresh G r r' cnt p n :
  heap_ok G -> heap_repr r cnt G -> unused G p n -> 0 <= p -> p + n <= N ->
  agree (fun i => ~ page_at p <= i < page_at p + 4096 * n) r r' ->
  heap_repr r' cnt G /\ agree (others G) r r'.
Proof.
  intros Hok Hr Hu Hp Hpn Hag. destruct Hly as [_ _ [_ [HD _]]].
  assert (Hpg : forall q k i, arenas G !! q = Some k -> page_at q <= i < page_at q + 4096 * span k ->
            ~ page_at p <= i < page_at p + 4096 * n).
  { intros q k i Hq Hi. destruct (Hu q k Hq); unfold page_at in *; lia. }
  assert (Hds : forall i, D <= i < D + 168 -> ~ page_at p <= i < page_at p + 4096 * n).
  { intros i Hi. unfold page_at. lia. }
  split.
  - eapply (heap_repr_agree G Hok); [exact Hr|exact Hag|..].
    + intros c i Hc Hi. apply Hds. unfold desc_at, sizeof_mem_block_desc in *. lia.
    + intros c i Hc [Hi|(q & Hq & Hi)]%changed_loc; [apply Hds; lia| |done..].
      apply (Hpg q (Small c)); [done|simpl; lia].
    + intros q k i Hq Hi. apply (Hpg q k); [done|]. destruct (arena_range G Hok q k Hq). lia.
  - eapply agree_weaken; [|exact Hag]. intros i [(x & m & Hl & Hi)|Hn] Hi'.
    + destruct (live_in G Hok x m Hl) as (q & k & Hq & H1 & H2 & _). apply (Hpg q k i Hq); [lia|done].
    + apply Hn. right. unfold page_at in *. lia.
Qed.

(** The header of a new arena. *)
Definition ram_header (r : gmap Z Z) (a d c l : Z) : gmap Z Z :=
  st32 (st32 (st32 r a d) (a + 4) c) (a + 8) l.

Lemma set_arena_eq a d c l m : set_arena a d c l m = Ok (tt, set_ram (ram_header (ram m) a d c l) m).
Proof. done. Qed.

Lemma ram_header_words r a d c l :
  ld32 (ram_header r a d c l) a = u32 d /\ ld32 (ram_header r a d c l) (a + 4) = u32 c /\
  ld32 (ram_header r a d c l) (a + 8) = u32 l.
Proof.
  unfold ram_header. rewrite ld32_st32_eq.
  rewrite !(ld32_st32_ne _ (a + 8)) by lia. rewrite ld32_st32_eq.
  rewrite (ld32_st32_ne _ (a + 4)) by lia. by rewrite ld32_st32_eq.
Qed.

Lemma ram_header_agree r a d c l : agree (fun i => ~ a <= i < a + 12) r (ram_header r a d c l).
Proof.
  unfold ram_header. do 2 (eapply agree_trans; [|apply st32_agree; lia]). apply st32_agree. lia.
Qed.

Lemma repr_add G r cnt p k v :
  heap_ok G -> heap_repr r cnt G -> unused G p (span k) -> kind_ok p k ->
  ld32 r (page_at p) = kind_desc k -> ld32 r (page_at p + 4) = v ->
  ld32 r (page_at p + 8) = kind_large k ->
  heap_repr r (set_cnt p v cnt) (add_arena p k G).
Proof.
  intros Hok [R1 R2 R3 R4 R5] Hu (Hp & Hpn & Hk) H1 H2 H3.
  assert (Hs : 0 < span k) by (destruct k; simpl; lia). split; [done|done|..].
  - intros q c [[-> <-]|[_ Hq]]%unused_other; [done|by apply R3|done..].
  - intros q c [[-> <-]|[_ Hq]]%unused_other; [done|by eapply R4|done..].
  - intros q k' [[-> ->]|[Hne Hq]]%unused_other; [|rewrite (R5 q k' Hq)|done..]; unfold set_cnt;
      by case_decide.
Qed.

(** Clearing unused pages and writing the header makes an arena. *)
Lemma new_arena_mem G r cnt p k v :
  heap_ok G -> heap_repr r cnt G -> unused G p (span k) -> kind_ok p k -> 0 <= v < 4294967296 ->
  let r' := ram_header (ram_fill r (page_at p) 0 (Z.to_nat (4096 * span k))) (page_at p)
              (kind_desc k) v (kind_large k) in
  heap_ok (add_arena p k G) /\ heap_repr r' (set_cnt p v cnt) (add_arena p k G) /\
  agree (others G) r r' /\
  (forall i, page_at p + 12 <= i < page_at p + 4096 * span k -> ld8 r' i = 0).
Proof.
  intros Hok Hr Hu Hk Hv r'. split; [by apply heap_ok_add|].
  pose proof Hk as (Hp & Hpn & Hkk). assert (Hs : 0 < span k) by (destruct k; simpl; lia).
  set (r1 := ram_fill r (page_at p) 0 (Z.to_nat (4096 * span k))) in *.
  pose proof (ram_header_agree r1 (page_at p) (kind_desc k) v (kind_large k)) as Hh. fold r' in Hh.
  destruct (repr_fresh G r r' cnt p (span k)) as [Hr' Hag]; [done..| |].
  { apply (agree_trans _ _ r1); [apply fill_agree; intros i; rewrite Z2Nat.id by lia; exact id|].
    eapply agree_weaken; [|exact Hh]. intros i. simpl. lia. }
  destruct (ram_header_words r1 (page_at p) (kind_desc k) v (kind_large k)) as (W1 & W2 & W3).
  fold r' in W1, W2, W3. split_and!; [|done|].
  - apply repr_add; try done.
    + rewrite W1. by apply u32_id, (kind_desc_range p).
    + rewrite W2. by apply u32_id.
    + rewrite W3. by destruct k.
  - intros i Hi. rewrite Hh by lia. unfold r1. rewrite ld8_ram_fill, decide_True by lia. done.
Qed.

(** ** Giving a block back *)

Definition not_in_page (p x : Z) : Prop := ~ in_page p x.
#[export] Instance not_in_page_dec p x : Decision (not_in_page p x).
Proof. unfold not_in_page. apply _. Defined.

(** Free blocks of other pages than [p]. *)
Definition rest (p : Z) (xs : list Z) : list Z := filter (not_in_page p) xs.

Lemma rest_elem p x xs : x ∈ rest p xs <-> x ∈ xs /\ ~ in_page p x.
Proof. unfold rest. rewrite list_elem_of_filter. unfold not_in_page. tauto. Qed.

Lemma count_rest p q xs : q <> p -> count q (rest p xs) = count q xs.
Proof.
  intros Hne. induction xs as [|x xs IH]; [done|]. unfold rest. rewrite filter_cons.
  rewrite count_cons. case_decide as E; fold (rest p xs).
  - rewrite count_cons, IH. done.
  - rewrite IH. rewrite decide_False; [done|]. intros Hq.
    apply E. intros Hp. by apply Hne, (page_unique q p x).
Qed.

Lemma unlink_loop_spec fuel lfuel G p c k cnt m :
  heap_ok G -> heap_repr (ram m) cnt G -> arenas G !! p = Some (Small c) -> 0 <= k <= per c ->
  (forall j, 0 <= j < k -> blk p c j ∉ frees G c) ->
  (forall j, k <= j < per c -> blk p c j ∈ frees G c) ->
  per c - k < Z.of_nat fuel -> (length (frees G c) < lfuel)%nat ->
  let G' := set_frees c (rest p (frees G c)) G in
  exists r', unlink_loop fuel lfuel (page_at p) k m = Ok (tt, set_ram r' m) /\
    heap_ok G' /\ heap_repr r' cnt G' /\ agree (others G) (ram m) r'.
Proof.
  revert G k m. induction fuel as [|fuel IH]; intros G k m Hok Hr Hp Hk Hno Hin Hfu Hlf; [lia|].
  destruct (ho_small _ Hok p c Hp) as [Hc Hpn]. destruct (class_facts c Hc) as (Hb & Hper & _).
  cbn [unlink_loop]. rewrite (bind_Ok _ _ _ _ _ (arena_desc_eq _ _ p c m Hr Hp)).
  rewrite (bind_Ok _ _ _ _ _ (blocks_per_arena_eq _ _ c m Hr Hc)). cbv zeta.
  case_decide as Hlt.
  2:{ assert (k = per c) as -> by lia. exists (ram m).
      assert (E : rest p (frees G c) = frees G c).
      { apply filter_all. intros x Hx Hxp. destruct (ho_free _ Hok c x Hc Hx) as (q & j & Hq & Hj & ->).
        assert (q = p) as -> by (eapply page_unique; [by apply blk_in_page|done]).
        by apply (Hno j). }
      rewrite E, set_frees_id. split; [by destruct m|done]. }
  assert (Hk' : 0 <= k < per c) by lia.
  rewrite (bind_Ok _ _ _ _ _ (arena2block_eq _ _ _ p c k m Hok eq_refl Hr Hp Hk')).
  rewrite (bind_Ok _ _ _ _ _ (arena_desc_eq _ _ p c m Hr Hp)).
  rewrite (bind_Ok _ _ _ _ _ (elem_find_spec lfuel (lst c) (blk p c k) _ m (hr_list _ _ _ Hr c Hc) Hlf)).
  rewrite bool_decide_true by (apply Hin; lia). mstep.
  destruct (list_elem_of_split _ _ (Hin k ltac:(lia))) as (ys & zs & Hf).
  destruct (remove_spec G c ys (blk p c k) zs cnt m) as (r1 & Hrem & Hok1 & Hr1 & Hag1); [done..|].
  rewrite (bind_Ok _ _ _ _ _ Hrem). rewrite u32_id by lia.
  pose proof (ho_nodup _ Hok c Hc) as Hnd. rewrite Hf in Hnd.
  rewrite <- Permutation_middle in Hnd. apply NoDup_cons in Hnd as [Hnx _].
  destruct (IH (set_frees c (ys ++ zs) G) (k + 1) (set_ram r1 m)) as (r' & Hrun & Hok' & Hr' & Hag');
    try done; try lia; simpl; rewrite ?decide_True by done.
  - intros j Hj Hx. destruct (decide (j = k)) as [->|Hne]; [done|].
    apply (Hno j); [lia|]. rewrite Hf. set_solver.
  - intros j Hj. pose proof (Hin j ltac:(lia)) as Hx. rewrite Hf in Hx.
    assert (blk p c j <> blk p c k) by (intros E; apply blk_inj in E; lia). set_solver.
  - rewrite Hf in Hlf. rewrite !length_app in *. simpl in Hlf. lia.
  - assert (E : rest p (frees G c) = rest p (ys ++ zs)).
    { rewrite Hf. unfold rest. rewrite !filter_app, filter_cons, decide_False; [done|].
      intros Hx. apply Hx. by apply blk_in_page. }
    simpl in Hok', Hr'. rewrite decide_True in Hok', Hr' by done.
    rewrite set_frees_twice, <- E in Hok', Hr'.
    exists r'. split; [done|]. split; [done|]. split; [done|].
    intros i Hi. rewrite Hag'; [by apply Hag1|]. apply others_sub; [done| |done]. rewrite Hf. set_solver.
Qed.

(** An arena without free blocks can be forgotten. *)
Lemma del_spec G r cnt p :
  heap_ok G -> heap_repr r cnt G -> (forall c x, 0 <= c < 7 -> x ∈ frees G c -> ~ in_page p x) ->
  heap_ok (del_arena p G) /\ heap_repr r cnt (del_arena p G).
Proof.
  intros Hok [R1 R2 R3 R4 R5] Hno.
  assert (Hd : forall q k, arenas (del_arena p G) !! q = Some k -> q <> p /\ arenas G !! q = Some k).
  { intros q k. simpl. rewrite lookup_delete. case_decide; [done|]. intros ?. split; congruence. }
  split; split.
  - intros q c [_ Hq]%Hd. by apply (ho_small _ Hok).
  - intros q c [_ Hq]%Hd. by apply (ho_large _ Hok).
  - intros q q' k k' [_ Hq]%Hd [_ Hq']%Hd. by apply (ho_disj _ Hok).
  - intros c x Hc Hx. destruct (ho_free _ Hok c x Hc Hx) as (q & j & Hq & Hj & ->). exists q, j.
    split; [|done]. simpl. rewrite lookup_delete_ne; [done|]. intros ->.
    apply (Hno c _ Hc Hx). by apply blk_in_page.
  - apply (ho_nodup _ Hok).
  - done.
  - done.
  - intros q c [_ Hq]%Hd. by apply R3.
  - intros q c [_ Hq]%Hd. by eapply R4.
  - intros q c [_ Hq]%Hd. by eapply R5.
Qed.

(** When all blocks of an arena are counted free, all are in the list. *)
Lemma full_all G c p : heap_ok G -> 0 <= c < 7 -> count p (frees G c) = per c ->
  forall j, 0 <= j < per c -> blk p c j ∈ frees G c.
Proof.
  intros Hok Hc Hcnt j Hj. destruct (class_facts c Hc) as (Hb & Hper & _).
  set (bs := blk p c <$> seqZ 0 (per c)).
  assert (Hs : filter (in_page p) (frees G c) ⊆ bs).
  { intros x [Hx Hf]%list_elem_of_filter. destruct (ho_free _ Hok c x Hc Hf) as (q & k & Hq & Hk & ->).
    assert (p = q) as -> by (eapply page_unique; [done|by apply blk_in_page]).
    apply list_elem_of_fmap. exists k. split; [done|]. apply elem_of_seqZ. lia. }
  pose proof (NoDup_submseteq _ _ (NoDup_filter (in_page p) _ (ho_nodup _ Hok c Hc)) Hs) as Hsub.
  assert (Hperm : filter (in_page p) (frees G c) ≡ₚ bs).
  { apply submseteq_length_Permutation; [done|]. unfold bs. rewrite length_fmap, length_seqZ.
    unfold count in Hcnt. lia. }
  assert (Hin : blk p c j ∈ filter (in_page p) (frees G c)).
  { rewrite Hperm. apply list_elem_of_fmap. exists j. split; [done|]. apply elem_of_seqZ. lia. }
  by apply list_elem_of_filter in Hin as [_ Hin].
Qed.

(** When all are in the list, all are counted. *)
Lemma count_all G c p : heap_ok G -> 0 <= c < 7 ->
  (forall j, 0 <= j < per c -> blk p c j ∈ frees G c) -> count p (frees G c) = per c.
Proof.
  intros Hok Hc Hall. pose proof (count_le G c p Hok Hc) as Hle.
  destruct (class_facts c Hc) as (_ & Hper & _).
  assert (Hs : blk p c <$> seqZ 0 (per c) ⊆+ filter (in_page p) (frees G c)).
  { apply NoDup_submseteq.
    - apply NoDup_fmap_2_strong; [|apply NoDup_seqZ]. intros i j Hi Hj E.
      destruct (class_facts c Hc) as (Hb & _). unfold blk in E. nia.
    - intros x (j & -> & Hj%elem_of_seqZ)%list_elem_of_fmap. apply list_elem_of_filter.
      split; [apply blk_in_page; lia|apply Hall; lia]. }
  apply submseteq_length in Hs. rewrite length_fmap, length_seqZ in Hs. unfold count in *. lia.
Qed.

End layout.
