(* ===== verification/HeapSpec.v ===== *)
(** * What [sys_malloc] and [sys_free] promise

    The byte heap over any page allocator that satisfies [PageAlloc]: the
    invariant of a heap in a state of the kernel, and the contracts of
    allocation and release on every branch. *)
From S2P Require Import Prelude Machine Str Bitmap KList Paging Kernel Thread Sync Console Memory.
From S2P Require Import PageHeap PageAlloc Arena ArenaHeap.

Section spec.
Context (pf : pool_flags) `{!PageAlloc pf} (D : Z).

Abbreviation hlayout s := (layout (pa_base s) (pa_pages s) D).
Abbreviation hlive s := (live (pa_base s)).
Abbreviation hothers s := (others (pa_base s) (pa_pages s) D).

(** State [s] holds the heap [G], with its descriptors at [D]. *)
Record heap_inv (s : vm) (G : gheap) : Prop := {
  hi_pages : pa_inv s;
  hi_layout : hlayout s;
  hi_ok : heap_ok (pa_base s) (pa_pages s) G;
  hi_repr : exists cnt, heap_repr (pa_base s) D (ram (vmach s)) cnt G /\ counts_ok (pa_base s) cnt G;
  hi_private a : D <= a < D + 168 -> ~ pa_private s a;
  hi_used p k j : arenas G !! p = Some k -> p <= j < p + span k -> pa_used s j = true
}.

(** What a heap operation leaves alone: all state but memory, and in memory
    the live blocks of [G] and everything outside the heap. *)
Record kept (G : gheap) (s s' : vm) : Prop := {
  k_mem : vmem s' = vmem s;
  k_cur : vcur s' = vcur s;
  k_cr3 : cr3 (vpg s') = cr3 (vpg s);
  k_mach : vmach s' = set_ram (ram (vmach s')) (vmach s);
  k_ram : agree (fun i => hothers s G i /\ ~ pa_private s i) (ram (vmach s)) (ram (vmach s'))
}.

Lemma kept_static G s s' : kept G s s' ->
  pa_base s' = pa_base s /\ pa_pages s' = pa_pages s /\ forall a, pa_private s' a <-> pa_private s a.
Proof. intros [Hm Hc _ _ _]. by apply pa_static. Qed.

Lemma kept_trans G G' s1 s2 s3 : kept G s1 s2 -> kept G' s2 s3 ->
  (forall i, hothers s1 G i -> hothers s1 G' i) -> kept G s1 s3.
Proof.
  intros H1 H2 Hsub. destruct (kept_static _ _ _ H1) as (Eb & Ep & Epr).
  destruct H1 as [M1 C1 T1 K1 R1], H2 as [M2 C2 T2 K2 R2]. split; [congruence..| |].
  - rewrite K2, K1. done.
  - intros i [Ho Hn]. rewrite R2; [by apply R1|]. rewrite Eb, Ep, Epr. auto.
Qed.

Lemma private_others s G i : heap_inv s G -> pa_private s i -> hothers s G i.
Proof.
  intros H Hi. right. intros [HD|HB].
  - by apply (hi_private _ _ H i).
  - by apply (pa_apart s i (hi_pages _ _ H)).
Qed.

Lemma live_kept s s' G x n i : heap_inv s G -> kept G s s' -> hlive s G x n -> x <= i < x + n ->
  ld8 (ram (vmach s')) i = ld8 (ram (vmach s)) i.
Proof.
  intros H Hk Hl Hi. apply (k_ram _ _ _ Hk). split; [left; by exists x, n|].
  destruct (live_in _ _ G (hi_ok _ _ H) x n Hl) as (p & k & Hp & H1 & H2 & _). intros Hpr.
  destruct (in_heap _ _ _ (hi_layout _ _ H) G (hi_ok _ _ H) p k i Hp) as [Hin _]; [lia|].
  by apply (pa_apart s i (hi_pages _ _ H)).
Qed.

(** ** Moves of the invariant *)

(** Memory changes on the heap's own ground. *)
Lemma heap_inv_ram s G G' Gk r cnt :
  heap_inv s G -> agree (hothers s Gk) (ram (vmach s)) r ->
  heap_ok (pa_base s) (pa_pages s) G' -> heap_repr (pa_base s) D r cnt G' ->
  counts_ok (pa_base s) cnt G' ->
  (forall p k j, arenas G' !! p = Some k -> p <= j < p + span k -> pa_used s j = true) ->
  heap_inv (with_ram r s) G' /\ kept Gk s (with_ram r s).
Proof.
  intros H Hag Hok Hr Hc Ha. destruct (pa_static s (with_ram r s) eq_refl eq_refl) as (Eb & Ep & Epr).
  destruct (pa_outside s r (hi_pages _ _ H)) as (Hi & Hu & _).
  { eapply agree_weaken; [|exact Hag]. intros a Ha'. right. intros [HD|HB].
    - by apply (hi_private _ _ H a).
    - by apply (pa_apart s a (hi_pages _ _ H)). }
  split.
  - split; rewrite ?Eb, ?Ep.
    + done.
    + apply H.
    + done.
    + by exists cnt.
    + intros a HD. rewrite Epr. by apply (hi_private _ _ H).
    + intros p k j Hp Hj. rewrite Hu; [by apply (Ha p k)|].
      destruct (arena_range _ _ G' Hok p k Hp). lia.
  - split; [done..|]. eapply agree_weaken; [|exact Hag]. intros i. simpl. tauto.
Qed.

(** ... and keeps the room there is. *)
Lemma room_ram s G Gk r m :
  heap_inv s G -> agree (hothers s Gk) (ram (vmach s)) r -> pa_room s m -> pa_room (with_ram r s) m.
Proof.
  intros H Hag. apply (pa_outside s r (hi_pages _ _ H)). eapply agree_weaken; [|exact Hag].
  intros a Ha. right. intros [HD|HB]; [by apply (hi_private _ _ H a)|by apply (pa_apart s a (hi_pages _ _ H))].
Qed.

(** ... and the pages in use. *)
Lemma used_ram s G Gk r j :
  heap_inv s G -> agree (hothers s Gk) (ram (vmach s)) r -> 0 <= j < pa_pages s ->
  pa_used (with_ram r s) j = pa_used s j.
Proof.
  intros H Hag. apply (pa_outside s r (hi_pages _ _ H)). eapply agree_weaken; [|exact Hag].
  intros a Ha. right. intros [HD|HB]; [by apply (hi_private _ _ H a)|by apply (pa_apart s a (hi_pages _ _ H))].
Qed.

(** A call of the page allocator. *)
Lemma heap_inv_pages s s' G :
  heap_inv s G -> pa_step (pa_private s) s s' -> pa_inv s' ->
  (forall p k j, arenas G !! p = Some k -> p <= j < p + span k -> pa_used s' j = true) ->
  heap_inv s' G /\ kept G s s'.
Proof.
  intros H [S1 S2 Scr Spd S3 S4] Hi Hu. destruct (pa_static s s' S1 S2) as (Eb & Ep & Epr).
  pose proof (hi_ok _ _ H) as Hok. pose proof (hi_layout _ _ H) as Hly.
  destruct (hi_repr _ _ H) as (cnt & Hr & Hcnt).
  assert (Hpg : forall p k i, arenas G !! p = Some k ->
            page_at (pa_base s) p <= i < page_at (pa_base s) p + 4096 * span k -> ~ pa_private s i).
  { intros p k i Hp Hpi Hpr. destruct (in_heap _ _ _ Hly G Hok p k i Hp Hpi) as [Hin _].
    by apply (pa_apart s i (hi_pages _ _ H)). }
  split.
  - split; rewrite ?Eb, ?Ep; try done.
    + exists cnt. split; [|done]. eapply heap_repr_agree; [exact Hok|exact Hr|exact S4|..].
      * intros c i Hc Hd. apply (hi_private _ _ H). unfold desc_at, sizeof_mem_block_desc in *. lia.
      * intros c i Hc [Hd|(p & Hp & Hpi)]%(changed_loc _ _ _ _ Hok); [|
          apply (Hpg p (Small c)); [done|simpl; lia]|done].
        apply (hi_private _ _ H). lia.
      * intros p k i Hp Hpi. apply (Hpg p k); [done|].
        destruct (arena_range _ _ G Hok p k Hp). lia.
    + intros a HD. rewrite Epr. by apply (hi_private _ _ H).
  - split; [done..|]. eapply agree_weaken; [|exact S4]. intros i. simpl. tauto.
Qed.

(** ** Live blocks *)

Lemma live_equiv B G G' x n : G ≡ G' -> live B G x n <-> live B G' x n.
Proof. intros HG. by rewrite HG. Qed.

Lemma live_take B N G c x xs y n :
  heap_ok B N G -> 0 <= c < 7 -> frees G c = x :: xs ->
  live B (set_frees c xs G) y n <-> live B G y n \/ (y = x /\ n = bsz c).
Proof.
  intros Hok Hc Hf. pose proof (ho_nodup _ _ _ Hok c Hc) as Hnd. rewrite Hf in Hnd.
  apply NoDup_cons in Hnd as [Hx _].
  destruct (ho_free _ _ _ Hok c x Hc) as (p & k & Hp & Hk & Ex); [rewrite Hf; by apply list_elem_of_here|].
  split.
  - intros [q c' j Hq Hj Hnf|q m Hq]; [|left; by apply live_large]. simpl in Hnf.
    case_decide as E; [subst c'|left; by apply live_small].
    destruct (decide (blk B q c j = x)) as [->|Hne]; [by right|].
    left. apply live_small; [done..|]. rewrite Hf. set_solver.
  - intros [Hl|[-> ->]].
    + destruct Hl as [q c' j Hq Hj Hnf|q m Hq]; [|by apply live_large].
      apply live_small; [done..|]. simpl. case_decide; [subst; rewrite Hf in Hnf; set_solver|done].
    + rewrite Ex. apply live_small; [done..|]. simpl. rewrite decide_True by done. by rewrite <- Ex.
Qed.

Lemma live_new B N G c p y n :
  heap_ok B N G -> 0 <= c < 7 -> frees G c = [] -> unused G p 1 ->
  live B (set_frees c (blk B p c <$> seqZ 0 (per c)) (add_arena p (Small c) G)) y n <-> live B G y n.
Proof.
  intros Hok Hc Hf Hu. destruct (class_facts c Hc) as (_ & Hper & _).
  assert (Hne : forall q k, arenas G !! q = Some k -> q <> p).
  { intros q k Hq ->. destruct (Hu p k Hq); [lia|]. destruct (arena_range _ _ G Hok p k Hq). lia. }
  split.
  - intros [q c' j Hq Hj Hnf|q m Hq]; simpl in *; rewrite lookup_insert in Hq;
      destruct (decide (p = q)) as [E|E].
    + subst q. injection Hq as <-. rewrite decide_True in Hnf by done. destruct Hnf.
      apply list_elem_of_fmap. exists j. split; [done|]. apply elem_of_seqZ. lia.
    + apply live_small; [done..|]. case_decide; [subst; rewrite Hf; set_solver|done].
    + done.
    + by apply live_large.
  - intros [q c' j Hq Hj Hnf|q m Hq]; pose proof (Hne q _ Hq).
    + destruct (ho_small _ _ _ Hok _ _ Hq) as [Hc' _]. apply live_small; simpl; [by rewrite lookup_insert_ne|done|].
      case_decide as E; [subst c'|done]. intros (i & Ei & Hi%elem_of_seqZ)%list_elem_of_fmap.
      apply blk_inj in Ei as [? _]; [done|done|lia|lia].
    + apply live_large. simpl. by rewrite lookup_insert_ne.
Qed.

Lemma count_blocks B p q c n : 0 <= c < 7 -> 0 <= n <= per c ->
  count B q (blk B p c <$> seqZ 0 n) = if decide (q = p) then n else 0.
Proof.
  intros Hc Hn. unfold count. case_decide as E.
  - rewrite filter_all, length_fmap, length_seqZ; [lia|].
    intros x (j & -> & Hj%elem_of_seqZ)%list_elem_of_fmap. subst q. apply blk_in_page; lia.
  - replace (filter _ _) with (@nil Z); [done|]. symmetry. apply filter_none.
    intros x (j & -> & Hj%elem_of_seqZ)%list_elem_of_fmap Hx. apply E.
    eapply (page_unique B); [exact Hx|]. apply blk_in_page; lia.
Qed.

Lemma counts_new B G cnt p c : 0 <= c < 7 -> frees G c = [] -> counts_ok B cnt G ->
  counts_ok B (set_cnt p (per c) cnt)
    (set_frees c (blk B p c <$> seqZ 0 (per c)) (add_arena p (Small c) G)).
Proof.
  intros Hc Hf Hcnt q k Hq. simpl in Hq. rewrite lookup_insert in Hq. unfold set_cnt. simpl.
  pose proof (class_facts c Hc) as (_ & Hper & _).
  destruct (decide (p = q)) as [<-|Hne].
  - injection Hq as <-. rewrite !decide_True by done. rewrite count_blocks by lia.
    by rewrite decide_True.
  - rewrite decide_False by done. rewrite (Hcnt q k Hq). destruct k as [c'|n]; [|done].
    case_decide; [|done]. subst c'. rewrite Hf, count_blocks by lia. by rewrite decide_False.
Qed.

(** ** Allocation *)

Lemma find_desc_loop r cnt G n c size m :
  heap_repr (pa_base r) D (ram m) cnt G -> 0 <= c -> c + Z.of_nat n = 7 ->
  size <= 1024 -> (forall c', 0 <= c' < c -> bsz c' < size) ->
  exists c1, find_desc n D c size m = Ok (c1, m) /\ 0 <= c1 < 7 /\ size <= bsz c1 /\
    (forall c', 0 <= c' < c1 -> bsz c' < size) \/ n = 0%nat.
Proof.
  intros Hr. revert c. induction n as [|n IH]; intros c Hc Hn Hs Hlt; [exists 0; by right|].
  assert (Hc7 : 0 <= c < 7) by lia. cbn [find_desc].
  assert (Hb : block_size (desc_at D c) m = Ok (bsz c, m)).
  { unfold block_size, load32, gets. by rewrite (proj1 (hr_size _ _ _ _ _ Hr c Hc7)). }
  rewrite (bind_Ok _ _ _ _ _ Hb). cbv zeta. case_decide as Hle; [exists c; by left|].
  destruct n as [|n].
  { assert (c = 6) as -> by lia. change (bsz 6) with 1024 in Hle. lia. }
  rewrite u8_id by lia. destruct (IH (c + 1)) as (c1 & [Hf|Hf]); [lia|lia|done| | |done].
  - intros c' Hc'. destruct (decide (c' = c)) as [->|]; [lia|apply Hlt; lia].
  - exists c1. left. exact Hf.
Qed.

Lemma find_desc_ok s G size : heap_inv s G -> 0 < size <= 1024 ->
  exists c, find_desc DESC_CNT D 0 size (vmach s) = Ok (c, vmach s) /\ 0 <= c < 7 /\
    size <= bsz c /\ (forall c', 0 <= c' < c -> bsz c' < size).
Proof.
  intros H Hs. destruct (hi_repr _ _ H) as (cnt & Hr & _).
  destruct (find_desc_loop s cnt G DESC_CNT 0 size (vmach s)) as (c & [Hc|Hc]);
    [done|lia|done|lia|lia| |done]. by exists c.
Qed.

Lemma unused_pages s G p n : heap_inv s G -> 0 <= p ->
  0 < n -> (forall j, p <= j < p + n -> pa_used s j = false) -> unused G p n.
Proof.
  intros H Hp Hn Hu q k Hq. destruct (decide (p + n <= q)) as [|H1]; [by left|].
  destruct (decide (q + span k <= p)) as [|H2]; [by right|]. exfalso.
  destruct (arena_range _ _ G (hi_ok _ _ H) q k Hq) as (Hs & _).
  set (j := Z.max p q). assert (Hj : p <= j < p + n) by lia.
  pose proof (hi_used _ _ H q k j Hq ltac:(lia)). rewrite (Hu j Hj) in *. done.
Qed.

(** The page for an arena of kind [k]. *)
Lemma new_pages s G k : heap_inv s G -> 0 < span k < 3840 -> pa_room s (span k) ->
  exists p s1, malloc_page pf (span k) s = Ok (page_at (pa_base s) p, s1) /\
    heap_inv s1 G /\ kept G s s1 /\ unused G p (span k) /\ 0 <= p /\ p + span k <= pa_pages s /\
    (forall q k' j, arenas (add_arena p k G) !! q = Some k' -> q <= j < q + span k' ->
       pa_used s1 j = true) /\
    forall m, 0 <= m -> pa_room s (span k + m) -> pa_room s1 m.
Proof.
  intros H Hs Hroom.
  destruct (pa_malloc s (span k) (hi_pages _ _ H) Hs Hroom) as (p & s1 & Hm & Hp & Hpe & Hi & Hst & Hfree & Hu).
  assert (Hun : unused G p (span k)) by (apply (unused_pages s); [done|done|lia|done]).
  assert (Hold : forall q k' j, arenas G !! q = Some k' -> q <= j < q + span k' -> pa_used s1 j = true).
  { intros q k' j Hq Hj. destruct (arena_range _ _ G (hi_ok _ _ H) q k' Hq).
    rewrite Hu by lia. case_decide; [done|by apply (hi_used _ _ H q k')]. }
  exists p, s1. split; [done|]. destruct (heap_inv_pages s s1 G H Hst Hi Hold) as [H1 Hk].
  split_and!; try done.
  - intros q k' j Hq Hj. destruct (unused_other G p k q k' ltac:(lia) Hun Hq) as [[-> ->]|[_ Hq']].
    + rewrite Hu by lia. by rewrite decide_True.
    + by apply (Hold q k').
  - intros m Hm0 Hr. by apply (pa_room_left s (span k) m p s1 (hi_pages _ _ H) Hs).
Qed.

Lemma new_arena_ok fuel lfuel s G c :
  heap_inv s G -> 0 <= c < 7 -> frees G c = [] -> pa_room s 1 -> (256 <= fuel)%nat ->
  (255 <= lfuel)%nat ->
  exists p s', new_arena fuel lfuel pf (desc_at D c) s = Ok (true, s') /\ unused G p 1 /\
    heap_inv s' (set_frees c (blk (pa_base s) p c <$> seqZ 0 (per c)) (add_arena p (Small c) G)) /\
    kept G s s' /\ forall m, 0 <= m -> pa_room s (1 + m) -> pa_room s' m.
Proof.
  intros H Hc Hf Hroom Hfu Hlf. destruct (class_facts c Hc) as (_ & Hper & _).
  destruct (new_pages s G (Small c) H) as (p & s1 & Hm & H1 & Hk1 & Hun & Hp & Hpe & Hu & Hleft); [done..|].
  simpl span in *. destruct (kept_static _ _ _ Hk1) as (Eb & Ep & _).
  destruct (page_at_pos _ _ _ (hi_layout _ _ H) p) as [Hpos _]; [lia|].
  unfold new_arena. rewrite (bind_Ok _ _ _ _ _ Hm), decide_False by lia.
  assert (Hnz : page_at (pa_base s) p <> 0) by lia.
  rewrite (bind_Ok _ _ _ _ _ (on_m_Ok _ _ _ _ (memset_eq _ 0 PG_SIZE (vmach s1) Hnz))).
  destruct (hi_repr _ _ H1) as (cnt & Hr & Hcnt). rewrite Eb in Hr, Hcnt.
  set (r1 := ram_fill _ _ _ _).
  assert (Hko : kind_ok (pa_pages s) p (Small c)) by (split_and!; simpl; lia).
  destruct (new_arena_mem _ _ _ (hi_layout _ _ H) G _ cnt p (Small c) (per c) (hi_ok _ _ H) Hr Hun Hko)
    as (Hok2 & Hr2 & Hag2 & _); [lia|].
  change (ram_fill _ _ 0 (Z.to_nat (4096 * span (Small c)))) with r1 in Hr2, Hag2.
  set (r2 := ram_header r1 _ _ _ _) in *.
  assert (Hb1 : blocks_per_arena (desc_at D c) (set_ram r1 (vmach s1)) = Ok (per c, set_ram r1 (vmach s1))).
  { apply (blocks_per_arena_eq (pa_base s) D cnt G); [|done]. apply (repr_fresh _ _ _ (hi_layout _ _ H) G (ram (vmach s1)) _ cnt p 1); try done; [apply H|].
    apply fill_agree. intros i. rewrite Z2Nat.id by done. exact id. }
  rewrite (bind_Ok _ _ _ _ _ (on_m_Ok _ (set_vmach (set_ram r1 (vmach s1)) s1) _ _ Hb1)).
  rewrite (bind_Ok _ _ _ _ _ (on_m_Ok _ (set_vmach (set_ram r1 (vmach s1)) s1) _ _
             (set_arena_eq _ _ (per c) 0 (set_ram r1 (vmach s1))))).
  destruct (split_loop_spec _ _ _ (hi_layout _ _ H) fuel lfuel (add_arena p (Small c) G) p c 0
              (set_cnt p (per c) cnt) (irq_off (set_ram r2 (vmach s1)))) as (r3 & Hsp & Hok3 & Hr3 & Hag3);
    [done|by rewrite irq_off_ram|simpl; by rewrite lookup_insert_eq|done|lia|lia|lia|].
  rewrite irq_off_ram in Hag3. simpl ram in Hag3.
  rewrite (bind_Ok _ _ _ _ _ (on_m_Ok _ (set_vmach (set_ram r2 (vmach s1)) s1) _ _
             (irqsave_mem _ _ _ _ Hsp))).
  exists p, (with_ram r3 s1). split; [done|]. split; [done|].
  clear Hm Hb1 Hsp.
  assert (Hag : agree (hothers s G) (ram (vmach s1)) r3).
  { intros i Hi. rewrite Hag3; [by apply Hag2|]. destruct Hi as [(x & n & Hl & Hi)|Hi]; [left|by right].
    exists x, n. split; [|exact Hi]. apply (live_new _ (pa_pages s)); [apply (hi_ok _ _ H)|done..]. }
  destruct (heap_inv_ram s1 G (set_frees c (blk (pa_base s) p c <$> seqZ 0 (per c))
              (add_arena p (Small c) G)) G r3 (set_cnt p (per c) cnt) H1) as [H3 Hk3].
  - rewrite Eb, Ep. exact Hag.
  - rewrite Eb, Ep. exact Hok3.
  - rewrite Eb. exact Hr3.
  - rewrite Eb. by apply counts_new.
  - exact Hu.
  - split; [exact H3|]. split; [apply (kept_trans G G s s1); [exact Hk1|exact Hk3|done]|].
    intros m Hm0 Hr0. eapply (room_ram s1 G G); [exact H1| |by apply Hleft]. rewrite Eb, Ep. exact Hag.
Qed.

(** Pages for a request larger than a block, header included. *)
Definition pages_for (size : Z) : Z := (size + 4107) / 4096.

Lemma pages_for_pos n : 0 <= n -> 1 <= pages_for n.
Proof. unfold pages_for. intros. Z.div_mod_to_equations; lia. Qed.

(** What an allocation of [n] bytes at [x] does. *)
Record allocated (s : vm) (G : gheap) (s' : vm) (G' : gheap) (x n : Z) : Prop := {
  al_inv : heap_inv s' G';
  al_kept : kept G s s';
  al_live y m : hlive s' G' y m <-> hlive s G y m \/ (y = x /\ m = n);
  al_fresh m : ~ hlive s G x m;
  al_zero i : x <= i < x + n -> ld8 (ram (vmach s')) i = 0;
  (** A block takes at most the pages of a request of its size. *)
  al_room m : 0 <= m -> pa_room s (pages_for n + m) -> pa_room s' m
}.

(** Distinct live blocks do not overlap. *)
Lemma live_disjoint s G x n y m : heap_inv s G -> hlive s G x n -> hlive s G y m ->
  (x = y /\ n = m) \/ x + n <= y \/ y + m <= x.
Proof.
  intros H Hx Hy. pose proof (hi_ok _ _ H) as Hok. pose proof (hi_layout _ _ H) as Hly.
  destruct (live_in _ _ G Hok x n Hx) as (p & k & Hp & Hx1 & Hx2 & Hn).
  destruct (live_in _ _ G Hok y m Hy) as (q & k' & Hq & Hy1 & Hy2 & Hm).
  destruct (decide (p = q)) as [->|Hne].
  2:{ right. destruct (ho_disj _ _ _ Hok p q k k' Hp Hq Hne); unfold page_at in *; lia. }
  rewrite Hp in Hq. injection Hq as <-.
  assert (Hsame : forall z l, hlive s G z l -> forall r kr, arenas G !! r = Some kr ->
    page_at (pa_base s) r + 12 <= z -> z + l <= page_at (pa_base s) r + 4096 * span kr -> 0 < l ->
    match kr with Small c => exists j, 0 <= j < per c /\ z = blk (pa_base s) r c j /\ l = bsz c
                | Large u => z = page_at (pa_base s) r + 12 /\ l = 4096 * u - 12 end).
  { intros z l Hl r kr Hr H1 H2 H3. pose proof (arena_range _ _ G Hok r kr Hr).
    destruct Hl as [r' c j Hr' Hj Hf|r' u Hr'].
    - destruct (ho_small _ _ _ Hok _ _ Hr') as [Hc _]. pose proof (blk_page (pa_base s) r' c j Hc Hj).
      assert (r' = r) as -> by (eapply (arena_sep _ _ G Hok r' r _ kr (blk (pa_base s) r' c j)); try done; simpl; lia).
      rewrite Hr in Hr'. injection Hr' as ->. by exists j.
    - assert (r' = r) as -> by (eapply (arena_sep _ _ G Hok r' r _ kr (page_at (pa_base s) r' + 12)); try done; simpl; lia).
      rewrite Hr in Hr'. by injection Hr' as ->. }
  pose proof (Hsame x n Hx q k Hp Hx1 Hx2 Hn) as Hx'. pose proof (Hsame y m Hy q k Hp Hy1 Hy2 Hm) as Hy'.
  destruct k as [c|u].
  - destruct Hx' as (j & Hj & -> & ->), Hy' as (j' & Hj' & -> & ->).
    destruct (ho_small _ _ _ Hok _ _ Hp) as [Hc _].
    destruct (decide (j = j')) as [->|Hjj]; [by left|]. right.
    destruct (blk_apart (pa_base s) q q c j j'); [done..|by right|lia|lia].
  - destruct Hx' as [-> ->], Hy' as [-> ->]. by left.
Qed.

(** A free block of the right class at hand. *)
Lemma take_ok s G c x xs :
  heap_inv s G -> 0 <= c < 7 -> frees G c = x :: xs ->
  exists s', on_m (take_block (desc_at D c)) s = Ok (x, s') /\
    allocated s G s' (set_frees c xs G) x (bsz c) /\ forall m, pa_room s m -> pa_room s' m.
Proof.
  intros H Hc Hf. destruct (hi_repr _ _ H) as (cnt & Hr & Hcnt).
  destruct (take_block_spec _ _ _ (hi_layout _ _ H) G c x xs cnt (vmach s) (hi_ok _ _ H) Hr Hcnt Hc Hf)
    as (r & cnt' & Ht & Hok' & Hr' & Hcnt' & Hz & Hag).
  destruct (heap_inv_ram s G (set_frees c xs G) G r cnt' H Hag Hok' Hr' Hcnt') as [H' Hk].
  { intros p k j Hp Hj. by apply (hi_used _ _ H p k). }
  assert (Hroom : forall m, pa_room s m -> pa_room (with_ram r s) m) by (intros m; by apply (room_ram s G G)).
  exists (with_ram r s). split; [apply (on_m_Ok _ s _ _ Ht)|]. split; [|exact Hroom].
  destruct (kept_static _ _ _ Hk) as (Eb & _ & _). split; [done|done|..].
  - intros y m. rewrite Eb. by apply (live_take _ (pa_pages s)); [apply (hi_ok _ _ H)|..].
  - intros m Hl. destruct (ho_free _ _ _ (hi_ok _ _ H) c x Hc) as (p & k & Hp & Hk' & ->);
      [rewrite Hf; by apply list_elem_of_here|].
    pose proof (blk_page (pa_base s) p c k Hc Hk') as Hb. destruct (class_facts c Hc) as (? & _).
    destruct (live_in _ _ G (hi_ok _ _ H) _ m Hl) as (q & kq & Hq & H1 & H2 & Hm).
    assert (p = q) as -> by (eapply (arena_sep _ _ G (hi_ok _ _ H) p q _ kq (blk (pa_base s) p c k)); try done; simpl; lia).
    apply (others_changed _ _ _ (hi_layout _ _ H) G (hi_ok _ _ H) c (blk (pa_base s) q c k) Hc).
    + right. exists q, k. split; [done|]. split; [done|]. split; [rewrite Hf; by apply list_elem_of_here|lia].
    + left. exists (blk (pa_base s) q c k), m. split; [done|lia].
  - exact Hz.
  - intros m Hm Hr0. apply Hroom. eapply pa_room_less; [exact Hr0|].
    destruct (class_facts c Hc) as (? & _). pose proof (pages_for_pos (bsz c)). lia.
Qed.

Lemma allocated_new s G s1 G1 s' G' x n :
  kept G s s1 -> (forall y m, hlive s1 G1 y m <-> hlive s G y m) -> heap_inv s G ->
  (forall m, 0 <= m -> pa_room s (pages_for n + m) -> pa_room s' m) ->
  allocated s1 G1 s' G' x n -> allocated s G s' G' x n.
Proof.
  intros Hk Hl H Hroom [A1 A2 A3 A4 A5 _]. destruct (kept_static _ _ _ Hk) as (Eb & Ep & _). split; [done|..].
  - eapply kept_trans; [done| |].
    + destruct A2 as [B1 B2 B3 B4 B5]. split; [done..|exact B5].
    + intros i [(y & m & Hy & Hi)|Hi]; [left|by right]. exists y, m. split; [|done].
      rewrite <- Eb. by apply Hl.
  - intros y m. rewrite A3, Hl. done.
  - intros m. rewrite <- Hl. apply A4.
  - done.
  - done.
Qed.

(** The best fitting block size. *)
Definition fits (size n : Z) : Prop := size <= n /\ (n = 16 \/ n < 2 * size).

Lemma malloc_small_ok fuel lfuel s G size :
  heap_inv s G -> 0 < size <= 1024 -> pa_room s 1 -> (256 <= fuel)%nat -> (255 <= lfuel)%nat ->
  exists x n s' G', malloc_small fuel lfuel pf D size s = Ok (x, s') /\ x <> 0 /\ fits size n /\
    allocated s G s' G' x n.
Proof.
  intros H Hs Hroom Hfu Hlf. destruct (find_desc_ok s G size H Hs) as (c & Hfd & Hc & Hle & Hmin).
  destruct (class_facts c Hc) as (Hb & Hper & _).
  assert (Hfit : fits size (bsz c)).
  { split; [done|]. destruct (decide (c = 0)) as [->|]; [by left|right].
    pose proof (Hmin (c - 1) ltac:(lia)). destruct (class_facts (c - 1)) as (_ & _ & _ & E); [lia|].
    replace (c - 1 + 1) with c in E by lia. lia. }
  unfold malloc_small. rewrite (bind_Ok _ _ _ _ _ (on_m_Ok _ s _ _ Hfd)). rewrite set_vmach_id.
  destruct (hi_repr _ _ H) as (cnt & Hr & _).
  rewrite (bind_Ok _ _ _ _ _ (on_m_Ok _ s _ _ (list_empty_spec _ _ _ (hr_list _ _ _ _ _ Hr c Hc)))).
  rewrite set_vmach_id.
  assert (Hpos : forall s' G' x n, allocated s G s' G' x n -> x <> 0).
  { intros s' G' x n A. destruct (live_in _ _ G' (hi_ok _ _ (al_inv _ _ _ _ _ _ A)) x n) as (p & k & Hp & Hx & _).
    { apply (al_live _ _ _ _ _ _ A). by right. }
    pose proof (arena_range _ _ G' (hi_ok _ _ (al_inv _ _ _ _ _ _ A)) p k Hp).
    destruct (ly_base _ _ _ (hi_layout _ _ (al_inv _ _ _ _ _ _ A))). unfold page_at in *. lia. }
  destruct (frees G c) as [|x xs] eqn:Hf.
  - rewrite bool_decide_true by done.
    destruct (new_arena_ok fuel lfuel s G c H Hc Hf Hroom Hfu Hlf) as (p & s1 & Hn & Hun & H1 & Hk1 & Hleft).
    rewrite (bind_Ok _ _ _ _ _ Hn). set (G1 := set_frees c _ _) in H1.
    destruct (frees G1 c) as [|x xs] eqn:Hf1.
    { exfalso. unfold G1 in Hf1. simpl in Hf1. rewrite decide_True in Hf1 by done.
      apply (f_equal length) in Hf1. rewrite length_fmap, length_seqZ in Hf1. simpl in Hf1. lia. }
    destruct (take_ok s1 G1 c x xs H1 Hc Hf1) as (s' & Ht & A & Hroom').
    assert (A' : allocated s G s' (set_frees c xs G1) x (bsz c)).
    { eapply allocated_new; [exact Hk1| |done| |exact A].
      - intros y m. destruct (kept_static _ _ _ Hk1) as (Eb & _). rewrite Eb.
        apply (live_new _ (pa_pages s)); [apply (hi_ok _ _ H)|done..].
      - intros m Hm Hr0. apply Hroom', Hleft; [done|]. eapply pa_room_less; [exact Hr0|].
        pose proof (pages_for_pos (bsz c)). lia. }
    exists x, (bsz c), s', (set_frees c xs G1). split; [exact Ht|]. split; [by eapply Hpos|done].
  - rewrite bool_decide_false by done. mstep.
    destruct (take_ok s G c x xs H Hc Hf) as (s' & Ht & A & _).
    exists x, (bsz c), s', (set_frees c xs G). split; [exact Ht|]. split; [by eapply Hpos|done].
Qed.

Lemma live_add_large B N G p n y m :
  heap_ok B N G -> 0 < n -> unused G p n ->
  live B (add_arena p (Large n) G) y m <-> live B G y m \/ (y = page_at B p + 12 /\ m = 4096 * n - 12).
Proof.
  intros Hok Hn Hu. split.
  - intros [q c j Hq Hj Hnf|q u Hq]; apply unused_other in Hq as [[-> E]|[_ Hq]]; try done.
    + left. by apply live_small.
    + right. by injection E as ->.
    + left. by apply live_large.
  - intros [Hl|[-> ->]].
    + destruct Hl as [q c j Hq Hj Hnf|q u Hq]; destruct (Hu q _ Hq) as [|]; simpl in *;
        pose proof (arena_range _ _ G Hok q _ Hq);
        (apply live_small; [|done..]) || apply live_large; simpl; rewrite lookup_insert_ne; try done;
        simpl in *; lia.
    + apply live_large. simpl. by rewrite lookup_insert_eq.
Qed.

Lemma malloc_large_ok s G size :
  heap_inv s G -> 1024 < size < 15724533 -> pa_room s (pages_for size) ->
  exists x n s' G', malloc_large pf size s = Ok (x, s') /\ x <> 0 /\ size <= n < size + 4096 /\
    allocated s G s' G' x n.
Proof.
  intros H Hs Hroom. set (n := pages_for size) in *.
  assert (Hn : 0 < n < 3840 /\ size <= 4096 * n - 12 < size + 4096).
  { unfold n, pages_for. Z.div_mod_to_equations; lia. }
  assert (En : DIV_ROUND_UP (u32 (size + sizeof_arena)) PG_SIZE = n).
  { unfold DIV_ROUND_UP, sizeof_arena, PG_SIZE. rewrite !u32_id by (rewrite ?u32_id; lia).
    unfold n, pages_for. f_equal. lia. }
  destruct (new_pages s G (Large n) H) as (p & s1 & Hm & H1 & Hk1 & Hun & Hp & Hpe & Hu & Hleft); [simpl; lia|done|].
  simpl span in *. destruct (kept_static _ _ _ Hk1) as (Eb & Ep & _).
  destruct (page_at_pos _ _ _ (hi_layout _ _ H) p) as [Hpos _]; [lia|].
  assert (Hnz : page_at (pa_base s) p <> 0) by lia.
  unfold malloc_large. rewrite En. rewrite (bind_Ok _ _ _ _ _ Hm), decide_True by done.
  rewrite (u32_id (n * PG_SIZE)) by (unfold PG_SIZE; lia).
  rewrite (bind_Ok _ _ _ _ _ (on_m_Ok _ _ _ _ (memset_eq _ 0 (n * PG_SIZE) (vmach s1) Hnz))).
  destruct (hi_repr _ _ H1) as (cnt & Hr & Hcnt). rewrite Eb in Hr, Hcnt.
  replace (n * PG_SIZE) with (4096 * n) by (unfold PG_SIZE; lia).
  assert (Hko : kind_ok (pa_pages s) p (Large n)) by (split_and!; simpl; lia).
  destruct (new_arena_mem _ _ _ (hi_layout _ _ H) G _ cnt p (Large n) n (hi_ok _ _ H) Hr Hun Hko)
    as (Hok2 & Hr2 & Hag2 & Hz); [lia|]. simpl span in *. simpl kind_desc in *. simpl kind_large in *.
  set (r1 := ram_fill _ _ _ _) in *. set (r2 := ram_header r1 _ _ _ _) in *.
  rewrite (bind_Ok _ _ _ _ _ (on_m_Ok _ (set_vmach (set_ram r1 (vmach s1)) s1) _ _
             (set_arena_eq _ 0 n 1 (set_ram r1 (vmach s1))))).
  destruct (heap_inv_ram s1 G (add_arena p (Large n) G) G r2 (set_cnt p n cnt) H1) as [H2 Hk2].
  - rewrite Eb, Ep. exact Hag2.
  - rewrite Eb, Ep. exact Hok2.
  - rewrite Eb. exact Hr2.
  - rewrite Eb. intros q k Hq. apply unused_other in Hq as [[-> ->]|[Hqp Hq]]; [| |simpl; lia|done].
    + unfold set_cnt. by rewrite decide_True.
    + unfold set_cnt. rewrite decide_False by done. exact (Hcnt q k Hq).
  - exact Hu.
  - exists (page_at (pa_base s) p + 12), (4096 * n - 12), (with_ram r2 s1), (add_arena p (Large n) G).
    split; [reflexivity|]. split; [lia|]. split; [lia|].
    destruct (kept_static _ _ _ Hk2) as (Eb2 & _ & _).
    split; [exact H2|apply (kept_trans G G s s1); [exact Hk1|exact Hk2|done]|..].
    + intros y m. rewrite Eb2, Eb. apply (live_add_large _ (pa_pages s)); [apply (hi_ok _ _ H)|lia|done].
    + intros m Hl. destruct (live_in _ _ G (hi_ok _ _ H) _ m Hl) as (q & kq & Hq & H3 & H4 & Hm').
      destruct (Hun q kq Hq); unfold page_at in *; lia.
    + intros i Hi. apply Hz. lia.
    + intros m Hm0 Hr0. eapply (room_ram s1 G G); [exact H1|by rewrite Eb, Ep|]. apply Hleft; [done|].
      replace n with (pages_for (4096 * n - 12)) by (unfold pages_for; Z.div_mod_to_equations; lia). done.
Qed.

(** ** Release *)

Definition in_arena (B p : Z) (k : arena_kind) (x : Z) : Prop :=
  page_at B p <= x < page_at B p + 4096 * span k.

(** What becomes of the arena of the block at [x], its pages [p ..]: with no
    other block in use it is taken apart and its pages, and no other, go back
    to the page allocator; otherwise it stays and no page changes hands. *)
Definition arena_settled (s : vm) (G : gheap) (s' : vm) (G' : gheap) (x : Z) : Prop :=
  exists p k, arenas G !! p = Some k /\ in_arena (pa_base s) p k x /\
    ((forall y m, hlive s G y m -> in_arena (pa_base s) p k y -> y = x) ->
       arenas G' = delete p (arenas G) /\
       forall j, 0 <= j < pa_pages s ->
         pa_used s' j = if decide (p <= j < p + span k) then false else pa_used s j) /\
    (forall y m, hlive s G y m -> in_arena (pa_base s) p k y -> y <> x ->
       arenas G' = arenas G /\ forall j, 0 <= j < pa_pages s -> pa_used s' j = pa_used s j).

(** What the release of the block at [x] does. *)
Record released (s : vm) (G : gheap) (s' : vm) (G' : gheap) (x : Z) : Prop := {
  re_inv : heap_inv s' G';
  re_pages : arena_settled s G s' G' x;
  re_kept : kept G' s s';
  re_live y m : hlive s' G' y m <-> hlive s G y m /\ y <> x;
  re_room m : pa_room s m -> pa_room s' m
}.

Lemma live_put B N G p c k y m :
  heap_ok B N G -> arenas G !! p = Some (Small c) -> 0 <= k < per c -> blk B p c k ∉ frees G c ->
  live B (set_frees c (frees G c ++ [blk B p c k]) G) y m <-> live B G y m /\ y <> blk B p c k.
Proof.
  intros Hok Hp Hk Hnf. destruct (ho_small _ _ _ Hok p c Hp) as [Hc Hpn].
  destruct (class_facts c Hc) as (Hb & _).
  assert (Hin : forall q kq, arenas G !! q = Some kq ->
    page_at B q + 12 <= blk B p c k < page_at B q + 4096 * span kq -> q = p).
  { intros q kq Hq Hi. pose proof (blk_page B p c k Hc Hk).
    apply (arena_sep _ _ G Hok q p kq (Small c) (blk B p c k)); try done; simpl; lia. }
  split.
  - intros [q c' j Hq Hj Hx|q u Hq]; simpl in *.
    + case_decide as E; [subst c'|].
      * split; [apply live_small; [done..|]; set_solver|]. set_solver.
      * split; [by apply live_small|]. intros Eb. destruct (ho_small _ _ _ Hok _ _ Hq) as [Hc' _].
        pose proof (blk_page B q c' j Hc' Hj). destruct (class_facts c' Hc') as (? & _).
        assert (q = p) as -> by (apply (Hin q (Small c')); [done|simpl; lia]). congruence.
    + split; [by apply live_large|]. intros Eb. pose proof (arena_range _ _ G Hok q _ Hq). simpl in *.
      assert (q = p) as -> by (apply (Hin q (Large u)); [done|simpl; lia]). congruence.
  - intros [[q c' j Hq Hj Hx|q u Hq] Hne]; [|by apply live_large].
    apply live_small; [done..|]. simpl. case_decide; [subst; set_solver|done].
Qed.

Lemma live_del B N G p k y m :
  heap_ok B N G -> arenas G !! p = Some k ->
  (forall y m, live B G y m -> ~ page_at B p <= y < page_at B p + 4096 * span k) ->
  live B (del_arena p G) y m <-> live B G y m.
Proof.
  intros Hok Hp Hno. split.
  - intros [q c j Hq Hj Hx|q u Hq]; simpl in *; rewrite lookup_delete in Hq; case_decide; try done;
      [by apply live_small|by apply live_large].
  - intros Hl. pose proof (Hno y m Hl) as Hy.
    destruct Hl as [q c j Hq Hj Hx|q u Hq]; pose proof (arena_range _ _ G Hok q _ Hq); simpl in *;
      (apply live_small; [|done..]) || apply live_large; simpl; rewrite lookup_delete_ne; try done;
      intros ->; rewrite Hp in Hq; injection Hq as ->; simpl in *.
    + destruct (ho_small _ _ _ Hok q c Hp) as [Hc _]. pose proof (blk_page B q c j Hc Hj).
      destruct (class_facts c Hc). lia.
    + lia.
Qed.

(** Giving pages back that no arena has. *)
Lemma give_back s G p n :
  heap_inv s G -> unused G p n -> 0 < n -> 0 <= p -> p + n <= pa_pages s ->
  (forall j, p <= j < p + n -> pa_used s j = true) ->
  exists s', mfree_page pf (page_at (pa_base s) p) n s = Ok (tt, s') /\
    heap_inv s' G /\ kept G s s' /\ (forall m, pa_room s m -> pa_room s' m) /\
    forall j, 0 <= j < pa_pages s ->
      pa_used s' j = if decide (p <= j < p + n) then false else pa_used s j.
Proof.
  intros H Hun Hn Hp Hpe Hu.
  destruct (pa_mfree s p n (hi_pages _ _ H) Hn Hp Hpe Hu) as (s' & Hm & Hi & Hst & Hu' & Hroom).
  exists s'. split; [exact Hm|]. rewrite assoc by apply _. split; [|by split]. apply heap_inv_pages; [done..|].
  intros q k' j Hq Hj. destruct (arena_range _ _ G (hi_ok _ _ H) q k' Hq).
  rewrite Hu' by lia. rewrite decide_False; [by apply (hi_used _ _ H q k')|].
  destruct (Hun q k' Hq); lia.
Qed.

Lemma del_lookup p G q k : arenas (del_arena p G) !! q = Some k -> q <> p /\ arenas G !! q = Some k.
Proof. simpl. rewrite lookup_delete. case_decide; [done|]. intros ?. split; congruence. Qed.

Lemma del_unused B N G p k : heap_ok B N G -> arenas G !! p = Some k -> unused (del_arena p G) p (span k).
Proof.
  intros Hok Hp q k' Hq. apply del_lookup in Hq as [Hne Hq].
  destruct (ho_disj _ _ _ Hok p q k k' Hp Hq); [done|by left|by right].
Qed.

Lemma block2arena_large s G p n : heap_inv s G -> arenas G !! p = Some (Large n) ->
  block2arena (page_at (pa_base s) p + 12) = page_at (pa_base s) p.
Proof.
  intros H Hp. destruct (arena_range _ _ G (hi_ok _ _ H) p _ Hp) as (Hs & Hp0 & Hpe).
  destruct (hi_layout _ _ H) as [[? ?] ? _]. simpl in *. unfold block2arena, page_at in *.
  rewrite land_page by lia. Z.div_mod_to_equations; lia.
Qed.

Lemma free_large_ok fuel lfuel s G p n :
  heap_inv s G -> arenas G !! p = Some (Large n) ->
  exists s', free_block fuel lfuel pf (page_at (pa_base s) p + 12) s = Ok (tt, s') /\
    released s G s' (del_arena p G) (page_at (pa_base s) p + 12).
Proof.
  intros H Hp. pose proof (hi_ok _ _ H) as Hok. destruct (hi_repr _ _ H) as (cnt & Hr & Hcnt).
  destruct (hr_large _ _ _ _ _ Hr p n Hp) as [E1 E3]. pose proof (hr_count _ _ _ _ _ Hr p _ Hp) as E2.
  destruct (arena_range _ _ G Hok p _ Hp) as (Hs & Hp0 & Hpe).
  destruct (del_spec _ _ _ G _ cnt p Hok Hr) as [Hok' Hr'].
  { intros c x Hc Hx Hxp. destruct (ho_free _ _ _ Hok c x Hc Hx) as (q & j & Hq & Hj & ->).
    assert (q = p) as -> by (eapply page_unique; [by apply blk_in_page|done]). congruence. }
  assert (H1 : heap_inv s (del_arena p G)).
  { split; try done; [apply H|apply H| |apply H|].
    - exists cnt. split; [done|]. intros q k [_ Hq]%del_lookup. exact (Hcnt q k Hq).
    - intros q k j [_ Hq]%del_lookup. by apply (hi_used _ _ H). }
  destruct (give_back s (del_arena p G) p n H1) as (s' & Hm & H' & Hk & Hroom & Hpg); [by apply (del_unused _ _ _ _ _ Hok Hp)|done..| |].
  { intros j. by apply (hi_used _ _ H p (Large n)). }
  exists s'. split.
  - unfold free_block. rewrite (block2arena_large s G p n H Hp). unfold arena_large, arena_desc, arena_cnt.
    rewrite (bind_Ok _ _ _ _ _ (on_m_Ok (load32 _) s _ _ eq_refl)). rewrite E3, set_vmach_id.
    rewrite (bool_decide_true (1 = 1)), orb_true_r by done. mstep.
    rewrite (bind_Ok _ _ _ _ _ (on_m_Ok (load32 _) s _ _ eq_refl)). rewrite E1, set_vmach_id.
    rewrite decide_True by done.
    rewrite (bind_Ok _ _ _ _ _ (on_m_Ok (load32 _) s _ _ eq_refl)). rewrite E2, set_vmach_id.
    rewrite (Hcnt p _ Hp). exact Hm.
  - destruct (kept_static _ _ _ Hk) as (Eb & _). split; [done| |done| |done].
    { exists p, (Large n). split; [done|]. split; [unfold in_arena; simpl in *; lia|]. split; [by split|].
      intros y m [q c j Hq Hj Hx|q u Hq] Hin Hne; unfold in_arena in Hin; simpl in Hin; exfalso.
      - destruct (ho_small _ _ _ Hok _ _ Hq) as [Hc _].
        pose proof (blk_page (pa_base s) q c j Hc Hj). destruct (class_facts c Hc) as (? & _).
        assert (q = p) as -> by (apply (arena_sep _ _ G Hok q p _ _ (blk (pa_base s) q c j) Hq Hp); simpl; lia).
        congruence.
      - destruct (arena_range _ _ G Hok q _ Hq). simpl in *.
        assert (q = p) as -> by (apply (arena_sep _ _ G Hok q p _ _ (page_at (pa_base s) q + 12) Hq Hp); simpl; lia).
        done. }
    intros y m. rewrite Eb. split.
    + intros [q c j Hq Hj Hx|q u Hq]; simpl in Hq; rewrite lookup_delete in Hq; case_decide as E; try done.
      * split; [by apply live_small|]. destruct (ho_small _ _ _ Hok _ _ Hq) as [Hc _].
        pose proof (blk_page (pa_base s) q c j Hc Hj). destruct (class_facts c Hc) as (? & _).
        intros Ex. apply E. symmetry.
        apply (arena_sep _ _ G Hok q p _ _ (blk (pa_base s) q c j) Hq Hp); simpl in *; lia.
      * split; [by apply live_large|]. unfold page_at. lia.
    + intros [[q c j Hq Hj Hx|q u Hq] Hne].
      * apply live_small; [|done..]. simpl. rewrite lookup_delete_ne; [done|]. intros ->. congruence.
      * apply live_large. simpl. rewrite lookup_delete_ne; [done|]. by intros ->.
Qed.

(** The block goes to the free list and is counted. *)
Lemma put_ok s G p c k :
  heap_inv s G -> arenas G !! p = Some (Small c) -> 0 <= k < per c ->
  blk (pa_base s) p c k ∉ frees G c ->
  let x := blk (pa_base s) p c k in
  let G1 := set_frees c (frees G c ++ [x]) G in
  exists r1 r2 cnt, list_append (free_list (desc_at D c)) x (vmach s) = Ok (tt, set_ram r1 (vmach s)) /\
    arena_cnt (page_at (pa_base s) p) (set_ram r1 (vmach s)) =
      Ok (count (pa_base s) p (frees G c), set_ram r1 (vmach s)) /\
    store32 (page_at (pa_base s) p + 4) (u32 (count (pa_base s) p (frees G c) + 1))
      (set_ram r1 (vmach s)) = Ok (tt, set_ram r2 (vmach s)) /\
    heap_inv (with_ram r2 s) G1 /\ kept G1 s (with_ram r2 s) /\
    heap_repr (pa_base s) D r2 cnt G1 /\ counts_ok (pa_base s) cnt G1 /\
    cnt p = count (pa_base s) p (frees G c) + 1 /\ (forall m, pa_room s m -> pa_room (with_ram r2 s) m) /\
    forall j, 0 <= j < pa_pages s -> pa_used (with_ram r2 s) j = pa_used s j.
Proof.
  intros H Hp Hk Hnf x G1. pose proof (hi_ok _ _ H) as Hok. destruct (hi_repr _ _ H) as (cnt & Hr & Hcnt).
  pose proof (hi_layout _ _ H) as Hly. destruct (ho_small _ _ _ Hok p c Hp) as [Hc Hpn].
  destruct (append_spec _ _ _ Hly G p c k cnt (vmach s) Hok Hr Hp Hk Hnf) as (r1 & Happ & Hok1 & Hr1 & Hag1).
  set (n := count (pa_base s) p (frees G c)) in *.
  assert (Ecnt : cnt p = n) by exact (Hcnt p _ Hp).
  pose proof (count_le _ _ G c p Hok Hc) as Hle. fold n in Hle. destruct (class_facts c Hc) as (_ & Hper & _).
  assert (Hn0 : 0 <= n) by (unfold n, count; lia).
  destruct (repr_count _ _ _ Hly G1 r1 cnt p (Small c) (n + 1) Hok1 Hr1 Hp) as [Hr2 Hag2]; [lia|].
  set (r2 := st32 r1 _ _) in *. exists r1, r2, (set_cnt p (n + 1) cnt).
  split; [exact Happ|]. split.
  { unfold arena_cnt, load32, gets. simpl ram. rewrite (hr_count _ _ _ _ _ Hr1 p _ Hp). by rewrite Ecnt. }
  split; [by rewrite u32_id by lia|].
  assert (Hcnt2 : counts_ok (pa_base s) (set_cnt p (n + 1) cnt) G1).
  { intros q kq Hq. unfold set_cnt. simpl in *. case_decide as E.
    - subst q. rewrite Hp in Hq. injection Hq as <-. rewrite decide_True by done.
      rewrite count_app, count_cons, decide_True by (by apply blk_in_page). unfold n.
      change (count (pa_base s) p []) with 0. lia.
    - rewrite (Hcnt q kq Hq). destruct kq as [c'|u]; [|done]. case_decide; [|done]. subst c'.
      rewrite count_app, count_cons, decide_False; [change (count (pa_base s) q []) with 0; lia|].
      intros Hin. apply E. eapply page_unique; [exact Hin|by apply blk_in_page]. }
  assert (Hag : agree (hothers s G1) (ram (vmach s)) r2).
  { intros i Hi. rewrite Hag2 by done. by apply Hag1. }
  destruct (heap_inv_ram s G G1 G1 r2 (set_cnt p (n + 1) cnt) H) as [H2 Hk2]; try done.
  - intros q kq j Hq Hj. by apply (hi_used _ _ H q kq).
  - split; [done|]. split; [done|]. split; [done|]. split; [done|].
    split; [unfold set_cnt; by rewrite decide_True|].
    split; intros m; [by apply (room_ram s G G1)|by apply (used_ram s G G1)].
Qed.

(** An arena all of whose blocks are free has no live block. *)
Lemma live_empty B N G p c y m :
  heap_ok B N G -> arenas G !! p = Some (Small c) ->
  (forall j, 0 <= j < per c -> blk B p c j ∈ frees G c) ->
  live B (del_arena p (set_frees c (rest B p (frees G c)) G)) y m <-> live B G y m.
Proof.
  intros Hok Hp Hall. destruct (ho_small _ _ _ Hok p c Hp) as [Hc _]. split.
  - intros [q c' j Hq Hj Hx|q u Hq]; apply del_lookup in Hq as [Hne Hq]; [|by apply live_large].
    apply live_small; [done..|]. simpl in *. case_decide as E; [subst c'|done].
    intros Hf. apply Hx, rest_elem. split; [done|]. intros Hin. apply Hne.
    eapply page_unique; [|exact Hin]. by apply blk_in_page.
  - intros [q c' j Hq Hj Hx|q u Hq].
    + destruct (decide (q = p)) as [->|Hne].
      { simpl in Hq. rewrite Hp in Hq. injection Hq as <-. by destruct Hx; apply Hall. }
      apply live_small; [simpl; by rewrite lookup_delete_ne by auto|done|]. simpl.
      case_decide as E; [subst c'|done]. intros Hf. by apply rest_elem in Hf as [Hf _].
    + apply live_large. simpl. rewrite lookup_delete_ne; [done|]. intros ->. congruence.
Qed.

(** All blocks of the arena are free: it is taken apart. *)
Lemma empty_arena_ok fuel lfuel s G p c cnt :
  heap_inv s G -> arenas G !! p = Some (Small c) ->
  heap_repr (pa_base s) D (ram (vmach s)) cnt G -> counts_ok (pa_base s) cnt G ->
  count (pa_base s) p (frees G c) = per c ->
  (256 <= fuel)%nat -> (length (frees G c) < lfuel)%nat ->
  exists s' G', (on_m (unlink_loop fuel lfuel (page_at (pa_base s) p) 0);;
                 mfree_page pf (page_at (pa_base s) p) 1) s = Ok (tt, s') /\
    heap_inv s' G' /\ kept G s s' /\ (forall y m, hlive s' G' y m <-> hlive s G y m) /\
    (forall m, pa_room s m -> pa_room s' m) /\ arenas G' = delete p (arenas G) /\
    forall j, 0 <= j < pa_pages s ->
      pa_used s' j = if decide (p <= j < p + 1) then false else pa_used s j.
Proof.
  intros H Hp Hr Hcnt Hfull Hfu Hlf. pose proof (hi_ok _ _ H) as Hok.
  pose proof (hi_layout _ _ H) as Hly. destruct (ho_small _ _ _ Hok p c Hp) as [Hc Hpn].
  destruct (class_facts c Hc) as (Hb & Hper & _).
  pose proof (full_all _ _ G c p Hok Hc Hfull) as Hall.
  destruct (unlink_loop_spec _ _ _ Hly fuel lfuel G p c 0 cnt (vmach s) Hok Hr Hp)
    as (r & Hun & Hok1 & Hr1 & Hag1); [lia|lia|done|lia|done|].
  set (G1 := set_frees c (rest (pa_base s) p (frees G c)) G) in *.
  assert (Hd1 : forall q kq j, arenas G1 !! q = Some kq -> q <= j < q + span kq -> pa_used s j = true).
  { intros q kq j Hq Hj. by apply (hi_used _ _ H q kq). }
  assert (Hc1 : counts_ok (pa_base s) cnt (del_arena p G1)).
  { intros q kq Hq. simpl in Hq. rewrite lookup_delete in Hq. case_decide as E; [done|].
    rewrite (Hcnt q kq Hq). destruct kq as [c'|u]; [|done]. simpl. case_decide; [|done]. subst c'.
    by rewrite count_rest by auto. }
  destruct (del_spec _ _ _ G1 r cnt p Hok1 Hr1) as [Hok2 Hr2].
  { intros c' x Hc' Hx Hxp. unfold G1 in Hx. simpl in Hx. case_decide as E.
    - by apply rest_elem in Hx as [_ Hx].
    - destruct (ho_free _ _ _ Hok c' x Hc' Hx) as (q & j & Hq & Hj & ->).
      assert (q = p) as -> by (eapply page_unique; [by apply blk_in_page|done]). congruence. }
  destruct (heap_inv_ram s G (del_arena p G1) G r cnt H Hag1 Hok2 Hr2 Hc1) as [H1 Hk1].
  { intros q kq j [_ Hq]%del_lookup. by apply (hi_used _ _ H). }
  destruct (kept_static _ _ _ Hk1) as (Eb & Ep & _).
  assert (Hlive : forall B y m, B = pa_base s -> live B (del_arena p G1) y m <-> hlive s G y m).
  { intros B y m ->. by apply (live_empty _ (pa_pages s)). }
  destruct (give_back (with_ram r s) (del_arena p G1) p 1 H1) as (s' & Hm & H' & Hk' & Hroom & Hpg).
  - apply (del_unused _ _ G1 p (Small c) Hok1 Hp).
  - lia.
  - lia.
  - rewrite Ep. lia.
  - intros j Hj. destruct (pa_outside s r (hi_pages _ _ H)) as (_ & Hu & _).
    + eapply agree_weaken; [|exact Hag1]. intros i. by apply private_others.
    + rewrite Hu by lia. by apply (hi_used _ _ H p (Small c)).
  - exists s', (del_arena p G1). split.
    + rewrite (bind_Ok _ _ _ _ _ (on_m_Ok _ s _ _ Hun)). rewrite <- Eb. exact Hm.
    + split; [done|]. destruct (kept_static _ _ _ Hk') as (Eb' & _).
      split; [|split; [intros y m; apply Hlive; congruence|split; [
        intros m Hm0; apply Hroom; by apply (room_ram s G G)|split; [done|]]]].
      2:{ intros j Hj. rewrite Hpg by (rewrite Ep; lia). by rewrite (used_ram s G G r j H Hag1 Hj). }
      eapply kept_trans; [exact Hk1|exact Hk'|].
      intros i [(y & m & Hy & Hi)|Hi]; [left|by right]. exists y, m. split; [|done]. by apply Hlive.
Qed.

(** A small arena, the block [x] freed: it is full exactly when no other
    block of it is in use. *)
Lemma arena_others s G G1 p c x :
  heap_ok (pa_base s) (pa_pages s) G -> heap_ok (pa_base s) (pa_pages s) G1 ->
  arenas G !! p = Some (Small c) -> arenas G1 = arenas G ->
  (forall y m, hlive s G1 y m <-> hlive s G y m /\ y <> x) ->
  (count (pa_base s) p (frees G1 c) = per c ->
     forall y m, hlive s G y m -> in_arena (pa_base s) p (Small c) y -> y = x) /\
  (count (pa_base s) p (frees G1 c) <> per c ->
     exists y m, hlive s G y m /\ in_arena (pa_base s) p (Small c) y /\ y <> x).
Proof.
  intros Hok Hok1 Hp Har Hlive. destruct (ho_small _ _ _ Hok p c Hp) as [Hc _]. split.
  - intros Hfull y m Hy Hin. destruct (decide (y = x)) as [|Hne]; [done|exfalso].
    pose proof (full_all _ _ G1 c p Hok1 Hc Hfull) as Hall.
    assert (H1 : hlive s G1 y m) by (by apply Hlive).
    destruct (live_in _ _ G1 Hok1 y m H1) as (q & k & Hq & Hy1 & Hy2 & Hm).
    assert (q = p) as ->.
    { rewrite Har in Hq. apply (arena_sep _ _ G Hok q p k (Small c) y Hq Hp); [lia|exact Hin]. }
    rewrite Har, Hp in Hq. injection Hq as <-.
    destruct H1 as [q c' j Hq Hj Hnf|q u Hq]; rewrite Har in Hq.
    + destruct (ho_small _ _ _ Hok q c' Hq) as [Hc' _].
      pose proof (blk_page (pa_base s) q c' j Hc' Hj). destruct (class_facts c' Hc') as (? & _).
      assert (q = p) as -> by (apply (arena_sep _ _ G Hok q p _ _ (blk (pa_base s) q c' j) Hq Hp); [simpl; lia|exact Hin]).
      rewrite Hp in Hq. injection Hq as <-. by destruct Hnf; apply Hall.
    + destruct (arena_range _ _ G Hok q _ Hq). simpl in *.
      assert (q = p) as -> by (apply (arena_sep _ _ G Hok q p _ _ (page_at (pa_base s) q + 12) Hq Hp); [simpl; lia|exact Hin]).
      congruence.
  - intros Hnot. destruct (decide (Exists (fun j => blk (pa_base s) p c j ∉ frees G1 c) (seqZ 0 (per c)))) as [Hex|Hno].
    + apply Exists_exists in Hex as (j & Hj%elem_of_seqZ & Hnf).
      assert (H1 : hlive s G1 (blk (pa_base s) p c j) (bsz c)) by (apply live_small; [by rewrite Har|lia|done]).
      apply Hlive in H1 as [H1 Hne]. exists (blk (pa_base s) p c j), (bsz c). split; [done|]. split; [|done].
      pose proof (blk_in_page (pa_base s) p c j Hc ltac:(lia)) as Hx. unfold in_page in Hx.
      unfold in_arena. simpl. lia.
    + destruct Hnot. apply (count_all _ _ G1 c p Hok1 Hc). intros j Hj.
      destruct (decide (blk (pa_base s) p c j ∈ frees G1 c)) as [|Hn]; [done|]. destruct Hno.
      apply Exists_exists. exists j. split; [apply elem_of_seqZ; lia|done].
Qed.

(** [free_block] of a small block: the block is put on its free list and
    counted; then the arena is given back if all its blocks are free. *)
Lemma free_block_put fuel lfuel s G p c k :
  heap_inv s G -> arenas G !! p = Some (Small c) -> 0 <= k < per c ->
  blk (pa_base s) p c k ∉ frees G c ->
  let x := blk (pa_base s) p c k in
  let G1 := set_frees c (frees G c ++ [x]) G in
  let n := count (pa_base s) p (frees G c) in
  let a := page_at (pa_base s) p in
  exists r2 cnt, free_block fuel lfuel pf x s =
      (if decide (n + 1 = per c) then on_m (unlink_loop fuel lfuel a 0);; mfree_page pf a 1 else mret tt)
        (with_ram r2 s) /\
    heap_inv (with_ram r2 s) G1 /\ kept G1 s (with_ram r2 s) /\
    heap_repr (pa_base s) D r2 cnt G1 /\ counts_ok (pa_base s) cnt G1 /\ cnt p = n + 1 /\
    (forall m, pa_room s m -> pa_room (with_ram r2 s) m) /\
    forall j, 0 <= j < pa_pages s -> pa_used (with_ram r2 s) j = pa_used s j.
Proof.
  intros H Hp Hk Hnf x G1 n a. pose proof (hi_ok _ _ H) as Hok. pose proof (hi_layout _ _ H) as Hly.
  destruct (ho_small _ _ _ Hok p c Hp) as [Hc Hpn]. destruct (class_facts c Hc) as (_ & Hper & _).
  destruct (hi_repr _ _ H) as (cnt0 & Hr0 & _).
  destruct (put_ok s G p c k H Hp Hk Hnf) as (r1 & r2 & cnt & Happ & Hcn & Hst & H2 & Hk2 & Hr2 & Hcnt2 & Ec & Hroom & Hus).
  fold x G1 n a in Happ, Hcn, Hst, H2, Hk2, Hr2, Hcnt2, Ec.
  assert (E8 : ld32 (ram (vmach s)) (a + 8) = 0) by exact (proj2 (hr_small _ _ _ _ _ Hr0 p c Hp)).
  assert (E4 : ld32 r2 (a + 4) = n + 1) by (rewrite <- Ec; exact (hr_count _ _ _ _ _ Hr2 p _ Hp)).
  exists r2, cnt. split; [|by split_and!]. unfold free_block. cbv zeta.
  replace (block2arena x) with a by (symmetry; exact (block2arena_blk _ _ _ Hly p c k Hc Hpn Hk)).
  rewrite (bind_Ok _ _ _ _ _ (on_m_Ok (arena_large a) s _ _ eq_refl)).
  rewrite E8, set_vmach_id. rewrite bool_decide_true by done. mstep.
  rewrite (bind_Ok _ _ _ _ _ (on_m_Ok _ s _ _ (arena_desc_eq _ _ cnt0 G p c (vmach s) Hr0 Hp))), set_vmach_id.
  rewrite decide_False by lia. rewrite (bind_Ok _ _ _ _ _ (on_m_Ok _ s _ _ Happ)).
  set (s1 := set_vmach _ s). rewrite (bind_Ok _ _ _ _ _ (on_m_Ok _ s1 _ _ Hcn)).
  rewrite (bind_Ok _ _ _ _ _ (on_m_Ok _ s1 _ _ Hst)). set (s2 := set_vmach _ s1).
  rewrite (bind_Ok _ _ _ _ _ (on_m_Ok (arena_cnt a) s2 _ _ eq_refl)).
  change (ram (vmach s2)) with r2. rewrite E4, set_vmach_id.
  rewrite (bind_Ok _ _ _ _ _ (on_m_Ok _ s2 _ _ (arena_desc_eq _ _ cnt G1 p c (vmach s2) Hr2 Hp))), set_vmach_id.
  rewrite (bind_Ok _ _ _ _ _ (on_m_Ok _ s2 _ _ (blocks_per_arena_eq _ _ cnt G1 c (vmach s2) Hr2 Hc))), set_vmach_id.
  done.
Qed.

Lemma free_small_ok fuel lfuel s G p c k :
  heap_inv s G -> arenas G !! p = Some (Small c) -> 0 <= k < per c ->
  blk (pa_base s) p c k ∉ frees G c -> (256 <= fuel)%nat -> (S (length (frees G c)) < lfuel)%nat ->
  exists s' G', free_block fuel lfuel pf (blk (pa_base s) p c k) s = Ok (tt, s') /\
    released s G s' G' (blk (pa_base s) p c k).
Proof.
  intros H Hp Hk Hnf Hfu Hlf. pose proof (hi_ok _ _ H) as Hok. pose proof (hi_layout _ _ H) as Hly.
  destruct (free_block_put fuel lfuel s G p c k H Hp Hk Hnf) as (r2 & cnt & Hrun & H2 & Hk2 & Hr2 & Hcnt2 & Ec & Hroom & Hus).
  set (x := blk (pa_base s) p c k) in *. set (G1 := set_frees c (frees G c ++ [x]) G) in *.
  set (n := count (pa_base s) p (frees G c)) in *. set (a := page_at (pa_base s) p) in *.
  destruct (kept_static _ _ _ Hk2) as (Eb & Ep & _).
  assert (Hlive : forall y m, hlive s G1 y m <-> hlive s G y m /\ y <> x).
  { intros y m. by apply (live_put _ (pa_pages s)). }
  assert (Hxin : in_arena (pa_base s) p (Small c) x).
  { destruct (ho_small _ _ _ Hok p c Hp) as [Hc _]. pose proof (blk_in_page (pa_base s) p c k Hc Hk) as Hx.
    unfold in_page in Hx. unfold in_arena. simpl. lia. }
  assert (Hok1 : heap_ok (pa_base s) (pa_pages s) G1) by (rewrite <- Eb, <- Ep; apply (hi_ok _ _ H2)).
  assert (Hcn : count (pa_base s) p (frees G1 c) = n + 1) by (rewrite <- Ec; symmetry; exact (Hcnt2 p _ Hp)).
  destruct (arena_others s G G1 p c x Hok Hok1 Hp eq_refl Hlive) as [Hnone Hsome].
  rewrite Hcn in Hnone, Hsome.
  rewrite Hrun. case_decide as Hfull; [specialize (Hnone Hfull)|].
  - destruct (empty_arena_ok fuel lfuel (with_ram r2 s) G1 p c cnt H2 Hp) as (s' & G' & He & H' & Hk' & Hl' & Hroom' & Har & Hpg).
    + rewrite Eb. exact Hr2.
    + rewrite Eb. exact Hcnt2.
    + rewrite Eb, <- Hfull, <- Ec. symmetry. exact (Hcnt2 p _ Hp).
    + done.
    + simpl. rewrite decide_True by done. rewrite length_app. simpl. lia.
    + rewrite Eb in He. exists s', G'. split; [exact He|]. destruct (kept_static _ _ _ Hk') as (Eb' & Ep' & _).
      split; [done| | | |auto].
      { exists p, (Small c). split; [done|]. split; [exact Hxin|]. split.
        - intros _. split; [exact Har|]. intros j Hj. rewrite Hpg by lia. by rewrite Hus.
        - intros y m Hy Hin Hne. destruct Hne. by eapply Hnone. }
      * assert (Hsub : forall i, hothers s G' i -> hothers s G1 i).
        { intros i [(y & m & Hy & Hi)|Hi]; [left|by right]. exists y, m. split; [|done].
          rewrite <- Eb. apply Hl'. by rewrite Eb', Eb. }
        destruct Hk2 as [B1 B2 Bc B3 B4], Hk' as [C1 C2 Cc C3 C4]. split; [congruence..|rewrite C3, B3; done|].
        intros i [Hi Hni]. rewrite C4; [apply B4; auto|]. rewrite Eb, Ep.
        split; [by apply Hsub|]. by rewrite (proj2 (proj2 (pa_static s (with_ram r2 s) eq_refl eq_refl))).
      * intros y m. rewrite Hl', Eb. apply Hlive.
  - exists (with_ram r2 s), G1. split; [done|]. split; [done| |done| |done].
    + exists p, (Small c). split; [done|]. split; [exact Hxin|]. split; [|by intros; split].
      intros Honly. destruct Hsome as (y & m & Hy & Hin & Hne); [done|]. destruct Hne. by eapply Honly.
    + intros y m. rewrite Eb. apply Hlive.
Qed.

(** A free list is no longer than the heap has blocks. *)
Lemma frees_length B N G c : heap_ok B N G -> 0 <= c < 7 -> 0 <= N ->
  Z.of_nat (length (frees G c)) <= 255 * N.
Proof.
  intros Hok Hc HN. destruct (class_facts c Hc) as (_ & Hper & _).
  set (all := p ← seqZ 0 N; blk B p c <$> seqZ 0 (per c)).
  assert (Hall : Z.of_nat (length all) = per c * N).
  { unfold all. rewrite <- (Z2Nat.id N) at 2 by lia. rewrite <- (length_seqZ 0 N).
    induction (seqZ 0 N) as [|p ps IH]; [simpl; lia|].
    rewrite bind_cons, length_app, length_fmap, length_seqZ. simpl length.
    rewrite Nat2Z.inj_add, Z2Nat.id, IH, Nat2Z.inj_succ by lia. ring. }
  assert (Hs : frees G c ⊆+ all).
  { apply NoDup_submseteq; [by apply (ho_nodup _ _ _ Hok)|]. intros x Hx.
    destruct (ho_free _ _ _ Hok c x Hc Hx) as (p & k & Hp & Hk & ->).
    destruct (ho_small _ _ _ Hok p c Hp) as [_ Hpn]. apply list_elem_of_bind. exists p.
    split; [|apply elem_of_seqZ; lia]. apply list_elem_of_fmap. exists k.
    split; [done|]. apply elem_of_seqZ. lia. }
  apply submseteq_length in Hs. nia.
Qed.

Lemma free_block_ok fuel lfuel s G x n :
  heap_inv s G -> hlive s G x n -> (256 <= fuel)%nat ->
  255 * pa_pages s + 1 < Z.of_nat lfuel ->
  exists s' G', free_block fuel lfuel pf x s = Ok (tt, s') /\ released s G s' G' x.
Proof.
  intros H Hl Hfu Hlf. destruct Hl as [p c k Hp Hk Hnf|p m Hp].
  - destruct (ho_small _ _ _ (hi_ok _ _ H) p c Hp) as [Hc Hpn].
    assert (HN : 0 <= pa_pages s) by lia.
    pose proof (frees_length _ _ G c (hi_ok _ _ H) Hc HN). apply free_small_ok; try done. lia.
  - destruct (free_large_ok fuel lfuel s G p m H Hp) as (s' & Hs). by exists s', (del_arena p G).
Qed.

(** Blocks that stay in use keep their contents. *)
Lemma live_released s s' G G' x y m i :
  heap_inv s G -> released s G s' G' x -> hlive s G y m -> y <> x -> y <= i < y + m ->
  ld8 (ram (vmach s')) i = ld8 (ram (vmach s)) i.
Proof.
  intros H R Hl Hne Hi. destruct (kept_static _ _ _ (re_kept _ _ _ _ _ R)) as (Eb & _).
  apply (k_ram _ _ _ (re_kept _ _ _ _ _ R)). split.
  - left. exists y, m. split; [|done]. rewrite <- Eb. by apply (re_live _ _ _ _ _ R).
  - destruct (live_in _ _ G (hi_ok _ _ H) y m Hl) as (p & k & Hp & H1 & H2 & _). intros Hpr.
    destruct (in_heap _ _ _ (hi_layout _ _ H) G (hi_ok _ _ H) p k i Hp) as [Hin _]; [lia|].
    by apply (pa_apart s i (hi_pages _ _ H)).
Qed.

(** Writes outside the heap's own ground, or to live blocks, do not harm the
    heap. *)
Lemma heap_inv_others s G r :
  heap_inv s G -> agree (fun i => ~ (hothers s G i /\ ~ pa_private s i)) (ram (vmach s)) r ->
  heap_inv (with_ram r s) G.
Proof.
  intros H Hag. destruct (hi_repr _ _ H) as (cnt & Hr & Hcnt). pose proof (hi_ok _ _ H) as Hok.
  destruct (pa_static s (with_ram r s) eq_refl eq_refl) as (Eb & Ep & Epr).
  destruct (pa_outside s r (hi_pages _ _ H)) as (Hpa & Hu & _).
  { eapply agree_weaken; [|exact Hag]. cbv beta. tauto. }
  split; rewrite ?Eb, ?Ep.
  - done.
  - apply H.
  - done.
  - exists cnt. split; [|done]. apply (repr_others _ _ _ (hi_layout _ _ H) G Hok (ram (vmach s))); [done|].
    eapply agree_weaken; [|exact Hag]. cbv beta. tauto.
  - intros a Ha. rewrite Epr. by apply (hi_private _ _ H).
  - intros q k' j Hq Hj. rewrite Hu; [by apply (hi_used _ _ H q k')|].
    destruct (arena_range _ _ G Hok q k' Hq). lia.
Qed.

(** The bytes of a live block are pages of the heap. *)
Lemma live_bytes s G x n i : heap_inv s G -> hlive s G x n -> x <= i < x + n ->
  (pa_base s <= i < pa_base s + 4096 * pa_pages s) /\ ~ D <= i < D + 168 /\ ~ pa_private s i.
Proof.
  intros H Hl Hi. destruct (live_in _ _ G (hi_ok _ _ H) x n Hl) as (p & k & Hp & H1 & H2 & _).
  destruct (in_heap _ _ _ (hi_layout _ _ H) G (hi_ok _ _ H) p k i Hp) as [Hin HD]; [lia|].
  split; [done|]. split; [done|]. intros Hpr. by apply (pa_apart s i (hi_pages _ _ H)).
Qed.

(** A program's writes to its own blocks do not harm the heap. *)
Lemma heap_inv_write s G x n r :
  heap_inv s G -> hlive s G x n -> agree (fun i => ~ x <= i < x + n) (ram (vmach s)) r ->
  heap_inv (with_ram r s) G.
Proof.
  intros H Hl Hag. apply heap_inv_others; [done|]. eapply agree_weaken; [|exact Hag].
  intros i Hn Hi. apply Hn. split; [left; by exists x, n|].
  by destruct (live_bytes s G x n i H Hl Hi) as (_ & _ & ?).
Qed.

End spec.
