(* ===== verification/Malloc.v ===== *)
(** * [sys_malloc], [sys_free] and [mem_init] as calls

    The contracts of HeapSpec for the functions other code calls, with the
    pool's lock, and the state in which [mem_init] leaves the heap. *)
From S2P Require Import Prelude Machine Str Bitmap KList Paging Kernel Thread Sync Console Memory.
From S2P Require Import PageHeap PageAlloc Arena ArenaHeap HeapSpec.

(** ** The calling thread *)

(** A thread of kind [pf] with interrupts off, as in a system call, and the
    lock of its pool free. *)
Record heap_caller (pf : pool_flags) (k : kst) : Prop := {
  hc_if : IF (km k) = false;
  hc_lock : lock_free (pool_lock pf) k;
  hc_run : running (kt k) <> 0;
  hc_kind : heap_of (pgdir (task_at (kt k) (running (kt k)))) = pf
}.

Lemma vm_of_put s k : vm_of (vm_put s k) = s.
Proof.
  unfold vm_of, vm_put. simpl. unfold task_at, upd_task_st. simpl.
  rewrite lookup_insert_eq. by destruct s.
Qed.

(** Only memory and page tables matter. *)
Lemma static_view s s' : vmem s' = vmem s ->
  (forall i, page_addr s' i = page_addr s i) /\ npages s' = npages s /\
  forall a, bitmap_bytes s' a <-> bitmap_bytes s a.
Proof. intros Em. unfold bitmap_bytes, npages, page_addr, kbm, vbm. by rewrite Em. Qed.

Lemma heap_inv_view D s s' G :
  vmem s' = vmem s -> vpg s' = vpg s -> ram (vmach s') = ram (vmach s) ->
  heap_inv PF_KERNEL D s G -> heap_inv PF_KERNEL D s' G.
Proof.
  intros Em Ep Er [H1 H2 H3 H4 H5 H6]. destruct (kernel_pages_view s s' Em Ep Er) as (V1 & _ & V3).
  destruct (static_view s s' Em) as (Eb & En & Ea).
  split; cbn [pa_inv pa_base pa_pages pa_used pa_private kernel_PageAlloc] in *;
    rewrite ?Eb, ?En, ?Er; try done; [by apply V1|intros a; rewrite Ea; apply H5|].
  intros p k j. rewrite V3. apply H6.
Qed.

(** What a call leaves besides memory, page tables and the lock [l]. *)
Record aside (l : lock_id) (k k' : kst) : Prop := {
  as_tss : tss_esp0 k' = tss_esp0 k;
  as_dev : kdev k' = kdev k;
  as_threads : is_Some (tasks (kt k) !! running (kt k)) -> kt k' = kt k;
  as_locks : locks_but [l] (ks k) (ks k')
}.

Lemma upd_task_same th t v : is_Some (tasks th !! t) -> task_at th t = v ->
  upd_task_st t (fun _ => v) th = th.
Proof.
  intros [t0 Ht] Hv. unfold upd_task_st. rewrite insert_id; [by destruct th|].
  rewrite Ht, <- Hv. unfold task_at. by rewrite Ht.
Qed.

(** Work on memory under the pool's lock. *)
Lemma locked_section {A} pf fuel k (m : M vm A) a s' :
  heap_caller pf k -> m (vm_of k) = Ok (a, s') -> vcur s' = vcur (vm_of k) ->
  vmach s' = set_ram (ram (vmach s')) (km k) ->
  exists k2 k', (forall B (f : A -> K B), (lock_acquire (S fuel) (pool_lock pf);; p ← on_vm m; f p) k = f a k2) /\
    lock_release (pool_lock pf) k2 = Done tt k' /\
    heap_caller pf k' /\ vm_of k' = s' /\ running (kt k') = running (kt k) /\
    aside (pool_lock pf) k k'.
Proof.
  intros [HI Hl Hr Hk] Hm Hc Hmach.
  destruct (lock_acquire_free fuel _ k HI Hl Hr) as (s1 & Ha & Hl1 & Hs1 & Hb1).
  assert (Hv : on_vm m (set_ks s1 k) = Done a (vm_put s' (set_ks s1 k))) by (by apply lift_Ok).
  set (k2 := vm_put s' (set_ks s1 k)) in *.
  assert (HI2 : IF (km k2) = false).
  { unfold k2. simpl. rewrite Hmach. exact HI. }
  destruct (lock_release_free (pool_lock pf) (running (kt k)) k2 HI2 Hl1 eq_refl Hs1) as (s3 & Hrel & Hl3 & Hb3).
  exists k2, (set_ks s3 k2). split.
  { intros B f. rewrite (kbind_Done _ _ _ _ _ Ha). cbv beta. by rewrite (kbind_Done _ _ _ _ _ Hv). }
  split; [exact Hrel|].
  assert (Hv2 : vm_of (set_ks s3 k2) = s') by apply (vm_of_put s' (set_ks s1 k)).
  split.
  - split; [done|done|done|]. change (task_at _ _) with (vcur (vm_of (set_ks s3 k2))).
    rewrite Hv2, Hc. exact Hk.
  - split; [done|]. split; [done|]. split; [done|done| |by eapply locks_but_same].
    intros Ht. exact (upd_task_same (kt k) _ (vcur s') Ht (eq_sym Hc)).
Qed.

Section calls.
Context (pf : pool_flags) `{!PageAlloc pf}.

(** The pool and the descriptors the calls choose. *)
Definition caller_pool (k : kst) : pool :=
  match pf with PF_KERNEL => kernel_pool (kmem k) | PF_USER => user_pool (kmem k) end.
Definition caller_descs (kd : Z) (k : kst) : Z :=
  match pf with PF_KERNEL => kd | PF_USER => u_block_descs (running (kt k)) end.

Definition enough_room (s : vm) (size : Z) : Prop :=
  if decide (size <= 1024) then pa_room s 1
  else size < 15724533 /\ pa_room s (pages_for size).

Definition good_fit (size n : Z) : Prop :=
  size <= n /\ if decide (size <= 1024) then n = 16 \/ n < 2 * size else n < size + 4096.

Lemma sys_malloc_run kd lk fuel lfuel size k G :
  heap_caller pf k -> heap_inv pf (caller_descs kd k) (vm_of k) G ->
  0 < size < pool_size (caller_pool k) -> enough_room (vm_of k) size ->
  (256 <= fuel)%nat -> (255 <= lfuel)%nat ->
  exists x n k' G', sys_malloc kd (S lk) fuel lfuel size k = Done x k' /\ x <> 0 /\
    good_fit size n /\ heap_caller pf k' /\ running (kt k') = running (kt k) /\
    aside (pool_lock pf) k k' /\ allocated pf (caller_descs kd k) (vm_of k) G (vm_of k') G' x n.
Proof.
  intros Hcall H Hs Hroom Hfu Hlf. set (D := caller_descs kd k) in *.
  assert (Hm : exists x n s' G', (if decide (size > 1024) then malloc_large pf size
                 else malloc_small fuel lfuel pf D size) (vm_of k) = Ok (x, s') /\ x <> 0 /\
                 good_fit size n /\ allocated pf D (vm_of k) G s' G' x n).
  { unfold enough_room, good_fit in *. destruct (decide (size <= 1024)) as [Hle|Hgt].
    - rewrite decide_False by lia.
      destruct (malloc_small_ok pf D fuel lfuel (vm_of k) G size H) as (x & n & s' & G' & Hm & Hx & Hf & A);
        [lia|done..|]. exists x, n, s', G'. done.
    - rewrite decide_True by lia. destruct Hroom as [Hlt Hroom].
      destruct (malloc_large_ok pf D (vm_of k) G size H) as (x & n & s' & G' & Hm & Hx & Hf & A);
        [lia|done|]. exists x, n, s', G'. split_and!; try done; lia. }
  destruct Hm as (x & n & s' & G' & Hm & Hx & Hfit & A).
  pose proof (al_kept _ _ _ _ _ _ _ _ A) as Hk.
  destruct (locked_section pf lk k _ x s' Hcall Hm (k_cur _ _ _ _ _ Hk) (k_mach _ _ _ _ _ Hk))
    as (k2 & k' & Hrun & Hrel & Hcall' & Hv & Hr & Has).
  exists x, n, k', G'. split; [|by rewrite Hv].
  unfold sys_malloc, running_thread, get_task. kstep. kstep. kstep.
  destruct Hcall as [_ _ _ Hkind]. rewrite Hkind.
  change (pool_size (match pf with PF_KERNEL => _ | PF_USER => _ end)) with (pool_size (caller_pool k)).
  rewrite !bool_decide_true by lia. cbn [andb negb]. cbv zeta.
  rewrite Hrun. by rewrite (kbind_Done _ _ _ _ _ Hrel).
Qed.

Lemma sys_free_run kd lk fuel lfuel x n k G :
  heap_caller pf k -> heap_inv pf (caller_descs kd k) (vm_of k) G ->
  live (pa_base (vm_of k)) G x n -> (pf = PF_KERNEL -> K_HEAP_START <= pa_base (vm_of k)) ->
  (256 <= fuel)%nat -> 255 * pa_pages (vm_of k) + 1 < Z.of_nat lfuel ->
  exists k' G', sys_free (S lk) fuel lfuel x k = Done tt k' /\ heap_caller pf k' /\
    running (kt k') = running (kt k) /\ aside (pool_lock pf) k k' /\
    released pf (caller_descs kd k) (vm_of k) G (vm_of k') G' x.
Proof.
  intros Hcall H Hl Hbase Hfu Hlf. set (D := caller_descs kd k) in *.
  destruct (free_block_ok pf D fuel lfuel (vm_of k) G x n H Hl Hfu Hlf) as (s' & G' & Hf & R).
  pose proof (re_kept _ _ _ _ _ _ _ R) as Hk.
  destruct (locked_section pf lk k _ tt s' Hcall Hf (k_cur _ _ _ _ _ Hk) (k_mach _ _ _ _ _ Hk))
    as (k2 & k' & Hrun & Hrel & Hcall' & Hv & Hr & Has).
  assert (Hx : page_at (pa_base (vm_of k)) 0 <= x).
  { destruct (live_in _ _ G (hi_ok _ _ _ _ H) x n Hl) as (p & kk & Hp & Hx & _).
    pose proof (arena_range _ _ G (hi_ok _ _ _ _ H) p kk Hp). unfold page_at in *. lia. }
  assert (Hx0 : x <> 0).
  { destruct (ly_base _ _ _ (hi_layout _ _ _ _ H)). unfold page_at in *. lia. }
  exists k', G'. split; [|by rewrite Hv].
  unfold sys_free, running_thread, get_task. rewrite (bool_decide_true (x <> 0)) by done. kstep.
  rewrite decide_True by done. kstep. kstep.
  destruct Hcall as [_ _ _ Hkind]. rewrite Hkind.
  unfold heap_of in Hkind. case_decide as E.
  - rewrite bool_decide_true by (unfold page_at in *; specialize (Hbase (eq_sym Hkind)); lia). kstep.
    rewrite Hrun. exact Hrel.
  - kstep. rewrite Hrun. exact Hrel.
Qed.
End calls.

(** ** The heap [mem_init] leaves *)

Lemma block_desc_loop_spec D n idx m :
  0 < D -> D + 168 <= 4294967296 -> 0 <= idx -> idx + Z.of_nat n = 7 ->
  exists r, block_desc_loop n D idx (bsz idx) m = Ok (tt, set_ram r m) /\
    (forall c, idx <= c < 7 -> ld32 r (desc_at D c) = bsz c /\ ld32 r (desc_at D c + 4) = per c /\
       list_at r (lst D c) []) /\
    agree (fun i => ~ D + 24 * idx <= i < D + 168) (ram m) r.
Proof.
  intros HD HD'. revert idx m. induction n as [|n IH]; intros idx m Hi Hn.
  { exists (ram m). split; [by destruct m|]. split; [lia|done]. }
  assert (Hc : 0 <= idx < 7) by lia. destruct (class_facts idx Hc) as (Hb & Hper & Hpb & Hdbl).
  cbn [block_desc_loop]. set (d := desc_at D idx).
  assert (Ed : d = D + 24 * idx) by reflexivity.
  unfold store32 at 1 2. mstep. mstep.
  set (r2 := st32 (st32 (ram m) d (bsz idx)) (d + 4) (u32 (PG_SIZE - sizeof_arena) / bsz idx)).
  change (set_ram _ (set_ram _ m)) with (set_ram r2 m).
  destruct (list_init_spec (free_list d) (set_ram r2 m)) as (r3 & Hli & Hl3 & Hag3).
  { unfold addr_ok, free_list. lia. } { unfold addr_ok, tail_of, free_list. lia. }
  rewrite (bind_Ok _ _ _ _ _ Hli). rewrite (u16_id (idx + 1)) by lia.
  replace (u16 (bsz idx * 2)) with (bsz (idx + 1)) by (rewrite u16_id; lia).
  destruct (IH (idx + 1) (set_ram r3 m)) as (r & Hr & Hds & Hag); [lia|lia|].
  simpl ram in Hag. simpl ram in Hag3.
  assert (Hout : forall i, ~ d + 8 <= i < d + 24 -> outside (nodes (free_list d) []) i).
  { intros i Hx. unfold outside, nodes, head_of, tail_of, free_list. simpl.
    rewrite Forall_cons, Forall_singleton. lia. }
  assert (Hw : forall a, d <= a <= d + 4 -> ld32 r a = ld32 r2 a).
  { intros a Ha. etransitivity.
    - eapply agree_ld32; [exact Hag|]. intros i Hx. cbv beta. lia.
    - eapply agree_ld32; [exact Hag3|]. intros i Hx. apply Hout. lia. }
  exists r. split; [exact Hr|]. split.
  - intros c Hcc. destruct (decide (c = idx)) as [->|Hne]; [|apply Hds; lia]. fold d.
    rewrite !Hw by lia. unfold r2. rewrite (ld32_st32_ne _ _ d) by lia. rewrite !ld32_st32_eq.
    split; [apply u32_id; lia|]. split; [change (u32 (per idx) = per idx); apply u32_id; lia|].
    eapply list_at_agree; [|exact Hl3]. eapply agree_weaken; [|exact Hag].
    intros i Hx Hy. apply Hx, Hout. lia.
  - apply (agree_trans _ _ r2); [|apply (agree_trans _ _ r3)].
    + unfold r2. eapply agree_trans; apply st32_agree; lia.
    + eapply agree_weaken; [|exact Hag3]. intros i Hx. apply Hout. lia.
    + eapply agree_weaken; [|exact Hag]. simpl. lia.
Qed.

Definition empty_heap : gheap := GHeap ∅ (fun _ => []).

Lemma block_desc_init_run pf `{!PageAlloc pf} D s :
  pa_inv s -> layout (pa_base s) (pa_pages s) D -> (forall a, D <= a < D + 168 -> ~ pa_private s a) ->
  exists r, block_desc_init D (vmach s) = Ok (tt, set_ram r (vmach s)) /\
    heap_inv pf D (with_ram r s) empty_heap /\
    agree (fun i => ~ D <= i < D + 168) (ram (vmach s)) r.
Proof.
  intros Hpa Hly Hpr. pose proof (ly_descs _ _ _ Hly) as (H1 & H2 & H3).
  destruct (block_desc_loop_spec D DESC_CNT 0 (vmach s)) as (r & Hr & Hds & Hag); [done|done|done|done|].
  exists r. split; [exact Hr|].
  split; [|eapply agree_weaken; [|exact Hag]; intros i; cbv beta; lia].
  destruct (pa_static s (with_ram r s) eq_refl eq_refl) as (Eb & Ep & Epr).
  destruct (pa_outside s r Hpa) as (Hpa' & _).
  { eapply agree_weaken; [|exact Hag]. intros a Ha Hx. apply (Hpr a); [lia|done]. }
  assert (Hno : forall p k, arenas empty_heap !! p = Some k -> False).
  { intros p k. simpl. by rewrite lookup_empty. }
  split; rewrite ?Eb, ?Ep; try done.
  - split.
    + by intros p c ?%Hno.
    + by intros p n ?%Hno.
    + by intros p q k k' ?%Hno.
    + intros c x _ Hx. by apply not_elem_of_nil in Hx.
    + intros c _. constructor.
  - exists (fun _ => 0). split; [split|]; try (intros p k ?%Hno; done).
    + intros c Hc. destruct (Hds c) as (E1 & E2 & _); [lia|done].
    + intros c Hc. by destruct (Hds c) as (_ & _ & E3).
  - intros a Ha. rewrite Epr. by apply Hpr.
Qed.

(** ** A running kernel with a heap of eight pages *)

Definition demo_descs : Z := 0xc0006000.
Definition demo_heap_vm : vm :=
  match on_m (block_desc_init demo_descs) demo_vm with Ok (_, s) => s | _ => demo_vm end.
Definition demo_caller : kst :=
  Kst (vmach demo_heap_vm) (vpg demo_heap_vm) 0
    (ThreadSt {[ 0xc009e000 := vcur demo_heap_vm ]} 0xc009e000 [] [0xc009e000] 0xc009e000 0 1 (fun _ => 0))
    (SyncSt {[ lock_semaphore kernel_pool_lock := Sema 1 [] ]} {[ kernel_pool_lock := Lock 0 0 ]})
    (vmem demo_heap_vm) (kdev bss_kst).

Lemma demo_layout : layout (pa_base demo_vm) (pa_pages demo_vm) demo_descs.
Proof. split; unfold demo_descs; simpl; unfold page_addr, npages; simpl; lia || done. Qed.

Lemma demo_private a : demo_descs <= a < demo_descs + 168 -> ~ pa_private demo_vm a.
Proof. unfold demo_descs. simpl. unfold bitmap_bytes. simpl. lia. Qed.

Lemma demo_heap : heap_inv PF_KERNEL demo_descs demo_heap_vm empty_heap.
Proof.
  destruct (@block_desc_init_run PF_KERNEL kernel_PageAlloc demo_descs demo_vm demo_pages demo_layout demo_private)
    as (r & Hr & H & _).
  unfold demo_heap_vm. by rewrite (on_m_Ok _ demo_vm _ _ Hr).
Qed.

Lemma demo_heap_caller : heap_caller PF_KERNEL demo_caller.
Proof. split; [by vm_compute|by split|by vm_compute|by vm_compute]. Qed.

Lemma demo_heap_vm_of : vm_of demo_caller = demo_heap_vm.
Proof.
  unfold demo_caller, vm_of, task_at. cbn [km kp kmem kt tasks running].
  rewrite lookup_singleton_eq. by destruct demo_heap_vm.
Qed.

Lemma demo_room n : 0 < n <= 8 -> kernel_room demo_heap_vm n.
Proof.
  intros Hn. split.
  - exists 0. split; [done|]. split; [change (npages demo_heap_vm) with 8; lia|]. intros i Hi.
    assert (Hx : i = 0 \/ i = 1 \/ i = 2 \/ i = 3 \/ i = 4 \/ i = 5 \/ i = 6 \/ i = 7) by lia.
    by destruct Hx as [->|[->|[->|[->|[->|[->|[->| ->]]]]]]]; vm_compute.
  - assert (E : nfree demo_heap_vm = 8%nat) by (by vm_compute). lia.
Qed.

(** ** Theorems *)

(** C7: [sys_malloc] of a size the pool has room for returns a block at least
    that large (the best fitting class, or the least number of pages),
    cleared, not overlapping any block in use; the other blocks keep their
    contents, the heap stays well formed and the lock is free again; threads,
    devices and the other locks are as they were. *)
Theorem sys_malloc_ok pf `{!PageAlloc pf} kd lk fuel lfuel size k G :
  heap_caller pf k -> heap_inv pf (caller_descs pf kd k) (vm_of k) G ->
  0 < size < pool_size (caller_pool pf k) -> enough_room pf (vm_of k) size ->
  (256 <= fuel)%nat -> (255 <= lfuel)%nat ->
  exists x n k' G', sys_malloc kd (S lk) fuel lfuel size k = Done x k' /\ x <> 0 /\
    good_fit size n /\ heap_caller pf k' /\ aside (pool_lock pf) k k' /\
    allocated pf (caller_descs pf kd k) (vm_of k) G (vm_of k') G' x n.
Proof.
  intros Hc H Hs Hr Hfu Hlf.
  destruct (sys_malloc_run pf kd lk fuel lfuel size k G) as (x & n & k' & G' & H1 & H2 & H3 & H4 & _ & H5 & H6);
    [done..|]. by exists x, n, k', G'.
Qed.

Lemma sys_malloc_ok_witness :
  exists x n k' G', sys_malloc demo_descs 1 256 255 100 demo_caller = Done x k' /\ x <> 0 /\
    good_fit 100 n /\ heap_caller PF_KERNEL k' /\ aside kernel_pool_lock demo_caller k' /\
    allocated PF_KERNEL demo_descs (vm_of demo_caller) empty_heap (vm_of k') G' x n.
Proof.
  apply (sys_malloc_ok PF_KERNEL demo_descs 0 256 255 100 demo_caller empty_heap).
  - exact demo_heap_caller.
  - rewrite demo_heap_vm_of. exact demo_heap.
  - split; [lia|]. vm_compute. reflexivity.
  - rewrite demo_heap_vm_of. unfold enough_room. simpl. apply demo_room. lia.
  - lia.
  - lia.
Defined.

(** C8: [sys_free] of a block in use takes exactly that block out of use; the
    other blocks keep their contents and the heap stays well formed; threads,
    devices and the other locks are as they were.  When no other block of its
    arena is in use, the arena is taken apart and its pages, and no other, are
    unused again in the page allocator; when one is, the arenas and the use of
    every page are as they were ([arena_settled]). *)
Theorem sys_free_ok pf `{!PageAlloc pf} kd lk fuel lfuel x n k G :
  heap_caller pf k -> heap_inv pf (caller_descs pf kd k) (vm_of k) G ->
  live (pa_base (vm_of k)) G x n -> (pf = PF_KERNEL -> K_HEAP_START <= pa_base (vm_of k)) ->
  (256 <= fuel)%nat -> 255 * pa_pages (vm_of k) + 1 < Z.of_nat lfuel ->
  exists k' G', sys_free (S lk) fuel lfuel x k = Done tt k' /\ heap_caller pf k' /\
    aside (pool_lock pf) k k' /\ released pf (caller_descs pf kd k) (vm_of k) G (vm_of k') G' x.
Proof.
  intros Hc H Hl Hb Hfu Hlf.
  destruct (sys_free_run pf kd lk fuel lfuel x n k G) as (k' & G' & H1 & H2 & _ & H3 & H4); [done..|].
  by exists k', G'.
Qed.

Lemma sys_free_ok_witness :
  exists x k k' G G', sys_free 1 256 2100 x k = Done tt k' /\ heap_caller PF_KERNEL k' /\
    aside kernel_pool_lock k k' /\ released PF_KERNEL demo_descs (vm_of k) G (vm_of k') G' x.
Proof.
  destruct (sys_malloc_run PF_KERNEL demo_descs 0 256 255 100 demo_caller empty_heap)
    as (x & n & k & G & _ & _ & _ & Hc & Hr & _ & A).
  { exact demo_heap_caller. }
  { rewrite demo_heap_vm_of. exact demo_heap. }
  { split; [lia|]. vm_compute. reflexivity. }
  { rewrite demo_heap_vm_of. unfold enough_room. simpl. apply demo_room. lia. }
  { lia. } { lia. }
  rewrite demo_heap_vm_of in A.
  assert (Es : pa_base (vm_of k) = 0xc0100000 /\ pa_pages (vm_of k) = 8).
  { destruct (kept_static _ _ _ _ _ (al_kept _ _ _ _ _ _ _ _ A)) as (-> & -> & _).
    split; vm_compute; reflexivity. }
  destruct Es as [Eb Ep].
  destruct (sys_free_ok PF_KERNEL demo_descs 0 256 2100 x n k G Hc (al_inv _ _ _ _ _ _ _ _ A))
    as (k' & G' & H1 & H2 & H3 & H4).
  - apply (al_live _ _ _ _ _ _ _ _ A). by right.
  - intros _. rewrite Eb. vm_compute. discriminate.
  - lia.
  - rewrite Ep. lia.
  - exists x, k, k', G, G'. done.
Defined.

(** C9: Allocating and freeing again gives the same blocks in use, with the
    contents they had. *)
Theorem sys_malloc_free_roundtrip pf `{!PageAlloc pf} kd lk fuel lfuel size k G :
  heap_caller pf k -> heap_inv pf (caller_descs pf kd k) (vm_of k) G ->
  0 < size < pool_size (caller_pool pf k) -> enough_room pf (vm_of k) size ->
  (pf = PF_KERNEL -> K_HEAP_START <= pa_base (vm_of k)) ->
  (256 <= fuel)%nat -> (255 <= lfuel)%nat -> 255 * pa_pages (vm_of k) + 1 < Z.of_nat lfuel ->
  exists k' G', (x ← sys_malloc kd (S lk) fuel lfuel size; sys_free (S lk) fuel lfuel x) k = Done tt k' /\
    heap_inv pf (caller_descs pf kd k) (vm_of k') G' /\
    (forall y m, live (pa_base (vm_of k')) G' y m <-> live (pa_base (vm_of k)) G y m) /\
    (forall y m i, live (pa_base (vm_of k)) G y m -> y <= i < y + m ->
       ld8 (ram (km k')) i = ld8 (ram (km k)) i).
Proof.
  intros Hc H Hs Hr Hb Hfu Hlf Hlf'.
  destruct (sys_malloc_run pf kd lk fuel lfuel size k G) as (x & n & k1 & G1 & H1 & _ & _ & Hc1 & Hr1 & _ & A);
    [done..|].
  destruct (kept_static _ _ _ _ _ (al_kept _ _ _ _ _ _ _ _ A)) as (Eb & Ep & _).
  assert (Ed : caller_descs pf kd k1 = caller_descs pf kd k) by (unfold caller_descs; by rewrite Hr1).
  destruct (sys_free_run pf kd lk fuel lfuel x n k1 G1) as (k2 & G2 & H2 & Hc2 & _ & _ & R); [done| | | |done|by rewrite Ep|].
  { rewrite Ed. apply A. } { apply (al_live _ _ _ _ _ _ _ _ A). by right. } { by rewrite Eb. }
  rewrite Ed in R. exists k2, G2. split; [by rewrite (kbind_Done _ _ _ _ _ H1)|].
  assert (Hlive : forall y m, live (pa_base (vm_of k2)) G2 y m <-> live (pa_base (vm_of k)) G y m).
  { intros y m. rewrite (re_live _ _ _ _ _ _ _ R), (al_live _ _ _ _ _ _ _ _ A). split.
    - by intros [[?|[-> _]] ?].
    - intros Hl. split; [by left|]. intros ->. by apply (al_fresh _ _ _ _ _ _ _ _ A m). }
  split; [apply R|]. split; [exact Hlive|]. intros y m i Hl Hi.
  change (ld8 (ram (vmach (vm_of k2))) i = ld8 (ram (vmach (vm_of k))) i).
  rewrite <- (live_kept pf _ (vm_of k) (vm_of k1) G y m i H (al_kept _ _ _ _ _ _ _ _ A) Hl Hi).
  apply (live_released pf _ (vm_of k1) (vm_of k2) G1 G2 x y m i (al_inv _ _ _ _ _ _ _ _ A) R).
  - apply (al_live _ _ _ _ _ _ _ _ A). by left.
  - intros ->. by apply (al_fresh _ _ _ _ _ _ _ _ A m).
  - done.
Qed.

Lemma sys_malloc_free_roundtrip_witness :
  exists k' G', (x ← sys_malloc demo_descs 1 256 2100 100; sys_free 1 256 2100 x) demo_caller = Done tt k' /\
    heap_inv PF_KERNEL demo_descs (vm_of k') G' /\
    (forall y m, live (pa_base (vm_of k')) G' y m <-> live (pa_base (vm_of demo_caller)) empty_heap y m) /\
    (forall y m i, live (pa_base (vm_of demo_caller)) empty_heap y m -> y <= i < y + m ->
       ld8 (ram (km k')) i = ld8 (ram (km demo_caller)) i).
Proof.
  apply (sys_malloc_free_roundtrip PF_KERNEL demo_descs 0 256 2100 100 demo_caller empty_heap).
  - exact demo_heap_caller.
  - rewrite demo_heap_vm_of. exact demo_heap.
  - split; [lia|]. vm_compute. reflexivity.
  - rewrite demo_heap_vm_of. unfold enough_room. simpl. apply demo_room. lia.
  - intros _. rewrite demo_heap_vm_of. vm_compute. discriminate.
  - lia.
  - lia.
  - rewrite demo_heap_vm_of. change (pa_pages demo_heap_vm) with 8. lia.
Defined.

(** Blocks in use do not overlap, and whatever a program writes into its
    own block, the heap stays well formed. *)
Theorem heap_blocks_private pf `{!PageAlloc pf} D s G x n :
  heap_inv pf D s G -> live (pa_base s) G x n ->
  (forall y m, live (pa_base s) G y m -> (x = y /\ n = m) \/ x + n <= y \/ y + m <= x) /\
  (forall r, agree (fun i => ~ x <= i < x + n) (ram (vmach s)) r -> heap_inv pf D (with_ram r s) G).
Proof.
  intros H Hl. split.
  - intros y m. by apply (live_disjoint pf D s G).
  - intros r. by apply (heap_inv_write pf D s G x n).
Qed.

Lemma heap_blocks_private_witness :
  exists s G x n, heap_inv PF_KERNEL demo_descs s G /\ live (pa_base s) G x n /\
  (forall y m, live (pa_base s) G y m -> (x = y /\ n = m) \/ x + n <= y \/ y + m <= x) /\
  (forall r, agree (fun i => ~ x <= i < x + n) (ram (vmach s)) r ->
     heap_inv PF_KERNEL demo_descs (with_ram r s) G).
Proof.
  destruct (malloc_small_ok PF_KERNEL demo_descs 256 255 demo_heap_vm empty_heap 100 demo_heap)
    as (x & n & s & G & _ & _ & _ & A); [lia|apply demo_room; lia|lia|lia|].
  assert (Hl : live (pa_base s) G x n) by (apply (al_live _ _ _ _ _ _ _ _ A); by right).
  exists s, G, x, n. split; [apply A|]. split; [exact Hl|].
  exact (heap_blocks_private PF_KERNEL demo_descs s G x n (al_inv _ _ _ _ _ _ _ _ A) Hl).
Defined.

(** [block_desc_init] makes the empty heap: seven classes of 16 to 1024
    bytes, the number of blocks that fit in a page behind the header, empty
    lists; and nothing but the descriptors is written. *)
Theorem block_desc_init_ok pf `{!PageAlloc pf} D s :
  pa_inv s -> layout (pa_base s) (pa_pages s) D -> (forall a, D <= a < D + 168 -> ~ pa_private s a) ->
  exists r, block_desc_init D (vmach s) = Ok (tt, set_ram r (vmach s)) /\
    heap_inv pf D (with_ram r s) empty_heap /\
    agree (fun i => ~ D <= i < D + 168) (ram (vmach s)) r.
Proof. apply block_desc_init_run. Qed.

Lemma block_desc_init_ok_witness :
  exists r, block_desc_init demo_descs (vmach demo_vm) = Ok (tt, set_ram r (vmach demo_vm)) /\
    heap_inv PF_KERNEL demo_descs (with_ram r demo_vm) empty_heap /\
    agree (fun i => ~ demo_descs <= i < demo_descs + 168) (ram (vmach demo_vm)) r.
Proof. exact (block_desc_init_ok PF_KERNEL demo_descs demo_vm demo_pages demo_layout demo_private). Defined.

(** a size of zero or of the whole pool and more gets [NULL] and changes
    nothing; freeing [NULL] fails the assertion. *)
Theorem sys_malloc_refuses kd lk fuel lfuel size k :
  let t := running (kt k) in
  let PF := heap_of (pgdir (task_at (kt k) t)) in
  (size <= 0 \/ pool_size (match PF with PF_KERNEL => kernel_pool (kmem k) | PF_USER => user_pool (kmem k) end) <= size ->
   sys_malloc kd lk fuel lfuel size k = Done 0 k) /\
  sys_free lk fuel lfuel 0 k = KPanic "ptr != NULL".
Proof.
  intros t PF. split; [|done]. intros Hs. unfold sys_malloc, running_thread, get_task. kstep. kstep. kstep.
  cbv zeta. fold t PF. destruct Hs as [Hs|Hs].
  - by rewrite (bool_decide_false (size > 0)) by lia.
  - rewrite (bool_decide_false (size < _)) by lia. by rewrite andb_false_r.
Qed.

Lemma sys_malloc_refuses_witness :
  sys_malloc demo_descs 1 256 255 0 demo_caller = Done 0 demo_caller /\
  sys_free 1 256 255 0 demo_caller = KPanic "ptr != NULL".
Proof.
  destruct (sys_malloc_refuses demo_descs 1 256 255 0 demo_caller) as [H1 H2].
  split; [apply H1; by left|exact H2].
Defined.
