(* ===== verification/MemInit.v ===== *)
(** * The page heap at boot: [mem_init] of [kernel/memory.c]

    The page tables [setup_page] of [boot/loader_func.S] leaves, and the
    proof that [mem_pool_init] turns them into an empty page heap that
    satisfies the allocator's invariant, and [mem_init] into an empty byte
    heap. *)
From S2P Require Import Prelude Machine Str Bitmap KList Paging Kernel Thread Sync Console Memory.
From S2P Require Import PageHeap Arena PageAlloc ArenaHeap HeapSpec Malloc.

(** ** The loader's tables *)

(** The directory at [0x100000]: the first four megabytes both at 0 and at
    3 GB, a table for every other entry of the kernel's part, the directory
    itself in the last slot. *)
Definition loader_table (d : Z) : option Z :=
  if decide (d = 0) then Some 0x101000
  else if decide (768 <= d < 1023) then Some (0x101000 + 4096 * (d - 768))
  else if decide (d = 1023) then Some 0x100000 else None.
Definition loader_pde (d : Z) : Z := match loader_table d with Some p => entry p | None => 0 end.

(** The tables, with [n] pages from [K_HEAP_START] on not mapped yet.  The
    loader clears the directory only: that the tables behind it hold no
    present entry is what it finds in memory. *)
Record loader_tables (pg : paging) (n : Z) : Prop := {
  lt_cr3 : cr3 pg = 0x100000;
  lt_dir : forall d, 0 <= d < 1024 -> pread pg (0x100000 + 4 * d) = loader_pde d;
  lt_clear : forall i, 0 <= i < n -> present (pte pg (K_HEAP_START + 4096 * i)) = false
}.

Section tables.
Context (pg : paging) (n : Z) (H : loader_tables pg n) (Hn : n <= 32768).

Lemma loader_pde_of u : vaddr_ok u -> pde pg u = loader_pde (dir_index u).
Proof.
  intros Hu. unfold pde, pde_word. rewrite (lt_cr3 _ _ H). apply (lt_dir _ _ H), dir_index_range, Hu.
Qed.

Lemma loader_table_frame d p : loader_table d = Some p ->
  frame_ok p /\ 0x100000 <= p < 0x200000 /\ (p = 0x100000 <-> d = 1023) /\
  (0 < d < 1023 -> p = 0x101000 + 4096 * (d - 768)).
Proof.
  unfold loader_table, frame_ok. repeat case_decide; intros [= <-]; split_and!; try lia;
    Z.div_mod_to_equations; lia.
Qed.

Lemma loader_present u : vaddr_ok u -> present (pde pg u) = true ->
  exists p, loader_table (dir_index u) = Some p /\ frame (pde pg u) = p.
Proof.
  intros Hu. rewrite loader_pde_of by done. unfold loader_pde.
  destruct (loader_table (dir_index u)) as [p|] eqn:E; [|done].
  destruct (loader_table_frame _ _ E) as (Hp & _). destruct (entry_spec p Hp) as (_ & _ & Hf).
  intros _. by exists p.
Qed.

Lemma loader_pde_some u p : vaddr_ok u -> loader_table (dir_index u) = Some p ->
  present (pde pg u) = true /\ frame (pde pg u) = p.
Proof.
  intros Hu E. rewrite loader_pde_of by done. unfold loader_pde. rewrite E.
  destruct (loader_table_frame _ _ E) as (Hp & _). by destruct (entry_spec p Hp) as (_ & ? & ?).
Qed.

Lemma loader_tables_ok : tables_ok pg.
Proof.
  pose proof (loader_pde_some 0xffffffff 0x100000 ltac:(done) ltac:(by vm_compute)) as [Hp Hf].
  unfold pde, pde_word in Hp, Hf. change (dir_index 0xffffffff) with 1023 in *.
  split.
  - unfold rec_slot. rewrite (lt_cr3 _ _ H) in *. done.
  - intros u Hu Hd Hpr. destruct (loader_present u Hu Hpr) as (p & E & ->).
    destruct (loader_table_frame _ _ E) as (_ & _ & Hx & _). rewrite (lt_cr3 _ _ H). lia.
Qed.

(** Where the entry of a heap page lies. *)
Lemma heap_page_word i : 0 <= i < n ->
  present (pde pg (K_HEAP_START + 4096 * i)) = true /\
  pte_word pg (K_HEAP_START + 4096 * i) = 0x101000 + 4 * (256 + i).
Proof.
  intros Hi. set (v := K_HEAP_START + 4096 * i).
  assert (Hv : vaddr_ok v) by (unfold vaddr_ok, v, K_HEAP_START; lia).
  assert (Hd : dir_index v = 768 + (256 + i) / 1024).
  { unfold dir_index, v, K_HEAP_START. Z.div_mod_to_equations; lia. }
  assert (Ht : tbl_index v = (256 + i) mod 1024).
  { unfold tbl_index, v, K_HEAP_START. Z.div_mod_to_equations; lia. }
  assert (Hr : 0 <= (256 + i) / 1024 < 255) by (Z.div_mod_to_equations; lia).
  destruct (loader_pde_some v (0x101000 + 4096 * (dir_index v - 768)) Hv) as [Hp Hf].
  { unfold loader_table. by rewrite decide_False, decide_True by lia. }
  split; [exact Hp|]. unfold pte_word. rewrite Hf, Hd, Ht. Z.div_mod_to_equations; lia.
Qed.
End tables.

(** ** An empty page heap *)

(** The memory after the bitmaps are cleared: [8 * L] pages, [8 * L] frames. *)
Record fresh (s : vm) (L kb vb up : Z) : Prop := {
  fr_tables : loader_tables (vpg s) (8 * L);
  fr_pool : kbm s = Bitmap L kb /\ phy_addr_start (kernel_pool (vmem s)) = 0x200000;
  fr_user : phy_addr_start (user_pool (vmem s)) = up;
  fr_pages : kernel_vaddr (vmem s) = VirtualAddr (Bitmap L vb) K_HEAP_START;
  fr_len : 0 < L <= 4096 /\ 0x200000 + 4096 * (8 * L) <= up < 4294967296;
  fr_sep : kb + L <= vb /\ vb + L <= K_HEAP_START;
  fr_zero : forall a, within kb L a \/ within vb L a -> ld8 (ram (vmach s)) a = 0
}.

Section fresh.
Context (s : vm) (L kb vb up : Z) (F : fresh s L kb vb up).

Lemma fresh_views : nframes s = 8 * L /\ npages s = 8 * L /\
  (forall f, frame_addr s f = 0x200000 + 4096 * f) /\
  (forall i, page_addr s i = K_HEAP_START + 4096 * i) /\
  kbm s = Bitmap L kb /\ vbm s = Bitmap L vb.
Proof.
  destruct (fr_pool _ _ _ _ _ F) as [Ek Es]. pose proof (fr_pages _ _ _ _ _ F) as Ev.
  unfold nframes, npages, frame_addr, page_addr, vbm. by rewrite Ek, Es, Ev.
Qed.

Lemma fresh_bits : (forall i, 0 <= i < 8 * L -> vbit s i = false) /\
  (forall f, 0 <= f < 8 * L -> kbit s f = false).
Proof.
  destruct fresh_views as (_ & _ & _ & _ & Ek & Ev). unfold vbit, kbit, rbit. rewrite Ek, Ev.
  split; intros i Hi; rewrite (fr_zero _ _ _ _ _ F); try apply Z.bits_0; unfold within; cbn [bits];
    [right|left]; Z.div_mod_to_equations; lia.
Qed.

Lemma fresh_kernel_pages : kernel_pages s.
Proof.
  destruct fresh_views as (En & Ep & Ef & Ea & Ek & Ev). destruct fresh_bits as [Hv Hk].
  destruct (fr_len _ _ _ _ _ F) as [HL Hup]. destruct (fr_sep _ _ _ _ _ F) as [Hs1 Hs2].
  pose proof (fr_tables _ _ _ _ _ F) as Ht. assert (H8 : 8 * L <= 32768) by lia.
  assert (Hclr : forall i, 0 <= i < npages s -> present (hpte s i) = false).
  { intros i Hi. unfold hpte. rewrite Ea. apply (lt_clear _ _ Ht). lia. }
  split; [split|].
  - rewrite Ek. unfold bitmap_wf. simpl. lia.
  - rewrite Ev. unfold bitmap_wf. simpl. lia.
  - rewrite Ek, Ev. simpl. lia.
  - rewrite !Ef, En, (fr_user _ _ _ _ _ F). split; [lia|]. split; [done|lia].
  - rewrite !Ea, Ep. unfold K_HEAP_START. split; [lia|]. split; [done|lia].
  - by apply (loader_tables_ok _ (8 * L)).
  - intros i Hi. rewrite Ea. apply (heap_page_word _ (8 * L)); [done|lia..].
  - intros i j Hi Hj. rewrite !Ea.
    destruct (heap_page_word _ (8 * L) Ht H8 i) as [_ ->]; [lia|].
    destruct (heap_page_word _ (8 * L) Ht H8 j) as [_ ->]; lia.
  - intros i Hi _. by apply Hclr.
  - intros i Hi Hx. rewrite Hv in Hx by lia. done.
  - intros i j Hi Hj Hp. by rewrite Hclr in Hp.
  - intros a. unfold bitmap_bytes. rewrite Ek, Ev, Ep, !Ea. cbn [bits btmp_bytes_len]. lia.
Qed.

Lemma fresh_room m : 0 <= m <= 8 * L -> kernel_room s m.
Proof.
  intros Hm. destruct fresh_views as (En & Ep & _). destruct fresh_bits as [Hv Hk]. split.
  - exists 0. split; [done|]. split; [lia|]. intros i Hi. apply Hv. lia.
  - unfold nfree, clear_bits. rewrite En.
    assert (E : filter (fun f => kbit s f = false) (seqZ 0 (8 * L)) = seqZ 0 (8 * L)).
    { apply filter_all. intros f Hf%elem_of_seqZ. apply Hk. lia. }
    rewrite E, length_seqZ. lia.
Qed.

Lemma fresh_below : tables_below s.
Proof.
  intros u Hu Hp. destruct fresh_views as (_ & _ & Ef & _). rewrite Ef.
  destruct (loader_present _ _ (fr_tables _ _ _ _ _ F) u Hu Hp) as (p & E & ->).
  destruct (loader_table_frame _ _ E) as (_ & Hr & _). lia.
Qed.
End fresh.

(** ** [mem_pool_init] *)

(** What the calls leave alone: the machine but for memory and screen. *)
Definition same_cpu (m m' : mach) : Prop := eflags m' = eflags m /\ ports m' = ports m.

Lemma bitmap_init_run b k : bits b <> 0 ->
  on_mach (bitmap_init b) k =
  Done tt (kwith_ram (fun r => ram_fill r (bits b) 0 (Z.to_nat (btmp_bytes_len b))) k).
Proof. intros Hb. apply on_mach_ram. intros m. by apply memset_eq. Qed.

Lemma print_run (m : M mach unit) cs k :
  (forall ma, m ma = Ok (tt, print cs ma)) -> on_mach m k = Done tt (set_km (print cs (km k)) k).
Proof. intros H. unfold on_mach. by erewrite lift_Ok by apply H. Qed.


(** What is established for a page heap of [8 * L] pages. *)
Record heap_ready (k : kst) (L : Z) (k' : kst) : Prop := {
  hr_pages : kernel_pages (vm_of k');
  hr_size : npages (vm_of k') = 8 * L /\ nframes (vm_of k') = 8 * L /\
    page_addr (vm_of k') 0 = K_HEAP_START /\ frame_addr (vm_of k') 0 = 0x200000;
  hr_room : forall m, 0 <= m <= 8 * L -> kernel_room (vm_of k') m;
  hr_below : tables_below (vm_of k');
  hr_locks : lock_free kernel_pool_lock k' /\ lock_free user_pool_lock k' /\
    locks_but [kernel_pool_lock; user_pool_lock] (ks k) (ks k');
  hr_bitmaps : forall a, bitmap_bytes (vm_of k') a -> MEM_BITMAP_BASE <= a < MEM_BITMAP_BASE + 0x3000;
  hr_rest : kt k' = kt k /\ kp k' = kp k /\ kdev k' = kdev k /\ same_cpu (km k) (km k')
}.

(** The number of pages the two pools share. *)
Definition free_pages (all_mem : Z) : Z := u16 (u32 (all_mem - 0x200000) / 4096).

(** The state [mem_pool_init] leaves, but for the locks and the screen. *)
Definition pools_of (n : Z) : mem_st :=
  let kf := n / 2 in let uf := n - n / 2 in
  MemSt (Pool (Bitmap (kf / 8) MEM_BITMAP_BASE) 0x200000 (kf * 4096))
    (Pool (Bitmap (uf / 8) (MEM_BITMAP_BASE + kf / 8)) (u32 (0x200000 + kf * 4096)) (uf * 4096))
    (VirtualAddr (Bitmap (kf / 8) (MEM_BITMAP_BASE + kf / 8 + uf / 8)) K_HEAP_START).
Definition bitmaps_of (n : Z) (r : gmap Z Z) : gmap Z Z :=
  let kf := n / 2 in let uf := n - n / 2 in
  ram_fill (ram_fill (ram_fill r MEM_BITMAP_BASE 0 (Z.to_nat (kf / 8)))
    (MEM_BITMAP_BASE + kf / 8) 0 (Z.to_nat (uf / 8)))
    (MEM_BITMAP_BASE + kf / 8 + uf / 8) 0 (Z.to_nat (kf / 8)).

Lemma mem_pool_init_run all_mem k :
  let n := free_pages all_mem in
  exists k' , mem_pool_init all_mem k = Done tt k' /\
    kmem k' = pools_of n /\ ram (km k') = bitmaps_of n (ram (km k)) /\
    same_cpu (km k) (km k') /\ kt k' = kt k /\ kp k' = kp k /\ kdev k' = kdev k /\
    lock_free kernel_pool_lock k' /\ lock_free user_pool_lock k' /\
    locks_but [kernel_pool_lock; user_pool_lock] (ks k) (ks k').
Proof.
  intros n. assert (Hn : 0 <= n < 65536) by (apply Z.mod_pos_bound; lia).
  unfold mem_pool_init. change (PG_SIZE * (1 + 1 + 254) + 0x100000) with 0x200000.
  change PG_SIZE with 4096. change (u16 (u32 (all_mem - 0x200000) / 4096)) with n. cbv zeta.
  rewrite (u16_id (n / 2)) by (Z.div_mod_to_equations; lia).
  rewrite (u16_id (n - n / 2)) by (Z.div_mod_to_equations; lia).
  set (kf := n / 2). set (uf := n - kf).
  assert (Hlen : 0 <= kf / 8 < 4097 /\ 0 <= uf / 8 < 4097).
  { unfold uf, kf. Z.div_mod_to_equations; lia. }
  assert (Hb1 : MEM_BITMAP_BASE <> 0) by done.
  assert (Hb2 : MEM_BITMAP_BASE + kf / 8 <> 0) by (unfold MEM_BITMAP_BASE; lia).
  assert (Hb3 : MEM_BITMAP_BASE + kf / 8 + uf / 8 <> 0) by (unfold MEM_BITMAP_BASE; lia).
  kstep. kstep. kstep.
  cbn [pool_bitmap vaddr_bitmap].
  rewrite (kbind_Done _ _ _ _ _ (bitmap_init_run (Bitmap (kf / 8) MEM_BITMAP_BASE) _ Hb1)). cbv beta.
  rewrite (kbind_Done _ _ _ _ _ (bitmap_init_run (Bitmap (uf / 8) (MEM_BITMAP_BASE + kf / 8)) _ Hb2)).
  cbv beta. lazymatch goal with |- context [(lock_init kernel_pool_lock ≫= _) ?x] => set (k1 := x) end.
  destruct (lock_init_free kernel_pool_lock k1) as (sy1 & Hl1 & Hf1 & Ho1).
  rewrite (kbind_Done _ _ _ _ _ Hl1). cbv beta.
  destruct (lock_init_free user_pool_lock (set_ks sy1 k1)) as (sy2 & Hl2 & Hf2 & Ho2).
  rewrite (kbind_Done _ _ _ _ _ Hl2). cbv beta. kstep.
  rewrite (kbind_Done _ _ _ _ _
    (bitmap_init_run (Bitmap (kf / 8) (MEM_BITMAP_BASE + kf / 8 + uf / 8)) _ Hb3)). cbv beta.
  eexists. split; [reflexivity|]. split; [reflexivity|]. split; [reflexivity|].
  split; [done|]. split; [done|]. split; [done|]. split; [done|]. split; [|split; [exact Hf2|]].
  - apply (locks_but_free [user_pool_lock] kernel_pool_lock (set_ks sy1 k1));
      [exact Ho2|by intros ?%list_elem_of_singleton|exact Hf1].
  - apply (locks_but_trans _ _ _ _ _ _ Ho1 Ho2); set_solver.
Qed.

(** The bytes of the three bitmaps end below the main thread's page. *)
Lemma bitmaps_of_ld8 n r a : 0 <= n < 65536 ->
  let kf := n / 2 in let uf := n - n / 2 in
  ld8 (bitmaps_of n r) a =
    if decide (MEM_BITMAP_BASE <= a < MEM_BITMAP_BASE + kf / 8 + uf / 8 + kf / 8) then 0 else ld8 r a.
Proof.
  intros Hn. cbv zeta. unfold bitmaps_of. set (kf := n / 2). set (uf := n - kf).
  assert (Hk : 0 <= kf / 8) by (unfold kf; Z.div_mod_to_equations; lia).
  assert (Hu : 0 <= uf / 8) by (unfold uf, kf; Z.div_mod_to_equations; lia).
  rewrite !ld8_ram_fill. rewrite !Z2Nat.id by done. change (u8 0) with 0.
  repeat case_decide; done || lia.
Qed.

Lemma mem_pool_init_ready all_mem k :
  let n := free_pages all_mem in
  16 <= n -> loader_tables (kp k) (8 * (n / 2 / 8)) ->
  exists k', mem_pool_init all_mem k = Done tt k' /\ heap_ready k (n / 2 / 8) k' /\
    agree (fun a => ~ MEM_BITMAP_BASE <= a < MEM_BITMAP_BASE + 0x3000) (ram (km k)) (ram (km k')).
Proof.
  intros n Hn Ht. assert (Hn' : 0 <= n < 65536) by (apply Z.mod_pos_bound; lia).
  destruct (mem_pool_init_run all_mem k) as (k' & Hrun & Em & Er & Hcpu & Et & Ep & Ed & Hf1 & Hf2 & Ho).
  fold n in Em, Er. exists k'. split; [exact Hrun|].
  set (kf := n / 2) in *. set (uf := n - kf). set (L := kf / 8) in *.
  assert (HL : 1 <= L /\ 8 * L <= kf <= 32767 /\ uf <= 32768 /\ 0 <= uf / 8 <= 4096).
  { unfold L, uf, kf. Z.div_mod_to_equations; lia. }
  assert (F : fresh (vm_of k') L MEM_BITMAP_BASE (MEM_BITMAP_BASE + L + uf / 8)
    (u32 (0x200000 + kf * 4096))).
  { split; cbn [vm_of vpg vmem vmach].
    - by rewrite Ep.
    - unfold kbm. cbn [vm_of vmem]. by rewrite Em.
    - by rewrite Em.
    - by rewrite Em.
    - rewrite u32_id by lia. lia.
    - unfold MEM_BITMAP_BASE, K_HEAP_START. lia.
    - intros a Ha. rewrite Er, bitmaps_of_ld8 by done. fold kf uf L. rewrite decide_True; [done|].
      unfold within in Ha. lia. }
  destruct (fresh_views _ _ _ _ _ F) as (V1 & V2 & V3 & V4 & V5 & V6).
  split; [split; try done|].
  - apply (fresh_kernel_pages _ _ _ _ _ F).
  - apply (fresh_room _ _ _ _ _ F).
  - apply (fresh_below _ _ _ _ _ F).
  - intros a. unfold bitmap_bytes. rewrite V5, V6. cbn [bits btmp_bytes_len]. lia.
  - intros a Ha. rewrite Er, bitmaps_of_ld8 by done. fold kf uf L. by rewrite decide_False by lia.
Qed.

(** ** [mem_init] *)

(** Output does not touch the heap. *)
Definition on_screen (cs : list Z) (s : vm) : vm := set_vmach (print cs (vmach s)) s.

Lemma kernel_pages_screen cs s : kernel_pages s -> kernel_pages (on_screen cs s).
Proof. by apply kernel_pages_view. Qed.

Lemma heap_inv_screen D cs s G :
  heap_inv PF_KERNEL D s G -> heap_inv PF_KERNEL D (on_screen cs s) G.
Proof.
  intros [H1 H2 H3 H4 H5 H6]. split; try done. by apply kernel_pages_screen.
Qed.

Lemma mem_init_run kd k :
  loader_tables (kp k) 3840 -> 0 < kd -> kd + 168 <= MEM_BITMAP_BASE ->
  exists k', mem_init kd k = Done tt k' /\ heap_ready k 480 k' /\
    heap_inv PF_KERNEL kd (vm_of k') empty_heap /\
    agree (fun a => ~ MEM_BITMAP_BASE <= a < MEM_BITMAP_BASE + 0x3000 /\ ~ within kd 168 a)
      (ram (km k)) (ram (km k')).
Proof.
  intros Ht H1 H2. set (k0 := set_km (print (codes "mem_init start" ++ [10]) (km k)) k).
  destruct (mem_pool_init_ready 0x2000000 k0) as (k1 & Hp & Hh & Hm); [by vm_compute|exact Ht|].
  change (free_pages 0x2000000 / 2 / 8) with 480 in Hh.
  destruct Hh as [A1 [A2 [A3 [A4 A5]]] A6 A7 A8 A9 [B1 [B2 [B3 [B4 B5]]]]].
  destruct (@block_desc_init_run PF_KERNEL kernel_PageAlloc kd (vm_of k1) A1) as (r & Hr & Hinv & Hag).
  { change (pa_base (vm_of k1)) with (page_addr (vm_of k1) 0). change (pa_pages (vm_of k1)) with (npages (vm_of k1)).
    rewrite A2, A4. unfold K_HEAP_START, MEM_BITMAP_BASE in *. split; [done|lia|lia]. }
  { intros a Ha Hx. apply (A9 a) in Hx. lia. }
  set (cs := codes "mem_init done" ++ [10]).
  assert (Hv : vm_of (set_km (print cs (set_ram r (km k1))) k1) = on_screen cs (PageHeap.with_ram r (vm_of k1)))
    by done.
  destruct (@pa_outside PF_KERNEL kernel_PageAlloc (vm_of k1) r A1) as (C1 & _ & C2).
  { eapply agree_weaken; [|exact Hag]. intros a Ha. apply (A9 a) in Ha. cbv beta. lia. }
  exists (set_km (print cs (set_ram r (km k1))) k1). split; [|split; [split|split]].
  - unfold mem_init. kstep. fold k0. rewrite (kbind_Done _ _ _ _ _ Hp). cbv beta.
    assert (Hb : on_mach (block_desc_init kd) k1 = Done tt (set_km (set_ram r (km k1)) k1)).
    { unfold on_mach. by erewrite lift_Ok by exact Hr. }
    by rewrite (kbind_Done _ _ _ _ _ Hb).
  - rewrite Hv. by apply kernel_pages_screen.
  - done.
  - intros m Hm0. rewrite Hv. apply (C2 m). by apply A6.
  - exact A7.
  - exact A8.
  - exact A9.
  - split; [done|]. split; [done|]. split; [done|]. exact (conj B4 B5).
  - rewrite Hv. by apply heap_inv_screen.
  - apply (agree_trans _ _ (ram (km k1))).
    + eapply agree_weaken; [|exact Hm]. cbv beta. tauto.
    + eapply agree_weaken; [|exact Hag]. cbv beta. unfold within. tauto.
Qed.

(** C18: [mem_init], on the page tables the loader leaves, makes the page heap
    of 3840 pages and frames that [malloc_page] and [mfree_page] keep, all of
    it free, and the empty byte heap that [sys_malloc] and [sys_free] keep,
    with both pools' locks free; besides the bitmaps and the descriptors
    memory is as before. *)
Theorem mem_init_ok kd k :
  loader_tables (kp k) 3840 -> 0 < kd -> kd + 168 <= MEM_BITMAP_BASE ->
  exists k', mem_init kd k = Done tt k' /\ heap_ready k 480 k' /\
    heap_inv PF_KERNEL kd (vm_of k') empty_heap /\
    agree (fun a => ~ MEM_BITMAP_BASE <= a < MEM_BITMAP_BASE + 0x3000 /\ ~ within kd 168 a)
      (ram (km k)) (ram (km k')).
Proof. apply mem_init_run. Qed.

(** The loader's directory, tables of zeros behind it. *)
Definition loader_words : list (Z * Z) :=
  (fun d => (0x100000 + 4 * d, loader_pde d)) <$> seqZ 0 1024.
Definition demo_loader : paging := Paging 0x100000 (list_to_map loader_words).

Lemma loader_words_dom a : a ∈ loader_words.*1 -> exists d, 0 <= d < 1024 /\ a = 0x100000 + 4 * d.
Proof.
  unfold loader_words. rewrite <- list_fmap_compose. intros (d & -> & Hd)%list_elem_of_fmap.
  exists d. apply elem_of_seqZ in Hd. split; [lia|done].
Qed.

Lemma demo_loader_tables : loader_tables demo_loader 3840.
Proof.
  assert (Hd : forall d, 0 <= d < 1024 -> pread demo_loader (0x100000 + 4 * d) = loader_pde d).
  { intros d Hd. unfold pread, demo_loader. cbn [pwords].
    rewrite (elem_of_list_to_map_1 loader_words _ (loader_pde d)).
    - cbn [default from_option id]. unfold loader_pde.
      destruct (loader_table d) as [q|] eqn:E; [|done].
      destruct (loader_table_frame _ _ E) as (Hq & _). by destruct (entry_spec q Hq) as (? & _).
    - unfold loader_words. rewrite <- list_fmap_compose. apply NoDup_fmap_2; [|apply NoDup_seqZ].
      intros x y Hxy. cbn in Hxy. lia.
    - unfold loader_words. apply list_elem_of_fmap. exists d. split; [done|]. apply elem_of_seqZ. lia. }
  split; [done|exact Hd|]. intros i Hi.
  assert (H0 : loader_tables demo_loader 0) by (split; [done|exact Hd|lia]).
  set (v := K_HEAP_START + 4096 * i).
  assert (Hv : vaddr_ok v) by (unfold vaddr_ok, v, K_HEAP_START; lia).
  assert (Hdi : 768 <= dir_index v < 1023).
  { unfold dir_index, v, K_HEAP_START. Z.div_mod_to_equations; lia. }
  destruct (loader_pde_some _ _ H0 v (0x101000 + 4096 * (dir_index v - 768)) Hv) as [_ Hf].
  { unfold loader_table. by rewrite decide_False, decide_True by lia. }
  unfold pte, pte_word, pread. rewrite Hf. unfold demo_loader. cbn [pwords].
  rewrite not_elem_of_list_to_map_1; [done|].
  intros (d & Hx & E)%loader_words_dom. pose proof (tbl_index_range v). lia.
Qed.

Lemma mem_init_ok_witness :
  exists k', mem_init demo_descs (set_kp demo_loader bss_kst) = Done tt k' /\
    kernel_room (vm_of k') 3840 /\ heap_inv PF_KERNEL demo_descs (vm_of k') empty_heap.
Proof.
  destruct (mem_init_ok demo_descs (set_kp demo_loader bss_kst) demo_loader_tables)
    as (k' & Hr & Hh & Hi & _); [done|done|].
  exists k'. split; [exact Hr|]. split; [by apply (hr_room _ _ _ Hh)|exact Hi].
Defined.
