(* ===== verification/Global.v ===== *)
(** * Selectors, descriptor attributes, flags: [kernel/global.h]

    The constants the code builds descriptors and initial register values
    from, and the processor's reading of the structures they go into: a
    segment descriptor, an interrupt gate, a selector. *)
From S2P Require Import Prelude Machine.

(** ** Selectors *)

Definition RPL0 : Z := 0.
Definition RPL3 : Z := 3.
Definition TI_GDT : Z := 0.
Definition SELECTOR_K_CODE : Z := Z.shiftl 1 3 + Z.shiftl TI_GDT 2 + RPL0.
Definition SELECTOR_K_DATA : Z := Z.shiftl 2 3 + Z.shiftl TI_GDT 2 + RPL0.
Definition SELECTOR_K_STACK : Z := SELECTOR_K_DATA.
Definition SELECTOR_U_CODE : Z := Z.shiftl 5 3 + Z.shiftl TI_GDT 2 + RPL3.
Definition SELECTOR_U_DATA : Z := Z.shiftl 6 3 + Z.shiftl TI_GDT 2 + RPL3.
Definition SELECTOR_TSS : Z := Z.shiftl 4 3 + Z.shiftl TI_GDT 2 + RPL0.

(** ** Descriptor attributes *)

Definition DESC_G_4K : Z := 1.
Definition DESC_D_32 : Z := 1.
Definition DESC_L : Z := 0.
Definition DESC_AVL : Z := 0.
Definition DESC_P : Z := 1.
Definition DESC_DPL_0 : Z := 0.
Definition DESC_DPL_3 : Z := 3.
Definition DESC_S_CODE : Z := 1.
Definition DESC_S_DATA : Z := DESC_S_CODE.
Definition DESC_S_SYS : Z := 0.
Definition DESC_TYPE_CODE : Z := 8.
Definition DESC_TYPE_DATA : Z := 2.
Definition DESC_TYPE_TSS : Z := 9.
Definition TSS_DESC_D : Z := 0.

Definition GDT_ATTR_HIGH : Z :=
  Z.shiftl DESC_G_4K 7 + Z.shiftl DESC_D_32 6 + Z.shiftl DESC_L 5 + Z.shiftl DESC_AVL 4.
Definition GDT_CODE_ATTR_LOW_DPL3 : Z :=
  Z.shiftl DESC_P 7 + Z.shiftl DESC_DPL_3 5 + Z.shiftl DESC_S_CODE 4 + DESC_TYPE_CODE.
Definition GDT_DATA_ATTR_LOW_DPL3 : Z :=
  Z.shiftl DESC_P 7 + Z.shiftl DESC_DPL_3 5 + Z.shiftl DESC_S_DATA 4 + DESC_TYPE_DATA.
Definition TSS_ATTR_HIGH : Z :=
  Z.shiftl DESC_G_4K 7 + Z.shiftl TSS_DESC_D 6 + Z.shiftl DESC_L 5 + Z.shiftl DESC_AVL 4 + 0.
Definition TSS_ATTR_LOW : Z :=
  Z.shiftl DESC_P 7 + Z.shiftl DESC_DPL_0 5 + Z.shiftl DESC_S_SYS 4 + DESC_TYPE_TSS.

Definition IDT_DESC_P : Z := 1.
Definition IDT_DESC_DPL0 : Z := 0.
Definition IDT_DESC_DPL3 : Z := 3.
Definition IDT_DESC_32_TYPE : Z := 0xE.
Definition IDT_DESC_ATTR_DPL0 : Z :=
  Z.shiftl IDT_DESC_P 7 + Z.shiftl IDT_DESC_DPL0 5 + IDT_DESC_32_TYPE.
Definition IDT_DESC_ATTR_DPL3 : Z :=
  Z.shiftl IDT_DESC_P 7 + Z.shiftl IDT_DESC_DPL3 5 + IDT_DESC_32_TYPE.

(** ** Flags *)

Definition EFLAGS_MBS : Z := Z.shiftl 1 1.
Definition EFLAGS_IF_1 : Z := Z.shiftl 1 9.
Definition EFLAGS_IOPL_0 : Z := Z.shiftl 0 12.

(** ** The processor's reading

    The access byte of a descriptor or gate: present, privilege level, the
    bit that tells a code or data segment from a system one, type. *)

Record access := Access { ac_present : bool; ac_dpl : Z; ac_segment : bool; ac_type : Z }.
Definition access_of (b : Z) : access :=
  Access (Z.testbit b 7) (b / 32 mod 4) (Z.testbit b 4) (b mod 16).

(** A segment descriptor: base, limit in bytes (the last valid offset),
    access. *)
Record segment := Segment { sg_base : Z; sg_limit : Z; sg_access : access }.
Definition segment_at (r : gmap Z Z) (a : Z) : segment :=
  let limit := ld16 r a + 65536 * (ld8 r (a + 6) mod 16) in
  Segment (ld16 r (a + 2) + 65536 * ld8 r (a + 4) + 16777216 * ld8 r (a + 7))
    (if Z.testbit (ld8 r (a + 6)) 7 then limit * 4096 + 4095 else limit)
    (access_of (ld8 r (a + 5))).

(** An interrupt gate: the handler's selector and offset, access. *)
Record gate := Gate { gt_selector : Z; gt_offset : Z; gt_access : access }.
Definition gate_at (r : gmap Z Z) (a : Z) : gate :=
  Gate (ld16 r (a + 2)) (ld16 r a + 65536 * ld16 r (a + 6)) (access_of (ld8 r (a + 5))).

(** A 32-bit interrupt gate: entering it clears the interrupt flag. *)
Definition interrupt_gate (dpl : Z) : access := Access true dpl false 14.

(** The descriptor a selector names in the table at [gdt]. *)
Definition descriptor_of (gdt sel : Z) : Z := gdt + sel / 8 * 8.

Lemma segment_agree (P : Z -> Prop) r r' a :
  agree P r r' -> (forall i, a <= i < a + 8 -> P i) -> segment_at r' a = segment_at r a.
Proof.
  intros H HP. unfold segment_at.
  rewrite !(agree_ld16 P r r') by (done || apply HP; lia). by rewrite !H by (apply HP; lia).
Qed.

Lemma gate_agree (P : Z -> Prop) r r' a :
  agree P r r' -> (forall i, a <= i < a + 8 -> P i) -> gate_at r' a = gate_at r a.
Proof.
  intros H HP. unfold gate_at.
  rewrite !(agree_ld16 P r r') by (done || apply HP; lia). by rewrite !H by (apply HP; lia).
Qed.
