(* ===== verification/Interrupt.v ===== *)
(** * The interrupt tables: [kernel/interrupt.c]

    The interrupt descriptor table and the table of handlers as bytes of
    memory at the addresses the linker gave them, the programming of the two
    8259A controllers, and the handler of exceptions nobody registered for. *)
From S2P Require Import Prelude Machine Global Str Paging Kernel Thread Sync SyncLogic Console.

(** ** The kernel image

    Addresses fixed by the linker: the tables, the entry points in
    [kernel/kernel.S], C functions and string literals. *)
Record image := Image {
  idt : Z;                      (* static struct gate_desc idt[] *)
  intr_name : Z;                (* char* intr_name[] *)
  intr_entry_table : Z;         (* intr_handler intr_entry_table[], kernel.S *)
  idt_table : Z;                (* intr_handler idt_table[] *)
  syscall_handler : Z;          (* kernel.S *)
  tss : Z;                      (* static struct tss tss *)
  syscall_table : Z;            (* syscall syscall_table[] *)
  fn : string -> Z;             (* address of a function *)
  lit : string -> Z             (* address of a string literal *)
}.

Definition IDT_DESC_CNT : Z := 0x81.
Definition PIC_M_CRTL : Z := 0x20.
Definition PIC_M_DATA : Z := 0x21.
Definition PIC_S_CRTL : Z := 0xa0.
Definition PIC_S_DATA : Z := 0xa1.

Section interrupt.
Context (im : image).

(** ** The handler of last resort

    [cr2] is the address the processor reports for a page fault; the loop
    [while(1);] at the end stops the machine. *)

Definition set_cursor (pos : Z) : M mach unit := modify (print [256 + pos]).

Fixpoint clear_lines (n : nat) : M mach unit :=
  match n with O => mret tt | S n => put_char 32;; clear_lines n end.

Definition general_intr_handler (sfuel : nat) (cr2 vec_nr : Z) : M mach unit :=
  let vec_nr := u8 vec_nr in
  if bool_decide (vec_nr = 0x27) || bool_decide (vec_nr = 0x2f) then mret tt
  else
    set_cursor 0;;
    clear_lines 320;;
    set_cursor 0;; put_line "!!!!!!!      Execution message begin  !!!!!!!!";;
    set_cursor 88;;
    n ← load32 (intr_name im + 4 * vec_nr);
    put_str sfuel n;;
    (if decide (vec_nr = 14) then
       put_line "";; put_lit "Page Fault Address is ";; put_int cr2
     else mret tt);;
    put_line "";; put_line "!!!!!!!      Execution message end    !!!!!!!!";;
    panic "while(1)".

(** ** Handlers *)

Definition register_handler (vector_no function : Z) : M mach unit :=
  store32 (idt_table im + 4 * u8 vector_no) function.

Fixpoint exception_loop (n : nat) (i : Z) : M mach unit :=
  match n with
  | O => mret tt
  | S n =>
      store32 (idt_table im + 4 * i) (fn im "general_intr_handler");;
      store32 (intr_name im + 4 * i) (lit im "Initialized but no value");;
      exception_loop n (i + 1)
  end.

(** The assignments [intr_name[0] = ...; ...; intr_name[19] = ...;]. *)
Definition exception_names : list (Z * string) :=
  [(0, "#DE Divide Error"); (1, "#DB Debug Exception"); (2, "NMI Interrupt");
   (3, "#BP Breakpoint Exception"); (4, "#OF Overflow Exception");
   (5, "#BR BOUND Range Exceeded Exception"); (6, "#UD Invalid Opcode Exception");
   (7, "#NM Device Not Available Exception"); (8, "#DF Double Fault Exception");
   (9, "Coprocessor Segment Overrun"); (10, "#TS Invalid TSS Exception");
   (11, "#NP Segment Not Present"); (12, "#SS Stack Fault Exception");
   (13, "#GP General Protection Exception"); (14, "#PF Page-Fault Exception");
   (16, "#MF x87 FPU Floating-Point Error"); (17, "#AC Alignment Check Exception");
   (18, "#MC Machine-Check Exception"); (19, "#XF SIMD Floating-Point Exception")]%string.

Fixpoint name_loop (ns : list (Z * string)) : M mach unit :=
  match ns with
  | [] => mret tt
  | (i, s) :: ns => store32 (intr_name im + 4 * i) (lit im s);; name_loop ns
  end.

Definition exception_init : M mach unit :=
  exception_loop (Z.to_nat IDT_DESC_CNT) 0;;
  name_loop exception_names.

(** ** The controllers *)

Definition pic_init : M mach unit :=
  outb PIC_M_CRTL 0x11;; outb PIC_M_DATA 0x20;; outb PIC_M_DATA 0x04;; outb PIC_M_DATA 0x01;;
  outb PIC_S_CRTL 0x11;; outb PIC_S_DATA 0x28;; outb PIC_S_DATA 0x02;; outb PIC_S_DATA 0x01;;
  outb PIC_M_DATA 0xf8;;
  outb PIC_S_DATA 0xbf;;
  put_line "    pic_init()done".

(** ** The descriptor table *)

Definition make_idt_desc (p_gdesc attr function : Z) : M mach unit :=
  store16 p_gdesc (Z.land (u32 function) 0x0000FFFF);;
  store16 (p_gdesc + 2) SELECTOR_K_CODE;;
  store8 (p_gdesc + 4) 0;;
  store8 (p_gdesc + 5) attr;;
  store16 (p_gdesc + 6) (Z.shiftr (Z.land (u32 function) 0xFFFF0000) 16).

Fixpoint idt_desc_loop (n : nat) (i : Z) : M mach unit :=
  match n with
  | O => mret tt
  | S n =>
      f ← load32 (intr_entry_table im + 4 * i);
      make_idt_desc (idt im + 8 * i) IDT_DESC_ATTR_DPL0 f;;
      idt_desc_loop n (i + 1)
  end.

Definition idt_desc_init : M mach unit :=
  let lastindex := IDT_DESC_CNT - 1 in
  idt_desc_loop (Z.to_nat (IDT_DESC_CNT - 1)) 0;;
  make_idt_desc (idt im + 8 * lastindex) IDT_DESC_ATTR_DPL3 (syscall_handler im);;
  put_line "    idt_desc_init() done.".

(** [idt_init]; the result is the operand of [lidt]: limit and base. *)
Definition idt_init : M mach Z :=
  put_line "idt_init start";;
  idt_desc_init;;
  exception_init;;
  pic_init;;
  let idt_operand := Z.lor (8 * IDT_DESC_CNT - 1) (Z.shiftl (u32 (idt im)) 16) in
  put_line "idt_init done.";;
  mret idt_operand.
End interrupt.

(** ** The tables in memory *)

Definition apart (a n b k : Z) : Prop := a + n <= b \/ b + k <= a.

(** The link addresses: tables that do not overlap, in the address space.
    [intr_entry_table] has the 0x30 entries that [kernel.S] defines. *)
Record image_ok (im : image) : Prop := {
  io_idt : 0 <= idt im < 4294967296;
  io_gates_entries : apart (idt im) (8 * 129) (intr_entry_table im) (4 * 0x30);
  io_gates_handlers : apart (idt im) (8 * 129) (idt_table im) (4 * 129);
  io_gates_names : apart (idt im) (8 * 129) (intr_name im) (4 * 129);
  io_handlers_names : apart (idt_table im) (4 * 129) (intr_name im) (4 * 129);
  io_syscall : 0 <= syscall_handler im < 4294967296
}.

(** The memory [make_idt_desc] leaves. *)
Definition ram_gate (r : gmap Z Z) (p attr f : Z) : gmap Z Z :=
  st16 (st8 (st8 (st16 (st16 r p (Z.land (u32 f) 0xffff)) (p + 2) SELECTOR_K_CODE) (p + 4) 0)
    (p + 5) attr) (p + 6) (Z.shiftr (Z.land (u32 f) 0xffff0000) 16).

Lemma make_idt_desc_eq p attr f m :
  make_idt_desc p attr f m = Ok (tt, set_ram (ram_gate (ram m) p attr f) m).
Proof. done. Qed.

Lemma land_low16 v : Z.land v 0xffff = v mod 65536.
Proof. by apply (Z.land_ones v 16). Qed.

Lemma high16 v : 0 <= v < 4294967296 -> Z.shiftr (Z.land v 0xffff0000) 16 = v / 65536.
Proof.
  intros Hv. rewrite (land_high_mask v 16), Z.shiftr_div_pow2 by (lia || reflexivity).
  change (2 ^ 16) with 65536. rewrite Z.div_mul by lia. done.
Qed.

(** The gate [make_idt_desc] writes is the one the processor reads. *)
Lemma gate_at_make r p attr f :
  0 <= f < 4294967296 -> 0 <= attr < 256 ->
  gate_at (ram_gate r p attr f) p = Gate SELECTOR_K_CODE f (access_of attr).
Proof.
  intros Hf Ha. unfold gate_at, ram_gate. rewrite u32_id, land_low16, high16 by done.
  repeat first [rewrite ld16_st16_eq | rewrite ld16_st16_ne by lia | rewrite ld16_st8_ne by lia
    | rewrite ld8_st16_ne by lia | rewrite ld8_st8_eq | rewrite ld8_st8_ne by lia].
  rewrite (u8_id attr), (u16_id SELECTOR_K_CODE) by (done || (split; by vm_compute)).
  f_equal. zmod_lia.
Qed.

Lemma ram_gate_agree (P : Z -> Prop) r p attr f :
  (forall i, within p 8 i -> ~ P i) -> agree P r (ram_gate r p attr f).
Proof.
  unfold within. intros HP. unfold ram_gate.
  repeat (etransitivity; [|first [apply agree_st16 | apply agree_st8]; apply HP; lia]). done.
Qed.

(** The gates of the vectors below 0x80: those of the 0x30 entry points of
    [kernel.S], and behind them, where [idt_desc_init] reads on past the end
    of [intr_entry_table], present gates to whatever words lie there. *)
Definition entry_gates (im : image) (r r' : gmap Z Z) : Prop :=
  (forall v, 0 <= v < 0x30 -> gate_at r' (idt im + 8 * v) =
     Gate SELECTOR_K_CODE (ld32 r (intr_entry_table im + 4 * v)) (interrupt_gate 0)) /\
  (forall v, 0x30 <= v < 0x80 -> exists w, 0 <= w < 4294967296 /\
     gate_at r' (idt im + 8 * v) = Gate SELECTOR_K_CODE w (interrupt_gate 0) /\
     (apart (idt im) (8 * 129) (intr_entry_table im + 4 * v) 4 ->
      w = ld32 r (intr_entry_table im + 4 * v))).

Lemma entry_gates_same im r r1 r' :
  entry_gates im r r1 ->
  (forall v, 0 <= v < 0x80 -> gate_at r' (idt im + 8 * v) = gate_at r1 (idt im + 8 * v)) ->
  entry_gates im r r'.
Proof.
  intros [H1 H2] Hg. split; intros v Hv; rewrite Hg by lia; [by apply H1|by apply H2].
Qed.

Section tables.
Context (im : image) (Him : image_ok im).

Lemma idt_desc_loop_ok n i m :
  0 <= i -> i + Z.of_nat n <= 128 ->
  exists r', idt_desc_loop im n i m = Ok (tt, set_ram r' m) /\
    agree (fun a => ~ within (idt im + 8 * i) (8 * Z.of_nat n) a) (ram m) r' /\
    forall j, i <= j < i + Z.of_nat n -> exists w, 0 <= w < 4294967296 /\
      gate_at r' (idt im + 8 * j) = Gate SELECTOR_K_CODE w (interrupt_gate 0) /\
      (apart (idt im) (8 * 129) (intr_entry_table im + 4 * j) 4 ->
       w = ld32 (ram m) (intr_entry_table im + 4 * j)).
Proof.
  unfold apart, within in *.
  revert i m. induction n as [|n IH]; intros i m Hi Hn.
  { exists (ram m). split_and!; [by destruct m|done|lia]. }
  cbn [idt_desc_loop]. unfold load32. mstep. set (f := ld32 (ram m) _).
  set (r1 := ram_gate (ram m) (idt im + 8 * i) IDT_DESC_ATTR_DPL0 f).
  assert (Hr1 : make_idt_desc (idt im + 8 * i) IDT_DESC_ATTR_DPL0 f m = Ok (tt, set_ram r1 m))
    by done.
  mstep. destruct (IH (i + 1) (set_ram r1 m)) as (r' & Hrun & Hag & Hg); [lia..|].
  change (ram (set_ram r1 m)) with r1 in *.
  assert (Hag1 : agree (fun a => ~ (idt im + 8 * i <= a < idt im + 8 * i + 8)) (ram m) r1).
  { apply ram_gate_agree. unfold within. tauto. }
  exists r'. split_and!; [exact Hrun| |].
  - apply (agree_trans _ _ r1); [eapply agree_weaken; [|exact Hag1]|eapply agree_weaken; [|exact Hag]];
      cbv beta; intros; lia.
  - intros j Hj. destruct (decide (j = i)) as [->|Hne].
    + exists f. split; [apply ld32_range|]. split; [|done].
      rewrite (gate_agree _ r1 r') by (exact Hag || (cbv beta; intros; lia)).
      apply gate_at_make; [apply ld32_range|by vm_compute].
    + destruct (Hg j) as (w & Hw & Hgw & Hv); [lia|]. exists w. split; [done|]. split; [done|].
      intros Ha. rewrite Hv by done. eapply agree_ld32; [exact Hag1|]. cbv beta. intros; lia.
Qed.

Lemma idt_desc_loop_gates m r' :
  (forall j, 0 <= j < 0 + Z.of_nat 128 -> exists w, 0 <= w < 4294967296 /\
      gate_at r' (idt im + 8 * j) = Gate SELECTOR_K_CODE w (interrupt_gate 0) /\
      (apart (idt im) (8 * 129) (intr_entry_table im + 4 * j) 4 ->
       w = ld32 (ram m) (intr_entry_table im + 4 * j))) ->
  entry_gates im (ram m) r'.
Proof.
  intros Hg. split; intros v Hv; destruct (Hg v) as (w & Hw & Hgw & He); [lia| |lia|by exists w].
  rewrite Hgw, He; [done|]. pose proof (io_gates_entries _ Him). unfold apart in *. lia.
Qed.

(** Words stored at stride 4 in two tables. *)
Lemma exception_loop_ok n i m :
  0 <= i -> i + Z.of_nat n <= 129 ->
  exists r', exception_loop im n i m = Ok (tt, set_ram r' m) /\
    agree (fun a => ~ within (idt_table im + 4 * i) (4 * Z.of_nat n) a /\
                    ~ within (intr_name im + 4 * i) (4 * Z.of_nat n) a) (ram m) r' /\
    forall j, i <= j < i + Z.of_nat n ->
      ld32 r' (idt_table im + 4 * j) = u32 (fn im "general_intr_handler") /\
      ld32 r' (intr_name im + 4 * j) = u32 (lit im "Initialized but no value").
Proof.
  destruct Him as [_ _ _ _ Hhn _]. unfold apart, within in *.
  revert i m. induction n as [|n IH]; intros i m Hi Hn.
  { exists (ram m). split_and!; [by destruct m|done|lia]. }
  cbn [exception_loop]. mstep. mstep.
  set (r1 := st32 (st32 (ram m) (idt_table im + 4 * i) (fn im "general_intr_handler"))
               (intr_name im + 4 * i) (lit im "Initialized but no value")).
  change (exists r', exception_loop im n (i + 1) (set_ram r1 m) = Ok (tt, set_ram r' m) /\
    agree (fun a => ~ idt_table im + 4 * i <= a < idt_table im + 4 * i + 4 * Z.of_nat (S n) /\
       ~ intr_name im + 4 * i <= a < intr_name im + 4 * i + 4 * Z.of_nat (S n)) (ram m) r' /\
    forall j, i <= j < i + Z.of_nat (S n) ->
      ld32 r' (idt_table im + 4 * j) = u32 (fn im "general_intr_handler") /\
      ld32 r' (intr_name im + 4 * j) = u32 (lit im "Initialized but no value")).
  destruct (IH (i + 1) (set_ram r1 m)) as (r' & Hrun & Hag & Hg); [lia..|].
  change (ram (set_ram r1 m)) with r1 in *. exists r'. split_and!; [exact Hrun| |].
  - apply (agree_trans _ _ r1); [|eapply agree_weaken; [|exact Hag]; cbv beta; intros; lia].
    eapply agree_trans; apply agree_st32; intros; lia.
  - intros j Hj. destruct (decide (j = i)) as [->|Hne]; [|apply Hg; lia].
    rewrite !(agree_ld32 _ r1 r') by (exact Hag || (cbv beta; intros; lia)).
    unfold r1. by rewrite ld32_st32_ne, !ld32_st32_eq by lia.
Qed.

(** The last assignment to an element counts. *)
Fixpoint name_find (j : Z) (ns : list (Z * string)) : option string :=
  match ns with
  | [] => None
  | (i, s) :: ns => match name_find j ns with
                    | Some x => Some x
                    | None => if decide (j = i) then Some s else None
                    end
  end.

Lemma name_loop_ok ns m :
  Forall (fun e => 0 <= fst e < 129) ns ->
  exists r', name_loop im ns m = Ok (tt, set_ram r' m) /\
    agree (fun a => ~ within (intr_name im) (4 * 129) a) (ram m) r' /\
    forall j, ld32 r' (intr_name im + 4 * j) =
      match name_find j ns with
      | Some s => u32 (lit im s)
      | None => ld32 (ram m) (intr_name im + 4 * j)
      end.
Proof.
  unfold within. revert m. induction ns as [|[i s] ns IH]; intros m Hns.
  { exists (ram m). split_and!; [by destruct m|done..]. }
  apply Forall_cons in Hns as [Hi Hns]. simpl in Hi. cbn [name_loop]. mstep.
  set (r1 := st32 (ram m) (intr_name im + 4 * i) (lit im s)).
  destruct (IH (set_ram r1 m) Hns) as (r' & Hrun & Hag & Hv).
  change (ram (set_ram r1 m)) with r1 in *. exists r'. split_and!; [exact Hrun| |].
  - apply (agree_trans _ _ r1); [|exact Hag]. apply agree_st32. intros; lia.
  - intros j. rewrite Hv. cbn [name_find]. destruct (name_find j ns); [done|].
    unfold r1. case_decide as Hj; [subst; by rewrite ld32_st32_eq|].
    apply ld32_st32_ne. lia.
Qed.

Definition exception_name (v : Z) : string :=
  default "Initialized but no value"%string (name_find v exception_names).

Lemma exception_init_ok m :
  exists r', exception_init im m = Ok (tt, set_ram r' m) /\
    agree (fun a => ~ within (idt_table im) (4 * 129) a /\ ~ within (intr_name im) (4 * 129) a)
      (ram m) r' /\
    forall v, 0 <= v < 129 ->
      ld32 r' (idt_table im + 4 * v) = u32 (fn im "general_intr_handler") /\
      ld32 r' (intr_name im + 4 * v) = u32 (lit im (exception_name v)).
Proof.
  destruct (exception_loop_ok 129 0 m) as (r1 & Hrun1 & Hag1 & Hv1); [lia..|].
  destruct (name_loop_ok exception_names (set_ram r1 m)) as (r2 & Hrun2 & Hag2 & Hv2).
  { repeat constructor; simpl; lia. }
  change (ram (set_ram r1 m)) with r1 in *.
  destruct Him as [_ _ _ _ Hhn _]. unfold apart, within in *. rewrite !Z.add_0_r in Hag1.
  exists r2. unfold exception_init. change (Z.to_nat IDT_DESC_CNT) with 129%nat.
  rewrite (bind_Ok _ _ _ _ _ Hrun1). split_and!; [exact Hrun2| |].
  - apply (agree_trans _ _ r1); eapply agree_weaken; [|exact Hag1| |exact Hag2]; cbv beta; lia.
  - intros v Hv. destruct (Hv1 v) as [Hh Hn]; [lia|]. split.
    + rewrite <- Hh. eapply agree_ld32; [exact Hag2|]. cbv beta. intros; lia.
    + rewrite Hv2, Hn. unfold exception_name. by destruct (name_find v exception_names).
Qed.
End tables.

(** ** The 8259A controllers

    What a controller makes of the writes to its two ports: a control word
    with bit 4 set starts the initialisation, which takes three more words
    at the data port; after it a word at the data port is the mask. *)
Record pic := Pic { pic_next : Z; pic_base : Z; pic_mask : Z }.

Definition pic_write (ctrl : bool) (v : Z) (p : pic) : pic :=
  if ctrl then if Z.testbit v 4 then Pic 2 (pic_base p) 0 else p
  else if pic_next p =? 2 then Pic 3 (v / 8 * 8) (pic_mask p)
  else if pic_next p =? 3 then Pic 4 (pic_base p) (pic_mask p)
  else if pic_next p =? 4 then Pic 0 (pic_base p) (pic_mask p)
  else Pic 0 (pic_base p) v.

Definition pic_event (ctrl data : Z) (p : pic) (e : port_io) : pic :=
  match e with
  | Outb port v => if port =? ctrl then pic_write true v p
                   else if port =? data then pic_write false v p else p
  | _ => p
  end.

Definition master (l : list port_io) (p : pic) : pic :=
  foldl (pic_event PIC_M_CRTL PIC_M_DATA) p l.
Definition slave (l : list port_io) (p : pic) : pic :=
  foldl (pic_event PIC_S_CRTL PIC_S_DATA) p l.

(** The vector at which interrupt line [n] arrives, unless it is masked; the
    slave is wired to line 2 of the master. *)
Definition irq_vector (m s : pic) (n : Z) : option Z :=
  if n <? 8 then if Z.testbit (pic_mask m) n then None else Some (pic_base m + n)
  else if Z.testbit (pic_mask m) 2 || Z.testbit (pic_mask s) (n - 8) then None
  else Some (pic_base s + (n - 8)).

Definition pic_words : list port_io :=
  [Outb 0x20 0x11; Outb 0x21 0x20; Outb 0x21 0x04; Outb 0x21 0x01;
   Outb 0xa0 0x11; Outb 0xa1 0x28; Outb 0xa1 0x02; Outb 0xa1 0x01;
   Outb 0x21 0xf8; Outb 0xa1 0xbf].

Lemma pic_init_eq m :
  pic_init m = Ok (tt, print (codes "    pic_init()done" ++ [10])
                         (set_ports (ports m ++ pic_words) m)).
Proof. unfold pic_init, outb, log_io. repeat mstep. simpl. by rewrite <- !app_assoc. Qed.

(** After [pic_init], whatever was written to the controllers before, the
    lines that are not masked are the clock, the keyboard, the cascade and
    the first disk channel, and line [n] arrives at vector [0x20 + n]; the
    second disk channel, line 15, is masked. *)
Theorem pic_init_lines m m0 s0 n :
  0 <= n < 16 ->
  exists m', pic_init m = Ok (tt, m') /\ ram m' = ram m /\
    irq_vector (master (ports m') m0) (slave (ports m') s0) n =
    if bool_decide (n ∈ [0; 1; 2; 14]) then Some (0x20 + n) else None.
Proof.
  intros Hn. eexists. split_and!; [apply pic_init_eq|done|]. simpl.
  unfold master, slave. rewrite !foldl_app.
  generalize (foldl (pic_event PIC_M_CRTL PIC_M_DATA) m0 (ports m)) as m1.
  generalize (foldl (pic_event PIC_S_CRTL PIC_S_DATA) s0 (ports m)) as s1.
  intros [? ? ?] [? ? ?].
  assert (Hc : n ∈ seqZ 0 16) by (apply elem_of_seqZ; lia). clear Hn. revert n Hc.
  apply Forall_forall. by repeat constructor.
Qed.

Lemma pic_init_lines_witness :
  exists m', pic_init demo_mach = Ok (tt, m') /\ ram m' = ram demo_mach /\
    irq_vector (master (ports m') (Pic 0 8 0)) (slave (ports m') (Pic 0 0x70 0)) 14 = Some 0x2e.
Proof. apply (pic_init_lines demo_mach (Pic 0 8 0) (Pic 0 0x70 0) 14). lia. Defined.

Lemma IDT_DESC_ATTR_DPL3_byte : 0 <= IDT_DESC_ATTR_DPL3 < 256.
Proof. by vm_compute. Qed.

Definition idt_operand (limit base : Z) (op : Z) : Prop :=
  op mod 65536 = limit /\ op / 65536 = base.

(** The tables [idt_init] leaves. *)
Record idt_ready (im : image) (m m' : mach) : Prop := {
  ir_gates : entry_gates im (ram m) (ram m');
  ir_syscall : gate_at (ram m') (idt im + 8 * 0x80) =
    Gate SELECTOR_K_CODE (syscall_handler im) (interrupt_gate 3);
  ir_handlers : forall v, 0 <= v < 129 ->
    ld32 (ram m') (idt_table im + 4 * v) = u32 (fn im "general_intr_handler") /\
    ld32 (ram m') (intr_name im + 4 * v) = u32 (lit im (exception_name v));
  ir_memory : agree (fun a => ~ within (idt im) (8 * 129) a /\ ~ within (idt_table im) (4 * 129) a /\
    ~ within (intr_name im) (4 * 129) a) (ram m) (ram m');
  ir_cpu : ports m' = ports m ++ pic_words /\ eflags m' = eflags m
}.

Lemma idt_init_run im m :
  image_ok im ->
  exists op m', idt_init im m = Ok (op, m') /\ idt_operand (8 * 129 - 1) (idt im) op /\
    idt_ready im m m'.
Proof.
  intros Him. unfold idt_init. unfold put_line. mstep. set (m0 := print _ m).
  destruct (idt_desc_loop_ok im 128 0 m0) as (r1 & Hrun1 & Hag1 & Hg1); [lia..|].
  change (ram m0) with (ram m) in *.
  set (r2 := ram_gate r1 (idt im + 8 * 128) IDT_DESC_ATTR_DPL3 (syscall_handler im)).
  assert (Hd : idt_desc_init im m0 =
    Ok (tt, print (codes "    idt_desc_init() done." ++ [10]) (set_ram r2 m0))).
  { unfold idt_desc_init. change (Z.to_nat (IDT_DESC_CNT - 1)) with 128%nat.
    rewrite (bind_Ok _ _ _ _ _ Hrun1). done. }
  mstep. set (m1 := print _ (set_ram r2 m0)).
  destruct (exception_init_ok im Him m1) as (r3 & Hrun3 & Hag3 & Hv3).
  change (ram m1) with r2 in *. mstep. rewrite (bind_Ok _ _ _ _ _ (pic_init_eq _)). mstep.
  pose proof Him as [Hi _ Hgh Hgn _ Hs]. unfold apart, within in *.
  assert (Hag2 : agree (fun a => ~ (idt im + 8 * 128 <= a < idt im + 8 * 128 + 8)) r1 r2).
  { apply ram_gate_agree. unfold within. tauto. }
  assert (Hg3 : forall v, 0 <= v < 129 -> gate_at r3 (idt im + 8 * v) = gate_at r2 (idt im + 8 * v)).
  { intros v Hv. eapply gate_agree; [exact Hag3|]. cbv beta. intros; lia. }
  eexists _, _. split; [reflexivity|]. split; [|split]; cbn [ram ports eflags print set_ram set_ports].
  - unfold idt_operand. rewrite u32_id by done. change (8 * IDT_DESC_CNT - 1) with 1031.
    rewrite Z.lor_comm, Z.shiftl_mul_pow2 by lia. change (2 ^ 16) with 65536.
    rewrite <- Z.add_nocarry_lor; [split; zmod_lia|]. apply Z.bits_inj'. intros k Hk.
    rewrite Z.land_spec, Z.bits_0. destruct (Z.ltb_spec k 16).
    + change 65536 with (2 ^ 16). by rewrite Z.mul_pow2_bits_low.
    + rewrite (Z.bits_above_log2 1031), andb_false_r; [done|lia|]. simpl. lia.
  - apply (entry_gates_same im _ r1); [exact (idt_desc_loop_gates im Him m0 r1 Hg1)|].
    intros v Hv. rewrite Hg3 by lia. apply gate_agree with (1 := Hag2). cbv beta. intros; lia.
  - rewrite Hg3 by lia. subst r2.
    exact (gate_at_make r1 (idt im + 8 * 128) _ _ Hs IDT_DESC_ATTR_DPL3_byte).
  - exact Hv3.
  - unfold within. apply (agree_trans _ _ r1); [eapply agree_weaken; [|exact Hag1]; cbv beta; lia|].
    apply (agree_trans _ _ r2); eapply agree_weaken; [|exact Hag2| |exact Hag3]; cbv beta; lia.
  - split; reflexivity.
Qed.

(** C22: [idt_init] installs, for each of the 0x30 vectors that
    [intr_entry_table] has an entry for, a present interrupt gate for the
    kernel to that entry; for the vectors from there to 0x7f, where it reads
    past the end of the table, present gates to whatever words lie behind it;
    and for vector 0x80 the only gate a user program may call, to
    [syscall_handler]; the register operand names exactly these gates; every
    handler slot and name has its initial value, and the controllers are
    programmed last; no other memory changes. *)
Theorem idt_init_ok im m :
  image_ok im ->
  exists op m', idt_init im m = Ok (op, m') /\ idt_operand (8 * 129 - 1) (idt im) op /\
    idt_ready im m m'.
Proof. apply idt_init_run. Qed.

Definition demo_image : image :=
  Image 0xc0010000 0xc0010800 0xc0010a80 0xc0010e00 0xc0001500 0xc0011100 0xc0011200
    (fun s => 0xc0002000 + 64 * Z.of_nat (String.length s)) (fun s => 0xc0008000).

Lemma demo_image_ok : image_ok demo_image.
Proof. split; unfold apart; simpl; lia. Qed.

Lemma idt_init_ok_witness :
  exists op m', idt_init demo_image demo_mach = Ok (op, m') /\
    op = 0xc00100000407 /\
    gate_at (ram m') 0xc0010400 = Gate SELECTOR_K_CODE 0xc0001500 (interrupt_gate 3) /\
    gate_at (ram m') 0xc0010168 =
      Gate SELECTOR_K_CODE (ld32 (ram demo_mach) 0xc0010b34) (interrupt_gate 0).
Proof.
  destruct (idt_init_ok demo_image demo_mach demo_image_ok) as
    (op & m' & Hrun & [Hl Hb] & [[Hs _] Hg _ _ _]). exists op, m'.
  split; [exact Hrun|]. split; [simpl in Hb; clear - Hl Hb; zmod_lia|]. split; [exact Hg|].
  apply (Hs 0x2d). lia.
Defined.
