(* ===== verification/Tss.v ===== *)
(** * The task state segment and the descriptor table: [userprog/tss.c]

    The construction of segment descriptors, the three descriptors [tss_init]
    adds to the loader's table, and the contents of the only TSS. *)
From S2P Require Import Prelude Machine Global Str Paging Kernel Thread Sync SyncLogic Console.
From S2P Require Import Interrupt.

(** [struct gdt_desc] of [kernel/global.h]. *)
Record gdt_desc := GdtDesc {
  limit_low_word : Z;
  base_low_word : Z;
  base_mid_byte : Z;
  attr_low_byte : Z;
  limit_high_attr_high : Z;
  base_high_byte : Z
}.

Definition make_gdt_desc (desc_addr limit attr_low attr_high : Z) : gdt_desc :=
  let desc_base := u32 desc_addr in
  GdtDesc (Z.land limit 0x0000ffff) (Z.land desc_base 0x0000ffff)
    (Z.shiftr (Z.land desc_base 0x00ff0000) 16) (u8 attr_low)
    (u8 (Z.shiftr (Z.land limit 0x000f0000) 16 + u8 attr_high))
    (Z.shiftr desc_base 24).

(** The assignment of a descriptor through a pointer. *)
Definition store_desc (a : Z) (d : gdt_desc) : M mach unit :=
  store16 a (limit_low_word d);;
  store16 (a + 2) (base_low_word d);;
  store8 (a + 4) (base_mid_byte d);;
  store8 (a + 5) (attr_low_byte d);;
  store8 (a + 6) (limit_high_attr_high d);;
  store8 (a + 7) (base_high_byte d).

Definition sizeof_tss : Z := 108.
Definition GDT : Z := 0xc0000503.

(** The field [tss.esp0] is [tss_esp0] of the kernel state; the others are
    the words at the address of [tss].  The result is the operand of [lgdt];
    [ltr] loads [SELECTOR_TSS]. *)
Definition tss_init (im : image) : K Z :=
  on_mach (put_line "tss_init start");;
  let tss_size := sizeof_tss in
  on_mach (memset (tss im) 0 tss_size);;
  kmod (set_esp0 0);;
  on_mach (store32 (tss im + 8) SELECTOR_K_STACK);;
  on_mach (store32 (tss im + 104) tss_size);;
  on_mach (store_desc 0xc0000523 (make_gdt_desc (tss im) (tss_size - 1) TSS_ATTR_LOW TSS_ATTR_HIGH));;
  on_mach (store_desc 0xc000052b (make_gdt_desc 0 0xfffff GDT_CODE_ATTR_LOW_DPL3 GDT_ATTR_HIGH));;
  on_mach (store_desc 0xc0000533 (make_gdt_desc 0 0xfffff GDT_DATA_ATTR_LOW_DPL3 GDT_ATTR_HIGH));;
  let gdt_operand := Z.lor (8 * 7 - 1) (Z.shiftl (u32 0xc0000503) 16) in
  on_mach (put_line "tss_init and ltr done");;
  mret gdt_operand.

(** ** Descriptors *)

Definition ram_desc (r : gmap Z Z) (a : Z) (d : gdt_desc) : gmap Z Z :=
  st8 (st8 (st8 (st8 (st16 (st16 r a (limit_low_word d)) (a + 2) (base_low_word d))
    (a + 4) (base_mid_byte d)) (a + 5) (attr_low_byte d)) (a + 6) (limit_high_attr_high d))
    (a + 7) (base_high_byte d).

Lemma store_desc_eq a d m : store_desc a d m = Ok (tt, set_ram (ram_desc (ram m) a d) m).
Proof. done. Qed.

Lemma ram_desc_agree (P : Z -> Prop) r a d :
  (forall i, within a 8 i -> ~ P i) -> agree P r (ram_desc r a d).
Proof.
  unfold within. intros HP. unfold ram_desc.
  repeat (etransitivity; [|first [apply agree_st16 | apply agree_st8]; apply HP; lia]). done.
Qed.

Lemma land_mid v n k :
  0 <= n -> 0 <= k -> Z.shiftr (Z.land v (Z.shiftl (Z.ones k) n)) n = v / 2 ^ n mod 2 ^ k.
Proof.
  intros Hn Hk. rewrite Z.shiftr_land, <- Z.land_ones, <- Z.shiftr_div_pow2 by done. f_equal.
  rewrite Z.shiftr_shiftl_l, Z.sub_diag by done. apply Z.shiftl_0_r.
Qed.

(** a descriptor that [make_gdt_desc] builds and the code stores reads
    back, the way the processor reads it, as the base, the limit and the
    attributes it was made from: a byte limit, or a limit in pages when the
    attributes have the granularity bit. *)
Theorem make_gdt_desc_reads r a base limit attr_low attr_high :
  0 <= base < 4294967296 -> 0 <= limit < 1048576 -> 0 <= attr_low < 256 ->
  0 <= attr_high < 256 -> attr_high mod 16 = 0 ->
  segment_at (ram_desc r a (make_gdt_desc base limit attr_low attr_high)) a =
  Segment base (if Z.testbit attr_high 7 then limit * 4096 + 4095 else limit) (access_of attr_low).
Proof.
  intros Hb Hl Ha Hh Hh16. unfold segment_at, ram_desc, make_gdt_desc. cbn [limit_low_word
    base_low_word base_mid_byte attr_low_byte limit_high_attr_high base_high_byte].
  repeat first [rewrite ld16_st16_eq | rewrite ld16_st16_ne by lia | rewrite ld16_st8_ne by lia
    | rewrite ld8_st16_ne by lia | rewrite ld8_st8_eq | rewrite ld8_st8_ne by lia].
  rewrite (u32_id base) by done. rewrite !land_low16, !u8_idem.
  change 0x00ff0000 with (Z.shiftl (Z.ones 8) 16). change 0x000f0000 with (Z.shiftl (Z.ones 4) 16).
  rewrite !land_mid, Z.shiftr_div_pow2 by lia.
  change (2 ^ 16) with 65536. change (2 ^ 8) with 256. change (2 ^ 4) with 16.
  change (2 ^ 24) with 16777216.
  assert (Hlow : (u8 (limit / 65536 mod 16 + u8 attr_high)) = limit / 65536 + attr_high) by zmod_lia.
  rewrite Hlow. assert (Hbit : Z.testbit (limit / 65536 + attr_high) 7 = Z.testbit attr_high 7).
  { rewrite !Z.testbit_eqb by lia. f_equal. change (2 ^ 7) with 128. zmod_lia. }
  rewrite Hbit. f_equal; [|destruct (Z.testbit attr_high 7)|].
  - zmod_lia.
  - zmod_lia.
  - zmod_lia.
  - rewrite u8_id by done. done.
Qed.

Lemma make_gdt_desc_reads_witness :
  segment_at (ram_desc ∅ 0x508 (make_gdt_desc 0xc0012340 107 0x89 0x80)) 0x508 =
  Segment 0xc0012340 442367 (Access true 0 false 9).
Proof. apply (make_gdt_desc_reads ∅ 0x508 0xc0012340 107 0x89 0x80); done || lia. Defined.

(** ** The state after [tss_init] *)

Definition ram_tss (im : image) (r : gmap Z Z) : gmap Z Z :=
  let r1 := st32 (st32 (ram_fill r (tss im) 0 108) (tss im + 8) SELECTOR_K_STACK) (tss im + 104) 108 in
  let r2 := ram_desc r1 0xc0000523 (make_gdt_desc (tss im) 107 TSS_ATTR_LOW TSS_ATTR_HIGH) in
  let r3 := ram_desc r2 0xc000052b (make_gdt_desc 0 0xfffff GDT_CODE_ATTR_LOW_DPL3 GDT_ATTR_HIGH) in
  ram_desc r3 0xc0000533 (make_gdt_desc 0 0xfffff GDT_DATA_ATTR_LOW_DPL3 GDT_ATTR_HIGH).

Lemma on_mach_desc a d k :
  on_mach (store_desc a d) k = Done tt (kwith_ram (fun r => ram_desc r a d) k).
Proof. done. Qed.
Lemma on_mach_line s k :
  on_mach (put_line s) k = Done tt (set_km (print (codes s ++ [10]) (km k)) k).
Proof. done. Qed.

Lemma tss_init_eq im k :
  tss im <> 0 ->
  exists cs, tss_init im k =
    Done 0xc00005030037 (set_esp0 0 (set_km (print cs (set_ram (ram_tss im (ram (km k))) (km k))) k)).
Proof.
  intros Hne. eexists. unfold tss_init.
  rewrite (kbind_Done _ _ _ _ _ (on_mach_line _ _)).
  erewrite kbind_Done by
    (apply (on_mach_ram _ (fun r => ram_fill r (tss im) 0 (Z.to_nat sizeof_tss)));
     intros m; apply memset_eq, Hne).
  rewrite (kbind_Done _ _ _ tt (set_esp0 0 _)) by reflexivity.
  do 2 rewrite (kbind_Done _ _ _ _ _ (on_mach_store32 _ _ _)).
  do 3 rewrite (kbind_Done _ _ _ _ _ (on_mach_desc _ _ _)).
  rewrite (kbind_Done _ _ _ _ _ (on_mach_line _ _)). rewrite !kwith_ram_twice.
  unfold mret, K_ret. f_equal. destruct k as [[r e l c] pg e0 th sy me dv].
  unfold kwith_ram, set_esp0, set_km, print, set_ram. cbn [km ram ports eflags screen kp kt ks kmem kdev].
  rewrite <- app_assoc. reflexivity.
Qed.

(** [tss] lies in memory, away from the table the loader left at [GDT]. *)
Definition tss_placed (im : image) : Prop :=
  0 < tss im /\ tss im + sizeof_tss <= 4294967296 /\ apart (tss im) sizeof_tss GDT 56.

Lemma ram_tss_segment im r a d :
  tss_placed im ->
  (a, d) ∈ [(0xc0000523, make_gdt_desc (tss im) 107 TSS_ATTR_LOW TSS_ATTR_HIGH);
            (0xc000052b, make_gdt_desc 0 0xfffff GDT_CODE_ATTR_LOW_DPL3 GDT_ATTR_HIGH);
            (0xc0000533, make_gdt_desc 0 0xfffff GDT_DATA_ATTR_LOW_DPL3 GDT_ATTR_HIGH)] ->
  exists r0, segment_at (ram_tss im r) a = segment_at (ram_desc r0 a d) a.
Proof.
  intros _ Hin. unfold ram_tss.
  assert (Hag : forall r1 b e, b + 8 <= a \/ a + 8 <= b ->
    segment_at (ram_desc r1 b e) a = segment_at r1 a).
  { intros r1 b e Hab. apply (segment_agree (fun i => ~ within b 8 i)).
    - apply ram_desc_agree. tauto.
    - unfold within. intros; lia. }
  rewrite !elem_of_cons in Hin. destruct Hin as [E|[E|[E|E]]].
  - injection E as -> ->. rewrite !Hag by lia. by eexists.
  - injection E as -> ->. rewrite Hag by lia. by eexists.
  - injection E as -> ->. by eexists.
  - by apply not_elem_of_nil in E.
Qed.

Lemma ram_tss_word im r b :
  tss_placed im -> within (tss im) sizeof_tss b ->
  ld8 (ram_tss im r) b =
  ld8 (st32 (st32 (ram_fill r (tss im) 0 108) (tss im + 8) SELECTOR_K_STACK) (tss im + 104) 108) b.
Proof.
  unfold tss_placed, within, apart, GDT, sizeof_tss. intros (_ & _ & Hd) Hb. unfold ram_tss.
  assert (Hag : forall r1 a e, 0xc0000503 <= a -> a + 8 <= 0xc0000503 + 56 ->
    ld8 (ram_desc r1 a e) b = ld8 r1 b).
  { intros r1 a e H1 H2. apply (ram_desc_agree (fun i => ~ within a 8 i)); unfold within; lia. }
  by rewrite !Hag by lia.
Qed.

(** The descriptors and the TSS [tss_init] leaves. *)
Record tss_ready (im : image) (k k' : kst) : Prop := {
  ss_tss : segment_at (ram (km k')) (descriptor_of GDT SELECTOR_TSS) =
    Segment (tss im) (107 * 4096 + 4095) (Access true 0 false 9);
  ss_code : segment_at (ram (km k')) (descriptor_of GDT SELECTOR_U_CODE) =
    Segment 0 4294967295 (Access true 3 true 8);
  ss_data : segment_at (ram (km k')) (descriptor_of GDT SELECTOR_U_DATA) =
    Segment 0 4294967295 (Access true 3 true 2);
  ss_ss0 : ld32 (ram (km k')) (tss im + 8) = SELECTOR_K_STACK;
  ss_esp0 : tss_esp0 k' = 0;
  ss_memory : agree (fun a => ~ within (tss im) sizeof_tss a /\ ~ within GDT 56 a)
    (ram (km k)) (ram (km k'));
  ss_rest : exists cs, k' = set_esp0 0 (set_km (print cs (set_ram (ram (km k')) (km k))) k)
}.

Lemma tss_init_run im k :
  tss_placed im ->
  exists k', tss_init im k = Done 0xc00005030037 k' /\
    idt_operand (8 * 7 - 1) GDT 0xc00005030037 /\ tss_ready im k k'.
Proof.
  intros Hp. pose proof Hp as (H0 & Hb & Hd). unfold sizeof_tss in Hb.
  destruct (tss_init_eq im k) as [cs Hrun]; [lia|]. eexists. split; [exact Hrun|].
  split; [split; reflexivity|].
  split; cbn [km set_esp0 set_km ram print set_ram tss_esp0];
    [| | | |done| |by exists cs].
  - change (descriptor_of GDT SELECTOR_TSS) with 0xc0000523. destruct (ram_tss_segment im (ram (km k)) 0xc0000523 _ Hp ltac:(left)) as [r0 ->].
    rewrite make_gdt_desc_reads; [done|lia|lia|by vm_compute..].
  - change (descriptor_of GDT SELECTOR_U_CODE) with 0xc000052b.
    destruct (ram_tss_segment im (ram (km k)) 0xc000052b _ Hp ltac:(right; left)) as [r0 ->].
    rewrite make_gdt_desc_reads; [done|lia|lia|by vm_compute..].
  - change (descriptor_of GDT SELECTOR_U_DATA) with 0xc0000533.
    destruct (ram_tss_segment im (ram (km k)) 0xc0000533 _ Hp ltac:(right; right; left)) as [r0 ->].
    rewrite make_gdt_desc_reads; [done|lia|lia|by vm_compute..].
  - unfold ld32. rewrite !ram_tss_word by (done || (unfold within, sizeof_tss; lia)).
    change (ld32 (st32 (st32 (ram_fill (ram (km k)) (tss im) 0 108) (tss im + 8) SELECTOR_K_STACK)
      (tss im + 104) 108) (tss im + 8) = SELECTOR_K_STACK).
    rewrite ld32_st32_ne, ld32_st32_eq by lia. done.
  - unfold ram_tss, GDT, sizeof_tss in *.
    repeat (etransitivity; [|apply ram_desc_agree; unfold within; intros; lia]).
    do 2 (etransitivity; [|apply agree_st32; unfold within; intros; lia]).
    intros a Ha. unfold within in Ha. rewrite ld8_ram_fill, decide_False; [done|lia].
Qed.

(** After [tss_init] the selectors the kernel uses for user programs and
    for the task register name, within the table the operand of [lgdt]
    describes, the descriptors they are meant to: flat code and data segments
    of privilege 3 over the whole address space, and a present TSS of
    privilege 0 at the address of [tss], with the kernel's stack segment in
    it. *)
Theorem tss_init_ok im k :
  tss_placed im ->
  exists k', tss_init im k = Done 0xc00005030037 k' /\
    idt_operand (8 * 7 - 1) GDT 0xc00005030037 /\ tss_ready im k k'.
Proof. apply tss_init_run. Qed.

Lemma demo_image_tss : tss_placed demo_image.
Proof. unfold tss_placed, apart, GDT, sizeof_tss. simpl. lia. Qed.

Lemma tss_init_ok_witness :
  exists k', tss_init demo_image bss_kst = Done 0xc00005030037 k' /\
    segment_at (ram (km k')) (descriptor_of GDT SELECTOR_U_CODE) =
      Segment 0 4294967295 (Access true 3 true 8).
Proof.
  destruct (tss_init_ok demo_image bss_kst demo_image_tss) as (k' & Hrun & _ & Hs).
  exists k'. split; [exact Hrun|apply (ss_code _ _ _ Hs)].
Defined.

(** ** The I/O permission bitmap

    The processor lets code of privilege 3 access port [p], when the flags
    give it privilege 0 only, if the bit of [p] is clear in the bitmap that
    starts at the offset the TSS holds in its 16 bits at 102, as long as the
    bitmap's two bytes for [p] lie within the TSS's limit. *)
Definition io_allowed (r : gmap Z Z) (t limit p : Z) : bool :=
  let off := ld16 r (t + 102) + p / 8 in
  bool_decide (off + 1 <= limit) && negb (Z.testbit (ld16 r (t + off)) (p mod 8)).

(** C40: [tss_init] writes the size of the TSS, meant to place the bitmap
    behind its end and so to deny every port, to offset 104, but the
    processor looks for it at offset 102: the bitmap starts at the TSS's
    first byte, and its zeros give every user program the disk's ports. *)
Theorem tss_init_opens_disk im k :
  tss_placed im ->
  exists k', tss_init im k = Done 0xc00005030037 k' /\
    forall p, 0x1f0 <= p <= 0x1f7 ->
      io_allowed (ram (km k')) (tss im)
        (sg_limit (segment_at (ram (km k')) (descriptor_of GDT SELECTOR_TSS))) p = true.
Proof.
  intros Hp. pose proof Hp as (H0 & Hb & Hd). unfold sizeof_tss in Hb.
  destruct (tss_init_eq im k) as [cs Hrun]; [lia|]. eexists. split; [exact Hrun|].
  intros p Hpt. cbn [km set_esp0 set_km ram print set_ram].
  change (descriptor_of GDT SELECTOR_TSS) with 0xc0000523.
  destruct (ram_tss_segment im (ram (km k)) 0xc0000523 _ Hp ltac:(left)) as [r0 ->].
  rewrite make_gdt_desc_reads; [|lia|lia|by vm_compute..]. cbn [sg_limit].
  change (Z.testbit TSS_ATTR_HIGH 7) with true. cbv iota.
  assert (Hz : forall b, 62 <= b <= 63 \/ 102 <= b <= 103 ->
    ld8 (ram_tss im (ram (km k))) (tss im + b) = 0).
  { intros b Hbd. rewrite ram_tss_word by (done || (unfold within, sizeof_tss; lia)).
    rewrite !ld8_st32_ne, ld8_ram_fill, decide_True by lia. done. }
  assert (Ho : ld16 (ram_tss im (ram (km k))) (tss im + 102) = 0).
  { unfold ld16. rewrite <- Z.add_assoc, !Hz by lia. done. }
  unfold io_allowed. rewrite Ho. replace (p / 8) with 62 by (Z.div_mod_to_equations; lia).
  change (0 + 62) with 62. unfold ld16. rewrite <- (Z.add_assoc _ 62 1).
  change (62 + 1) with 63. rewrite !Hz, bool_decide_true by lia.
  change (0 + 256 * 0) with 0. by rewrite Z.bits_0.
Qed.

Lemma tss_init_opens_disk_witness :
  exists k', tss_init demo_image bss_kst = Done 0xc00005030037 k' /\
    io_allowed (ram (km k')) 0xc0011100
      (sg_limit (segment_at (ram (km k')) (descriptor_of GDT SELECTOR_TSS))) 0x1f7 = true.
Proof.
  destruct (tss_init_opens_disk demo_image bss_kst demo_image_tss) as (k' & Hrun & Hio).
  exists k'. split; [exact Hrun|]. apply (Hio 0x1f7). lia.
Defined.
