(* ===== verification/Syscall.v ===== *)
(** * System calls: [userprog/syscall-init.c], [lib/user/syscall.c]

    The table of system calls, the calls of this kernel and the stubs of the
    user library, with the entry [syscall_handler] of [kernel/kernel.S]
    between them: [int 0x80] goes through an interrupt gate, the call runs
    with interrupts off, and [iretd] puts the caller's flags back. *)
From S2P Require Import Prelude Machine Global Str Bitmap Paging Kernel Thread Sync Console Memory.
From S2P Require Import Arena Interrupt.

Definition syscall_nr : Z := 32.
Definition SYS_GETPID : Z := 0.
Definition SYS_WRITE : Z := 1.
Definition SYS_MALLOC : Z := 2.
Definition SYS_FREE : Z := 3.

(** [return running_thread()->pid], an [int16_t] returned as [uint32_t]. *)
Definition sys_getpid : K Z := cur ← running_thread; t ← get_task cur; mret (u32 (pid t)).

Section syscall.
Context (im : image).
(** The kernel's block descriptors, and fuel for the locks, the loops of the
    heap and the strings. *)
Context (k_block_descs : Z) (lkfuel fuel lfuel sfuel : nat).

Definition sys_write (str : Z) : K Z :=
  console_put_str lkfuel sfuel str;;
  on_mach (strlen sfuel str).

Definition syscall_init : M mach unit :=
  put_line "syscall_init start";;
  store32 (syscall_table im + 4 * SYS_GETPID) (fn im "sys_getpid");;
  store32 (syscall_table im + 4 * SYS_WRITE) (fn im "sys_write");;
  store32 (syscall_table im + 4 * SYS_MALLOC) (fn im "sys_malloc");;
  store32 (syscall_table im + 4 * SYS_FREE) (fn im "sys_free");;
  put_line "syscall_init start".

(** ** The entry in [kernel.S]

    [call [syscall_table + eax*4]] with [ebx] as the first argument: the
    number is not compared with the size of the table.  [eax0] is what a
    function without a result leaves in [eax]. *)
Context (eax0 : Z).

Definition call_at (f ebx : Z) : K Z :=
  if decide (f = fn im "sys_getpid") then sys_getpid
  else if decide (f = fn im "sys_write") then sys_write ebx
  else if decide (f = fn im "sys_malloc") then sys_malloc k_block_descs lkfuel fuel lfuel ebx
  else if decide (f = fn im "sys_free") then sys_free lkfuel fuel lfuel ebx;; mret eax0
  else kpanic "call of an address that is no system call".

Definition int_0x80 (eax ebx : Z) : K Z :=
  flags ← kget (fun k => eflags (km k));
  kmod (fun k => set_km (irq_off (km k)) k);;
  f ← on_mach (load32 (syscall_table im + u32 (4 * eax)));
  r ← call_at f ebx;
  kmod (fun k => set_km (set_eflags flags (km k)) k);;
  mret r.

(** ** The user library *)

Definition _syscall0 (NUMBER ebx : Z) : K Z := int_0x80 NUMBER ebx.
Definition _syscall1 (NUMBER ARG1 : Z) : K Z := int_0x80 NUMBER ARG1.

(** [ebx] is whatever the program left there. *)
Definition getpid (ebx : Z) : K Z := r ← _syscall0 SYS_GETPID ebx; mret (u32 r).
Definition write (str : Z) : K Z := r ← _syscall1 SYS_WRITE str; mret (u32 r).
Definition malloc (size : Z) : K Z := _syscall1 SYS_MALLOC size.
Definition free (ptr : Z) : K unit := _syscall1 SYS_FREE ptr;; mret tt.

(** ** Lemmas *)

(** The addresses of the functions, and the entries of the table. *)
Record calls_linked : Prop := {
  cl_range : forall f, 0 <= fn im f < 4294967296;
  cl_write : fn im "sys_write" <> fn im "sys_getpid";
  cl_malloc : fn im "sys_malloc" <> fn im "sys_getpid" /\ fn im "sys_malloc" <> fn im "sys_write";
  cl_free : fn im "sys_free" <> fn im "sys_getpid" /\ fn im "sys_free" <> fn im "sys_write" /\
            fn im "sys_free" <> fn im "sys_malloc"
}.

Record table_set (r : gmap Z Z) : Prop := {
  ts_getpid : ld32 r (syscall_table im) = fn im "sys_getpid";
  ts_write : ld32 r (syscall_table im + 4) = fn im "sys_write";
  ts_malloc : ld32 r (syscall_table im + 8) = fn im "sys_malloc";
  ts_free : ld32 r (syscall_table im + 12) = fn im "sys_free"
}.

(** A kernel function called with interrupts off, the flags restored. *)
Definition trap (body : K Z) : K Z := fun k =>
  (r ← body; kmod (fun k' => set_km (set_eflags (eflags (km k)) (km k')) k');; mret r)
    (set_km (irq_off (km k)) k).

Lemma int_0x80_eq eax ebx f k :
  0 <= eax < syscall_nr -> ld32 (ram (km k)) (syscall_table im + 4 * eax) = f ->
  int_0x80 eax ebx k = trap (call_at f ebx) k.
Proof.
  unfold syscall_nr. intros He Hf. unfold int_0x80, trap. kstep. kstep.
  rewrite u32_id by lia. unfold load32.
  rewrite (kbind_Done _ _ _ (ld32 (ram (irq_off (km k))) (syscall_table im + 4 * eax))
    (set_km (irq_off (km k)) k)).
  - by rewrite irq_off_ram, Hf.
  - unfold on_mach. erewrite lift_Ok by reflexivity. by destruct k.
Qed.

Lemma syscall_init_table m :
  calls_linked -> exists m', syscall_init m = Ok (tt, m') /\ table_set (ram m') /\
    agree (fun a => ~ within (syscall_table im) 16 a) (ram m) (ram m') /\
    eflags m' = eflags m /\ ports m' = ports m.
Proof.
  intros [Hr _ _ _]. eexists. split; [reflexivity|].
  cbn [print set_ram ram eflags ports]. unfold within, SYS_GETPID, SYS_WRITE, SYS_MALLOC, SYS_FREE.
  set (a := syscall_table im).
  change (4 * 0) with 0. change (4 * 1) with 4. change (4 * 2) with 8. change (4 * 3) with 12.
  rewrite Z.add_0_r. split_and!; [| |done..].
  - split; repeat (rewrite ld32_st32_ne by lia); rewrite ld32_st32_eq; by apply u32_id.
  - repeat (etransitivity; [|apply agree_st32; intros; lia]). done.
Qed.
End syscall.

(** C23: With the table as [syscall_init] leaves it, each stub of the user
    library is the kernel function of its name, run with interrupts off and
    with the caller's flags put back: the numbers of [enum SYSCALL_NR] on
    both sides agree. *)
Theorem syscalls_dispatch im kd lk fu lf sf e0 ebx m k :
  calls_linked im -> exists m', syscall_init im m = Ok (tt, m') /\
  (agree (within (syscall_table im) 16) (ram m') (ram (km k)) ->
    getpid im kd lk fu lf sf e0 ebx k = (r ← trap sys_getpid; mret (u32 r)) k /\
    (forall str, write im kd lk fu lf sf e0 str k =
       (r ← trap (sys_write lk sf str); mret (u32 r)) k) /\
    (forall size, malloc im kd lk fu lf sf e0 size k = trap (sys_malloc kd lk fu lf size) k) /\
    (forall ptr, free im kd lk fu lf sf e0 ptr k =
       (trap (sys_free lk fu lf ptr;; mret e0);; mret tt) k)).
Proof.
  intros Hl. destruct (syscall_init_table im m Hl) as (m' & Hrun & [H0 H1 H2 H3] & _ & _).
  exists m'. split; [exact Hrun|]. intros Hag. destruct Hl as [Hr Hw [Hm1 Hm2] (Hf1 & Hf2 & Hf3)].
  assert (Hld : forall i, 0 <= i < 4 -> ld32 (ram (km k)) (syscall_table im + 4 * i) =
    ld32 (ram m') (syscall_table im + 4 * i)).
  { intros i Hi. eapply agree_ld32; [exact Hag|]. unfold within. intros; lia. }
  assert (Hc : forall eax ebx f, 0 <= eax < 4 -> ld32 (ram m') (syscall_table im + 4 * eax) = f ->
    int_0x80 im kd lk fu lf sf e0 eax ebx k = trap (call_at im kd lk fu lf sf e0 f ebx) k).
  { intros eax b f He Hf. apply int_0x80_eq; [unfold syscall_nr; lia|]. by rewrite Hld. }
  unfold getpid, write, malloc, free, _syscall0, _syscall1, SYS_GETPID, SYS_WRITE, SYS_MALLOC,
    SYS_FREE, mbind, K_bind. split_and!.
  - rewrite (Hc 0 ebx _ ltac:(lia) ltac:(rewrite Z.add_0_r; exact H0)).
    unfold call_at. by rewrite decide_True.
  - intros str. rewrite (Hc 1 str _ ltac:(lia) H1).
    unfold call_at. by rewrite decide_False, decide_True.
  - intros size. rewrite (Hc 2 size _ ltac:(lia) H2).
    unfold call_at. repeat (rewrite decide_False by assumption). by rewrite decide_True.
  - intros ptr. rewrite (Hc 3 ptr _ ltac:(lia) H3).
    unfold call_at. repeat (rewrite decide_False by assumption). by rewrite decide_True.
Qed.

Definition demo_image_linked : image :=
  Image 0xc0010000 0xc0010800 0xc0010a80 0xc0010e00 0xc0001500 0xc0011100 0xc0011200
    (fun s => if decide (s = "sys_getpid"%string) then 0xc0003000
              else if decide (s = "sys_write"%string) then 0xc0003100
              else if decide (s = "sys_malloc"%string) then 0xc0003200
              else if decide (s = "sys_free"%string) then 0xc0003300 else 0xc0002000)
    (fun s => 0xc0008000).

Lemma demo_linked : calls_linked demo_image_linked.
Proof. split; simpl; [intros f; repeat case_decide; lia|done..]. Qed.

Lemma syscalls_dispatch_witness :
  exists m', syscall_init demo_image_linked demo_mach = Ok (tt, m') /\
    forall size, malloc demo_image_linked 0xc0020000 9 256 256 9 0 size (set_km m' bss_kst) =
      trap (sys_malloc 0xc0020000 9 256 256 size) (set_km m' bss_kst).
Proof.
  destruct (syscall_init_table demo_image_linked demo_mach demo_linked) as (m' & Hm' & _).
  exists m'. split; [exact Hm'|].
  destruct (syscalls_dispatch demo_image_linked 0xc0020000 9 256 256 9 0 0 demo_mach
    (set_km m' bss_kst) demo_linked) as (m2 & Hm2 & Hd).
  rewrite Hm' in Hm2. injection Hm2 as <-. apply Hd. by intros a.
Defined.

(** [sys_write] of a string prints it, answers its length and leaves the
    console's lock free. *)
Theorem sys_write_ok lk sf str s k :
  IF (km k) = false -> lock_free console_lock k -> running (kt k) <> 0 ->
  cstr (ram (km k)) str s -> 0 < str -> str + Z.of_nat (length s) < 4294967296 ->
  (length s < sf)%nat ->
  exists sy, sys_write (S lk) sf str k =
    Done (Z.of_nat (length s)) (set_ks sy (set_km (print s (km k)) k)) /\
    lock_free console_lock (set_ks sy k).
Proof.
  intros HI Hf Hr Hs Ha Hb Hsf. unfold sys_write.
  destruct (console_put_str_free lk sf str s k) as (sy & Hcon & Hf2); [done..|lia|done|done|].
  exists sy. split; [|exact Hf2]. rewrite (kbind_Done _ _ _ _ _ Hcon). unfold on_mach.
  erewrite lift_Ok; [|apply (strlen_spec sf str s); [lia|exact Hs|done]].
  rewrite u32_id by lia. by destruct k.
Qed.

Definition demo_write : kst :=
  set_kt (set_running 0xc0100000 (kt bss_kst)) (set_ks (SyncSt {[lock_semaphore console_lock := Sema 1 []]} ∅)
    (set_km (Mach (ram demo_mach) 2 [] []) bss_kst)).

Lemma sys_write_ok_witness :
  exists sy, sys_write 3 9 16 demo_write =
    Done 2 (set_ks sy (set_km (print [97; 98] (km demo_write)) demo_write)) /\
    lock_free console_lock (set_ks sy demo_write).
Proof.
  apply (sys_write_ok 2 9 16 [97; 98] demo_write); [done|by split|done|exact demo_ab|simpl; lia..].
Defined.
