(* ===== verification/Spawn.v ===== *)
(** * New threads: [thread/thread.c]

    The initial contents of a PCB and of the stack above it, the start of a
    kernel thread and of the main and idle threads.

    A PCB is a record of the kernel state, except its block descriptors,
    which lie in memory at [u_block_descs]; the stack is the rest of the PCB's
    page. *)
From S2P Require Import Prelude Machine Str Bitmap Paging Kernel Thread Timer Sync SyncLogic Console.
From S2P Require Import Threads Memory PageHeap PageAlloc Arena Interrupt.

(** ** [thread/thread.h] *)

(** [sizeof(struct intr_stack)], [sizeof(struct thread_stack)],
    [sizeof(struct task_struct)]; the fields of [struct thread_stack]. *)
Definition sizeof_intr_stack : Z := 76.
Definition sizeof_thread_stack : Z := 32.
Definition sizeof_task_struct : Z := 272.
Definition ts_ebp : Z := 0.
Definition ts_ebx : Z := 4.
Definition ts_edi : Z := 8.
Definition ts_esi : Z := 12.
Definition ts_eip : Z := 16.
Definition ts_function : Z := 24.
Definition ts_func_arg : Z := 28.

Definition set_name (v : list Z) (t : task_struct) : task_struct :=
  Task (self_kstack t) (pid t) (status t) v (priority t) (ticks t) (elapsed_ticks t)
    (fd_table t) (pgdir t) (userprog_vaddr t) (stack_magic t).
Definition set_priority (v : Z) (t : task_struct) : task_struct :=
  Task (self_kstack t) (pid t) (status t) (name t) v (ticks t) (elapsed_ticks t)
    (fd_table t) (pgdir t) (userprog_vaddr t) (stack_magic t).
Definition set_stack_magic (v : Z) (t : task_struct) : task_struct :=
  Task (self_kstack t) (pid t) (status t) (name t) (priority t) (ticks t) (elapsed_ticks t)
    (fd_table t) (pgdir t) (userprog_vaddr t) v.
Definition set_main_thread (v : Z) (th : thread_st) : thread_st :=
  ThreadSt (tasks th) (running th) (thread_ready_list th) (thread_all_list th)
    v (idle_thread th) (next_pid th) (esps th).
Definition set_idle_thread (v : Z) (th : thread_st) : thread_st :=
  ThreadSt (tasks th) (running th) (thread_ready_list th) (thread_all_list th)
    (main_thread th) v (next_pid th) (esps th).

(** The bytes of a string up to its NUL. *)
Fixpoint read_str (fuel : nat) (a : Z) : M mach (list Z) :=
  match fuel with
  | O => no_fuel
  | S fuel =>
      c ← load8 a;
      if decide (c = 0) then mret [] else s ← read_str fuel (a + 1); mret (c :: s)
  end.

Section spawn.
Context (im : image).
(** Fuel for the locks and for the strings. *)
Context (lkfuel sfuel : nat).

(** [intr_enable(); function(func_arg);], the function given as its effect. *)
Definition kernel_thread (function : Z -> K unit) (func_arg : Z) : K unit :=
  on_mach intr_enable;; irq_window;; function func_arg.

(** The loop that marks the descriptors behind the standard ones free. *)
Fixpoint fd_loop (n : nat) (pthread : Z) (fd_idx : nat) : K unit :=
  match n with
  | O => mret tt
  | S n =>
      upd_task pthread (fun t => set_fd_table (<[fd_idx := -1]> (fd_table t)) t);;
      fd_loop n pthread (S fd_idx)
  end.

(** [init_thread].  A name longer than the field's 15 bytes runs over
    [priority], [ticks], [elapsed_ticks] and [fd_table], which are assigned
    below it; names of more than 55 bytes are not described. *)
Definition init_thread (pthread name prio : Z) : K unit :=
  KASSERT (bool_decide (pthread <> 0)) "dst_ != NULL";;
  upd_task pthread (fun _ => task_zero);;
  on_mach (memset_loop 168 (u_block_descs pthread) 0);;
  p ← allocate_pid lkfuel;
  upd_task pthread (set_pid p);;
  KASSERT (bool_decide (name <> 0)) "dst_ != NULL && src_ != NULL";;
  s ← on_mach (read_str sfuel name);
  upd_task pthread (set_name s);;
  main ← kget (fun k => main_thread (kt k));
  (if decide (pthread = main) then upd_task pthread (set_status TASK_RUNING)
   else upd_task pthread (set_status TASK_READY));;
  upd_task pthread (set_self_kstack (u32 (pthread + PG_SIZE)));;
  upd_task pthread (set_priority (u8 prio));;
  upd_task pthread (set_ticks (u8 prio));;
  upd_task pthread (set_elapsed_ticks 0);;
  upd_task pthread (set_pgdir 0);;
  upd_task pthread (fun t => set_fd_table (<[0%nat := 0]> (fd_table t)) t);;
  upd_task pthread (fun t => set_fd_table (<[1%nat := 1]> (fd_table t)) t);;
  upd_task pthread (fun t => set_fd_table (<[2%nat := 2]> (fd_table t)) t);;
  fd_loop (MAX_FILES_OPEN_PER_PROC - 3) pthread 3;;
  upd_task pthread (set_stack_magic 0x19870916).

(** [self_kstack] points to [uint32_t]: subtracting a size moves it by four
    times that many bytes. *)
Definition thread_create (pthread function func_arg : Z) : K unit :=
  upd_task pthread (fun t => set_self_kstack (u32 (self_kstack t - 4 * sizeof_intr_stack)) t);;
  upd_task pthread (fun t => set_self_kstack (u32 (self_kstack t - 4 * sizeof_thread_stack)) t);;
  t ← get_task pthread;
  let kthread_stack := self_kstack t in
  on_mach (store32 (kthread_stack + ts_eip) (fn im "kernel_thread"));;
  on_mach (store32 (kthread_stack + ts_function) function);;
  on_mach (store32 (kthread_stack + ts_func_arg) func_arg);;
  on_mach (store32 (kthread_stack + ts_esi) 0);;
  on_mach (store32 (kthread_stack + ts_edi) 0);;
  on_mach (store32 (kthread_stack + ts_ebx) 0);;
  on_mach (store32 (kthread_stack + ts_ebp) 0).

Definition all_list : K (list Z) := kget (fun k => thread_all_list (kt k)).

(** The last statements of [thread_start] and [process_execute]. *)
Definition append_ready (thread : Z) : K unit :=
  rl ← ready_list;
  KASSERT (negb (in_list thread rl)) "!elem_find(&thread_ready_list, &thread->general_tag)";;
  ready_append thread.
Definition append_all (thread : Z) (msg : string) : K unit :=
  al ← all_list;
  KASSERT (negb (in_list thread al)) msg;;
  all_append thread.

Definition thread_start (name prio function func_arg : Z) : K Z :=
  thread ← on_vm (get_kernel_pages 1);
  init_thread thread name prio;;
  thread_create thread function func_arg;;
  irq_window;;
  append_ready thread;;
  irq_window;;
  append_all thread "!elem_find(&thread_all_list, &thread->all_list_tag)";;
  mret thread.

Definition make_main_thread : K unit :=
  main ← running_thread;
  upd_kt (set_main_thread main);;
  init_thread main (lit im "main") 31;;
  append_all main "!elem_find(&thread_all_list, &main_thread->all_list_tag)".

Definition thread_init : K unit :=
  on_mach (put_line "thread_init start");;
  upd_kt (set_ready []);;
  upd_kt (set_all []);;
  lock_init pid_lock;;
  make_main_thread;;
  idle ← thread_start (lit im "idle") 10 (fn im "idle") 0;
  upd_kt (set_idle_thread idle);;
  on_mach (put_line "thread_init done").
End spawn.

(** ** The calls with interrupts off

    Nobody holds [pid_lock] and interrupts are off: at boot, in a system
    call, in a critical section. *)
Record quiet (k : kst) : Prop := {
  qt_if : IF (km k) = false;
  qt_run : running (kt k) <> 0;
  qt_pid : lock_free pid_lock k
}.

(** The locks but [pid_lock] are as they were. *)
Definition same_locks : sync_st -> sync_st -> Prop := locks_but [pid_lock].

Lemma same_locks_trans s1 s2 s3 : same_locks s1 s2 -> same_locks s2 s3 -> same_locks s1 s3.
Proof. apply locks_but_same. Qed.

Lemma allocate_pid_quiet lk k :
  quiet k ->
  exists s, let p := i16 (next_pid (kt k) + 1) in
    allocate_pid (S lk) k = Done p (set_ks s (set_kt (set_next_pid p (kt k)) k)) /\
    lock_free pid_lock (set_ks s k) /\ same_locks (ks k) s.
Proof.
  intros [HI Hr Hf]. destruct (lock_acquire_free lk pid_lock k HI Hf Hr) as (s1 & Ha & Hl1 & Hs1 & Ho1).
  set (p := i16 (next_pid (kt k) + 1)).
  destruct (lock_release_free pid_lock (running (kt k)) (set_kt (set_next_pid p (kt k)) (set_ks s1 k))
    HI Hl1 eq_refl Hs1) as (s2 & Hrel & Hf2 & Ho2).
  exists s2. cbv zeta. split_and!; [|exact Hf2|].
  - unfold allocate_pid. rewrite (kbind_Done _ _ _ _ _ Ha).
    change (IF (km (set_ks s1 k)) = false) in HI. kwindow. kstep. kwindow.
    rewrite (kbind_Done (upd_kt _) _ _ tt (set_kt (set_next_pid p (kt k)) (set_ks s1 k)) eq_refl).
    cbv beta. rewrite (kbind_Done _ _ _ _ _ Hrel).
    assert (HI2 : IF (km (set_ks s2 (set_kt (set_next_pid p (kt k)) (set_ks s1 k)))) = false) by done.
    by kwindow.
  - by apply (same_locks_trans _ s1).
Qed.

Lemma read_str_spec fuel a s m :
  cstr (ram m) a s -> (length s < fuel)%nat -> read_str fuel a m = Ok (s, m).
Proof.
  revert a s. induction fuel as [|fuel IH]; intros a s Hs Hf; [lia|]. simpl. mstep.
  destruct s as [|c s].
  - simpl in Hs. by rewrite Hs, decide_True.
  - destruct Hs as (Hc & Hc0 & Hs). rewrite Hc, decide_False by done.
    rewrite (bind_Ok _ _ _ _ _ (IH _ s Hs ltac:(simpl in Hf; lia))). done.
Qed.

(** A PCB as [init_thread] leaves it. *)
Definition new_task (t p : Z) (st : task_status) (s : list Z) (prio : Z) : task_struct :=
  Task (u32 (t + PG_SIZE)) p st s (u8 prio) (u8 prio) 0 [0; 1; 2; -1; -1; -1; -1; -1] 0
    (VirtualAddr (Bitmap 0 0) 0) 0x19870916.

Lemma upd_task_then t f {A} (m : K A) k :
  (upd_task t f;; m) k = m (set_kt (upd_task_st t f (kt k)) k).
Proof. done. Qed.

Lemma upd_task_merge t f g {A} (m : K A) k :
  (upd_task t f;; (upd_task t g;; m)) k = (upd_task t (fun x => g (f x));; m) k.
Proof.
  rewrite !upd_task_then. f_equal. unfold set_kt. cbn [kt km kp tss_esp0 ks kmem kdev].
  by rewrite upd_task_twice.
Qed.

Lemma kt_upd_merge t f g th k :
  set_kt (upd_task_st t g (kt (set_kt (upd_task_st t f th) k))) (set_kt (upd_task_st t f th) k) =
  set_kt (upd_task_st t (fun x => g (f x)) th) k.
Proof. unfold set_kt. cbn [kt km kp tss_esp0 ks kmem kdev]. by rewrite upd_task_twice. Qed.

Lemma upd_task_run t f k : upd_task t f k = Done tt (set_kt (upd_task_st t f (kt k)) k).
Proof. done. Qed.

Lemma kbind_ext {A B} (m1 m2 : K A) (f : A -> K B) k :
  m1 k = m2 k -> (m1 ≫= f) k = (m2 ≫= f) k.
Proof. unfold mbind, K_bind. by intros ->. Qed.

Lemma fd_loop_then t {A} (m : K A) k :
  (fd_loop 5 t 3;; m) k =
  (upd_task t (fun x => set_fd_table (<[7%nat := -1]> (<[6%nat := -1]> (<[5%nat := -1]>
     (<[4%nat := -1]> (<[3%nat := -1]> (fd_table x)))))) x);; m) k.
Proof.
  transitivity ((upd_task t (fun x => set_fd_table (<[3%nat := -1]> (fd_table x)) x);;
    upd_task t (fun x => set_fd_table (<[4%nat := -1]> (fd_table x)) x);;
    upd_task t (fun x => set_fd_table (<[5%nat := -1]> (fd_table x)) x);;
    upd_task t (fun x => set_fd_table (<[6%nat := -1]> (fd_table x)) x);;
    upd_task t (fun x => set_fd_table (<[7%nat := -1]> (fd_table x)) x);; m) k); [done|].
  by rewrite !upd_task_merge.
Qed.

(** The state after a thread [t] got its first contents. *)
Definition after_init (t : Z) (T : task_struct) (p : Z) (sy : sync_st) (k : kst) : kst :=
  set_ks sy (set_kt (upd_task_st t (fun _ => T) (set_next_pid p (kt k)))
    (set_km (set_ram (ram_fill (ram (km k)) (u_block_descs t) 0 168) (km k)) k)).

Lemma init_thread_quiet lk sf t nm s prio k :
  quiet k -> t <> 0 -> nm <> 0 -> cstr (ram (km k)) nm s -> (length s < sf)%nat ->
  apart (u_block_descs t) 168 nm (Z.of_nat (length s) + 1) ->
  exists sy, let p := i16 (next_pid (kt k) + 1) in
    let st := if decide (t = main_thread (kt k)) then TASK_RUNING else TASK_READY in
    init_thread (S lk) sf t nm prio k = Done tt (after_init t (new_task t p st s prio) p sy k) /\
    lock_free pid_lock (set_ks sy k) /\ same_locks (ks k) sy.
Proof.
  intros [HI Hr Hf] Ht Hnm Hs Hsf Hap.
  set (k1 := set_kt (upd_task_st t (fun _ => task_zero) (kt k)) k).
  set (r1 := ram_fill (ram (km k)) (u_block_descs t) 0 168).
  set (k2 := set_km (set_ram r1 (km k1)) k1).
  assert (Hm : on_mach (memset_loop 168 (u_block_descs t) 0) k1 = Done tt k2).
  { unfold on_mach. by erewrite lift_Ok by apply memset_loop_eq. }
  destruct (allocate_pid_quiet lk k2) as (sy & Hp & Hf2 & Hlk); [by split|]. cbv zeta in Hp.
  exists sy. cbv zeta. split_and!; [|exact Hf2|exact Hlk].
  unfold init_thread. rewrite (bool_decide_true (t <> 0)), (bool_decide_true (nm <> 0)) by done.
  kstep. rewrite upd_task_then. fold k1.
  rewrite (kbind_Done _ _ _ _ _ Hm). cbv beta.
  rewrite (kbind_Done _ _ _ _ _ Hp). change (next_pid (kt k2)) with (next_pid (kt k)).
  set (p := i16 _). rewrite upd_task_then. kstep.
  assert (Hrd : forall k', ram (km k') = r1 -> on_mach (read_str sf nm) k' = Done s k').
  { intros k' Hk'. unfold on_mach. rewrite (lift_Ok km set_km _ _ s (km k')).
    - by destruct k'.
    - apply read_str_spec; [|done]. rewrite Hk'. eapply cstr_agree; [|exact Hs].
      intros a Ha. unfold r1. rewrite ld8_ram_fill, decide_False; [done|].
      unfold apart in Hap. lia. }
  lazymatch goal with |- _ ?x = _ => set (k3 := x) end.
  rewrite (kbind_Done _ _ _ _ _ (Hrd k3 eq_refl)). cbv beta. rewrite upd_task_then.
  set (k4 := set_kt (upd_task_st t (set_name s) (kt k3)) k3).
  rewrite (kbind_Done (kget (fun k => main_thread (kt k))) _ k4 (main_thread (kt k)) k4) by done.
  cbv beta. set (st := if decide (t = main_thread (kt k)) then TASK_RUNING else TASK_READY).
  assert (Hst : (if decide (t = main_thread (kt k)) then upd_task t (set_status TASK_RUNING)
    else upd_task t (set_status TASK_READY)) k4 = upd_task t (set_status st) k4).
  { unfold st. by case_decide. }
  rewrite (kbind_ext _ _ _ _ Hst), !upd_task_merge, upd_task_then.
  change (MAX_FILES_OPEN_PER_PROC - 3)%nat with 5%nat.
  rewrite fd_loop_then, upd_task_then. rewrite upd_task_run. unfold k4, k3.
  change (set_ks sy (set_kt (set_next_pid p (kt k2)) k2)) with
    (set_kt (upd_task_st t (fun _ => task_zero) (set_next_pid p (kt k)))
      (set_ks sy (set_km (set_ram r1 (km k)) k))).
  rewrite !kt_upd_merge. reflexivity.
Qed.

(** ** The stack of a new thread *)

(** Where [thread_create] leaves [self_kstack], in the PCB's page. *)
Definition kstack_of (t : Z) : Z := t + 3664.

Definition ram_stack (im : image) (r : gmap Z Z) (ks f a : Z) : gmap Z Z :=
  st32 (st32 (st32 (st32 (st32 (st32 (st32 r (ks + 16) (fn im "kernel_thread"))
    (ks + 24) f) (ks + 28) a) (ks + 12) 0) (ks + 8) 0) (ks + 4) 0) (ks + 0) 0.

Lemma ram_stack_agree (P : Z -> Prop) im r ks f a :
  (forall i, ks <= i < ks + 32 -> ~ P i) -> agree P r (ram_stack im r ks f a).
Proof.
  intros HP. unfold ram_stack.
  repeat (etransitivity; [|apply agree_st32; intros; apply HP; lia]). done.
Qed.

(** What [switch_to] pops when the thread runs for the first time. *)
Definition first_frame (im : image) (r : gmap Z Z) (ks f a : Z) : Prop :=
  ld32 r ks = 0 /\ ld32 r (ks + 4) = 0 /\ ld32 r (ks + 8) = 0 /\ ld32 r (ks + 12) = 0 /\
  ld32 r (ks + 16) = u32 (fn im "kernel_thread") /\ ld32 r (ks + 24) = u32 f /\
  ld32 r (ks + 28) = u32 a.

Lemma first_frame_ram im r ks f a : first_frame im (ram_stack im r ks f a) ks f a.
Proof.
  unfold first_frame, ram_stack. rewrite Z.add_0_r.
  split_and!; repeat first [rewrite ld32_st32_eq | rewrite ld32_st32_ne by lia]; done.
Qed.

Lemma first_frame_agree (P : Z -> Prop) im r r' ks f a :
  agree P r r' -> (forall i, ks <= i < ks + 32 -> P i) -> first_frame im r ks f a ->
  first_frame im r' ks f a.
Proof.
  intros Hag HP Hff. unfold first_frame in *.
  by repeat rewrite (agree_ld32 P r r') by (exact Hag || (intros; apply HP; lia)).
Qed.

Lemma thread_create_eq im t f a k :
  0 < t -> t + 4096 < 4294967296 -> self_kstack (task_at (kt k) t) = t + 4096 ->
  thread_create im t f a k =
  Done tt (set_kt (upd_task_st t (set_self_kstack (kstack_of t)) (kt k))
             (set_km (set_ram (ram_stack im (ram (km k)) (kstack_of t) f a) (km k)) k)).
Proof.
  intros Ht0 Ht1 Hs. unfold thread_create. rewrite upd_task_merge, upd_task_then.
  set (k1 := set_kt _ k).
  assert (Hk1 : k1 = set_kt (upd_task_st t (set_self_kstack (kstack_of t)) (kt k)) k).
  { unfold k1, upd_task_st, set_self_kstack, kstack_of, sizeof_intr_stack, sizeof_thread_stack.
    cbn [self_kstack pid status name priority ticks elapsed_ticks fd_table pgdir userprog_vaddr
      stack_magic]. rewrite Hs, (u32_id (t + 4096 - 4 * 76)), u32_id by lia.
    replace (t + 4096 - 4 * 76 - 4 * 32) with (t + 3664) by lia. done. }
  rewrite Hk1. set (k2 := set_kt _ k).
  assert (Hg : exists T, get_task t k2 = Done T k2 /\ self_kstack T = kstack_of t).
  { eexists. split; [reflexivity|]. unfold k2, task_at, upd_task_st. cbn [kt set_kt tasks set_tasks].
    by rewrite lookup_insert_eq. }
  destruct Hg as (T & Hg & HT). rewrite (kbind_Done _ _ _ _ _ Hg). cbv zeta. rewrite HT.
  unfold ts_eip, ts_function, ts_func_arg, ts_esi, ts_edi, ts_ebx, ts_ebp.
  do 6 rewrite (kbind_Done _ _ _ _ _ (on_mach_store32 _ _ _)).
  rewrite on_mach_store32, !kwith_ram_twice. done.
Qed.

(** ** Kernel pages *)

(** The state after [get_kernel_pages] of [n] pages from page [i] on. *)
Record got_pages (s s' : vm) (i n : Z) : Prop := {
  gp_range : 0 <= i /\ i + n <= npages s;
  gp_inv : kernel_pages s';
  gp_mem : vmem s' = vmem s;
  gp_cur : vcur s' = vcur s;
  gp_pde : forall u, vaddr_ok u -> pde (vpg s') u = pde (vpg s) u;
  gp_room : forall m, 0 <= m -> kernel_room s (n + m) -> kernel_room s' m;
  gp_mach : vmach s' = set_ram (ram (vmach s')) (vmach s);
  gp_free : forall j, i <= j < i + n -> vbit s j = false;
  gp_used : forall j, 0 <= j < npages s ->
    vbit s' j = if decide (i <= j < i + n) then true else vbit s j;
  gp_ram : agree (fun a => ~ bitmap_bytes s a /\ ~ within (page_addr s i) (4096 * n) a)
    (ram (vmach s)) (ram (vmach s'));
  gp_zero : forall a, within (page_addr s i) (4096 * n) a -> ld8 (ram (vmach s')) a = 0
}.

Lemma get_kernel_pages_ok s n :
  kernel_pages s -> 0 < n < 3840 -> kernel_room s n ->
  exists i s', get_kernel_pages n s = Ok (page_addr s i, s') /\ got_pages s s' i n.
Proof.
  intros Hs Hn Hroom.
  destruct (@pa_malloc PF_KERNEL kernel_PageAlloc s n Hs Hn Hroom)
    as (i & s1 & Hm & Hi & Hie & Hs1 & [A1 A2 _ Apd A3 A4] & Hfree & Hused).
  cbn [pa_inv pa_base pa_pages pa_used pa_private kernel_PageAlloc] in *.
  replace (page_addr s 0 + 4096 * i) with (page_addr s i) in Hm by (unfold page_addr; lia).
  destruct (kh_pages _ _ (kp_heap _ Hs)) as (Hp0 & _ & Hpe).
  assert (Hpa : 0 < page_addr s i) by (unfold page_addr in *; lia).
  set (r2 := ram_fill (ram (vmach s1)) (page_addr s i) 0 (Z.to_nat (4096 * n))).
  destruct (@pa_static PF_KERNEL kernel_PageAlloc s s1 A1 A2) as (Eb & Ep & Epriv).
  cbn [pa_base pa_pages pa_private kernel_PageAlloc] in Eb, Ep, Epriv.
  assert (Hag : agree (bitmap_bytes s1) (ram (vmach s1)) r2).
  { intros a Ha. unfold r2. rewrite ld8_ram_fill, decide_False; [done|].
    pose proof (kp_bitmaps _ Hs1 a Ha) as Hb. rewrite Ep in Hb.
    unfold page_addr in *. rewrite A1 in Hb. lia. }
  destruct (@pa_outside PF_KERNEL kernel_PageAlloc s1 r2 Hs1 Hag) as (Hs2 & Hu2 & Hr2).
  cbn [pa_inv pa_pages pa_used pa_room kernel_PageAlloc] in Hs2, Hu2, Hr2.
  exists i, (PageHeap.with_ram r2 s1). split.
  - unfold get_kernel_pages. rewrite (bind_Ok _ _ _ _ _ Hm). cbv beta.
    unfold zero_pages. rewrite decide_True by lia. unfold PG_SIZE. rewrite u32_id by lia.
    rewrite (Z.mul_comm n 4096).
    assert (Hms : on_m (memset (page_addr s i) 0 (4096 * n)) s1 = Ok (tt, PageHeap.with_ram r2 s1)).
    { unfold PageHeap.with_ram. rewrite (on_m_Ok _ s1 tt (set_ram r2 (vmach s1))); [done|].
      apply memset_eq. lia. }
    by rewrite (bind_Ok _ _ _ _ _ Hms).
  - split; try done.
    + intros m Hm0 Hnm. apply Hr2. apply (kernel_room_left s n m i s1 Hs Hn Hm0 Hnm).
      rewrite Hm. apply Ok_val. unfold page_addr. lia.
    + cbn [vmach PageHeap.with_ram set_vmach]. rewrite A3. done.
    + intros j Hj. rewrite Hu2 by lia. by apply Hused.
    + apply (agree_trans _ _ (ram (vmach s1))).
      * eapply agree_weaken; [|exact A4]. cbv beta. tauto.
      * intros a [_ Ha]. cbn [vmach PageHeap.with_ram set_vmach ram set_ram]. unfold r2.
        rewrite ld8_ram_fill, decide_False; [done|]. unfold within in Ha. lia.
    + intros a Ha. cbn [vmach PageHeap.with_ram set_vmach ram set_ram]. unfold r2.
      rewrite ld8_ram_fill, decide_True; [done|]. unfold within in Ha. lia.
Qed.
