(* ===== verification/SpawnLogic.v ===== *)
(** * Creating kernel threads: [thread_start] and [thread_init]

    The promises of [thread_start] and [thread_init] of [thread/thread.c]: new
    threads in the scheduler's lists, their PCBs in pages of the kernel's
    heap, the invariants of both. *)
From S2P Require Import Prelude Machine Str Bitmap Paging Kernel Thread Timer Sync SyncLogic Console.
From S2P Require Import Threads Memory PageHeap PageAlloc Arena Interrupt Spawn.

(** ** Threads and their pages *)

(** Threads live in allocated pages: no PCB lies in a page that is free. *)
Definition pcbs_allocated (k : kst) : Prop :=
  (forall i, 0 <= i < npages (vm_of k) -> vbit (vm_of k) i = false ->
     tasks (kt k) !! page_addr (vm_of k) i = None /\ main_thread (kt k) <> page_addr (vm_of k) i) /\
  (forall t, t ∈ thread_all_list (kt k) -> is_Some (tasks (kt k) !! t)).

(** A string that is neither in the pages of the heap nor in its bitmaps. *)
Definition outside_heap (s : vm) (a n : Z) : Prop :=
  forall b, within a n b -> ~ bitmap_bytes s b /\ ~ page_addr s 0 <= b < page_addr s (npages s).

(** A new thread [t] with PCB [T], ready and last in both lists. *)
Definition enlist (t : Z) (T : task_struct) (th : thread_st) : thread_st :=
  set_all (thread_all_list th ++ [t])
    (set_ready (thread_ready_list th ++ [t]) (upd_task_st t (fun _ => T) th)).

(** The scheduler's invariant before there is an idle thread. *)
Record lists_ok (th : thread_st) : Prop := {
  lo_nodup : NoDup (thread_ready_list th);
  lo_ready : forall t, t ∈ thread_ready_list th <-> status_of th t = Some TASK_READY;
  lo_run : forall t, status_of th t = Some TASK_RUNING -> t = running th;
  lo_cur : status_of th (running th) = Some TASK_RUNING;
  lo_null : tasks th !! 0 = None
}.

Definition idle_ok (th : thread_st) : Prop :=
  is_Some (tasks th !! idle_thread th) /\ status_of th (idle_thread th) <> Some TASK_DIED.

Lemma lists_cur th : lists_ok th -> is_Some (tasks th !! running th).
Proof. intros [_ _ _ H _]. unfold status_of in H. destruct (tasks th !! running th); [by eexists|done]. Qed.

Lemma sched_lists th : sched_inv th <-> lists_ok th /\ idle_ok th.
Proof.
  split.
  - intros [[H1 H2 H3 H4 H5 H6] H7]. by split.
  - intros [[H1 H2 H3 H4 H5] H6]. split; [|exact H4]. split; try done. by apply lists_cur.
Qed.

Lemma enlist_status t T th u : status T = TASK_READY ->
  status_of (enlist t T th) u = if decide (u = t) then Some TASK_READY else status_of th u.
Proof.
  intros HT. change (status_of (enlist t T th) u) with (status_of (upd_task_st t (fun _ => T) th) u).
  rewrite status_of_upd. by rewrite HT.
Qed.

Lemma enlist_lists t T th :
  lists_ok th -> tasks th !! t = None -> t <> 0 -> status T = TASK_READY -> lists_ok (enlist t T th).
Proof.
  intros [Hnd Hrd Hrun Hcur Hnull] Ht Ht0 HT.
  assert (Hnt : status_of th t = None) by (unfold status_of; by rewrite Ht).
  pose proof (fun u => enlist_status t T th u HT) as Hs.
  split; cbn [enlist thread_ready_list tasks running set_all set_ready upd_task_st set_tasks].
  - apply NoDup_app. split_and!; [done| |apply NoDup_singleton].
    intros x Hx ->%list_elem_of_singleton. apply Hrd in Hx. congruence.
  - intros u. rewrite Hs, elem_of_app, list_elem_of_singleton, Hrd. case_decide; naive_solver.
  - intros u. rewrite Hs. case_decide; [done|apply Hrun].
  - rewrite Hs, decide_False; [done|]. intros E. rewrite E in Hcur. congruence.
  - by rewrite lookup_insert_ne by congruence.
Qed.

Lemma enlist_idle t T th :
  idle_ok th -> tasks th !! t = None -> status T = TASK_READY -> idle_ok (enlist t T th).
Proof.
  intros [H1 H2] Ht HT. unfold idle_ok. rewrite enlist_status by done.
  cbn [enlist tasks idle_thread set_all set_ready upd_task_st set_tasks].
  split; [rewrite lookup_insert_is_Some'; by right|by case_decide].
Qed.

Lemma append_ready_eq t k :
  t ∉ thread_ready_list (kt k) ->
  append_ready t k = Done tt (set_kt (set_ready (thread_ready_list (kt k) ++ [t]) (kt k)) k).
Proof.
  intros Hr. unfold append_ready, ready_list, in_list. kstep. by rewrite bool_decide_false.
Qed.

Lemma append_all_eq t msg k :
  t ∉ thread_all_list (kt k) ->
  append_all t msg k = Done tt (set_kt (set_all (thread_all_list (kt k) ++ [t]) (kt k)) k).
Proof.
  intros Hr. unfold append_all, all_list, in_list. kstep. by rewrite bool_decide_false.
Qed.

(** Both appends, for a thread whose PCB is in place. *)
Lemma enlist_id t T th : tasks th !! t = Some T ->
  set_all (thread_all_list th ++ [t]) (set_ready (thread_ready_list th ++ [t]) th) = enlist t T th.
Proof.
  intros HT. unfold enlist, upd_task_st. destruct th as [ts ru rl al mt it np].
  unfold set_all, set_ready, set_tasks. simpl in *. f_equal. by rewrite insert_id.
Qed.

(** The kernel's pages after a call that got some: the state [k] with the
    memory, tables and pools of [s]. *)
Lemma on_vm_pages n k s i :
  get_kernel_pages n (vm_of k) = Ok (page_addr (vm_of k) i, s) -> vcur s = vcur (vm_of k) ->
  is_Some (tasks (kt k) !! running (kt k)) ->
  on_vm (get_kernel_pages n) k =
  Done (page_addr (vm_of k) i) (set_kmem (vmem s) (set_kp (vpg s) (set_km (vmach s) k))).
Proof.
  intros Hg Hc [T HT]. unfold on_vm. rewrite (lift_Ok _ _ _ _ _ _ Hg). f_equal.
  unfold vm_put, upd_task_st. rewrite Hc. cbn [vm_of vcur].
  unfold task_at. rewrite HT. cbn [default from_option id]. rewrite insert_id by done.
  destruct k as [m pg e0 th sy me dv]. by destruct th.
Qed.

(** ** Pages *)

Lemma same_mem_views s s' : vmem s' = vmem s ->
  npages s' = npages s /\ (forall i, page_addr s' i = page_addr s i) /\
  (forall a, bitmap_bytes s' a <-> bitmap_bytes s a).
Proof. intros E. unfold npages, page_addr, bitmap_bytes, kbm, vbm. by rewrite E. Qed.

(** Bytes of heap pages are not the allocator's. *)
Lemma kernel_pages_ram s r :
  kernel_pages s ->
  agree (fun a => ~ page_addr s 0 <= a < page_addr s (npages s)) (ram (vmach s)) r ->
  kernel_pages (PageHeap.with_ram r s) /\
  (forall i, 0 <= i < npages s -> vbit (PageHeap.with_ram r s) i = vbit s i) /\
  (forall n, kernel_room s n -> kernel_room (PageHeap.with_ram r s) n).
Proof.
  intros Hs Hag. apply (@pa_outside PF_KERNEL kernel_PageAlloc s r Hs).
  eapply agree_weaken; [|exact Hag]. intros a Ha. by apply (kp_bitmaps s Hs).
Qed.

Lemma run_in_heap s i n a : kernel_pages s -> 0 <= i -> 0 <= n -> i + n <= npages s ->
  within (page_addr s i) (4096 * n) a -> page_addr s 0 <= a < page_addr s (npages s).
Proof. intros Hs. unfold within, page_addr. lia. Qed.

(** What [thread_start] needs: interrupts off, a page, a name outside the
    heap. *)
Record can_spawn (k : kst) (nm : Z) (s : list Z) (sf : nat) : Prop := {
  cs_quiet : quiet k;
  cs_sched : lists_ok (kt k);
  cs_pages : kernel_pages (vm_of k);
  cs_room : kernel_room (vm_of k) 1;
  cs_pcbs : pcbs_allocated k;
  cs_null : nm <> 0;
  cs_name : cstr (ram (km k)) nm s;
  cs_fuel : (length s < sf)%nat;
  cs_len : (length s <= 15)%nat;
  cs_out : outside_heap (vm_of k) nm (Z.of_nat (length s) + 1)
}.

Lemma page_in_heap s i : kernel_pages s -> 0 <= i < npages s ->
  0 < page_addr s i /\ page_addr s i + 4096 <= 0xffc00000 /\
  page_addr s 0 <= page_addr s i /\ page_addr s i + 4096 <= page_addr s (npages s).
Proof.
  intros Hs Hi. destruct (kh_pages _ _ (kp_heap _ Hs)) as (H0 & _ & H1).
  unfold page_addr in *. lia.
Qed.

(** The kernel after the page of a new PCB has been taken. *)
Definition paged (s : vm) (k : kst) : kst :=
  set_kmem (vmem s) (set_kp (vpg s) (set_km (vmach s) k)).

(** A page [t] that becomes a PCB: no thread's yet, in the kernel's space. *)
Record new_pcb (k : kst) (t : Z) : Prop := {
  np_new : tasks (kt k) !! t = None;
  np_main : main_thread (kt k) <> t;
  np_ready : t ∉ thread_ready_list (kt k);
  np_all : t ∉ thread_all_list (kt k);
  np_range : 0 < t /\ t + PG_SIZE <= 0xffc00000
}.

Lemma free_page_pcb k i :
  lists_ok (kt k) -> kernel_pages (vm_of k) -> pcbs_allocated k ->
  0 <= i < npages (vm_of k) -> vbit (vm_of k) i = false -> new_pcb k (page_addr (vm_of k) i).
Proof.
  intros Hok Hkp [Hpcb Hall] Hi Hfree. destruct (Hpcb i Hi Hfree) as [Hnew Hmain].
  destruct (page_in_heap _ i Hkp Hi) as (Ht0 & Ht1 & _). split; [done|done|..|by unfold PG_SIZE].
  - rewrite (lo_ready _ Hok). unfold status_of. by rewrite Hnew.
  - intros Hin. destruct (Hall _ Hin). congruence.
Qed.

(** The first two steps of creating a thread: its page, its PCB. *)
Lemma pcb_made lk sf nm s prio k :
  can_spawn k nm s sf ->
  exists i s1 sy, let t := page_addr (vm_of k) i in let k1 := paged s1 k in
    let p := i16 (next_pid (kt k) + 1) in
    got_pages (vm_of k) s1 i 1 /\ new_pcb k t /\
    on_vm (get_kernel_pages 1) k = Done t k1 /\
    init_thread (S lk) sf t nm prio k1 = Done tt (after_init t (new_task t p TASK_READY s prio) p sy k1) /\
    lock_free pid_lock (set_ks sy k1) /\ same_locks (ks k) sy /\ IF (km k1) = false.
Proof.
  intros [[HI Hr Hf] Hsc Hkp Hroom Hpcb Hn0 Hnm Hsf Hlen Hout]. cbv zeta.
  destruct (get_kernel_pages_ok (vm_of k) 1 Hkp ltac:(lia) Hroom) as (i & s1 & Hg & Hgot).
  pose proof Hgot as [Hi Hinv Em Ec _ _ Eh Hfree Hused Hram Hz].
  assert (Hnp : new_pcb k (page_addr (vm_of k) i)) by (apply free_page_pcb; [done|done|done|lia|apply Hfree; lia]).
  pose proof Hnp as [_ Hmain _ _ [Ht0 Ht1]].
  destruct (page_in_heap _ i Hkp ltac:(lia)) as (_ & _ & Hlo & Hhi).
  set (t := page_addr (vm_of k) i) in *. set (k1 := paged s1 k).
  assert (HI1 : IF (km k1) = false) by (unfold k1, paged; cbn [km set_kmem set_kp set_km]; by rewrite Eh).
  assert (Hstr : cstr (ram (km k1)) nm s).
  { eapply cstr_agree; [|exact Hnm]. eapply agree_weaken; [|exact Hram]. cbv beta. intros b Hb.
    destruct (Hout b) as [H1 H2]; [unfold within; lia|]. split; [done|].
    unfold within. fold t. lia. }
  destruct (init_thread_quiet lk sf t nm s prio k1) as (sy & Hit & Hf2 & Hlk); [by split|lia|done|done|done| |].
  { unfold apart, u_block_descs. destruct (decide (t + 268 <= nm)); [left; lia|right].
    destruct (decide (nm + (Z.of_nat (length s) + 1) <= t + 100)); [done|].
    destruct (Hout (Z.max nm (t + 100))) as [_ H2]; [unfold within; lia|]. exfalso. apply H2. lia. }
  cbv zeta in Hit. rewrite decide_False in Hit by (intros E; by apply Hmain).
  change (next_pid (kt k1)) with (next_pid (kt k)) in Hit.
  exists i, s1, sy. split_and!; try done. apply on_vm_pages; [done|done|by apply lists_cur].
Qed.

(** ** A PCB under construction *)

Section built.
Context (k : kst) (t p : Z) (sy : sync_st).
Context (Hrun : is_Some (tasks (kt k) !! running (kt k))) (Hne : running (kt k) <> t).

(** The kernel [k] with the memory, tables and pools of [s], the PCB [T] at
    [t], the process number [p] given out, the locks [sy]. *)
Definition built (s : vm) (T : task_struct) : kst :=
  set_ks sy (set_kt (upd_task_st t (fun _ => T) (set_next_pid p (kt k))) (paged s k)).

Definition same_cur (s : vm) : Prop := vcur s = vcur (vm_of k).

Lemma built_vm s T : same_cur s -> vm_of (built s T) = s.
Proof.
  intros Hc. unfold vm_of, built, same_cur in *. cbn [km kp kmem kt set_ks set_kt paged set_kmem set_kp set_km].
  assert (E : task_at (upd_task_st t (fun _ => T) (set_next_pid p (kt k))) (running (kt k)) = vcur s).
  { rewrite Hc. unfold task_at, upd_task_st. cbn [tasks set_tasks set_next_pid].
    by rewrite lookup_insert_ne by done. }
  cbn [running upd_task_st set_tasks set_next_pid]. rewrite E. by destruct s.
Qed.

Lemma built_upd f s T : upd_task t f (built s T) = Done tt (built s (f T)).
Proof.
  rewrite upd_task_run. unfold built. cbn [kt set_ks set_kt paged set_kmem set_kp set_km].
  by rewrite upd_task_twice.
Qed.

Lemma built_get s T : get_task t (built s T) = Done T (built s T).
Proof.
  unfold get_task, kget, built, task_at, upd_task_st. cbn [kt set_ks set_kt tasks set_tasks].
  by rewrite lookup_insert_eq.
Qed.

Lemma built_mach m r s T :
  m (vmach s) = Ok (tt, set_ram r (vmach s)) ->
  on_mach m (built s T) = Done tt (built (PageHeap.with_ram r s) T).
Proof. intros Hm. unfold on_mach. by erewrite lift_Ok by exact Hm. Qed.

Lemma built_step g F s T :
  set_kt (upd_task_st t g (kt (built s T)))
    (set_km (set_ram (F (ram (km (built s T)))) (km (built s T))) (built s T)) =
  built (PageHeap.with_ram (F (ram (vmach s))) s) (g T).
Proof.
  unfold built. cbn [kt set_ks set_kt km set_km paged set_kmem set_kp]. by rewrite upd_task_twice.
Qed.

Lemma built_on_vm {A} (m : M vm A) a s s' T :
  same_cur s -> m s = Ok (a, s') -> vcur s' = vcur s ->
  on_vm m (built s T) = Done a (built s' T).
Proof.
  intros Hc Hm Hc'. unfold on_vm. erewrite lift_Ok by (rewrite built_vm by done; exact Hm).
  f_equal. destruct Hrun as [T0 HT0].
  assert (Ei : <[running (kt k) := vcur s']> (<[t := T]> (tasks (kt k))) = <[t := T]> (tasks (kt k))).
  { apply insert_id. rewrite lookup_insert_ne by done. rewrite HT0. f_equal. rewrite Hc', Hc.
    cbn. unfold task_at. by rewrite HT0. }
  unfold vm_put, built, paged, upd_task_st, set_tasks, set_kt. cbn. by rewrite Ei.
Qed.

End built.

(** ** The steps of creation *)

(** The memory after [init_thread] and after [thread_create]. *)
Definition vm_pcb (t : Z) (s1 : vm) : vm :=
  PageHeap.with_ram (ram_fill (ram (vmach s1)) (u_block_descs t) 0 168) s1.
Definition vm_stack (im : image) (t fn_ a : Z) (r3 : gmap Z Z) (s3 : vm) : vm :=
  PageHeap.with_ram (ram_stack im r3 (kstack_of t) fn_ a) s3.

(** A memory that differs from that of [s0] in pages of the heap, its pools
    the same. *)
Record heap_variant (s0 s' : vm) : Prop := {
  hv_mem : vmem s' = vmem s0;
  hv_pages : kernel_pages s'
}.

Lemma variant_views s0 s' : heap_variant s0 s' ->
  npages s' = npages s0 /\ (forall i, page_addr s' i = page_addr s0 i) /\
  (forall a, bitmap_bytes s' a <-> bitmap_bytes s0 a).
Proof. intros H. by apply same_mem_views, (hv_mem _ _ H). Qed.

Lemma got_variant s0 s1 s' i n : heap_variant s0 s1 -> got_pages s1 s' i n -> heap_variant s0 s'.
Proof.
  intros H G. split; [|apply (gp_inv _ _ _ _ G)]. rewrite (gp_mem _ _ _ _ G). apply (hv_mem _ _ H).
Qed.

(** Writing into a page of the heap. *)
Lemma variant_write s0 s' r i n :
  kernel_pages s0 -> heap_variant s0 s' -> 0 <= i -> 0 <= n -> i + n <= npages s0 ->
  agree (fun a => ~ within (page_addr s0 i) (4096 * n) a) (ram (vmach s')) r ->
  heap_variant s0 (PageHeap.with_ram r s') /\
  (forall x, 0 <= x < npages s0 -> vbit (PageHeap.with_ram r s') x = vbit s' x) /\
  (forall m, kernel_room s' m -> kernel_room (PageHeap.with_ram r s') m).
Proof.
  intros H0 H Hi Hn Hin Hag. destruct (variant_views _ _ H) as (En & Ea & _).
  destruct (kernel_pages_ram s' r (hv_pages _ _ H)) as (H1 & H2 & H3).
  - eapply agree_weaken; [|exact Hag]. cbv beta. rewrite En, !Ea. intros a Ha Hx. apply Ha.
    by apply (run_in_heap s0 i n).
  - rewrite En in H2. split; [|done]. split; [apply (hv_mem _ _ H)|exact H1].
Qed.

Lemma vm_pcb_agree t s1 : agree (fun a => ~ within t 4096 a) (ram (vmach s1)) (ram (vmach (vm_pcb t s1))).
Proof.
  intros a Ha. cbn [vmach vm_pcb PageHeap.with_ram set_vmach ram set_ram].
  rewrite ld8_ram_fill, decide_False; [done|]. unfold within, u_block_descs in *. lia.
Qed.

Lemma ram_stack_page im t f a r : agree (fun x => ~ within t 4096 x) r (ram_stack im r (kstack_of t) f a).
Proof. apply ram_stack_agree. unfold within, kstack_of. intros; lia. Qed.

Section creation.
Context (im : image) (k : kst).

(** The PCB's page, cleared but for its block descriptors. *)
Lemma vm_pcb_ok i s1 : kernel_pages (vm_of k) -> got_pages (vm_of k) s1 i 1 ->
  let t := page_addr (vm_of k) i in
  heap_variant (vm_of k) (vm_pcb t s1) /\
  (forall x, 0 <= x < npages (vm_of k) -> vbit (vm_pcb t s1) x = vbit s1 x) /\
  (forall n, kernel_room s1 n -> kernel_room (vm_pcb t s1) n).
Proof.
  intros Hs Hg t. pose proof (gp_range _ _ _ _ Hg). apply (variant_write _ _ _ i 1); [done| |lia..|].
  - eapply got_variant; [|exact Hg]. by split.
  - replace (4096 * 1) with 4096 by lia. apply vm_pcb_agree.
Qed.

Lemma vm_stack_ok i s3 r3 f a : kernel_pages (vm_of k) -> 0 <= i < npages (vm_of k) ->
  heap_variant (vm_of k) (PageHeap.with_ram r3 s3) ->
  let t := page_addr (vm_of k) i in
  heap_variant (vm_of k) (vm_stack im t f a r3 s3) /\
  (forall x, 0 <= x < npages (vm_of k) ->
     vbit (vm_stack im t f a r3 s3) x = vbit (PageHeap.with_ram r3 s3) x) /\
  (forall n, kernel_room (PageHeap.with_ram r3 s3) n -> kernel_room (vm_stack im t f a r3 s3) n).
Proof.
  intros Hs Hi Hv t. apply (variant_write _ (PageHeap.with_ram r3 s3) _ i 1); [done|done|lia..|].
  replace (4096 * 1) with 4096 by lia. apply ram_stack_page.
Qed.

(** [thread_create] on the PCB under construction. *)
Lemma stack_built t p sy f a r3 s3 T :
  0 < t -> t + PG_SIZE <= 0xffc00000 -> self_kstack T = t + 4096 ->
  thread_create im t f a (built k t p sy (PageHeap.with_ram r3 s3) T) =
  Done tt (built k t p sy (vm_stack im t f a r3 s3) (set_self_kstack (kstack_of t) T)).
Proof.
  intros H0 H1 HT. unfold PG_SIZE in H1. rewrite thread_create_eq; [|done|lia|].
  - f_equal. exact (built_step k t p sy (set_self_kstack (kstack_of t))
      (fun r => ram_stack im r (kstack_of t) f a) (PageHeap.with_ram r3 s3) T).
  - unfold built, task_at, upd_task_st. cbn [kt set_ks set_kt tasks set_tasks].
    by rewrite lookup_insert_eq.
Qed.

(** The PCBs stay out of free pages. *)
Lemma pcbs_enlisted t T p k' i :
  t = page_addr (vm_of k) i -> pcbs_allocated k -> heap_variant (vm_of k) (vm_of k') ->
  (forall x, 0 <= x < npages (vm_of k) -> vbit (vm_of k') x = false -> vbit (vm_of k) x = false /\ x <> i) ->
  kt k' = enlist t T (set_next_pid p (kt k)) -> pcbs_allocated k'.
Proof.
  intros Et [H1 H2] Hv Hfree Ek. destruct (variant_views _ _ Hv) as (En & Ea & _). split.
  - intros x Hx Hb. rewrite En in Hx. destruct (Hfree x Hx Hb) as [Hb0 Hne].
    destruct (H1 x Hx Hb0) as [G1 G2]. rewrite Ea, Ek. split; [|exact G2].
    cbn [enlist tasks set_all set_ready upd_task_st set_tasks set_next_pid].
    rewrite lookup_insert_ne; [exact G1|]. rewrite Et. unfold page_addr. lia.
  - intros u. rewrite Ek. cbn [enlist thread_all_list set_all tasks set_ready upd_task_st set_tasks set_next_pid].
    rewrite elem_of_app, list_elem_of_singleton, lookup_insert_is_Some'. intros [Hu| ->]; [|by left].
    right. by apply H2.
Qed.
End creation.

(** What creating a thread leaves of the memory. *)
Lemma spawn_memory im k i s1 f a :
  got_pages (vm_of k) s1 i 1 -> let t := page_addr (vm_of k) i in
  agree (fun b => ~ bitmap_bytes (vm_of k) b /\ ~ within t PG_SIZE b) (ram (km k))
    (ram_stack im (ram_fill (ram (vmach s1)) (u_block_descs t) 0 168) (kstack_of t) f a).
Proof.
  intros [_ _ _ _ _ _ _ _ _ Hram _]. cbv zeta. set (t := page_addr _ _) in *.
  apply (agree_trans _ _ (ram_fill (ram (vmach s1)) (u_block_descs t) 0 168)).
  - apply (agree_trans _ _ (ram (vmach s1))).
    + eapply agree_weaken; [|exact Hram]. cbv beta. unfold within, PG_SIZE.
      intros b [Hb1 Hb2]. split; [done|lia].
    + intros b [_ Hb]. rewrite ld8_ram_fill, decide_False; [done|].
      unfold within, u_block_descs, PG_SIZE in *. lia.
  - apply ram_stack_agree. unfold within, kstack_of, PG_SIZE. intros; lia.
Qed.

(** ** [thread_start] *)

(** What it promises: a new READY thread at the end of both lists, with a
    fresh process number, whose first frame enters [kernel_thread] with the
    function and its argument; the heap's invariant, one page used. *)
Record spawned (im : image) (k : kst) (t : Z) (k' : kst) (prio : Z) (s : list Z) (f a : Z) : Prop := {
  sp_new : tasks (kt k) !! t = None;
  sp_threads : kt k' = enlist t (set_self_kstack (kstack_of t)
      (new_task t (i16 (next_pid (kt k) + 1)) TASK_READY s prio))
    (set_next_pid (i16 (next_pid (kt k) + 1)) (kt k));
  sp_lists : lists_ok (kt k');
  sp_sched : sched_inv (kt k) -> sched_inv (kt k');
  sp_quiet : quiet k';
  sp_locks : same_locks (ks k) (ks k');
  sp_heap : heap_variant (vm_of k) (vm_of k');
  sp_pde : forall u, vaddr_ok u -> pde (kp k') u = pde (kp k) u;
  sp_room : forall m, 0 <= m -> kernel_room (vm_of k) (1 + m) -> kernel_room (vm_of k') m;
  sp_pcbs : pcbs_allocated k';
  sp_page : exists i, 0 <= i < npages (vm_of k) /\ t = page_addr (vm_of k) i;
  sp_frame : first_frame im (ram (km k')) (kstack_of t) f a;
  sp_stack : t + sizeof_task_struct <= kstack_of t /\
    kstack_of t + sizeof_thread_stack + sizeof_intr_stack <= t + PG_SIZE;
  sp_memory : agree (fun b => ~ bitmap_bytes (vm_of k) b /\ ~ within t PG_SIZE b)
    (ram (km k)) (ram (km k'));
  sp_io : ports (km k') = ports (km k) /\ kdev k' = kdev k
}.

Section start.
Context (im : image) (lk sf : nat) (nm prio f a : Z) (s : list Z) (k : kst).
Let p : Z := i16 (next_pid (kt k) + 1).

(** The state [thread_start] leaves, for the page [i]. *)
Definition start_vm (t : Z) (s1 : vm) : vm :=
  vm_stack im t f a (ram_fill (ram (vmach s1)) (u_block_descs t) 0 168) s1.
Definition start_task (t : Z) : task_struct :=
  set_self_kstack (kstack_of t) (new_task t p TASK_READY s prio).

Lemma thread_start_run :
  can_spawn k nm s sf ->
  exists i s1 sy, let t := page_addr (vm_of k) i in
    got_pages (vm_of k) s1 i 1 /\ new_pcb k t /\ lock_free pid_lock (set_ks sy k) /\
    same_locks (ks k) sy /\ IF (vmach s1) = false /\
    thread_start im (S lk) sf nm prio f a k =
      Done t (set_kt (enlist t (start_task t) (set_next_pid p (kt k)))
        (built k t p sy (start_vm t s1) (start_task t))).
Proof.
  intros Hc. destruct (pcb_made lk sf nm s prio k Hc) as (i & s1 & sy & Hgot & Hnp & Hg & Hit & Hf2 & Hlk & HI1).
  cbv zeta in *. set (t := page_addr (vm_of k) i) in *. pose proof Hnp as [Hnew _ Hnr Hna [Ht0 Ht1]].
  exists i, s1, sy. cbv zeta. fold t. split; [done|]. split; [done|]. split; [done|].
  split; [done|]. split; [exact HI1|].
  set (k3 := built k t p sy (start_vm t s1) (start_task t)).
  assert (HI3 : IF (km k3) = false) by exact HI1.
  assert (HT : tasks (kt k3) !! t = Some (start_task t)).
  { unfold k3, built, upd_task_st. cbn [kt set_ks set_kt tasks set_tasks]. apply lookup_insert_eq. }
  assert (Hcr : thread_create im t f a (built k t p sy (vm_pcb t s1) (new_task t p TASK_READY s prio)) = Done tt k3).
  { apply stack_built; [done|done|]. unfold new_task, PG_SIZE in *. cbn [self_kstack]. rewrite u32_id; lia. }
  unfold thread_start. rewrite (kbind_Done _ _ _ _ _ Hg). cbv beta.
  rewrite (kbind_Done _ _ _ _ _ Hit). cbv beta.
  change (after_init t (new_task t (i16 (next_pid (kt k) + 1)) TASK_READY s prio) (i16 (next_pid (kt k) + 1)) sy (paged s1 k))
    with (built k t p sy (vm_pcb t s1) (new_task t p TASK_READY s prio)).
  rewrite (kbind_Done _ _ _ _ _ Hcr). kwindow.
  rewrite (kbind_Done _ _ _ _ _ (append_ready_eq t k3 Hnr)). kwindow.
  erewrite (kbind_Done _ _ _ tt) by (by apply append_all_eq).
  assert (Hen : enlist t (start_task t) (kt k3) = enlist t (start_task t) (set_next_pid p (kt k))).
  { unfold k3, built, enlist. cbn [kt set_ks set_kt]. by rewrite upd_task_twice. }
  by rewrite <- Hen, <- (enlist_id t (start_task t) (kt k3) HT).
Qed.

Lemma thread_start_spec :
  can_spawn k nm s sf ->
  exists t k', thread_start im (S lk) sf nm prio f a k = Done t k' /\ spawned im k t k' prio s f a.
Proof.
  intros Hc. destruct (thread_start_run Hc) as (i & s1 & sy & Hgot & Hnp & Hf2 & Hlk & HI1 & Hrun).
  cbv zeta in *. set (t := page_addr (vm_of k) i) in *. pose proof Hnp as [Hnew _ _ _ [Ht0 Ht1]].
  pose proof Hc as [[HI Hr0 _] Hsc Hkp _ Hpcb _ _ _ _ _].
  assert (Hne : running (kt k) <> t).
  { intros E. destruct (lists_cur _ Hsc) as [Tr HTr]. rewrite E in HTr. congruence. }
  destruct (vm_pcb_ok k i s1 Hkp Hgot) as (Hv2 & Hb2 & Hr2). fold t in Hv2, Hb2, Hr2.
  pose proof (gp_range _ _ _ _ Hgot).
  destruct (vm_stack_ok im k i s1 (ram_fill (ram (vmach s1)) (u_block_descs t) 0 168) f a Hkp)
    as (Hv5 & Hb5 & Hr5); [lia|exact Hv2|]. fold t in Hv5, Hb5, Hr5. fold (start_vm t s1) in Hv5, Hb5, Hr5.
  set (k' := set_kt _ _) in Hrun. exists t, k'. split; [exact Hrun|].
  assert (Hvm : vm_of k' = start_vm t s1).
  { rewrite <- (built_vm k t p sy Hne (start_vm t s1) (start_task t)); [reflexivity|].
    apply (gp_cur _ _ _ _ Hgot). }
  split; try done.
  - apply enlist_lists; [by destruct Hsc|done|lia|done].
  - rewrite !sched_lists. intros [Hl Hi]. split.
    + apply enlist_lists; [by destruct Hl|done|lia|done].
    + by apply enlist_idle.
  - by rewrite Hvm.
  - apply (gp_pde _ _ _ _ Hgot).
  - intros m Hm Hr. rewrite Hvm. by apply Hr5, Hr2, (gp_room _ _ _ _ Hgot).
  - apply (pcbs_enlisted k t (start_task t) p k' i); [done|done|by rewrite Hvm| |done].
    intros x Hx. rewrite Hvm, Hb5, Hb2, (gp_used _ _ _ _ Hgot) by done.
    case_decide; [done|]. split; [done|lia].
  - exists i. split; [lia|done].
  - apply first_frame_ram.
  - unfold kstack_of, sizeof_task_struct, sizeof_thread_stack, sizeof_intr_stack, PG_SIZE. lia.
  - by apply (spawn_memory im k i s1 f a).
  - split; [|done]. change (ports (vmach s1) = ports (km k)). by rewrite (gp_mach _ _ _ _ Hgot).
Qed.
End start.

(** C21: With interrupts off and a page to spare, [thread_start] makes a new
    thread: it is READY and last in the ready list and in the list of all
    threads, it has the next process number and a full time slice, the
    scheduler's invariant holds, and its first run starts [kernel_thread]
    with the function and the argument given.  Only the new page and the
    heap's bitmaps change; the heap keeps its invariant, no PCB lies in a
    free page; the new stack, moved by four times the sizes the code
    subtracts, still lies within the page, above the PCB. *)
Theorem thread_start_ok im lk sf nm s prio f a k :
  can_spawn k nm s sf ->
  exists t k', thread_start im (S lk) sf nm prio f a k = Done t k' /\
    spawned im k t k' prio s f a.
Proof. apply thread_start_spec. Qed.

(** Eight free pages, the main thread running, the idle thread blocked, a
    name in the kernel's data. *)
Definition demo_spawn_vm : vm := PageHeap.with_ram {[ 0xc0005000 := 116; 0xc0005001 := 49 ]} demo_vm.
Definition demo_spawn : kst :=
  Kst (vmach demo_spawn_vm) (vpg demo_spawn_vm) 0
    (ThreadSt {[ 0xc009e000 := set_status TASK_RUNING task_zero;
                 0xc009d000 := set_status TASK_BLOCKED task_zero ]}
       0xc009e000 [] [0xc009e000; 0xc009d000] 0xc009e000 0xc009d000 2 (fun _ => 0))
    (SyncSt {[ lock_semaphore pid_lock := Sema 1 [] ]} ∅)
    (vmem demo_spawn_vm) (kdev bss_kst).

Lemma demo_spawn_pages : kernel_pages demo_spawn_vm.
Proof.
  destruct (@pa_outside PF_KERNEL kernel_PageAlloc demo_vm (ram (vmach demo_spawn_vm)) demo_pages)
    as (H & _); [|exact H].
  intros a Ha. cbn in Ha. unfold bitmap_bytes in Ha. simpl in Ha.
  unfold demo_spawn_vm. cbn [vmach PageHeap.with_ram set_vmach ram set_ram].
  unfold ld8. rewrite !lookup_insert_ne, lookup_singleton_ne by lia. done.
Qed.

(** Eight page bits, all clear. *)
Lemma demo_spawn_bit i : 0 <= i < 8 -> vbit (vm_of demo_spawn) i = false.
Proof.
  intros Hi. assert (Hx : i ∈ seqZ 0 8) by (apply elem_of_seqZ; lia). clear Hi. revert i Hx.
  apply Forall_forall. by repeat constructor.
Qed.

Lemma demo_spawn_sched : sched_inv (kt demo_spawn).
Proof.
  split; [split|done]; simpl.
  - constructor.
  - intros t. rewrite elem_of_nil. unfold status_of. simpl. rewrite lookup_insert, lookup_singleton.
    repeat case_decide; split; done.
  - intros t. unfold status_of. simpl. rewrite lookup_insert, lookup_singleton.
    repeat case_decide; done.
  - by eexists.
  - split; [by eexists|done].
  - done.
Qed.

Lemma demo_can_spawn : can_spawn demo_spawn 0xc0005000 [116; 49] 9.
Proof.
  assert (Hpg : kernel_pages (vm_of demo_spawn)).
  { destruct demo_spawn_pages as [[H1 H2 H3 H4 H5 H6 H7 H8 H9 H10 H11] Hb]. by split. }
  split; try done.
  - by apply sched_lists, demo_spawn_sched.
  - split.
    + exists 0. split; [done|]. split; [by vm_compute|]. intros j Hj. apply demo_spawn_bit. lia.
    + apply Nat.leb_le. by vm_compute.
  - split.
    + intros i Hi _. change (npages (vm_of demo_spawn)) with 8 in Hi.
      unfold page_addr. simpl. rewrite lookup_insert, lookup_singleton, !decide_False by lia.
      split; [done|lia].
    + intros t. simpl. rewrite !elem_of_cons, elem_of_nil.
      intros [->|[->|[]]]; by eexists.
  - simpl. lia.
  - simpl. lia.
  - unfold outside_heap, bitmap_bytes, within, page_addr, npages. simpl. intros; lia.
Qed.

Lemma thread_start_ok_witness :
  exists t k', thread_start demo_image 1 9 0xc0005000 8 0xc0003000 7 demo_spawn = Done t k' /\
    spawned demo_image demo_spawn t k' 8 [116; 49] 0xc0003000 7.
Proof. apply (thread_start_ok demo_image 0 9 0xc0005000 [116; 49] 8 0xc0003000 7), demo_can_spawn. Defined.
