(* ===== verification/ThreadInit.v ===== *)
(** * The first threads: [thread_init] of [thread/thread.c]

    [make_main_thread] gives the running boot code a PCB, [thread_init] adds
    the idle thread; together they establish the invariants of the scheduler
    and of thread creation. *)
From S2P Require Import Prelude Machine Str Bitmap Paging Kernel Thread Timer Sync SyncLogic Console.
From S2P Require Import Threads Memory PageHeap PageAlloc Arena ArenaHeap HeapSpec Malloc MemInit.
From S2P Require Import Interrupt Spawn SpawnLogic.

(** A literal of the kernel's image: its bytes in memory, not in the heap, in
    its bitmaps or in the first PCB. *)
Record literal (k : kst) (M a : Z) (s : list Z) : Prop := {
  li_null : a <> 0;
  li_str : cstr (ram (km k)) a s;
  li_heap : outside_heap (vm_of k) a (Z.of_nat (length s) + 1);
  li_pcb : apart (u_block_descs M) 168 a (Z.of_nat (length s) + 1)
}.

(** The state before [thread_init]: no thread has a PCB, the page heap is
    ready, the boot code runs on a stack whose page [M] is not in the heap. *)
Record before_threads (im : image) (k : kst) (M : Z) : Prop := {
  bt_if : IF (km k) = false;
  bt_run : running (kt k) = M /\ M <> 0;
  bt_tasks : tasks (kt k) = ∅;
  bt_pages : kernel_pages (vm_of k);
  bt_room : kernel_room (vm_of k) 1;
  bt_heap : ~ page_addr (vm_of k) 0 <= M < page_addr (vm_of k) (npages (vm_of k));
  bt_bitmaps : forall a, within (u_block_descs M) 168 a -> ~ bitmap_bytes (vm_of k) a;
  bt_main : literal k M (lit im "main") (codes "main");
  bt_idle : literal k M (lit im "idle") (codes "idle")
}.

Section init.
Context (im : image) (lk sf : nat) (k : kst) (M : Z).
Context (H : before_threads im k M) (Hsf : (5 <= sf)%nat).

Let p1 : Z := i16 (next_pid (kt k) + 1).
Let p2 : Z := i16 (p1 + 1).

Definition main_task : task_struct := new_task M p1 TASK_RUNING (codes "main") 31.
Definition main_threads : thread_st := ThreadSt {[ M := main_task ]} M [] [M] M (idle_thread (kt k)) p1 (esps (kt k)).

(** After [make_main_thread]. *)
Definition main_made (sy : sync_st) (cs : list Z) : kst :=
  set_ks sy (set_kt main_threads
    (set_km (print cs (set_ram (ram_fill (ram (km k)) (u_block_descs M) 0 168) (km k))) k)).

Lemma make_main_run cs :
  exists sy, (forall A (m : K A),
      (upd_kt (set_ready []);; upd_kt (set_all []);; lock_init pid_lock;;
       make_main_thread im (S lk) sf;; m) (set_km (print cs (km k)) k) = m (main_made sy cs)) /\
  lock_free pid_lock (main_made sy cs) /\ same_locks (ks k) sy.
Proof.
  destruct H as [HI [Hr HM] Ht _ _ _ _ [L1 L2 _ L4] _].
  assert (Hrn : running (kt k) <> 0) by (by rewrite Hr).
  set (k1 := set_kt (set_all [] (set_ready [] (kt k))) (set_km (print cs (km k)) k)).
  destruct (lock_init_free pid_lock k1) as (s1 & Hl & Hf & Ho).
  set (k2 := set_kt (set_main_thread M (kt k1)) (set_ks s1 k1)).
  destruct (init_thread_quiet lk sf M (lit im "main") (codes "main") 31 k2) as (sy & Hi & Hf2 & Hlk);
    [split; [exact HI|exact Hrn|exact Hf]|done|done|exact L2|simpl; lia|exact L4|].
  cbv zeta in Hi. rewrite decide_True in Hi by done. exists sy. split; [|split; [exact Hf2|]].
  - intros A m. kstep. kstep. fold k1. rewrite (kbind_Done _ _ _ _ _ Hl). cbv beta.
    rewrite (kbind_Done (make_main_thread im (S lk) sf) _ _ tt (main_made sy cs)); [done|].
    unfold make_main_thread, running_thread. kstep. kstep.
    change (running (kt (set_ks s1 k1))) with (running (kt k)). rewrite Hr.
    change (set_kt (set_main_thread M (kt (set_ks s1 k1))) (set_ks s1 k1)) with k2.
    rewrite (kbind_Done _ _ _ _ _ Hi). cbv beta.
    rewrite append_all_eq by (apply not_elem_of_nil). f_equal.
    unfold main_made, main_threads, after_init, upd_task_st, set_tasks. cbn. by rewrite Ht, Hr.
  - apply (same_locks_trans _ s1); [exact Ho|exact Hlk].
Qed.

Lemma main_made_pages sy cs :
  kernel_pages (vm_of (main_made sy cs)) /\
  (forall n, kernel_room (vm_of k) n -> kernel_room (vm_of (main_made sy cs)) n).
Proof.
  set (r := ram_fill (ram (km k)) (u_block_descs M) 0 168).
  destruct (@pa_outside PF_KERNEL kernel_PageAlloc (vm_of k) r (bt_pages _ _ _ H)) as (C1 & _ & C2).
  { intros a Ha. unfold r. rewrite ld8_ram_fill, decide_False; [done|]. intros Hx.
    apply (bt_bitmaps _ _ _ H a); [exact Hx|exact Ha]. }
  destruct (kernel_pages_view (PageHeap.with_ram r (vm_of k)) (vm_of (main_made sy cs))) as (V1 & V2 & _);
    [done..|]. split; [by apply V1|]. intros n Hn. by apply V2, (C2 n).
Qed.

Lemma main_can_spawn sy cs :
  lock_free pid_lock (main_made sy cs) -> can_spawn (main_made sy cs) (lit im "idle") (codes "idle") sf.
Proof.
  intros Hf. destruct (main_made_pages sy cs) as [Hp Hr].
  pose proof H as [HI [Hrun HM] _ _ Hroom Hheap _ _ [I1 I2 I3 I4]].
  split; [by split|..| |exact I1| |simpl; lia|simpl; lia|exact I3].
  - split; cbn [main_made kt set_ks set_kt main_threads thread_ready_list running tasks].
    + constructor.
    + intros t. rewrite elem_of_nil. unfold status_of. cbn [main_threads tasks]. rewrite lookup_singleton.
      case_decide; done.
    + intros t. unfold status_of. cbn [main_threads tasks]. rewrite lookup_singleton. by case_decide.
    + unfold status_of. cbn [main_threads tasks]. by rewrite lookup_singleton_eq.
    + by rewrite lookup_singleton_ne.
  - exact Hp.
  - by apply Hr.
  - split.
    + intros i Hi _. cbn [main_made kt set_ks set_kt main_threads main_thread tasks].
      assert (Hne : M <> page_addr (vm_of (main_made sy cs)) i).
      { destruct (same_mem_views (vm_of k) (vm_of (main_made sy cs)) eq_refl) as (En & Ea & _).
        rewrite Ea. rewrite En in Hi. intros E. apply Hheap. rewrite E. unfold page_addr. lia. }
      by rewrite lookup_singleton_ne.
    + intros t. cbn [main_made kt set_ks set_kt main_threads thread_all_list tasks].
      rewrite list_elem_of_singleton. intros ->. rewrite lookup_singleton_eq. by eexists.
  - eapply cstr_agree; [|exact I2]. intros a Ha.
    cbn [main_made km set_ks set_kt set_km ram print set_ram]. rewrite ld8_ram_fill, decide_False; [done|].
    unfold apart in I4. lia.
Qed.

(** What [thread_init] establishes. *)
Record threads_ready (t : Z) (k' : kst) : Prop := {
  tr_page : exists i, 0 <= i < npages (vm_of k) /\ t = page_addr (vm_of k) i;
  tr_threads : kt k' = ThreadSt
    (<[t := set_self_kstack (kstack_of t) (new_task t p2 TASK_READY (codes "idle") 10)]> {[ M := main_task ]})
    M [t] [M; t] M t p2 (esps (kt k));
  tr_sched : sched_inv (kt k');
  tr_quiet : quiet k';
  tr_locks : same_locks (ks k) (ks k');
  tr_heap : heap_variant (vm_of k) (vm_of k');
  tr_pde : forall u, vaddr_ok u -> pde (kp k') u = pde (kp k) u;
  tr_room : forall m, 0 <= m -> kernel_room (vm_of k) (1 + m) -> kernel_room (vm_of k') m;
  tr_pcbs : pcbs_allocated k';
  tr_frame : first_frame im (ram (km k')) (kstack_of t) (fn im "idle") 0;
  tr_memory : agree (fun a => ~ bitmap_bytes (vm_of k) a /\ ~ within t PG_SIZE a /\
    ~ within (u_block_descs M) 168 a) (ram (km k)) (ram (km k'));
  tr_io : ports (km k') = ports (km k) /\ kdev k' = kdev k
}.

Lemma thread_init_spec :
  exists t k', thread_init im (S lk) sf k = Done tt k' /\ threads_ready t k'.
Proof.
  set (cs := codes "thread_init start" ++ [10]).
  destruct (make_main_run cs) as (sy & Hm & Hf & Hlk). set (k1 := main_made sy cs) in *.
  destruct (thread_start_spec im lk sf (lit im "idle") 10 (fn im "idle") 0 (codes "idle") k1 (main_can_spawn sy cs Hf))
    as (t & k2 & Hst & [S1 S2 S3 S4 S5 S6 S7 S8 S9 S10 S11 S12 S13 S14 S15]).
  exists t. set (k3 := set_km (print (codes "thread_init done" ++ [10]) (km k2)) (set_kt (set_idle_thread t (kt k2)) k2)).
  exists k3. split.
  - unfold thread_init. kstep. rewrite Hm. rewrite (kbind_Done _ _ _ _ _ Hst). by kstep.
  - destruct (kernel_pages_view (vm_of k2) (vm_of k3)) as (V1 & V2 & V3); [done..|].
    assert (Ek3 : tasks (kt k3) = tasks (kt k2)) by done. split.
    + exact S11.
    + cbn [k3 kt set_km set_kt]. by rewrite S2.
    + apply sched_lists. split; [by destruct S3|]. unfold idle_ok, status_of. rewrite Ek3, S2. cbn.
      rewrite lookup_insert_eq. split; [by eexists|done].
    + by destruct S5.
    + eapply same_locks_trans; [exact Hlk|exact S6].
    + split; [apply (hv_mem _ _ S7)|apply V1, (hv_pages _ _ S7)].
    + exact S8.
    + intros m Hm0 Hr. apply V2, S9; [done|]. by apply main_made_pages.
    + destruct S10 as [P1 P2]. split; [|exact P2]. intros i Hi. rewrite V3. by apply P1.
    + exact S12.
    + apply (agree_trans _ _ (ram (km k1))).
      * intros a (_ & _ & Ha). cbn [k1 main_made km set_ks set_kt set_km ram print set_ram].
        rewrite ld8_ram_fill, decide_False; [done|]. exact Ha.
      * eapply agree_weaken; [|exact S14]. cbv beta. intros a (H1 & H2 & _). by split.
    + exact S15.
Qed.
End init.

(** [thread_init], called with interrupts off in a kernel whose page heap
    is ready, makes two threads: the boot code becomes the RUNNING main
    thread with process number one more than the counter's, the idle thread
    is READY and its first run enters [idle]; the ready list is the idle
    thread, the list of all threads both; the scheduler's invariant holds,
    [pid_lock] is free, the page heap keeps its invariant and no PCB lies in
    one of its free pages; only the idle thread's page, the heap's bitmaps
    and the main thread's block descriptors change in memory. *)
Theorem thread_init_ok im lk sf k M :
  before_threads im k M -> (5 <= sf)%nat ->
  exists t k', thread_init im (S lk) sf k = Done tt k' /\ threads_ready im k M t k'.
Proof. apply thread_init_spec. Qed.

(** The loader's state with two literals in the kernel's data; [mem_init],
    then [thread_init]. *)
Definition demo_lits : image :=
  Image 0xc0010000 0xc0010800 0xc0010a80 0xc0010e00 0xc0001500 0xc0011100 0xc0011200
    (fun s => 0xc0002000 + 64 * Z.of_nat (String.length s))
    (fun s => if decide (s = "main"%string) then 0xc0005000 else 0xc0005010).
Definition demo_loaded : kst :=
  set_kp demo_loader (set_km (Mach (list_to_map
    [(0xc0005000, 109); (0xc0005001, 97); (0xc0005002, 105); (0xc0005003, 110);
     (0xc0005010, 105); (0xc0005011, 100); (0xc0005012, 108); (0xc0005013, 101)]) 2 [] []) bss_kst).

Lemma demo_before_threads k' :
  heap_ready demo_loaded 480 k' ->
  agree (fun a => ~ MEM_BITMAP_BASE <= a < MEM_BITMAP_BASE + 0x3000 /\ ~ within demo_descs 168 a)
    (ram (km demo_loaded)) (ram (km k')) ->
  before_threads demo_lits k' 0xc009e000.
Proof.
  intros [H1 (N1 & _ & N3 & _) Hroom _ _ Hbm (Et & _ & _ & Hfl & _)] Hag.
  assert (Hlit : forall a s, cstr (ram (km demo_loaded)) a s -> 0xc0005000 <= a ->
    a + Z.of_nat (length s) < 0xc0006000 -> literal k' 0xc009e000 a s).
  { intros a s Hs Ha1 Ha2. split; [lia| | |unfold apart, u_block_descs; lia].
    - eapply cstr_agree; [|exact Hs]. eapply agree_weaken; [|exact Hag]. cbv beta.
      unfold MEM_BITMAP_BASE, within, demo_descs. intros; lia.
    - intros x Hx. unfold within in Hx. split; [|rewrite N3; unfold K_HEAP_START; lia].
      intros Hy%Hbm. unfold MEM_BITMAP_BASE in Hy. lia. }
  split; try done.
  - unfold IF. by rewrite Hfl.
  - by rewrite Et.
  - by rewrite Et.
  - by apply Hroom.
  - rewrite N3. unfold K_HEAP_START. lia.
  - intros a Ha Hx%Hbm. unfold within, u_block_descs, MEM_BITMAP_BASE in *. lia.
  - by apply Hlit.
  - by apply Hlit.
Qed.

Lemma thread_init_ok_witness :
  exists k1, mem_init demo_descs demo_loaded = Done tt k1 /\
  exists t k', thread_init demo_lits 1 9 k1 = Done tt k' /\ threads_ready demo_lits k1 0xc009e000 t k'.
Proof.
  destruct (mem_init_run demo_descs demo_loaded demo_loader_tables) as (k1 & Hr & Hh & _ & Hag); [done|done|].
  exists k1. split; [exact Hr|].
  apply (thread_init_ok demo_lits 0 9 k1 0xc009e000); [by apply demo_before_threads|lia].
Defined.
