(* ===== verification/Process.v ===== *)
(** * User processes: [userprog/process.c]

    A process's page directory, its address bitmap, the frame with which it
    enters user mode, and its creation.

    Page tables are words of physical memory ([pwords] of Paging), the
    kernel's data bytes at their virtual addresses ([ram]).  A page of the
    kernel heap that becomes a page directory moves from one to the other:
    [claim_words] carries its bytes over. *)
From S2P Require Import Prelude Machine Global Str Bitmap Paging Kernel Thread Timer Sync SyncLogic.
From S2P Require Import Console Threads Memory PageHeap PageAlloc Arena Interrupt Spawn.

Definition default_prio : Z := 31.
Definition USER_STACK3_VADDR : Z := 0xc0000000 - 0x1000.
Definition USER_VADDR_START : Z := 0x8048000.

(** ** The page directory *)

Fixpoint claim_words (n : nat) (va : Z) (r : gmap Z Z) : M paging unit :=
  match n with
  | O => mret tt
  | S n => vstore32 va (ld32 r va);; claim_words n (va + 4) r
  end.

(** [memcpy] of [n] words between page tables. *)
Fixpoint vcopy_words (n : nat) (dst src : Z) : M paging unit :=
  match n with
  | O => mret tt
  | S n => w ← vload32 src; vstore32 dst w;; vcopy_words n (dst + 4) (src + 4)
  end.

(** What [create_page_dir] writes into the page it got. *)
Definition fill_page_dir (page_dir_vaddr : Z) : M vm unit :=
  r ← gets (fun s => ram (vmach s));
  on_p (claim_words 1024 page_dir_vaddr r);;
  on_p (vcopy_words 256 (page_dir_vaddr + 0x300 * 4) (0xfffff000 + 0x300 * 4));;
  new_page_dir_phy_addr ← on_p (addr_v2p page_dir_vaddr);
  on_p (vstore32 (page_dir_vaddr + 4 * 1023) (entry new_page_dir_phy_addr)).

Definition set_vaddr_start (v : Z) (t : task_struct) : task_struct :=
  set_userprog_vaddr (VirtualAddr (vaddr_bitmap (userprog_vaddr t)) v) t.
Definition set_vaddr_bits (v : Z) (t : task_struct) : task_struct :=
  set_userprog_vaddr (VirtualAddr (Bitmap (btmp_bytes_len (vaddr_bitmap (userprog_vaddr t))) v)
    (vaddr_start (userprog_vaddr t))) t.
Definition set_vaddr_len (v : Z) (t : task_struct) : task_struct :=
  set_userprog_vaddr (VirtualAddr (Bitmap v (bits (vaddr_bitmap (userprog_vaddr t))))
    (vaddr_start (userprog_vaddr t))) t.

(** The fields of [struct intr_stack]. *)
Definition is_edi : Z := 4.
Definition is_esi : Z := 8.
Definition is_ebp : Z := 12.
Definition is_esp_dummy : Z := 16.
Definition is_ebx : Z := 20.
Definition is_edx : Z := 24.
Definition is_ecx : Z := 28.
Definition is_eax : Z := 32.
Definition is_gs : Z := 36.
Definition is_fs : Z := 40.
Definition is_es : Z := 44.
Definition is_ds : Z := 48.
Definition is_eip : Z := 56.
Definition is_cs : Z := 60.
Definition is_eflags : Z := 64.
Definition is_esp : Z := 68.
Definition is_ss : Z := 72.

Section process.
Context (im : image).
Context (lkfuel sfuel : nat).

Definition create_page_dir : K Z :=
  page_dir_vaddr ← on_vm (get_kernel_pages 1);
  if decide (page_dir_vaddr = 0) then
    console_put_str lkfuel sfuel (lit im "create_page_dir: get_kernel_pages failed!");;
    mret 0
  else on_vm (fill_page_dir page_dir_vaddr);; mret page_dir_vaddr.

Definition create_user_vaddr_bitmap (user_prog : Z) : K unit :=
  upd_task user_prog (set_vaddr_start USER_VADDR_START);;
  let bitmap_pg_cnt := DIV_ROUND_UP ((0xc0000000 - USER_VADDR_START) / PG_SIZE / 8) PG_SIZE in
  b ← on_vm (get_kernel_pages bitmap_pg_cnt);
  upd_task user_prog (set_vaddr_bits b);;
  upd_task user_prog (set_vaddr_len ((0xc0000000 - USER_VADDR_START) / PG_SIZE / 8));;
  t ← get_task user_prog;
  on_mach (bitmap_init (vaddr_bitmap (userprog_vaddr t))).

(** The first half of [start_process]: where the frame goes.  The address is
    that of the frame [thread_create] made room for as long as [switch_to] has
    not stored another stack pointer in [self_kstack]. *)
Definition claim_frame : K Z :=
  cur ← running_thread;
  irq_window;;
  upd_task cur (fun t => set_self_kstack (u32 (self_kstack t + 4 * sizeof_thread_stack)) t);;
  irq_window;;
  t ← get_task cur;
  mret (self_kstack t).

(** The second half: the frame is filled in.  The result is the address that
    [esp] gets before the jump to [intr_exit], which pops the frame there and
    enters user mode. *)
Definition build_frame (filename_ proc_stack : Z) : K Z :=
  let put off v := on_mach (store32 (proc_stack + off) v) in
  put is_esp_dummy 0;; put is_ebp 0;; put is_esi 0;; put is_edi 0;;
  put is_eax 0;; put is_ecx 0;; put is_edx 0;; put is_ebx 0;;
  put is_gs 0;;
  put is_fs SELECTOR_U_DATA;; put is_es SELECTOR_U_DATA;; put is_ds SELECTOR_U_DATA;;
  put is_eip filename_;;
  put is_cs SELECTOR_U_CODE;;
  put is_eflags (Z.lor (Z.lor EFLAGS_IOPL_0 EFLAGS_MBS) EFLAGS_IF_1);;
  page ← get_a_page lkfuel PF_USER USER_STACK3_VADDR;
  put is_esp (u32 (page + PG_SIZE));;
  put is_ss SELECTOR_U_DATA;;
  mret proc_stack.

Definition start_process (filename_ : Z) : K Z :=
  proc_stack ← claim_frame; build_frame filename_ proc_stack.

Definition process_execute (filename name : Z) : K unit :=
  thread ← on_vm (get_kernel_pages 1);
  init_thread lkfuel sfuel thread name default_prio;;
  create_user_vaddr_bitmap thread;;
  thread_create im thread (fn im "start_process") filename;;
  pd ← create_page_dir;
  upd_task thread (set_pgdir pd);;
  on_mach (block_desc_init (u_block_descs thread));;
  kirqsave (
    append_ready thread;;
    append_all thread "!elem_find(&thread_all_list, &thread->all_list_tag)").
End process.

(** ** Writing into a frame that holds no table *)

Section frame.
Context (pg : paging) (v p : Z).
Context (Hv : vaddr_ok v) (Hva : v mod 4096 = 0).
Context (Hrec : rec_slot pg) (Hw : walk pg v = Some p).
Context (Hfresh : forall u, vaddr_ok u -> present (pde pg u) = true -> frame (pde pg u) <> p).

(** The tables are those of [pg] but for the words of the frame [p]. *)
Definition same_tables (pg' : paging) : Prop :=
  cr3 pg' = cr3 pg /\ forall a, ~ within p 4096 a -> pread pg' a = pread pg a.

Lemma frame_p : p mod 4096 = 0.
Proof.
  unfold walk in Hw. destruct (_ && _); [|done]. injection Hw as <-. unfold page_off.
  rewrite Hva, Z.add_0_r. apply frame_mod.
Qed.

Lemma cr3_not_p : cr3 pg <> p.
Proof.
  destruct Hrec as (Hc & Hp & Hf). intros E. apply (Hfresh 0xffffffff); [done| |].
  - unfold pde, pde_word. change (dir_index 0xffffffff) with 1023. exact Hp.
  - unfold pde, pde_word. change (dir_index 0xffffffff) with 1023. by rewrite Hf.
Qed.

Lemma outside_p a i : a mod 4096 = 0 -> a <> p -> 0 <= i < 1024 -> ~ within p 4096 (a + 4 * i).
Proof. pose proof frame_p. unfold within. intros Ha Hne Hi Hin. Z.div_mod_to_equations; lia. Qed.

Lemma same_tables_pde pg' u : same_tables pg' -> vaddr_ok u -> pde pg' u = pde pg u.
Proof.
  intros [Hc Hr] Hu. unfold pde, pde_word. rewrite Hc.
  apply Hr, outside_p; [apply Hrec|apply cr3_not_p|by apply dir_index_range].
Qed.

Lemma same_tables_pte pg' u : same_tables pg' -> vaddr_ok u -> present (pde pg u) = true ->
  pte_word pg' u = pte_word pg u /\ pte pg' u = pte pg u.
Proof.
  intros Hs Hu Hp. unfold pte, pte_word. rewrite same_tables_pde by done. split; [done|].
  apply Hs, outside_p; [apply frame_mod|by apply Hfresh|apply tbl_index_range].
Qed.

Lemma same_tables_walk pg' u : same_tables pg' -> vaddr_ok u -> walk pg' u = walk pg u.
Proof.
  intros Hs Hu. unfold walk. rewrite same_tables_pde by done.
  destruct (present (pde pg u)) eqn:Hp; [|done].
  by destruct (same_tables_pte pg' u Hs Hu Hp) as [_ ->].
Qed.

Lemma walk_word i : 0 <= i < 1024 -> walk pg (v + 4 * i) = Some (p + 4 * i).
Proof.
  intros Hi. unfold vaddr_ok in Hv.
  assert (Hd : dir_index (v + 4 * i) = dir_index v) by (unfold dir_index; Z.div_mod_to_equations; lia).
  assert (Ht : tbl_index (v + 4 * i) = tbl_index v).
  { unfold tbl_index. f_equal. Z.div_mod_to_equations; lia. }
  assert (Ho : page_off (v + 4 * i) = page_off v + 4 * i).
  { unfold page_off. rewrite Hva. Z.div_mod_to_equations; lia. }
  rewrite walk_fields in *. rewrite Hd, Ht, Ho. cbv zeta in *.
  destruct (_ && _); [|done]. injection Hw as <-. f_equal. lia.
Qed.

Lemma store_word pg' i w : same_tables pg' -> 0 <= i < 1024 ->
  vstore32 (v + 4 * i) w pg' = Ok (tt, pwrite pg' (p + 4 * i) w) /\
  same_tables (pwrite pg' (p + 4 * i) w).
Proof.
  intros Hs Hi. unfold vstore32. unfold vaddr_ok in Hv.
  rewrite (same_tables_walk pg') by (done || unfold vaddr_ok; Z.div_mod_to_equations; lia).
  rewrite walk_word by done. split; [done|]. destruct Hs as [Hc Hr]. split; [done|].
  intros a Ha. rewrite pread_pwrite, decide_False; [by apply Hr|]. unfold within in Ha. lia.
Qed.

Lemma claim_words_ok r n i pg' :
  same_tables pg' -> 0 <= i -> i + Z.of_nat n <= 1024 ->
  exists pg2, claim_words n (v + 4 * i) r pg' = Ok (tt, pg2) /\ same_tables pg2 /\
    forall j, pread pg2 (p + 4 * j) =
      if decide (i <= j < i + Z.of_nat n) then ld32 r (v + 4 * j) else pread pg' (p + 4 * j).
Proof.
  revert i pg'. induction n as [|n IH]; intros i pg' Hs Hi Hn.
  { exists pg'. split_and!; [done..|]. intros j. by rewrite decide_False by lia. }
  destruct (store_word pg' i (ld32 r (v + 4 * i)) Hs ltac:(lia)) as [Hst Hs1].
  destruct (IH (i + 1) _ Hs1 ltac:(lia) ltac:(lia)) as (pg2 & Hrun & Hs2 & Hval).
  exists pg2. split_and!; [|done|].
  - cbn [claim_words]. rewrite (bind_Ok _ _ _ _ _ Hst). cbv beta.
    replace (v + 4 * i + 4) with (v + 4 * (i + 1)) by lia. exact Hrun.
  - intros j. rewrite Hval, pread_pwrite.
    destruct (decide (j = i)) as [->|Hne].
    + rewrite (decide_False (P := i + 1 <= i < _)), !decide_True by lia.
      apply u32_id, ld32_range.
    + rewrite (decide_False (P := p + 4 * i = p + 4 * j)) by lia.
      by rewrite (decide_ext (i + 1 <= j < i + 1 + Z.of_nat n) (i <= j < i + Z.of_nat (S n))) by lia.
Qed.

(** The recursive address of directory word [j]. *)
Lemma load_dir pg' j : same_tables pg' -> 0 <= j < 1024 ->
  vload32 (0xfffff000 + 4 * j) pg' = Ok (pread pg (cr3 pg + 4 * j), pg').
Proof.
  intros Hs Hj. unfold vload32. rewrite (same_tables_walk pg') by (done || unfold vaddr_ok; lia).
  destruct Hrec as (Hc & Hp & Hf). rewrite walk_fields.
  assert (Hd : dir_index (0xfffff000 + 4 * j) = 1023) by (unfold dir_index; Z.div_mod_to_equations; lia).
  assert (Ht : tbl_index (0xfffff000 + 4 * j) = 1023) by (unfold tbl_index; Z.div_mod_to_equations; lia).
  assert (Ho : page_off (0xfffff000 + 4 * j) = 4 * j) by (unfold page_off; Z.div_mod_to_equations; lia).
  rewrite Hd, Ht, Ho. cbv zeta. rewrite Hp, Hf, Hp, Hf. apply Ok_val.
  apply Hs. apply outside_p; [exact Hc|apply cr3_not_p|done].
Qed.

Lemma vcopy_words_ok n i pg' :
  same_tables pg' -> 0 <= i -> i + Z.of_nat n <= 1024 ->
  exists pg2, vcopy_words n (v + 4 * i) (0xfffff000 + 4 * i) pg' = Ok (tt, pg2) /\ same_tables pg2 /\
    forall j, pread pg2 (p + 4 * j) =
      if decide (i <= j < i + Z.of_nat n) then pread pg (cr3 pg + 4 * j) else pread pg' (p + 4 * j).
Proof.
  revert i pg'. induction n as [|n IH]; intros i pg' Hs Hi Hn.
  { exists pg'. split_and!; [done..|]. intros j. by rewrite decide_False by lia. }
  set (w := pread pg (cr3 pg + 4 * i)).
  destruct (store_word pg' i w Hs ltac:(lia)) as [Hst Hs1].
  destruct (IH (i + 1) _ Hs1 ltac:(lia) ltac:(lia)) as (pg2 & Hrun & Hs2 & Hval).
  exists pg2. split_and!; [|done|].
  - cbn [vcopy_words]. rewrite (bind_Ok _ _ _ _ _ (load_dir pg' i Hs ltac:(lia))). cbv beta. fold w.
    rewrite (bind_Ok _ _ _ _ _ Hst). cbv beta.
    replace (v + 4 * i + 4) with (v + 4 * (i + 1)) by lia.
    replace (0xfffff000 + 4 * i + 4) with (0xfffff000 + 4 * (i + 1)) by lia. exact Hrun.
  - intros j. rewrite Hval, pread_pwrite.
    destruct (decide (j = i)) as [->|Hne].
    + rewrite (decide_False (P := i + 1 <= i < _)), !decide_True by lia.
      apply u32_id, pread_range.
    + rewrite (decide_False (P := p + 4 * i = p + 4 * j)) by lia.
      by rewrite (decide_ext (i + 1 <= j < i + 1 + Z.of_nat n) (i <= j < i + Z.of_nat (S n))) by lia.
Qed.
End frame.

(** A cleared page of the heap, at [v], in a frame [p] that is neither a page
    table nor a page directory of the current address space. *)
Record directory_page (s : vm) (v p : Z) : Prop := {
  dp_addr : vaddr_ok v /\ v mod 4096 = 0 /\ 0xc0000000 <= v;
  dp_rec : rec_slot (vpg s);
  dp_walk : walk (vpg s) v = Some p;
  dp_range : frame_ok p;
  dp_fresh : forall u, vaddr_ok u -> present (pde (vpg s) u) = true -> frame (pde (vpg s) u) <> p;
  dp_zero : forall a, within v 4096 a -> ld8 (ram (vmach s)) a = 0
}.

Lemma fill_page_dir_run s v p :
  directory_page s v p ->
  exists pg', fill_page_dir v s = Ok (tt, set_vpg pg' s) /\ same_tables (vpg s) p pg' /\
    forall j, 0 <= j < 1024 -> pread pg' (p + 4 * j) =
      if decide (j = 1023) then entry p
      else if decide (768 <= j) then pread (vpg s) (cr3 (vpg s) + 4 * j) else 0.
Proof.
  intros [(Hv & Hva & Hvk) Hrec Hw Hp Hfr Hz]. set (pg := vpg s) in *. set (r := ram (vmach s)) in *.
  assert (Hs0 : same_tables pg p pg) by done.
  destruct (claim_words_ok pg v p Hv Hva Hrec Hw Hfr r 1024 0 pg Hs0) as (pg1 & Hr1 & Hs1 & Hv1); [lia..|].
  destruct (vcopy_words_ok pg v p Hv Hva Hrec Hw Hfr 256 768 pg1 Hs1) as (pg2 & Hr2 & Hs2 & Hv2); [lia..|].
  destruct (store_word pg v p Hv Hva Hrec Hw Hfr pg2 1023 (entry p) Hs2) as [Hst Hs3]; [lia|].
  assert (Hrec2 : rec_slot pg2).
  { destruct Hs2 as [Hc2 Hr]. unfold rec_slot. rewrite Hc2.
    rewrite Hr by (apply (outside_p pg v p Hva Hw Hfr); [apply Hrec|by apply (cr3_not_p pg p Hrec Hfr)|lia]).
    exact Hrec. }
  assert (Hv2p : addr_v2p v pg2 = Ok (p, pg2)).
  { apply addr_v2p_walk; [done|done|].
    by rewrite (same_tables_walk pg v p Hva Hrec Hw Hfr pg2) by done. }
  exists (pwrite pg2 (p + 4 * 1023) (entry p)). split_and!; [|done|].
  - rewrite Z.add_0_r in Hr1. unfold fill_page_dir. mstep. fold r.
    rewrite (bind_Ok _ _ _ _ _ (on_p_Ok _ s _ _ Hr1)). cbv beta.
    rewrite (bind_Ok _ _ _ _ _ (on_p_Ok _ (set_vpg pg1 s) _ _ Hr2)). cbv beta.
    rewrite (bind_Ok _ _ _ _ _ (on_p_Ok _ (set_vpg pg2 (set_vpg pg1 s)) _ _ Hv2p)). cbv beta.
    rewrite (on_p_Ok _ (set_vpg pg2 _) _ _ Hst). done.
  - intros j Hj. rewrite pread_pwrite. destruct (decide (j = 1023)) as [->|Hne].
    + rewrite decide_True by done. apply u32_id. destruct Hp as [Hp0 Hp1].
      rewrite entry_eq by done. Z.div_mod_to_equations; lia.
    + rewrite decide_False by lia. rewrite Hv2. destruct (decide (768 <= j)) as [Hge|Hlt].
      * by rewrite decide_True by lia.
      * rewrite decide_False, Hv1, decide_True by lia. unfold ld32, r.
        rewrite !Hz by (unfold within; lia). done.
Qed.

(** The directory in the frame [p]: an address space that shares the kernel's
    part with that of [pg]. *)
Record space_of (pg : paging) (p : Z) (pg2 : paging) : Prop := {
  so_dir : cr3 pg2 = p;
  so_rec : rec_slot pg2;
  so_kernel : forall u, 0xc0000000 <= u < 0xffc00000 -> walk pg2 u = walk pg u;
  so_user : forall u, 0 <= u < 0xc0000000 -> walk pg2 u = None
}.

Lemma fill_page_dir_space s v p :
  directory_page s v p ->
  exists pg', fill_page_dir v s = Ok (tt, set_vpg pg' s) /\ same_tables (vpg s) p pg' /\
    space_of (vpg s) p (Paging p (pwords pg')).
Proof.
  intros H. destruct (fill_page_dir_run s v p H) as (pg' & Hrun & Hs & Hval).
  destruct H as [(Hv & Hva & Hvk) Hrec Hw Hp Hfr Hz]. exists pg'. split; [done|]. split; [done|].
  destruct (entry_spec p Hp) as (_ & He2 & He3).
  assert (Hpde : forall u, vaddr_ok u -> pde (Paging p (pwords pg')) u = pread pg' (p + 4 * dir_index u))
    by done.
  split; [done|..].
  - unfold rec_slot. change (pread (Paging p (pwords pg'))) with (pread pg'). cbn [cr3].
    rewrite (Hval 1023), decide_True by lia. split; [apply Hp|done].
  - intros u Hu. assert (Huok : vaddr_ok u) by (unfold vaddr_ok; lia).
    assert (Hd : 768 <= dir_index u < 1023) by (unfold dir_index; Z.div_mod_to_equations; lia).
    unfold walk. assert (E : pde (Paging p (pwords pg')) u = pde (vpg s) u).
    { rewrite Hpde, Hval, decide_False, decide_True by (done || lia). done. }
    rewrite E. destruct (present (pde (vpg s) u)) eqn:Hpr; [|done].
    assert (E2 : pte (Paging p (pwords pg')) u = pte (vpg s) u); [|by rewrite E2].
    unfold pte, pte_word. rewrite E. change (pread (Paging p (pwords pg'))) with (pread pg').
    apply Hs, (outside_p (vpg s) v p Hva Hw Hfr); [apply frame_mod|by apply Hfr|apply tbl_index_range].
  - intros u Hu. assert (Huok : vaddr_ok u) by (unfold vaddr_ok; lia).
    assert (Hd : 0 <= dir_index u < 768) by (unfold dir_index; Z.div_mod_to_equations; lia).
    unfold walk. rewrite Hpde, Hval, !decide_False by (done || lia). done.
Qed.

(** The directory [create_page_dir] fills is an address space of its own:
    with it in [cr3] every kernel address below the tables' window translates
    as before, no user address translates, and the directory is reachable in
    its own last slot; the current address space is not changed. *)
Theorem new_address_space s v p :
  directory_page s v p ->
  exists s', fill_page_dir v s = Ok (tt, s') /\ vmach s' = vmach s /\ cr3 (vpg s') = cr3 (vpg s) /\
    (forall u, vaddr_ok u -> walk (vpg s') u = walk (vpg s) u) /\
    let pg2 := Paging p (pwords (vpg s')) in
    rec_slot pg2 /\
    (forall u, 0xc0000000 <= u < 0xffc00000 -> walk pg2 u = walk (vpg s) u) /\
    (forall u, 0 <= u < 0xc0000000 -> walk pg2 u = None).
Proof.
  intros H. destruct (fill_page_dir_space s v p H) as (pg' & Hrun & Hs & [_ H1 H2 H3]).
  destruct H as [(Hv & Hva & Hvk) Hrec Hw Hp Hfr Hz]. exists (set_vpg pg' s).
  split_and!; [done|done|apply Hs| |done]. intros u Hu. by apply (same_tables_walk (vpg s) v p Hva Hrec Hw Hfr).
Qed.

(** The first heap page mapped to the first frame of the pool. *)
Definition demo_dir : vm := set_vpg (pwrite (vpg demo_vm) 0x101400 0x200007) demo_vm.

Lemma demo_directory_page : directory_page demo_dir 0xc0100000 0x200000.
Proof.
  split; [done|done|done|done| |done].
  intros u Hu Hp. assert (E : pde (vpg demo_dir) u = pde (vpg demo_vm) u).
  { unfold pde, pde_word, demo_dir. cbn [vpg set_vpg cr3 pwrite]. rewrite pread_pwrite, decide_False; [done|].
    pose proof (dir_index_range u Hu). simpl. lia. }
  rewrite E in *. destruct (decide (dir_index u < 1023)) as [Hd|Hd].
  - rewrite demo_pde in * by done. case_decide; [done|]. by vm_compute in Hp.
  - pose proof (dir_index_range u Hu). unfold pde, pde_word. replace (dir_index u) with 1023 by lia. done.
Qed.

Lemma new_address_space_witness :
  exists s', fill_page_dir 0xc0100000 demo_dir = Ok (tt, s') /\
    walk (Paging 0x200000 (pwords (vpg s'))) 0xc0100004 = Some 0x200004 /\
    walk (Paging 0x200000 (pwords (vpg s'))) 0x8048000 = None.
Proof.
  destruct (new_address_space demo_dir _ _ demo_directory_page) as (s' & Hrun & _ & _ & _ & _ & Hk & Hu).
  exists s'. split; [exact Hrun|]. split; [rewrite Hk by lia; done|apply Hu; lia].
Defined.
