(* ===== verification/Exec.v ===== *)
(** * Creating a user process: [process_execute] of [userprog/process.c]

    The calls [process_execute] is composed of, on a kernel state given by its
    memory and the PCB under construction, and the composition: the new
    process is a READY thread with an address space, an address bitmap and a
    byte heap of its own. *)
From S2P Require Import Prelude Machine Global Str Bitmap KList Paging Kernel Thread Timer Sync SyncLogic.
From S2P Require Import Console Threads Memory PageHeap PageAlloc Arena ArenaHeap HeapSpec Malloc MemInit.
From S2P Require Import Interrupt Spawn SpawnLogic Process.

(** ** The address bitmap *)

Section built.
Context (k : kst) (t p : Z) (sy : sync_st).
Context (Hrun : is_Some (tasks (kt k) !! running (kt k))) (Hne : running (kt k) <> t).
Local Notation built := (built k t p sy).
Local Notation same_cur := (same_cur k).


Lemma on_vm_got n m s T :
  same_cur s -> kernel_pages s -> 0 < n < 3840 -> 0 <= m -> kernel_room s (n + m) ->
  exists j s', on_vm (get_kernel_pages n) (built s T) = Done (page_addr s j) (built s' T) /\
    got_pages s s' j n /\ same_cur s' /\ kernel_room s' m.
Proof.
  intros Hc Hs Hn Hm Hr. destruct (get_kernel_pages_ok s n Hs Hn) as (j & s' & Hg & Hgot).
  { destruct Hr as [(q & Hq & Hqe & Hf) Hnf]. split; [|lia].
    exists q. split; [done|]. split; [lia|]. intros i Hi. apply Hf. lia. }
  exists j, s'. split; [apply (built_on_vm k t p sy Hrun Hne); [done|done|apply Hgot]|]. split; [done|].
  split; [unfold same_cur; by rewrite (gp_cur _ _ _ _ Hgot)|by apply (gp_room _ _ _ _ Hgot)].
Qed.

(** [(0xc0000000 - USER_VADDR_START) / PG_SIZE / 8] bytes, in 23 pages. *)
Definition user_bitmap_len : Z := 94199.
Definition user_vaddr (b : Z) : virtual_addr := VirtualAddr (Bitmap user_bitmap_len b) USER_VADDR_START.

Lemma clear_bits_zero r b n i :
  (forall a, within b n a -> ld8 r a = 0) -> 0 <= i < 8 * n -> rbit r b i = false.
Proof.
  intros H Hi. unfold rbit. rewrite H; [apply Z.bits_0|]. unfold within. Z.div_mod_to_equations; lia.
Qed.

(** The bytes of the bitmap cleared, the others untouched. *)
Definition cleared (b n : Z) (r r' : gmap Z Z) : Prop :=
  agree (fun a => ~ within b n a) r r' /\ forall a, within b n a -> ld8 r' a = 0.

Lemma fill_cleared r b n : 0 <= n -> cleared b n r (ram_fill r b 0 (Z.to_nat n)).
Proof.
  intros Hn. split; intros a Ha; rewrite ld8_ram_fill; unfold within in Ha.
  - by rewrite decide_False by lia.
  - by rewrite decide_True by lia.
Qed.

Lemma create_user_vaddr_bitmap_ok m s T :
  same_cur s -> kernel_pages s -> 0 <= m -> kernel_room s (23 + m) ->
  exists j s' r, let b := page_addr s j in
    create_user_vaddr_bitmap t (built s T) =
      Done tt (built (PageHeap.with_ram r s') (set_userprog_vaddr (user_vaddr b) T)) /\
    got_pages s s' j 23 /\ same_cur s' /\ kernel_room s' m /\
    cleared b user_bitmap_len (ram (vmach s')) r.
Proof.
  intros Hc Hs Hm Hr.
  destruct (on_vm_got 23 m s (set_vaddr_start USER_VADDR_START T)) as (j & s' & Hg & Hgot & Hc' & Hr');
    [done..|].
  exists j, s', (ram_fill (ram (vmach s')) (page_addr s j) 0 (Z.to_nat user_bitmap_len)).
  cbv zeta. split; [|split; [exact Hgot|split; [exact Hc'|split; [exact Hr'|apply fill_cleared; done]]]].
  unfold create_user_vaddr_bitmap. rewrite (kbind_Done _ _ _ _ _ (built_upd _ _ _ _ _ _ _)). cbv beta zeta.
  change (DIV_ROUND_UP ((0xc0000000 - USER_VADDR_START) / PG_SIZE / 8) PG_SIZE) with 23.
  rewrite (kbind_Done _ _ _ _ _ Hg). cbv beta.
  rewrite (kbind_Done _ _ _ _ _ (built_upd _ _ _ _ _ _ _)). cbv beta.
  rewrite (kbind_Done _ _ _ _ _ (built_upd _ _ _ _ _ _ _)). cbv beta.
  rewrite (kbind_Done _ _ _ _ _ (built_get _ _ _ _ _ _)). cbv beta.
  apply built_mach. destruct (gp_range _ _ _ _ Hgot).
  destruct (page_in_heap s j Hs) as (Hb0 & _); [lia|]. apply memset_eq. simpl. lia.
Qed.

(** ** The page directory *)

Lemma got_directory_page s s' j :
  kernel_pages s -> tables_below s -> 0xc0000000 <= page_addr s 0 -> got_pages s s' j 1 ->
  exists q, directory_page s' (page_addr s j) q.
Proof.
  intros Hs Htb Hlo [Hj Hinv Em Ec Epd Hroom Eh Hfree Hused Hram Hz].
  pose proof (kp_heap _ Hinv) as H.
  assert (Ea : forall i, page_addr s' i = page_addr s i) by (intros; unfold page_addr; by rewrite Em).
  assert (En : npages s' = npages s) by (unfold npages, vbm; by rewrite Em).
  assert (Hj' : 0 <= j < npages s') by lia.
  destruct (page_addr_ok _ _ H j Hj') as (Hv & Hd & Hal & _). rewrite Ea in *.
  destruct (kh_set _ _ H j Hj') as (Hp & f & Hf & Hfa & _).
  { rewrite Hused by lia. by rewrite decide_True by lia. } { tauto. }
  destruct (frame_addr_ok _ _ H f Hf) as [Hfok _]. exists (frame_addr s' f). split.
  - split; [done|]. split; [done|]. unfold page_addr in *. lia.
  - apply (kh_tables _ _ H).
  - unfold walk. rewrite <- (Ea j), (kh_pde _ _ H j Hj'). fold (hpte s' j). rewrite Hp. simpl.
    unfold page_off. rewrite Ea, Hal, Hfa. f_equal. lia.
  - done.
  - intros u Hu. rewrite Epd by done. intros Hpr. specialize (Htb u Hu Hpr).
    unfold frame_addr in *. rewrite Em. lia.
  - intros a Ha. apply Hz. unfold within in *. lia.
Qed.

(** Filling it leaves the page heap as it is. *)
Lemma kernel_pages_tables s v q pg' :
  directory_page s v q -> same_tables (vpg s) q pg' -> kernel_pages s -> kernel_pages (set_vpg pg' s).
Proof.
  intros [(Hv & Hva & _) Hrec Hw Hq Hfr _] Hst [H Hb]. split; [|exact Hb].
  pose proof (same_tables_pde (vpg s) v q Hva Hrec Hw Hfr pg') as Hpd.
  pose proof (same_tables_pte (vpg s) v q Hva Hrec Hw Hfr pg') as Hpt.
  assert (Hpage : forall i, 0 <= i < npages s ->
    pde pg' (page_addr s i) = pde (vpg s) (page_addr s i) /\
    pte_word pg' (page_addr s i) = pte_word (vpg s) (page_addr s i) /\
    hpte (set_vpg pg' s) i = hpte s i).
  { intros i Hi. destruct (page_addr_ok _ _ H i Hi) as (Hvi & _). split; [by apply Hpd|].
    apply Hpt; [done|done|by apply (kh_pde _ _ H)]. }
  destruct H as [H1 H2 H3 H4 H5 H6 H7 H8 H9 H10 H11]. split; try done.
  - destruct H6 as [Hrec' Ht]. split.
    + destruct Hrec' as (Hc & Hp & Hf). unfold rec_slot. cbn [vpg set_vpg].
      assert (E : pread pg' (cr3 pg' + 4 * 1023) = pread (vpg s) (cr3 (vpg s) + 4 * 1023)).
      { specialize (Hpd 0xffffffff Hst ltac:(done)). unfold pde, pde_word in Hpd.
        by change (dir_index 0xffffffff) with 1023 in Hpd. }
      rewrite E. destruct Hst as [-> _]. done.
    + intros u Hu. cbn [vpg set_vpg]. rewrite Hpd by done. destruct Hst as [-> _]. by apply Ht.
  - intros i Hi. cbn [vpg set_vpg]. destruct (Hpage i Hi) as (E & _). unfold page_addr in *.
    cbn [vmem set_vpg]. rewrite E. by apply H7.
  - intros i j Hi Hj. cbn [vpg set_vpg].
    destruct (Hpage i Hi) as (_ & E1 & _), (Hpage j Hj) as (_ & E2 & _). unfold page_addr in *.
    cbn [vmem set_vpg]. rewrite E1, E2. by apply H8.
  - intros i Hi. destruct (Hpage i Hi) as (_ & _ & ->). by apply H9.
  - intros i Hi. destruct (Hpage i Hi) as (_ & _ & ->). by apply H10.
  - intros i j Hi Hj. destruct (Hpage i Hi) as (_ & _ & ->), (Hpage j Hj) as (_ & _ & ->).
    by apply H11.
Qed.

Lemma create_page_dir_ok im lk sf m s T :
  same_cur s -> kernel_pages s -> tables_below s -> 0xc0000000 <= page_addr s 0 -> 0 <= m ->
  kernel_room s (1 + m) ->
  exists j q s1 pg', let s2 := set_vpg pg' s1 in
    create_page_dir im lk sf (built s T) = Done (page_addr s j) (built s2 T) /\
    got_pages s s1 j 1 /\ same_cur s2 /\ kernel_pages s2 /\
    walk pg' (page_addr s j) = Some q /\ space_of (vpg s1) q (Paging q (pwords pg')) /\
    forall u, vaddr_ok u -> walk pg' u = walk (vpg s1) u.
Proof.
  intros Hc Hs Htb Hlo Hm Hr.
  destruct (on_vm_got 1 m s T Hc Hs) as (j & s1 & Hg & Hgot & Hc1 & Hr1); [done..|].
  destruct (got_directory_page s s1 j Hs Htb Hlo Hgot) as (q & Hdp).
  destruct (fill_page_dir_space s1 (page_addr s j) q Hdp) as (pg' & Hfill & Hst & Hsp).
  destruct (gp_range _ _ _ _ Hgot). destruct (page_in_heap s j Hs) as (Hp0 & _); [lia|].
  pose proof Hdp as [(Hv & Hva & Hvk) Hrec Hw Hq Hfr Hz].
  pose proof (same_tables_walk (vpg s1) _ q Hva Hrec Hw Hfr pg') as Hwalk.
  exists j, q, s1, pg'. cbv zeta. split_and!; [|done|done| |by rewrite Hwalk|done|].
  - unfold create_page_dir. rewrite (kbind_Done _ _ _ _ _ Hg). cbv beta. rewrite decide_False by lia.
    by rewrite (kbind_Done _ _ _ _ _ (built_on_vm k t p sy Hrun Hne _ _ _ _ T Hc1 Hfill eq_refl)).
  - apply (kernel_pages_tables s1 _ q pg' Hdp Hst), (gp_inv _ _ _ _ Hgot).
  - intros u Hu. by apply Hwalk.
Qed.

End built.

(** A run of free pages is apart from a page in use. *)
Lemma runs_apart s i j n : 0 <= i < npages s -> 0 <= j -> j + n <= npages s ->
  vbit s i = true -> (forall l, j <= l < j + n -> vbit s l = false) ->
  page_addr s i + 4096 <= page_addr s j \/ page_addr s j + 4096 * n <= page_addr s i.
Proof.
  intros Hi Hj Hjn Hu Hf. unfold page_addr.
  destruct (decide (i < j)); [left; lia|]. destruct (decide (j + n <= i)); [right; lia|].
  rewrite Hf in Hu by lia. done.
Qed.

(** ** [process_execute] *)

Section execute.
Context (im : image) (lk sf : nat) (nm f : Z) (s : list Z) (k : kst).

(** What it needs: what a new thread needs, 25 pages, and to be called in an
    address space whose tables are not in the allocator's frames. *)
Record can_execute : Prop := {
  ce_spawn : can_spawn k nm s sf;
  ce_room : kernel_room (vm_of k) 25;
  ce_below : tables_below (vm_of k);
  ce_kernel : 0xc0000000 <= page_addr (vm_of k) 0
}.

Let p : Z := i16 (next_pid (kt k) + 1).
Let start : Z := fn im "start_process".

(** The PCB of the new process. *)
Definition process_task (t b pd : Z) : task_struct :=
  set_pgdir pd (set_self_kstack (kstack_of t)
    (set_userprog_vaddr (user_vaddr b) (new_task t p TASK_READY s default_prio))).

(** The memory after [thread_create] and at the end. *)
Local Notation stack_vm t := (vm_stack im t start f).
Definition vm_end (r : gmap Z Z) (pg : paging) (s6 : vm) : vm :=
  PageHeap.with_ram r (set_vpg pg s6).

(** The memory's steps: the pages taken and what is written into them. *)
Record exec_steps (t b pd : Z) (i j l : Z) (s1 s3 s6 : vm) (q : Z) (pg : paging) (r3 r : gmap Z Z) : Prop := {
  es_t : t = page_addr (vm_of k) i;
  es_b : b = page_addr (vm_of k) j;
  es_pd : pd = page_addr (vm_of k) l;
  es_got1 : got_pages (vm_of k) s1 i 1;
  es_got2 : got_pages (vm_pcb t s1) s3 j 23;
  es_got3 : got_pages (stack_vm t r3 s3) s6 l 1;
  es_clear : cleared b user_bitmap_len (ram (vmach s3)) r3;
  es_vbit2 : forall x, 0 <= x < npages (vm_of k) -> vbit (vm_pcb t s1) x = vbit s1 x;
  es_vbit5 : forall x, 0 <= x < npages (vm_of k) -> vbit (stack_vm t r3 s3) x = vbit s3 x;
  es_pages7 : kernel_pages (set_vpg pg s6);
  es_walk : walk pg pd = Some q;
  es_space : space_of pg q (Paging q (pwords pg));
  es_descs : forall c, 0 <= c < 7 -> ld32 r (desc_at (u_block_descs t) c) = bsz c /\
    ld32 r (desc_at (u_block_descs t) c + 4) = per c /\ list_at r (lst (u_block_descs t) c) [];
  es_end : agree (fun a => ~ within (u_block_descs t) 168 a) (ram (vmach s6)) r
}.

(** The bitmap's pages and the stack, written. *)
Lemma bitmap_stack_ok i j s1 s3 r3 :
  let t := page_addr (vm_of k) i in let b := page_addr (vm_of k) j in
  kernel_pages (vm_of k) -> got_pages (vm_of k) s1 i 1 -> got_pages (vm_pcb t s1) s3 j 23 ->
  cleared b user_bitmap_len (ram (vmach s3)) r3 ->
  heap_variant (vm_of k) (stack_vm t r3 s3) /\
  (forall x, 0 <= x < npages (vm_of k) -> vbit (stack_vm t r3 s3) x = vbit s3 x) /\
  (forall n, kernel_room s3 n -> kernel_room (stack_vm t r3 s3) n).
Proof.
  intros t b Hs G1 G2 [Hcl _]. destruct (vm_pcb_ok k i s1 Hs G1) as (Hv2 & _). fold t in Hv2.
  pose proof (got_variant _ _ _ _ _ Hv2 G2) as Hv3. destruct (variant_views _ _ Hv2) as (En2 & _).
  pose proof (gp_range _ _ _ _ G1). pose proof (gp_range _ _ _ _ G2).
  destruct (variant_write (vm_of k) s3 r3 j 23 Hs Hv3) as (Hv4 & Hb4 & Hr4); [lia..| |].
  { eapply agree_weaken; [|exact Hcl]. cbv beta. unfold within, user_bitmap_len, b. intros; lia. }
  destruct (vm_stack_ok im k i s3 r3 start f Hs) as (Hv5 & Hb5 & Hr5); [lia|exact Hv4|].
  split; [exact Hv5|]. split; [|intros n Hn; by apply Hr5, Hr4].
  intros x Hx. etransitivity; [by apply Hb5|by apply Hb4].
Qed.

(** Up to the directory: the PCB, the bitmap, the stack. *)
Lemma execute_stack :
  can_execute ->
  exists i j s1 s3 r3 sy, let t := page_addr (vm_of k) i in let b := page_addr (vm_of k) j in
    let T0 := new_task t p TASK_READY s default_prio in
    let T2 := set_self_kstack (kstack_of t) (set_userprog_vaddr (user_vaddr b) T0) in
    new_pcb k t /\ lock_free pid_lock (set_ks sy k) /\ same_locks (ks k) sy /\
    got_pages (vm_of k) s1 i 1 /\ got_pages (vm_pcb t s1) s3 j 23 /\
    (forall A (m : Z -> K A),
      (thread ← on_vm (get_kernel_pages 1);
       init_thread (S lk) sf thread nm default_prio;;
       create_user_vaddr_bitmap thread;;
       thread_create im thread start f;; m thread) k = m t (built k t p sy (stack_vm t r3 s3) T2)) /\
    cleared b user_bitmap_len (ram (vmach s3)) r3 /\
    same_cur k (stack_vm t r3 s3) /\ kernel_room (stack_vm t r3 s3) 1.
Proof.
  intros [Hc Hroom Hbelow Hker].
  destruct (pcb_made lk sf nm s default_prio k Hc)
    as (i & s1 & sy & Hgot & Hnp & Hg & Hit & Hf2 & Hlk & HI1).
  cbv zeta in *. set (t := page_addr (vm_of k) i) in *.
  pose proof Hnp as [Hnew Hmain Hnr Hna [Ht0 Ht1]].
  destruct (lists_cur _ (cs_sched _ _ _ _ Hc)) as [Tr HTr].
  assert (Hrun : is_Some (tasks (kt k) !! running (kt k))) by (by exists Tr).
  assert (Hne : running (kt k) <> t) by (intros E; rewrite E in HTr; congruence).
  pose proof (cs_pages _ _ _ _ Hc) as Hkp.
  destruct (vm_pcb_ok k i s1 Hkp Hgot) as ([_ Hp2] & _ & Hr2). fold t in Hp2, Hr2.
  set (T0 := new_task t p TASK_READY s default_prio) in *.
  destruct (create_user_vaddr_bitmap_ok k t p sy Hrun Hne 1 (vm_pcb t s1) T0)
    as (j & s3 & r3 & Hcu & Hgot3 & Hc3 & Hr3 & Hcl); [apply (gp_cur _ _ _ _ Hgot)|done|done| |].
  { apply Hr2, (gp_room _ _ _ _ Hgot 24); [done|exact Hroom]. }
  destruct (same_mem_views _ _ (gp_mem _ _ _ _ Hgot)) as (En1 & Ea1 & _).
  assert (Eb : page_addr (vm_pcb t s1) j = page_addr (vm_of k) j) by apply Ea1.
  rewrite Eb in Hcu, Hcl. set (b := page_addr (vm_of k) j) in *. cbv zeta in Hcu, Hcl.
  destruct (bitmap_stack_ok i j s1 s3 r3 Hkp Hgot Hgot3 Hcl) as (_ & _ & Hr5). fold t in Hr5.
  exists i, j, s1, s3, r3, sy. cbv zeta. fold t b T0.
  split; [done|]. split; [done|]. split; [done|]. split; [done|]. split; [done|].
  split; [|split; [exact Hcl|split; [exact Hc3|by apply Hr5]]]. intros A m.
  rewrite (kbind_Done _ _ _ _ _ Hg). cbv beta.
  rewrite (kbind_Done _ _ _ _ _ Hit). cbv beta.
  change (after_init t T0 p sy (paged s1 k)) with (built k t p sy (vm_pcb t s1) T0).
  rewrite (kbind_Done _ _ _ _ _ Hcu). cbv beta.
  erewrite (kbind_Done _ _ _ tt); [reflexivity|]. apply stack_built; [done|done|].
  unfold T0, new_task, PG_SIZE in *. cbn [self_kstack set_userprog_vaddr]. rewrite u32_id; lia.
Qed.

Lemma same_tables_below s0 s' : vmem s' = vmem s0 ->
  (forall u, vaddr_ok u -> pde (vpg s') u = pde (vpg s0) u) -> tables_below s0 -> tables_below s'.
Proof.
  intros Em Epd Hb u Hu. rewrite Epd by done. intros Hp. specialize (Hb u Hu Hp).
  unfold frame_addr in *. by rewrite Em.
Qed.

Lemma exec_flag t b pd i j l s1 s3 s6 q pg r3 r :
  exec_steps t b pd i j l s1 s3 s6 q pg r3 r -> IF (vmach (vm_end r pg s6)) = IF (km k).
Proof.
  assert (Hg : forall s0 s' x n, got_pages s0 s' x n -> IF (vmach s') = IF (vmach s0)).
  { intros s0 s' x n [_ _ _ _ _ _ E _ _ _ _]. by rewrite E. }
  intros [_ _ _ G1 G2 G3 _ _ _ _ _ _ _ _]. change (IF (vmach (vm_end r pg s6))) with (IF (vmach s6)).
  rewrite (Hg _ _ _ _ G3). change (IF (vmach s3) = IF (km k)).
  rewrite (Hg _ _ _ _ G2). exact (Hg _ _ _ _ G1).
Qed.

(** Both lists get the new thread. *)
Lemma enlist_run t T k8 :
  IF (km k8) = false -> tasks (kt k8) !! t = Some T ->
  t ∉ thread_ready_list (kt k8) -> t ∉ thread_all_list (kt k8) ->
  kirqsave (append_ready t;;
    append_all t "!elem_find(&thread_all_list, &thread->all_list_tag)") k8 =
  Done tt (set_kt (enlist t T (kt k8)) k8).
Proof.
  intros HI HT Hr Ha. apply kirqsave_off; [done| |done].
  rewrite (kbind_Done _ _ _ _ _ (append_ready_eq t k8 Hr)). cbv beta.
  rewrite append_all_eq by done. by rewrite <- (enlist_id t T _ HT).
Qed.

(** From the page directory to the lists. *)
Lemma execute_tail t sy s5 s7 T2 pd r :
  create_page_dir im (S lk) sf (built k t p sy s5 T2) = Done pd (built k t p sy s7 T2) ->
  block_desc_init (u_block_descs t) (vmach s7) = Ok (tt, set_ram r (vmach s7)) ->
  IF (km (built k t p sy (PageHeap.with_ram r s7) (set_pgdir pd T2))) = false ->
  t ∉ thread_ready_list (kt k) -> t ∉ thread_all_list (kt k) ->
  (pd ← create_page_dir im (S lk) sf;
   upd_task t (set_pgdir pd);; on_mach (block_desc_init (u_block_descs t));;
   kirqsave (append_ready t;;
     append_all t "!elem_find(&thread_all_list, &thread->all_list_tag)")) (built k t p sy s5 T2) =
  Done tt (set_kt (enlist t (set_pgdir pd T2) (set_next_pid p (kt k)))
             (built k t p sy (PageHeap.with_ram r s7) (set_pgdir pd T2))).
Proof.
  intros Hcp Hr HI Hnr Hna. rewrite (kbind_Done _ _ _ _ _ Hcp). cbv beta.
  rewrite (kbind_Done _ _ _ _ _ (built_upd _ _ _ _ _ _ _)). cbv beta.
  rewrite (kbind_Done _ _ _ _ _ (built_mach k t p sy (block_desc_init (u_block_descs t)) r s7 _ Hr)). cbv beta.
  set (k8 := built k t p sy (PageHeap.with_ram r s7) (set_pgdir pd T2)) in *.
  assert (HT8 : tasks (kt k8) !! t = Some (set_pgdir pd T2)).
  { unfold k8, built, upd_task_st. cbn [kt set_ks set_kt tasks set_tasks]. apply lookup_insert_eq. }
  rewrite (enlist_run t (set_pgdir pd T2)) by done. do 2 f_equal.
  unfold k8, built, enlist. cbn [kt set_ks set_kt]. by rewrite upd_task_twice.
Qed.

(** The whole run. *)
Lemma execute_run :
  can_execute ->
  exists t b pd i j l s1 s3 s6 q pg r3 r sy,
    exec_steps t b pd i j l s1 s3 s6 q pg r3 r /\
    new_pcb k t /\ lock_free pid_lock (set_ks sy k) /\ same_locks (ks k) sy /\
    same_cur k (vm_end r pg s6) /\
    let k8 := built k t p sy (vm_end r pg s6) (process_task t b pd) in
    process_execute im (S lk) sf f nm k =
      Done tt (set_kt (enlist t (process_task t b pd) (set_next_pid p (kt k))) k8).
Proof.
  intros Hce. pose proof Hce as [Hc Hroom Hbelow Hker].
  destruct (execute_stack Hce)
    as (i & j & s1 & s3 & r3 & sy & Hnp & Hf2 & Hlk & Hgot & Hgot3 & Hrun & Hcl & Hc5 & Hr5).
  cbv zeta in *. set (t := page_addr (vm_of k) i) in *. set (b := page_addr (vm_of k) j) in *.
  set (T2 := set_self_kstack _ _) in *.
  pose proof Hnp as [Hnew Hmain Hnr Hna [Ht0 Ht1]]. unfold PG_SIZE in Ht1.
  destruct (lists_cur _ (cs_sched _ _ _ _ Hc)) as [Tr HTr].
  assert (Hrs : is_Some (tasks (kt k) !! running (kt k))) by (by exists Tr).
  assert (Hne : running (kt k) <> t) by (intros E; rewrite E in HTr; congruence).
  pose proof (cs_pages _ _ _ _ Hc) as Hkp.
  destruct (vm_pcb_ok k i s1 Hkp Hgot) as ([_ Hp2] & Hv2 & _). fold t in Hp2, Hv2.
  destruct (bitmap_stack_ok i j s1 s3 r3 Hkp Hgot Hgot3 Hcl) as ([_ Hp5] & Hv5 & _). fold t in Hp5, Hv5. set (s5 := stack_vm t r3 s3) in *.
  assert (Em5 : vmem s5 = vmem (vm_of k)).
  { change (vmem s5) with (vmem s3). rewrite (gp_mem _ _ _ _ Hgot3). apply (gp_mem _ _ _ _ Hgot). }
  destruct (same_mem_views _ _ Em5) as (En5 & Ea5 & _).
  destruct (create_page_dir_ok k t p sy Hrs Hne im (S lk) sf 0 s5 T2 Hc5 Hp5)
    as (l & q & s6 & pg & Hcp & Hgot6 & Hc7 & Hp7 & Hw & Hsp & Hwalk);
    [|by rewrite Ea5|done|exact Hr5|].
  { apply (same_tables_below (vm_of k)); [done| |done]. intros u Hu.
    etransitivity; [apply (gp_pde _ _ _ _ Hgot3 u Hu)|apply (gp_pde _ _ _ _ Hgot u Hu)]. }
  rewrite Ea5 in Hcp, Hw. set (pd := page_addr (vm_of k) l) in *. cbv zeta in Hcp.
  set (s7 := set_vpg pg s6) in *.
  destruct (block_desc_loop_spec (u_block_descs t) DESC_CNT 0 (vmach s7)) as (r & Hr & Hds & Hag);
    [unfold u_block_descs; lia|unfold u_block_descs; lia|done|done|].
  exists t, b, pd, i, j, l, s1, s3, s6, q, pg, r3, r, sy.
  assert (Hes : exec_steps t b pd i j l s1 s3 s6 q pg r3 r).
  { split; try done.
    + destruct Hsp as [D1 D2 D3 D4]. split; try done. intros u Hu. rewrite Hwalk by (unfold vaddr_ok; lia).
      by apply D3.
    + eapply agree_weaken; [|exact Hag]. cbv beta. unfold within. intros a Ha. lia. }
  split; [exact Hes|split; [done|split; [done|split; [done|split; [exact Hc7|]]]]].
  - cbv zeta. unfold process_execute. etransitivity; [apply Hrun|]. cbv beta.
    apply (execute_tail t sy s5 s7 T2 pd r Hcp Hr); [|done|done].
    rewrite <- (qt_if _ (cs_quiet _ _ _ _ Hc)). apply (exec_flag _ _ _ _ _ _ _ _ _ _ _ _ _ Hes).
Qed.

(** The bytes the three runs of pages and the bitmaps take. *)
Definition exec_private (t b pd a : Z) : Prop :=
  bitmap_bytes (vm_of k) a \/ within t 4096 a \/ within b (23 * 4096) a \/ within pd 4096 a.

(** What it promises: a new READY process at the end of both lists, whose
    first frame enters [kernel_thread] with [start_process] and the program;
    an address bitmap for all of user space, empty; a directory that shares
    the kernel's part and maps nothing else; seven empty lists of blocks. *)
Record executed (t b pd : Z) (k' : kst) : Prop := {
  ex_new : tasks (kt k) !! t = None;
  ex_threads : kt k' = enlist t (process_task t b pd) (set_next_pid p (kt k));
  ex_lists : lists_ok (kt k');
  ex_sched : sched_inv (kt k) -> sched_inv (kt k');
  ex_quiet : quiet k';
  ex_locks : same_locks (ks k) (ks k');
  ex_heap : heap_variant (vm_of k) (vm_of k');
  ex_room : forall m, 0 <= m -> kernel_room (vm_of k) (25 + m) -> kernel_room (vm_of k') m;
  ex_pcbs : pcbs_allocated k';
  ex_apart : (t + 4096 <= b \/ b + 23 * 4096 <= t) /\ (t + 4096 <= pd \/ pd + 4096 <= t) /\
    (pd + 4096 <= b \/ b + 23 * 4096 <= pd);
  ex_frame : first_frame im (ram (km k')) (kstack_of t) start f;
  ex_bitmap : forall v, USER_VADDR_START <= v < 0xc0000000 ->
    rbit (ram (km k')) b ((v - USER_VADDR_START) / 4096) = false;
  ex_space : exists q, walk (kp k') pd = Some q /\ space_of (kp k') q (Paging q (pwords (kp k')));
  ex_descs : forall c, 0 <= c < 7 -> ld32 (ram (km k')) (desc_at (u_block_descs t) c) = bsz c /\
    ld32 (ram (km k')) (desc_at (u_block_descs t) c + 4) = per c /\
    list_at (ram (km k')) (lst (u_block_descs t) c) [];
  ex_memory : agree (fun a => ~ exec_private t b pd a) (ram (km k)) (ram (km k'))
}.

Lemma exec_apart t b pd i j l s1 s3 s6 q pg r3 r :
  kernel_pages (vm_of k) -> exec_steps t b pd i j l s1 s3 s6 q pg r3 r ->
  (t + 4096 <= b \/ b + 23 * 4096 <= t) /\ (t + 4096 <= pd \/ pd + 4096 <= t) /\
  (pd + 4096 <= b \/ b + 23 * 4096 <= pd).
Proof.
  intros Hkp [-> -> -> G1 G2 G3 Hcl Hv2 Hv5 _ _ _ _ _].
  destruct (same_mem_views _ _ (gp_mem _ _ _ _ G1)) as (En1 & _ & _).
  destruct (same_mem_views _ _ (gp_mem _ _ _ _ G2)) as (En3 & _ & _).
  change (npages (vm_pcb _ s1)) with (npages s1) in En3. rewrite En1 in En3.
  pose proof (gp_range _ _ _ _ G1) as [Hi Hi']. pose proof (gp_range _ _ _ _ G2) as [Hj Hj'].
  pose proof (gp_range _ _ _ _ G3) as [Hl Hl'].
  change (npages (vm_pcb _ s1)) with (npages s1) in Hj'. rewrite En1 in Hj'.
  change (npages (vm_stack _ _ _ _ _ s3)) with (npages s3) in Hl'. rewrite En3 in Hl'.
  pose proof (gp_free _ _ _ _ G1) as F1. pose proof (gp_free _ _ _ _ G2) as F2.
  pose proof (gp_free _ _ _ _ G3) as F3. pose proof (gp_used _ _ _ _ G1) as U1.
  pose proof (gp_used _ _ _ _ G2) as U2.
  change (npages (vm_pcb _ s1)) with (npages s1) in U2. rewrite En1 in U2.
  assert (Hti : i < j \/ j + 23 <= i).
  { destruct (decide (j <= i < j + 23)) as [Hx|]; [|lia]. specialize (F2 i Hx).
    rewrite Hv2, U1, decide_True in F2 by lia. done. }
  assert (Hil : i <> l).
  { intros ->. specialize (F3 l ltac:(lia)). rewrite Hv5, U2, decide_False in F3 by lia.
    rewrite Hv2, U1, decide_True in F3 by lia. done. }
  assert (Hlj : l < j \/ j + 23 <= l).
  { destruct (decide (j <= l < j + 23)) as [Hx|]; [|lia]. specialize (F3 l ltac:(lia)).
    rewrite Hv5, U2, decide_True in F3 by lia. done. }
  unfold page_addr. lia.
Qed.

(** From the third allocation on: nothing below it is touched again but the
    allocator's bytes and the block descriptors. *)
Lemma exec_tail t b pd i j l s1 s3 s6 q pg r3 r :
  exec_steps t b pd i j l s1 s3 s6 q pg r3 r ->
  agree (fun a => ~ bitmap_bytes (vm_of k) a /\ ~ within pd 4096 a /\ ~ within (u_block_descs t) 168 a)
    (ram_stack im r3 (kstack_of t) start f) r.
Proof.
  intros [_ _ Epd G1 G2 G3 _ _ _ _ _ _ _ Hend].
  destruct (same_mem_views _ _ (gp_mem _ _ _ _ G1)) as (_ & _ & Eb1).
  destruct (same_mem_views _ _ (gp_mem _ _ _ _ G2)) as (_ & Ea3 & Eb3).
  destruct (same_mem_views _ _ (gp_mem _ _ _ _ G1)) as (_ & Ea1 & _).
  apply (agree_trans _ _ (ram (vmach s6))).
  - eapply agree_weaken; [|exact (gp_ram _ _ _ _ G3)]. cbv beta. intros a (H1 & H2 & _).
    assert (Ep : page_addr (stack_vm t r3 s3) l = pd).
    { rewrite Epd, <- Ea1. etransitivity; [apply (Ea3 l)|done]. }
    rewrite Ep. split; [|by replace (4096 * 1) with 4096 by lia].
    intros Hx. apply H1. rewrite <- Eb1. apply (Eb3 a), Hx.
  - eapply agree_weaken; [|exact Hend]. cbv beta. tauto.
Qed.

Lemma exec_memory t b pd i j l s1 s3 s6 q pg r3 r :
  exec_steps t b pd i j l s1 s3 s6 q pg r3 r ->
  agree (fun a => ~ exec_private t b pd a) (ram (km k)) r.
Proof.
  intros H. pose proof (exec_tail _ _ _ _ _ _ _ _ _ _ _ _ _ H) as Htail.
  destruct H as [Et Eb _ G1 G2 _ [Hcl _] _ _ _ _ _ _ _].
  destruct (same_mem_views _ _ (gp_mem _ _ _ _ G1)) as (_ & Ea1 & Eb1).
  unfold exec_private.
  apply (agree_trans _ _ (ram (vmach s1))); [|apply (agree_trans _ _ (ram (vmach (vm_pcb t s1))));
    [|apply (agree_trans _ _ (ram (vmach s3))); [|apply (agree_trans _ _ r3);
    [|apply (agree_trans _ _ (ram_stack im r3 (kstack_of t) start f))]]]].
  - eapply agree_weaken; [|exact (gp_ram _ _ _ _ G1)]. cbv beta. rewrite <- Et.
    replace (4096 * 1) with 4096 by lia. tauto.
  - intros a Ha. cbn [vmach vm_pcb PageHeap.with_ram set_vmach ram set_ram].
    rewrite ld8_ram_fill, decide_False; [done|]. unfold within, u_block_descs in *. lia.
  - eapply agree_weaken; [|exact (gp_ram _ _ _ _ G2)]. cbv beta. intros a Ha.
    assert (Ep : page_addr (vm_pcb t s1) j = b) by (rewrite Eb, <- Ea1; done). rewrite Ep.
    split; [|intros Hx; apply Ha; right; right; left; unfold within in *; lia].
    intros Hx. apply Ha. left. rewrite <- Eb1. exact Hx.
  - eapply agree_weaken; [|exact Hcl]. cbv beta. unfold within, user_bitmap_len. intros; lia.
  - apply ram_stack_agree. unfold within, kstack_of. intros; lia.
  - eapply agree_weaken; [|exact Htail]. cbv beta. intros a Ha. unfold within, u_block_descs in *. split; [tauto|lia].
Qed.

(** The stack's frame and the bitmap's bytes are the last writes to their
    bytes. *)
Lemma exec_contents t b pd i j l s1 s3 s6 q pg r3 r :
  kernel_pages (vm_of k) -> exec_steps t b pd i j l s1 s3 s6 q pg r3 r ->
  first_frame im r (kstack_of t) start f /\ forall a, within b user_bitmap_len a -> ld8 r a = 0.
Proof.
  intros Hkp H. pose proof (exec_tail _ _ _ _ _ _ _ _ _ _ _ _ _ H) as Htail.
  destruct (exec_apart _ _ _ _ _ _ _ _ _ _ _ _ _ Hkp H) as (A1 & A2 & A3).
  destruct H as [Et Eb Epd G1 G2 G3 [_ Hcl] _ _ _ _ _ _ _].
  destruct (same_mem_views _ _ (gp_mem _ _ _ _ G1)) as (En1 & Ea1 & _).
  pose proof (gp_range _ _ _ _ G1) as Hi. pose proof (gp_range _ _ _ _ G2) as Hj.
  change (npages (vm_pcb t s1)) with (npages s1) in Hj. rewrite En1 in Hj.
  assert (Hout : forall a, page_addr (vm_of k) 0 <= a < page_addr (vm_of k) (npages (vm_of k)) ->
    ~ bitmap_bytes (vm_of k) a).
  { intros a Ha Hx. by apply (kp_bitmaps _ Hkp a Hx). }
  assert (Hstk : forall a, within b user_bitmap_len a -> ld8 r a = 0).
  { intros a Ha. rewrite Htail.
    - etransitivity; [|apply (Hcl a Ha)].
      apply (ram_stack_agree (fun a => within b user_bitmap_len a)); [|exact Ha].
      unfold within, kstack_of, user_bitmap_len. intros; lia.
    - unfold within, user_bitmap_len, u_block_descs in *. split; [|lia]. apply Hout.
      rewrite Eb in Ha. unfold page_addr in *. lia. }
  split; [|exact Hstk].
  - eapply first_frame_agree; [exact Htail| |apply first_frame_ram]. intros a Ha. cbv beta.
    unfold within, kstack_of, u_block_descs in *. split; [|lia]. apply Hout. rewrite Et in Ha.
    unfold page_addr in *. lia.
Qed.

Lemma exec_pages t b pd i j l s1 s3 s6 q pg r3 r :
  kernel_pages (vm_of k) -> exec_steps t b pd i j l s1 s3 s6 q pg r3 r ->
  heap_variant (vm_of k) (vm_end r pg s6) /\
  (forall x, 0 <= x < npages (vm_of k) -> vbit (vm_end r pg s6) x = false ->
     vbit (vm_of k) x = false /\ x <> i) /\
  (forall m, 0 <= m -> kernel_room (vm_of k) (25 + m) -> kernel_room (vm_end r pg s6) m).
Proof.
  intros Hkp [Et Eb _ G1 G2 G3 Hcl Hb2 Hb5 Hp7 _ _ _ Hend].
  destruct (vm_pcb_ok k i s1 Hkp G1) as (_ & _ & Hr2). rewrite <- Et in Hr2.
  pose proof G2 as G2'. rewrite Et in G2'. rewrite Eb in Hcl.
  destruct (bitmap_stack_ok i j s1 s3 r3 Hkp G1 G2' Hcl) as (Hv5 & _ & Hr5). rewrite <- Et in Hv5, Hr5.
  pose proof (got_variant _ _ _ _ _ Hv5 G3) as Hv6.
  assert (Hv7 : heap_variant (vm_of k) (set_vpg pg s6)) by (split; [apply (hv_mem _ _ Hv6)|exact Hp7]).
  pose proof (gp_range _ _ _ _ G1) as Hi.
  destruct (variant_write (vm_of k) (set_vpg pg s6) r i 1 Hkp Hv7) as (Hv8 & Hb8 & Hr8); [lia..| |].
  { eapply agree_weaken; [|exact Hend]. cbv beta. rewrite <- Et. unfold within, u_block_descs. intros; lia. }
  destruct (same_mem_views _ _ (gp_mem _ _ _ _ G1)) as (En1 & _).
  destruct (same_mem_views _ _ (gp_mem _ _ _ _ G2)) as (En3 & _).
  change (npages (vm_pcb t s1)) with (npages s1) in En3. rewrite En1 in En3.
  split; [exact Hv8|]. split.
  - intros x Hx. unfold vm_end. rewrite Hb8 by done. change (vbit (set_vpg pg s6) x) with (vbit s6 x).
    rewrite (gp_used _ _ _ _ G3) by (change (npages (stack_vm t r3 s3)) with (npages s3); lia).
    case_decide; [done|]. rewrite Hb5 by done.
    rewrite (gp_used _ _ _ _ G2) by (change (npages (vm_pcb t s1)) with (npages s1); lia).
    case_decide; [done|]. rewrite Hb2, (gp_used _ _ _ _ G1) by done.
    case_decide; [done|]. intros Hx0. split; [exact Hx0|lia].
  - intros m Hm Hr. apply Hr8. change (kernel_room s6 m). apply (gp_room _ _ _ _ G3); [done|].
    apply Hr5, (gp_room _ _ _ _ G2 (1 + m)); [lia|]. apply Hr2, (gp_room _ _ _ _ G1 (23 + (1 + m))); [lia|].
    by replace (1 + (23 + (1 + m))) with (25 + m) by lia.
Qed.

Lemma execute_end t b pd i j l s1 s3 s6 q pg r3 r sy :
  can_execute -> exec_steps t b pd i j l s1 s3 s6 q pg r3 r -> new_pcb k t ->
  lock_free pid_lock (set_ks sy k) -> same_locks (ks k) sy -> same_cur k (vm_end r pg s6) ->
  executed t b pd (set_kt (enlist t (process_task t b pd) (set_next_pid p (kt k)))
    (built k t p sy (vm_end r pg s6) (process_task t b pd))).
Proof.
  intros [Hc _ _ _] H Hnp Hf2 Hlk Hcur. pose proof Hnp as [Hnew _ _ _ [Ht0 Ht1]].
  pose proof Hc as [[HI Hr0 _] Hsc Hkp _ Hpcb _ _ _ _ _].
  destruct (exec_pages _ _ _ _ _ _ _ _ _ _ _ _ _ Hkp H) as (Hvar & Hbits & Hroom).
  destruct (exec_contents _ _ _ _ _ _ _ _ _ _ _ _ _ Hkp H) as [Hff Hz].
  set (T := process_task t b pd) in *. set (k8 := built _ _ _ _ _ _).
  assert (Hk8 : kt k8 = upd_task_st t (fun _ => T) (set_next_pid p (kt k))) by done.
  assert (Hne : running (kt k) <> t).
  { intros E. destruct (lists_cur _ Hsc) as [Tr HTr]. rewrite E in HTr. congruence. }
  assert (Hvm : vm_of (set_kt (enlist t T (set_next_pid p (kt k))) k8) = vm_end r pg s6).
  { rewrite <- (built_vm k t p sy Hne (vm_end r pg s6) T Hcur). reflexivity. }
  split; try done.
  - apply enlist_lists; [by destruct Hsc|done|lia|done].
  - rewrite !sched_lists. intros [Hl Hi]. split; [|by apply enlist_idle].
    apply enlist_lists; [by destruct Hl|done|lia|done].
  - split; [|done|exact Hf2]. change (IF (vmach (vm_end r pg s6)) = false).
    rewrite <- HI. apply (exec_flag _ _ _ _ _ _ _ _ _ _ _ _ _ H).
  - by rewrite Hvm.
  - apply (pcbs_enlisted k t T p _ i (es_t _ _ _ _ _ _ _ _ _ _ _ _ _ H) Hpcb); [by rewrite Hvm| |done].
    rewrite Hvm. exact Hbits.
  - by apply (exec_apart _ _ _ _ _ _ _ _ _ _ _ _ _ Hkp H).
  - intros v Hv. apply (clear_bits_zero _ _ user_bitmap_len); [exact Hz|].
    unfold USER_VADDR_START, user_bitmap_len in *. Z.div_mod_to_equations; lia.
  - exists q. split; [apply (es_walk _ _ _ _ _ _ _ _ _ _ _ _ _ H)|apply (es_space _ _ _ _ _ _ _ _ _ _ _ _ _ H)].
  - apply (es_descs _ _ _ _ _ _ _ _ _ _ _ _ _ H).
  - by apply (exec_memory _ _ _ _ _ _ _ _ _ _ _ _ _ H).
Qed.
End execute.

(** C19: [process_execute], with interrupts off and 25 pages to spare, makes a
    process: it is READY and last in the ready list and in the list of all
    threads, its first run enters [start_process] with the program; its
    directory maps the kernel's addresses as the current one does and no
    user address, every page of user space is free in its address bitmap, its
    byte heap has seven empty lists; PCB, bitmap and directory lie in pages
    of their own, the page heap and the scheduler keep their invariants, and
    no other byte changes than those of the new pages and of the allocator's
    bitmaps. *)
Theorem process_execute_ok im lk sf nm f s k :
  can_execute sf nm s k ->
  exists t b pd k', process_execute im (S lk) sf f nm k = Done tt k' /\ executed im f s k t b pd k'.
Proof.
  intros Hce. destruct (execute_run im lk sf nm f s k Hce)
    as (t & b & pd & i & j & l & s1 & s3 & s6 & q & pg & r3 & r & sy & Hes & Hnp & Hf & Hlk & Hcur & Hrun).
  exists t, b, pd. eexists. split; [exact Hrun|].
  exact (execute_end im sf nm f s k _ _ _ _ _ _ _ _ _ _ _ _ _ sy Hce Hes Hnp Hf Hlk Hcur).
Qed.

(** After [mem_init]: the main thread running, the idle thread blocked, a
    name in the kernel's data. *)
Definition demo_boot : kst := set_kp demo_loader demo_spawn.

Lemma demo_boot_ready k' :
  heap_ready demo_boot 480 k' ->
  agree (fun a => ~ MEM_BITMAP_BASE <= a < MEM_BITMAP_BASE + 0x3000 /\ ~ within demo_descs 168 a)
    (ram (km demo_boot)) (ram (km k')) ->
  can_execute 9 0xc0005000 [116; 49] k'.
Proof.
  intros [H1 (N1 & N2 & N3 & N4) Hroom Hbelow (_ & _ & Hlocks) Hbm (Et & Ep & _ & Hfl & _)] Hag.
  pose proof demo_can_spawn as [[HI Hr [L1 L2]] Hsc _ _ Hpcb Hn0 Hnm Hsf Hlen _].
  split; [|apply Hroom; lia|done|rewrite N3; done].
  split; try done.
  - split.
    + unfold IF. rewrite Hfl. exact HI.
    + by rewrite Et.
    + apply (locks_but_free _ _ demo_boot _ Hlocks); [set_solver|by split].
  - by rewrite Et.
  - by apply Hroom.
  - split.
    + intros i Hi _. assert (Ha : page_addr (vm_of k') i = K_HEAP_START + 4096 * i).
      { unfold page_addr in *. lia. }
      rewrite Ha, Et. unfold K_HEAP_START. simpl. rewrite lookup_insert, lookup_singleton, !decide_False by lia.
      split; [done|lia].
    + rewrite Et. apply Hpcb.
  - eapply cstr_agree; [|exact Hnm]. eapply agree_weaken; [|exact Hag].
    intros a Ha. unfold MEM_BITMAP_BASE, within, demo_descs. simpl in Ha. lia.
  - intros a Ha. unfold within in Ha. simpl in Ha. split.
    + intros Hx%Hbm. unfold MEM_BITMAP_BASE in Hx. lia.
    + rewrite N3. unfold K_HEAP_START. lia.
Qed.

Lemma process_execute_ok_witness :
  exists k1, mem_init demo_descs demo_boot = Done tt k1 /\
  exists t b pd k', process_execute demo_image 1 9 0x8048000 0xc0005000 k1 = Done tt k' /\
    executed demo_image 0x8048000 [116; 49] k1 t b pd k'.
Proof.
  destruct (mem_init_run demo_descs demo_boot demo_loader_tables) as (k1 & Hr & Hh & _ & Hag); [done|done|].
  exists k1. split; [exact Hr|].
  apply (process_execute_ok demo_image 0 9 0xc0005000 0x8048000 [116; 49] k1), demo_boot_ready; done.
Defined.
