(* ===== verification/Printk.v ===== *)
(** * Printing: [lib/kernel/stdio-kernel.c], [printf] of [lib/stdio.c]

    Both format into a cleared buffer of 1024 bytes on the caller's stack,
    at the address [buf], and send it on: the kernel to the console, a
    program through the system call. *)
From S2P Require Import Prelude Machine Global Str Stdio Bitmap Paging Kernel Thread Sync Console.
From S2P Require Import Memory Arena Interrupt Syscall.

Definition printk (lkfuel fuel sfuel : nat) (buf format format_addr : Z) : K unit :=
  on_mach (memset_loop 1024 buf 0);;
  on_mach (vsprintf fuel sfuel buf format format_addr);;
  console_put_str lkfuel sfuel buf.

Definition printf (im : image) (kd : Z) (lkfuel hfuel lfuel fuel sfuel : nat) (eax0 : Z)
    (buf format format_addr : Z) : K Z :=
  on_mach (memset_loop 1024 buf 0);;
  on_mach (vsprintf fuel sfuel buf format format_addr);;
  write im kd lkfuel hfuel lfuel sfuel eax0 buf.

(** [printk] prints the rendering of its format and arguments, of at
    most 1023 characters, and leaves the console free; outside its buffer no
    memory changes. *)
Theorem printk_prints lk n sfuel buf format f ap args res k :
  IF (km k) = false -> lock_free console_lock k -> running (kt k) <> 0 ->
  0 < buf -> buf + 1024 <= 4294967296 ->
  cstr (ram (km k)) format f -> out_of_buf buf (buf + 1024) format (Z.of_nat (length f) + 1) ->
  args_at buf (buf + 1024) sfuel (ram_fill (ram (km k)) buf 0 1024) ap args ->
  render f args = Some res -> (length f < n)%nat -> (length res < sfuel)%nat ->
  Forall (fun c => 0 < c < 256) res -> (length res < 1024)%nat ->
  exists sy r', printk (S lk) n sfuel buf format ap k =
      Done tt (set_ks sy (set_km (print res (set_ram r' (km k))) k)) /\
    lock_free console_lock (set_ks sy k) /\
    agree (fun a => ~ buf <= a < buf + 1024) (ram (km k)) r'.
Proof.
  intros HI Hf Hr Hb Hbe Hfm Hfo Hargs Hren Hn Hsf Hby Hlen.
  set (r1 := ram_fill (ram (km k)) buf 0 1024) in *.
  assert (Hag1 : agree (fun a => ~ buf <= a < buf + 1024) (ram (km k)) r1).
  { intros a Ha. unfold r1. by rewrite ld8_ram_fill, decide_False by lia. }
  assert (Hz : forall a, buf <= a < buf + 1024 -> ld8 r1 a = 0).
  { intros a Ha. unfold r1. by rewrite ld8_ram_fill, decide_True by lia. }
  assert (Hm : on_mach (memset_loop 1024 buf 0) k = Done tt (set_km (set_ram r1 (km k)) k)).
  { unfold on_mach. by erewrite lift_Ok by apply memset_loop_eq. }
  clearbody r1. destruct (vsprintf_spec buf (buf + 1024) sfuel n format f ap args res (set_ram r1 (km k)))
    as (r' & Hv & Hs & Hag); try done; [| |lia|].
  - eapply cstr_agree; [|exact Hfm]. eapply agree_weaken; [|exact Hag1]. cbv beta.
    unfold out_of_buf in Hfo. intros a Ha. lia.
  - unfold filled. split; [done|]. intros a Ha. apply Hz. cbn [length] in Ha. lia.
  - destruct (console_put_str_free lk sfuel buf res (set_km (set_ram r' (km k)) k)) as (sy & Hc & Hf2);
      [done..|lia|lia|done|].
    exists sy, r'. split; [|split; [exact Hf2|by transitivity r1]].
    unfold printk. rewrite (kbind_Done _ _ _ _ _ Hm). cbv beta.
    assert (Hv' : on_mach (vsprintf n sfuel buf format ap) (set_km (set_ram r1 (km k)) k) =
      Done (Z.of_nat (length res)) (set_km (set_ram r' (km k)) k)).
    { unfold on_mach. by erewrite lift_Ok by exact Hv. }
    rewrite (kbind_Done _ _ _ _ _ Hv'). exact Hc.
Qed.

Definition demo_printer : kst :=
  set_kt (set_running 0xc0100000 (kt bss_kst))
    (set_ks (SyncSt {[lock_semaphore console_lock := Sema 1 []]} ∅) (set_km demo_fmt bss_kst)).

Lemma printk_prints_witness :
  exists sy r', printk 1 10 10 64 16 32 demo_printer =
      Done tt (set_ks sy (set_km (print [97; 45; 53; 70; 70] (set_ram r' demo_fmt)) demo_printer)) /\
    lock_free console_lock (set_ks sy demo_printer) /\
    agree (fun a => ~ 64 <= a < 64 + 1024) (ram demo_fmt) r'.
Proof.
  apply (printk_prints 0 10 10 64 16 [97; 37; 100; 37; 120] 32 [AWord 4294967291; AWord 255]
    [97; 45; 53; 70; 70] demo_printer).
  - reflexivity.
  - split; reflexivity.
  - discriminate.
  - lia.
  - lia.
  - by vm_compute.
  - left. change (Z.of_nat (length [97; 37; 100; 37; 120])) with 5. lia.
  - split; [split; [left; lia|]|split; [split; [left; lia|]|done]]; vm_compute; by repeat split.
  - by vm_compute.
  - cbn. lia.
  - cbn. lia.
  - repeat constructor.
  - cbn. lia.
Defined.
