(* ===== verification/Boot.v ===== *)
(** * Initialisation of the devices: [timer_init], [keyboard_init]

    The programming of the 8253 by [device/timer.c] and the registration of
    the clock's and the keyboard's handlers. *)
From S2P Require Import Prelude Machine Global Str Paging Kernel Thread Timer Sync Ioqueue Console.
From S2P Require Import Interrupt.

Definition COUNTER0_VALUE : Z := INPUT_FREQUENCY / IRQ0_FREQUENCY.
Definition CONTRER0_PORT : Z := 0x40.
Definition COUNTER0_NO : Z := 0.
Definition COUNTER_MODE : Z := 2.
Definition READ_WRITE_LATCH : Z := 3.
Definition PIT_CONTROL_PORT : Z := 0x43.

(** [(uint8_t)counter_value>>8] shifts what the cast left. *)
Definition frequency_set (counter_port counter_no rwl counter_mode counter_value : Z) : M mach unit :=
  outb PIT_CONTROL_PORT
    (u8 (Z.lor (Z.lor (Z.shiftl counter_no 6) (Z.shiftl rwl 4)) (Z.shiftl counter_mode 1)));;
  outb counter_port (u8 counter_value);;
  outb counter_port (Z.shiftr (u8 counter_value) 8).

Definition timer_init (im : image) : M mach unit :=
  put_line "timer_init start.";;
  frequency_set (u8 CONTRER0_PORT) (u8 COUNTER0_NO) (u8 READ_WRITE_LATCH) (u8 COUNTER_MODE)
    (u16 COUNTER0_VALUE);;
  register_handler im 0x20 (fn im "intr_timer_handler");;
  put_line "timer_init done.".

Definition keyboard_init (im : image) : K unit :=
  on_mach (put_line "keyboard init start");;
  ioqueue_init;;
  on_mach (register_handler im 0x21 (fn im "intr_keyboard_handler"));;
  on_mach (put_line "keyboard init done").

(** ** The 8253's counter 0

    A control word selects the counter, how its value is transferred and the
    mode; with transfer 3 the low byte comes first, then the high byte.  A
    value of 0 counts 65536. *)
Record pit := Pit { pit_rw : Z; pit_mode : Z; pit_low : option Z; pit_count : Z }.

Definition pit_event (p : pit) (e : port_io) : pit :=
  match e with
  | Outb port v =>
      if port =? PIT_CONTROL_PORT then
        if v / 64 =? 0 then Pit (v / 16 mod 4) (v / 2 mod 8) None (pit_count p) else p
      else if port =? CONTRER0_PORT then
        if pit_rw p =? 3 then
          match pit_low p with
          | None => Pit (pit_rw p) (pit_mode p) (Some v) (pit_count p)
          | Some low => Pit (pit_rw p) (pit_mode p) None (low + 256 * v)
          end
        else p
      else p
  | _ => p
  end.

Definition pit_state (l : list port_io) (p : pit) : pit := foldl pit_event p l.

(** [timer_init] registers the clock's handler at vector 0x20 and puts
    counter 0 in mode 2, but the divisor it programs is 155, the low byte of
    the 11931 it computes: the clock ticks 7697 times a second, not
    [IRQ0_FREQUENCY] times. *)
Theorem timer_init_divisor im m p :
  exists m', timer_init im m = Ok (tt, m') /\
    ld32 (ram m') (idt_table im + 4 * 0x20) = u32 (fn im "intr_timer_handler") /\
    agree (fun a => ~ within (idt_table im + 4 * 0x20) 4 a) (ram m) (ram m') /\
    pit_state (ports m') p = Pit 3 2 None 155 /\
    COUNTER0_VALUE = 11931 /\ INPUT_FREQUENCY / 155 = 7697 /\ IRQ0_FREQUENCY = 100.
Proof.
  eexists. split; [reflexivity|]. cbn [print set_ram set_ports ram ports].
  change (u8 0x20) with 0x20. split_and!; [apply ld32_st32_eq| | |done..].
  - apply agree_st32. unfold within. tauto.
  - unfold pit_state. rewrite !foldl_app. by destruct (foldl pit_event p (ports m)).
Qed.
