(* ===== verification/Run.v ===== *)
(** * Runs of a kernel computation against an environment

    [runs E Q r]: the computation [r], whenever it is out (switched away, or
    stopped at an interrupt window) and comes back in a state the environment
    [E] allows, is back in finitely many steps with a result that satisfies
    [Q]; it never panics and never runs out of fuel.  Total correctness under
    a demonic environment.

    [runs_or E B Q r] is the same but for the fuel, which may run out when
    [B] holds: for a loop that waits for the clock, which no number of steps
    of this thread moves on.  [runs] is [runs_or] with [B] false. *)
From S2P Require Import Prelude Machine Bitmap Paging Kernel Thread Sync.

Inductive runs_or (E : kst -> kst -> Prop) (B : Prop) {A} (Q : A -> kst -> Prop) : res A -> Prop :=
| runs_Done a k : Q a k -> runs_or E B Q (Done a k)
| runs_Switch k c : (forall k', E k k' -> runs_or E B Q (c k')) -> runs_or E B Q (Switch k c)
| runs_Window k c : (forall k', E k k' -> runs_or E B Q (c k')) -> runs_or E B Q (Window k c)
| runs_KNoFuel : B -> runs_or E B Q KNoFuel.

Abbreviation runs E := (runs_or E False).

(** More may be allowed. *)
Lemma runs_weaken E (B B' : Prop) {A} (Q : A -> kst -> Prop) r : (B -> B') -> runs_or E B Q r -> runs_or E B' Q r.
Proof. intros HB Hr. induction Hr; constructor; auto. Qed.

Lemma runs_total E B {A} (Q : A -> kst -> Prop) r : ~ B -> runs_or E B Q r -> runs E Q r.
Proof. intros HB. by apply runs_weaken. Qed.

Section runs.
Context (E : kst -> kst -> Prop) {B : Prop}.
Local Abbreviation runs := (runs_or E B).

Lemma runs_bind {A C} (m : K A) (f : A -> K C) Q R k :
  runs Q (m k) -> (forall a k', Q a k' -> runs R (f a k')) -> runs R ((m ≫= f) k).
Proof.
  unfold mbind, K_bind. intros Hm Hf. induction Hm; simpl; [by apply Hf|by constructor..].
Qed.

Lemma runs_conseq {A} (Q R : A -> kst -> Prop) r :
  runs Q r -> (forall a k, Q a k -> R a k) -> runs R r.
Proof. intros Hr HQ. induction Hr; constructor; auto. Qed.

Lemma runs_step {A C} (m : K A) (f : A -> K C) Q k a k1 :
  m k = Done a k1 -> runs Q (f a k1) -> runs Q ((m ≫= f) k).
Proof. intros Hm. by rewrite (kbind_Done _ _ _ _ _ Hm). Qed.

(** A window is passed at once, or taken and left in a state [E] allows. *)
Lemma runs_window {A} (f : unit -> K A) Q k :
  runs Q (f tt k) -> (forall k', E k k' -> runs Q (f tt k')) -> runs Q ((irq_window ≫= f) k).
Proof.
  intros H1 H2. unfold irq_window, mbind, K_bind. destruct (IF (km k)); simpl; [|done].
  by constructor.
Qed.

(** [thread_block] comes back as soon as the thread runs again. *)
Lemma runs_block {A} (stat : task_status) (f : unit -> K A) Q k :
  blocking stat = true -> sched_inv (kt k) -> dirs_ok (tasks (kt k)) (kp k) ->
  (forall pg e0 k', pwords pg = pwords (kp k) ->
     E (switched pg e0 (sched_step (block_st stat (kt k))) k) k' ->
     runs Q (f tt (set_km (set_if (IF (km k)) (km k')) k'))) ->
  runs Q ((thread_block stat ≫= f) k).
Proof.
  intros Hb Hs Hd Hk. destruct (thread_block_eq stat k Hb Hs Hd) as (pg & e0 & c & Heq & Hc & Hpw & _).
  rewrite (kbind_Switch _ _ _ _ _ Heq). constructor. intros k' HE. rewrite Hc. by eapply Hk.
Qed.

(** [thread_yield] comes back as soon as the thread runs again. *)
Lemma runs_yield {A} (f : unit -> K A) Q k :
  sched_inv (kt k) -> dirs_ok (tasks (kt k)) (kp k) ->
  (forall pg e0 k', pwords pg = pwords (kp k) ->
     E (switched pg e0 (sched_step (yield_st (kt k))) k) k' ->
     runs Q (f tt (set_km (set_if (IF (km k)) (km k')) k'))) ->
  runs Q ((thread_yield ≫= f) k).
Proof.
  intros Hs Hd Hk. destruct (thread_yield_eq k Hs Hd) as (pg & e0 & c & Heq & Hc & Hpw & _).
  rewrite (kbind_Switch _ _ _ _ _ Heq). constructor. intros k' HE. rewrite Hc. by eapply Hk.
Qed.
End runs.
