(* ===== verification/LockRun.v ===== *)
(** * A lock used under an environment

    An interface: what a thread knows while it uses a lock that nobody else
    takes meanwhile, and the runs of [lock_acquire] and [lock_release] under
    it, with an interrupt possible at every window.  [I L S] are the states in
    which the lock is [L] and its semaphore [S]. *)
From S2P Require Import Prelude Machine Bitmap Paging Kernel Thread Sync Run.

Class LockUse (E : kst -> kst -> Prop) (l : lock_id) (t : Z) (I : lock -> semaphore -> kst -> Prop) := {
  lu_run L S k : I L S k -> running (kt k) = t;
  lu_lock L S k : I L S k -> lock_at (ks k) l = L;
  lu_sema L S k : I L S k -> sema_at (ks k) (lock_semaphore l) = S;
  lu_env L S k k' : I L S k -> E k k' -> I L S k';
  lu_set L S k s : I L S k -> locks_but [l] (ks k) s ->
    I (lock_at s l) (sema_at s (lock_semaphore l)) (set_ks s k)
}.

Section lock.
Context {E : kst -> kst -> Prop} {B : Prop} {l : lock_id} {t : Z} {I : lock -> semaphore -> kst -> Prop}.
Context `{HU : !LockUse E l t I} (Ht : t <> 0).

Lemma runs_window_in {A} (f : unit -> K A) Q L S k :
  I L S k -> (forall k', I L S k' -> runs_or E B Q (f tt k')) -> runs_or E B Q ((irq_window ≫= f) k).
Proof.
  intros H Hf. apply runs_window; [by apply Hf|]. intros k' HE. apply Hf. by eapply lu_env.
Qed.

(** An update of the lock or of its semaphore. *)
Lemma lu_upd_lock L S k f : I L S k -> I (f L) S (set_ks (upd_lock_st l f (ks k)) k).
Proof.
  intros H. assert (Hb : locks_but [l] (ks k) (upd_lock_st l f (ks k))) by locks_but_upd.
  pose proof (lu_set _ _ _ _ H Hb) as H'. rewrite lock_at_upd, decide_True in H' by done.
  rewrite sema_at_upd_lock in H'. by rewrite (lu_lock _ _ _ H), (lu_sema _ _ _ H) in H'.
Qed.

Lemma lu_upd_sema L S k f : I L S k -> I L (f S) (set_ks (upd_sema_st (lock_semaphore l) f (ks k)) k).
Proof.
  intros H. assert (Hb : locks_but [l] (ks k) (upd_sema_st (lock_semaphore l) f (ks k))) by locks_but_upd.
  pose proof (lu_set _ _ _ _ H Hb) as H'. rewrite sema_at_upd, decide_True in H' by done.
  rewrite lock_at_upd_sema in H'. by rewrite (lu_lock _ _ _ H), (lu_sema _ _ _ H) in H'.
Qed.

Lemma runs_lock_acquire fuel k :
  I (Lock 0 0) (Sema 1 []) k ->
  runs_or E B (fun _ k' => I (Lock t 1) (Sema 0 []) k') (lock_acquire (S fuel) l k).
Proof.
  intros H. unfold lock_acquire. eapply runs_window_in; [exact H|]. clear k H. intros k H.
  unfold get_lock, running_thread. kstep. kstep. rewrite (lu_lock _ _ _ H), (lu_run _ _ _ H).
  rewrite decide_True by done. eapply runs_window_in; [exact H|]. clear k H. intros k H.
  rewrite (kbind_Done _ _ _ _ _ (sema_down_free fuel (lock_semaphore l) k ltac:(by rewrite (lu_sema _ _ _ H)))).
  eapply runs_window_in; [exact (lu_upd_sema _ _ _ (set_value 0) H)|]. clear k H. intros k H. kstep.
  rewrite (lu_run _ _ _ H). kstep.
  eapply runs_window_in; [exact (lu_upd_lock _ _ _ (set_holder t) H)|]. clear k H. intros k H. kstep.
  rewrite (lu_lock _ _ _ H). kstep. eapply runs_window_in; [exact H|]. clear k H. intros k H. constructor.
  exact (lu_upd_lock _ _ _ (set_repeat 1) H).
Qed.

Lemma runs_lock_release k :
  I (Lock t 1) (Sema 0 []) k ->
  runs_or E B (fun _ k' => I (Lock 0 0) (Sema 1 []) k') (lock_release l k).
Proof.
  intros H. unfold lock_release. eapply runs_window_in; [exact H|]. clear k H. intros k H.
  unfold get_lock, running_thread. kstep. kstep. rewrite (lu_lock _ _ _ H), (lu_run _ _ _ H).
  rewrite bool_decide_true by done. kstep. eapply runs_window_in; [exact H|]. clear k H. intros k H.
  kstep. rewrite (lu_lock _ _ _ H). rewrite decide_False by (simpl; lia).
  eapply runs_window_in; [exact H|]. clear k H. intros k H. kstep.
  rewrite (lu_lock _ _ _ H). kstep. eapply runs_window_in; [exact H|]. clear k H. intros k H. kstep.
  eapply runs_window_in; [exact (lu_upd_lock _ _ _ (set_holder 0) H)|]. clear k H. intros k H. kstep.
  eapply runs_window_in; [exact (lu_upd_lock _ _ _ (set_repeat 0) H)|]. clear k H. intros k H.
  rewrite sema_up_free by exact (lu_sema _ _ _ H). constructor.
  exact (lu_upd_sema _ _ _ (set_value 1) H).
Qed.
End lock.
