(* ===== verification/Ide.v ===== *)
(** * The IDE driver: [device/ide.c]

    The channels, disks and partitions are structures in memory at the
    address the linker gave [channels]; the lock and the semaphore of channel
    [n] are [channel_lock n] and [disk_done n] of the kernel state.  What the
    ports answer is the parameter [hw]. *)
From S2P Require Import Prelude Machine Global Str Stdio Bitmap KList Paging Kernel Thread Timer.
From S2P Require Import Sync Console Memory Arena Interrupt Syscall Printk.

(** ** Structures: [device/ide.h]

    [struct ide_channel]: [name] 0, [port_base] 8, [irq_no] 10,
    [expecting_intr] 12, [lock] 16, [disk_done] 44, [devices] 64.
    [struct disk]: [name] 0, [my_channel] 8, [dev_no] 12, [prim_parts] 16,
    [logic_parts] 272.  [struct partition]: [name] 0, [start_lba] 8,
    [sec_cnt] 12, [my_disk] 16, [part_tag] 20, [sb] 28, [block_bitmap] 32,
    [inode_bitmap] 40, [open_inodes] 48. *)
Definition sizeof_partition : Z := 64.
Definition sizeof_disk : Z := 784.
Definition sizeof_ide_channel : Z := 1632.

Definition port_base_of (channel : Z) : M mach Z := load16 (channel + 8).
Definition irq_no_of (channel : Z) : M mach Z := load8 (channel + 10).
Definition my_channel (hd : Z) : M mach Z := load32 (hd + 8).
Definition dev_no_of (hd : Z) : M mach Z := load8 (hd + 12).
Definition device_at (channel i : Z) : Z := channel + 64 + sizeof_disk * i.
Definition prim_part (hd i : Z) : Z := hd + 16 + sizeof_partition * i.
Definition logic_part (hd i : Z) : Z := hd + 272 + sizeof_partition * i.

(** Link addresses of the driver's variables. *)
Record ide_link := IdeLink {
  channels : Z;
  partition_list : Z;
  v_channel_cnt : Z;      (* uint8_t channel_cnt *)
  v_ext_lba_base : Z;     (* int32_t ext_lba_base *)
  v_p_no : Z;             (* int8_t p_no *)
  v_l_no : Z              (* int8_t l_no *)
}.

Definition BIT_STAT_BSY : Z := 0x80.
Definition BIT_STAT_DRQ : Z := 0x08.
Definition BIT_DEV_MBS : Z := 0xA0.
Definition BIT_DEV_LBA : Z := 0x40.
Definition BIT_DEV_DEV : Z := 0x10.
Definition CMD_IDENTIFY : Z := 0xec.
Definition CMD_READ_SECTOR : Z := 0x20.
Definition CMD_WRITE_SECTOR : Z := 0x30.
Definition max_lba : Z := 64 * 1024 * 1024 / 512 - 1.

(** The registers of a channel. *)
Definition reg_data (pb : Z) : Z := pb + 0.
Definition reg_sect_cnt (pb : Z) : Z := pb + 2.
Definition reg_lba_l (pb : Z) : Z := pb + 3.
Definition reg_lba_m (pb : Z) : Z := pb + 4.
Definition reg_lba_h (pb : Z) : Z := pb + 5.
Definition reg_dev (pb : Z) : Z := pb + 6.
Definition reg_status (pb : Z) : Z := pb + 7.
Definition reg_cmd (pb : Z) : Z := reg_status pb.

(** ** Commands *)

Definition select_disk (hd : Z) : M mach unit :=
  dev ← dev_no_of hd;
  let reg_device := Z.lor BIT_DEV_MBS BIT_DEV_LBA in
  let reg_device := if decide (dev = 1) then u8 (Z.lor reg_device BIT_DEV_DEV) else reg_device in
  c ← my_channel hd;
  pb ← port_base_of c;
  outb (reg_dev pb) reg_device.

Definition select_sector (hd lba sec_cnt : Z) : M mach unit :=
  ASSERT (bool_decide (lba <= max_lba)) "lba <= max_lba";;
  channel ← my_channel hd;
  pb ← port_base_of channel;
  dev ← dev_no_of hd;
  outb (reg_sect_cnt pb) sec_cnt;;
  outb (reg_lba_l pb) lba;;
  outb (reg_lba_m pb) (Z.shiftr lba 8);;
  outb (reg_lba_h pb) (Z.shiftr lba 16);;
  outb (reg_dev pb)
    (Z.lor (Z.lor (Z.lor BIT_DEV_MBS BIT_DEV_LBA) (if decide (dev = 1) then BIT_DEV_DEV else 0))
       (Z.shiftr lba 24)).

Definition cmd_out (channel cmd : Z) : M mach unit :=
  store32 (channel + 12) 1;;
  pb ← port_base_of channel;
  outb (reg_cmd pb) cmd.

Definition size_in_byte (sec_cnt : Z) : Z :=
  if decide (sec_cnt = 0) then 256 * 512 else sec_cnt * 512.

Section driver.
Context (hw : bus) (ln : ide_link).

Definition read_from_sector (hd buf sec_cnt : Z) : M mach unit :=
  c ← my_channel hd;
  pb ← port_base_of c;
  insw hw (Z.to_nat (size_in_byte sec_cnt / 2)) (reg_data pb) buf.

Definition write2sector (hd buf sec_cnt : Z) : M mach unit :=
  c ← my_channel hd;
  pb ← port_base_of c;
  outsw (Z.to_nat (size_in_byte sec_cnt / 2)) (reg_data pb) buf.

(** The number of a channel, which names its lock and semaphore. *)
Definition channel_no (channel : Z) : nat :=
  Z.to_nat ((channel - channels ln) / sizeof_ide_channel).

(** [busy_wait].  The loop's condition [time_limit -=10 >= 0] subtracts the
    value of the comparison, one, and is the difference.  [lkfuel] bounds the
    waiting for the clock in [mtime_sleep]. *)
Fixpoint busy_wait_loop (rounds lkfuel : nat) (channel time_limit : Z) : K Z :=
  match rounds with
  | O => kno_fuel
  | S rounds =>
      let time_limit := u16 (time_limit - 1) in
      if decide (time_limit <> 0) then
        pb ← on_mach (port_base_of channel);
        st ← on_mach (inb hw (reg_status pb));
        if decide (Z.land st BIT_STAT_BSY = 0) then
          st ← on_mach (inb hw (reg_status pb));
          mret (Z.land st BIT_STAT_DRQ)
        else
          mtime_sleep lkfuel 10;;
          busy_wait_loop rounds lkfuel channel time_limit
      else mret 0
  end.

Definition busy_wait (lkfuel : nat) (hd : Z) : K Z :=
  channel ← on_mach (my_channel hd);
  busy_wait_loop (30 * 1000) lkfuel channel (30 * 1000).

(** The sectors of the next command. *)
Definition secs_next (secs_done sec_cnt : Z) : Z :=
  if decide (u32 (secs_done + 256) <= sec_cnt) then 256 else u32 (sec_cnt - secs_done).

(** The text of the error buffer is that of the format, the name and the
    number left out. *)
Definition read_failed : string := "%s read sector %d failed !".

Fixpoint ide_read_loop (rounds lkfuel : nat) (hd lba buf secs_done sec_cnt : Z) : K unit :=
  match rounds with
  | O => kno_fuel
  | S rounds =>
      if decide (secs_done < sec_cnt) then
        let secs_op := secs_next secs_done sec_cnt in
        on_mach (select_sector hd (u32 (lba + secs_done)) (u8 secs_op));;
        channel ← on_mach (my_channel hd);
        on_mach (cmd_out channel CMD_READ_SECTOR);;
        irq_window;;
        sema_down lkfuel (disk_done (channel_no channel));;
        irq_window;;
        ok ← busy_wait lkfuel hd;
        if decide (ok = 0) then kpanic read_failed
        else
          on_mach (read_from_sector hd (u32 (buf + secs_done * 512)) (u8 secs_op));;
          ide_read_loop rounds lkfuel hd lba buf (u32 (secs_done + secs_op)) sec_cnt
      else mret tt
  end.

Definition ide_read (rounds lkfuel : nat) (hd lba buf sec_cnt : Z) : K unit :=
  KASSERT (bool_decide (lba <= max_lba)) "lba <= max_lba";;
  KASSERT (bool_decide (sec_cnt > 0)) "sec_cnt > 0";;
  channel ← on_mach (my_channel hd);
  lock_acquire lkfuel (channel_lock (channel_no channel));;
  on_mach (select_disk hd);;
  ide_read_loop rounds lkfuel hd lba buf 0 sec_cnt;;
  channel ← on_mach (my_channel hd);
  lock_release (channel_lock (channel_no channel)).

Fixpoint ide_write_loop (rounds lkfuel : nat) (hd lba buf secs_done sec_cnt : Z) : K unit :=
  match rounds with
  | O => kno_fuel
  | S rounds =>
      if decide (secs_done < sec_cnt) then
        let secs_op := secs_next secs_done sec_cnt in
        on_mach (select_sector hd (u32 (lba + secs_done)) (u8 secs_op));;
        channel ← on_mach (my_channel hd);
        on_mach (cmd_out channel CMD_WRITE_SECTOR);;
        irq_window;;
        ok ← busy_wait lkfuel hd;
        if decide (ok = 0) then kpanic read_failed
        else
          on_mach (write2sector hd (u32 (buf + secs_done * 512)) (u8 secs_op));;
          irq_window;;
          sema_down lkfuel (disk_done (channel_no channel));;
          ide_write_loop rounds lkfuel hd lba buf (u32 (secs_done + secs_op)) sec_cnt
      else mret tt
  end.

Definition ide_write (rounds lkfuel : nat) (hd lba buf sec_cnt : Z) : K unit :=
  KASSERT (bool_decide (lba <= max_lba)) "lba <= max_lba";;
  KASSERT (bool_decide (sec_cnt > 0)) "sec_cnt > 0";;
  channel ← on_mach (my_channel hd);
  lock_acquire lkfuel (channel_lock (channel_no channel));;
  on_mach (select_disk hd);;
  ide_write_loop rounds lkfuel hd lba buf 0 sec_cnt;;
  channel ← on_mach (my_channel hd);
  lock_release (channel_lock (channel_no channel)).

(** ** The interrupt handler *)

Definition intr_hd_handler (irq_no : Z) : K unit :=
  let irq_no := u8 irq_no in
  KASSERT (bool_decide (irq_no = 0x2e) || bool_decide (irq_no = 0x2f))
    "irq_no == 0x2e || irq_no == 0x2f";;
  let ch_no := u8 (irq_no - 0x2e) in
  let channel := channels ln + sizeof_ide_channel * ch_no in
  n ← on_mach (irq_no_of channel);
  KASSERT (bool_decide (n = irq_no)) "channel->irq_no == irq_no";;
  e ← on_mach (load32 (channel + 12));
  if decide (e <> 0) then
    on_mach (store32 (channel + 12) 0);;
    sema_up (disk_done (Z.to_nat ch_no));;
    pb ← on_mach (port_base_of channel);
    on_mach (inb hw (reg_status pb));; mret tt
  else mret tt.

(** ** Identification *)

(** [buf[idx+1] = *dst++; buf[idx] = *dst++;] for [idx], a [uint8_t], from 0
    in steps of two below [len]; then the terminating zero. *)
Fixpoint swap_loop (fuel : nat) (dst buf idx len : Z) : M mach Z :=
  match fuel with
  | O => no_fuel
  | S fuel =>
      if decide (idx < len) then
        a ← load8 dst;
        store8 (buf + idx + 1) a;;
        b ← load8 (dst + 1);
        store8 (buf + idx) b;;
        swap_loop fuel (dst + 2) buf (u8 (idx + 2)) len
      else mret idx
  end.

Definition swap_pairs_bytes (fuel : nat) (dst buf len : Z) : M mach unit :=
  idx ← swap_loop fuel dst buf 0 len;
  store8 (buf + idx) 0.

(** ** Identification and partitions

    Addresses on the stack: of the arguments of a call with a variable
    number of them, of [printk]'s buffer, of the two buffers of
    [identify_disk]. *)
Context (im : image).
Record frame_addrs := FrameAddrs {
  fr_args : Z;
  fr_printk : Z;
  fr_id_info : Z;
  fr_buf : Z
}.
Context (fr : frame_addrs).
(** Fuel: for locks and the clock, for formats, for strings, for the byte
    heap; the kernel's block descriptors. *)
Context (lkfuel ffuel sfuel hfuel lfuel : nat) (k_block_descs : Z).

(** A text and the newline behind it. *)
Definition line (s : string) : string := (s ++ String (Ascii.ascii_of_nat 10) "")%string.

(** The format and the arguments on the stack. *)
Fixpoint push_args (a : Z) (args : list Z) : M mach unit :=
  match args with
  | [] => mret tt
  | v :: args => store32 a v;; push_args (a + 4) args
  end.

Definition printk_args (format : string) (args : list Z) : K unit :=
  on_mach (push_args (fr_args fr) (lit im format :: args));;
  printk lkfuel ffuel sfuel (fr_printk fr) (lit im format) (fr_args fr).

Definition sprintf_args (buf : Z) (format : string) (args : list Z) : K unit :=
  on_mach (push_args (fr_args fr) (lit im format :: args));;
  on_mach (sprintf ffuel sfuel buf (lit im format) (fr_args fr));; mret tt.

Definition identify_disk (hd : Z) : K unit :=
  on_mach (select_disk hd);;
  channel ← on_mach (my_channel hd);
  on_mach (cmd_out channel CMD_IDENTIFY);;
  irq_window;;
  sema_down lkfuel (disk_done (channel_no channel));;
  irq_window;;
  ok ← busy_wait lkfuel hd;
  if decide (ok = 0) then kpanic "%s identify failed!!!!!!"
  else
    let id_info := fr_id_info fr in
    let buf := fr_buf fr in
    on_mach (read_from_sector hd id_info 1);;
    let sn_start := 10 * 2 in let sn_len := 20 in
    let md_start := 27 * 2 in let md_len := 40 in
    on_mach (swap_pairs_bytes sfuel (id_info + sn_start) buf sn_len);;
    printk_args (line "   disk %s info:" ++ line "      SN: %s") [hd; buf];;
    on_mach (memset buf 0 64);;
    on_mach (swap_pairs_bytes sfuel (id_info + md_start) buf md_len);;
    printk_args (line "      MODULE: %s") [buf];;
    sectors ← on_mach (load32 (id_info + 60 * 2));
    printk_args (line "      SECTORS: %d") [sectors];;
    printk_args (line "      CAPACITY: %dMB") [u32 (sectors * 512) / 1024 / 1024].

(** [struct partition_table_entry]: [fs_type] 4, [start_lba] 8, [sec_cnt] 12;
    the table is at offset 446 of [struct boot_sector]. *)
Definition sizeof_boot_sector : Z := 512.

(** A partition found: its fields, its place in the list, its name. *)
Definition add_partition (hd part start_lba sec_cnt number : Z) : K unit :=
  on_mach (store32 (part + 8) start_lba);;
  on_mach (store32 (part + 12) sec_cnt);;
  on_mach (store32 (part + 16) hd);;
  on_mach (list_append (partition_list ln) (part + 20));;
  sprintf_args part "%s%d" [hd; number].

(** One entry of a table, [scan] the scan of an extended partition; the
    answer is [false] when the function returns within its loop. *)
Definition scan_entry (scan : Z -> K unit) (hd ext_lba p : Z) : K bool :=
  fs_type ← on_mach (load8 (p + 4));
  start_lba ← on_mach (load32 (p + 8));
  sec_cnt ← on_mach (load32 (p + 12));
  if decide (fs_type = 0x05) then
    base ← on_mach (load32 (v_ext_lba_base ln));
    (if decide (base <> 0) then scan (u32 (start_lba + base))
     else
       on_mach (store32 (v_ext_lba_base ln) start_lba);;
       scan start_lba);;
    mret true
  else if decide (fs_type <> 0) then
    if decide (ext_lba = 0) then
      p_no ← on_mach (load8 (v_p_no ln));
      let p_no := i8 p_no in
      add_partition hd (prim_part hd p_no) (u32 (ext_lba + start_lba)) sec_cnt (p_no + 1);;
      on_mach (store8 (v_p_no ln) (p_no + 1));;
      KASSERT (bool_decide (i8 (p_no + 1) < 4)) "p_no < 4";;
      mret true
    else
      l_no ← on_mach (load8 (v_l_no ln));
      let l_no := i8 l_no in
      add_partition hd (logic_part hd l_no) (u32 (ext_lba + start_lba)) sec_cnt (l_no + 5);;
      on_mach (store8 (v_l_no ln) (l_no + 1));;
      mret (bool_decide (i8 (l_no + 1) < 8))
  else mret true.

Fixpoint scan_entries (scan : Z -> K unit) (n : nat) (hd ext_lba p : Z) : K bool :=
  match n with
  | O => mret true
  | S n =>
      go_on ← scan_entry scan hd ext_lba p;
      if (go_on : bool) then scan_entries scan n hd ext_lba (p + 16) else mret false
  end.

Fixpoint partition_scan (depth : nat) (hd ext_lba : Z) : K unit :=
  match depth with
  | O => kno_fuel
  | S depth =>
      bs ← sys_malloc k_block_descs lkfuel hfuel lfuel sizeof_boot_sector;
      ide_read 2 lkfuel hd ext_lba bs 1;;
      whole ← scan_entries (partition_scan depth hd) 4 hd ext_lba (bs + 446);
      if (whole : bool) then sys_free lkfuel hfuel lfuel bs else mret tt
  end.

(** [partition_info]; [list_traversal] with it as the callback. *)
Definition partition_info (pelem : Z) : K bool :=
  let part := pelem - 20 in
  start_lba ← on_mach (load32 (part + 8));
  sec_cnt ← on_mach (load32 (part + 12));
  printk_args (line "   %s start_lba:0x%x, sec_cnt:0x%x") [part; start_lba; sec_cnt];;
  mret false.

Fixpoint print_partitions (fuel : nat) (elem : Z) : K unit :=
  match fuel with
  | O => kno_fuel
  | S fuel =>
      if decide (elem <> tail_of (partition_list ln)) then
        found ← partition_info elem;
        if (found : bool) then mret tt
        else n ← on_mach (get_next elem); print_partitions fuel n
      else mret tt
  end.

Definition init_disk (depth : nat) (channel channel_no dev_no : Z) : K unit :=
  let hd := device_at channel dev_no in
  on_mach (store32 (hd + 8) channel);;
  on_mach (store8 (hd + 12) dev_no);;
  sprintf_args hd "sd%c" [97 + channel_no * 2 + dev_no];;
  identify_disk hd;;
  (if decide (dev_no <> 0) then partition_scan depth hd 0 else mret tt);;
  on_mach (store8 (v_p_no ln) 0);;
  on_mach (store8 (v_l_no ln) 0).

Definition init_channel (depth : nat) (ch : Z) : K unit :=
  let channel := channels ln + sizeof_ide_channel * ch in
  sprintf_args channel "IDE%d" [ch];;
  (if decide (ch = 0) then
     on_mach (store16 (channel + 8) 0x01f0);; on_mach (store8 (channel + 10) (0x20 + 14))
   else if decide (ch = 1) then
     on_mach (store16 (channel + 8) 0x170);; on_mach (store8 (channel + 10) (0x20 + 15))
   else mret tt);;
  on_mach (store32 (channel + 12) 0);;
  lock_init (channel_lock (channel_no channel));;
  sema_init (disk_done (channel_no channel)) 0;;
  irq_no ← on_mach (irq_no_of channel);
  on_mach (register_handler im irq_no (fn im "intr_hd_handler"));;
  init_disk depth channel ch 0;;
  init_disk depth channel ch 1.

Fixpoint init_channels (n depth : nat) (ch : Z) : K unit :=
  match n with
  | O => mret tt
  | S n => init_channel depth ch;; init_channels n depth (u8 (ch + 1))
  end.

(** The number of disks is the byte the BIOS left at 0x475. *)
Definition ide_init (depth : nat) : K unit :=
  printk_args (line "ide_init start") [];;
  hd_cnt ← on_mach (load8 0x475);
  printk_args (line "   ide_init hd_cnt:%d") [hd_cnt];;
  on_mach (list_init (partition_list ln));;
  KASSERT (bool_decide (hd_cnt > 0)) "hd_cnt >0";;
  let channel_cnt := u8 (DIV_ROUND_UP hd_cnt 2) in
  on_mach (store8 (v_channel_cnt ln) channel_cnt);;
  init_channels (Z.to_nat channel_cnt) depth 0;;
  printk_args (line "" ++ line "   all partition info") [];;
  printk_args (line "" ++ line "  partition_list: 0x%x") [partition_list ln];;
  first ← on_mach (get_next (head_of (partition_list ln)));
  print_partitions ffuel first;;
  printk_args (line "ide_init done") [].
End driver.
