(* ===== verification/UserPage.v ===== *)
(** * A page for a user process

    [get_a_page] of [kernel/memory.c] for a process, and [start_process] of
    [userprog/process.c], which takes its stack's page with it and builds the
    frame that [intr_exit] pops.  Interrupts are on: between the steps other
    threads may run. *)
From S2P Require Import Prelude Machine Global Bitmap Paging Kernel Thread Sync Console Memory.
From S2P Require Import PageHeap PageAlloc HeapSpec Malloc Spawn Process Run LockRun.

Definition user_addr (u : Z) : Prop := 0 <= u < 0xc0000000.
Definition bitmap_at (b : bitmap) (a : Z) : Prop := within (bits b) (btmp_bytes_len b) a.

Lemma user_dir u : user_addr u -> vaddr_ok u /\ dir_index u < 1023.
Proof. unfold user_addr, vaddr_ok, dir_index. intros Hu. split; [lia|]. Z.div_mod_to_equations; lia. Qed.

(** The page tables can take one more page: no table lies in a free frame of
    the kernel's pool, and there is a free frame. *)
Record table_room (k : kst) : Prop := {
  tr_tables : tables_ok (kp k);
  tr_wf : bitmap_wf (pool_bitmap (kernel_pool (kmem k)));
  tr_start : 0 <= phy_addr_start (kernel_pool (kmem k));
  tr_top : phy_addr_start (kernel_pool (kmem k)) +
    4096 * (8 * btmp_bytes_len (pool_bitmap (kernel_pool (kmem k)))) <= 4294967296;
  tr_free : exists f, 0 <= f < 8 * btmp_bytes_len (pool_bitmap (kernel_pool (kmem k))) /\
    rbit (ram (km k)) (bits (pool_bitmap (kernel_pool (kmem k)))) f = false;
  tr_fresh f : 0 <= f < 8 * btmp_bytes_len (pool_bitmap (kernel_pool (kmem k))) ->
    rbit (ram (km k)) (bits (pool_bitmap (kernel_pool (kmem k)))) f = false ->
    fresh_table (kp k) (phy_addr_start (kernel_pool (kmem k)) + 4096 * f);
  (** No two pages of the process share an entry. *)
  tr_apart u v : user_addr u -> user_addr v -> u / 4096 <> v / 4096 -> ~ alias (kp k) u v
}.

Section user.
(** The process's thread; its memory nobody else writes: the frame on its
    stack, its address bitmap, the bitmap of the user pool. *)
Context (t : Z) (Ht : t <> 0) (P : Z -> Prop).

(** What other threads leave alone while the process starts.  Its
    [self_kstack] is not among it: every switch to another thread stores the
    stack pointer there. *)
Record spared (k k' : kst) : Prop := {
  sp_run : running (kt k') = t;
  sp_dir : pgdir (task_at (kt k') t) = pgdir (task_at (kt k) t);
  sp_vaddr : userprog_vaddr (task_at (kt k') t) = userprog_vaddr (task_at (kt k) t);
  sp_lock : lock_at (ks k') user_pool_lock = lock_at (ks k) user_pool_lock;
  sp_sema : sema_at (ks k') (lock_semaphore user_pool_lock) = sema_at (ks k) (lock_semaphore user_pool_lock);
  sp_mem : kmem k' = kmem k;
  sp_ram : agree P (ram (km k)) (ram (km k'));
  sp_room : table_room k -> table_room k';
  sp_walk u : user_addr u -> walk (kp k') u = walk (kp k) u
}.

(** The process's thread at work, since state [k0]; [more] says that page
    tables can still be allocated. *)
Record mine (more : bool) (k0 : kst) (L : lock) (S : semaphore) (k : kst) : Prop := {
  mi_run : running (kt k) = t;
  mi_dir : pgdir (task_at (kt k) t) = pgdir (task_at (kt k0) t);
  mi_vaddr : userprog_vaddr (task_at (kt k) t) = userprog_vaddr (task_at (kt k0) t);
  mi_lock : lock_at (ks k) user_pool_lock = L;
  mi_sema : sema_at (ks k) (lock_semaphore user_pool_lock) = S;
  mi_mem : kmem k = kmem k0;
  mi_ram : agree P (ram (km k0)) (ram (km k));
  mi_room : if more then table_room k else True;
  mi_walk u : user_addr u -> walk (kp k) u = walk (kp k0) u
}.

Lemma room_ks s k : table_room k -> table_room (set_ks s k).
Proof. by intros [H1 H2 H3 H4 H5 H6 H7]. Qed.

#[export] Instance mine_lock_use more k0 : LockUse spared user_pool_lock t (mine more k0).
Proof.
  split.
  - intros L S k. apply mi_run.
  - intros L S k. apply mi_lock.
  - intros L S k. apply mi_sema.
  - intros L S k k' [H1 H3 H4 H5 H6 H7 H8 H9 H10] [G1 G3 G4 G5 G6 G7 G8 G9 G10].
    split; try congruence.
    + by transitivity (ram (km k)).
    + destruct more; auto.
    + intros u Hu. rewrite G10 by done. by apply H10.
  - intros L S k s [H1 H3 H4 H5 H6 H7 H8 H9 H10] _. split; try done.
    destruct more; [by apply room_ks|done].
Qed.
End user.

(** ** The page under the lock *)

Section page.
Context (k : kst) (v : Z).
Let b := vaddr_bitmap (userprog_vaddr (task_at (kt k) (running (kt k)))).
Let start := vaddr_start (userprog_vaddr (task_at (kt k) (running (kt k)))).
Let up := user_pool (kmem k).
Let ub := pool_bitmap (user_pool (kmem k)).
Let kb := pool_bitmap (kernel_pool (kmem k)).

(** The bit of the page in the address bitmap. *)
Definition page_bit : Z := (v - start) / PG_SIZE.

(** The page is the process's to take. *)
Record can_map : Prop := {
  cm_addr : user_addr v;
  cm_first : 0 <= start /\ start + 4096 <= v;
  cm_bit : page_bit < 8 * btmp_bytes_len b;
  cm_none : walk (kp k) v = None;
  cm_wf : bitmap_wf ub;
  cm_free : exists f, 0 <= f < 8 * btmp_bytes_len ub /\ rbit (ram (km k)) (bits ub) f = false;
  cm_start : 0 < phy_addr_start up /\ phy_addr_start up mod 4096 = 0;
  cm_top : phy_addr_start up + 4096 * (8 * btmp_bytes_len ub) <= 4294967296;
  cm_sep a : bitmap_at b a -> ~ bitmap_at ub a /\ ~ bitmap_at kb a;
  cm_sep' a : bitmap_at ub a -> ~ bitmap_at kb a
}.

Context (H : can_map).

Lemma page_bit_range : 0 < page_bit.
Proof. destruct (cm_first H) as [H0 H1]. unfold page_bit, PG_SIZE. Z.div_mod_to_equations; lia. Qed.

Definition ram_marked : gmap Z Z := ram_set_bit (ram (km k)) (bits b) page_bit true.

Lemma mark_page_run : mark_page PF_USER v (vm_of k) = Ok (tt, with_ram ram_marked (vm_of k)).
Proof.
  destruct (cm_first H) as [H0 H1]. pose proof (cm_addr H) as Hv. pose proof page_bit_range as Hb.
  unfold user_addr in Hv. assert (Hq : (v - start) / PG_SIZE < 2147483648) by (unfold PG_SIZE; Z.div_mod_to_equations; lia).
  unfold mark_page. mstep. change (vaddr_start _) with start. cbv zeta.
  rewrite u32_id by lia. change ((v - start) / PG_SIZE) with page_bit in *.
  replace (i32 page_bit) with page_bit by (unfold i32; rewrite Z.mod_small; lia).
  rewrite bool_decide_true by lia. mstep.
  exact (on_m_Ok _ (vm_of k) _ _ (bitmap_set_eq b page_bit 1 (km k) (or_intror eq_refl))).
Qed.

Lemma marked_agree : agree (fun a => ~ bitmap_at b a) (ram (km k)) ram_marked.
Proof.
  eapply agree_weaken; [|apply ram_set_bit_agree]. intros a Ha ->. apply Ha.
  pose proof page_bit_range. pose proof (cm_bit H). unfold bitmap_at, within.
  Z.div_mod_to_equations; lia.
Qed.

Lemma user_frame_run : exists f,
  palloc PF_USER (with_ram ram_marked (vm_of k)) =
    Ok (phy_addr_start up + 4096 * f,
        with_ram (ram_set_bit ram_marked (bits ub) f true) (vm_of k)) /\
  0 <= f < 8 * btmp_bytes_len ub /\ rbit (ram (km k)) (bits ub) f = false.
Proof.
  assert (Heq : forall i, 0 <= i < 8 * btmp_bytes_len ub ->
    rbit ram_marked (bits ub) i = rbit (ram (km k)) (bits ub) i).
  { intros i Hi. eapply rbit_outside; [apply marked_agree| |exact Hi]. intros a Ha Hb.
    by apply (proj1 (cm_sep H a Hb)). }
  destruct (cm_free H) as (q & Hq & Hqf). destruct (cm_start H) as [Hs _].
  destruct (palloc_pool PF_USER (with_ram ram_marked (vm_of k)) q (cm_wf H) Hq) as (f & Hp & Hf & Hff).
  - rewrite <- Hqf. by apply Heq.
  - change (pool_of _ _) with up. lia.
  - apply (cm_top H).
  - exists f. split; [exact Hp|]. split; [exact Hf|]. rewrite <- Hff. symmetry. by apply Heq.
Qed.

Definition ram_taken (f : Z) : gmap Z Z := ram_set_bit ram_marked (bits ub) f true.

Lemma taken_agree f : 0 <= f < 8 * btmp_bytes_len ub ->
  agree (fun a => ~ bitmap_at ub a) ram_marked (ram_taken f).
Proof.
  intros Hf. eapply agree_weaken; [|apply ram_set_bit_agree]. intros a Ha ->. apply Ha.
  unfold bitmap_at, within. Z.div_mod_to_equations; lia.
Qed.

Lemma map_page_run f : 0 <= f < 8 * btmp_bytes_len ub -> table_room k ->
  exists pg r, page_table_add v (phy_addr_start up + 4096 * f) (with_ram (ram_taken f) (vm_of k)) =
      Ok (tt, set_vpg pg (with_ram r (vm_of k))) /\
    agree (fun a => ~ bitmap_at kb a) (ram_taken f) r /\
    walk pg v = Some (phy_addr_start up + 4096 * f + page_off v) /\
    forall u, user_addr u -> u / 4096 <> v / 4096 -> walk pg u = walk (kp k) u.
Proof.
  intros Hf [T1 T2 T3 T4 (q & Hq & Hqf) T6 T7]. pose proof (cm_addr H) as Hv.
  destruct (user_dir v Hv) as [Hv1 Hv2]. pose proof (cm_top H) as Htop. destruct (cm_start H) as [Hs Hal].
  assert (Heq : forall i, 0 <= i < 8 * btmp_bytes_len kb ->
    rbit (ram_taken f) (bits kb) i = rbit (ram (km k)) (bits kb) i).
  { intros i Hi. eapply (rbit_outside (fun a => ~ bitmap_at ub a /\ ~ bitmap_at b a)); [| |exact Hi].
    - eapply agree_trans; [eapply agree_weaken; [|apply marked_agree]|
        eapply agree_weaken; [|by apply taken_agree]]; cbv beta; tauto.
    - intros a Ha. split; intros Hb; [by apply (cm_sep' H a Hb)|by apply (proj2 (cm_sep H a Hb))]. }
  set (s := with_ram (ram_taken f) (vm_of k)).
  destruct (palloc_pool PF_KERNEL s q T2 Hq) as (g & Hp & Hg & Hgf); [|done|done|].
  { rewrite <- Hqf. by apply Heq. }
  assert (Hphy : frame_ok (phy_addr_start up + 4096 * f)).
  { split; [lia|]. rewrite (Z.mul_comm 4096), Z.mod_add by lia. exact Hal. }
  assert (Hfr : fresh_table (kp k) (phy_addr_start (pool_of PF_KERNEL s) + 4096 * g)).
  { apply T6; [exact Hg|]. rewrite <- Hgf. symmetry. by apply Heq. }
  destruct (page_table_add_run s v (phy_addr_start up + 4096 * f) _ _ Hv1 Hv2 T1 Hphy (cm_none H) Hp eq_refl Hfr)
    as (pg & s2 & Hr & Hs2 & Hw & Ho).
  assert (Hr2 : exists r, s2 = with_ram r (vm_of k) /\ agree (fun a => ~ bitmap_at kb a) (ram_taken f) r).
  { destruct Hs2 as [->| ->]; eexists; (split; [reflexivity|]); [done|].
      eapply agree_weaken; [|apply ram_set_bit_agree]. intros a Ha ->. apply Ha.
      change (pool_bitmap (pool_of PF_KERNEL s)) with kb in *. unfold bitmap_at, within.
      Z.div_mod_to_equations; lia. }
  destruct Hr2 as (r & -> & Hag). exists pg, r. split; [exact Hr|]. split; [exact Hag|]. split; [exact Hw|].
  intros u Hu Hne. destruct (user_dir u Hu). apply Ho; [done|done|]. by apply T7.
Qed.
End page.

(** ** [get_a_page] *)

Section get.
Context (t : Z) (Ht : t <> 0) (P : Z -> Prop) (v : Z).

Abbreviation vbits k := (vaddr_bitmap (userprog_vaddr (task_at (kt k) t))).
Abbreviation ubits k := (pool_bitmap (user_pool (kmem k))).
Abbreviation vstart k := (vaddr_start (userprog_vaddr (task_at (kt k) t))).

(** The bitmaps are the process's to keep. *)
Definition keeps_bitmaps (k : kst) : Prop := forall a, bitmap_at (vbits k) a \/ bitmap_at (ubits k) a -> P a.

(** State [k], reached from [k0], has the page [v] in the frame [f] of the
    user pool; nothing else of the process's changed. *)
Record page_got (k0 : kst) (f : Z) (k : kst) : Prop := {
  pg_run : running (kt k) = t;
  pg_dir : pgdir (task_at (kt k) t) = pgdir (task_at (kt k0) t);
  pg_vaddr : userprog_vaddr (task_at (kt k) t) = userprog_vaddr (task_at (kt k0) t);
  pg_mem : kmem k = kmem k0;
  pg_lock : lock_free user_pool_lock k;
  pg_frame : 0 <= f < 8 * btmp_bytes_len (ubits k0) /\ rbit (ram (km k0)) (bits (ubits k0)) f = false;
  pg_walk : walk (kp k) v = Some (phy_addr_start (user_pool (kmem k0)) + 4096 * f + page_off v);
  pg_others u : user_addr u -> u / 4096 <> v / 4096 -> walk (kp k) u = walk (kp k0) u;
  pg_marked i : 0 <= i < 8 * btmp_bytes_len (vbits k0) -> rbit (ram (km k)) (bits (vbits k0)) i =
    if decide (i = (v - vstart k0) / PG_SIZE) then true else rbit (ram (km k0)) (bits (vbits k0)) i;
  pg_taken i : 0 <= i < 8 * btmp_bytes_len (ubits k0) -> rbit (ram (km k)) (bits (ubits k0)) i =
    if decide (i = f) then true else rbit (ram (km k0)) (bits (ubits k0)) i;
  pg_ram : agree (fun a => P a /\ ~ bitmap_at (vbits k0) a /\ ~ bitmap_at (ubits k0) a /\
                           ~ bitmap_at (pool_bitmap (kernel_pool (kmem k0))) a) (ram (km k0)) (ram (km k))
}.

Lemma can_map_mine more k0 L S k : running (kt k0) = t -> keeps_bitmaps k0 -> can_map k0 v ->
  mine t P more k0 L S k -> can_map k v.
Proof.
  intros Hr HP [C1 C2 C3 C4 C5 (f & Hf & Hff) C7 C8 C9 C10] [H1 H3 H4 H5 H6 H7 H8 H9 H10].
  rewrite Hr in *. split; rewrite ?H1, ?H7, ?H4; try done.
  - unfold page_bit in *. rewrite Hr in C3. by rewrite H1, H4.
  - by rewrite H10.
  - exists f. split; [done|]. rewrite <- Hff. eapply rbit_outside; [exact H8| |exact Hf].
    intros a Ha. apply HP. by right.
Qed.

(** The part under the lock, which no window interrupts. *)
Lemma page_section k1 : running (kt k1) = t -> can_map k1 v -> table_room k1 ->
  exists f pg r, (forall B (e c : K B),
      (on_vm (mark_page PF_USER v);; p ← on_vm (palloc PF_USER);
       if decide (p = 0) then e else on_vm (page_table_add v p);; c) k1 =
      c (vm_put (set_vpg pg (with_ram r (vm_of k1))) k1)) /\
    0 <= f < 8 * btmp_bytes_len (ubits k1) /\ rbit (ram (km k1)) (bits (ubits k1)) f = false /\
    agree (fun a => ~ bitmap_at (pool_bitmap (kernel_pool (kmem k1))) a) (ram_taken k1 v f) r /\
    walk pg v = Some (phy_addr_start (user_pool (kmem k1)) + 4096 * f + page_off v) /\
    forall u, user_addr u -> u / 4096 <> v / 4096 -> walk pg u = walk (kp k1) u.
Proof.
  intros Hr Hc Hroom. destruct (user_frame_run k1 v Hc) as (f & Hp & Hf & Hff).
  destruct (map_page_run k1 v Hc f Hf Hroom) as (pg & r & Ha & Hag & Hw & Ho).
  exists f, pg, r.
  split; [|split; [exact Hf|]; split; [exact Hff|]; split; [exact Hag|]; by split]. intros B e c.
  assert (E1 : on_vm (mark_page PF_USER v) k1 = Done tt (vm_put (with_ram (ram_marked k1 v) (vm_of k1)) k1)).
  { unfold on_vm. by erewrite lift_Ok by exact (mark_page_run k1 v Hc). }
  rewrite (kbind_Done _ _ _ _ _ E1). cbv beta. set (s1 := with_ram _ _). set (k2 := vm_put s1 k1).
  assert (Ev2 : vm_of k2 = s1) by apply vm_of_put.
  assert (E2 : on_vm (palloc PF_USER) k2 = Done (phy_addr_start (user_pool (kmem k1)) + 4096 * f)
    (vm_put (with_ram (ram_taken k1 v f) (vm_of k1)) k2)).
  { unfold on_vm. erewrite lift_Ok; [reflexivity|]. rewrite Ev2. exact Hp. }
  rewrite (kbind_Done _ _ _ _ _ E2). cbv beta. destruct (cm_start k1 v Hc).
  rewrite decide_False by lia. set (s2 := with_ram (ram_taken k1 v f) _). set (k3 := vm_put s2 k2).
  assert (Ev3 : vm_of k3 = s2) by apply vm_of_put.
  assert (E3 : on_vm (page_table_add v (phy_addr_start (user_pool (kmem k1)) + 4096 * f)) k3 =
    Done tt (vm_put (set_vpg pg (with_ram r (vm_of k1))) k3)).
  { unfold on_vm. erewrite lift_Ok; [reflexivity|]. rewrite Ev3. exact Ha. }
  rewrite (kbind_Done _ _ _ _ _ E3). cbv beta. f_equal. unfold k3, k2, vm_put, upd_task_st, set_tasks.
  cbn [kt tasks running tss_esp0 ks kdev]. by rewrite !insert_insert_eq.
Qed.

Lemma page_got_section k0 k1 f pg r :
  keeps_bitmaps k0 -> can_map k0 v -> running (kt k0) = t ->
  mine t P true k0 (Lock t 1) (Sema 0 []) k1 ->
  0 <= f < 8 * btmp_bytes_len (ubits k1) -> rbit (ram (km k1)) (bits (ubits k1)) f = false ->
  agree (fun a => ~ bitmap_at (pool_bitmap (kernel_pool (kmem k1))) a) (ram_taken k1 v f) r ->
  walk pg v = Some (phy_addr_start (user_pool (kmem k1)) + 4096 * f + page_off v) ->
  (forall u, user_addr u -> u / 4096 <> v / 4096 -> walk pg u = walk (kp k1) u) ->
  forall k', mine t P false (vm_put (set_vpg pg (with_ram r (vm_of k1))) k1) (Lock 0 0) (Sema 1 []) k' ->
  page_got k0 f k'.
Proof.
  intros HP Hc Hr0 M1 Hf Hff Hag Hw Ho k' [G1 G3 G4 G5 G6 G7 G8 _ G10].
  pose proof (can_map_mine _ _ _ _ _ Hr0 HP Hc M1) as Hc1. destruct M1 as [H1 H3 H4 H5 H6 H7 H8 _ H10].
  assert (Et : forall s, task_at (kt (vm_put s k1)) t = vcur s).
  { intros s. unfold vm_put, upd_task_st, set_tasks, task_at. cbn [kt tasks]. by rewrite H1, lookup_insert_eq. }
  rewrite Et in G3, G4. cbn [vcur set_vpg vm_of with_ram set_vmach] in G3, G4. rewrite H1 in G3, G4.
  change (kmem (vm_put _ k1)) with (kmem k1) in G7. change (km (vm_put _ k1)) with (set_ram r (km k1)) in G8.
  cbn [ram set_ram] in G8. change (kp (vm_put _ k1)) with pg in G10.
  assert (Hb : forall a, P a -> ~ bitmap_at (pool_bitmap (kernel_pool (kmem k1))) a ->
    ld8 (ram (km k')) a = ld8 (ram_taken k1 v f) a) by (intros a Ha Hk; by rewrite G8, Hag).
  pose proof (page_bit_range k1 v Hc1) as Hpb. unfold page_bit in Hpb. rewrite H1, H4 in Hpb.
  pose proof (marked_agree k1 v Hc1) as Hmk. pose proof (taken_agree k1 v f Hf) as Htk.
  destruct Hc1 as [_ _ _ _ _ _ _ _ C9 C10]. rewrite H1, H4 in C9, Hmk. rewrite H7 in C9, C10.
  rewrite H7 in Hf, Hff, Hag, Hw, Hb, Htk.
  split; try congruence.
  - by split.
  - split; [exact Hf|]. rewrite <- Hff. symmetry. eapply rbit_outside; [exact H8| |exact Hf].
    intros a Ha. apply HP. by right.
  - rewrite G10 by apply Hc. exact Hw.
  - intros u Hu Hne. rewrite G10, Ho, H10 by done. done.
  - intros i Hi.
    assert (Ha : forall a, bitmap_at (vbits k0) a -> ld8 (ram (km k')) a = ld8 (ram_marked k1 v) a).
    { intros a Ha. destruct (C9 a Ha). rewrite Hb, Htk; [done|done|apply HP; by left|done]. }
    rewrite (rbit_outside (bitmap_at (vbits k0)) (ram_marked k1 v) _ _ (btmp_bytes_len (vbits k0)) i Ha)
      by done. unfold ram_marked. rewrite H1, H4, rbit_set by (unfold page_bit; rewrite ?H1, ?H4; lia).
    unfold page_bit. rewrite H1, H4. rewrite (decide_ext (_ = i) (i = (v - vstart k0) / PG_SIZE)) by done.
    case_decide; [done|]. eapply rbit_outside; [exact H8| |exact Hi]. intros a Hx. apply HP. by left.
  - intros i Hi.
    assert (Ha : forall a, bitmap_at (ubits k0) a -> ld8 (ram (km k')) a = ld8 (ram_taken k1 v f) a).
    { intros a Ha. apply Hb; [apply HP; by right|by apply C10]. }
    rewrite (rbit_outside (bitmap_at (ubits k0)) (ram_taken k1 v f) _ _ (btmp_bytes_len (ubits k0)) i Ha)
      by done. unfold ram_taken. rewrite H7, rbit_set by lia.
    rewrite (decide_ext (f = i) (i = f)) by done. case_decide; [done|].
    transitivity (rbit (ram (km k1)) (bits (ubits k0)) i).
    + eapply rbit_outside; [exact Hmk| |exact Hi]. intros a Hx Hv. by destruct (C9 a Hv).
    + eapply rbit_outside; [exact H8| |exact Hi]. intros a Hx. apply HP. by right.
  - intros a (HPa & Hv & Hu & Hk). rewrite Hb, Htk, Hmk by done. by apply H8.
Qed.

Lemma mine_refl (more : bool) k L S : running (kt k) = t -> lock_at (ks k) user_pool_lock = L ->
  sema_at (ks k) (lock_semaphore user_pool_lock) = S -> (if more then table_room k else True) ->
  mine t P more k L S k.
Proof. by split. Qed.

Lemma get_a_page_runs lk k :
  running (kt k) = t -> pgdir (task_at (kt k) t) <> 0 -> lock_free user_pool_lock k ->
  keeps_bitmaps k -> can_map k v -> table_room k ->
  runs (spared t P) (fun x k' => x = v /\ exists f, page_got k f k') (get_a_page (S lk) PF_USER v k).
Proof.
  intros Hr Hd [Hl Hs] HP Hc Hroom. unfold get_a_page. change (pool_lock PF_USER) with user_pool_lock.
  eapply runs_bind.
  { apply (runs_lock_acquire (I := mine t P true k) Ht). by apply mine_refl. }
  intros [] k1 M1. pose proof (can_map_mine _ _ _ _ _ Hr HP Hc M1) as Hc1.
  pose proof (mi_run _ _ _ _ _ _ _ M1) as Hr1. pose proof (mi_room _ _ _ _ _ _ _ M1) as Hroom1.
  kstep. rewrite Hr1. rewrite decide_True by (rewrite (mi_dir _ _ _ _ _ _ _ M1); done).
  destruct (page_section k1 Hr1 Hc1 Hroom1) as (f & pg & r & Hrun & Hf & Hff & Hag & Hw & Ho).
  rewrite Hrun. set (k2 := vm_put _ k1).
  assert (M2 : mine t P false k2 (Lock t 1) (Sema 0 []) k2).
  { apply mine_refl; [exact Hr1|exact (mi_lock _ _ _ _ _ _ _ M1)|exact (mi_sema _ _ _ _ _ _ _ M1)|done]. }
  eapply runs_bind; [apply (runs_lock_release (I := mine t P false k2)); exact M2|].
  intros [] k' M'. constructor. split; [done|]. exists f.
  by apply (page_got_section k k1 f pg r).
Qed.
End get.

(** ** [start_process] *)

Lemma can_map_ram k r v : can_map k v ->
  agree (bitmap_at (pool_bitmap (user_pool (kmem k)))) (ram (km k)) r ->
  can_map (set_km (set_ram r (km k)) k) v.
Proof.
  intros [C1 C2 C3 C4 C5 (f & Hf & Hff) C7 C8 C9 C10] Hag. split; try done. exists f. split; [exact Hf|].
  rewrite <- Hff. eapply rbit_outside; [exact Hag| |exact Hf]. by intros a.
Qed.

Lemma table_room_ram k r : table_room k ->
  agree (bitmap_at (pool_bitmap (kernel_pool (kmem k)))) (ram (km k)) r ->
  table_room (set_km (set_ram r (km k)) k).
Proof.
  intros [T1 T2 T3 T4 (f & Hf & Hff) T6 T7] Hag.
  assert (Heq : forall i, 0 <= i < 8 * btmp_bytes_len (pool_bitmap (kernel_pool (kmem k))) ->
    rbit r (bits (pool_bitmap (kernel_pool (kmem k)))) i =
    rbit (ram (km k)) (bits (pool_bitmap (kernel_pool (kmem k)))) i).
  { intros i Hi. eapply rbit_outside; [exact Hag| |exact Hi]. by intros a. }
  split; try done.
  - exists f. split; [exact Hf|]. rewrite <- Hff. by apply Heq.
  - intros g Hg Hgf. apply T6; [exact Hg|]. rewrite <- Hgf. symmetry. by apply Heq.
Qed.

(** The frame [intr_exit] pops: the registers zero, the selectors of user
    mode, the program's entry, interrupts enabled, the stack at the top of
    user space. *)
Record user_frame (r : gmap Z Z) (ps entry_point esp : Z) : Prop := {
  uf_zero off : off ∈ [is_edi; is_esi; is_ebp; is_esp_dummy; is_ebx; is_edx; is_ecx; is_eax; is_gs] ->
    ld32 r (ps + off) = 0;
  uf_data off : off ∈ [is_fs; is_es; is_ds; is_ss] -> ld32 r (ps + off) = SELECTOR_U_DATA;
  uf_code : ld32 r (ps + is_cs) = SELECTOR_U_CODE;
  uf_eip : ld32 r (ps + is_eip) = entry_point;
  uf_eflags : ld32 r (ps + is_eflags) = 0x202;
  uf_esp : ld32 r (ps + is_esp) = esp
}.

(** What is written before the page is taken. *)
Definition frame_words (fn : Z) : list (Z * Z) :=
  [(is_esp_dummy, 0); (is_ebp, 0); (is_esi, 0); (is_edi, 0); (is_eax, 0); (is_ecx, 0); (is_edx, 0);
   (is_ebx, 0); (is_gs, 0); (is_fs, SELECTOR_U_DATA); (is_es, SELECTOR_U_DATA); (is_ds, SELECTOR_U_DATA);
   (is_eip, fn); (is_cs, SELECTOR_U_CODE);
   (is_eflags, Z.lor (Z.lor EFLAGS_IOPL_0 EFLAGS_MBS) EFLAGS_IF_1)].

Definition put_words (ps : Z) (ws : list (Z * Z)) (r : gmap Z Z) : gmap Z Z :=
  foldl (fun r w => st32 r (ps + w.1) w.2) r ws.

Lemma put_words_agree ps ws r : Forall (fun w => 0 <= w.1 <= 72) ws ->
  agree (fun a => ~ within ps 76 a) r (put_words ps ws r).
Proof.
  revert r. induction ws as [|[o w] ws IH]; intros r Hw; [done|]. apply Forall_cons in Hw as [Ho Hw].
  eapply agree_trans; [|by apply (IH (st32 r (ps + o) w))]. apply agree_st32.
  unfold within. simpl in Ho. lia.
Qed.

(** The last word written at an offset. *)
Definition last_word (o : Z) (ws : list (Z * Z)) : option Z :=
  foldl (fun x w => if decide (w.1 = o) then Some w.2 else x) None ws.

Definition no_overlap (o : Z) (ws : list (Z * Z)) : Prop :=
  Forall (fun w => w.1 = o \/ o + 4 <= w.1 \/ w.1 + 4 <= o) ws.
#[export] Instance no_overlap_dec o ws : Decision (no_overlap o ws).
Proof. unfold no_overlap. apply _. Defined.

Lemma put_words_value ps ws r o : no_overlap o ws ->
  ld32 (put_words ps ws r) (ps + o) = default (ld32 r (ps + o)) (u32 <$> last_word o ws).
Proof.
  unfold put_words, last_word. induction ws as [|[o' w] ws IH] using rev_ind; intros Hw; [done|].
  apply Forall_app in Hw as [Hw [Ho _]%Forall_cons]. rewrite !foldl_app. cbn [foldl fst snd] in *.
  case_decide as E; [subst o'; apply ld32_st32_eq|]. rewrite ld32_st32_ne by lia. by apply IH.
Qed.

Lemma user_frame_made ps fn esp r r1 :
  agree (within ps 76) (put_words ps (frame_words fn) r) r1 ->
  user_frame (put_words ps [(is_esp, esp); (is_ss, SELECTOR_U_DATA)] r1) ps (u32 fn) (u32 esp).
Proof.
  intros Hag.
  assert (H : forall o w, no_overlap o (frame_words fn) -> no_overlap o [(is_esp, esp); (is_ss, SELECTOR_U_DATA)] ->
    0 <= o <= 72 ->
    match last_word o [(is_esp, esp); (is_ss, SELECTOR_U_DATA)] with
    | Some x => Some x
    | None => last_word o (frame_words fn)
    end = Some w ->
    ld32 (put_words ps [(is_esp, esp); (is_ss, SELECTOR_U_DATA)] r1) (ps + o) = u32 w).
  { intros o w H1 H2 Ho Hw. rewrite put_words_value by done. destruct (last_word o [_; _]); [by injection Hw as <-|].
    cbn [fmap option_fmap option_map default]. etransitivity.
    - eapply agree_ld32; [exact Hag|]. unfold within. lia.
    - rewrite put_words_value by done. by rewrite Hw. }
  split.
  - intros off Hin. change 0 with (u32 0). apply H; repeat (apply elem_of_cons in Hin as [->|Hin];
      [first [done|by apply (bool_decide_unpack _)]|]); by apply not_elem_of_nil in Hin.
  - intros off Hin. change SELECTOR_U_DATA with (u32 SELECTOR_U_DATA) at 2. apply H;
      repeat (apply elem_of_cons in Hin as [->|Hin]; [first [done|by apply (bool_decide_unpack _)]|]);
      by apply not_elem_of_nil in Hin.
  - apply (H is_cs SELECTOR_U_CODE); first [done|by apply (bool_decide_unpack _)].
  - apply H; first [done|by apply (bool_decide_unpack _)].
  - apply (H is_eflags 0x202); first [done|by apply (bool_decide_unpack _)].
  - apply H; first [done|by apply (bool_decide_unpack _)].
Qed.

Section start.
Context (t : Z) (Ht : t <> 0) (fn : Z).

(** The address [esp] gets: the frame lies above the switch frame, whose size
    the code counts in words. *)
Definition user_stack (k : kst) : Z := u32 (self_kstack (task_at (kt k) t) + 4 * sizeof_thread_stack).

(** The process's own memory, its frame at [u]. *)
Definition start_private (u : Z) (k : kst) (a : Z) : Prop :=
  within u 76 a \/ bitmap_at (vaddr_bitmap (userprog_vaddr (task_at (kt k) t))) a \/
  bitmap_at (pool_bitmap (user_pool (kmem k))) a.

Record can_start (u : Z) (k : kst) : Prop := {
  cs_run : running (kt k) = t;
  cs_dir : pgdir (task_at (kt k) t) <> 0;
  cs_lock : lock_free user_pool_lock k;
  cs_map : can_map k USER_STACK3_VADDR;
  cs_room : table_room k;
  cs_fn : 0 <= fn < 4294967296;
  cs_frame a : within u 76 a ->
    ~ bitmap_at (vaddr_bitmap (userprog_vaddr (task_at (kt k) t))) a /\
    ~ bitmap_at (pool_bitmap (user_pool (kmem k))) a /\ ~ bitmap_at (pool_bitmap (kernel_pool (kmem k))) a
}.

(** The process ready to enter user mode by the frame at [u]. *)
Record started (u : Z) (k k' : kst) : Prop := {
  sd_run : running (kt k') = t;
  sd_dir : pgdir (task_at (kt k') t) = pgdir (task_at (kt k) t);
  sd_lock : lock_free user_pool_lock k';
  sd_frame : user_frame (ram (km k')) u fn 0xc0000000;
  sd_page : exists f, (0 <= f < 8 * btmp_bytes_len (pool_bitmap (user_pool (kmem k))) /\
      rbit (ram (km k)) (bits (pool_bitmap (user_pool (kmem k)))) f = false) /\
    (forall a, USER_STACK3_VADDR <= a < 0xc0000000 ->
       walk (kp k') a = Some (phy_addr_start (user_pool (kmem k)) + 4096 * f + page_off a)) /\
    forall i, 0 <= i < 8 * btmp_bytes_len (pool_bitmap (user_pool (kmem k))) ->
      rbit (ram (km k')) (bits (pool_bitmap (user_pool (kmem k)))) i =
      if decide (i = f) then true else rbit (ram (km k)) (bits (pool_bitmap (user_pool (kmem k)))) i;
  sd_others u : 0 <= u < USER_STACK3_VADDR -> walk (kp k') u = walk (kp k) u
}.

(** *** The frame is built *)

(** Up to the page: most of the frame. *)
Definition framed (u : Z) (k : kst) : kst :=
  kwith_ram (put_words u (frame_words fn)) k.

Lemma build_frame_eq lk u k :
  build_frame lk fn u k =
  (page ← get_a_page lk PF_USER USER_STACK3_VADDR;
   on_mach (store32 (u + is_esp) (u32 (page + PG_SIZE)));;
   on_mach (store32 (u + is_ss) SELECTOR_U_DATA);; mret u) (framed u k).
Proof.
  unfold build_frame. cbv zeta.
  do 15 (rewrite (kbind_Done _ _ _ _ _ (on_mach_store32 _ _ _)); cbv beta). reflexivity.
Qed.

Lemma framed_agree u k : agree (fun a => ~ within u 76 a) (ram (km k)) (ram (km (framed u k))).
Proof. apply put_words_agree. by apply (bool_decide_unpack _). Qed.

Lemma framed_ready u k : can_start u k -> lock_free user_pool_lock (framed u k) /\
  pgdir (task_at (kt (framed u k)) t) <> 0 /\ keeps_bitmaps t (start_private u k) (framed u k) /\
  can_map (framed u k) USER_STACK3_VADDR /\ table_room (framed u k).
Proof.
  intros [C1 C2 C3 C4 C5 _ C7].
  assert (Hu : agree (bitmap_at (pool_bitmap (user_pool (kmem k)))) (ram (km k)) (ram (km (framed u k)))).
  { eapply agree_weaken; [|apply framed_agree]. intros a Ha Hw. by destruct (C7 a Hw) as (_ & ? & _). }
  assert (Hk : agree (bitmap_at (pool_bitmap (kernel_pool (kmem k)))) (ram (km k)) (ram (km (framed u k)))).
  { eapply agree_weaken; [|apply framed_agree]. intros a Ha Hw. by destruct (C7 a Hw) as (_ & _ & ?). }
  split; [exact C3|]. split; [exact C2|]. split; [|split].
  - intros a [Ha|Ha]; right; [by left|by right].
  - exact (can_map_ram k _ _ C4 Hu).
  - exact (table_room_ram k _ C5 Hk).
Qed.

Lemma walk_page pg v p a : v mod 4096 = 0 -> user_addr v -> walk pg v = Some (p + page_off v) ->
  v <= a < v + 4096 -> walk pg a = Some (p + page_off a).
Proof.
  unfold user_addr. intros Hv Hu Hw Ha. rewrite walk_fields in *.
  assert (Hd : dir_index a = dir_index v) by (unfold dir_index; Z.div_mod_to_equations; lia).
  assert (Ht' : tbl_index a = tbl_index v) by (unfold tbl_index; f_equal; Z.div_mod_to_equations; lia).
  rewrite Hd, Ht'. cbv zeta in *. destruct (_ && _); [|done]. injection Hw as Hw. f_equal. lia.
Qed.

Lemma build_frame_runs lk u k : can_start u k ->
  runs (spared t (start_private u k)) (fun x k' => x = u /\ started u k k') (build_frame (S lk) fn u k).
Proof.
  intros H. destruct (framed_ready u k H) as (Hl & Hd & HP & Hm & Hroom).
  destruct H as [C1 C2 C3 C4 C5 C6 C7]. rewrite build_frame_eq.
  eapply runs_bind; [by apply (get_a_page_runs t Ht (start_private u k))|].
  intros page k2 (-> & f & [G1 G3 G4 G5 G6 G7 G8 G9 G10 G11 G12]).
  rewrite (kbind_Done _ _ _ _ _ (on_mach_store32 _ _ _)). cbv beta.
  rewrite (kbind_Done _ _ _ _ _ (on_mach_store32 _ _ _)). cbv beta.
  change (u32 (USER_STACK3_VADDR + PG_SIZE)) with 0xc0000000. rewrite kwith_ram_twice.
  set (k3 := kwith_ram _ k2). constructor. split; [done|].
  change (kmem (framed u k)) with (kmem k) in *. change (kt (framed u k)) with (kt k) in *.
  assert (Hr3 : ram (km k3) = put_words u [(is_esp, 0xc0000000); (is_ss, SELECTOR_U_DATA)] (ram (km k2)))
    by done.
  assert (Hf : agree (within u 76) (put_words u (frame_words fn) (ram (km k))) (ram (km k2))).
  { eapply agree_weaken; [|exact G12]. intros a Ha. destruct (C7 a Ha) as (? & ? & ?). split; [by left|done]. }
  assert (Hu : forall a, bitmap_at (pool_bitmap (user_pool (kmem k))) a -> ~ within u 76 a).
  { intros a Ha Hw. by destruct (C7 a Hw) as (_ & ? & _). }
  assert (Hfree : forall i, 0 <= i < 8 * btmp_bytes_len (pool_bitmap (user_pool (kmem k))) ->
    rbit (ram (km (framed u k))) (bits (pool_bitmap (user_pool (kmem k)))) i =
    rbit (ram (km k)) (bits (pool_bitmap (user_pool (kmem k)))) i).
  { intros i Hi. eapply rbit_outside; [apply framed_agree|exact Hu|exact Hi]. }
  split; try done.
  - rewrite Hr3. rewrite <- (u32_id fn C6). by eapply user_frame_made.
  - exists f. destruct G7 as [Hfr Hff]. split; [|split].
    + split; [exact Hfr|]. rewrite <- Hff. symmetry. by apply Hfree.
    + intros a Ha. apply (walk_page _ USER_STACK3_VADDR); [done|apply (cm_addr _ _ C4)|exact G8|].
      unfold USER_STACK3_VADDR in *. lia.
    + intros i Hi. rewrite <- Hfree, <- G11 by done.
      rewrite Hr3. eapply rbit_outside; [|exact Hu|exact Hi].
      apply put_words_agree. by apply (bool_decide_unpack _).
  - intros x Hx. apply G9; [unfold user_addr, USER_STACK3_VADDR in *; lia|].
    unfold USER_STACK3_VADDR in *. Z.div_mod_to_equations; lia.
Qed.

(** *** The frame is claimed *)

(** Interrupts are taken, and other threads may even run, but the stack
    pointer found in [self_kstack] is the same again. *)
Definition undisturbed (P : Z -> Prop) (k k' : kst) : Prop :=
  spared t P k k' /\ self_kstack (task_at (kt k') t) = self_kstack (task_at (kt k) t).

Lemma spared_can_start u k k' :
  can_start u k -> spared t (start_private u k) k k' -> can_start u k'.
Proof.
  intros [C1 C2 [C3 C3'] C4 C5 C6 C7] [S1 S2 S3 S4 S5 S6 S7 S8 S9].
  split; rewrite ?S2, ?S3, ?S6; try done.
  - split; congruence.
  - destruct C4 as [D1 D2 D3 D4 D5 (f & Hf & Hff) D7 D8 D9 D10]. unfold page_bit in *. rewrite C1 in *.
    split; unfold page_bit; rewrite ?S1, ?S3, ?S6; try done.
    + rewrite S9 by exact D1. exact D4.
    + exists f. split; [exact Hf|]. rewrite <- Hff. eapply rbit_outside; [exact S7| |exact Hf].
      intros a Ha. right. by right.
  - by apply S8.
Qed.

Lemma started_from u k k1 k' :
  spared t (start_private u k) k k1 -> started u k1 k' -> started u k k'.
Proof.
  intros [S1 S2 S3 S4 S5 S6 S7 S8 S9] [D1 D2 D3 D4 (f & [Hf Hff] & Ha & Hi) D6].
  rewrite S6 in *.
  assert (Hr : forall i, 0 <= i < 8 * btmp_bytes_len (pool_bitmap (user_pool (kmem k))) ->
    rbit (ram (km k1)) (bits (pool_bitmap (user_pool (kmem k)))) i =
    rbit (ram (km k)) (bits (pool_bitmap (user_pool (kmem k)))) i).
  { intros i Hr. eapply rbit_outside; [exact S7| |exact Hr]. intros a Hx. right. by right. }
  split; try done.
  - congruence.
  - exists f. split; [split; [exact Hf|]; by rewrite <- Hff, Hr|]. split; [done|].
    intros i Hx. rewrite Hi, Hr by done. done.
  - intros x Hx. rewrite D6 by done. apply S9. unfold user_addr, USER_STACK3_VADDR in *. lia.
Qed.

Lemma spared_trans P k1 k2 k3 : spared t P k1 k2 -> spared t P k2 k3 -> spared t P k1 k3.
Proof.
  intros [H1 H3 H4 H5 H6 H7 H8 H9 H10] [G1 G3 G4 G5 G6 G7 G8 G9 G10]. split; try congruence.
  - by transitivity (ram (km k2)).
  - auto.
  - intros u Hu. rewrite G10 by done. by apply H10.
Qed.

Lemma spared_refl P k : running (kt k) = t -> spared t P k k.
Proof. by split. Qed.

(** The process moves its own stack pointer. *)
Lemma spared_kstack P f k :
  running (kt k) = t -> (forall x, pgdir (f x) = pgdir x) ->
  (forall x, userprog_vaddr (f x) = userprog_vaddr x) ->
  spared t P k (set_kt (upd_task_st t f (kt k)) k).
Proof.
  intros Hr Hf1 Hf2. assert (E : task_at (upd_task_st t f (kt k)) t = f (task_at (kt k) t)).
  { unfold upd_task_st, set_tasks, task_at at 1. cbn [tasks]. by rewrite lookup_insert_eq. }
  split; cbn [kt set_kt]; rewrite ?E, ?Hf1, ?Hf2; try done. by intros [H1 H2 H3 H4 H5 H6 H7].
Qed.

Lemma claim_frame_runs k P : running (kt k) = t ->
  runs (undisturbed P) (fun x k1 => x = user_stack k /\ spared t P k k1) (claim_frame k).
Proof.
  intros Hr. unfold claim_frame, running_thread, get_task. kstep. rewrite Hr.
  assert (Hgen : forall k1, undisturbed P k k1 ->
    runs (undisturbed P) (fun x k2 => x = user_stack k /\ spared t P k k2)
      ((upd_task t (fun t => set_self_kstack (u32 (self_kstack t + 4 * sizeof_thread_stack)) t);;
        irq_window;; t0 ← kget (fun k => task_at (kt k) t); mret (self_kstack t0)) k1)).
  { intros k1 [Hs1 Hk1]. set (f := fun t => set_self_kstack _ t).
    rewrite (kbind_Done (upd_task t f) _ k1 tt (set_kt (upd_task_st t f (kt k1)) k1) eq_refl). cbv beta.
    set (k2 := set_kt _ k1).
    assert (Hs2 : spared t P k1 k2) by (apply spared_kstack; [exact (sp_run _ _ _ _ Hs1)|done|done]).
    assert (Hu : self_kstack (task_at (kt k2) t) = user_stack k).
    { unfold k2, user_stack. rewrite <- Hk1. cbn [kt set_kt]. unfold upd_task_st, set_tasks, task_at at 1.
      cbn [tasks]. by rewrite lookup_insert_eq. }
    apply runs_window.
    - kstep. constructor. split; [exact Hu|]. by eapply spared_trans.
    - intros k3 [Hs3 Hk3]. kstep. constructor. split; [by rewrite Hk3|].
      eapply spared_trans; [|exact Hs3]. by eapply spared_trans. }
  apply runs_window; [apply Hgen; split; [by apply spared_refl|done]|done].
Qed.

Lemma start_private_spared u k k1 :
  spared t (start_private u k) k k1 -> start_private u k1 = start_private u k.
Proof. intros S. unfold start_private. by rewrite (sp_vaddr _ _ _ _ S), (sp_mem _ _ _ _ S). Qed.

Lemma start_process_runs lk k : let u := user_stack k in can_start u k ->
  runs (undisturbed (start_private u k))
    (fun p k1 => p = u /\
       runs (spared t (start_private u k)) (fun x k' => x = u /\ started u k k') (build_frame (S lk) fn p k1))
    (claim_frame k).
Proof.
  intros u H. eapply runs_conseq; [apply claim_frame_runs, H|]. intros p k1 [-> Hs]. split; [done|].
  fold u in Hs |- *. pose proof (spared_can_start u k k1 H Hs) as H1.
  rewrite <- (start_private_spared u k k1 Hs).
  eapply runs_conseq; [by apply build_frame_runs|]. intros x k' [-> Hk']. split; [done|].
  by eapply started_from.
Qed.
End start.

(** ** Theorems *)

(** C20: [start_process] in a new process's thread, with interrupts on.  As
    long as it has not read where its frame goes ([claim_frame]) it must find
    its [self_kstack] unchanged, as it does unless it is switched out, which
    stores another stack pointer there; from then on other threads may run in
    between.  It returns the address of a frame on the thread's own stack,
    which [intr_exit] will pop, with the registers zero, the selectors of user
    mode, the program's entry, interrupts enabled and the stack pointer at the
    top of user space; the page below it is mapped to a frame of the user pool
    that was free, no other user page changes, and the pool's lock is free
    again. *)
Theorem start_process_ok t fn lk k :
  let u := user_stack t k in
  t <> 0 -> can_start t fn u k ->
  start_process (S lk) fn k = (claim_frame ≫= build_frame (S lk) fn) k /\
  runs (undisturbed t (start_private t u k))
    (fun p k1 => p = u /\
       runs (spared t (start_private t u k)) (fun x k' => x = u /\ started t fn u k k')
         (build_frame (S lk) fn p k1))
    (claim_frame k).
Proof. intros u Ht H. split; [done|]. by apply start_process_runs. Qed.

(** A process: its directory in the first frame of the kernel's pool, with
    the kernel's part only. *)
Definition demo_dir : gmap Z Z := {[ 0x200000 + 4 * 768 := 0x101007; 0x200000 + 4 * 1023 := 0x200007 ]}.
Definition demo_proc : task_struct :=
  Task (0xc0109000 - 4 * 76 - 128) 3 TASK_RUNING [] 31 31 0 (replicate MAX_FILES_OPEN_PER_PROC 0) 0xc010a000
    (VirtualAddr (Bitmap 94208 0xc0110000) 0x8048000) STACK_MAGIC.
Definition demo_newborn : kst :=
  Kst (Mach {[ 0xc009a000 := 1 ]} 0x202 [] []) (Paging 0x200000 demo_dir) 0
    (ThreadSt {[ 0xc0108000 := demo_proc ]} 0xc0108000 [] [0xc0108000] 0xc009e000 0 4 (fun _ => 0xc0108f00))
    (SyncSt {[ lock_semaphore user_pool_lock := Sema 1 [] ]} {[ user_pool_lock := Lock 0 0 ]})
    (MemSt (Pool (Bitmap 1 0xc009a000) 0x200000 0x8000) (Pool (Bitmap 1 0xc009a001) 0x208000 0x8000)
       (VirtualAddr (Bitmap 1 0xc009a002) 0xc0100000))
    (kdev bss_kst).

Lemma demo_dir_pde u : vaddr_ok u -> dir_index u < 1023 ->
  pde (kp demo_newborn) u = if decide (dir_index u = 768) then 0x101007 else 0.
Proof.
  intros Hv Hd. unfold pde, pde_word, pread, demo_newborn, demo_dir. cbn [kp pwords cr3].
  rewrite lookup_insert, lookup_singleton. repeat case_decide; done || lia.
Qed.

Lemma demo_user_pde u : user_addr u -> pde (kp demo_newborn) u = 0.
Proof.
  intros Hu. destruct (user_dir u Hu) as [H1 H2]. rewrite demo_dir_pde, decide_False by done || (unfold user_addr, dir_index in *; Z.div_mod_to_equations; lia). done.
Qed.

Lemma demo_can_start : can_start 0xc0108000 0x8048100 (user_stack 0xc0108000 demo_newborn) demo_newborn.
Proof.
  assert (Hub : forall i, 0 <= i < 8 -> rbit (ram (km demo_newborn)) 0xc009a001 i = false).
  { intros i Hi. unfold rbit, ld8. cbn [ram km demo_newborn]. rewrite (Z.div_small i 8) by lia.
    rewrite lookup_singleton_ne by lia. apply Z.bits_0. }
  split.
  - done.
  - done.
  - by split.
  - split; try done.
    + exists 0. split; [simpl; lia|]. by apply Hub.
    + change (forall a, within 0xc0110000 94208 a -> ~ within 0xc009a001 1 a /\ ~ within 0xc009a000 1 a).
      unfold within. lia.
    + change (forall a, within 0xc009a001 1 a -> ~ within 0xc009a000 1 a). unfold within. lia.
  - split; try done.
    + split; [by split_and!|]. intros u Hu Hd. rewrite demo_dir_pde by done. by case_decide.
    + exists 1. split; [simpl; lia|done].
    + intros f Hf Hff. assert (Hf0 : f <> 0) by (intros ->; done).
      cbn [kmem demo_newborn kernel_pool phy_addr_start pool_bitmap btmp_bytes_len] in *.
      split; [split; [lia|]; rewrite (Z.mul_comm 4096), Z.mod_add by lia; done|].
      split; [cbn [cr3 kp demo_newborn]; lia|]. intros u Hu Hd. rewrite demo_dir_pde by done.
      case_decide; [|done]. intros _. change (frame 0x101007) with 0x101000. lia.
    + intros u v Hu Hv Hne [E|(Hp & _)]; [done|]. by rewrite demo_user_pde in Hp.
  - lia.
  - unfold bitmap_at, within, user_stack. change (task_at (kt demo_newborn) 0xc0108000) with demo_proc.
    unfold sizeof_thread_stack. cbn [self_kstack demo_proc userprog_vaddr vaddr_bitmap bits btmp_bytes_len kmem
      demo_newborn user_pool kernel_pool pool_bitmap]. rewrite u32_id by lia. lia.
Qed.

Lemma start_process_ok_witness :
  let u := 0xc0109000 - 4 * 76 in
  runs (undisturbed 0xc0108000 (start_private 0xc0108000 u demo_newborn))
    (fun p k1 => p = u /\
       runs (spared 0xc0108000 (start_private 0xc0108000 u demo_newborn))
         (fun x k' => x = u /\ started 0xc0108000 0x8048100 u demo_newborn k')
         (build_frame 1 0x8048100 p k1))
    (claim_frame demo_newborn).
Proof. by apply (start_process_ok 0xc0108000 0x8048100 0 demo_newborn); [|exact demo_can_start]. Defined.
