(* ===== verification/IdeSpec.v ===== *)
(** * The disk behind the driver

    What an ATA drive makes of the accesses to a channel's registers, the
    contract between the driver and the rest of the kernel while a thread
    uses a channel, and the driver's steps against both. *)
From S2P Require Import Prelude Machine Global Str Stdio Bitmap KList Paging Kernel Thread Timer.
From S2P Require Import Sync Console Memory Arena Interrupt Syscall Printk Ide Run.

(** ** An ATA channel

    The registers of the channel, the transfer a command has started, and
    the two drives as arrays of 16-bit words, 256 to a sector.  A count of 0
    in the sector-count register means 256 sectors.

    Data move by the handshake of the PIO protocols, sector by sector.  After
    a command, and after the last word of a sector when there are more to
    come, the drive is busy (BSY) until it has the data of the next sector,
    or room for them; then it clears BSY and sets DRQ, and a host that reads
    the status register sees the sector [x_open].  Only then do accesses to
    the data register move words.  [x_looks] counts the looks since the
    sector's turn came that found the drive busy.

    Two things differ between drives and are part of the state: [a_slow] is
    how many looks may find the drive busy before a sector, and [a_stream]
    says of a drive that within one command it has the next sector open as
    soon as the last word of one has moved, and is through with the interrupts
    for these sectors, which the driver does not expect, before its next
    command.  Nothing is assumed of either unless a theorem says so: PIO allows
    a drive that streams but does not ask for one. *)
Record xfer := Xfer {
  x_write : bool; x_drive : Z; x_pos : Z; x_left : Z; x_open : bool; x_looks : Z
}.

Record ata := Ata {
  a_cnt : Z; a_lo : Z; a_mid : Z; a_hi : Z; a_dev : Z;
  a_xfer : option xfer;
  a_words : Z -> Z -> Z;
  a_stream : bool;
  a_slow : Z
}.

Definition a_lba (a : ata) : Z :=
  a_lo a + 256 * a_mid a + 65536 * a_hi a + 16777216 * (a_dev a mod 16).
Definition a_drive (a : ata) : Z := a_dev a / 16 mod 2.
Definition a_sectors (a : ata) : Z := if decide (a_cnt a = 0) then 256 else a_cnt a.

Definition set_regs (c lo mid hi d : Z) (a : ata) : ata :=
  Ata c lo mid hi d (a_xfer a) (a_words a) (a_stream a) (a_slow a).
Definition set_xfer (x : xfer) (a : ata) : ata :=
  Ata (a_cnt a) (a_lo a) (a_mid a) (a_hi a) (a_dev a) (Some x) (a_words a) (a_stream a) (a_slow a).
Definition set_words (f : Z -> Z -> Z) (a : ata) : ata :=
  Ata (a_cnt a) (a_lo a) (a_mid a) (a_hi a) (a_dev a) (a_xfer a) f (a_stream a) (a_slow a).

(** A command: its first sector is not open yet. *)
Definition start (write : bool) (a : ata) : ata :=
  set_xfer (Xfer write (a_drive a) (256 * a_lba a) (256 * a_sectors a) false 0) a.

Definition upd_word (f : Z -> Z -> Z) (d p v : Z) : Z -> Z -> Z :=
  fun d' p' => if decide (d' = d /\ p' = p) then v else f d' p'.

(** One word of the transfer; the last of a sector ends the sector's turn. *)
Definition next_word (stream : bool) (x : xfer) : xfer :=
  let p := x_pos x + 1 in
  if decide (p mod 256 = 0) then Xfer (x_write x) (x_drive x) p (x_left x - 1) stream 0
  else Xfer (x_write x) (x_drive x) p (x_left x - 1) (x_open x) (x_looks x).
Definition advance (x : xfer) (a : ata) : ata := set_xfer (next_word (a_stream a) x) a.

(** A status that announces data: BSY clear, DRQ set. *)
Definition drq (st : Z) : bool := negb (Z.testbit st 7) && Z.testbit st 3.

(** A look at the status register that finds [st] there. *)
Definition look (st : Z) (x : xfer) : xfer :=
  if x_open x then x
  else if drq st then Xfer (x_write x) (x_drive x) (x_pos x) (x_left x) true (x_looks x)
  else Xfer (x_write x) (x_drive x) (x_pos x) (x_left x) false (x_looks x + 1).

(** The data register moves a word. *)
Definition moves (write : bool) (x : xfer) : Prop := x_write x = write /\ x_open x = true /\ 0 < x_left x.
#[export] Instance moves_dec write x : Decision (moves write x).
Proof. unfold moves. apply _. Defined.

Definition ata_event (pb : Z) (a : ata) (e : port_io) : ata :=
  match e with
  | Outb port v =>
      if decide (port = pb + 2) then set_regs v (a_lo a) (a_mid a) (a_hi a) (a_dev a) a
      else if decide (port = pb + 3) then set_regs (a_cnt a) v (a_mid a) (a_hi a) (a_dev a) a
      else if decide (port = pb + 4) then set_regs (a_cnt a) (a_lo a) v (a_hi a) (a_dev a) a
      else if decide (port = pb + 5) then set_regs (a_cnt a) (a_lo a) (a_mid a) v (a_dev a) a
      else if decide (port = pb + 6) then set_regs (a_cnt a) (a_lo a) (a_mid a) (a_hi a) v a
      else if decide (port = pb + 7) then
        if decide (v = CMD_READ_SECTOR) then start false a
        else if decide (v = CMD_WRITE_SECTOR) then start true a else a
      else a
  | Inw port _ =>
      match a_xfer a with
      | Some x => if decide (port = pb /\ moves false x) then advance x a else a
      | None => a
      end
  | Outw port v =>
      match a_xfer a with
      | Some x =>
          if decide (port = pb /\ moves true x) then
            set_words (upd_word (a_words a) (x_drive x) (x_pos x) v) (advance x a)
          else a
      | None => a
      end
  | Inb port v =>
      match a_xfer a with
      | Some x => if decide (port = pb + 7 /\ 0 < x_left x) then set_xfer (look v x) a else a
      | None => a
      end
  end.

(** The channel after the accesses [l]. *)
Definition ata_at (pb : Z) (a0 : ata) (l : list port_io) : ata := foldl (ata_event pb) a0 l.

(** Accesses that give the channel no command and move no data; others may
    read the status register, as the interrupt handler does. *)
Definition elsewhere (pb : Z) (e : port_io) : Prop :=
  match e with
  | Outb port _ => ~ pb + 2 <= port <= pb + 7
  | Inw port _ | Outw port _ => port <> pb
  | Inb _ _ => True
  end.

(** What is assumed of the bus: while data are due, the status register
    announces them, or, before the sector is open, the drive is busy, for no
    more than [a_slow] looks; once open, a sector stays so until its last
    word; the data register of an open sector answers with the drive's words.
    The driver gives up after 29999 looks: a drive is not slower than that. *)
Record ata_bus (hw : bus) (pb : Z) (a0 : ata) : Prop := {
  ab_port : 0 <= pb /\ pb + 7 < 65536;
  ab_slow : a_slow a0 < 29999;
  ab_data : forall l x, a_xfer (ata_at pb a0 l) = Some x -> moves false x ->
    in16 hw l pb = a_words (ata_at pb a0 l) (x_drive x) (x_pos x);
  ab_status : forall l x, a_xfer (ata_at pb a0 l) = Some x -> 0 < x_left x ->
    exists st, in8 hw l (pb + 7) = st /\ 0 <= st < 256 /\
      (drq st = true \/ x_open x = false /\ Z.testbit st 7 = true /\ x_looks x < a_slow a0)
}.

(** A transfer after some looks at the drive; a channel after accesses
    elsewhere. *)
Record looked (x x' : xfer) : Prop := {
  lk_write : x_write x' = x_write x; lk_drive : x_drive x' = x_drive x;
  lk_pos : x_pos x' = x_pos x; lk_left : x_left x' = x_left x;
  lk_open : x_open x = true -> x_open x' = true; lk_looks : x_looks x <= x_looks x'
}.

Definition settles (a a' : ata) : Prop :=
  a' = a \/ exists x x', a_xfer a = Some x /\ looked x x' /\ a' = set_xfer x' a.

#[export] Instance settles_pre : PreOrder settles.
Proof.
  split; [by left|]. intros a b c [->|(x & x' & Hx & L1 & ->)]; [done|].
  intros [->|(y & y' & Hy & L2 & ->)]; right; [by exists x, x'|].
  exists x, y'. injection Hy as <-. split; [done|]. split; [|done].
  destruct L1 as [A1 A2 A3 A4 A5 A6], L2 as [B1 B2 B3 B4 B5 B6]. split; try congruence; [auto|lia].
Qed.

Lemma settles_words a a' : settles a a' -> a_words a' = a_words a.
Proof. by intros [->|(x & x' & _ & _ & ->)]. Qed.

Lemma settles_xfer a a' x :
  settles a a' -> a_xfer a = Some x -> exists x', a_xfer a' = Some x' /\ looked x x'.
Proof.
  intros [->|(y & y' & Hy & L & ->)] Hx; [by exists x|].
  exists y'. rewrite Hx in Hy. by injection Hy as <-.
Qed.

(** A read in progress is open: what the channel's interrupt says. *)
Definition answered (a : ata) : Prop :=
  forall x, a_xfer a = Some x -> x_write x = false -> 0 < x_left x -> x_open x = true.

Lemma settles_answered a a' : settles a a' -> answered a -> answered a'.
Proof.
  intros [->|(y & y' & Hy & [L1 L2 L3 L4 L5 L6] & ->)] Ha; [done|]. intros x [= <-] Hw Hl.
  apply L5, (Ha y Hy); [congruence|lia].
Qed.

(** [n] words can move without another look. *)
Definition flows (stream : bool) (n : Z) (x : xfer) : Prop :=
  x_open x = true /\ (stream = true \/ x_pos x mod 256 + n <= 256).

Lemma flows_next stream n x :
  flows stream (n + 1) x -> 0 < n -> flows stream n (next_word stream x).
Proof.
  intros [Ho Hs] Hn. unfold flows, next_word. case_decide as E; simpl.
  - destruct Hs as [->|Hs]; [by split; [|left]|]. exfalso. Z.div_mod_to_equations; lia.
  - split; [done|]. destruct Hs as [Hs|Hs]; [by left|right].
    assert (x_pos x mod 256 <> 255) by (intros Hm; apply E; rewrite Z.add_mod, Hm by lia; done).
    rewrite (Z.add_mod (x_pos x) 1), (Z.mod_small 1), (Z.mod_small (_ + 1)) by (Z.div_mod_to_equations; lia). lia.
Qed.

Section channel.
Context (hw : bus) (pb : Z) (a0 : ata) (Hhw : ata_bus hw pb a0).

Lemma ata_at_app l e : ata_at pb a0 (l ++ e) = foldl (ata_event pb) (ata_at pb a0 l) e.
Proof. apply foldl_app. Qed.

Lemma ata_at_snoc l e : ata_at pb a0 (l ++ [e]) = ata_event pb (ata_at pb a0 l) e.
Proof. by rewrite ata_at_app. Qed.

(** What a drive is like never changes. *)
Lemma event_kind a e : a_stream (ata_event pb a e) = a_stream a /\ a_slow (ata_event pb a e) = a_slow a.
Proof.
  destruct e as [p v|p v|p v|p v]; simpl; repeat case_decide; try done; destruct (a_xfer a) as [x|]; try done;
    by case_decide.
Qed.

Lemma ata_at_kind l : a_stream (ata_at pb a0 l) = a_stream a0 /\ a_slow (ata_at pb a0 l) = a_slow a0.
Proof.
  induction l as [|e l IH] using rev_ind; [done|]. rewrite ata_at_snoc.
  destruct (event_kind (ata_at pb a0 l) e). destruct IH. split; congruence.
Qed.

Lemma look_looked st x : looked x (look st x).
Proof.
  unfold look. destruct (x_open x) eqn:E; [done|].
  destruct (drq st); split; simpl; first [done | congruence | lia].
Qed.

Lemma elsewhere_event a e : elsewhere pb e -> settles a (ata_event pb a e).
Proof.
  destruct e as [p v|p v|p v|p v]; simpl; intros He.
  - left. by rewrite !decide_False by lia.
  - left. destruct (a_xfer a); [|done]. by rewrite decide_False by tauto.
  - destruct (a_xfer a) as [x|] eqn:Hx; [|by left]. case_decide; [|by left]. right.
    exists x, (look v x). split; [done|]. split; [apply look_looked|done].
  - left. destruct (a_xfer a); [|done]. by rewrite decide_False by tauto.
Qed.

Lemma elsewhere_at l ev : Forall (elsewhere pb) ev -> settles (ata_at pb a0 l) (ata_at pb a0 (l ++ ev)).
Proof.
  intros Hev. rewrite ata_at_app. generalize (ata_at pb a0 l) as a.
  induction Hev as [|e ev He Hev IH]; intros a; [done|]. simpl.
  etransitivity; [by apply elsewhere_event|apply IH].
Qed.

(** [insw]: the next [n] words of the drive are in memory. *)
Lemma insw_ok n addr x m :
  a_xfer (ata_at pb a0 (ports m)) = Some x -> x_write x = false -> Z.of_nat n <= x_left x ->
  flows (a_stream a0) (Z.of_nat n) x ->
  0 <= addr -> addr + 2 * Z.of_nat n <= 4294967296 ->
  exists r' ev, insw hw n pb addr m = Ok (tt, set_ports (ports m ++ ev) (set_ram r' m)) /\
    a_words (ata_at pb a0 (ports m ++ ev)) = a_words (ata_at pb a0 (ports m)) /\
    agree (fun b => ~ within addr (2 * Z.of_nat n) b) (ram m) r' /\
    forall i, 0 <= i < Z.of_nat n ->
      ld16 r' (addr + 2 * i) = u16 (a_words (ata_at pb a0 (ports m)) (x_drive x) (x_pos x + i)).
Proof.
  destruct Hhw as [[Hpb0 Hpb7] _ Hdata _]. revert addr x m.
  induction n as [|n IH]; intros addr x m Hx Hw Hl Hfl Ha Hb.
  { exists (ram m), []. rewrite app_nil_r. split_and!; [by destruct m|done|done|lia]. }
  cbn [insw]. rewrite (u16_id pb) by lia. unfold gets. mstep.
  set (a := ata_at pb a0 (ports m)) in *.
  assert (Hmv : moves false x) by (split; [done|]; split; [apply Hfl|lia]).
  rewrite (Hdata (ports m) x Hx Hmv). fold a. set (w := u16 (a_words a (x_drive x) (x_pos x))).
  mstep. mstep. set (m1 := set_ram _ (set_ports _ m)).
  assert (Hp1 : ports m1 = ports m ++ [Inw pb w]) by done.
  assert (Ha1 : ata_at pb a0 (ports m1) = advance x a).
  { rewrite Hp1, ata_at_snoc. fold a. simpl. rewrite Hx, decide_True by done. done. }
  assert (Hr1 : ram m1 = st16 (ram m) addr w) by done.
  destruct (decide (n = 0%nat)) as [->|Hn].
  { exists (ram m1), [Inw pb w]. split_and!.
    - done.
    - rewrite <- Hp1, Ha1. done.
    - rewrite Hr1. apply agree_st16; unfold within; lia.
    - intros i Hi. replace i with 0 by lia. rewrite !Z.add_0_r, Hr1, ld16_st16_eq. apply u16_id, u16_range. }
  rewrite u32_id by lia.
  assert (Hst : a_stream a = a_stream a0) by apply ata_at_kind.
  assert (Hnx : next_word (a_stream a) x = Xfer (x_write x) (x_drive x) (x_pos x + 1) (x_left x - 1)
    (x_open (next_word (a_stream a) x)) (x_looks (next_word (a_stream a) x))) by (unfold next_word; by case_decide).
  destruct (IH (addr + 2) (next_word (a_stream a) x) m1)
    as (r' & ev & Hrun & Hat & Hag & Hv); [by rewrite Ha1|by rewrite Hnx|rewrite Hnx; simpl; lia| |lia..|].
  { rewrite Hst. apply flows_next; [|lia]. by replace (Z.of_nat n + 1) with (Z.of_nat (S n)) by lia. }
  exists r', (Inw pb w :: ev). rewrite Hp1 in *. rewrite <- app_assoc in *. cbn [app] in *. split_and!.
  - exact Hrun.
  - rewrite Hat, Ha1. done.
  - apply (agree_trans _ _ (ram m1)).
    + rewrite Hr1. apply agree_st16; unfold within; lia.
    + eapply agree_weaken; [|exact Hag]. unfold within. cbv beta. intros; lia.
  - intros i Hi. destruct (decide (i = 0)) as [->|Hi0].
    + rewrite !Z.add_0_r. rewrite (agree_ld16 _ _ _ addr Hag) by (unfold within; lia).
      rewrite Hr1, ld16_st16_eq. apply u16_id, u16_range.
    + specialize (Hv (i - 1) ltac:(lia)). rewrite Hnx in Hv. cbn [x_drive x_pos] in Hv. rewrite Ha1 in Hv.
      replace (addr + 2 + 2 * (i - 1)) with (addr + 2 * i) in Hv by lia. rewrite Hv.
      unfold advance, set_xfer. cbn [a_words]. do 2 f_equal. lia.
Qed.

(** [outsw]: the next [n] words of the drive are those of memory. *)
Lemma outsw_ok n addr x m :
  a_xfer (ata_at pb a0 (ports m)) = Some x -> x_write x = true -> Z.of_nat n <= x_left x ->
  flows (a_stream a0) (Z.of_nat n) x ->
  0 <= addr -> addr + 2 * Z.of_nat n <= 4294967296 ->
  exists ev, outsw n pb addr m = Ok (tt, set_ports (ports m ++ ev) m) /\
    answered (ata_at pb a0 (ports m ++ ev)) /\
    forall d p, a_words (ata_at pb a0 (ports m ++ ev)) d p =
      if decide (d = x_drive x /\ x_pos x <= p < x_pos x + Z.of_nat n)
      then ld16 (ram m) (addr + 2 * (p - x_pos x)) else a_words (ata_at pb a0 (ports m)) d p.
Proof.
  destruct Hhw as [[Hpb0 Hpb7] _ _ _]. revert addr x m.
  induction n as [|n IH]; intros addr x m Hx Hw Hl Hfl Ha Hb.
  { exists []. rewrite app_nil_r. split_and!; [by destruct m| |].
    - intros y Hy Hyw. congruence.
    - intros d p. by rewrite decide_False by lia. }
  cbn [outsw]. unfold load16. mstep. set (w := ld16 (ram m) addr). rewrite (u16_id pb) by lia. mstep.
  set (m1 := set_ports _ m). set (a := ata_at pb a0 (ports m)) in *.
  assert (Hmv : moves true x) by (split; [done|]; split; [apply Hfl|lia]).
  assert (Ha1 : ata_at pb a0 (ports m1) = set_words (upd_word (a_words a) (x_drive x) (x_pos x) w) (advance x a)).
  { etransitivity; [apply ata_at_snoc|]. fold a. simpl. by rewrite Hx, decide_True by done. }
  assert (Hword : forall d p, a_words (ata_at pb a0 (ports m1)) d p =
    if decide (d = x_drive x /\ p = x_pos x) then w else a_words a d p) by (by rewrite Ha1).
  assert (Hst : a_stream a = a_stream a0) by apply ata_at_kind.
  assert (Hnx : next_word (a_stream a) x = Xfer true (x_drive x) (x_pos x + 1) (x_left x - 1)
    (x_open (next_word (a_stream a) x)) (x_looks (next_word (a_stream a) x)))
    by (unfold next_word; rewrite Hw; by case_decide).
  destruct (decide (n = 0%nat)) as [->|Hn].
  { exists [Outw pb w]. change (ports m ++ [Outw pb w]) with (ports m1). split_and!; [done| |].
    - intros y Hy Hyw. rewrite Ha1 in Hy. injection Hy as <-. rewrite Hnx in Hyw. done.
    - intros d p. rewrite Hword.
      destruct (decide (d = x_drive x /\ p = x_pos x)) as [[-> ->]|Hdp].
      + rewrite decide_True by (split; [done|lia]). unfold w. f_equal. lia.
      + rewrite decide_False; [done|]. intros [-> Hp]. apply Hdp. split; [done|lia]. }
  rewrite u32_id by lia.
  destruct (IH (addr + 2) (next_word (a_stream a) x) m1)
    as (ev & Hrun & Hat & Hv); [by rewrite Ha1|by rewrite Hnx|rewrite Hnx; simpl; lia| |lia..|].
  { rewrite Hst. apply flows_next; [|lia]. by replace (Z.of_nat n + 1) with (Z.of_nat (S n)) by lia. }
  exists (Outw pb w :: ev). change (ports m ++ Outw pb w :: ev) with (ports m ++ [Outw pb w] ++ ev).
  rewrite app_assoc. change (ports m ++ [Outw pb w]) with (ports m1). split_and!.
  - rewrite Hrun. done.
  - exact Hat.
  - intros d p. rewrite Hv. rewrite Hnx. cbn [x_drive x_pos]. rewrite Hword. change (ram m1) with (ram m).
    destruct (decide (d = x_drive x /\ x_pos x <= p < x_pos x + Z.of_nat (S n))) as [[-> Hp]|Hno].
    + destruct (decide (p = x_pos x)) as [->|Hne].
      * rewrite decide_False, decide_True by (done || lia). unfold w. f_equal. lia.
      * rewrite decide_True by lia. f_equal. lia.
    + rewrite decide_False by lia. rewrite decide_False; [done|]. intros [-> ->]. apply Hno.
      split; [done|lia].
Qed.
(** ** Commands *)

(** The structures of disk [hd], drive [dev] of channel [ch], in memory. *)
Record disk_at (r : gmap Z Z) (hd ch dev : Z) : Prop := {
  da_channel : ld32 r (hd + 8) = ch;
  da_dev : ld8 r (hd + 12) = dev;
  da_port : ld16 r (ch + 8) = pb;
  da_two : dev = 0 \/ dev = 1
}.

Definition dev_byte (dev : Z) : Z := if decide (dev = 1) then 0xf0 else 0xe0.

Definition sector_words (lba cnt dev : Z) : list port_io :=
  [Outb (pb + 2) (u8 cnt); Outb (pb + 3) (u8 lba); Outb (pb + 4) (u8 (lba / 256));
   Outb (pb + 5) (u8 (lba / 65536)); Outb (pb + 6) (dev_byte dev)].

Lemma port_id i : 0 <= i <= 7 -> u16 (pb + i) = pb + i.
Proof. destruct Hhw as [[H0 H7] _ _ _]. intros Hi. apply u16_id. lia. Qed.

Lemma select_disk_eq hd ch dev m :
  disk_at (ram m) hd ch dev ->
  select_disk hd m = Ok (tt, set_ports (ports m ++ [Outb (pb + 6) (dev_byte dev)]) m).
Proof.
  intros [Hc Hd Hp Hdev]. unfold select_disk, dev_no_of, my_channel, port_base_of, load8, load16, load32.
  mstep. mstep. mstep. rewrite Hc, Hp, Hd. unfold outb, log_io, modify, reg_dev.
  rewrite port_id by lia. unfold dev_byte. by destruct Hdev as [-> | ->].
Qed.

Lemma select_sector_eq hd ch dev lba cnt m :
  disk_at (ram m) hd ch dev -> 0 <= lba <= max_lba ->
  select_sector hd lba cnt m = Ok (tt, set_ports (ports m ++ sector_words lba cnt dev) m).
Proof.
  intros [Hc Hd Hp Hdev] Hl. change max_lba with 131071 in *.
  unfold select_sector, dev_no_of, my_channel, port_base_of, load8, load16, load32.
  change max_lba with 131071. rewrite bool_decide_true by lia. mstep. mstep. mstep. mstep.
  rewrite Hc, Hp, Hd. unfold outb, log_io. do 4 mstep. unfold modify.
  unfold reg_sect_cnt, reg_lba_l, reg_lba_m, reg_lba_h, reg_dev. rewrite !port_id by lia.
  rewrite !Z.shiftr_div_pow2 by lia. change (2 ^ 8) with 256. change (2 ^ 16) with 65536.
  change (2 ^ 24) with 16777216. rewrite (Z.div_small lba 16777216) by lia. rewrite Z.lor_0_r.
  cbn [ports set_ports]. rewrite <- !app_assoc. unfold sector_words, dev_byte.
  by destruct Hdev as [-> | ->].
Qed.

Lemma cmd_out_eq hd ch dev cmd m :
  disk_at (ram m) hd ch dev -> 0 <= cmd < 256 ->
  cmd_out ch cmd m = Ok (tt, set_ports (ports m ++ [Outb (pb + 7) cmd])
                             (set_ram (st32 (ram m) (ch + 12) 1) m)).
Proof.
  intros [Hc Hd Hp Hdev] Hcmd. unfold cmd_out, port_base_of, load16. mstep. mstep.
  cbn [ram set_ram]. unfold ld16. rewrite !ld8_st32_ne by lia. fold (ld16 (ram m) (ch + 8)). rewrite Hp.
  unfold outb, log_io, modify, reg_cmd, reg_status. by rewrite port_id, u8_id by lia.
Qed.

(** The registers, one write each. *)
Lemma event_2 a v : ata_event pb a (Outb (pb + 2) v) =
  set_regs v (a_lo a) (a_mid a) (a_hi a) (a_dev a) a.
Proof. cbn [ata_event]. by rewrite decide_True. Qed.
Lemma event_3 a v : ata_event pb a (Outb (pb + 3) v) =
  set_regs (a_cnt a) v (a_mid a) (a_hi a) (a_dev a) a.
Proof. cbn [ata_event]. rewrite (decide_False (P := pb + 3 = pb + 2)) by lia. by rewrite decide_True. Qed.
Lemma event_4 a v : ata_event pb a (Outb (pb + 4) v) =
  set_regs (a_cnt a) (a_lo a) v (a_hi a) (a_dev a) a.
Proof. cbn [ata_event]. rewrite (decide_False (P := pb + 4 = pb + 2)), (decide_False (P := pb + 4 = pb + 3)) by lia. by rewrite decide_True. Qed.
Lemma event_5 a v : ata_event pb a (Outb (pb + 5) v) =
  set_regs (a_cnt a) (a_lo a) (a_mid a) v (a_dev a) a.
Proof. cbn [ata_event]. rewrite (decide_False (P := pb + 5 = pb + 2)), (decide_False (P := pb + 5 = pb + 3)), (decide_False (P := pb + 5 = pb + 4)) by lia. by rewrite decide_True. Qed.
Lemma event_6 a v : ata_event pb a (Outb (pb + 6) v) =
  set_regs (a_cnt a) (a_lo a) (a_mid a) (a_hi a) v a.
Proof. cbn [ata_event]. rewrite (decide_False (P := pb + 6 = pb + 2)), (decide_False (P := pb + 6 = pb + 3)), (decide_False (P := pb + 6 = pb + 4)), (decide_False (P := pb + 6 = pb + 5)) by lia. by rewrite decide_True. Qed.

Lemma event_regs a v2 v3 v4 v5 v6 :
  foldl (ata_event pb) a
    [Outb (pb + 2) v2; Outb (pb + 3) v3; Outb (pb + 4) v4; Outb (pb + 5) v5; Outb (pb + 6) v6] =
  set_regs v2 v3 v4 v5 v6 a.
Proof. cbn [foldl]. by rewrite event_2, event_3, event_4, event_5, event_6. Qed.

Definition command (write : bool) : Z := if write then CMD_WRITE_SECTOR else CMD_READ_SECTOR.

Lemma event_command a (write : bool) : ata_event pb a (Outb (pb + 7) (command write)) = start write a.
Proof. cbn [ata_event]. rewrite !(decide_False (P := pb + 7 = _)), decide_True by lia. by destruct write. Qed.

(** The transfer a command starts: a count of 256 is sent as the byte 0. *)
Lemma command_at l lba n dev (write : bool) :
  0 <= lba <= max_lba -> 0 < n <= 256 -> dev = 0 \/ dev = 1 ->
  let a' := ata_at pb a0 ((l ++ sector_words lba (u8 n) dev) ++ [Outb (pb + 7) (command write)]) in
  a_xfer a' = Some (Xfer write dev (256 * lba) (256 * n) false 0) /\
  a_words a' = a_words (ata_at pb a0 l).
Proof.
  intros Hl Hn Hdev. change max_lba with 131071 in *. cbv zeta.
  rewrite ata_at_snoc, ata_at_app, event_command. unfold sector_words. rewrite event_regs.
  unfold start, set_xfer, set_regs, a_drive, a_lba, a_sectors. cbn [a_cnt a_lo a_mid a_hi a_dev a_xfer a_words].
  split; [|done]. f_equal.
  assert (Hd : dev_byte dev mod 16 = 0 /\ dev_byte dev / 16 mod 2 = dev) by (by destruct Hdev as [-> | ->]).
  destruct Hd as [-> ->]. f_equal.
  - unfold_ints. Z.div_mod_to_equations; lia.
  - f_equal. rewrite u8_idem. destruct (decide (n = 256)) as [->|Hne]; [done|].
    rewrite u8_id by lia. by rewrite decide_False by lia.
Qed.
End channel.
