(* ===== verification/IdeLogic.v ===== *)
(** * Reading and writing sectors

    A thread's use of a channel: what the rest of the kernel may do while the
    thread is out ([absent]), what stays true while it is at work ([inside]),
    and the two calls of the driver under this contract. *)
From S2P Require Import Prelude Machine Global Str Stdio Bitmap KList Paging Kernel Thread Timer.
From S2P Require Import Sync Console Memory Arena Interrupt Syscall Printk Ide Run LockRun IdeSpec.

(** What else stays as it was while a channel is used, by a thread with
    business elsewhere: [R k0 k] says it of [k] since [k0].  The driver's own
    steps may change the machine, the locks and semaphores of the channels
    and, when it waits, the thread's place in the scheduler. *)
Record frame_laws (R : kst -> kst -> Prop) : Prop := {
  fl_trans k0 k k' : R k0 k -> R k k' -> R k0 k';
  fl_here k0 k : R k0 k -> R k k;
  fl_km k0 k m : R k0 k -> R k0 (set_km m k);
  fl_ks k0 k s : R k0 k ->
    (forall l, (forall n, l <> channel_lock n) ->
       lock_at s l = lock_at (ks k) l /\ sema_at s (lock_semaphore l) = sema_at (ks k) (lock_semaphore l)) ->
    R k0 (set_ks s k);
  fl_away k0 k pg e0 th k' : R k0 k -> pwords pg = pwords (kp k) ->
    R (switched pg e0 th k) k' -> R k0 k'
}.

(** The interrupt flag is neither memory nor a port. *)
Lemma irq_off_ports m : ports (irq_off m) = ports m.
Proof. unfold irq_off. by destruct (IF m). Qed.
Lemma set_if_ports b m : ports (set_if b m) = ports m.
Proof. unfold set_if, irq_on, irq_off. destruct b; by destruct (IF m). Qed.
Lemma set_if_ram b m : ram (set_if b m) = ram m.
Proof. unfold set_if, irq_on, irq_off. destruct b; by destruct (IF m). Qed.

(** Nothing else. *)
Definition no_frame (k k' : kst) : Prop := True.
Lemma no_frame_laws : frame_laws no_frame.
Proof. done. Qed.

Section use.
(** The bus, the channel's ports and its first state; the driver's addresses;
    the disk, its channel and drive number; the thread. *)
Context (hw : bus) (pb : Z) (a0 : ata) (Hhw : ata_bus hw pb a0) (ln : ide_link).
Context (hd ch dev t : Z) (Ht : t <> 0).
(** Memory nobody else writes while the thread uses the channel. *)
Context (P : Z -> Prop).
Context (HPhd : forall a, within (hd + 8) 5 a -> P a) (HPch : forall a, within (ch + 8) 2 a -> P a).
Context (HPexp : forall a, within (ch + 12) 4 a -> ~ P a).
(** What else others leave alone, since [k0]. *)
Context (R : kst -> kst -> Prop) (HR : frame_laws R) (k0 : kst).

Let l : lock_id := channel_lock (channel_no ln ch).
Let d : sema_id := disk_done (channel_no ln ch).

Definition expecting (k : kst) : Z := ld32 (ram (km k)) (ch + 12).

(** While the thread is out, other threads and interrupt handlers run.  They
    leave the channel's lock, its command registers and the private memory
    alone; the channel's interrupt may arrive when it is expected, and then
    the handler has made the semaphore 1 and, if the command is a read, its
    look at the status register has found the sector ([answered]); the thread
    runs again only when it waits for nothing. *)
Record absent (k k' : kst) : Prop := {
  ab_run : running (kt k') = t;
  ab_sched : sched_inv (kt k');
  ab_dirs : dirs_ok (tasks (kt k')) (kp k');
  ab_lock : lock_at (ks k') l = lock_at (ks k) l;
  ab_lsema : sema_at (ks k') (lock_semaphore l) = sema_at (ks k) (lock_semaphore l);
  ab_mem : agree P (ram (km k)) (ram (km k'));
  ab_ports : exists ev, ports (km k') = ports (km k) ++ ev /\ Forall (elsewhere pb) ev;
  ab_irq : (expecting k' = expecting k /\ sema_at (ks k') d = sema_at (ks k) d /\
            waiters (sema_at (ks k) d) = []) \/
           (expecting k <> 0 /\ expecting k' = 0 /\ sema_at (ks k') d = Sema 1 [] /\
            answered (ata_at pb a0 (ports (km k'))));
  ab_frame : R k k'
}.

(** The channel between commands, and after a command until its interrupt
    has been waited for. *)
Definition at_rest (k : kst) : Prop := expecting k = 0 /\ sema_at (ks k) d = Sema 0 [].
Definition at_work (k : kst) : Prop :=
  (expecting k = 1 /\ sema_at (ks k) d = Sema 0 []) \/
  (expecting k = 0 /\ sema_at (ks k) d = Sema 1 [] /\ answered (ata_at pb a0 (ports (km k)))).

(** [a] is the channel when the thread last looked or touched it. *)
Record inside (L : lock) (S : semaphore) (busy : bool) (a : ata) (r : gmap Z Z) (k : kst) : Prop := {
  in_run : running (kt k) = t;
  in_sched : sched_inv (kt k);
  in_dirs : dirs_ok (tasks (kt k)) (kp k);
  in_lock : lock_at (ks k) l = L;
  in_lsema : sema_at (ks k) (lock_semaphore l) = S;
  in_phase : if busy then at_work k else at_rest k;
  in_ata : settles a (ata_at pb a0 (ports (km k)));
  in_mem : agree P r (ram (km k));
  in_frame : R k0 k
}.

(** The thread back from outside, where the state was [k]. *)
Lemma inside_back L S (busy : bool) a r k k' :
  lock_at (ks k) l = L -> sema_at (ks k) (lock_semaphore l) = S ->
  (if busy then at_work k else at_rest k) -> settles a (ata_at pb a0 (ports (km k))) ->
  agree P r (ram (km k)) -> absent k k' -> R k0 k' -> inside L S busy a r k'.
Proof.
  intros H4 H5 H6 H7 H8 [G1 G2 G3 G4 G5 G6 (ev & Hev & Hq) G7 G8] H9.
  assert (Hs : settles (ata_at pb a0 (ports (km k))) (ata_at pb a0 (ports (km k')))).
  { rewrite Hev. by apply elsewhere_at. }
  split; try done; try congruence.
  - destruct busy; unfold at_work, at_rest in *.
    + destruct G7 as [(-> & -> & _)|(Ge & Ge' & Gs & Ga)]; [|by right].
      destruct H6 as [H6|(H6 & H6' & H6'')]; [by left|right]. split_and!; [done..|]. by eapply settles_answered.
    + destruct G7 as [(-> & -> & _)|(Ge & Ge' & Gs)]; [done|]. by destruct H6.
  - by etransitivity.
  - by transitivity (ram (km k)).
Qed.

Lemma inside_absent L S busy a r k k' :
  inside L S busy a r k -> absent k k' -> inside L S busy a r k'.
Proof.
  intros [H1 H2 H3 H4 H5 H6 H7 H8 H9] HE. eapply inside_back; try done.
  eapply (fl_trans _ HR); [done|]. apply HE.
Qed.

(** A change of the machine that keeps memory and adds accesses that do not
    concern the channel. *)
Lemma inside_km L S busy a r k m ev :
  inside L S busy a r k -> ram m = ram (km k) -> ports m = ports (km k) ++ ev ->
  Forall (elsewhere pb) ev -> inside L S busy a r (set_km m k).
Proof.
  intros [H1 H2 H3 H4 H5 H6 H7 H8 H9] Hr Hp Hev.
  assert (Hs : settles (ata_at pb a0 (ports (km k))) (ata_at pb a0 (ports m))).
  { rewrite Hp. by apply elsewhere_at. }
  split; try done.
  - destruct busy; unfold at_work, at_rest, expecting in *; cbn [km ks set_km]; rewrite Hr; [|done].
    destruct H6 as [H6|(H6 & H6' & H6'')]; [by left|right]. split_and!; [done..|]. by eapply settles_answered.
  - cbn [km set_km]. by etransitivity.
  - cbn [km set_km]. by rewrite Hr.
  - by apply (fl_km _ HR).
Qed.

Lemma inside_if L S busy a r k b :
  inside L S busy a r k -> inside L S busy a r (set_km (set_if b (km k)) k).
Proof.
  intros H. apply (inside_km _ _ _ _ _ _ _ [] H); [| |done].
  - unfold set_if, irq_on, irq_off. destruct b; by destruct (IF (km k)).
  - rewrite app_nil_r. unfold set_if, irq_on, irq_off. destruct b; by destruct (IF (km k)).
Qed.

(** The thread looks at the channel. *)
Lemma inside_now L S busy a r k :
  inside L S busy a r k -> inside L S busy (ata_at pb a0 (ports (km k))) r k.
Proof. intros [H1 H2 H3 H4 H5 H6 H7 H8 H9]. by split. Qed.

Lemma inside_off L S busy a r k :
  inside L S busy a r k -> inside L S busy a r (set_km (irq_off (km k)) k).
Proof. apply (inside_if L S busy a r k false). Qed.

Lemma inside_disk L S busy a r k :
  inside L S busy a r k -> disk_at pb r hd ch dev -> disk_at pb (ram (km k)) hd ch dev.
Proof.
  intros H [D1 D2 D3 D4]. pose proof (in_mem _ _ _ _ _ _ H) as Hag. split; [..|done].
  - rewrite <- D1. eapply agree_ld32; [exact Hag|]. intros i Hi. apply HPhd. unfold within. lia.
  - rewrite <- D2. apply Hag, HPhd. unfold within. lia.
  - rewrite <- D3. eapply agree_ld16; [exact Hag|..]; apply HPch; unfold within; lia.
Qed.

(** ** Windows, locks, the semaphore *)

Lemma runs_window_inside {A} (B : Prop) (f : unit -> K A) Q L S busy a r k :
  inside L S busy a r k -> (forall k', inside L S busy a r k' -> runs_or absent B Q (f tt k')) ->
  runs_or absent B Q ((irq_window ≫= f) k).
Proof.
  intros H Hf. apply runs_window; [by apply Hf|]. intros k' HE. apply Hf. by eapply inside_absent.
Qed.

(** Between commands the channel's lock is the thread's to use. *)
#[export] Instance inside_lock_use a r : LockUse absent l t (fun L S => inside L S false a r).
Proof.
  split.
  - intros L S k. apply in_run.
  - intros L S k. apply in_lock.
  - intros L S k. apply in_lsema.
  - intros L S k k'. apply inside_absent.
  - intros L S k s [H1 H2 H3 H4 H5 [H6 H6'] H7 H8 H9] [Hb Hd]. split; try done.
    + split; [exact H6|]. rewrite <- H6'. by apply (Hd d).
    + apply (fl_ks _ HR); [done|]. intros l' Hl'.
      assert (Hn : l' ∉ [l]) by (unfold l; set_solver). split; [by apply Hb|]. apply Hd. by intros ? [= <-].
Qed.

(** Nothing is expected any more and the semaphore is 1: taking it. *)
Lemma inside_taken L S a r k f :
  inside L S true a r k -> sema_at (ks k) d = Sema 1 [] -> expecting k = 0 -> f (Sema 1 []) = Sema 0 [] ->
  inside L S false a r (set_ks (upd_sema_st d f (ks k)) k).
Proof.
  intros [H1 H2 H3 H4 H5 H6 H7 H8 H9] Hs He Hf. split; try done.
  - cbn [ks set_ks]. by rewrite sema_at_upd, decide_False.
  - split; [exact He|]. cbn [ks set_ks]. by rewrite sema_at_upd, decide_True, Hs.
  - apply (fl_ks _ HR); [done|]. intros l' Hl'. split; [done|]. by rewrite sema_at_upd, decide_False.
Qed.

(** The thread blocks, and when it runs again the handler has been there. *)
Lemma sema_wait_irq B fuel L S a r k :
  inside L S true a r k -> sema_at (ks k) d = Sema 0 [] -> IF (km k) = false ->
  runs_or absent B (fun _ k' => inside L S true a r k' /\ sema_at (ks k') d = Sema 1 [] /\ expecting k' = 0 /\
      answered (ata_at pb a0 (ports (km k'))))
    (sema_wait (Datatypes.S (Datatypes.S fuel)) d k).
Proof.
  intros H Hs HI.
  cbn [sema_wait]. unfold get_sema, running_thread. kstep. rewrite Hs.
  rewrite decide_True by done. kstep. cbn [waiters]. unfold in_list. rewrite bool_decide_false by
    apply not_elem_of_nil. kstep. kstep. kstep.
  set (k2 := set_ks _ k). destruct H as [H1 H2 H3 H4 H5 H6 H7 H8 H9].
  apply runs_block; [done|done|done|]. intros pg e0 k3 Hpw HE.
  assert (Hw : waiters (sema_at (ks k2) d) <> []).
  { unfold k2. cbn [ks set_ks]. rewrite sema_at_upd, decide_True by done. by rewrite Hs. }
  destruct HE as [G1 G2 G3 G4 G5 G6 (ev & Hev & Hq) G7 Gf].
  destruct G7 as [(_ & _ & Hn)|(_ & G8 & G9 & G10)]; [by destruct Hw|].
  assert (Hin : inside L S true a r k3).
  { split; try done.
    - rewrite G4. exact H4.
    - rewrite G5. unfold k2, switched. cbn [ks set_ks set_esp0 set_kp set_kt set_km].
      rewrite sema_at_upd, decide_False by done. exact H5.
    - by right.
    - etransitivity; [exact H7|]. rewrite Hev. unfold switched, k2.
      cbn [km set_ks set_esp0 set_kp set_kt set_km]. rewrite irq_off_ports. by apply elsewhere_at.
    - etransitivity; [exact H8|]. etransitivity; [|exact G6]. unfold switched, k2.
      cbn [km set_ks set_esp0 set_kp set_kt set_km]. by rewrite !irq_off_ram.
    - eapply (fl_away _ HR _ k2); [|exact Hpw|exact Gf]. unfold k2. apply (fl_ks _ HR); [done|].
      intros l' Hl'. split; [done|]. by rewrite sema_at_upd, decide_False. }
  apply (inside_if _ _ _ _ _ _ (IF (km k2))) in Hin. set (k4 := set_km _ k3) in *.
  kstep. change (ks k4) with (ks k3). rewrite G9. constructor. split; [done|]. split; [exact G9|].
  unfold expecting, k4. cbn [km set_km]. rewrite set_if_ram, set_if_ports. done.
Qed.

(** Waiting for the interrupt: at once when it has come, otherwise until
    the thread is woken. *)
Lemma runs_wait_irq B fuel L S a r k :
  inside L S true a r k ->
  runs_or absent B (fun _ k' => inside L S false a r k' /\ answered (ata_at pb a0 (ports (km k'))))
    (sema_down (Datatypes.S (Datatypes.S fuel)) d k).
Proof.
  intros H. destruct (in_phase _ _ _ _ _ _ H) as [[He Hs]|(He & Hs & Han)].
  2:{ rewrite sema_down_free by (by rewrite Hs). constructor. split; [by apply inside_taken|exact Han]. }
  unfold sema_down. rewrite (kbind_Done _ _ _ _ _ (on_mach_disable k)). cbv beta.
  apply inside_off in H. set (k1 := set_km (irq_off (km k)) k) in *.
  eapply runs_bind; [apply (sema_wait_irq B fuel L S a r k1 H); [exact Hs|apply irq_off_IF]|].
  intros [] k5 (H5 & Hs5 & He5 & Ha5). kstep. unfold get_sema. kstep.
  cbn [ks set_ks]. rewrite sema_at_upd, decide_True by done. rewrite Hs5. kstep.
  set (k6 := set_ks _ k5). assert (H6 : inside L S false a r k6) by (by apply inside_taken).
  rewrite (kbind_Done _ _ _ _ _ (on_mach_set_status (IF (km k)) k6)). constructor.
  split; [by apply inside_if|]. cbn [km set_km]. by rewrite set_if_ports.
Qed.

(** Sleeping while the channel is in use: nothing is said of how long the
    clock takes ([B]). *)
Lemma sleep_inside (B : Prop) fuel L S busy a r k :
  B -> inside L S busy a r k ->
  runs_or absent B (fun _ k' => inside L S busy a r k') (mtime_sleep fuel 10 k).
Proof.
  intros HB H. unfold mtime_sleep. change (DIV_ROUND_UP 10 mil_seconds_per_intr) with 1.
  rewrite bool_decide_true by lia. kstep. unfold ticks_to_sleep. kstep.
  generalize (sys_ticks (kdev k)) as tk. intros tk. revert k H.
  induction fuel as [|fuel IH]; intros k H; cbn [ticks_to_sleep_loop]; [by apply runs_KNoFuel|].
  eapply runs_window_inside; [exact H|]. clear k H. intros k H. kstep.
  case_decide; [|by constructor].
  apply runs_yield; [apply H|apply H|]. intros pg e0 k3 Hpw HE. apply IH, inside_if.
  destruct H as [H1 H2 H3 H4 H5 H6 H7 H8 H9]. eapply inside_back; [..|exact HE|]; unfold switched;
    cbn [km ks set_esp0 set_kp set_kt set_km]; rewrite ?irq_off_ports, ?irq_off_ram; try done.
  - destruct busy; unfold at_work, at_rest, expecting in *; cbn [km ks set_esp0 set_kp set_kt set_km];
      by rewrite ?irq_off_ports, ?irq_off_ram.
  - eapply (fl_away _ HR); [exact H9|exact Hpw|apply HE].
Qed.

(** ** One command *)

Lemma inside_io L S (busy : bool) a r k m :
  inside L S busy a r k -> ram m = ram (km k) -> (if busy then answered (ata_at pb a0 (ports m)) else True) ->
  inside L S busy (ata_at pb a0 (ports m)) r (set_km m k).
Proof.
  intros [H1 H2 H3 H4 H5 H6 H7 H8 H9] Hr Ha. split; try done.
  - destruct busy; unfold at_work, at_rest, expecting in *; cbn [km ks set_km]; rewrite Hr; [|done].
    destruct H6 as [H6|(H6 & H6' & H6'')]; [by left|by right].
  - cbn [km set_km]. by rewrite Hr.
  - by apply (fl_km _ HR).
Qed.

Lemma on_mach_Ok {A} (x : M mach A) k a m :
  x (km k) = Ok (a, m) -> on_mach x k = Done a (set_km m k).
Proof. intros Hx. unfold on_mach. by erewrite lift_Ok by exact Hx. Qed.

(** The transfer a command set up: [n] sectors from [lba]. *)
Definition transferring (write : bool) (lba n : Z) (a a' : ata) : Prop :=
  a_xfer a' = Some (Xfer write dev (256 * lba) (256 * n) false 0) /\ a_words a' = a_words a.

Lemma command_run (write : bool) L S a r k lba n :
  inside L S false a r k -> disk_at pb r hd ch dev -> 0 <= lba <= max_lba -> 0 < n <= 256 ->
  exists a' k1 k', on_mach (select_sector hd lba (u8 n)) k = Done tt k1 /\
    on_mach (my_channel hd) k1 = Done ch k1 /\
    on_mach (cmd_out ch (command write)) k1 = Done tt k' /\
    inside L S true a' r k' /\ transferring write lba n a a'.
Proof.
  intros H Hd Hl Hn. pose proof (inside_disk _ _ _ _ _ _ H Hd) as Hdk.
  set (m1 := set_ports (ports (km k) ++ sector_words pb lba (u8 n) dev) (km k)).
  set (m2 := set_ports (ports m1 ++ [Outb (pb + 7) (command write)]) (set_ram (st32 (ram m1) (ch + 12) 1) m1)).
  set (a' := ata_at pb a0 (ports m2)). exists a', (set_km m1 k), (set_km m2 k). split_and!.
  - apply on_mach_Ok. by eapply select_sector_eq.
  - rewrite (on_mach_Ok _ _ ch m1); [done|]. unfold my_channel, load32, gets. cbn [km set_km].
    change (ram m1) with (ram (km k)). by rewrite (da_channel _ _ _ _ _ Hdk).
  - rewrite (on_mach_Ok _ _ tt m2); [done|]. eapply cmd_out_eq; [done|exact Hdk|]. by destruct write.
  - destruct H as [H1 H2 H3 H4 H5 [H6 H6'] H7 H8 H9]. split; try done.
    + left. unfold expecting. cbn [km ks set_km]. unfold m2. cbn [ram set_ram set_ports].
      split; [|exact H6']. by rewrite ld32_st32_eq.
    + cbn [km set_km]. unfold m2, m1. cbn [ram set_ram set_ports]. etransitivity; [exact H8|].
      apply agree_st32. intros i Hi Hpi. by apply (HPexp _ Hi).
    + by apply (fl_km _ HR).
  - unfold transferring. pose proof (command_at pb a0 (ports (km k)) lba n dev write Hl Hn (da_two _ _ _ _ _ Hdk)) as Hc.
    cbv zeta in Hc. rewrite (settles_words _ _ (in_ata _ _ _ _ _ _ H)) in Hc. exact Hc.
Qed.

(** One look at the status register. *)
Lemma status_look L S busy a r k x :
  inside L S busy a r k -> a_xfer a = Some x -> 0 < x_left x ->
  exists st x1 a' k', on_mach (inb hw (reg_status pb)) k = Done st k' /\ looked x x1 /\
    settles a a' /\ a_xfer a' = Some (look st x1) /\ inside L S busy a' r k' /\
    (drq st = true \/ x_open x1 = false /\ Z.testbit st 7 = true /\ x_looks x1 < a_slow a0).
Proof.
  intros H Hx Hl. destruct Hhw as [[Hp0 Hp7] _ _ Hst]. set (p := ports (km k)).
  destruct (settles_xfer _ _ _ (in_ata _ _ _ _ _ _ H) Hx) as (x1 & Hx1 & Hlk).
  assert (Hl1 : 0 < x_left x1) by (rewrite (lk_left _ _ Hlk); done).
  destruct (Hst p x1 Hx1 Hl1) as (st & Hin & Hr & Hcase).
  set (m1 := set_ports (p ++ [Inb (pb + 7) st]) (km k)).
  assert (H1 : inside L S busy a r (set_km m1 k)) by
    (by apply (inside_km _ _ _ _ _ _ _ [Inb (pb + 7) st] H); [| |repeat constructor]).
  exists st, x1, (ata_at pb a0 (ports m1)), (set_km m1 k). split_and!; [|done|..|done].
  - apply on_mach_Ok. unfold inb, gets, mbind, M_bind, log_io, modify, reg_status.
    rewrite (port_id hw pb a0 Hhw) by lia. fold p. by rewrite Hin, u8_id by done.
  - exact (in_ata _ _ _ _ _ _ H1).
  - unfold m1. cbn [ports set_ports]. rewrite ata_at_snoc. cbn [ata_event]. fold p in Hx1.
    by rewrite Hx1, decide_True.
  - exact (inside_now L S busy a r (set_km m1 k) H1).
Qed.

Lemma land_pow2 st i : 0 <= i -> Z.land st (2 ^ i) = 0 <-> Z.testbit st i = false.
Proof.
  intros Hi. split.
  - intros E. assert (Hb : Z.testbit (Z.land st (2 ^ i)) i = false) by (by rewrite E, Z.bits_0).
    by rewrite Z.land_spec, Z.pow2_bits_true, andb_true_r in Hb.
  - intros E. apply Z.bits_inj'. intros j Hj. rewrite Z.land_spec, Z.bits_0, Z.pow2_bits_eqb by lia.
    destruct (Z.eqb_spec i j); [subst; by rewrite E|apply andb_false_r].
Qed.

(** The sector is open: what [busy_wait] waits for. *)
Definition opened (a : ata) (x : xfer) (a' : ata) : Prop :=
  settles a a' /\ exists x', a_xfer a' = Some x' /\ looked x x' /\ x_open x' = true.

(** [busy_wait]: it ends with the sector open, at once when it was, and
    otherwise after no more looks than the drive may be busy for.  It sleeps
    only when it finds the drive busy. *)
Lemma busy_loop_runs (B : Prop) fuel L S busy r : forall rounds tl a k x,
  inside L S busy a r k -> disk_at pb r hd ch dev -> a_xfer a = Some x -> 0 < x_left x ->
  x_open x = true \/ (0 <= x_looks x /\ (0 < a_slow a0 -> B)) ->
  tl = Z.of_nat rounds -> 2 <= tl <= 30000 -> a_slow a0 - x_looks x <= tl - 2 ->
  runs_or absent B (fun st k' => st <> 0 /\ exists a', opened a x a' /\ inside L S busy a' r k')
    (busy_wait_loop hw rounds fuel ch tl k).
Proof.
  induction rounds as [|rounds IH]; intros tl a k x H Hd Hx Hl Hop Htl Hr Hsl; [lia|].
  cbn [busy_wait_loop]. rewrite (u16_id (tl - 1)), decide_True by lia.
  assert (Hport : forall k1 a1, inside L S busy a1 r k1 -> on_mach (port_base_of ch) k1 = Done pb k1).
  { intros k1 a1 H1. pose proof (inside_disk _ _ _ _ _ _ H1 Hd) as Hdk.
    rewrite (on_mach_Ok _ _ pb (km k1)); [by rewrite set_km_id|]. unfold port_base_of, load16, gets.
    by rewrite (da_port _ _ _ _ _ Hdk). }
  rewrite (kbind_Done _ _ _ _ _ (Hport _ _ H)). cbv beta.
  destruct (status_look _ _ _ _ _ _ _ H Hx Hl) as (st & x1 & a1 & k1 & R1 & Hlk & Hs1 & Hx1 & H1 & Hst).
  rewrite (kbind_Done _ _ _ _ _ R1). cbv beta.
  assert (Hlk1 : looked x (look st x1)).
  { destruct Hlk as [A1 A2 A3 A4 A5 A6], (look_looked st x1) as [B1 B2 B3 B4 B5 B6].
    split; first [congruence | lia | by auto]. }
  assert (Hl1 : 0 < x_left (look st x1)) by (rewrite (lk_left _ _ Hlk1); done).
  change BIT_STAT_BSY with (2 ^ 7). destruct Hst as [Hdrq|(Hcl & Hbsy & Hlt)].
  - assert (Ho1 : x_open (look st x1) = true) by (unfold look; rewrite Hdrq; by destruct (x_open x1) eqn:E).
    rewrite decide_True by (apply land_pow2; [lia|]; unfold drq in Hdrq; by destruct (Z.testbit st 7)).
    destruct (status_look _ _ _ _ _ _ _ H1 Hx1 Hl1) as (st2 & x2 & a2 & k2 & R2 & Hlk2 & Hs2 & Hx2 & H2 & Hst2).
    rewrite (kbind_Done _ _ _ _ _ R2). constructor.
    pose proof (lk_open _ _ Hlk2 Ho1) as Ho2.
    assert (Hq : drq st2 = true) by (by destruct Hst2 as [|(Hno & _)]; [|congruence]).
    split.
    + change BIT_STAT_DRQ with (2 ^ 3). intros E%land_pow2; [|lia]. unfold drq in Hq.
      by rewrite E, andb_false_r in Hq.
    + exists a2. split; [|done]. split; [by etransitivity|]. exists (look st2 x2). split; [done|].
      unfold look. rewrite Ho2. split; [|done].
      destruct Hlk1 as [A1 A2 A3 A4 A5 A6], Hlk2 as [B1 B2 B3 B4 B5 B6].
      split; first [congruence | lia | done].
  - assert (Hno : drq st = false) by (unfold drq; by rewrite Hbsy).
    assert (Hox : x_open x = false).
    { destruct (x_open x) eqn:E; [|done]. rewrite (lk_open _ _ Hlk E) in Hcl. done. }
    destruct Hop as [Hop|[Hl0 HB]]; [congruence|]. pose proof (lk_looks _ _ Hlk) as Hle.
    assert (Hlx : look st x1 = Xfer (x_write x1) (x_drive x1) (x_pos x1) (x_left x1) false (x_looks x1 + 1))
      by (unfold look; by rewrite Hcl, Hno).
    rewrite decide_False by (rewrite land_pow2 by lia; by rewrite Hbsy).
    eapply runs_bind; [apply (sleep_inside B); [apply HB; lia|exact H1]|]. intros [] k2 H2.
    eapply runs_conseq.
    { apply (IH (tl - 1) a1 k2 (look st x1)); [done..| | |lia|]; [right; split; [rewrite Hlx; simpl; lia|done]|lia|].
      rewrite Hlx. simpl. lia. }
    intros v k3 (Hv & a' & (Hs' & x' & Hx' & Hlk' & Ho') & H'). split; [done|]. exists a'. split; [|done].
    split; [by etransitivity|]. exists x'. split; [done|]. split; [|done].
    destruct Hlk1 as [A1 A2 A3 A4 A5 A6], Hlk' as [B1 B2 B3 B4 B5 B6].
    split; first [congruence | lia | by auto].
Qed.

Lemma busy_wait_runs (B : Prop) fuel L S busy a r k x :
  inside L S busy a r k -> disk_at pb r hd ch dev -> a_xfer a = Some x -> 0 < x_left x -> 0 <= x_looks x ->
  x_open x = true \/ (0 < a_slow a0 -> B) ->
  runs_or absent B (fun st k' => st <> 0 /\ exists a', opened a x a' /\ inside L S busy a' r k')
    (busy_wait hw fuel hd k).
Proof.
  intros H Hd Hx Hl Hl0 Hop. pose proof (inside_disk _ _ _ _ _ _ H Hd) as Hdk. unfold busy_wait.
  rewrite (kbind_Done _ _ _ ch k).
  2:{ rewrite (on_mach_Ok _ _ ch (km k)); [by rewrite set_km_id|]. unfold my_channel, load32, gets.
      by rewrite (da_channel _ _ _ _ _ Hdk). }
  pose proof (ab_slow _ _ _ Hhw). assert (E : Z.of_nat (30 * 1000) = 30 * 1000) by (by rewrite Nat2Z.inj_mul).
  apply (busy_loop_runs B); [done..| |by rewrite E|lia|lia]. destruct Hop; [by left|right; by split].
Qed.

(** ** The data of a command *)

Lemma size_in_byte_u8 n : 0 < n <= 256 -> size_in_byte (u8 n) / 2 = 256 * n.
Proof.
  intros Hn. unfold size_in_byte. destruct (decide (n = 256)) as [->|Hne]; [done|].
  rewrite u8_id, decide_False by lia. Z.div_mod_to_equations; lia.
Qed.

Lemma disk_at_agree (Q : Z -> Prop) r r' :
  agree Q r r' -> (forall x, within (hd + 8) 5 x -> Q x) -> (forall x, within (ch + 8) 2 x -> Q x) ->
  disk_at pb r hd ch dev -> disk_at pb r' hd ch dev.
Proof.
  intros Hag Hh Hc [D1 D2 D3 D4]. split; [..|done].
  - rewrite <- D1. eapply agree_ld32; [exact Hag|]. intros i Hi. apply Hh. unfold within. lia.
  - rewrite <- D2. apply Hag, Hh. unfold within. lia.
  - rewrite <- D3. eapply agree_ld16; [exact Hag|..]; apply Hc; unfold within; lia.
Qed.

Lemma port_fetch (g : Z -> M mach unit) k :
  disk_at pb (ram (km k)) hd ch dev ->
  (c ← my_channel hd; p ← port_base_of c; g (reg_data p)) (km k) = g pb (km k).
Proof.
  intros [D1 D2 D3 D4]. unfold my_channel, port_base_of, load32, load16. mstep. mstep. rewrite D1, D3.
  unfold reg_data. by rewrite Z.add_0_r.
Qed.

(** The transfer of [n] sectors from word [p] on, at its start, the first
    sector open; more sectors than one need a drive that streams. *)
Definition paced (n : Z) : Prop := n = 1 \/ a_stream a0 = true.
Record transfer_from (write : bool) (p n : Z) (x : xfer) : Prop := {
  tf_write : x_write x = write; tf_drive : x_drive x = dev; tf_pos : x_pos x = p;
  tf_left : x_left x = 256 * n; tf_open : x_open x = true; tf_sector : p mod 256 = 0; tf_paced : paced n
}.

Lemma transfer_flows write p n x : transfer_from write p n x -> flows (a_stream a0) (256 * n) x.
Proof.
  intros [_ _ Hp _ Ho Hs [-> | Hst]]; (split; [done|]); [right|by left]. rewrite Hp, Hs. lia.
Qed.

Lemma settles_transfer a a' write p n x :
  settles a a' -> a_xfer a = Some x -> transfer_from write p n x ->
  exists y, a_xfer a' = Some y /\ transfer_from write p n y.
Proof.
  intros Hs Hx [F1 F2 F3 F4 F5 F6 F7]. destruct (settles_xfer _ _ _ Hs Hx) as (y & Hy & [L1 L2 L3 L4 L5 L6]).
  exists y. split; [done|]. split; try congruence; auto.
Qed.

(** The transfer a command set up, its first sector open. *)
Lemma looked_transfer write lba n x :
  looked (Xfer write dev (256 * lba) (256 * n) false 0) x -> x_open x = true -> paced n ->
  transfer_from write (256 * lba) n x.
Proof.
  intros [L1 L2 L3 L4 L5 L6] Ho Hp. split; try done. rewrite Z.mul_comm. by apply Z.mod_mul.
Qed.

Lemma read_data_run L S a r k b n p x :
  inside L S false a r k -> disk_at pb r hd ch dev ->
  a_xfer a = Some x -> transfer_from false p n x -> 0 < n <= 256 -> 0 <= b -> b + 512 * n <= 4294967296 ->
  (forall x, within b (512 * n) x -> P x) ->
  exists a' k', on_mach (read_from_sector hw hd b (u8 n)) k = Done tt k' /\
    inside L S false a' (ram (km k')) k' /\ a_words a' = a_words a /\
    agree (fun x => P x /\ ~ within b (512 * n) x) r (ram (km k')) /\
    forall i, 0 <= i < 256 * n -> ld16 (ram (km k')) (b + 2 * i) = u16 (a_words a dev (p + i)).
Proof.
  intros H Hd Hx Htf Hn Hb Hbe HP. pose proof (inside_disk _ _ _ _ _ _ H Hd) as Hdk.
  destruct (settles_transfer _ _ _ _ _ _ (in_ata _ _ _ _ _ _ H) Hx Htf) as (y & Hy & Hyf).
  destruct (insw_ok hw pb a0 Hhw (Z.to_nat (256 * n)) b y (km k))
    as (r' & ev & Hrun & Hat & Hag & Hv); [exact Hy|apply Hyf|rewrite (tf_left _ _ _ _ Hyf); lia| |lia|lia|].
  { rewrite Z2Nat.id by lia. by apply (transfer_flows _ _ _ _ Hyf). }
  rewrite !Z2Nat.id in * by lia. rewrite (settles_words _ _ (in_ata _ _ _ _ _ _ H)) in Hat, Hv.
  rewrite (tf_drive _ _ _ _ Hyf), (tf_pos _ _ _ _ Hyf) in Hv.
  replace (2 * (256 * n)) with (512 * n) in Hag by lia.
  exists (ata_at pb a0 (ports (km k) ++ ev)), (set_km (set_ports (ports (km k) ++ ev) (set_ram r' (km k))) k).
  split_and!.
  - apply on_mach_Ok. unfold read_from_sector. rewrite size_in_byte_u8 by done.
    rewrite (port_fetch (fun q => insw hw _ q b)) by exact Hdk. exact Hrun.
  - destruct H as [H1 H2 H3 H4 H5 [H6 H6'] H7 H8 H9]. split; try done; [|by apply (fl_km _ HR)].
    split; [|exact H6']. unfold expecting. cbn [km set_km ram set_ports set_ram].
    rewrite <- H6. eapply agree_ld32; [exact Hag|]. intros i Hi Hw. by apply (HPexp i), HP.
  - exact Hat.
  - cbn [km set_km ram set_ports set_ram]. transitivity (ram (km k)).
    + eapply agree_weaken; [|exact (in_mem _ _ _ _ _ _ H)]. by intros z [Hz _].
    + eapply agree_weaken; [|exact Hag]. by intros z [_ Hz].
  - intros i Hi. by apply Hv.
Qed.

Lemma write_data_run L S a r k b n p x :
  inside L S true a r k -> disk_at pb r hd ch dev ->
  a_xfer a = Some x -> transfer_from true p n x -> 0 < n <= 256 -> 0 <= b -> b + 512 * n <= 4294967296 ->
  (forall x, within b (512 * n) x -> P x) ->
  exists a' k', on_mach (write2sector hd b (u8 n)) k = Done tt k' /\ inside L S true a' r k' /\
    forall e q, a_words a' e q =
      if decide (e = dev /\ p <= q < p + 256 * n) then ld16 r (b + 2 * (q - p)) else a_words a e q.
Proof.
  intros H Hd Hx Htf Hn Hb Hbe HP. pose proof (inside_disk _ _ _ _ _ _ H Hd) as Hdk.
  destruct (settles_transfer _ _ _ _ _ _ (in_ata _ _ _ _ _ _ H) Hx Htf) as (y & Hy & Hyf).
  destruct (outsw_ok hw pb a0 Hhw (Z.to_nat (256 * n)) b y (km k))
    as (ev & Hrun & Han & Hv); [exact Hy|apply Hyf|rewrite (tf_left _ _ _ _ Hyf); lia| |lia|lia|].
  { rewrite Z2Nat.id by lia. by apply (transfer_flows _ _ _ _ Hyf). }
  rewrite !Z2Nat.id in * by lia. rewrite (tf_drive _ _ _ _ Hyf), (tf_pos _ _ _ _ Hyf) in Hv.
  set (m1 := set_ports (ports (km k) ++ ev) (km k)). exists (ata_at pb a0 (ports m1)), (set_km m1 k). split_and!.
  - apply on_mach_Ok. unfold write2sector. rewrite size_in_byte_u8 by done.
    rewrite (port_fetch (fun q => outsw _ q b)) by exact Hdk. exact Hrun.
  - exact (inside_io L S true a r k m1 H eq_refl Han).
  - intros e q. rewrite <- (settles_words _ _ (in_ata _ _ _ _ _ _ H)). unfold m1. cbn [ports set_ports]. rewrite Hv.
    destruct (decide _) as [[-> Hq]|]; [|done].
    eapply agree_ld16; [exact (in_mem _ _ _ _ _ _ H)|..]; apply HP; unfold within; lia.
Qed.

(** ** The loops *)

Lemma secs_next_range done cnt :
  0 <= done < cnt -> cnt < 4294967296 - 256 ->
  0 < secs_next done cnt <= 256 /\ done + secs_next done cnt <= cnt /\
  (done + secs_next done cnt < cnt -> secs_next done cnt = 256).
Proof.
  intros Hd Hc. unfold secs_next. rewrite (u32_id (done + 256)) by lia. case_decide; [lia|].
  rewrite u32_id by lia. lia.
Qed.

(** The buffer of a transfer: [cnt] sectors of private memory apart from the
    driver's structures. *)
Record buffer_ok (buf cnt : Z) : Prop := {
  bo_low : 0 <= buf; bo_high : buf + 512 * cnt <= 4294967296;
  bo_private : forall x, within buf (512 * cnt) x ->
    P x /\ ~ within (hd + 8) 5 x /\ ~ within (ch + 8) 2 x
}.

(** The rounds left are enough. *)
Definition enough (rounds : nat) (done cnt : Z) : Prop := cnt - done <= 256 * (Z.of_nat rounds - 1).

(** One round of [ide_read_loop]. *)
Lemma read_round (Q : unit -> kst -> Prop) rounds fuel L S a r k lba buf done cnt :
  inside L S false a r k -> disk_at pb r hd ch dev -> 0 <= lba -> lba + cnt <= max_lba + 1 ->
  0 <= done < cnt -> buffer_ok buf cnt ->
  let n := secs_next done cnt in paced n ->
  (forall a' r' k', inside L S false a' r' k' -> a_words a' = a_words a ->
     agree (fun x => P x /\ ~ within (buf + 512 * done) (512 * n) x) r r' ->
     (forall i, 256 * done <= i < 256 * (done + n) ->
        ld16 r' (buf + 2 * i) = u16 (a_words a dev (256 * lba + i))) ->
     runs absent Q (ide_read_loop hw ln rounds (Datatypes.S (Datatypes.S fuel)) hd lba buf (done + n) cnt k')) ->
  runs absent Q (ide_read_loop hw ln (Datatypes.S rounds) (Datatypes.S (Datatypes.S fuel)) hd lba buf done cnt k).
Proof.
  intros H Hd Hl Hm Hdone [B1 B2 B3] n Hpc Hk. change max_lba with 131071 in *.
  destruct (secs_next_range done cnt) as (Hn & Hle & _); [done|lia|]. fold n in Hn, Hle.
  cbn [ide_read_loop]. rewrite decide_True by lia. fold n. rewrite (u32_id (lba + done)) by lia.
  destruct (command_run false _ _ _ _ _ (lba + done) n H Hd) as (a1 & k1 & k2 & R1 & R2 & R3 & H2 & Hx & Hw);
    [change max_lba with 131071; lia|lia|].
  rewrite (kbind_Done _ _ _ _ _ R1). cbv beta. rewrite (kbind_Done _ _ _ _ _ R2). cbv beta.
  change CMD_READ_SECTOR with (command false). rewrite (kbind_Done _ _ _ _ _ R3). cbv beta.
  eapply runs_window_inside; [exact H2|]. clear R1 R2 R3 H H2 k k1 k2. intros k H.
  eapply runs_bind; [by apply runs_wait_irq|]. clear k H. intros [] k [H Han].
  pose proof (in_ata _ _ _ _ _ _ H) as Hs. apply inside_now in H.
  set (ai := ata_at pb a0 (ports (km k))) in *.
  destruct (settles_xfer _ _ _ Hs Hx) as (x1 & Hx1 & Hlk1).
  assert (Hl1 : x_left x1 = 256 * n) by exact (lk_left _ _ Hlk1).
  assert (Ho1 : x_open x1 = true) by (apply (Han x1 Hx1); [exact (lk_write _ _ Hlk1)|lia]).
  rewrite <- (settles_words _ _ Hs) in Hw. clearbody ai.
  eapply runs_window_inside; [exact H|]. clear k H Han. intros k H.
  eapply runs_bind.
  { apply (busy_wait_runs False _ L S false ai r k x1); [done..|lia| |by left].
    pose proof (lk_looks _ _ Hlk1). simpl in *. lia. }
  clear k H. intros st k1 (Hst & a3 & (Hs3 & x3 & Hx3 & Hlk3 & Ho3) & H1). rewrite decide_False by done.
  rewrite (u32_id (buf + done * 512)) by lia.
  assert (Htf : transfer_from false (256 * (lba + done)) n x3).
  { apply looked_transfer; [|done|done]. destruct Hlk1, Hlk3. split; first [congruence | lia | by auto]. }
  rewrite <- (settles_words _ _ Hs3) in Hw.
  destruct (read_data_run _ _ _ _ _ (buf + done * 512) n (256 * (lba + done)) x3 H1 Hd Hx3 Htf) as
    (a2 & k2 & R2 & H2 & Hw2 & Hag & Hv); [lia..| |].
  { intros x Hx'. apply B3. unfold within in *. lia. }
  rewrite (kbind_Done _ _ _ _ _ R2). cbv beta. rewrite (u32_id (done + n)) by lia.
  apply (Hk a2 (ram (km k2))); [done|congruence| |].
  - eapply agree_weaken; [|exact Hag]. cbv beta. replace (done * 512) with (512 * done) by lia. tauto.
  - intros i Hi. specialize (Hv (i - 256 * done) ltac:(lia)). rewrite Hw in Hv.
    replace (256 * (lba + done) + (i - 256 * done)) with (256 * lba + i) in Hv by lia.
    rewrite <- Hv. f_equal. lia.
Qed.

(** The commands of a transfer of [cnt] sectors. *)
Lemma paced_next done cnt : paced cnt -> 0 <= done < cnt -> cnt < 4294967296 - 256 -> paced (secs_next done cnt).
Proof.
  intros [-> |Hs] Hd Hc; [left|by right]. destruct (secs_next_range done 1) as (Hn & Hle & _); lia.
Qed.

Lemma read_loop_runs fuel L S lba buf cnt W :
  0 <= lba -> lba + cnt <= max_lba + 1 -> buffer_ok buf cnt -> paced cnt -> forall rounds done a r k,
  inside L S false a r k -> a_words a = W -> disk_at pb r hd ch dev -> 0 <= done <= cnt ->
  enough rounds done cnt ->
  runs absent (fun _ k' => exists a' r', inside L S false a' r' k' /\ a_words a' = W /\
      agree (fun x => P x /\ ~ within (buf + 512 * done) (512 * (cnt - done)) x) r r' /\
      forall i, 256 * done <= i < 256 * cnt -> ld16 r' (buf + 2 * i) = u16 (W dev (256 * lba + i)))
    (ide_read_loop hw ln rounds (Datatypes.S (Datatypes.S fuel)) hd lba buf done cnt k).
Proof.
  intros Hl Hm HB Hpc. pose proof HB as [B1 B2 B3]. change max_lba with 131071 in *.
  induction rounds as [|rounds IH]; intros done a r k H HW Hd Hdone Hen; unfold enough in Hen; [lia|].
  destruct (decide (done = cnt)) as [->|Hne].
  { cbn [ide_read_loop]. rewrite decide_False by lia. constructor. exists a, r.
    split_and!; [done..|lia]. }
  destruct (secs_next_range done cnt) as (Hn & Hle & Hlt); [lia|lia|].
  set (n := secs_next done cnt) in *.
  eapply read_round; [exact H|exact Hd|done|done|lia|done|apply paced_next; [done|lia..]|]. fold n.
  intros a1 r1 k1 H1 Hw1 Hag1 Hv1.
  assert (Hd1 : disk_at pb r1 hd ch dev).
  { eapply disk_at_agree; [exact Hag1|..|exact Hd]; cbv beta; intros x Hx; split; eauto; intros Hx';
      destruct (B3 x) as (_ & ? & ?); [unfold within in *; lia|tauto|unfold within in *; lia|tauto]. }
  eapply runs_conseq; [apply (IH (done + n) a1 r1 k1); [done|congruence|done|lia|]|].
  { unfold enough. destruct (decide (done + n < cnt)); [rewrite Hlt in * by done|]; lia. }
  intros [] k2 (a2 & r2 & H2 & Hw2 & Hag2 & Hv2). exists a2, r2. split; [done|]. split; [done|]. split.
  - transitivity r1.
    + eapply agree_weaken; [|exact Hag1]. cbv beta. unfold within. intros x [Hx Hx']. split; [done|lia].
    + eapply agree_weaken; [|exact Hag2]. cbv beta. unfold within. intros x [Hx Hx']. split; [done|lia].
  - intros i Hi. destruct (decide (256 * (done + n) <= i)) as [Hge|Hlo]; [apply Hv2; lia|].
    rewrite <- HW. rewrite <- Hv1 by lia. eapply agree_ld16; [exact Hag2|..]; cbv beta; split;
      [apply B3| |apply B3|]; unfold within; lia.
Qed.

(** One round of [ide_write_loop]. *)
Lemma write_round (B : Prop) (Q : unit -> kst -> Prop) rounds fuel L S a r k lba buf done cnt :
  inside L S false a r k -> disk_at pb r hd ch dev -> 0 <= lba -> lba + cnt <= max_lba + 1 ->
  0 <= done < cnt -> buffer_ok buf cnt -> (0 < a_slow a0 -> B) ->
  let n := secs_next done cnt in paced n ->
  (forall a' k', inside L S false a' r k' ->
     (forall e q, a_words a' e q =
        if decide (e = dev /\ 256 * (lba + done) <= q < 256 * (lba + done + n))
        then ld16 r (buf + 2 * (q - 256 * lba)) else a_words a e q) ->
     runs_or absent B Q (ide_write_loop hw ln rounds (Datatypes.S (Datatypes.S fuel)) hd lba buf (done + n) cnt k')) ->
  runs_or absent B Q (ide_write_loop hw ln (Datatypes.S rounds) (Datatypes.S (Datatypes.S fuel)) hd lba buf done cnt k).
Proof.
  intros H Hd Hl Hm Hdone [B1 B2 B3] HB n Hpc Hk. change max_lba with 131071 in *.
  destruct (secs_next_range done cnt) as (Hn & Hle & _); [done|lia|]. fold n in Hn, Hle.
  cbn [ide_write_loop]. rewrite decide_True by lia. fold n. rewrite (u32_id (lba + done)) by lia.
  destruct (command_run true _ _ _ _ _ (lba + done) n H Hd) as (a1 & k1 & k2 & R1 & R2 & R3 & H2 & Hx & Hw);
    [change max_lba with 131071; lia|lia|].
  rewrite (kbind_Done _ _ _ _ _ R1). cbv beta. rewrite (kbind_Done _ _ _ _ _ R2). cbv beta.
  change CMD_WRITE_SECTOR with (command true). rewrite (kbind_Done _ _ _ _ _ R3). cbv beta.
  eapply runs_window_inside; [exact H2|]. clear R1 R2 R3 H H2 k k1 k2. intros k H.
  eapply runs_bind.
  { apply (busy_wait_runs B _ L S true a1 r k _ H Hd Hx); [simpl; lia|done|by right]. }
  clear k H. intros st k1 (Hst & a3 & (Hs3 & x3 & Hx3 & Hlk3 & Ho3) & H1). rewrite decide_False by done.
  rewrite (u32_id (buf + done * 512)) by lia.
  assert (Htf : transfer_from true (256 * (lba + done)) n x3) by (by apply looked_transfer).
  rewrite <- (settles_words _ _ Hs3) in Hw.
  destruct (write_data_run _ _ _ _ _ (buf + done * 512) n (256 * (lba + done)) x3 H1 Hd Hx3 Htf) as
    (a2 & k2 & R2 & H2 & Hw2); [lia..| |].
  { intros x Hx'. apply B3. unfold within in *. lia. }
  rewrite (kbind_Done _ _ _ _ _ R2). cbv beta.
  eapply runs_window_inside; [exact H2|]. clear R2 H1 H2 k1 k2. intros k H.
  eapply runs_bind; [by apply runs_wait_irq|]. clear k H. intros [] k [H _].
  rewrite (u32_id (done + n)) by lia. apply (Hk a2); [done|].
  intros e q. rewrite Hw2, Hw.
  replace (256 * (lba + done) + 256 * n) with (256 * (lba + done + n)) by lia.
  destruct (decide _); [|done]. f_equal. lia.
Qed.

Lemma write_loop_runs (B : Prop) fuel L S lba buf cnt W r :
  0 <= lba -> lba + cnt <= max_lba + 1 -> buffer_ok buf cnt -> disk_at pb r hd ch dev -> paced cnt ->
  (0 < a_slow a0 -> B) ->
  forall rounds done a k,
  inside L S false a r k -> 0 <= done <= cnt -> enough rounds done cnt ->
  (forall e q, a_words a e q =
     if decide (e = dev /\ 256 * lba <= q < 256 * (lba + done))
     then ld16 r (buf + 2 * (q - 256 * lba)) else W e q) ->
  runs_or absent B (fun _ k' => exists a', inside L S false a' r k' /\
      forall e q, a_words a' e q =
        if decide (e = dev /\ 256 * lba <= q < 256 * (lba + cnt))
        then ld16 r (buf + 2 * (q - 256 * lba)) else W e q)
    (ide_write_loop hw ln rounds (Datatypes.S (Datatypes.S fuel)) hd lba buf done cnt k).
Proof.
  intros Hl Hm HB Hd Hpc Hslow. change max_lba with 131071 in *.
  induction rounds as [|rounds IH]; intros done a k H Hdone Hen HW; unfold enough in Hen; [lia|].
  destruct (decide (done = cnt)) as [->|Hne].
  { cbn [ide_write_loop]. rewrite decide_False by lia. constructor. by exists a. }
  destruct HB as [B1 B2 B3]. destruct (secs_next_range done cnt) as (Hn & Hle & Hlt); [lia|lia|].
  set (n := secs_next done cnt) in *.
  eapply write_round; [exact H|exact Hd|done|done|lia|done|done|apply paced_next; [done|lia..]|]. fold n.
  intros a1 k1 H1 Hw1. apply (IH (done + n) a1 k1); [done|lia| |].
  { unfold enough. destruct (decide (done + n < cnt)); [rewrite Hlt in * by done|]; lia. }
  intros e q. rewrite Hw1, HW. rewrite !Z.add_assoc. repeat case_decide; try done; lia.
Qed.

(** ** The calls *)

(** The channel free and idle, its drives [a], the kernel's memory [r]. *)
Definition channel_idle (a : ata) (r : gmap Z Z) (k : kst) : Prop :=
  inside (Lock 0 0) (Sema 1 []) false a r k.

(** What the two calls share: the lock around the selection of the drive and
    a loop. *)
Lemma locked_runs (B : Prop) (loop : K unit) (Q : ata -> gmap Z Z -> Prop) fuel a r k lba cnt :
  channel_idle a r k -> disk_at pb r hd ch dev -> lba <= max_lba -> 0 < cnt ->
  (forall L S a' k', inside L S false a' r k' -> a_words a' = a_words a ->
     runs_or absent B (fun _ k'' => exists a'' r', inside L S false a'' r' k'' /\
        disk_at pb r' hd ch dev /\ Q a'' r') (loop k')) ->
  runs_or absent B (fun _ k' => exists a' r', channel_idle a' r' k' /\ disk_at pb r' hd ch dev /\ Q a' r')
    ((KASSERT (bool_decide (lba <= max_lba)) "lba <= max_lba";;
      KASSERT (bool_decide (cnt > 0)) "sec_cnt > 0";;
      channel ← on_mach (my_channel hd);
      lock_acquire (Datatypes.S fuel) (channel_lock (channel_no ln channel));;
      on_mach (select_disk hd);;
      loop;;
      channel ← on_mach (my_channel hd);
      lock_release (channel_lock (channel_no ln channel))) k).
Proof.
  intros H Hd Hl Hc Hloop. rewrite !bool_decide_true by lia. kstep. kstep.
  assert (Hch : forall k r0 L S b a0', inside L S b a0' r0 k -> disk_at pb r0 hd ch dev ->
    on_mach (my_channel hd) k = Done ch k).
  { intros k1 r0 L S b a1 H0 Hd0. pose proof (inside_disk _ _ _ _ _ _ H0 Hd0) as Hdk.
    rewrite (on_mach_Ok _ _ ch (km k1)); [by rewrite set_km_id|]. unfold my_channel, load32, gets.
    by rewrite (da_channel _ _ _ _ _ Hdk). }
  rewrite (kbind_Done _ _ _ _ _ (Hch _ _ _ _ _ _ H Hd)). cbv beta. fold l.
  eapply runs_bind; [by apply (runs_lock_acquire (I := fun L S => inside L S false a r))|]. clear k H. intros [] k H.
  eapply runs_step.
  { apply on_mach_Ok. eapply select_disk_eq; [exact Hhw|]. by eapply inside_disk. }
  pose proof (settles_words _ _ (in_ata _ _ _ _ _ _ H)) as Hw0.
  apply (inside_io _ _ _ _ _ _ (set_ports (ports (km k) ++ [Outb (pb + 6) (dev_byte dev)]) (km k))) in H; [|done..].
  eapply runs_bind; [eapply Hloop; [exact H|]|].
  { cbn [ports set_ports]. by rewrite ata_at_snoc, event_6. }
  clear k H Hw0. intros [] k (a' & r' & H & Hd' & HQ').
  rewrite (kbind_Done _ _ _ _ _ (Hch _ _ _ _ _ _ H Hd')). cbv beta. fold l.
  eapply runs_conseq; [by apply (runs_lock_release (I := fun L S => inside L S false a' r'))|]. intros [] k' H'. by exists a', r'.
Qed.

(** Rounds of the loops that are enough for [cnt] sectors. *)
Definition rounds_for (cnt : Z) (rounds : nat) : Prop := cnt <= 256 * (Z.of_nat rounds - 1).

Lemma read_runs rounds fuel a r k lba buf cnt :
  channel_idle a r k -> disk_at pb r hd ch dev -> 0 <= lba -> 0 < cnt -> lba + cnt <= max_lba + 1 ->
  buffer_ok buf cnt -> rounds_for cnt rounds -> paced cnt ->
  runs absent (fun _ k' => exists a' r', channel_idle a' r' k' /\ disk_at pb r' hd ch dev /\
      a_words a' = a_words a /\ agree (fun x => P x /\ ~ within buf (512 * cnt) x) r r' /\
      forall i, 0 <= i < 256 * cnt -> ld16 r' (buf + 2 * i) = u16 (a_words a dev (256 * lba + i)))
    (ide_read hw ln rounds (Datatypes.S (Datatypes.S fuel)) hd lba buf cnt k).
Proof.
  intros H Hd Hl Hc Hm HB Hr Hpc. unfold ide_read.
  apply (locked_runs False _ (fun a' r' => a_words a' = a_words a /\
      agree (fun x => P x /\ ~ within buf (512 * cnt) x) r r' /\
      forall i, 0 <= i < 256 * cnt -> ld16 r' (buf + 2 * i) = u16 (a_words a dev (256 * lba + i))) _ a r);
    [done|done|lia|done|].
  intros L S a1 k1 H1 Hw1. eapply runs_conseq.
  { eapply (read_loop_runs fuel L S lba buf cnt (a_words a)); [done|done|done|done|exact H1|done|done|lia|].
    unfold enough. unfold rounds_for in Hr. lia. }
  intros [] k2 (a2 & r2 & H2 & Hw2 & Hag & Hv). replace (buf + 512 * 0) with buf in Hag by lia.
  rewrite Z.sub_0_r in Hag. exists a2, r2. split_and!; try done.
  eapply disk_at_agree; [exact Hag|..|exact Hd]; cbv beta; intros x Hx; split; eauto; intros Hx';
    destruct HB as [_ _ B3]; destruct (B3 x Hx') as (_ & ? & ?); tauto.
Qed.

Lemma write_runs (B : Prop) rounds fuel a r k lba buf cnt :
  channel_idle a r k -> disk_at pb r hd ch dev -> 0 <= lba -> 0 < cnt -> lba + cnt <= max_lba + 1 ->
  buffer_ok buf cnt -> rounds_for cnt rounds -> paced cnt -> (0 < a_slow a0 -> B) ->
  runs_or absent B (fun _ k' => exists a', channel_idle a' r k' /\
      forall e q, a_words a' e q =
        if decide (e = dev /\ 256 * lba <= q < 256 * (lba + cnt))
        then ld16 r (buf + 2 * (q - 256 * lba)) else a_words a e q)
    (ide_write hw ln rounds (Datatypes.S (Datatypes.S fuel)) hd lba buf cnt k).
Proof.
  intros H Hd Hl Hc Hm HB Hr Hpc Hslow. unfold ide_write.
  eapply runs_conseq; [apply (locked_runs B _ (fun a' r' => r' = r /\ forall e q, a_words a' e q =
        if decide (e = dev /\ 256 * lba <= q < 256 * (lba + cnt))
        then ld16 r (buf + 2 * (q - 256 * lba)) else a_words a e q) _ a r);
    [done|done|lia|done|]|].
  - intros L S a1 k1 H1 Hw1. eapply runs_conseq.
    { eapply (write_loop_runs B fuel L S lba buf cnt (a_words a) r); [done|done|done|done|done|done|exact H1|lia| |].
      - unfold enough. unfold rounds_for in Hr. lia.
      - intros e q. rewrite Hw1. by rewrite decide_False by lia. }
    intros [] k2 (a2 & H2 & Hw2). by exists a2, r.
  - intros [] k2 (a2 & r2 & H2 & _ & -> & Hw2). by exists a2.
Qed.
End use.
