(* ===== verification/IdeRW.v ===== *)
(** * Sectors: what [ide_read] and [ide_write] do

    The two calls of the driver against the drive of IdeSpec, for a thread
    that uses the channel as IdeLogic describes, and the channel's interrupt
    handler, which is what such a thread waits for. *)
From S2P Require Import Prelude Machine Global Str Stdio Bitmap KList Paging Kernel Thread Timer.
From S2P Require Import Sync Console Memory Arena Interrupt Syscall Printk Ide Run IdeSpec IdeLogic.

(** A thread [t], the channel [ch] on ports from [pb], its disk [hd] and the
    memory [P] others leave alone: it holds the structures of both, all but
    the word the interrupt handler clears; [R] is what else others leave
    alone. *)
Record channel_use (hw : bus) (pb : Z) (a0 : ata) (hd ch t : Z) (P : Z -> Prop) (R : kst -> kst -> Prop) :
    Prop := {
  cu_bus : ata_bus hw pb a0;
  cu_thread : t <> 0;
  cu_disk : forall a, within (hd + 8) 5 a -> P a;
  cu_channel : forall a, within (ch + 8) 2 a -> P a;
  cu_expecting : forall a, within (ch + 12) 4 a -> ~ P a;
  cu_frame : frame_laws R
}.

(** A transfer of [cnt] sectors from sector [lba] to or from [buf], with
    enough rounds for the driver's loop. *)
Record transfer_ok (hd ch : Z) (P : Z -> Prop) (lba buf cnt : Z) (rounds : nat) : Prop := {
  to_lba : 0 <= lba; to_cnt : 0 < cnt; to_end : lba + cnt <= max_lba + 1;
  to_buf : buffer_ok hd ch P buf cnt; to_rounds : rounds_for cnt rounds
}.

(** Word [i] of a drive from sector [lba] on. *)
Definition drive_word (a : ata) (dev lba i : Z) : Z := a_words a dev (256 * lba + i).

(** The state before and after a call: the channel free and idle with the
    drives [a], the disk's structures in memory. *)
Definition ready_for (pb : Z) (a0 : ata) (ln : ide_link) (hd ch dev t : Z) (P : Z -> Prop)
    (R : kst -> kst -> Prop) (a : ata) (k : kst) : Prop :=
  channel_idle pb a0 ln ch t P R k a (ram (km k)) k /\ disk_at pb (ram (km k)) hd ch dev.

Lemma inside_rebase pb a0 ln ch t P R k0 L S busy a r k :
  frame_laws R -> inside pb a0 ln ch t P R k0 L S busy a r k ->
  inside pb a0 ln ch t P R k L S busy a (ram (km k)) k.
Proof. intros HR [H1 H2 H3 H4 H5 H6 H7 H8 H9]. split; try done. by eapply fl_here. Qed.

(** The drive may be busy after a command. *)
Definition may_wait (a0 : ata) : Prop := 0 < a_slow a0.

Section calls.
Context (hw : bus) (pb : Z) (a0 : ata) (ln : ide_link) (hd ch dev t : Z) (P : Z -> Prop) (R : kst -> kst -> Prop).
Context (HU : channel_use hw pb a0 hd ch t P R).

Lemma ready_after k0 a r k :
  channel_idle pb a0 ln ch t P R k0 a r k -> disk_at pb r hd ch dev -> ready_for pb a0 ln hd ch dev t P R a k.
Proof.
  intros H Hd. destruct HU as [_ _ Hh Hc _ HR]. split; [by eapply inside_rebase|].
  eapply disk_at_agree; [exact (in_mem _ _ _ _ _ _ _ _ _ _ _ _ _ _ H)|exact Hh|exact Hc|exact Hd].
Qed.

(** Word for word, the private memory after a call. *)
Lemma private_word k0 a r k x :
  channel_idle pb a0 ln ch t P R k0 a r k -> P x -> P (x + 1) -> ld16 (ram (km k)) x = ld16 r x.
Proof. intros H H0 H1. by apply (agree_ld16 P _ _ x (in_mem _ _ _ _ _ _ _ _ _ _ _ _ _ _ H)). Qed.

Lemma read_call rounds fuel a k lba buf cnt :
  ready_for pb a0 ln hd ch dev t P R a k -> transfer_ok hd ch P lba buf cnt rounds -> paced a0 cnt ->
  runs (absent pb a0 ln ch t P R) (fun _ k' => exists a',
      ready_for pb a0 ln hd ch dev t P R a' k' /\ a_words a' = a_words a /\ R k k' /\
      agree (fun x => P x /\ ~ within buf (512 * cnt) x) (ram (km k)) (ram (km k')) /\
      forall i, 0 <= i < 256 * cnt -> ld16 (ram (km k')) (buf + 2 * i) = u16 (drive_word a dev lba i))
    (ide_read hw ln rounds (Datatypes.S (Datatypes.S fuel)) hd lba buf cnt k).
Proof.
  intros [H Hd] [Hl Hc He Hb Hr] Hpc. pose proof HU as [U1 U2 U3 U4 U5 U6].
  eapply runs_conseq; [eapply read_runs; eauto|].
  intros [] k' (a' & r' & H' & Hd' & Hw & Hag & Hv). exists a'. split_and!.
  - by eapply ready_after.
  - done.
  - apply (in_frame _ _ _ _ _ _ _ _ _ _ _ _ _ _ H').
  - transitivity r'; [done|]. eapply agree_weaken; [|exact (in_mem _ _ _ _ _ _ _ _ _ _ _ _ _ _ H')].
    by intros x [Hx _].
  - intros i Hi. rewrite (private_word _ _ _ _ _ H'), Hv by
      (try done; apply (bo_private _ _ _ _ _ Hb); unfold within; lia). done.
Qed.

Lemma write_call rounds fuel a k lba buf cnt :
  ready_for pb a0 ln hd ch dev t P R a k -> transfer_ok hd ch P lba buf cnt rounds -> paced a0 cnt ->
  runs_or (absent pb a0 ln ch t P R) (may_wait a0) (fun _ k' => exists a',
      ready_for pb a0 ln hd ch dev t P R a' k' /\ R k k' /\ agree P (ram (km k)) (ram (km k')) /\
      (forall i, 0 <= i < 256 * cnt -> drive_word a' dev lba i = ld16 (ram (km k)) (buf + 2 * i)) /\
      forall e q, e <> dev \/ ~ 256 * lba <= q < 256 * (lba + cnt) -> a_words a' e q = a_words a e q)
    (ide_write hw ln rounds (Datatypes.S (Datatypes.S fuel)) hd lba buf cnt k).
Proof.
  intros [H Hd] [Hl Hc He Hb Hr] Hpc. pose proof HU as [U1 U2 U3 U4 U5 U6].
  eapply runs_conseq; [eapply (write_runs hw pb a0) with (B := may_wait a0); eauto|].
  intros [] k' (a' & H' & Hw). exists a'. split_and!.
  - by eapply ready_after.
  - apply (in_frame _ _ _ _ _ _ _ _ _ _ _ _ _ _ H').
  - exact (in_mem _ _ _ _ _ _ _ _ _ _ _ _ _ _ H').
  - intros i Hi. unfold drive_word. rewrite Hw, decide_True by lia. f_equal. lia.
  - intros e q Hq. rewrite Hw, decide_False; [done|]. tauto.
Qed.
End calls.

(** C10: [ide_read]: whatever the rest of the kernel does meanwhile, as long as
    it leaves the thread's memory and the channel alone, the call comes back,
    the buffer holds the sectors of the drive word for word; the drives and
    the rest of the thread's memory are as they were, and so is whatever else
    ([R]) the others leave alone; the channel is free and idle again.  The
    drive follows the PIO handshake ([ata_bus]): it has the first sector when
    its interrupt comes, whatever it took.  One sector needs no more than that;
    for more, in however many commands of at most 256 sectors, the drive has
    to stream the sectors of a command, because the driver looks at the status
    register only before the first. *)
Theorem ide_read_ok hw pb a0 ln hd ch dev t P R rounds fuel a k lba buf cnt :
  channel_use hw pb a0 hd ch t P R -> ready_for pb a0 ln hd ch dev t P R a k ->
  transfer_ok hd ch P lba buf cnt rounds -> paced a0 cnt ->
  runs (absent pb a0 ln ch t P R) (fun _ k' => exists a',
      ready_for pb a0 ln hd ch dev t P R a' k' /\ a_words a' = a_words a /\ R k k' /\
      agree (fun x => P x /\ ~ within buf (512 * cnt) x) (ram (km k)) (ram (km k')) /\
      forall i, 0 <= i < 256 * cnt -> ld16 (ram (km k')) (buf + 2 * i) = u16 (drive_word a dev lba i))
    (ide_read hw ln rounds (Datatypes.S (Datatypes.S fuel)) hd lba buf cnt k).
Proof. intros HU. by apply read_call. Qed.

(** C11: [ide_write]: when the call comes back, the sectors of the drive hold the
    buffer word for word, no other sector of either drive, no memory of the
    thread and nothing else that others leave alone has changed, and the
    channel is free and idle again.  The drive follows the PIO handshake: it
    may be busy after the command ([may_wait]), the driver then sleeps between
    its looks, and all that is left open is whether the clock moves on during a
    sleep; with a drive that has room at the first look the call does come back.
    As for reading, more than one sector needs a drive that streams. *)
Theorem ide_write_ok hw pb a0 ln hd ch dev t P R rounds fuel a k lba buf cnt :
  channel_use hw pb a0 hd ch t P R -> ready_for pb a0 ln hd ch dev t P R a k ->
  transfer_ok hd ch P lba buf cnt rounds -> paced a0 cnt ->
  runs_or (absent pb a0 ln ch t P R) (may_wait a0) (fun _ k' => exists a',
      ready_for pb a0 ln hd ch dev t P R a' k' /\ R k k' /\ agree P (ram (km k)) (ram (km k')) /\
      (forall i, 0 <= i < 256 * cnt -> drive_word a' dev lba i = ld16 (ram (km k)) (buf + 2 * i)) /\
      forall e q, e <> dev \/ ~ 256 * lba <= q < 256 * (lba + cnt) -> a_words a' e q = a_words a e q)
    (ide_write hw ln rounds (Datatypes.S (Datatypes.S fuel)) hd lba buf cnt k).
Proof. intros HU. by apply write_call. Qed.

(** C12: Sectors written and read back, into another buffer, are the words
    that were in memory: one sector with any drive that follows the PIO
    handshake, several with one that streams the sectors of a command.  Only
    the clock may keep the write from coming back, when the drive is busy
    after the command. *)
Theorem ide_write_read hw pb a0 ln hd ch dev t P R rounds fuel a k lba buf buf' cnt :
  channel_use hw pb a0 hd ch t P R -> ready_for pb a0 ln hd ch dev t P R a k ->
  transfer_ok hd ch P lba buf cnt rounds -> transfer_ok hd ch P lba buf' cnt rounds ->
  paced a0 cnt ->
  runs_or (absent pb a0 ln ch t P R) (may_wait a0) (fun _ k' =>
      (exists a', ready_for pb a0 ln hd ch dev t P R a' k') /\
      forall i, 0 <= i < 256 * cnt ->
        ld16 (ram (km k')) (buf' + 2 * i) = ld16 (ram (km k)) (buf + 2 * i))
    ((ide_write hw ln rounds (Datatypes.S (Datatypes.S fuel)) hd lba buf cnt;;
      ide_read hw ln rounds (Datatypes.S (Datatypes.S fuel)) hd lba buf' cnt) k).
Proof.
  intros HU Hk Hb Hb' Hpc. eapply runs_bind; [by apply (write_call _ _ _ _ _ _ dev _ _ _ HU _ _ a)|].
  intros [] k1 (a1 & H1 & _ & _ & Hw & _). eapply runs_conseq.
  { eapply runs_weaken; [|by apply (read_call _ _ _ _ _ _ dev _ _ _ HU _ _ a1)]. done. }
  intros [] k2 (a2 & H2 & _ & _ & _ & Hv). split; [by exists a2|]. intros i Hi.
  rewrite Hv, Hw by done. apply u16_id, ld16_range.
Qed.

(** ** A concrete channel

    A machine with one thread, the primary channel at [0x2000], a slave disk
    whose sectors hold their own numbers, and a bus that answers as the
    drive does.  [demo_drive] streams and is never busy; [demo_slow] pauses
    between sectors and is busy for three looks before each. *)
Definition demo_disk (stream : bool) (slow : Z) : ata :=
  Ata 0 0 0 0 0 None (fun d q => q / 256 mod 65536) stream slow.
Definition demo_drive : ata := demo_disk true 0.
Definition demo_slow : ata := demo_disk false 3.

Definition ata_answers (pb : Z) (a0 : ata) : bus :=
  Bus (fun l _ => match a_xfer (ata_at pb a0 l) with
                  | Some x => if bool_decide (x_open x = false /\ x_looks x < a_slow a0) then 0xd0 else 0x58
                  | None => 0x50
                  end)
    (fun l _ => match a_xfer (ata_at pb a0 l) with
                | Some x => a_words (ata_at pb a0 l) (x_drive x) (x_pos x)
                | None => 0
                end).

Lemma ata_answers_ok pb a0 : 0 <= pb -> pb + 7 < 65536 -> a_slow a0 < 29999 -> ata_bus (ata_answers pb a0) pb a0.
Proof.
  intros H0 H7 Hs. split; [done|done|..].
  - intros l x Hx _. simpl. by rewrite Hx.
  - intros l x Hx _. simpl. rewrite Hx. case_bool_decide as E.
    + exists 0xd0. split; [done|]. split; [done|]. right. by destruct E.
    + exists 0x58. split; [done|]. split; [done|]. by left.
Qed.

Definition demo_ide : ide_link := IdeLink 0x2000 0x2d00 0x2d20 0x2d24 0x2d28 0x2d29.
Definition demo_hd : Z := device_at 0x2000 1.
Definition demo_private (x : Z) : Prop := ~ within 0x200c 4 x.

Definition demo_ide_ram : gmap Z Z :=
  st8 (st32 (st16 ∅ 0x2008 0x1f0) (demo_hd + 8) 0x2000) (demo_hd + 12) 1.

Definition demo_main : task_struct :=
  Task 0xc009f000 1 TASK_RUNING [] 31 31 0 [0; 1; 2; -1; -1; -1; -1; -1] 0
    (VirtualAddr (Bitmap 0 0) 0) STACK_MAGIC.
Definition demo_idle : task_struct := set_status TASK_READY demo_main.

Definition demo_reader : kst :=
  set_kt (ThreadSt {[ 0xc009e000 := demo_main; 0xc0100000 := demo_idle ]} 0xc009e000 [0xc0100000]
            [0xc009e000; 0xc0100000] 0xc009e000 0xc0100000 0 (fun _ => 0xc009ef00))
    (set_ks (SyncSt {[lock_semaphore (channel_lock 0) := Sema 1 []]} ∅)
       (set_km (Mach demo_ide_ram 0x202 [] []) bss_kst)).

Lemma demo_use stream slow : slow < 29999 ->
  channel_use (ata_answers 0x1f0 (demo_disk stream slow)) 0x1f0 (demo_disk stream slow) demo_hd 0x2000 0xc009e000 demo_private no_frame.
Proof.
  intros Hs. split; [by apply ata_answers_ok|done|..|exact no_frame_laws]; intros a Ha;
    unfold demo_private, within, demo_hd, device_at, sizeof_disk in *; lia.
Qed.

Lemma demo_reader_tasks u tk :
  tasks (kt demo_reader) !! u = Some tk ->
  (u = 0xc009e000 /\ tk = demo_main) \/ (u = 0xc0100000 /\ tk = demo_idle).
Proof. simpl. rewrite lookup_insert, lookup_singleton. repeat case_decide; naive_solver. Qed.

Lemma demo_reader_sched : sched_inv (kt demo_reader).
Proof.
  split; [split|done].
  - apply NoDup_singleton.
  - intros u. unfold status_of. change (thread_ready_list _) with [0xc0100000]. rewrite list_elem_of_singleton. split.
    + by intros ->.
    + destruct (tasks (kt demo_reader) !! u) as [tk|] eqn:E; [|done].
      by apply demo_reader_tasks in E as [[-> ->]|[-> ->]].
  - intros u. unfold status_of. destruct (tasks (kt demo_reader) !! u) as [tk|] eqn:E; [|done].
    by apply demo_reader_tasks in E as [[-> ->]|[-> ->]].
  - by eexists.
  - split; [by eexists|done].
  - done.
Qed.

Lemma demo_ready stream slow :
  ready_for 0x1f0 (demo_disk stream slow) demo_ide demo_hd 0x2000 1 0xc009e000 demo_private no_frame
    (demo_disk stream slow) demo_reader.
Proof.
  split; [|split; [done..|by right]].
  split; [done|exact demo_reader_sched| |done|done|by split|done|done|done].
  exists (fun q => q = 0x100000). split_and!; [done|done|]. intros u tk E.
  by apply demo_reader_tasks in E as [[-> ->]|[-> ->]].
Qed.

(** 300 sectors, two commands. *)
Lemma demo_transfer : transfer_ok demo_hd 0x2000 demo_private 7 0x100000 300 3.
Proof.
  split; [done..| |done]. split; [done..|]. unfold demo_private, within, demo_hd, device_at, sizeof_disk.
  intros x Hx. lia.
Qed.

(** One sector. *)
Lemma demo_transfer_one : transfer_ok demo_hd 0x2000 demo_private 7 0x100000 1 2.
Proof.
  split; [done..| |done]. split; [done..|]. unfold demo_private, within, demo_hd, device_at, sizeof_disk.
  intros x Hx. lia.
Qed.

Lemma demo_transfer_back : transfer_ok demo_hd 0x2000 demo_private 7 0x200000 300 3.
Proof.
  split; [done..| |done]. split; [done..|]. unfold demo_private, within, demo_hd, device_at, sizeof_disk.
  intros x Hx. lia.
Qed.

Lemma ide_read_ok_witness :
  runs (absent 0x1f0 demo_drive demo_ide 0x2000 0xc009e000 demo_private no_frame) (fun _ k' => exists a',
      ready_for 0x1f0 demo_drive demo_ide demo_hd 0x2000 1 0xc009e000 demo_private no_frame a' k' /\
      a_words a' = a_words demo_drive /\ no_frame demo_reader k' /\
      agree (fun x => demo_private x /\ ~ within 0x100000 (512 * 300) x) (ram (km demo_reader)) (ram (km k')) /\
      forall i, 0 <= i < 256 * 300 ->
        ld16 (ram (km k')) (0x100000 + 2 * i) = u16 (drive_word demo_drive 1 7 i))
    (ide_read (ata_answers 0x1f0 demo_drive) demo_ide 3 2 demo_hd 7 0x100000 300 demo_reader).
Proof.
  apply (ide_read_ok _ 0x1f0 demo_drive);
    [by apply demo_use|exact (demo_ready true 0)|exact demo_transfer|by right].
Defined.

Lemma ide_write_ok_witness :
  runs_or (absent 0x1f0 demo_slow demo_ide 0x2000 0xc009e000 demo_private no_frame) (may_wait demo_slow) (fun _ k' => exists a',
      ready_for 0x1f0 demo_slow demo_ide demo_hd 0x2000 1 0xc009e000 demo_private no_frame a' k' /\
      no_frame demo_reader k' /\ agree demo_private (ram (km demo_reader)) (ram (km k')) /\
      (forall i, 0 <= i < 256 * 1 ->
         drive_word a' 1 7 i = ld16 (ram (km demo_reader)) (0x100000 + 2 * i)) /\
      forall e q, e <> 1 \/ ~ 256 * 7 <= q < 256 * (7 + 1) -> a_words a' e q = a_words demo_slow e q)
    (ide_write (ata_answers 0x1f0 demo_slow) demo_ide 2 2 demo_hd 7 0x100000 1 demo_reader).
Proof.
  apply (ide_write_ok _ 0x1f0 demo_slow);
    [by apply demo_use|exact (demo_ready false 3)|exact demo_transfer_one|by left].
Defined.

Lemma ide_write_read_witness :
  runs_or (absent 0x1f0 demo_drive demo_ide 0x2000 0xc009e000 demo_private no_frame) (may_wait demo_drive) (fun _ k' =>
      (exists a', ready_for 0x1f0 demo_drive demo_ide demo_hd 0x2000 1 0xc009e000 demo_private no_frame a' k') /\
      forall i, 0 <= i < 256 * 300 ->
        ld16 (ram (km k')) (0x200000 + 2 * i) = ld16 (ram (km demo_reader)) (0x100000 + 2 * i))
    ((ide_write (ata_answers 0x1f0 demo_drive) demo_ide 3 2 demo_hd 7 0x100000 300;;
      ide_read (ata_answers 0x1f0 demo_drive) demo_ide 3 2 demo_hd 7 0x200000 300) demo_reader).
Proof.
  apply (ide_write_read _ 0x1f0 demo_drive demo_ide _ 0x2000 1 0xc009e000 demo_private no_frame 3 0 demo_drive);
    [by apply demo_use|exact (demo_ready true 0)|exact demo_transfer|exact demo_transfer_back|by right].
Defined.
