(* ===== verification/IdeIrq.v ===== *)
(** * The channel's interrupt, and the byte order of identification data

    [intr_hd_handler] is the other side of a transfer: the step that the
    thread in IdeLogic waits for.  [swap_pairs_bytes] puts the strings of a
    drive's identification in order. *)
From S2P Require Import Prelude Machine Global Str Stdio Bitmap KList Paging Kernel Thread Timer.
From S2P Require Import Sync Console Memory Arena Interrupt Syscall Printk Ide Run IdeSpec IdeLogic.

(** Channel [n] of the driver, on ports from [pb], as [ide_init] leaves it. *)
Record channel_set (ln : ide_link) (n pb : Z) (r : gmap Z Z) : Prop := {
  cs_no : n = 0 \/ n = 1;
  cs_port : ld16 r (channels ln + sizeof_ide_channel * n + 8) = pb;
  cs_irq : ld8 r (channels ln + sizeof_ide_channel * n + 10) = 0x2e + n
}.

Definition channel_at (ln : ide_link) (n : Z) : Z := channels ln + sizeof_ide_channel * n.

(** The threads that wait for the channel, made ready. *)
Definition wake_first (ws : list Z) (th : thread_st) : thread_st :=
  match ws with [] => th | w :: _ => unblock_st w th end.

Definition wakeable (th : thread_st) (ws : list Z) : Prop :=
  match ws with
  | [] => True
  | w :: _ => blocking (status (task_at th w)) = true /\ w ∉ thread_ready_list th
  end.

Lemma sema_up_any i ws k :
  sema_at (ks k) i = Sema 0 ws -> wakeable (kt k) ws ->
  sema_up i k = Done tt
    (set_ks (upd_sema_st i (fun _ => Sema 1 (tl ws)) (ks k)) (set_kt (wake_first ws (kt k)) k)).
Proof.
  intros Hs Hw. destruct ws as [|w ws].
  - rewrite sema_up_free by done. f_equal. unfold upd_sema_st. rewrite Hs. by destruct k.
  - destruct Hw as [Hb Hn]. by rewrite (sema_up_wake i w ws k Hs Hb Hn).
Qed.

Lemma channel_no_at ln n : n = 0 \/ n = 1 -> channel_no ln (channel_at ln n) = Z.to_nat n.
Proof.
  intros Hn. unfold channel_no, channel_at, sizeof_ide_channel. f_equal.
  replace (channels ln + 1632 * n - channels ln) with (n * 1632) by lia. by rewrite Z.div_mul.
Qed.

(** What the handler leaves of an expected interrupt. *)
Definition served (hw : bus) (ln : ide_link) (n pb : Z) (ws : list Z) (k k' : kst) : Prop :=
  k' = set_km (set_ports (ports (km k) ++ [Inb (pb + 7) (u8 (in8 hw (ports (km k)) (pb + 7)))])
                 (set_ram (st32 (ram (km k)) (channel_at ln n + 12) 0) (km k)))
         (set_ks (upd_sema_st (disk_done (Z.to_nat n)) (fun _ => Sema 1 (tl ws)) (ks k))
            (set_kt (wake_first ws (kt k)) k)).

(** C31: The handler of a channel's interrupt: an interrupt nobody expects
    changes nothing; an expected one is acknowledged, clears the channel's
    [expecting_intr], makes the semaphore [disk_done] 1 and the thread that
    waits for it ready. *)
Theorem intr_hd_handler_ok hw ln n pb ws k :
  channel_set ln n pb (ram (km k)) -> 0 <= pb -> pb + 7 < 65536 ->
  sema_at (ks k) (disk_done (Z.to_nat n)) = Sema 0 ws -> wakeable (kt k) ws ->
  exists k', intr_hd_handler hw ln (0x2e + n) k = Done tt k' /\
    if decide (ld32 (ram (km k)) (channel_at ln n + 12) = 0) then k' = k
    else served hw ln n pb ws k k' /\
      ld32 (ram (km k')) (channel_at ln n + 12) = 0 /\
      sema_at (ks k') (disk_done (Z.to_nat n)) = Sema 1 (tl ws) /\
      Forall (elsewhere pb) [Inb (pb + 7) (u8 (in8 hw (ports (km k)) (pb + 7)))].
Proof.
  intros [Hn Hp Hi] H0 H7 Hs Hw. unfold intr_hd_handler.
  assert (Hu : u8 (0x2e + n) = 0x2e + n) by (by destruct Hn as [-> | ->]).
  assert (Hc : u8 (0x2e + n - 0x2e) = n) by (by destruct Hn as [-> | ->]).
  rewrite Hu, Hc. fold (channel_at ln n) in *.
  assert (Ha : bool_decide (0x2e + n = 0x2e) || bool_decide (0x2e + n = 0x2f) = true)
    by (by destruct Hn as [-> | ->]).
  rewrite Ha. kstep.
  assert (Hirq : on_mach (irq_no_of (channel_at ln n)) k = Done (0x2e + n) k).
  { rewrite (on_mach_Ok _ _ (0x2e + n) (km k)); [by rewrite set_km_id|]. unfold irq_no_of, load8, gets. by rewrite Hi. }
  kstep. rewrite bool_decide_true by done. kstep. kstep. cbv beta. rewrite set_km_id.
  destruct (decide (ld32 (ram (km k)) (channel_at ln n + 12) = 0)) as [He|He].
  { exists k. by rewrite decide_False by tauto. }
  rewrite decide_True by done. kstep. set (k1 := set_km _ k).
  assert (Hup := sema_up_any (disk_done (Z.to_nat n)) ws k1 Hs Hw).
  kstep. set (k2 := set_ks _ _).
  assert (Hport : on_mach (port_base_of (channel_at ln n)) k2 = Done pb k2).
  { rewrite (on_mach_Ok _ _ pb (km k2)); [by rewrite set_km_id|]. unfold port_base_of, load16, gets.
    unfold k2, k1. cbn [km set_km set_ks set_kt ram set_ram]. unfold ld16. rewrite !ld8_st32_ne by lia.
    fold (ld16 (ram (km k)) (channel_at ln n + 8)). by rewrite Hp. }
  kstep. unfold inb, reg_status, log_io, gets, modify. rewrite u16_id by lia.
  eexists. split; [reflexivity|]. split_and!.
  - reflexivity.
  - unfold k2, k1. cbn [km set_km set_ks set_kt ram set_ram set_ports]. by rewrite ld32_st32_eq.
  - unfold k2, k1. cbn [ks set_km set_ks set_kt]. by rewrite sema_at_upd, decide_True.
  - repeat constructor.
Qed.

(** The handler keeps the promise of [IdeLogic.absent]: a drive raises the
    interrupt of a read with the data ready, BSY clear and DRQ set, and the
    handler's look at the status register then opens the sector. *)
Lemma served_answers hw ln n pb a0 ws k k' :
  ata_bus hw pb a0 -> served hw ln n pb ws k k' ->
  (forall x, a_xfer (ata_at pb a0 (ports (km k))) = Some x -> x_write x = false -> 0 < x_left x ->
     drq (in8 hw (ports (km k)) (pb + 7)) = true) ->
  answered (ata_at pb a0 (ports (km k'))).
Proof.
  intros [_ _ _ Hst] -> Hirq x'. cbn [km set_km ports set_ports]. rewrite ata_at_snoc. cbn [ata_event].
  destruct (a_xfer (ata_at pb a0 (ports (km k)))) as [x|] eqn:Hx; [|rewrite Hx; done].
  case_decide as Hd; [|intros E Hw Hl; rewrite Hx in E; injection E as <-; by destruct Hd].
  cbn [set_xfer a_xfer]. intros [= <-] Hw _. pose proof (look_looked (u8 (in8 hw (ports (km k)) (pb + 7))) x) as Hlk.
  rewrite (lk_write _ _ Hlk) in Hw. destruct Hd as [_ Hl].
  destruct (Hst _ x Hx Hl) as (st & Hin & Hr & _). specialize (Hirq x eq_refl Hw Hl).
  rewrite Hin in *. rewrite u8_id by done. unfold look. rewrite Hirq. by destruct (x_open x) eqn:E.
Qed.

Definition demo_irq_ide : ide_link := IdeLink 0x2000 0x2d00 0x2d20 0x2d24 0x2d28 0x2d29.
Definition demo_irq : kst :=
  set_kt (ThreadSt {[ 0xc009e000 := set_status TASK_BLOCKED task_zero ]} 0 [] [] 0 0 0 (fun _ => 0))
    (set_ks (SyncSt {[disk_done 0 := Sema 0 [0xc009e000]]} ∅)
       (set_km (Mach (st32 (st8 (st16 ∅ 0x2008 0x1f0) 0x200a 0x2e) 0x200c 1) 2 [] []) bss_kst)).

Lemma intr_hd_handler_ok_witness :
  exists k', intr_hd_handler (Bus (fun _ _ => 0x50) (fun _ _ => 0)) demo_irq_ide (0x2e + 0) demo_irq = Done tt k' /\
    if decide (ld32 (ram (km demo_irq)) (channel_at demo_irq_ide 0 + 12) = 0) then k' = demo_irq
    else served (Bus (fun _ _ => 0x50) (fun _ _ => 0)) demo_irq_ide 0 0x1f0 [0xc009e000] demo_irq k' /\
      ld32 (ram (km k')) (channel_at demo_irq_ide 0 + 12) = 0 /\
      sema_at (ks k') (disk_done (Z.to_nat 0)) = Sema 1 (tl [0xc009e000]) /\
      Forall (elsewhere 0x1f0) [Inb (0x1f0 + 7) (u8 (in8 (Bus (fun _ _ => 0x50) (fun _ _ => 0)) (ports (km demo_irq)) (0x1f0 + 7)))].
Proof.
  apply (intr_hd_handler_ok _ demo_irq_ide 0 0x1f0 [0xc009e000] demo_irq);
    [split; [by left|done|done]|done|done|done|split; [done|apply not_elem_of_nil]].
Defined.

(** ** Identification strings *)

(** [idx] is a [uint8_t] and even: it is never more than 254. *)
Lemma swap_loop_long fuel dst buf len m : 254 < len -> forall p,
  0 <= p <= 127 -> swap_loop fuel dst buf (2 * p) len m = NoFuel.
Proof.
  intros Hl. revert dst m. induction fuel as [|fuel IH]; intros dst m p Hp; [done|]. cbn [swap_loop].
  rewrite decide_True by lia. mstep. mstep. mstep. mstep.
  destruct (decide (p = 127)) as [->|Hne]; [by apply (IH _ _ 0)|].
  rewrite u8_id by lia. replace (2 * p + 2) with (2 * (p + 1)) by lia. apply IH. lia.
Qed.

(** [p] pairs from [src] swapped into [dst]. *)
Definition swapped (r : gmap Z Z) (src : Z) (r' : gmap Z Z) (dst : Z) (p : Z) : Prop :=
  (forall i, 0 <= i < p -> ld8 r' (dst + 2 * i) = ld8 r (src + 2 * i + 1) /\
                           ld8 r' (dst + 2 * i + 1) = ld8 r (src + 2 * i)) /\
  agree (fun a => ~ within dst (2 * p) a) r r'.

Lemma swap_loop_ok n : forall fuel src buf idx len m,
  (n < fuel)%nat -> 0 <= idx -> len <= idx + 2 * Z.of_nat n < len + 2 -> idx + 2 * Z.of_nat n <= 254 ->
  apart src (2 * Z.of_nat n) (buf + idx) (2 * Z.of_nat n) ->
  exists r', swap_loop fuel src buf idx len m = Ok (idx + 2 * Z.of_nat n, set_ram r' m) /\
    swapped (ram m) src r' (buf + idx) (Z.of_nat n).
Proof.
  induction n as [|n IH]; intros fuel src buf idx len m Hf Hi Hlen Hmax Hap; (destruct fuel as [|fuel]; [lia|]);
    cbn [swap_loop].
  { rewrite decide_False by lia. exists (ram m). split; [|split; [lia|done]].
    rewrite Z.add_0_r. by destruct m. }
  rewrite decide_True by lia. mstep. mstep. mstep. mstep. set (m1 := set_ram _ _). rewrite u8_id by lia.
  destruct (IH fuel (src + 2) buf (idx + 2) len m1) as (r' & Hrun & Hv & Hag); [lia..| |].
  { unfold apart in *. lia. }
  unfold apart in Hap.
  assert (Hm1 : forall a, ld8 (ram m1) a =
    if decide (a = buf + idx) then ld8 (ram m) (src + 1)
    else if decide (a = buf + idx + 1) then ld8 (ram m) src else ld8 (ram m) a).
  { intros a. unfold m1. cbn [ram set_ram]. destruct (decide (a = buf + idx)) as [->|H0].
    { rewrite ld8_st8_eq, u8_id by apply ld8_range. rewrite ld8_st8_ne by lia. done. }
    rewrite ld8_st8_ne by done. destruct (decide (a = buf + idx + 1)) as [->|H1].
    - rewrite ld8_st8_eq. apply u8_id, ld8_range.
    - by rewrite ld8_st8_ne. }
  exists r'. split; [rewrite Hrun; do 2 f_equal; lia|]. split.
  - intros i Hi'. destruct (decide (i = 0)) as [->|H0].
    + rewrite !Z.mul_0_r, !Z.add_0_r. rewrite !Hag by (unfold within; lia). rewrite !Hm1.
      rewrite decide_True by done. rewrite decide_False, decide_True by lia. done.
    + destruct (Hv (i - 1) ltac:(lia)) as [Hv1 Hv2].
      replace (buf + (idx + 2) + 2 * (i - 1)) with (buf + idx + 2 * i) in Hv1, Hv2 by lia.
      replace (src + 2 + 2 * (i - 1)) with (src + 2 * i) in Hv1, Hv2 by lia.
      rewrite Hv1, Hv2, !Hm1. rewrite !decide_False by lia. done.
  - intros a Ha. rewrite Hag by (unfold within in *; lia). rewrite Hm1.
    unfold within in Ha. rewrite !decide_False by lia. done.
Qed.

(** The number of pairs for a length. *)
Definition pairs (len : Z) : Z := (len + 1) / 2.

(** [swap_pairs_bytes] for a length of at most 254, from memory apart from
    its buffer: it ends, the bytes of each pair have changed places and a
    zero follows; it writes nothing else. *)
Theorem swap_pairs_bytes_ok fuel src buf len m :
  0 <= len <= 254 -> pairs len < Z.of_nat fuel -> apart src (2 * pairs len) buf (2 * pairs len) ->
  exists r', swap_pairs_bytes fuel src buf len m = Ok (tt, set_ram r' m) /\
    (forall i, 0 <= i < pairs len -> ld8 r' (buf + 2 * i) = ld8 (ram m) (src + 2 * i + 1) /\
       ld8 r' (buf + 2 * i + 1) = ld8 (ram m) (src + 2 * i)) /\
    ld8 r' (buf + 2 * pairs len) = 0 /\
    agree (fun a => ~ within buf (2 * pairs len + 1) a) (ram m) r'.
Proof.
  intros Hl Hf Hap. assert (Hp : 0 <= pairs len /\ len <= 2 * pairs len < len + 2 /\ 2 * pairs len <= 254).
  { unfold pairs. Z.div_mod_to_equations; lia. }
  destruct (swap_loop_ok (Z.to_nat (pairs len)) fuel src buf 0 len m) as (r' & Hrun & Hv & Hag);
    rewrite ?Z2Nat.id in * by lia; [lia..|by rewrite Z.add_0_r|].
  rewrite Z.add_0_r in Hv, Hag. unfold swap_pairs_bytes. mstep.
  exists (st8 r' (buf + 2 * pairs len) 0). split_and!; [done|..].
  - intros i Hi. rewrite !ld8_st8_ne by lia. by apply Hv.
  - apply ld8_st8_eq.
  - transitivity r'.
    + eapply agree_weaken; [|exact Hag]. unfold within. cbv beta. lia.
    + apply agree_st8. unfold within. lia.
Qed.

Lemma swap_pairs_bytes_ok_witness :
  exists r', swap_pairs_bytes 3 16 64 3 (Mach {[16 := 98; 17 := 97; 18 := 100; 19 := 99]} 2 [] []) =
      Ok (tt, set_ram r' (Mach {[16 := 98; 17 := 97; 18 := 100; 19 := 99]} 2 [] [])) /\
    (forall i, 0 <= i < pairs 3 ->
       ld8 r' (64 + 2 * i) = ld8 {[16 := 98; 17 := 97; 18 := 100; 19 := 99]} (16 + 2 * i + 1) /\
       ld8 r' (64 + 2 * i + 1) = ld8 {[16 := 98; 17 := 97; 18 := 100; 19 := 99]} (16 + 2 * i)) /\
    ld8 r' (64 + 2 * pairs 3) = 0 /\
    agree (fun a => ~ within 64 (2 * pairs 3 + 1) a) {[16 := 98; 17 := 97; 18 := 100; 19 := 99]} r'.
Proof.
  apply (swap_pairs_bytes_ok 3 16 64 3); [lia|done|by left].
Defined.

(** C32: The loop of [swap_pairs_bytes] ends exactly for lengths up to 254: its
    index is an even [uint8_t]. *)
Theorem swap_pairs_bytes_ends src buf len m :
  (exists fuel m', swap_pairs_bytes fuel src buf len m = Ok (tt, m')) <-> len <= 254.
Proof.
  split.
  - intros (fuel & m' & E). destruct (decide (len <= 254)) as [|Hl]; [done|]. exfalso.
    pose proof (swap_loop_long fuel src buf len m ltac:(lia) 0 ltac:(lia)) as Hno. change (2 * 0) with 0 in Hno.
    revert E. unfold swap_pairs_bytes, mbind, M_bind. by rewrite Hno.
  - intros Hl. assert (Hrun : exists fuel i m', swap_loop fuel src buf 0 len m = Ok (i, m')).
    { cut (forall n src m p, 0 <= p -> len <= 2 * p + 2 * Z.of_nat n -> p + Z.of_nat n <= 127 ->
        exists i m', swap_loop (S n) src buf (2 * p) len m = Ok (i, m')).
      { intros H. exists (S (Z.to_nat (Z.max 0 (pairs len)))). apply (H _ _ _ 0); unfold pairs; [lia|..];
          rewrite Z2Nat.id by lia; Z.div_mod_to_equations; lia. }
      clear. intros n. induction n as [|n IH]; intros src m p Hp Hn Hm; cbn [swap_loop].
      - rewrite decide_False by lia. by eexists _, _.
      - destruct (decide _) as [Hlt|_]; [|by eexists _, _]. mstep. mstep. mstep. mstep.
        rewrite u8_id by lia. replace (2 * p + 2) with (2 * (p + 1)) by lia. apply IH; lia. }
    destruct Hrun as (fuel & i & m' & E). exists fuel. unfold swap_pairs_bytes. mstep. by eexists.
Qed.
