(* ===== verification/IdeParts.v ===== *)
(** * The partitions of a disk

    What [partition_scan] of [device/ide.c] does with a table it has read: the
    entries as data, the partitions recorded for them in the disk's structure
    and in [partition_list], and what happens when there is no slot left. *)
From S2P Require Import Prelude Machine Global Str Stdio Bitmap KList Paging Kernel Thread Timer.
From S2P Require Import Sync Console Memory Arena Interrupt Syscall Printk Ide.

(** ** Tables *)

(** An entry of the table: its type, its first sector and its length. *)
Record entry := Entry { e_type : Z; e_start : Z; e_cnt : Z }.

Definition entry_at (r : gmap Z Z) (p : Z) (e : entry) : Prop :=
  ld8 r (p + 4) = e_type e /\ ld32 r (p + 8) = e_start e /\ ld32 r (p + 12) = e_cnt e.

Fixpoint table_at (r : gmap Z Z) (p : Z) (es : list entry) : Prop :=
  match es with
  | [] => True
  | e :: es => entry_at r p e /\ table_at r (p + 16) es
  end.

(** The entries that describe a partition. *)
Definition used : list entry -> list entry := filter (fun e => e_type e <> 0).

(** ** Slots

    The structures for the partitions of a table: the primary ones when the
    table is in the disk's first sector, the logical ones otherwise; the
    variable that counts them, the first, the number in the first one's name,
    how many there are. *)
Record slots := Slots { sl_var : Z; sl_base : Z; sl_first : Z; sl_max : Z }.

Definition slots_of (ln : ide_link) (hd ext_lba : Z) : slots :=
  if decide (ext_lba = 0) then Slots (v_p_no ln) (prim_part hd 0) 1 4
  else Slots (v_l_no ln) (logic_part hd 0) 5 8.

Section table.
Context (ln : ide_link) (im : image) (fr : frame_addrs) (ffuel sfuel : nat).
(** The disk, the sector the table is in, the table's place. *)
Context (hd ext_lba tb : Z).
Local Abbreviation SL := (slots_of ln hd ext_lba).
Local Abbreviation l := (partition_list ln).
Local Abbreviation A := (fr_args fr).
Local Abbreviation format := (lit im "%s%d").

Definition slot (i : Z) : Z := sl_base SL + 64 * i.
Definition tag (i : Z) : Z := slot i + 20.

(** The partition of entry [e], in slot [i] of the disk named [dn]. *)
Record part_at (dn : list Z) (r : gmap Z Z) (i : Z) (e : entry) : Prop := {
  pa_start : ld32 r (slot i + 8) = u32 (ext_lba + e_start e);
  pa_cnt : ld32 r (slot i + 12) = e_cnt e;
  pa_disk : ld32 r (slot i + 16) = hd;
  pa_name : cstr r (slot i) (dn ++ dec_text (sl_first SL + i))
}.

(** The bytes the scan reads and does not write: the table, the format, the
    disk's name. *)
Definition fixed (i : Z) : Prop := within tb 64 i \/ within format 5 i \/ within hd 8 i.

Definition node_byte (xs : list Z) (i : Z) : Prop := exists x, x ∈ nodes l xs /\ within x 8 i.

(** The slots from [j] on. *)
Definition free_slot (j i : Z) : Prop := within (slot j) (64 * (sl_max SL - j)) i.

(** ** The state of a scan

    Before it [j] slots are taken and the list links [xs]. *)
Context (dn : list Z) (j : Z) (xs : list Z).

(** Where the linker put things: nothing the scan writes overlaps what it
    reads or something else it writes. *)
Record layout : Prop := {
  ly_args : forall i, within A 12 i -> ~ fixed i /\ ~ within (sl_var SL) 1 i /\ ~ free_slot j i /\ ~ node_byte xs i;
  ly_var : forall i, within (sl_var SL) 1 i -> ~ fixed i /\ ~ free_slot j i /\ ~ node_byte xs i;
  ly_slot : forall i, free_slot j i -> ~ fixed i /\ ~ node_byte xs i;
  ly_node : forall i, node_byte xs i -> ~ fixed i;
  ly_hd : 0 < hd < 4294967296;
  ly_mem : 0 < sl_base SL /\ sl_base SL + 64 * sl_max SL <= 4294967296;
  ly_name : (length dn <= 5)%nat;
  ly_j : 0 <= j < sl_max SL
}.

Definition tags (n : nat) : list Z := (fun i => tag (j + i)) <$> seqZ 0 (Z.of_nat n).

(** What the scan may have changed when it has recorded [n] partitions. *)
Definition touched (n : nat) (i : Z) : Prop :=
  within A 12 i \/ within (sl_var SL) 1 i \/ within (slot j) (64 * Z.of_nat n) i \/ node_byte xs i.

(** The memory [r] of a scan that started in [r0] and has recorded the
    partitions of [ps]. *)
Record recorded (r0 : gmap Z Z) (ps : list entry) (r : gmap Z Z) : Prop := {
  rc_no : ld8 r (sl_var SL) = j + Z.of_nat (length ps);
  rc_list : list_at r l (xs ++ tags (length ps));
  rc_parts : forall i e, ps !! i = Some e -> part_at dn r (j + Z.of_nat i) e;
  rc_frame : agree (fun i => ~ touched (length ps) i) r0 r
}.

(** Before the scan: the format and the disk's name are in place, the free
    slots' names are empty. *)
Record ready (r0 : gmap Z Z) : Prop := {
  rd_format : cstr r0 format [37; 115; 37; 100];
  rd_dn : cstr r0 hd dn;
  rd_no : ld8 r0 (sl_var SL) = j;
  rd_list : list_at r0 l xs;
  rd_zero : forall i a, j <= i < sl_max SL -> within (slot i) 8 a -> ld8 r0 a = 0
}.

Lemma record_zero r0 : layout -> ready r0 -> recorded r0 [] r0.
Proof.
  intros HL HR. split; simpl.
  - rewrite (rd_no _ HR). lia.
  - rewrite app_nil_r. apply HR.
  - done.
  - done.
Qed.

Lemma in_nodes (ys : list Z) i : ~ outside (nodes l ys) i -> node_byte ys i.
Proof.
  intros Hi. destruct (decide (Exists (fun x => x <= i < x + 8) (nodes l ys))) as [(x & Hx & Hw)%Exists_exists|Hn].
  - by exists x.
  - destruct Hi. apply Forall_forall. intros x Hx Hw. apply Hn, Exists_exists. by exists x.
Qed.

Lemma nodes_snoc (ys : list Z) e x : x ∈ nodes l (ys ++ [e]) <-> x = e \/ x ∈ nodes l ys.
Proof. unfold nodes. set_solver. Qed.

Lemma tags_S n : tags (S n) = tags n ++ [tag (j + Z.of_nat n)].
Proof.
  unfold tags. rewrite Nat2Z.inj_succ, <- Z.add_1_r, seqZ_app, fmap_app by lia. simpl. by rewrite Z.add_0_l.
Qed.

(** A byte of the list is one of the list before or of a slot taken since. *)
Lemma node_tags n i :
  node_byte (xs ++ tags n) i <->
  node_byte xs i \/ exists m, j <= m < j + Z.of_nat n /\ within (tag m) 8 i.
Proof.
  induction n as [|n IH].
  - change (tags 0) with (@nil Z). rewrite app_nil_r. split; [by left|].
    intros [?|(m & Hm & _)]; [done|lia].
  - rewrite tags_S, app_assoc. transitivity (node_byte (xs ++ tags n) i \/ within (tag (j + Z.of_nat n)) 8 i).
    + unfold node_byte. setoid_rewrite nodes_snoc. naive_solver.
    + rewrite IH. split.
      * intros [[?|(m & ? & ?)]|?]; [by left|right; exists m; split; [lia|done]|].
        right. exists (j + Z.of_nat n). split; [lia|done].
      * intros [?|(m & Hm & ?)]; [tauto|]. destruct (decide (m = j + Z.of_nat n)) as [->|]; [by right|].
        left. right. exists m. split; [lia|done].
Qed.

(** ** One partition *)

Lemma within_apart a n b m :
  0 < n -> 0 < m -> (forall i, within a n i -> ~ within b m i) -> a + n <= b \/ b + m <= a.
Proof.
  intros Hn Hm H. destruct (decide (a + n <= b \/ b + m <= a)) as [|Hne]; [done|].
  destruct (H (Z.max a b)); unfold within; lia.
Qed.

Context (HL : layout).

Lemma slots_bounds : 1 <= sl_first SL /\ sl_first SL + sl_max SL <= 13 /\ sl_max SL <= 8.
Proof. unfold slots_of. case_decide; simpl; lia. Qed.

(** Names have one or two digits. *)
Lemma dec_text_small v : 1 <= v < 13 -> (length (dec_text v) <= 2)%nat.
Proof.
  intros Hv. assert (Hall : Forall (fun v => (length (dec_text v) <= 2)%nat) (seqZ 1 12)).
  { apply (bool_decide_unpack _). vm_compute. exact I. }
  rewrite Forall_forall in Hall. apply Hall, elem_of_seqZ. lia.
Qed.

Context (Hff : (4 < ffuel)%nat) (Hsf : (7 < sfuel)%nat).

Lemma name_run jn k :
  j <= jn < sl_max SL -> cstr (ram (km k)) format [37; 115; 37; 100] -> cstr (ram (km k)) hd dn ->
  (forall a, within (slot jn) 8 a -> ld8 (ram (km k)) a = 0) ->
  exists r', sprintf_args im fr ffuel sfuel (slot jn) "%s%d" [hd; sl_first SL + jn] k =
               Done tt (kwith_ram (fun _ => r') k) /\
    cstr r' (slot jn) (dn ++ dec_text (sl_first SL + jn)) /\
    agree (fun i => ~ (within A 12 i \/ within (slot jn) 8 i)) (ram (km k)) r'.
Proof.
  intros Hj Hf Hd Hz. pose proof slots_bounds. pose proof (ly_name HL). pose proof (ly_mem HL).
  pose proof (ly_hd HL). pose proof (ly_j HL).
  assert (Hin : forall i, within (slot jn) 8 i -> free_slot j i) by (unfold free_slot, slot, within; lia).
  assert (HA : A + 12 <= slot jn \/ slot jn + 8 <= A).
  { apply within_apart; [done..|]. intros i Hi Hs. destruct (ly_args HL i Hi) as (_ & _ & Hn & _). by apply Hn, Hin. }
  assert (Hff' : forall a n, 0 < n -> (forall i, within a n i -> fixed i) -> a + n <= slot jn \/ slot jn + 8 <= a).
  { intros a n Hn Hfix. apply within_apart; [done..|]. intros i Hi Hs. destruct (ly_slot HL i (Hin i Hs)) as [Hno _]. by apply Hno, Hfix. }
  assert (HAf : forall a n, 0 < n -> (forall i, within a n i -> fixed i) -> A + 12 <= a \/ a + n <= A).
  { intros a n Hn Hfix. apply within_apart; [done..|]. intros i Hi Hs. destruct (ly_args HL i Hi) as [Hno _]. by apply Hno, Hfix. }
  set (r1 := st32 (st32 (st32 (ram (km k)) A format) (A + 4) hd) (A + 4 + 4) (sl_first SL + jn)).
  assert (Hr1 : agree (fun i => ~ within A 12 i) (ram (km k)) r1).
  { intros i Hi. unfold within in Hi. unfold r1. by rewrite !ld8_st32_ne by lia. }
  assert (Hq : 0 < slot jn /\ slot jn + 8 <= 4294967296) by (unfold slot; lia).
  unfold sprintf_args. rewrite (kbind_Done _ _ k tt (kwith_ram (fun _ => r1) k)) by reflexivity. cbv beta.
  assert (Hdn : cstr r1 hd dn).
  { eapply cstr_agree; [|exact Hd]. eapply agree_weaken; [|exact Hr1]. intros i Hi Hw.
    destruct (HAf hd 8); [lia|intros ? ?; by do 2 right|..]; unfold within in Hw; lia. }
  assert (Hch : Forall (fun c => 0 < c < 256) (dn ++ dec_text (sl_first SL + jn))).
  { apply Forall_app. split; [by eapply cstr_bytes|apply text_chars]. }
  assert (Hlen : (length (dn ++ dec_text (sl_first SL + jn)) <= 7)%nat).
  { rewrite length_app. pose proof (dec_text_small (sl_first SL + jn) ltac:(lia)). lia. }
  destruct (vsprintf_text (slot jn) (slot jn + 8) sfuel (proj1 Hq) ffuel format [37; 115; 37; 100] A
    [AStr dn; AWord (sl_first SL + jn)] (dn ++ dec_text (sl_first SL + jn)) (set_ram r1 (km k)))
    as (r2 & Hrun & Hc & Hag); try done; try lia.
  - eapply cstr_agree; [|exact Hf]. eapply agree_weaken; [|exact Hr1]. intros i Hi Hw.
    destruct (HAf format 5); [lia|intros ? ?; by right; left|..]; unfold within in Hw; simpl in Hi; lia.
  - unfold out_of_buf. simpl. destruct (Hff' format 5); [lia|intros ? ?; by right; left|..]; lia.
  - assert (E1 : ld32 r1 (A + 4) = hd).
    { unfold r1. rewrite (ld32_st32_ne _ (A + 4 + 4)) by lia. rewrite ld32_st32_eq. by apply u32_id; lia. }
    assert (E2 : ld32 r1 (A + 4 + 4) = sl_first SL + jn) by (unfold r1; rewrite ld32_st32_eq; apply u32_id; lia).
    change (ram (set_ram r1 (km k))) with r1. cbn [args_at]. unfold arg_at, out_of_buf. rewrite E1, E2.
    destruct (Hff' hd 8); [lia|intros ? ?; by do 2 right|..]; split_and!; try done; lia.
  - repeat (unfold render; fold render; case_decide; try done). cbn [fmap option_fmap option_map]. by rewrite app_nil_r.
  - split; [done|]. intros a Ha. simpl in Ha. change (ram (set_ram r1 (km k))) with r1.
    rewrite <- (Hz a) by (unfold within; lia). apply Hr1. unfold within. lia.
  - exists r2. split_and!; [|done|].
    + rewrite (kbind_Done _ _ _ (Z.of_nat (length (dn ++ dec_text (sl_first SL + jn)))) (kwith_ram (fun _ => r2) k)); [done|].
      unfold on_mach. by erewrite lift_Ok by exact Hrun.
    + intros i Hi. etransitivity; [apply (Hag i); unfold within in Hi; lia|]. apply Hr1. tauto.
Qed.
(** What a scan leaves alone. *)
Lemma node_touched n i : node_byte (xs ++ tags n) i -> touched n i.
Proof.
  intros [?|(m & Hm & Hw)]%node_tags; unfold touched; [tauto|].
  right; right; left. unfold within, tag, slot in *. lia.
Qed.

Lemma touched_mono n n' i : (n <= n')%nat -> touched n i -> touched n' i.
Proof. intros Hn. unfold touched, within. intros [?|[?|[?|?]]]; [tauto|tauto| |tauto]. right; right; left. lia. Qed.

Lemma fixed_kept n i : j + Z.of_nat n <= sl_max SL -> fixed i -> ~ touched n i.
Proof.
  intros Hn Hf [Hi|[Hi|[Hi|Hi]]].
  - by destruct (ly_args HL i Hi) as [Hno _].
  - by destruct (ly_var HL i Hi) as [Hno _].
  - assert (Hs : free_slot j i) by (unfold free_slot, within in *; lia). by destruct (ly_slot HL i Hs) as [Hno _].
  - by apply (ly_node HL i Hi).
Qed.

Lemma slot_kept n i : free_slot (j + Z.of_nat n) i -> ~ touched n i.
Proof.
  intros Hf. assert (Hs : free_slot j i) by (unfold free_slot, slot, within in *; lia).
  intros [Hi|[Hi|[Hi|Hi]]].
  - destruct (ly_args HL i Hi) as (_ & _ & Hno & _). by apply Hno.
  - destruct (ly_var HL i Hi) as (_ & Hno & _). by apply Hno.
  - unfold free_slot, slot, within in *. lia.
  - destruct (ly_slot HL i Hs) as [_ Hno]. by apply Hno.
Qed.

Lemma slot_not_fixed i : free_slot j i -> ~ fixed i.
Proof. intros Hs. by destruct (ly_slot HL i Hs) as [Hno _]. Qed.

Lemma node_clear n i :
  j + Z.of_nat n <= sl_max SL -> node_byte (xs ++ tags n) i ->
  ~ within A 12 i /\ ~ within (sl_var SL) 1 i /\ forall m, j <= m < sl_max SL -> ~ within (slot m) 20 i.
Proof.
  intros Hn [Hi|(m & Hm & Hw)]%node_tags.
  - split_and!; [by intros (_ & _ & _ & Hno)%(ly_args HL)|by intros (_ & _ & Hno)%(ly_var HL)|].
    intros m Hm Hw. assert (Hs : free_slot j i) by (unfold free_slot, slot, within in *; lia).
    by apply (ly_slot HL) in Hs as [_ Hs].
  - assert (Hs : free_slot j i) by (unfold free_slot, tag, slot, within in *; lia).
    split_and!; [by intros (_ & _ & Hno & _)%(ly_args HL)|by intros (_ & Hno & _)%(ly_var HL)|].
    intros m' Hm' Hw'. unfold tag, slot, within in *. lia.
Qed.

Lemma tag_fresh n :
  j + Z.of_nat n < sl_max SL -> fresh_elem l (xs ++ tags n) (tag (j + Z.of_nat n)).
Proof.
  intros Hn. pose proof (ly_mem HL). pose proof (ly_j HL). split; [unfold addr_ok, tag, slot; lia|].
  apply Forall_forall. intros x Hx. apply within_apart; [done..|]. intros i Hi Hw.
  apply (slot_kept n i); [unfold free_slot, tag, within in *; lia|]. apply node_touched. by exists x.
Qed.

(** The fields are written and the tag is linked. *)
Definition fields_set (r : gmap Z Z) (q start cnt : Z) : Prop :=
  ld32 r (q + 8) = start /\ ld32 r (q + 12) = cnt /\ ld32 r (q + 16) = hd.

Lemma fields_agree (P : Z -> Prop) r r' q start cnt :
  agree P r r' -> (forall i, within (q + 8) 12 i -> P i) -> fields_set r q start cnt -> fields_set r' q start cnt.
Proof.
  intros H HP (E1 & E2 & E3). unfold within in HP.
  split_and!; [rewrite <- E1|rewrite <- E2|rewrite <- E3]; eapply agree_ld32; try exact H; intros i Hi; apply HP; lia.
Qed.

Lemma link_run ps r0 k start cnt :
  let n := length ps in let q := slot (j + Z.of_nat n) in
  recorded r0 ps (ram (km k)) -> j + Z.of_nat n < sl_max SL -> 0 <= start < 4294967296 -> 0 <= cnt < 4294967296 ->
  exists r', (forall B (f : K B),
      (on_mach (store32 (q + 8) start);; on_mach (store32 (q + 12) cnt);; on_mach (store32 (q + 16) hd);;
       on_mach (list_append l (q + 20));; f) k = f (kwith_ram (fun _ => r') k)) /\
    list_at r' l (xs ++ tags (S n)) /\ fields_set r' q start cnt /\
    agree (fun i => ~ (within (q + 8) 20 i \/ node_byte (xs ++ tags n) i)) (ram (km k)) r'.
Proof.
  intros n q HC Hn Hs Hc. pose proof (ly_hd HL) as Hhd. set (r := ram (km k)) in *.
  assert (Hslot : forall i, within q 64 i -> ~ node_byte (xs ++ tags n) i).
  { intros i Hi Ht%node_touched. revert Ht. apply slot_kept. unfold free_slot, q, within in *. lia. }
  set (r1 := st32 (st32 (st32 r (q + 8) start) (q + 12) cnt) (q + 16) hd).
  assert (H1 : agree (fun i => ~ within (q + 8) 12 i) r r1).
  { intros i Hi. unfold within in Hi. unfold r1. by rewrite !ld8_st32_ne by lia. }
  assert (Hl1 : list_at r1 l (xs ++ tags n)).
  { eapply list_at_agree; [|apply (rc_list _ _ _ HC)]. eapply agree_weaken; [|exact H1]. intros i Hi Hw.
    apply Hi. apply Forall_forall. intros x Hx Hxi. apply (Hslot i); [unfold within in *; lia|]. by exists x. }
  assert (Hf1 : fields_set r1 q start cnt).
  { unfold fields_set, r1. split_and!; rewrite ?ld32_st32_ne by lia; rewrite ld32_st32_eq; apply u32_id; lia. }
  destruct (list_append_spec l _ (q + 20) (set_ram r1 (km k)) Hl1 (tag_fresh n Hn)) as (r2 & Hr2 & Hl2 & H2).
  assert (H2' : agree (fun i => ~ (within (q + 20) 8 i \/ node_byte (xs ++ tags n) i)) r1 r2).
  { eapply agree_weaken; [|exact H2]. intros i Hi. apply Forall_cons. split; [intros Hw; apply Hi; by left|].
    apply Forall_forall. intros x Hx Hw. apply Hi. right. by exists x. }
  exists r2. split_and!.
  - intros B f. do 3 kstep. rewrite (kbind_Done _ _ _ tt (kwith_ram (fun _ => r2) k)); [done|].
    unfold on_mach. by erewrite lift_Ok by exact Hr2.
  - rewrite tags_S, app_assoc. exact Hl2.
  - eapply fields_agree; [exact H2'| |exact Hf1]. intros i Hi [Hw|Hw]; [unfold within in *; lia|].
    apply (Hslot i); [unfold within in *; lia|done].
  - intros i Hi. etransitivity; [apply H2'|apply H1]; [intros [Hw|Hw]; apply Hi|intros Hw; apply Hi];
      [left|by right|left]; unfold within in *; lia.
Qed.

Lemma add_partition_run r0 ps k e :
  let n := length ps in let jn := j + Z.of_nat n in
  ready r0 -> recorded r0 ps (ram (km k)) -> jn < sl_max SL -> 0 <= e_cnt e < 4294967296 ->
  exists r', add_partition ln im fr ffuel sfuel hd (slot jn) (u32 (ext_lba + e_start e)) (e_cnt e)
               (sl_first SL + jn) k = Done tt (kwith_ram (fun _ => r') k) /\
    list_at r' l (xs ++ tags (S n)) /\ part_at dn r' jn e /\
    agree (fun i => ~ (within A 12 i \/ within (slot jn) 64 i \/ node_byte (xs ++ tags n) i)) (ram (km k)) r'.
Proof.
  intros n jn HR HC Hn He. pose proof (ly_j HL) as Hj. pose proof (rc_frame _ _ _ HC) as Hfr. fold n in Hfr.
  destruct (link_run ps r0 k (u32 (ext_lba + e_start e)) (e_cnt e) HC Hn (u32_range _) He)
    as (r2 & Hr2 & Hl2 & Hf2 & H2). fold n jn in Hr2, Hl2, Hf2, H2.
  assert (Hslot : forall i, within (slot jn) 64 i -> ~ touched n i).
  { intros i Hi. apply slot_kept. unfold free_slot, jn, within in *. lia. }
  assert (H02 : agree (fun i => ~ touched n i /\ ~ within (slot jn + 8) 20 i) r0 r2).
  { intros i [Hi Hs]. etransitivity; [apply H2|by apply Hfr]. intros [?|?%node_touched]; done. }
  assert (Hfix : agree fixed r0 r2).
  { eapply agree_weaken; [|exact H02]. intros i Hi. split; [apply fixed_kept; [lia|done]|].
    intros Hw. assert (Hs : free_slot j i) by (unfold free_slot, jn, slot, within in *; lia).
    by apply (slot_not_fixed i). }
  destruct (name_run jn (kwith_ram (fun _ => r2) k)) as (r3 & Hr3 & Hc3 & H3).
  { lia. }
  { eapply cstr_agree; [|apply (rd_format _ HR)]. eapply agree_weaken; [|exact Hfix].
    intros i Hi. right; left. unfold within. simpl in Hi. lia. }
  { eapply cstr_agree; [|apply (rd_dn _ HR)]. eapply agree_weaken; [|exact Hfix].
    intros i Hi. right; right. unfold within. pose proof (ly_name HL). lia. }
  { intros a Ha. rewrite <- (rd_zero _ HR jn a) by (lia || done). apply H02.
    split; [apply Hslot|]; unfold within in *; lia. }
  change (ram (km (kwith_ram (fun _ => r2) k))) with r2 in H3.
  exists r3. split_and!.
  - unfold add_partition. rewrite Hr2. exact Hr3.
  - eapply list_at_agree; [|exact Hl2]. eapply agree_weaken; [|exact H3]. intros i Hi.
    apply in_nodes in Hi. destruct (node_clear (S n) i) as (Hn1 & _ & Hn2); [lia|done|].
    intros [?|Hw]; [done|]. apply (Hn2 jn); [lia|]. unfold within in *. lia.
  - assert (Hf3 : fields_set r3 (slot jn) (u32 (ext_lba + e_start e)) (e_cnt e)).
    { eapply fields_agree; [exact H3| |exact Hf2]. intros i Hi [Hw|Hw].
      - apply (Hslot i); [unfold within in *; lia|]. by left.
      - unfold within in *. lia. }
    destruct Hf3 as (? & ? & ?). by split.
  - intros i Hi. etransitivity; [apply H3|apply H2].
    + intros [?|?]; apply Hi; [by left|right; left]. unfold within in *. lia.
    + intros [?|?]; apply Hi; right; [left|by right]. unfold within in *. lia.
Qed.
Lemma part_agree (P : Z -> Prop) r r' i e :
  agree P r r' -> (forall a, within (slot i) 20 a -> P a) -> j <= i < sl_max SL ->
  part_at dn r i e -> part_at dn r' i e.
Proof.
  intros H HP Hi [H1 H2 H3 H4]. unfold within in HP. pose proof slots_bounds. pose proof (ly_j HL).
  assert (Hf : fields_set r' (slot i) (u32 (ext_lba + e_start e)) (e_cnt e)).
  { eapply fields_agree; [exact H| |by split_and!]. intros a Ha. apply HP. unfold within in Ha. lia. }
  destruct Hf as (? & ? & ?). split; [done..|]. eapply cstr_agree; [|exact H4]. eapply agree_weaken; [|exact H].
  intros a Ha. apply HP. rewrite length_app in Ha. pose proof (ly_name HL).
  pose proof (dec_text_small (sl_first SL + i) ltac:(lia)). lia.
Qed.

(** The counter counts the partition. *)
Lemma recorded_snoc r0 ps r r1 e :
  let n := length ps in let jn := j + Z.of_nat n in
  recorded r0 ps r -> jn < sl_max SL -> list_at r1 l (xs ++ tags (S n)) -> part_at dn r1 jn e ->
  agree (fun i => ~ (within A 12 i \/ within (slot jn) 64 i \/ node_byte (xs ++ tags n) i)) r r1 ->
  recorded r0 (ps ++ [e]) (st8 r1 (sl_var SL) (jn + 1)).
Proof.
  intros n jn HC Hn Hl Hp H1. pose proof slots_bounds. pose proof (ly_j HL).
  assert (H2 : agree (fun i => ~ within (sl_var SL) 1 i) r1 (st8 r1 (sl_var SL) (jn + 1))).
  { apply agree_st8. unfold within. lia. }
  assert (Hslot : forall m i, j <= m < sl_max SL -> within (slot m) 20 i ->
            ~ within (sl_var SL) 1 i /\ ~ within A 12 i /\ ~ node_byte (xs ++ tags n) i).
  { intros m i Hm Hw. assert (Hs : free_slot j i) by (unfold free_slot, slot, within in *; lia). split_and!.
    - by intros (_ & Hno & _)%(ly_var HL).
    - by intros (_ & _ & Hno & _)%(ly_args HL).
    - intros (_ & _ & Hno)%node_clear; [by apply (Hno m)|lia]. }
  split; rewrite ?length_app; simpl; rewrite ?Nat.add_1_r.
  - rewrite ld8_st8_eq, u8_id by (fold n; lia). fold n. lia.
  - eapply list_at_agree; [|exact Hl]. eapply agree_weaken; [|exact H2]. intros i Hi%in_nodes.
    by apply (node_clear (S n)) in Hi as (_ & Hno & _); [|lia].
  - intros i e' [Hi|[Hge Hi]]%lookup_app_Some.
    + apply lookup_lt_Some in Hi as Hlt. fold n in Hlt.
      eapply (part_agree _ r1); [exact H2| |lia|]; [intros a Ha; apply (Hslot (j + Z.of_nat i)); [lia|done]|].
      eapply (part_agree _ r); [exact H1| |lia|by apply (rc_parts _ _ _ HC)].
      intros a Ha. destruct (Hslot (j + Z.of_nat i) a) as (_ & Hno1 & Hno2); [lia|done|].
      intros [?|[?|?]]; [done| |done]. unfold jn, slot, within in *. lia.
    + apply list_lookup_singleton_Some in Hi as [Hi <-]. replace (j + Z.of_nat i) with jn by (unfold jn, n; lia).
      eapply part_agree; [exact H2| |lia|done]. intros a Ha. by apply (Hslot jn); [lia|].
  - intros i Hi. fold n in Hi. etransitivity; [apply H2; intros ?; apply Hi; unfold touched; tauto|].
    etransitivity; [apply H1|apply (rc_frame _ _ _ HC)].
    + intros [?|[?|Ht]]; apply Hi; [by left|right; right; left; unfold jn, slot, within in *; lia|].
      apply (touched_mono n); [lia|]. by apply node_touched.
    + intros Ht. apply Hi. eapply touched_mono; [|exact Ht]. fold n. lia.
Qed.

(** ** Entries *)
Section scan.
Context (scan : Z -> K unit).
Local Abbreviation scan_entry := (scan_entry ln im fr ffuel sfuel scan).
Local Abbreviation scan_entries := (scan_entries ln im fr ffuel sfuel scan).

(** How an entry ends: the loop goes on, or there is no slot left. *)
Definition entry_result (n : nat) (k : kst) : res bool :=
  if decide (j + Z.of_nat n < sl_max SL) then Done true k
  else if decide (ext_lba = 0) then KPanic "p_no < 4" else Done false k.

Lemma entry_read r0 ps r p e :
  j + Z.of_nat (length ps) <= sl_max SL -> recorded r0 ps r -> entry_at r0 p e ->
  (forall i, within p 16 i -> within tb 64 i) -> entry_at r p e.
Proof.
  intros Hn HC (E1 & E2 & E3) Hp.
  assert (Hag : agree (within p 16) r0 r).
  { eapply agree_weaken; [|apply HC]. intros i Hi. apply fixed_kept; [lia|]. left. by apply Hp. }
  unfold within in Hag. split_and!; [rewrite <- E1; apply Hag; lia|rewrite <- E2|rewrite <- E3];
    eapply agree_ld32; try exact Hag; simpl; lia.
Qed.

Lemma used_entry_run r0 ps k p e :
  ready r0 -> recorded r0 ps (ram (km k)) -> j + Z.of_nat (length ps) < sl_max SL ->
  entry_at (ram (km k)) p e -> e_type e <> 0 -> e_type e <> 5 ->
  exists r', recorded r0 (ps ++ [e]) r' /\
    scan_entry hd ext_lba p k = entry_result (S (length ps)) (kwith_ram (fun _ => r') k).
Proof.
  intros HR HC Hn (E1 & E2 & E3) Hu Hx. pose proof (ly_j HL). pose proof slots_bounds.
  assert (He : 0 <= e_cnt e < 4294967296) by (rewrite <- E3; apply ld32_range).
  destruct (add_partition_run r0 ps k e HR HC Hn He) as (r1 & Hr1 & Hl1 & Hp1 & H1).
  eexists. split; [by eapply recorded_snoc|].
  set (jn := j + Z.of_nat (length ps)) in *. pose proof (rc_no _ _ _ HC) as Hno. fold jn in Hno.
  unfold scan_entry. kstep. kstep. kstep. rewrite !set_km_id, E1, E2, E3.
  rewrite decide_False, decide_True by done. unfold entry_result, slot in *.
  replace (j + Z.of_nat (S (length ps))) with (jn + 1) by (unfold jn; lia).
  assert (Hi : forall v, 0 <= v < 13 -> i8 v = v) by (intros v Hv; unfold i8; rewrite Z.mod_small; lia).
  unfold slots_of in *. destruct (decide (ext_lba = 0)) as [E|E]; cbn [sl_var sl_base sl_first sl_max] in *.
  - kstep. rewrite set_km_id, Hno, (Hi jn), (Hi (jn + 1)) by lia. rewrite (Z.add_comm jn 1) in *.
    replace (prim_part hd jn) with (prim_part hd 0 + 64 * jn) by (unfold prim_part, sizeof_partition; lia).
    rewrite (kbind_Done _ _ _ _ _ Hr1). cbv beta. kstep.
    case_decide; [rewrite bool_decide_true by lia|rewrite bool_decide_false by lia]; done.
  - kstep. rewrite set_km_id, Hno, (Hi jn), (Hi (jn + 1)) by lia. rewrite (Z.add_comm jn 5).
    replace (logic_part hd jn) with (logic_part hd 0 + 64 * jn) by (unfold logic_part, sizeof_partition; lia).
    rewrite (kbind_Done _ _ _ _ _ Hr1). cbv beta. kstep.
    case_decide; [rewrite bool_decide_true by lia|rewrite bool_decide_false by lia]; done.
Qed.

Lemma scan_entries_S n p k :
  scan_entries (S n) hd ext_lba p k =
  (go_on ← scan_entry hd ext_lba p; if (go_on : bool) then scan_entries n hd ext_lba (p + 16) else mret false) k.
Proof. done. Qed.

Lemma unused_entry_run k p e :
  entry_at (ram (km k)) p e -> e_type e = 0 -> scan_entry hd ext_lba p k = Done true k.
Proof.
  intros (E1 & _ & _) Hu. unfold scan_entry. kstep. kstep. kstep. rewrite !set_km_id, E1, Hu. done.
Qed.

Lemma table_run r0 es : forall ps k p n,
  ready r0 -> recorded r0 ps (ram (km k)) -> table_at r0 p es ->
  (forall i, within p (16 * Z.of_nat (length es)) i -> within tb 64 i) ->
  Forall (fun e => e_type e <> 5) es -> j + Z.of_nat (length ps) < sl_max SL ->
  exists r', recorded r0 (take (Z.to_nat (sl_max SL - j)) (ps ++ used es)) r' /\
    scan_entries (length es + n) hd ext_lba p k =
      if decide (j + Z.of_nat (length (ps ++ used es)) < sl_max SL)
      then scan_entries n hd ext_lba (p + 16 * Z.of_nat (length es)) (kwith_ram (fun _ => r') k)
      else entry_result (Z.to_nat (sl_max SL - j)) (kwith_ram (fun _ => r') k).
Proof.
  pose proof (ly_j HL). induction es as [|e es IH]; intros ps k p n HR HC Ht Hp Hx Hn.
  { exists (ram (km k)). rewrite app_nil_r, firstn_all2, decide_True by lia. split; [done|].
    unfold kwith_ram. destruct k as [[] ? ? ? ? ? ?]. simpl. f_equal; lia. }
  apply Forall_cons in Hx as [Hxe Hx]. destruct Ht as [He Ht]. simpl length in Hp.
  assert (He' : entry_at (ram (km k)) p e).
  { eapply entry_read; [|done..|]; [lia|]. intros i Hi. apply Hp. unfold within in *. lia. }
  assert (Hp' : forall i, within (p + 16) (16 * Z.of_nat (length es)) i -> within tb 64 i).
  { intros i Hi. apply Hp. unfold within in *. lia. }
  simpl length. rewrite Nat.add_succ_l, scan_entries_S.
  replace (p + 16 * Z.of_nat (S (length es))) with (p + 16 + 16 * Z.of_nat (length es)) by lia.
  unfold used. rewrite filter_cons. fold used. destruct (decide (e_type e <> 0)) as [Hu|Hu].
  - destruct (used_entry_run r0 ps k p e HR HC Hn He' Hu Hxe) as (r1 & HC1 & Hr1).
    unfold entry_result in Hr1.
    destruct (decide (j + Z.of_nat (S (length ps)) < sl_max SL)) as [Hn1|Hn1].
    + rewrite (kbind_Done _ _ _ _ _ Hr1).
      destruct (IH (ps ++ [e]) (kwith_ram (fun _ => r1) k) (p + 16) n) as (r' & HC' & Hr'); try done.
      { rewrite length_app. simpl. lia. }
      rewrite <- app_assoc in HC', Hr'. exists r'. split; [exact HC'|]. exact Hr'.
    + exists r1. assert (Hl : Z.to_nat (sl_max SL - j) = length (ps ++ [e])) by (rewrite length_app; simpl; lia).
      replace (ps ++ e :: used es) with ((ps ++ [e]) ++ used es) by by rewrite <- app_assoc.
      rewrite Hl, take_app_length. split; [done|].
      rewrite decide_False by (rewrite !length_app in *; simpl in *; lia).
      unfold entry_result. rewrite decide_False by (rewrite length_app; simpl; lia).
      unfold mbind, K_bind. rewrite Hr1. by destruct (decide (ext_lba = 0)).
  - rewrite (kbind_Done _ _ _ _ _ (unused_entry_run k p e He' ltac:(lia))). by apply IH.
Qed.
End scan.
End table.

(** ** The theorem *)

(** The entries of a partition table: each one in use, in front of the
    first extended one, is recorded in the next slot of the disk's structure
    (the table's sector added to its start, its length, the disk, the disk's
    name and the partition's number) and appended to [partition_list], and
    nothing else is written but the counter and the call's arguments; the
    fourth primary partition is recorded and then fails the assertion, and
    after the eighth logical one the function returns with the sector's
    buffer still allocated. *)
Theorem partition_table_ok ln im fr ffuel sfuel hd ext_lba tb dn j xs scan es n k :
  layout ln im fr hd ext_lba tb dn j xs -> ready ln im hd ext_lba dn j xs (ram (km k)) ->
  (4 < ffuel)%nat -> (7 < sfuel)%nat ->
  table_at (ram (km k)) tb es -> (length es <= 4)%nat -> Forall (fun e => e_type e <> 5) es ->
  let slots := sl_max (slots_of ln hd ext_lba) in
  exists r', recorded ln fr hd ext_lba dn j xs (ram (km k)) (take (Z.to_nat (slots - j)) (used es)) r' /\
    scan_entries ln im fr ffuel sfuel scan (length es + n) hd ext_lba tb k =
      (if decide (j + Z.of_nat (length (used es)) < slots) then
         scan_entries ln im fr ffuel sfuel scan n hd ext_lba (tb + 16 * Z.of_nat (length es))
           (kwith_ram (fun _ => r') k)
       else if decide (ext_lba = 0) then KPanic "p_no < 4"
       else Done false (kwith_ram (fun _ => r') k)).
Proof.
  intros HL HR Hff Hsf Ht Hlen Hx slots. pose proof (ly_j _ _ _ _ _ _ _ _ _ HL) as Hj.
  destruct (table_run ln im fr ffuel sfuel hd ext_lba tb dn j xs HL Hff Hsf scan (ram (km k)) es [] k tb n)
    as (r' & HC & Hr); try done.
  { by eapply record_zero. }
  { intros i Hi. unfold within in *. lia. }
  { simpl. lia. }
  exists r'. split; [exact HC|]. rewrite Hr. unfold entry_result. simpl app. fold slots.
  rewrite (decide_False (P := j + Z.of_nat (Z.to_nat (slots - j)) < slots)) by lia. done.
Qed.

(** A disk "sdb" at 0x1000 and a table at 0x2000 with its first and third
    entry in use. *)
Definition demo_ln : ide_link := IdeLink 0 0x6000 0 0x5004 0x5000 0x5001.
Definition demo_im : image := Image 0 0 0 0 0 0 0 (fun _ => 0) (fun _ => 0x3000).
Definition demo_fr : frame_addrs := FrameAddrs 0x4000 0 0 0.
Definition demo_table : list entry :=
  [Entry 131 2048 1000; Entry 0 0 0; Entry 130 4000 500; Entry 0 0 0].

Definition put_entry (r : gmap Z Z) (p : Z) (e : entry) : gmap Z Z :=
  st32 (st32 (st8 r (p + 4) (e_type e)) (p + 8) (e_start e)) (p + 12) (e_cnt e).

Definition demo_sector : kst :=
  let r := bytes_at 0x3000 [37; 115; 37; 100] (bytes_at 0x1000 [115; 100; 98] ∅) in
  let r := st32 (st32 r (0x6000 + 4) (0x6000 + 8)) (0x6000 + 8) 0x6000 in
  kwith_ram (fun _ => put_entry (put_entry r 0x2000 (Entry 131 2048 1000)) (0x2000 + 16 * 2) (Entry 130 4000 500))
    bss_kst.

Lemma demo_parts_layout : layout demo_ln demo_im demo_fr 0x1000 0 0x2000 [115; 100; 98] 0 [].
Proof.
  assert (Hn : forall i, node_byte demo_ln [] i <-> 0x6000 <= i < 0x6010).
  { intros i. unfold node_byte, nodes, head_of, tail_of, within. simpl.
    setoid_rewrite elem_of_cons. setoid_rewrite list_elem_of_singleton. split.
    - intros (x & [->| ->] & Hx); lia.
    - intros Hi. destruct (decide (i < 24584)); [exists 24576|exists 24584]; split; lia || (by left) || (by right). }
  split; rewrite ?Hn; intros; rewrite ?Hn;
    unfold fixed, free_slot, slot, slots_of, prim_part, within, sizeof_partition in *; simpl in *; try lia.
  apply Hn in H. lia.
Qed.

Lemma demo_parts_ready : ready demo_ln demo_im 0x1000 0 [115; 100; 98] 0 [] (ram (km demo_sector)).
Proof.
  split.
  - by vm_compute.
  - by vm_compute.
  - by vm_compute.
  - split; [by vm_compute| |].
    + simpl. split_and!; repeat constructor. unfold KList.apart, head_of, tail_of. simpl. lia.
    + repeat constructor; unfold head_of, tail_of; simpl; lia.
  - intros i a Hi Ha. unfold slot, slots_of, prim_part, within in *. simpl in *.
    unfold demo_sector, put_entry. cbn [kwith_ram km set_km ram set_ram e_type e_start e_cnt].
    unfold bytes_at. rewrite ?ld8_st32_ne, ?ld8_st8_ne, ?ld8_st32_ne, ?ld8_st8_ne, ?ld8_st32_ne, ?ld8_st8_ne by lia. by vm_compute.
Qed.

Lemma partition_table_ok_witness :
  exists r', recorded demo_ln demo_fr 0x1000 0 [115; 100; 98] 0 [] (ram (km demo_sector))
               [Entry 131 2048 1000; Entry 130 4000 500] r' /\
    scan_entries demo_ln demo_im demo_fr 5 8 (fun _ => mret tt) 4 0x1000 0 0x2000 demo_sector =
      Done true (kwith_ram (fun _ => r') demo_sector).
Proof.
  destruct (partition_table_ok demo_ln demo_im demo_fr 5 8 0x1000 0 0x2000 [115; 100; 98] 0 []
    (fun _ => mret tt) demo_table 0 demo_sector) as (r' & HC & Hr).
  - exact demo_parts_layout.
  - exact demo_parts_ready.
  - lia.
  - lia.
  - by vm_compute.
  - simpl. lia.
  - repeat constructor; done.
  - exists r'. split; [exact HC|exact Hr].
Defined.
