(* ===== verification/IdeHeap.v ===== *)
(** * The byte heap beside a disk

    A thread that uses a channel of the disk driver and the kernel's byte
    heap, with interrupts on: what others leave alone meanwhile
    ([heap_kept], a frame of IdeLogic), what holds between calls ([world]), and
    [sys_malloc], [sys_free] and [ide_read] under that contract. *)
From S2P Require Import Prelude Machine Global Str Stdio Bitmap KList Paging Kernel Thread Timer.
From S2P Require Import Sync Console Memory PageHeap PageAlloc Arena ArenaHeap HeapSpec Malloc.
From S2P Require Import Interrupt Syscall Printk Ide Run LockRun IdeSpec IdeLogic IdeRW.

(** ** What others leave alone

    Every thread is a kernel thread and the kernel's directory is the current
    one when a thread comes back; page tables, pools and the kernel pool's
    lock are as they were: nobody else uses the kernel's byte heap. *)
Record heap_kept (k k' : kst) : Prop := {
  hk_dir : cr3 (kp k') = 0x100000;
  hk_threads : forall u tk, tasks (kt k') !! u = Some tk -> pgdir tk = 0;
  hk_words : pwords (kp k') = pwords (kp k);
  hk_mem : kmem k' = kmem k;
  hk_lock : lock_at (ks k') kernel_pool_lock = lock_at (ks k) kernel_pool_lock;
  hk_sema : sema_at (ks k') (lock_semaphore kernel_pool_lock) = sema_at (ks k) (lock_semaphore kernel_pool_lock)
}.

Lemma heap_kept_laws : frame_laws heap_kept.
Proof.
  split.
  - intros k0 k k' [A1 A2 A3 A4 A5 A6] [B1 B2 B3 B4 B5 B6]. split; congruence || done.
  - intros k0 k [A1 A2 _ _ _ _]. by split.
  - intros k0 k m [A1 A2 A3 A4 A5 A6]. by split.
  - intros k0 k s [A1 A2 A3 A4 A5 A6] Hs. destruct (Hs kernel_pool_lock) as [E1 E2]; [done|].
    split; try done; cbn [ks set_ks]; congruence.
  - intros k0 k pg e0 th k' [A1 A2 A3 A4 A5 A6] Hpg [B1 B2 B3 B4 B5 B6]. unfold switched in *.
    cbn [kp kmem ks set_esp0 set_kp set_kt set_km] in *. split; try done; congruence.
Qed.

(** Where the pages and the bitmaps of the pools [M] are, and the heap's
    descriptors at [kd]: the heap's own ground. *)
Section ground.
Context (kd : Z) (M : mem_st).
Definition vm_with : vm := Vm (km bss_kst) (kp bss_kst) M (task_at (kt bss_kst) 0).
Definition heap_base : Z := page_addr vm_with 0.
Definition heap_pages : Z := npages vm_with.
Definition heap_byte (i : Z) : Prop :=
  within kd 168 i \/ within heap_base (4096 * heap_pages) i \/ bitmap_bytes vm_with i.
End ground.

Lemma vm_static M s : vmem s = M ->
  page_addr s 0 = heap_base M /\ npages s = heap_pages M /\
  forall i, bitmap_bytes s i <-> bitmap_bytes (vm_with M) i.
Proof. intros <-. unfold heap_base, heap_pages, page_addr, npages, bitmap_bytes, kbm, vbm. done. Qed.

#[export] Instance bitmap_bytes_dec s i : Decision (bitmap_bytes s i).
Proof. unfold bitmap_bytes. apply _. Defined.

Section world.
Context (hw : bus) (pb : Z) (a0 : ata) (ln : ide_link) (hd ch dev t : Z) (P : Z -> Prop).
Context (kd : Z) (M : mem_st).
Context (HU : channel_use hw pb a0 hd ch t P heap_kept).
Local Abbreviation E := (absent pb a0 ln ch t P heap_kept).
Local Abbreviation B := (heap_base M).
Local Abbreviation hlive := (live B).
Local Abbreviation hbyte := (heap_byte kd M).

(** The bytes the driver reads of the disk and the channel, and the flag the
    interrupt handler clears. *)
Definition disk_byte (i : Z) : Prop := within (hd + 8) 5 i \/ within (ch + 8) 2 i \/ within (ch + 12) 4 i.

(** The heap lies in the private memory and apart from the disk's bytes, the
    base is at or above [K_HEAP_START], and a sector's buffer is not too large
    for the pool. *)
Record heap_place : Prop := {
  hp_mine : forall i, hbyte i -> P i;
  hp_disk : forall i, disk_byte i -> ~ hbyte i;
  hp_base : K_HEAP_START <= B;
  hp_pool : 512 < pool_size (kernel_pool M)
}.
Context (HP : heap_place).

(** Bytes of [G]'s blocks in use, or outside the heap. *)
Definition user_byte (G : gheap) (i : Z) : Prop :=
  others B (heap_pages M) kd G i /\ ~ bitmap_bytes (vm_with M) i.

Lemma own_byte G i : ~ user_byte G i -> hbyte i.
Proof.
  unfold user_byte, heap_byte. intros Hn. destruct (decide (within kd 168 i)) as [|H1]; [by left|].
  destruct (decide (within B (4096 * heap_pages M) i)) as [|H2]; [by right; left|].
  right; right. assert (Ho : others B (heap_pages M) kd G i) by (right; unfold within in *; lia).
  destruct (decide (bitmap_bytes (vm_with M) i)) as [|H3]; [done|by destruct Hn].
Qed.

(** Between calls: the channel free and idle, the pool's lock [L] with its
    semaphore [S], the heap [G], room for [m] more pages. *)
Record world (a : ata) (G : gheap) (m : Z) (L : lock) (S : semaphore) (k : kst) : Prop := {
  wo_ready : ready_for pb a0 ln hd ch dev t P heap_kept a k;
  wo_lock : lock_at (ks k) kernel_pool_lock = L;
  wo_sema : sema_at (ks k) (lock_semaphore kernel_pool_lock) = S;
  wo_mem : kmem k = M;
  wo_heap : heap_inv PF_KERNEL kd (vm_of k) G;
  wo_room : kernel_room (vm_of k) m
}.

Lemma world_kept a G m L S k : world a G m L S k -> heap_kept k k.
Proof. intros [[H _] _ _ _ _ _]. exact (in_frame _ _ _ _ _ _ _ _ _ _ _ _ _ _ H). Qed.

Lemma world_run a G m L S k : world a G m L S k -> running (kt k) = t.
Proof. intros [[H _] _ _ _ _ _]. exact (in_run _ _ _ _ _ _ _ _ _ _ _ _ _ _ H). Qed.

(** ** Moves *)

Lemma ready_env a k k' :
  ready_for pb a0 ln hd ch dev t P heap_kept a k -> E k k' -> ready_for pb a0 ln hd ch dev t P heap_kept a k'.
Proof.
  intros [H Hd] HE. eapply (ready_after hw pb a0 ln hd ch dev t P heap_kept HU k a (ram (km k)) k'); [|done].
  eapply inside_absent; [exact (cu_frame _ _ _ _ _ _ _ _ HU)|exact H|exact HE].
Qed.

(** Others have run, or the driver has read a sector into a block in use. *)
Lemma world_move a a' G m L S k k' :
  world a G m L S k -> ready_for pb a0 ln hd ch dev t P heap_kept a' k' -> heap_kept k k' ->
  agree (fun i => ~ user_byte G i) (ram (km k)) (ram (km k')) -> world a' G m L S k'.
Proof.
  intros H Hr [K1 K2 K3 K4 K5 K6] Hag. pose proof (world_kept _ _ _ _ _ _ H) as Hk.
  destruct H as [H1 H2 H3 H4 H5 H6]. destruct (vm_static M (vm_of k) H4) as (Eb & Ep & Ebm).
  assert (Ekp : kp k' = kp k).
  { pose proof (hk_dir _ _ Hk). destruct (kp k), (kp k'). simpl in *. congruence. }
  set (s := with_ram (ram (km k')) (vm_of k)).
  assert (Hs : heap_inv PF_KERNEL kd s G).
  { apply heap_inv_others; [done|]. eapply agree_weaken; [|exact Hag]. intros i Hi Hu. apply Hi.
    cbn [pa_base pa_pages pa_private kernel_PageAlloc]. rewrite Eb, Ep, Ebm. done. }
  assert (Hb : agree (bitmap_bytes (vm_of k)) (ram (vmach (vm_of k))) (ram (km k'))).
  { eapply agree_weaken; [|exact Hag]. intros i Hi [_ Hu]. by apply Hu, Ebm. }
  split; [done|congruence..| |].
  - by apply (heap_inv_view kd s).
  - apply (kernel_pages_view s (vm_of k')); [done..|]. by apply kernel_room_outside.
Qed.

Lemma world_env a G m L S k k' : world a G m L S k -> E k k' -> world a G m L S k'.
Proof.
  intros H HE. eapply world_move; [exact H| |exact (ab_frame _ _ _ _ _ _ _ _ _ HE)|].
  - eapply ready_env; [exact (wo_ready _ _ _ _ _ _ H)|exact HE].
  - eapply agree_weaken; [|exact (ab_mem _ _ _ _ _ _ _ _ _ HE)]. intros i Hi. by apply (hp_mine HP), (own_byte G).
Qed.

Lemma ready_set_ks a k s :
  ready_for pb a0 ln hd ch dev t P heap_kept a k -> locks_but [kernel_pool_lock] (ks k) s ->
  ready_for pb a0 ln hd ch dev t P heap_kept a (set_ks s k).
Proof.
  intros [[H1 H2 H3 H4 H5 [H6 H6'] H7 H8 H9] Hd] [Hb Hs]. split; [|done]. destruct H9 as [B1 B2 _ _ _ _].
  split; try done.
  - cbn [ks set_ks]. rewrite Hb; [done|set_solver].
  - cbn [ks set_ks]. rewrite Hs; [done|]. intros ? [= <-]. set_solver.
  - split; [exact H6|]. cbn [ks set_ks]. rewrite Hs; done.
Qed.

#[export] Instance world_lock_use a G m r :
  LockUse E kernel_pool_lock t (fun L S k => world a G m L S k /\ agree P r (ram (km k))).
Proof.
  split.
  - intros L S k [H _]. by eapply world_run.
  - intros L S k [H _]. apply H.
  - intros L S k [H _]. apply H.
  - intros L S k k' [H Hag] HE. split; [by eapply world_env|].
    etransitivity; [exact Hag|exact (ab_mem _ _ _ _ _ _ _ _ _ HE)].
  - intros L S k s [H Hag] Hl. split; [|done]. destruct H as [H1 H2 H3 H4 H5 H6].
    split; try done. by apply ready_set_ks.
Qed.

(** ** Work on the heap *)

Lemma user_kept a G m L S k G' s' :
  world a G m L S k -> kept PF_KERNEL kd G' (vm_of k) s' -> agree (user_byte G') (ram (km k)) (ram (vmach s')).
Proof.
  intros H Hk. destruct (vm_static M (vm_of k) (wo_mem _ _ _ _ _ _ H)) as (Eb & Ep & Ebm).
  eapply agree_weaken; [|exact (k_ram _ _ _ _ _ Hk)]. intros i [Ho Hb].
  cbn [pa_base pa_pages pa_private kernel_PageAlloc]. by rewrite Eb, Ep, Ebm.
Qed.

Lemma disk_user G i : disk_byte i -> user_byte G i.
Proof.
  intros Hi. pose proof (hp_disk HP i Hi) as Hn. unfold heap_byte in Hn. split; [right|tauto].
  unfold within in Hn. lia.
Qed.

(** With nobody's own directory every directory will do. *)
Lemma dirs_plain ts pg : (forall u tk, ts !! u = Some tk -> pgdir tk = 0) -> dirs_ok ts pg.
Proof.
  intros Ht. exists (fun d => d = cr3 pg \/ d = 0x100000). split; [by left|]. split; [by right|].
  intros u tk Hu Hn. by destruct Hn; apply (Ht u).
Qed.

(** A step of the allocator, under the pool's lock. *)
Lemma world_put a G m L S k Gk G' m' s' :
  world a G m L S k -> kept PF_KERNEL kd Gk (vm_of k) s' -> heap_inv PF_KERNEL kd s' G' ->
  kernel_room s' m' -> world a G' m' L S (vm_put s' k).
Proof.
  intros H Hk Hi Hr. pose proof (user_kept _ _ _ _ _ _ _ _ H Hk) as Hag.
  pose proof (world_kept _ _ _ _ _ _ H) as [F1 F2 _ _ _ _].
  destruct H as [[[H1 H2 H3 H4 H5 [H6 H6'] H7 H8 H9] Hd] G1 G2 G3 _ _], Hk as [K1 K2 K3 K4 K5].
  assert (Ekt : kt (vm_put s' k) = kt k) by (apply upd_task_same; [apply (so_cur _ (proj1 H2))|by rewrite K2]).
  assert (Hd' : disk_at pb (ram (vmach s')) hd ch dev).
  { eapply disk_at_agree; [exact Hag|..|exact Hd]; intros x Hx; apply disk_user; unfold disk_byte; tauto. }
  assert (Hexp : ld32 (ram (vmach s')) (ch + 12) = ld32 (ram (km k)) (ch + 12)).
  { eapply agree_ld32; [exact Hag|]. intros i Hi0. apply disk_user. right; right. unfold within. lia. }
  split; try (by rewrite vm_of_put).
  - split; [|exact Hd']. split.
    + by rewrite Ekt.
    + by rewrite Ekt.
    + rewrite Ekt. by apply dirs_plain.
    + exact H4.
    + exact H5.
    + split; [|exact H6']. unfold expecting in *. cbn [vm_put km]. by rewrite Hexp.
    + cbn [vm_put km]. rewrite K4. exact H7.
    + done.
    + split; try done; [cbn [vm_put kp]; by rewrite K3|by rewrite Ekt].
  - exact G1.
  - exact G2.
  - cbn [vm_put kmem]. by rewrite K1.
Qed.

(** ** The calls *)

Lemma thread_dir a G m L S k : world a G m L S k -> pgdir (task_at (kt k) t) = 0.
Proof.
  intros H. pose proof (world_kept _ _ _ _ _ _ H) as Hk. unfold task_at.
  destruct (tasks (kt k) !! t) as [tk|] eqn:E; simpl; [|done]. exact (hk_threads _ _ Hk t tk E).
Qed.

(** A block of [n] bytes at [x] is taken. *)
Definition grown (G : gheap) (x n : Z) (G' : gheap) : Prop :=
  (forall y q, hlive G' y q <-> hlive G y q \/ (y = x /\ q = n)) /\ forall q, ~ hlive G x q.

Lemma malloc_runs a G m k lk fuel lfuel :
  world a G (1 + m) (Lock 0 0) (Sema 1 []) k -> 0 <= m -> (256 <= fuel)%nat -> (255 <= lfuel)%nat ->
  runs E (fun x k' => exists n G', 512 <= n < 1024 /\ world a G' m (Lock 0 0) (Sema 1 []) k' /\
      grown G x n G' /\ agree (fun i => P i /\ user_byte G i) (ram (km k)) (ram (km k')))
    (sys_malloc kd (Datatypes.S lk) fuel lfuel 512 k).
Proof.
  intros H Hm Hf Hlf. pose proof (cu_thread _ _ _ _ _ _ _ _ HU) as Ht.
  unfold sys_malloc, running_thread, get_task. kstep. kstep. kstep.
  rewrite (world_run _ _ _ _ _ _ H), (thread_dir _ _ _ _ _ _ H). cbv zeta. change (heap_of 0) with PF_KERNEL. rewrite (wo_mem _ _ _ _ _ _ H).
  rewrite !bool_decide_true by (pose proof (hp_pool HP); lia). cbn [andb negb].
  eapply runs_bind; [apply (runs_lock_acquire (HU := world_lock_use a G (1 + m) (ram (km k))) Ht); by split|].
  intros [] k1 [H1 Hag1].
  rewrite decide_False by lia.
  destruct (malloc_small_ok PF_KERNEL kd fuel lfuel (vm_of k1) G 512) as (x & n & s' & G' & Hmal & Hx & Hfit & A);
    [apply H1|lia|apply (pa_room_less (PageAlloc := kernel_PageAlloc) (vm_of k1) (1 + m) 1); [apply H1|lia]|done|done|].
  destruct A as [A1 A2 A3 A4 _ A5]. destruct Hfit as [Hn1 Hn2].
  assert (Hroom : kernel_room s' m).
  { apply A5; [done|]. replace (pages_for n) with 1 by (unfold pages_for; Z.div_mod_to_equations; lia). apply H1. }
  pose proof (world_put _ _ _ _ _ _ _ _ m s' H1 A2 A1 Hroom) as H2. set (k2 := vm_put s' k1) in *.
  eapply runs_step; [apply lift_Ok; exact Hmal|]. fold k2.
  eapply runs_bind; [apply (runs_lock_release (HU := world_lock_use a G' m (ram (km k2)))); by split|].
  intros [] k3 [H3 Hag3]. constructor. exists n, G'. destruct (vm_static M (vm_of k1) (wo_mem _ _ _ _ _ _ H1)) as (Eb & _).
  destruct (vm_static M s') as (Eb' & _); [rewrite (k_mem _ _ _ _ _ A2); exact (wo_mem _ _ _ _ _ _ H1)|].
  cbn [pa_base kernel_PageAlloc] in A3, A4. rewrite Eb' in A3. rewrite Eb in A3, A4.
  split_and!; [lia|lia|done|by split|].
  transitivity (ram (km k1)); [eapply agree_weaken; [|exact Hag1]; tauto|].
  transitivity (ram (km k2)); [eapply agree_weaken; [|exact (user_kept _ _ _ _ _ _ _ _ H1 A2)]; tauto|].
  eapply agree_weaken; [|exact Hag3]. tauto.
Qed.

(** Block [x] is given back. *)
Definition shrunk (G : gheap) (x : Z) (G' : gheap) : Prop :=
  forall y q, hlive G' y q <-> hlive G y q /\ y <> x.

Lemma free_runs a G m k lk fuel lfuel x n :
  world a G m (Lock 0 0) (Sema 1 []) k -> hlive G x n -> (256 <= fuel)%nat ->
  255 * heap_pages M + 1 < Z.of_nat lfuel ->
  runs E (fun _ k' => exists G', world a G' m (Lock 0 0) (Sema 1 []) k' /\ shrunk G x G' /\
      agree (fun i => P i /\ user_byte G' i) (ram (km k)) (ram (km k')))
    (sys_free (Datatypes.S lk) fuel lfuel x k).
Proof.
  intros H Hl Hf Hlf. pose proof (cu_thread _ _ _ _ _ _ _ _ HU) as Ht.
  destruct (vm_static M (vm_of k) (wo_mem _ _ _ _ _ _ H)) as (Eb & Ep & _).
  assert (Hx : B <= x).
  { rewrite <- Eb in Hl. destruct (live_bytes PF_KERNEL kd (vm_of k) G x n x (wo_heap _ _ _ _ _ _ H) Hl) as [Hx _].
    - destruct (live_in _ _ G (hi_ok _ _ _ _ (wo_heap _ _ _ _ _ _ H)) x n Hl) as (? & ? & ? & ? & ? & ?). lia.
    - cbn [pa_base kernel_PageAlloc] in Hx. lia. }
  pose proof (hp_base HP) as Hb. unfold K_HEAP_START in *.
  unfold sys_free, running_thread, get_task. rewrite (bool_decide_true (x <> 0)) by lia. kstep.
  rewrite decide_True by lia. kstep. kstep.
  rewrite (world_run _ _ _ _ _ _ H), (thread_dir _ _ _ _ _ _ H). cbv zeta.
  change (heap_of 0) with PF_KERNEL. rewrite decide_True, bool_decide_true by (done || unfold K_HEAP_START; lia). kstep.
  eapply runs_bind; [apply (runs_lock_acquire (HU := world_lock_use a G m (ram (km k))) Ht); by split|].
  intros [] k1 [H1 Hag1]. destruct (vm_static M (vm_of k1) (wo_mem _ _ _ _ _ _ H1)) as (Eb1 & Ep1 & _).
  destruct (free_block_ok PF_KERNEL kd fuel lfuel (vm_of k1) G x n) as (s' & G' & Hfree & [R1 _ R2 R3 R4]);
    cbn [pa_base pa_pages kernel_PageAlloc]; rewrite ?Eb1, ?Ep1; [apply H1|exact Hl|exact Hf|exact Hlf|].
  assert (Hroom : kernel_room s' m) by apply R4, H1.
  pose proof (world_put _ _ _ _ _ _ _ _ m s' H1 R2 R1 Hroom) as H2. set (k2 := vm_put s' k1) in *.
  eapply runs_step; [apply lift_Ok; exact Hfree|]. fold k2.
  eapply runs_conseq; [apply (runs_lock_release (HU := world_lock_use a G' m (ram (km k2)))); by split|].
  intros [] k3 [H3 Hag3]. exists G'.
  destruct (vm_static M s') as (Eb' & _); [rewrite (k_mem _ _ _ _ _ R2); exact (wo_mem _ _ _ _ _ _ H1)|].
  cbn [pa_base kernel_PageAlloc] in R3. rewrite Eb', Eb1 in R3.
  split_and!; [done|done|].
  transitivity (ram (km k1)); [eapply agree_weaken; [|exact Hag1]; tauto|].
  transitivity (ram (km k2)); [eapply agree_weaken; [|exact (user_kept _ _ _ _ _ _ _ _ H1 R2)]; tauto|].
  eapply agree_weaken; [|exact Hag3]. tauto.
Qed.

(** ** Blocks *)

Lemma block_bytes a G m L S k x n i : world a G m L S k -> hlive G x n -> x <= i < x + n ->
  user_byte G i /\ P i /\ ~ disk_byte i /\ 0 < i < 0xffc00000 /\ hbyte i.
Proof.
  intros H Hl Hi. destruct (vm_static M (vm_of k) (wo_mem _ _ _ _ _ _ H)) as (Eb & Ep & Ebm).
  assert (Hl' : live (pa_base (vm_of k)) G x n) by (cbn [pa_base kernel_PageAlloc]; by rewrite Eb).
  destruct (live_bytes PF_KERNEL kd (vm_of k) G x n i (wo_heap _ _ _ _ _ _ H) Hl' Hi) as (Hp & Hd & Hb).
  destruct (ly_base _ _ _ (hi_layout _ _ _ _ (wo_heap _ _ _ _ _ _ H))) as [Hpos _].
  pose proof (ly_top _ _ _ (hi_layout _ _ _ _ (wo_heap _ _ _ _ _ _ H))) as Htop.
  cbn [pa_base pa_pages pa_private kernel_PageAlloc] in *. rewrite Eb, Ep in *.
  assert (Hh : hbyte i) by (right; left; exact Hp).
  split_and!; [|by apply (hp_mine HP)|intros Hx; by apply (hp_disk HP i)|lia|lia|done].
  split; [left; by exists x, n|by rewrite <- Ebm].
Qed.

(** The thread writes outside the heap or into a block of its own. *)
Lemma world_write a G m L S k r :
  world a G m L S k -> agree (fun i => ~ user_byte G i \/ disk_byte i) (ram (km k)) r ->
  world a G m L S (kwith_ram (fun _ => r) k).
Proof.
  intros H Hag. pose proof (world_kept _ _ _ _ _ _ H) as Hk. eapply world_move; [exact H| |by apply (fl_km _ heap_kept_laws)|].
  - destruct (wo_ready _ _ _ _ _ _ H) as [[H1 H2 H3 H4 H5 [H6 H6'] H7 H8 H9] Hd]. split.
    + split; try done; [|by apply (fl_here _ heap_kept_laws k), (fl_km _ heap_kept_laws)].
      split; [|exact H6']. unfold expecting in *. rewrite <- H6. eapply agree_ld32; [exact Hag|].
      intros i Hi. right. right; right. unfold within. lia.
    + eapply disk_at_agree; [exact Hag|..|exact Hd]; intros y Hy; right; unfold disk_byte; tauto.
  - eapply agree_weaken; [|exact Hag]. intros i Hi. by left.
Qed.

(** A sector read into a block. *)
Lemma read_sector_runs a G m k fuel lba x n :
  world a G m (Lock 0 0) (Sema 1 []) k -> hlive G x n -> 512 <= n -> 0 <= lba <= max_lba ->
  runs E (fun _ k' => exists a', world a' G m (Lock 0 0) (Sema 1 []) k' /\ a_words a' = a_words a /\
      agree (fun i => P i /\ ~ within x 512 i) (ram (km k)) (ram (km k')) /\
      forall i, 0 <= i < 256 -> ld16 (ram (km k')) (x + 2 * i) = u16 (drive_word a dev lba i))
    (ide_read hw ln 2 (Datatypes.S (Datatypes.S fuel)) hd lba x 1 k).
Proof.
  intros H Hl Hn Hlba. assert (Hb : forall i, within x 512 i -> user_byte G i /\ P i /\ ~ disk_byte i /\ 0 < i < 0xffc00000 /\ hbyte i).
  { intros i Hi. eapply block_bytes; [exact H|exact Hl|]. unfold within in Hi. lia. }
  eapply runs_conseq; [apply (read_call _ _ _ _ _ _ dev _ _ _ HU _ _ a); [exact (wo_ready _ _ _ _ _ _ H)| |by left]|].
  { split; [lia|lia|lia| |unfold rounds_for; lia]. split.
    - destruct (Hb x) as (_ & _ & _ & ? & _); [unfold within; lia|]. lia.
    - destruct (Hb (x + 511)) as (_ & _ & _ & ? & _); [unfold within; lia|]. lia.
    - intros i Hi. destruct (Hb i) as (_ & Hp & Hd & _); [unfold within in *; lia|]. unfold disk_byte in Hd. tauto. }
  intros [] k' (a' & Hr & Hw & Hk & Hag & Hv). exists a'. split_and!; [|done|done|done].
  eapply world_move; [exact H|done|done|]. eapply agree_weaken; [|exact Hag].
  intros i Hi. split; [by apply (hp_mine HP), (own_byte G)|]. intros Hx. by apply Hi, Hb.
Qed.
End world.
