(* ===== verification/IdeScan.v ===== *)
(** * Scanning a disk for partitions

    [partition_scan] of [device/ide.c], the recursion through the extended
    partitions, against a reference function on the sectors of the drive:
    the tables are read into blocks of the kernel's heap while the rest of the
    kernel runs. *)
From S2P Require Import Prelude Machine Global Str Stdio Bitmap KList Paging Kernel Thread Timer.
From S2P Require Import Sync Console Memory PageHeap PageAlloc Arena ArenaHeap HeapSpec Malloc.
From S2P Require Import Interrupt Syscall Printk Ide Run LockRun IdeSpec IdeLogic IdeRW IdeHeap IdeParts.

(** ** The partitions of a drive *)

(** A partition: its first sector and its length. *)
Record part := Part { p_start : Z; p_cnt : Z }.

(** What has been found so far: the partitions with their slots in the disk's
    structure (0 to 3 the primary, 4 to 11 the logical ones) in the order in
    which they were found; [p_no], [l_no] and [ext_lba_base]; the sectors
    read, the buffers never freed. *)
Record scan := Scan {
  sc_found : list (Z * part);
  sc_prims : Z; sc_logics : Z; sc_base : Z;
  sc_reads : Z; sc_left : Z
}.

Definition set_base (b : Z) (s : scan) : scan :=
  Scan (sc_found s) (sc_prims s) (sc_logics s) b (sc_reads s) (sc_left s).
Definition add_prim (p : part) (s : scan) : scan :=
  Scan (sc_found s ++ [(sc_prims s, p)]) (sc_prims s + 1) (sc_logics s) (sc_base s) (sc_reads s) (sc_left s).
Definition add_logic (p : part) (s : scan) : scan :=
  Scan (sc_found s ++ [(4 + sc_logics s, p)]) (sc_prims s) (sc_logics s + 1) (sc_base s) (sc_reads s) (sc_left s).
Definition count_read (s : scan) : scan :=
  Scan (sc_found s) (sc_prims s) (sc_logics s) (sc_base s) (sc_reads s + 1) (sc_left s).
Definition count_left (s : scan) : scan :=
  Scan (sc_found s) (sc_prims s) (sc_logics s) (sc_base s) (sc_reads s) (sc_left s + 1).

(** One entry of the table of the sector at [ext]; [sub] scans the sector of
    an extended partition.  [false]: the eighth logical partition ended the
    scan of this table.  No answer: a fourth primary partition (the assertion
    fails) or a ninth logical one (written behind the disk's structure). *)
Definition scan_one (sub : Z -> scan -> option scan) (ext : Z) (e : entry) (s : scan) : option (bool * scan) :=
  let p := Part (u32 (ext + e_start e)) (e_cnt e) in
  if decide (e_type e = 5) then
    pair true <$> (if decide (sc_base s <> 0) then sub (u32 (e_start e + sc_base s)) s
                   else sub (e_start e) (set_base (e_start e) s))
  else if decide (e_type e = 0) then Some (true, s)
  else if decide (ext = 0) then
    if decide (sc_prims s < 3) then Some (true, add_prim p s) else None
  else if decide (sc_logics s < 8) then Some (bool_decide (sc_logics s < 7), add_logic p s) else None.

(** The entries [es]. *)
Fixpoint scan_table (sub : Z -> scan -> option scan) (ext : Z) (es : list entry) (s : scan) :
    option (bool * scan) :=
  match es with
  | [] => Some (true, s)
  | e :: es => r ← scan_one sub ext e s; if (r.1 : bool) then scan_table sub ext es r.2 else Some r
  end.

(** The sector at [ext] and what its extended partitions lead to, [table]
    giving each sector's entries; no answer, too, where a sector lies beyond
    what the driver reads, or when the chain is longer than [depth]. *)
Fixpoint scan_disk (table : Z -> list entry) (depth : nat) (ext : Z) (s : scan) : option scan :=
  match depth with
  | O => None
  | S depth =>
      if decide (0 <= ext <= max_lba) then
        r ← scan_table (scan_disk table depth) ext (table ext) (count_read s);
        Some (if (r.1 : bool) then r.2 else count_left r.2)
      else None
  end.

(** The table of a sector of [w], word for word. *)
Definition entry_of (w : Z -> Z) (i : Z) : entry :=
  Entry (w (225 + 8 * i) mod 256) (w (227 + 8 * i) + 65536 * w (228 + 8 * i))
    (w (229 + 8 * i) + 65536 * w (230 + 8 * i)).
Definition table_of (w : Z -> Z) : list entry := entry_of w <$> [0; 1; 2; 3].

Lemma scan_one_reads sub ext e s b s' :
  (forall lba s s', sub lba s = Some s' -> sc_reads s <= sc_reads s') ->
  scan_one sub ext e s = Some (b, s') -> sc_reads s <= sc_reads s'.
Proof.
  intros Hsub. unfold scan_one. repeat case_decide; try done; try (by intros [= _ <-]).
  - destruct (sub _ s) as [s1|] eqn:E; simpl; [|done]. intros [= _ <-]. by apply Hsub in E.
  - destruct (sub _ _) as [s1|] eqn:E; simpl; [|done]. intros [= _ <-]. by apply Hsub in E.
Qed.

Lemma scan_table_reads sub ext es s b s' :
  (forall lba s s', sub lba s = Some s' -> sc_reads s <= sc_reads s') ->
  scan_table sub ext es s = Some (b, s') -> sc_reads s <= sc_reads s'.
Proof.
  intros Hsub. revert s. induction es as [|e es IH]; intros s; cbn [scan_table]; [by intros [= _ <-]|].
  destruct (scan_one sub ext e s) as [[b1 s1]|] eqn:E; simpl; [|done]. apply scan_one_reads in E; [|done].
  destruct b1; [intros ?%IH; lia|by intros [= _ <-]].
Qed.

Lemma scan_disk_reads table depth ext s s' :
  scan_disk table depth ext s = Some s' -> sc_reads s + 1 <= sc_reads s'.
Proof.
  revert ext s s'. induction depth as [|depth IH]; intros ext s s'; cbn [scan_disk]; [done|].
  case_decide; [|done]. destruct (scan_table _ _ _ _) as [[b s1]|] eqn:E; simpl; [|done].
  apply scan_table_reads in E; [|intros lba s2 s3 Hs%IH; lia]. simpl in E.
  intros [= <-]. destruct b; simpl; lia.
Qed.

(** ** The scan's memory *)
Section memory.
Context (ln : ide_link) (im : image) (fr : frame_addrs) (ffuel sfuel : nat).
(** The disk, its channel, its name, what [partition_list] held before. *)
Context (hd ch : Z) (dn : list Z) (xs : list Z).
(** The heap and the memory others leave alone. *)
Context (kd : Z) (M : mem_st) (P : Z -> Prop).
Local Abbreviation format := (lit im "%s%d").
Local Abbreviation hbyte := (heap_byte kd M).

(** The structure of slot [s] and its place in the list. *)
Definition part_addr (s : Z) : Z := prim_part hd 0 + 64 * s.
Definition part_tag (s : Z) : Z := part_addr s + 20.

(** What the scan writes: the arguments of [sprintf], the counters, the
    disk's structures, the list; what it reads besides: the format and the
    disk's name. *)
Definition args_byte (i : Z) : Prop := within (fr_args fr) 12 i.
Definition counter_byte (i : Z) : Prop :=
  within (v_p_no ln) 1 i \/ within (v_l_no ln) 1 i \/ within (v_ext_lba_base ln) 4 i.
Definition parts_byte (i : Z) : Prop := within (part_addr 0) (64 * 12) i.
Definition read_byte (i : Z) : Prop := within format 5 i \/ within hd 8 i.
Definition written (i : Z) : Prop :=
  args_byte i \/ counter_byte i \/ parts_byte i \/ node_byte ln xs i.

Record scan_place : Prop := {
  pl_args i : args_byte i -> ~ counter_byte i /\ ~ parts_byte i /\ ~ node_byte ln xs i;
  pl_counter i : counter_byte i -> ~ parts_byte i /\ ~ node_byte ln xs i;
  pl_parts i : parts_byte i -> ~ node_byte ln xs i;
  pl_counters : v_p_no ln <> v_l_no ln /\ ~ within (v_ext_lba_base ln) 4 (v_p_no ln) /\
    ~ within (v_ext_lba_base ln) 4 (v_l_no ln);
  pl_read i : read_byte i -> ~ written i;
  pl_heap i : written i \/ read_byte i -> ~ hbyte i;
  pl_disk i : written i -> ~ disk_byte hd ch i;
  pl_mine i : written i \/ read_byte i -> P i;
  pl_hd : 0 < hd < 4294967296 /\ part_addr 12 <= 4294967296;
  pl_name : (length dn <= 5)%nat
}.

(** Partition [p] in slot [s]: its fields, its name with the slot's number. *)
Record found_at (r : gmap Z Z) (s : Z) (p : part) : Prop := {
  fo_start : ld32 r (part_addr s + 8) = p_start p;
  fo_cnt : ld32 r (part_addr s + 12) = p_cnt p;
  fo_disk : ld32 r (part_addr s + 16) = hd;
  fo_name : cstr r (part_addr s) (dn ++ dec_text (s + 1))
}.

(** The slots in use. *)
Definition taken (s : scan) (i : Z) : Prop := 0 <= i < sc_prims s \/ 4 <= i < 4 + sc_logics s.
Definition found_tags (s : scan) : list Z := (fun x => part_tag x.1) <$> sc_found s.

(** Memory [r] holds the scan [s]: the counters count, the list has the
    partitions behind what it had before, each is in its slot, the names of
    the other slots are empty. *)
Record scan_mem (s : scan) (r : gmap Z Z) : Prop := {
  sm_range : 0 <= sc_prims s <= 4 /\ 0 <= sc_logics s <= 8;
  sm_prims : ld8 r (v_p_no ln) = sc_prims s;
  sm_logics : ld8 r (v_l_no ln) = sc_logics s;
  sm_base : ld32 r (v_ext_lba_base ln) = sc_base s;
  sm_list : list_at r (partition_list ln) (xs ++ found_tags s);
  sm_taken i p : (i, p) ∈ sc_found s -> taken s i;
  sm_found i p : (i, p) ∈ sc_found s -> found_at r i p;
  sm_free i a : 0 <= i < 12 -> ~ taken s i -> within (part_addr i) 8 a -> ld8 r a = 0;
  sm_format : cstr r format [37; 115; 37; 100];
  sm_dn : cstr r hd dn
}.

Context (HL : scan_place).

Lemma slot_part ext j :
  slot ln hd ext j = part_addr ((if decide (ext = 0) then 0 else 4) + j).
Proof.
  unfold slot, slots_of, part_addr. case_decide; cbn [sl_base]; unfold logic_part, prim_part, sizeof_partition; lia.
Qed.

(** A byte of the list now is one of the list before or of a taken slot's tag. *)
Lemma node_found (fs : list Z) i :
  node_byte ln (xs ++ (part_tag <$> fs)) i <->
  node_byte ln xs i \/ exists s, s ∈ fs /\ within (part_tag s) 8 i.
Proof.
  induction fs as [|s fs IH] using rev_ind.
  - rewrite app_nil_r. set_solver.
  - rewrite fmap_app, app_assoc. cbn [fmap list_fmap].
    transitivity (node_byte ln (xs ++ (part_tag <$> fs)) i \/ within (part_tag s) 8 i).
    + unfold node_byte. setoid_rewrite nodes_snoc. naive_solver.
    + rewrite IH. set_solver.
Qed.

Lemma node_scan s i : node_byte ln (xs ++ found_tags s) i <->
  node_byte ln xs i \/ exists x p, (x, p) ∈ sc_found s /\ within (part_tag x) 8 i.
Proof.
  unfold found_tags. replace ((fun x : Z * part => part_tag x.1) <$> sc_found s) with (part_tag <$> (sc_found s).*1)
    by (rewrite <- list_fmap_compose; done).
  rewrite node_found. setoid_rewrite list_elem_of_fmap. split.
  - intros [?|(x & ([x' p] & -> & Hp) & Hw)]; [by left|right]. by exists x', p.
  - intros [?|(x & p & Hp & Hw)]; [by left|right]. exists x. split; [|done]. by exists (x, p).
Qed.

Lemma taken_part s i : 0 <= sc_prims s <= 4 /\ 0 <= sc_logics s <= 8 -> taken s i -> 0 <= i < 12.
Proof. unfold taken. lia. Qed.

Lemma node_written s r i : scan_mem s r -> node_byte ln (xs ++ found_tags s) i ->
  node_byte ln xs i \/ exists x, taken s x /\ within (part_tag x) 8 i /\ parts_byte i.
Proof.
  intros HM [?|(x & p & Hp & Hw)]%node_scan; [by left|right].
  pose proof (sm_taken _ _ HM x p Hp) as Ht. pose proof (taken_part _ _ (sm_range _ _ HM) Ht).
  exists x. split_and!; [done..|]. unfold parts_byte, part_tag, part_addr, within in *. lia.
Qed.

Lemma found_agree (Q : Z -> Prop) r r' i p : agree Q r r' -> (forall a, within (part_addr i) 20 a -> Q a) ->
  0 <= i < 12 -> found_at r i p -> found_at r' i p.
Proof.
  intros Hag HQ Hi [F1 F2 F3 F4]. pose proof (pl_name HL). pose proof (dec_text_small (i + 1) ltac:(lia)).
  unfold within in HQ. split.
  - rewrite <- F1. eapply agree_ld32; [exact Hag|]. intros a Ha. apply HQ. lia.
  - rewrite <- F2. eapply agree_ld32; [exact Hag|]. intros a Ha. apply HQ. lia.
  - rewrite <- F3. eapply agree_ld32; [exact Hag|]. intros a Ha. apply HQ. lia.
  - eapply cstr_agree; [|exact F4]. eapply agree_weaken; [|exact Hag]. intros a Ha. apply HQ.
    rewrite length_app in Ha. lia.
Qed.

(** ** A table in the heap, as IdeParts sees it *)
Section table.
Context (ext tb : Z) (Htb : forall i, within tb 64 i -> hbyte i).
Local Abbreviation SL := (slots_of ln hd ext).

(** The slots of this table's kind: the first, how many are taken. *)
Definition kind_base : Z := if decide (ext = 0) then 0 else 4.
Definition kind_count (s : scan) : Z := if decide (ext = 0) then sc_prims s else sc_logics s.

Lemma free_part s r i : scan_mem s r -> kind_count s < sl_max SL ->
  free_slot ln hd ext (kind_count s) i ->
  parts_byte i /\ exists x, 0 <= x < 12 /\ ~ taken s x /\ within (part_addr x) 64 i.
Proof.
  intros HM Hj Hi. pose proof (sm_range _ _ HM) as Hr. unfold free_slot in Hi. rewrite slot_part in Hi.
  unfold kind_count, slots_of, taken, parts_byte, part_addr, prim_part, sizeof_partition, within in *.
  set (x := (i - (hd + 16)) / 64).
  assert (Hx : 64 * x <= i - (hd + 16) < 64 * x + 64) by (unfold x; Z.div_mod_to_equations; lia).
  case_decide; cbn [sl_max] in *; (split; [lia|]); exists x; lia.
Qed.

Lemma place_layout s r : scan_mem s r -> kind_count s < sl_max SL ->
  IdeParts.layout ln im fr hd ext tb dn (kind_count s) (xs ++ found_tags s).
Proof.
  intros HM Hj. pose proof (sm_range _ _ HM) as Hr.
  assert (Hfix : forall i, written i -> ~ fixed im hd tb i).
  { intros i Hi [Hb|Hf]; [by apply (pl_heap HL i (or_introl Hi)), Htb|by apply (pl_read HL i)]. }
  assert (Hnode : forall i, node_byte ln (xs ++ found_tags s) i -> node_byte ln xs i \/ parts_byte i).
  { intros i [?|(x & _ & _ & ?)]%(node_written s r); [by left|by right|done]. }
  assert (Hvar : forall i, within (sl_var SL) 1 i -> counter_byte i).
  { intros i. unfold slots_of, counter_byte. case_decide; simpl; tauto. }
  split.
  - intros i Hi. destruct (pl_args HL i Hi) as (H1 & H2 & H3). split_and!; [by apply Hfix; left|by intros ?%Hvar| |].
    + by intros [? _]%(free_part s r).
    + by intros [?|?]%Hnode.
  - intros i Hi%Hvar. destruct (pl_counter HL i Hi) as (H2 & H3). split_and!; [by apply Hfix; right; left| |].
    + by intros [? _]%(free_part s r).
    + by intros [?|?]%Hnode.
  - intros i Hi. destruct (free_part s r i HM Hj Hi) as (Hp & x & Hx & Hnt & Hw).
    split; [by apply Hfix; do 2 right; left|].
    intros [Hn|(y & Ht & Hy & _)]%(node_written s r); [by apply (pl_parts HL i)| |done].
    assert (x = y) by (unfold part_tag, part_addr, within in *; lia). by subst y.
  - intros i [?|?]%Hnode; apply Hfix; unfold written; tauto.
  - apply (pl_hd HL).
  - pose proof (pl_hd HL). unfold slots_of, part_addr, logic_part, prim_part, sizeof_partition in *.
    case_decide; simpl; lia.
  - apply (pl_name HL).
  - unfold kind_count in *. case_decide; lia.
Qed.

Lemma place_ready s r : scan_mem s r ->
  IdeParts.ready ln im hd ext dn (kind_count s) (xs ++ found_tags s) r.
Proof.
  intros HM. pose proof (sm_range _ _ HM) as Hr. split; [apply HM|apply HM| |apply HM|].
  - unfold kind_count, slots_of. case_decide; apply HM.
  - intros i a Hi Ha. rewrite slot_part in Ha. apply (sm_free _ _ HM (kind_base + i)); [| |exact Ha];
      unfold kind_base, kind_count, slots_of, taken in *; case_decide; simpl in *; lia.
Qed.

(** ** One partition *)

Definition add_part (p : part) (s : scan) : scan := if decide (ext = 0) then add_prim p s else add_logic p s.

Lemma add_part_fields p s :
  sc_found (add_part p s) = sc_found s ++ [(kind_base + kind_count s, p)] /\ sc_base (add_part p s) = sc_base s.
Proof. unfold add_part, kind_base, kind_count. by case_decide. Qed.

Lemma taken_add p s i : 0 <= kind_count s ->
  (ext = 0 -> 0 <= sc_logics s) -> taken (add_part p s) i <-> taken s i \/ i = kind_base + kind_count s.
Proof. unfold taken, add_part, kind_base, kind_count. case_decide; simpl; lia. Qed.

Ltac regions i :=
  pose proof (pl_args HL i); pose proof (pl_counter HL i); pose proof (pl_parts HL i);
  unfold args_byte in *; tauto.

(** What recording a partition writes. *)
Local Abbreviation touched s := (touched ln fr hd ext (kind_count s) (xs ++ found_tags s) 1).

Lemma touched_written s r i : scan_mem s r -> kind_count s < sl_max SL -> touched s i -> written i.
Proof.
  intros HM Hj [?|[Hv|[Hs|[?|(x & _ & _ & ?)]%(node_written s r)]]]; [by left| | |by do 3 right|by do 2 right; left|done].
  - right; left. unfold slots_of, counter_byte in *. case_decide; simpl in *; tauto.
  - do 2 right; left. apply (free_part s r); [done|done|]. unfold free_slot, within in *. lia.
Qed.

Lemma counter_kept s r i : scan_mem s r -> kind_count s < sl_max SL ->
  counter_byte i -> ~ within (sl_var SL) 1 i -> ~ touched s i.
Proof.
  intros HM Hj Hc Hv [?|[?|[Hs|[?|(x & _ & _ & ?)]%(node_written s r)]]]; try done; try (regions i).
  destruct (free_part s r i HM Hj) as [? _]; [unfold free_slot, within in *; lia|]. regions i.
Qed.

Lemma slot_untouched s r y i : scan_mem s r -> kind_count s < sl_max SL ->
  0 <= y < 12 -> y <> kind_base + kind_count s -> within (part_addr y) 20 i -> ~ touched s i.
Proof.
  intros HM Hj Hy Hne Hi.
  assert (Hp : parts_byte i) by (unfold parts_byte, part_addr, within in *; lia).
  intros [?|[Hv|[Hs|[?|(x & _ & Hx & _)]%(node_written s r)]]]; try done; try (regions i).
  - assert (Hc : counter_byte i) by (unfold slots_of, counter_byte in *; case_decide; simpl in *; tauto).
    regions i.
  - rewrite slot_part in Hs. unfold kind_base, part_addr, within in *. case_decide; lia.
  - unfold part_tag, part_addr, within in *. lia.
Qed.

Lemma recorded_scan s r e r' :
  let p := Part (u32 (ext + e_start e)) (e_cnt e) in
  scan_mem s r -> kind_count s < sl_max SL ->
  recorded ln fr hd ext dn (kind_count s) (xs ++ found_tags s) r [e] r' -> scan_mem (add_part p s) r'.
Proof.
  intros p HM Hj [R1 R2 R3 R4]. pose proof (sm_range _ _ HM) as Hr.
  destruct (add_part_fields p s) as [Ef Eb]. simpl length in *.
  assert (Hj0 : 0 <= kind_count s) by (unfold kind_count; case_decide; lia).
  assert (Hta : forall i, taken (add_part p s) i <-> taken s i \/ i = kind_base + kind_count s)
    by (intros i; apply taken_add; lia).
  assert (Hvar : forall v, counter_byte v -> v <> sl_var SL -> ld8 r' v = ld8 r v).
  { intros v Hv Hne. apply R4. apply (counter_kept s r v); [done..|]. unfold within. lia. }
  assert (Hread : agree read_byte r r').
  { eapply agree_weaken; [|exact R4]. intros i Hi Ht. by apply (pl_read HL i Hi), (touched_written s r). }
  assert (Hold : forall i, taken s i -> i <> kind_base + kind_count s).
  { intros i Hi ->. revert Hi. unfold taken, kind_base, kind_count, slots_of in *. case_decide; simpl in *; lia. }
  destruct (pl_counters HL) as (Hc1 & Hc2 & Hc3).
  split.
  - unfold add_part, kind_count, slots_of in *. case_decide; simpl in *; lia.
  - unfold add_part, kind_count, slots_of in *. case_decide; simpl in *; [done|].
    rewrite (Hvar (v_p_no ln)) by (done || left; unfold within; lia). apply HM.
  - unfold add_part, kind_count, slots_of in *. case_decide; simpl in *; [|done].
    rewrite (Hvar (v_l_no ln)) by (done || right; left; unfold within; lia). apply HM.
  - rewrite Eb, <- (sm_base _ _ HM). eapply agree_ld32; [exact R4|]. intros i Hi.
    apply (counter_kept s r i); [done|done|right; right; unfold within; lia|].
    unfold slots_of, within in *. case_decide; simpl; lia.
  - unfold found_tags. rewrite Ef, fmap_app. cbn [fmap list_fmap fst]. rewrite app_assoc.
    rewrite tags_S in R2. unfold IdeParts.tag in R2. rewrite Z.add_0_r, slot_part in R2. exact R2.
  - rewrite Ef. intros i q [Hi|[= -> ->]%list_elem_of_singleton]%elem_of_app; apply Hta; [left|by right].
    by apply (sm_taken _ _ HM i q).
  - rewrite Ef. intros i q [Hi|[= -> ->]%list_elem_of_singleton]%elem_of_app.
    + pose proof (sm_taken _ _ HM i q Hi) as Ht. pose proof (taken_part _ _ Hr Ht).
      eapply (found_agree _ r r' i q R4); [|done|by apply HM].
      intros a Ha. apply (slot_untouched s r i); [done..|by apply Hold|done].
    + destruct (R3 0%nat e eq_refl) as [P1 P2 P3 P4]. rewrite Z.add_0_r, slot_part in *. fold kind_base in *.
      split; [done..|]. replace (kind_base + kind_count s + 1) with (sl_first SL + kind_count s); [done|].
      unfold kind_base, slots_of. case_decide; simpl; lia.
  - intros i a Hi Hn Ha. rewrite Hta in Hn. rewrite <- (sm_free _ _ HM i a) by tauto. apply R4.
    apply (slot_untouched s r i); [done|done|done|tauto|]. unfold within in *. lia.
  - eapply cstr_agree; [|apply (sm_format _ _ HM)]. eapply agree_weaken; [|exact Hread].
    intros i Hi. left. unfold within. simpl in Hi. lia.
  - eapply cstr_agree; [|apply (sm_dn _ _ HM)]. eapply agree_weaken; [|exact Hread].
    intros i Hi. right. unfold within. pose proof (pl_name HL). lia.
Qed.
End table.

(** Other memory with the structures, the list, the format and the name, and
    counters of its own. *)
Lemma scan_mem_move s s' r r' :
  agree (fun i => parts_byte i \/ node_byte ln xs i \/ read_byte i) r r' -> scan_mem s r ->
  sc_found s' = sc_found s -> sc_prims s' = sc_prims s -> sc_logics s' = sc_logics s ->
  ld8 r' (v_p_no ln) = sc_prims s -> ld8 r' (v_l_no ln) = sc_logics s ->
  ld32 r' (v_ext_lba_base ln) = sc_base s' -> scan_mem s' r'.
Proof.
  intros Hag HM Ef Ep El Hp Hl Hb. pose proof (sm_range _ _ HM) as Hr.
  assert (Ht : forall i, taken s' i <-> taken s i) by (unfold taken; by rewrite Ep, El).
  assert (Hpart : forall i a, 0 <= i < 12 -> within (part_addr i) 20 a -> parts_byte a).
  { unfold parts_byte, part_addr, within. lia. }
  split; rewrite ?Ef, ?Ep, ?El; try done.
  - unfold found_tags. rewrite Ef. fold (found_tags s).
    eapply list_at_agree; [|apply HM]. eapply agree_weaken; [|exact Hag]. intros i Hi%in_nodes.
    apply (node_written s r) in Hi as [?|(x & _ & _ & ?)]; tauto.
  - intros i p Hi. apply Ht. by apply (sm_taken _ _ HM i p).
  - intros i p Hi. pose proof (taken_part _ _ Hr (sm_taken _ _ HM i p Hi)).
    eapply (found_agree _ r); [exact Hag|intros a Ha; left; by apply (Hpart i)|done|by apply HM].
  - intros i a Hi Hn Ha. rewrite Ht in Hn. rewrite <- (sm_free _ _ HM i a Hi Hn Ha). apply Hag. left.
    apply (Hpart i); [done|]. unfold within in *. lia.
  - eapply cstr_agree; [|apply (sm_format _ _ HM)]. eapply agree_weaken; [|exact Hag].
    intros i Hi. do 2 right. left. unfold within. simpl in Hi. lia.
  - eapply cstr_agree; [|apply (sm_dn _ _ HM)]. eapply agree_weaken; [|exact Hag].
    intros i Hi. do 2 right. right. unfold within. pose proof (pl_name HL). lia.
Qed.

Lemma scan_mem_agree s r r' :
  agree (fun i => written i \/ read_byte i) r r' -> scan_mem s r -> scan_mem s r'.
Proof.
  intros Hag HM. assert (Hc : forall i, counter_byte i -> written i \/ read_byte i) by (unfold written; tauto).
  apply (scan_mem_move s s r r'); try done.
  - eapply agree_weaken; [|exact Hag]. intros i. unfold written. tauto.
  - rewrite <- (sm_prims _ _ HM). apply Hag, Hc. left. unfold within. lia.
  - rewrite <- (sm_logics _ _ HM). apply Hag, Hc. right; left. unfold within. lia.
  - rewrite <- (sm_base _ _ HM). eapply agree_ld32; [exact Hag|]. intros i Hi. apply Hc. do 2 right.
    unfold within. lia.
Qed.

(** The two counts are not in memory. *)
Lemma scan_mem_counts s r :
  (scan_mem s r -> scan_mem (count_read s) r) /\ (scan_mem s r -> scan_mem (count_left s) r).
Proof. by split; intros [H1 H2 H3 H4 H5 H6 H7 H8 H9 H10]; split. Qed.

(** [ext_lba_base] is set. *)
Lemma scan_mem_base s r b : 0 <= b < 4294967296 -> scan_mem s r ->
  scan_mem (set_base b s) (st32 r (v_ext_lba_base ln) b).
Proof.
  intros Hb HM. destruct (pl_counters HL) as (_ & Hc2 & Hc3).
  assert (Hag : agree (fun i => ~ within (v_ext_lba_base ln) 4 i) r (st32 r (v_ext_lba_base ln) b)).
  { apply st32_agree. unfold within. tauto. }
  apply (scan_mem_move s _ r); try done.
  - eapply agree_weaken; [|exact Hag]. intros i Hi Hw.
    assert (Hc : counter_byte i) by (unfold counter_byte; tauto).
    pose proof (pl_counter HL i Hc). pose proof (pl_read HL i). unfold written in *. tauto.
  - rewrite <- (sm_prims _ _ HM). by apply Hag.
  - rewrite <- (sm_logics _ _ HM). by apply Hag.
  - rewrite ld32_st32_eq. by apply u32_id.
Qed.
End memory.

Lemma table_agree (Q : Z -> Prop) r r' p es :
  agree Q r r' -> (forall i, within p (16 * Z.of_nat (length es)) i -> Q i) -> table_at r p es -> table_at r' p es.
Proof.
  intros Hag. revert p. induction es as [|e es IH]; intros p HQ Ht; [done|]. destruct Ht as [(E1 & E2 & E3) Ht].
  simpl length in HQ. unfold within in HQ. split.
  - split_and!; [rewrite <- E1; apply Hag, HQ; lia|rewrite <- E2|rewrite <- E3];
      (eapply agree_ld32; [exact Hag|]); intros i Hi; apply HQ; lia.
  - apply IH; [|done]. intros i Hi. apply HQ. unfold within in Hi. lia.
Qed.

(** A word as two half words. *)
Lemma ld32_words r a : ld32 r a = ld16 r a + 65536 * ld16 r (a + 2).
Proof.
  unfold ld32, ld16. replace (a + 2 + 1) with (a + 3) by lia. lia.
Qed.

(** A sector's words in memory hold its table. *)
Lemma sector_table (w : Z -> Z) r x :
  (forall i, 0 <= i < 256 -> ld16 r (x + 2 * i) = w i) -> table_at r (x + 446) (table_of w).
Proof.
  intros Hw. assert (He : forall i p, 0 <= i < 4 -> p = x + 446 + 16 * i -> entry_at r p (entry_of w i)).
  { intros i p Hi ->. unfold entry_at, entry_of. cbn [e_type e_start e_cnt]. rewrite <- !Hw by lia. split_and!.
    - unfold ld16. replace (x + 2 * (225 + 8 * i)) with (x + 446 + 16 * i + 4) by lia.
      pose proof (ld8_range r (x + 446 + 16 * i + 4)). rewrite (Z.mul_comm 256 _), Z_mod_plus_full.
      symmetry. by apply Z.mod_small.
    - rewrite ld32_words. f_equal; [|f_equal]; f_equal; lia.
    - rewrite ld32_words. f_equal; [|f_equal]; f_equal; lia. }
  unfold table_of. cbn [fmap list_fmap table_at]. split_and!; [apply He; lia..|done].
Qed.

(** ** The scan *)
Section scan_runs.
Context (hw : bus) (pb : Z) (a0 : ata) (ln : ide_link) (hd ch dev t : Z) (P : Z -> Prop).
Context (kd : Z) (M : mem_st) (im : image) (fr : frame_addrs) (dn xs : list Z).
Context (HU : channel_use hw pb a0 hd ch t P heap_kept) (HP : heap_place hd ch P kd M).
Context (HL : scan_place ln im fr hd ch dn xs kd M P).
(** The words of the drives, and fuel. *)
Context (words : Z -> Z -> Z) (lk ffuel sfuel hfuel lfuel : nat).
Context (Hff : (4 < ffuel)%nat) (Hsf : (7 < sfuel)%nat) (Hhf : (256 <= hfuel)%nat).
Context (Hlf : (255 <= lfuel)%nat) (Hlf' : 255 * heap_pages M + 1 < Z.of_nat lfuel).
Local Abbreviation E := (absent pb a0 ln ch t P heap_kept).
Local Abbreviation hlive := (live (heap_base M)).
Local Abbreviation hbyte := (heap_byte kd M).
Local Abbreviation ubyte := (user_byte kd M).
Local Abbreviation written := (written ln fr hd xs).
Local Abbreviation scan_mem := (scan_mem ln im hd dn xs).
Local Abbreviation idle := (world pb a0 ln hd ch dev t P kd M).

(** The table in sector [lba] of the drive. *)
Definition drive_table (lba : Z) : list entry := table_of (fun i => u16 (words dev (256 * lba + i))).

(** In the middle of a scan: [s] has been found, the heap is [G], [m] more
    pages can be had. *)
Record scanning (G : gheap) (s : scan) (m : Z) (k : kst) : Prop := {
  sg_world : exists a, a_words a = words /\ idle a G m (Lock 0 0) (Sema 1 []) k;
  sg_mem : scan_mem s (ram (km k))
}.

(** Since [k] with the heap [G] the blocks of [lost] have been taken, and no
    private memory but what the scan writes has changed. *)
Record since (G : gheap) (k : kst) (lost : list (Z * Z)) (G' : gheap) (k' : kst) : Prop := {
  si_live y q : hlive G' y q <-> hlive G y q \/ (y, q) ∈ lost;
  si_fresh y q q' : (y, q) ∈ lost -> ~ hlive G y q';
  si_nodup : NoDup lost.*1;
  si_mem : agree (fun i => P i /\ ubyte G i /\ ~ written i) (ram (km k)) (ram (km k'))
}.

(** From [s] in [k] to [s'] in [k']. *)
Definition scanned (s s' : scan) (m : Z) (G : gheap) (k k' : kst) : Prop :=
  exists G' lost, scanning G' s' m k' /\ since G k lost G' k' /\
    Z.of_nat (length lost) = sc_left s' - sc_left s.

Lemma ubyte_more G G' i : (forall y q, hlive G y q -> hlive G' y q) -> ubyte G i -> ubyte G' i.
Proof. intros Hl [[(y & q & Hy & Hi)|Ho] Hb]; (split; [|done]); [left|by right]. exists y, q. auto. Qed.

Lemma since_trans G k l1 G1 k1 l2 G2 k2 :
  since G k l1 G1 k1 -> since G1 k1 l2 G2 k2 -> since G k (l1 ++ l2) G2 k2.
Proof.
  intros [A1 A2 A3 A4] [B1 B2 B3 B4]. split.
  - intros y q. rewrite B1, A1, elem_of_app. tauto.
  - intros y q q' [Hy|Hy]%elem_of_app; [by apply A2 with q|]. intros Hl. apply (B2 y q q' Hy), A1. by left.
  - rewrite fmap_app. apply NoDup_app. split; [done|]. split; [|done]. intros y Hy1 Hy2.
    apply list_elem_of_fmap in Hy1 as ([y1 q1] & -> & H1), Hy2 as ([y2 q2] & E2 & H2). simpl in *. subst y2.
    apply (B2 y1 q2 q1 H2), A1. by right.
  - eapply agree_trans; [exact A4|]. eapply agree_weaken; [|exact B4]. intros i (Hp & Hu & Hw).
    split_and!; [done| |done]. eapply ubyte_more; [|exact Hu]. intros y q Hy. apply A1. by left.
Qed.

Lemma since_refl G k r : agree (fun i => ~ written i) (ram (km k)) r -> since G k [] G (kwith_ram (fun _ => r) k).
Proof.
  intros Hag. split; [set_solver|set_solver|constructor|]. eapply agree_weaken; [|exact Hag]. tauto.
Qed.

Lemma scanned_then s s1 s2 m G l1 G1 k k1 k2 :
  since G k l1 G1 k1 -> Z.of_nat (length l1) = sc_left s1 - sc_left s -> scanned s1 s2 m G1 k1 k2 ->
  scanned s s2 m G k k2.
Proof.
  intros H1 Hl1 (G2 & l2 & H2 & Hs2 & Hl2). exists G2, (l1 ++ l2). split; [done|].
  split; [by eapply since_trans|]. rewrite length_app. lia.
Qed.

(** The scan writes. *)
Lemma scanning_write G s s' m k r :
  scanning G s m k -> scan_mem s' r -> agree (fun i => ~ written i) (ram (km k)) r ->
  scanning G s' m (kwith_ram (fun _ => r) k).
Proof.
  intros [(a & Ha & Hw) _] HM Hag. split; [|done]. exists a. split; [done|]. apply world_write; [done|].
  eapply agree_weaken; [|exact Hag]. intros i [Hu|Hd] Hi.
  - apply (pl_heap _ _ _ _ _ _ _ _ _ _ HL i); [by left|]. by apply (own_byte kd M G).
  - by apply (pl_disk _ _ _ _ _ _ _ _ _ _ HL i).
Qed.

(** [f] does what [sub] says. *)
Definition sub_ok (sub : Z -> scan -> option scan) (f : Z -> K unit) : Prop :=
  forall lba s s' G m k, sub lba s = Some s' -> 0 <= m -> scanning G s (sc_reads s' - sc_reads s + m) k ->
    runs E (fun _ k' => scanned s s' m G k k') (f lba k).

Section entries.
Context (sub : Z -> scan -> option scan) (f : Z -> K unit) (Hsub : sub_ok sub f).
Context (Hreads : forall lba s s', sub lba s = Some s' -> sc_reads s <= sc_reads s').
(** The sector and the block its table is in. *)
Context (ext x n : Z) (Hn : 512 <= n).
Local Abbreviation scan_entry := (scan_entry ln im fr ffuel sfuel f hd ext).

Lemma used_runs s G m k p e :
  scanning G s m k -> hlive G x n -> entry_at (ram (km k)) p e -> e_type e <> 0 -> e_type e <> 5 ->
  kind_count ext s < sl_max (slots_of ln hd ext) ->
  exists r', let s' := add_part ext (Part (u32 (ext + e_start e)) (e_cnt e)) s in
    scanning G s' m (kwith_ram (fun _ => r') k) /\ agree (fun i => ~ written i) (ram (km k)) r' /\
    scan_entry p k = entry_result ln hd ext (kind_count ext s) 1 (kwith_ram (fun _ => r') k).
Proof.
  intros H Hl He Hu Hx Hj. destruct (sg_world _ _ _ _ H) as (a & Ha & Hw). pose proof (sg_mem _ _ _ _ H) as HM.
  assert (Htb : forall i, within x 64 i -> hbyte i).
  { intros i Hi. eapply (block_bytes pb a0 ln hd ch dev t P kd M HP); [exact Hw|exact Hl|]. unfold within in Hi. lia. }
  pose proof (place_layout ln im fr hd ch dn xs kd M P HL ext x Htb s _ HM Hj) as HLy.
  pose proof (place_ready ln im hd dn xs ext s _ HM) as HR.
  assert (H0 : recorded ln fr hd ext dn (kind_count ext s) (xs ++ found_tags hd s) (ram (km k)) [] (ram (km k)))
    by (by eapply record_zero).
  destruct (used_entry_run _ _ _ _ _ _ _ _ _ _ _ HLy Hff Hsf f _ [] k p e HR H0)
    as (r' & HC & Hr); [simpl; lia|done..|].
  assert (Hag : agree (fun i => ~ written i) (ram (km k)) r').
  { eapply agree_weaken; [|exact (rc_frame _ _ _ _ _ _ _ _ _ _ HC)]. intros i Hi Ht. apply Hi.
    by apply (touched_written ln im fr hd ch dn xs kd M P HL ext s (ram (km k)) i HM Hj). }
  exists r'. split_and!; [|done|done]. eapply scanning_write; [exact H| |exact Hag].
  by apply (recorded_scan ln im fr hd ch dn xs kd M P HL ext s (ram (km k)) e r').
Qed.

Lemma add_part_reads p s : sc_reads (add_part ext p s) = sc_reads s /\ sc_left (add_part ext p s) = sc_left s.
Proof. unfold add_part. by case_decide. Qed.

Lemma scanned_write s s' G m k r :
  scanning G s' m (kwith_ram (fun _ => r) k) -> agree (fun i => ~ written i) (ram (km k)) r ->
  sc_left s' = sc_left s -> scanned s s' m G k (kwith_ram (fun _ => r) k).
Proof.
  intros H Hag El. exists G, []. split; [done|]. split; [by apply since_refl|]. rewrite El. simpl. lia.
Qed.

Lemma extended_runs s s' G m k p e :
  (if decide (sc_base s <> 0) then sub (u32 (e_start e + sc_base s)) s
   else sub (e_start e) (set_base (e_start e) s)) = Some s' ->
  0 <= m -> scanning G s (sc_reads s' - sc_reads s + m) k -> entry_at (ram (km k)) p e -> e_type e = 5 ->
  runs E (fun b' k' => b' = true /\ scanned s s' m G k k') (scan_entry p k).
Proof.
  intros Hs Hm H (E1 & E2 & E3) Hx. pose proof (sg_mem _ _ _ _ H) as HM.
  unfold scan_entry. kstep. kstep. kstep. rewrite !set_km_id, E1, E2, E3. rewrite decide_True by done.
  kstep. rewrite set_km_id, (sm_base _ _ _ _ _ _ _ HM). case_decide as Hb.
  - eapply runs_bind; [by apply (Hsub _ s s')|]. intros [] k' Hk'. constructor. by split.
  - assert (Hstart : 0 <= e_start e < 4294967296) by (rewrite <- E2; apply ld32_range).
    set (r' := st32 (ram (km k)) (v_ext_lba_base ln) (e_start e)).
    assert (Hag : agree (fun i => ~ written i) (ram (km k)) r').
    { apply st32_agree. intros i Hi Hw. apply Hi. right; left. right; right. done. }
    assert (H1 : scanning G (set_base (e_start e) s) (sc_reads s' - sc_reads (set_base (e_start e) s) + m)
                   (kwith_ram (fun _ => r') k)).
    { eapply scanning_write; [exact H| |exact Hag]. by apply (scan_mem_base _ _ _ _ _ _ _ _ _ _ HL). }
    apply (runs_bind _ _ _ (fun _ k' => scanned (set_base (e_start e) s) s' m G (kwith_ram (fun _ => r') k) k')).
    { eapply runs_step; [apply on_mach_store32|]. by apply (Hsub _ _ s'). }
    intros [] k' Hk'. constructor. split; [done|].
    eapply scanned_then; [apply (since_refl G k r' Hag)| |exact Hk']. simpl. lia.
Qed.

Lemma entry_runs s b s' G m k p e :
  scan_one sub ext e s = Some (b, s') -> 0 <= m -> scanning G s (sc_reads s' - sc_reads s + m) k ->
  hlive G x n -> entry_at (ram (km k)) p e ->
  runs E (fun b' k' => b' = b /\ scanned s s' m G k k') (scan_entry p k).
Proof.
  intros Hs Hm H Hl He. unfold scan_one in Hs. case_decide as Hx.
  { destruct (if decide (sc_base s <> 0) then _ else _) as [s1|] eqn:E1; [|done]. simpl in Hs.
    injection Hs as <- <-. by apply (extended_runs s s1 G m k p e). }
  case_decide as Hu.
  { injection Hs as <- <-. rewrite (unused_entry_run _ _ _ _ _ _ _ _ k p e He Hu). constructor. split; [done|].
    rewrite Z.sub_diag in H. exists G, []. split; [done|]. split; [|simpl; lia].
    split; [set_solver|set_solver|constructor|done]. }
  assert (Hadd : s' = add_part ext (Part (u32 (ext + e_start e)) (e_cnt e)) s /\
            kind_count ext s < sl_max (slots_of ln hd ext) /\
            b = bool_decide (kind_count ext s + 1 < sl_max (slots_of ln hd ext)) /\ (ext = 0 -> b = true)).
  { unfold add_part, kind_count, slots_of. pose proof (sm_range _ _ _ _ _ _ _ (sg_mem _ _ _ _ H)) as Hr.
    destruct (decide (ext = 0)) as [E0|E0]; cbn [sl_max].
    - destruct (decide (sc_prims s < 3)) as [Hp|]; [|done]. injection Hs as <- <-.
      split_and!; [done|lia|by rewrite bool_decide_true by lia|done].
    - destruct (decide (sc_logics s < 8)) as [Hp|]; [|done]. injection Hs as <- <-.
      split_and!; [done|lia|apply bool_decide_ext; lia|done]. }
  destruct Hadd as (-> & Hj & Hb & Hb0).
  destruct (add_part_reads (Part (u32 (ext + e_start e)) (e_cnt e)) s) as [Er El].
  rewrite Er, Z.sub_diag in H.
  destruct (used_runs s G m k p e H Hl He Hu Hx Hj) as (r' & Hr' & Hag & ->).
  assert (Hpost : scanned s (add_part ext (Part (u32 (ext + e_start e)) (e_cnt e)) s) m G k (kwith_ram (fun _ => r') k))
    by (by apply scanned_write).
  unfold entry_result. change (Z.of_nat 1) with 1. destruct (decide (kind_count ext s + 1 < _)) as [Hj1|Hj1].
  - rewrite bool_decide_true in Hb by done. constructor. split; [congruence|done].
  - rewrite bool_decide_false in Hb by done. rewrite decide_False by (intros E0; specialize (Hb0 E0); congruence).
    constructor. split; [congruence|done].
Qed.

(** A table in a block stays as it is while the scan goes on. *)
Lemma table_since G s m k lost G' k' p es :
  scanning G s m k -> hlive G x n -> since G k lost G' k' ->
  (forall i, within p (16 * Z.of_nat (length es)) i -> within x 512 i) ->
  table_at (ram (km k)) p es -> table_at (ram (km k')) p es.
Proof.
  intros H Hl Hs Hp. destruct (sg_world _ _ _ _ H) as (a & _ & Hw).
  eapply table_agree; [exact (si_mem _ _ _ _ _ Hs)|]. intros i Hi%Hp.
  destruct (block_bytes pb a0 ln hd ch dev t P kd M HP _ _ _ _ _ _ x n i Hw Hl) as (Hu & HPi & _ & _ & Hh);
    [unfold within in Hi; lia|].
  split_and!; [done..|]. intros Hwr. by apply (pl_heap _ _ _ _ _ _ _ _ _ _ HL i (or_introl Hwr)).
Qed.

Lemma table_runs es : forall s b s' G m k p,
  scan_table sub ext es s = Some (b, s') -> 0 <= m -> scanning G s (sc_reads s' - sc_reads s + m) k ->
  hlive G x n -> (forall i, within p (16 * Z.of_nat (length es)) i -> within x 512 i) ->
  table_at (ram (km k)) p es ->
  runs E (fun b' k' => b' = b /\ scanned s s' m G k k')
    (scan_entries ln im fr ffuel sfuel f (length es) hd ext p k).
Proof.
  induction es as [|e es IH]; intros s b s' G m k p Hs Hm H Hl Hp Ht; cbn [scan_table length] in Hs |- *.
  { injection Hs as <- <-. constructor. split; [done|]. rewrite Z.sub_diag in H.
    exists G, []. split; [done|]. split; [|simpl; lia]. split; [set_solver|set_solver|constructor|done]. }
  destruct (scan_one sub ext e s) as [[b1 s1]|] eqn:E1; simpl in Hs; [|done].
  pose proof (scan_one_reads _ _ _ _ _ _ Hreads E1) as Hr1.
  assert (Hr2 : sc_reads s1 <= sc_reads s').
  { destruct b1; [|by injection Hs as _ ->]. by eapply scan_table_reads. }
  destruct Ht as [He Ht]. rewrite scan_entries_S. eapply runs_bind.
  { apply (entry_runs s b1 s1 G (sc_reads s' - sc_reads s1 + m) k p e E1); [lia| |done|done].
    replace (sc_reads s1 - sc_reads s + (sc_reads s' - sc_reads s1 + m)) with (sc_reads s' - sc_reads s + m) by lia. done. }
  intros b' k1 (-> & G1 & l1 & H1 & Hs1 & Hl1). destruct b1.
  2:{ injection Hs as <- <-. constructor. split; [done|]. rewrite Z.sub_diag in H1. by exists G1, l1. }
  assert (Hp' : forall i, within (p + 16) (16 * Z.of_nat (length es)) i -> within x 512 i).
  { intros i Hi. apply Hp. simpl length. unfold within in *. lia. }
  eapply runs_conseq; [eapply (IH s1 b s' G1 m k1 (p + 16) Hs Hm H1); [|exact Hp'|]|].
  - apply (si_live _ _ _ _ _ Hs1). by left.
  - eapply table_since; [exact H|exact Hl|exact Hs1|exact Hp'|exact Ht].
  - intros b' k2 [-> H2]. split; [done|]. by eapply scanned_then.
Qed.
End entries.


(** ** One sector *)

(** A block taken from [G] holds none of the bytes in use. *)
Lemma block_apart a G G1 m L S k1 x n i : idle a G1 m L S k1 -> grown M G x n G1 -> 512 <= n ->
  ubyte G i -> ~ within x 512 i.
Proof.
  intros H [Hg Hf] Hn Hu Hi. assert (Hlx : hlive G1 x n) by (apply Hg; by right).
  assert (Hxi : x <= i < x + n) by (unfold within in Hi; lia).
  destruct (block_bytes pb a0 ln hd ch dev t P kd M HP _ _ _ _ _ _ x n i H Hlx Hxi) as (_ & _ & _ & _ & Hh).
  destruct Hu as [[(y & q & Hy & Hyi)|Ho] Hb].
  - destruct (vm_static M (vm_of k1) (wo_mem _ _ _ _ _ _ _ _ _ _ _ _ _ _ _ _ H)) as (Eb & _ & _).
    assert (Hly : hlive G1 y q) by (apply Hg; by left). rewrite <- Eb in Hlx, Hly.
    destruct (live_disjoint PF_KERNEL kd (vm_of k1) G1 x n y q (wo_heap _ _ _ _ _ _ _ _ _ _ _ _ _ _ _ _ H) Hlx Hly)
      as [[<- _]|Hd]; [by apply (Hf q)|lia].
  - unfold heap_byte, within in Hh. tauto.
Qed.

Lemma taken_since a G G1 m L S k k1 k2 x n : idle a G1 m L S k1 -> grown M G x n G1 -> 512 <= n ->
  agree (fun i => P i /\ ubyte G i) (ram (km k)) (ram (km k1)) ->
  agree (fun i => P i /\ ~ within x 512 i) (ram (km k1)) (ram (km k2)) -> since G k [(x, n)] G1 k2.
Proof.
  intros H Hg Hn H1 H2. split.
  - intros y q. rewrite (proj1 Hg), list_elem_of_singleton. naive_solver.
  - intros y q q' [= -> ->]%list_elem_of_singleton. apply Hg.
  - simpl. apply NoDup_singleton.
  - apply (agree_trans _ _ (ram (km k1))); (eapply agree_weaken; [|done]); intros i (Hp & Hu & _); cbv beta; [done|].
    split; [done|]. by eapply block_apart.
Qed.

Lemma freed_since G k x n lost G3 k3 G4 k4 :
  since G k ((x, n) :: lost) G3 k3 -> shrunk M G3 x G4 ->
  agree (fun i => P i /\ ubyte G4 i) (ram (km k3)) (ram (km k4)) -> since G k lost G4 k4.
Proof.
  intros [S1 S2 S3 S4] Hs Hag. apply NoDup_cons in S3 as [Hx S3].
  assert (Hne : forall y q, (y, q) ∈ lost -> y <> x).
  { intros y q Hy ->. apply Hx. by apply (list_elem_of_fmap_2 fst _ (x, q)). }
  assert (Hold : forall y q, hlive G y q -> y <> x).
  { intros y q Hy ->. apply (S2 x n q); [left|done]. }
  split; [|intros y q q' Hy; apply (S2 y q q'); by right|done|].
  - intros y q. rewrite (Hs y q), S1, elem_of_cons. naive_solver.
  - eapply agree_trans; [exact S4|]. eapply agree_weaken; [|exact Hag]. intros i (Hp & Hu & _). split; [done|].
    eapply ubyte_more; [|exact Hu]. intros y q Hy. apply Hs. split; [apply S1; by left|by eapply Hold].
Qed.

(** The scan's memory is private and not the heap's. *)
Lemma scan_mem_kept G s r r' : agree (fun i => P i /\ ubyte G i) r r' -> scan_mem s r -> scan_mem s r'.
Proof.
  intros Hag. apply (scan_mem_agree _ _ _ _ _ _ _ _ _ _ HL). eapply agree_weaken; [|exact Hag].
  intros i Hi. split; [by apply (pl_mine _ _ _ _ _ _ _ _ _ _ HL)|].
  pose proof (pl_heap _ _ _ _ _ _ _ _ _ _ HL i Hi) as Hn. unfold heap_byte in Hn.
  split; [right; unfold within in Hn; lia|tauto].
Qed.

Lemma scan_mem_buffer a G m L S k x n s r' : idle a G m L S k -> hlive G x n -> 512 <= n ->
  agree (fun i => P i /\ ~ within x 512 i) (ram (km k)) r' -> scan_mem s (ram (km k)) -> scan_mem s r'.
Proof.
  intros H Hl Hn Hag. apply (scan_mem_agree _ _ _ _ _ _ _ _ _ _ HL). eapply agree_weaken; [|exact Hag].
  intros i Hi. split; [by apply (pl_mine _ _ _ _ _ _ _ _ _ _ HL)|]. intros Hx.
  apply (pl_heap _ _ _ _ _ _ _ _ _ _ HL i Hi).
  apply (block_bytes pb a0 ln hd ch dev t P kd M HP _ _ _ _ _ _ x n i H Hl). unfold within in Hx. lia.
Qed.

(** [partition_scan] *)
Local Abbreviation pscan :=
  (fun depth => partition_scan hw ln im fr (Datatypes.S (Datatypes.S lk)) ffuel sfuel hfuel lfuel kd depth hd).

(** A buffer and the sector in it. *)
Lemma fetch_runs G s m k ext (g : Z -> K unit) (Q : unit -> kst -> Prop) :
  scanning G s (1 + m) k -> 0 <= m -> 0 <= ext <= max_lba ->
  (forall x n G1 k1, 512 <= n -> hlive G1 x n -> since G k [(x, n)] G1 k1 -> scanning G1 s m k1 ->
     table_at (ram (km k1)) (x + 446) (drive_table ext) -> runs E Q (g x k1)) ->
  runs E Q ((bs ← sys_malloc kd (Datatypes.S (Datatypes.S lk)) hfuel lfuel sizeof_boot_sector;
             ide_read hw ln 2 (Datatypes.S (Datatypes.S lk)) hd ext bs 1;; g bs) k).
Proof.
  intros [(a & Ha & Hw) HM] Hm Hext Hg.
  eapply runs_bind; [apply (malloc_runs hw pb a0 ln hd ch dev t P kd M HU HP a G m k); done|].
  intros x k1 (n & G1 & Hn & H1 & Hgr & Hag1). assert (Hl : hlive G1 x n) by (apply Hgr; by right).
  eapply runs_bind; [apply (read_sector_runs hw pb a0 ln hd ch dev t P kd M HU HP a G1 m k1 lk ext x n); done || lia|].
  intros [] k2 (a' & H2 & Ha' & Hag2 & Hv). apply (Hg x n G1); [lia|done| | |].
  - eapply taken_since; [exact H1|done|lia|done|done].
  - split; [exists a'; split; [congruence|done]|]. eapply (scan_mem_buffer a G1); [exact H1|exact Hl|lia|exact Hag2|].
    by eapply scan_mem_kept.
  - apply sector_table. intros i Hi. rewrite Hv by done. unfold drive_word. by rewrite Ha.
Qed.

Lemma disk_runs depth : sub_ok (scan_disk drive_table depth) (pscan depth).
Proof.
  induction depth as [|depth IH]; intros ext s s' G m k Hs Hm H; cbn [scan_disk] in Hs; [done|].
  case_decide as Hext; [|done].
  destruct (scan_table _ _ _ _) as [[b s1]|] eqn:E1; simpl in Hs; [|done]. injection Hs as Hs.
  assert (Hr : sc_reads s' = sc_reads s1) by (by destruct b; subst s').
  assert (Hmono : forall lba s2 s3, scan_disk drive_table depth lba s2 = Some s3 -> sc_reads s2 <= sc_reads s3)
    by (intros lba s2 s3 Hs2%scan_disk_reads; lia).
  pose proof (scan_table_reads _ _ _ _ _ _ Hmono E1) as Hr1. simpl in Hr1.
  cbn [partition_scan]. apply (fetch_runs G s (sc_reads s' - sc_reads s - 1 + m)); [|lia|done|].
  { replace (1 + (sc_reads s' - sc_reads s - 1 + m)) with (sc_reads s' - sc_reads s + m) by lia. done. }
  intros x n G1 k1 Hn Hl Hsi1 H1 Ht.
  eapply runs_bind.
  { apply (table_runs _ _ IH Hmono ext x n Hn (drive_table ext)
      (count_read s) b s1 G1 m k1 (x + 446) E1 Hm); [|exact Hl| |exact Ht].
    - destruct H1 as [Hw HM]. split; [|by apply scan_mem_counts].
      replace (sc_reads s1 - sc_reads (count_read s) + m) with (sc_reads s' - sc_reads s - 1 + m) by (simpl; lia). done.
    - intros i Hi. simpl in Hi. unfold within in *. lia. }
  intros b' k2 (-> & G2 & l2 & H2 & Hsi2 & Hl2). simpl in Hl2.
  pose proof (since_trans _ _ _ _ _ _ _ _ Hsi1 Hsi2) as Hsi. simpl app in Hsi. destruct b; subst s'.
  - destruct H2 as [(a & Ha & Hw2) HM2].
    assert (Hl' : hlive G2 x n) by (apply (si_live _ _ _ _ _ Hsi2); by left).
    eapply runs_conseq; [apply (free_runs hw pb a0 ln hd ch dev t P kd M HU HP a G2 m k2 _ hfuel lfuel x n); done|].
    intros [] k3 (G3 & H3 & Hsh & Hag3). exists G3, l2. split_and!; [|by eapply freed_since|done].
    split; [by exists a|]. by eapply scan_mem_kept.
  - constructor. exists G2, ((x, n) :: l2). split_and!; [|done|simpl; lia].
    destruct H2 as [Hw2 HM2]. split; [done|by apply scan_mem_counts].
Qed.
End scan_runs.

(** ** The theorem *)

(** A thread at its disk, the heap and the scan's memory in their places. *)
Record scan_setup (hw : bus) (pb : Z) (a0 : ata) (ln : ide_link) (im : image) (fr : frame_addrs)
    (hd ch t : Z) (P : Z -> Prop) (kd : Z) (M : mem_st) (dn xs : list Z) : Prop := {
  su_use : channel_use hw pb a0 hd ch t P heap_kept;
  su_heap : heap_place hd ch P kd M;
  su_place : scan_place ln im fr hd ch dn xs kd M P
}.

(** Enough fuel for [sprintf] and its strings, and for the loops of the heap. *)
Record scan_fuel (M : mem_st) (ffuel sfuel hfuel lfuel : nat) : Prop := {
  sf_format : (4 < ffuel)%nat; sf_string : (7 < sfuel)%nat; sf_heap : (256 <= hfuel)%nat;
  sf_list : (255 <= lfuel)%nat; sf_free : 255 * heap_pages M + 1 < Z.of_nat lfuel
}.

(** C13: [partition_scan] comes back whatever the rest of the kernel does that
    leaves the disk's channel, the heap and the scan's memory alone, and has
    found what the reference [scan_disk] finds in the sectors of the drive:
    each partition in its slot with start, length, disk and name, and in
    [partition_list] in the order of the recursion.  Every table is read into
    a block of the heap, and of these blocks exactly those of the tables whose
    scan ended at the eighth logical partition are still allocated; the rest of
    the private memory is as it was. *)
Theorem partition_scan_ok hw pb a0 ln im fr hd ch dev t P kd M dn xs words lk ffuel sfuel hfuel lfuel
    depth ext s s' G m k :
  scan_setup hw pb a0 ln im fr hd ch t P kd M dn xs -> scan_fuel M ffuel sfuel hfuel lfuel ->
  scan_disk (drive_table dev words) depth ext s = Some s' -> 0 <= m ->
  scanning pb a0 ln hd ch dev t P kd M im dn xs words G s (sc_reads s' - sc_reads s + m) k ->
  runs (absent pb a0 ln ch t P heap_kept)
    (fun _ k' => scanned pb a0 ln hd ch dev t P kd M im fr dn xs words s s' m G k k')
    (partition_scan hw ln im fr (Datatypes.S (Datatypes.S lk)) ffuel sfuel hfuel lfuel kd depth hd ext k).
Proof. intros [] [] Hs Hm. by apply (disk_runs hw pb a0). Qed.

(** *** A disk with a primary and two logical partitions *)

Definition demo_entry (lba i ty start cnt : Z) : list (Z * Z) :=
  let q := 256 * lba + 225 + 8 * i in
  [(q, ty); (q + 2, start mod 65536); (q + 3, start / 65536); (q + 4, cnt mod 65536); (q + 5, cnt / 65536)].
Definition demo_sectors : gmap Z Z :=
  list_to_map (demo_entry 0 0 0x83 63 1000 ++ demo_entry 0 1 5 2048 70000 ++
    demo_entry 2048 0 0x83 63 500 ++ demo_entry 2048 1 5 600 463 ++ demo_entry 2648 0 0x82 63 400).
Definition demo_words (d q : Z) : Z := if decide (d = 1) then default 0 (demo_sectors !! q) else 0.
Definition demo_scan_drive : ata := Ata 0 0 0 0 0 None demo_words false 3.

Definition demo_before : scan := Scan [] 0 0 0 0 0.
Definition demo_after : scan :=
  Scan [(0, Part 63 1000); (4, Part 2111 500); (5, Part 2711 400)] 1 2 2048 3 0.

Lemma demo_disk : scan_disk (drive_table 1 demo_words) 3 0 demo_before = Some demo_after.
Proof. by vm_compute. Qed.

(** Disk "sdb" of the channel at 0x2000, a heap of eight free pages. *)
Definition demo_put (r : gmap Z Z) : gmap Z Z :=
  let r := st8 (st32 (st16 r 0x2008 0x1f0) (demo_hd + 8) 0x2000) (demo_hd + 12) 1 in
  st32 (st32 (bytes_at demo_hd [115; 100; 98] (bytes_at 0x3000 [37; 115; 37; 100] r)) 0x2d04 0x2d08) 0x2d08 0x2d00.
Definition demo_scan_ram : gmap Z Z := demo_put (ram (vmach demo_heap_vm)).

Definition demo_scanner : kst :=
  Kst (Mach demo_scan_ram 0x202 [] []) (vpg demo_heap_vm) 0 (kt demo_reader)
    (SyncSt {[ lock_semaphore (channel_lock 0) := Sema 1 []; lock_semaphore kernel_pool_lock := Sema 1 [] ]} ∅)
    (vmem demo_heap_vm) (kdev bss_kst).

Definition demo_pools : mem_st := vmem demo_heap_vm.

(** What has been written besides the heap's descriptors. *)
Definition demo_low (i : Z) : Prop :=
  within 0x2008 2 i \/ within demo_hd 3 i \/ within (demo_hd + 8) 5 i \/ within 0x2d04 8 i \/ within 0x3000 4 i.

Lemma demo_scan_agree r : agree (fun i => ~ demo_low i) r (demo_put r).
Proof.
  intros i Hi. unfold demo_low, demo_put, demo_hd, device_at, sizeof_disk, within, bytes_at in *. simpl in *.
  rewrite !ld8_st32_ne by lia. rewrite !ld8_st8_ne by lia. rewrite ld8_st32_ne by lia. by rewrite ld8_st16_ne by lia.
Qed.

Lemma demo_heap_ram i : ~ demo_descs <= i < demo_descs + 168 -> ld8 (ram (vmach demo_heap_vm)) i = 0.
Proof.
  intros Hi. destruct (@block_desc_init_run PF_KERNEL kernel_PageAlloc demo_descs demo_vm demo_pages Malloc.demo_layout Malloc.demo_private)
    as (r & Hr & _ & Hag).
  unfold demo_heap_vm. rewrite (on_m_Ok _ demo_vm _ _ Hr). by apply (Hag i).
Qed.

Lemma demo_scan_zero i : ~ demo_low i -> i < demo_descs -> ld8 demo_scan_ram i = 0.
Proof. intros Hi Hd. unfold demo_scan_ram. rewrite (demo_scan_agree _ i Hi). apply demo_heap_ram. lia. Qed.

Lemma demo_ground i : heap_byte demo_descs demo_pools i -> 0x9a000 <= i.
Proof.
  intros [H|[H|H]]; [unfold within, demo_descs in H; lia| |].
  - change (heap_base demo_pools) with 0xc0100000 in H. unfold within in H. lia.
  - unfold bitmap_bytes in H. change (kbm (vm_with demo_pools)) with (Bitmap 1 0x9a000) in H.
    change (vbm (vm_with demo_pools)) with (Bitmap 1 0x9a002) in H. simpl in H. lia.
Qed.

Lemma demo_scan_nodes i : node_byte demo_ide [] i <-> 0x2d00 <= i < 0x2d10.
Proof.
  unfold node_byte, nodes, head_of, tail_of, within. simpl.
  setoid_rewrite elem_of_cons. setoid_rewrite list_elem_of_singleton. split.
  - intros (x & [->| ->] & Hx); lia.
  - intros Hi. destruct (decide (i < 0x2d08)); [exists 0x2d00|exists 0x2d08]; split; lia || (by left) || (by right).
Qed.

Ltac demo_bytes :=
  intros i; unfold written, read_byte, args_byte, counter_byte, parts_byte, part_addr, prim_part, disk_byte, within,
    demo_hd, device_at, sizeof_disk, sizeof_partition; rewrite ?demo_scan_nodes; simpl; lia.

Lemma demo_setup : scan_setup (ata_answers 0x1f0 demo_scan_drive) 0x1f0 demo_scan_drive demo_ide demo_im demo_fr
  demo_hd 0x2000 0xc009e000 IdeRW.demo_private demo_descs demo_pools [115; 100; 98] [].
Proof.
  split.
  - split; [by apply ata_answers_ok|done|..|exact heap_kept_laws]; intros a Ha;
      unfold IdeRW.demo_private, within, demo_hd, device_at, sizeof_disk in *; lia.
  - split; [| |by vm_compute|by vm_compute].
    + intros i Hi%demo_ground. unfold IdeRW.demo_private, within. lia.
    + intros i Hi Hh%demo_ground. unfold disk_byte, within, demo_hd, device_at, sizeof_disk in Hi. lia.
  - assert (Hw : forall i, written demo_ide demo_fr demo_hd [] i \/ read_byte demo_im demo_hd i -> 0x2350 <= i < 0x9a000).
    { intros i. unfold written, read_byte, args_byte, counter_byte, parts_byte. rewrite demo_scan_nodes.
      unfold part_addr, prim_part, within, demo_hd, device_at, sizeof_disk, sizeof_partition. simpl. lia. }
    split; [demo_bytes..| |demo_bytes| |demo_bytes| | |simpl; lia].
    + simpl. unfold within. lia.
    + intros i Hi Hh%demo_ground. apply Hw in Hi. lia.
    + intros i Hi. apply Hw in Hi. unfold IdeRW.demo_private, within. lia.
    + unfold part_addr, prim_part, demo_hd, device_at, sizeof_disk, sizeof_partition. lia.
Qed.

Lemma demo_scan_mem : scan_mem demo_ide demo_im demo_hd [115; 100; 98] [] demo_before demo_scan_ram.
Proof.
  split; try done.
  - split; [by vm_compute| |].
    + simpl. split_and!; repeat constructor. unfold KList.apart, head_of, tail_of. simpl. lia.
    + repeat constructor; unfold head_of, tail_of; simpl; lia.
  - by intros i p Hi%not_elem_of_nil.
  - by intros i p Hi%not_elem_of_nil.
  - intros i a Hi _ Ha. unfold part_addr, prim_part, demo_hd, device_at, sizeof_disk, sizeof_partition, within in Ha.
    apply demo_scan_zero; [|unfold demo_descs; lia].
    unfold demo_low, within, demo_hd, device_at, sizeof_disk. lia.
Qed.

Lemma demo_scanning :
  scanning 0x1f0 demo_scan_drive demo_ide demo_hd 0x2000 1 0xc009e000 IdeRW.demo_private demo_descs demo_pools demo_im
    [115; 100; 98] [] demo_words empty_heap demo_before 3 demo_scanner.
Proof.
  split; [exists demo_scan_drive; split; [done|]|exact demo_scan_mem].
  assert (Ha : agree (fun i => ~ demo_low i) (ram (vmach demo_heap_vm)) demo_scan_ram) by apply demo_scan_agree.
  assert (Hlow : forall i, demo_low i -> i < 0x9a000).
  { unfold demo_low, within, demo_hd, device_at, sizeof_disk. lia. }
  set (s := with_ram demo_scan_ram demo_heap_vm).
  split; [|done|done|done| |].
  - split; [|split; [by vm_compute..|by right]]. split; [done|exact demo_reader_sched| |done|done|by split|done|done|].
    + apply dirs_plain. intros u tk E. by apply demo_reader_tasks in E as [[-> ->]|[-> ->]].
    + split; try done. intros u tk E. by apply demo_reader_tasks in E as [[-> ->]|[-> ->]].
  - apply (heap_inv_view demo_descs s (vm_of demo_scanner)); [done..|]. apply heap_inv_others; [exact demo_heap|].
    eapply agree_weaken; [|exact Ha]. intros i Hi Hl. apply Hlow in Hl. apply Hi.
    change (pa_base demo_heap_vm) with 0xc0100000. change (pa_pages demo_heap_vm) with 8.
    split; [right; unfold demo_descs; lia|]. intros Hb. change (bitmap_bytes demo_heap_vm i) in Hb.
    unfold bitmap_bytes in Hb. change (kbm demo_heap_vm) with (Bitmap 1 0x9a000) in Hb.
    change (vbm demo_heap_vm) with (Bitmap 1 0x9a002) in Hb. simpl in Hb. lia.
  - apply (kernel_pages_view s (vm_of demo_scanner)); [done..|]. apply kernel_room_outside; [|by apply demo_room].
    eapply agree_weaken; [|exact Ha]. intros i Hb Hl. apply Hlow in Hl.
    unfold bitmap_bytes in Hb. change (kbm demo_heap_vm) with (Bitmap 1 0x9a000) in Hb.
    change (vbm demo_heap_vm) with (Bitmap 1 0x9a002) in Hb. simpl in Hb. lia.
Qed.

Lemma demo_scan_fuel : scan_fuel demo_pools 5 8 256 2100.
Proof. split; [lia..|]. change (heap_pages demo_pools) with 8. lia. Qed.

Lemma partition_scan_ok_witness :
  runs (absent 0x1f0 demo_scan_drive demo_ide 0x2000 0xc009e000 IdeRW.demo_private heap_kept)
    (fun _ k' => scanned 0x1f0 demo_scan_drive demo_ide demo_hd 0x2000 1 0xc009e000 IdeRW.demo_private demo_descs
       demo_pools demo_im demo_fr [115; 100; 98] [] demo_words demo_before demo_after 0 empty_heap demo_scanner k')
    (partition_scan (ata_answers 0x1f0 demo_scan_drive) demo_ide demo_im demo_fr 2 5 8 256 2100 demo_descs 3 demo_hd 0
       demo_scanner).
Proof.
  apply partition_scan_ok.
  - exact demo_setup.
  - exact demo_scan_fuel.
  - exact demo_disk.
  - lia.
  - exact demo_scanning.
Defined.
