(* ===== verification/Inode.v ===== *)
(** * Inodes: [fs/inode.c]

    Where an inode lies on the disk, writing it back, opening and closing it.
    The structures are in memory at the offsets of [fs/inode.h],
    [fs/super_block.h] and [device/ide.h]. *)
From S2P Require Import Prelude Machine Global Str Bitmap KList Paging Kernel Thread Timer.
From S2P Require Import Sync Console Memory Arena Interrupt Syscall Printk Ide.

(** [struct super_block] *)
Definition sizeof_super_block : Z := 512.
Definition sb_magic : Z := 0.
Definition sb_sec_cnt : Z := 4.
Definition sb_inode_cnt : Z := 8.
Definition sb_part_lba_base : Z := 12.
Definition sb_block_bitmap_lba : Z := 16.
Definition sb_block_bitmap_sects : Z := 20.
Definition sb_inode_bitmap_lba : Z := 24.
Definition sb_inode_bitmap_sects : Z := 28.
Definition sb_inode_table_lba : Z := 32.
Definition sb_inode_table_sects : Z := 36.
Definition sb_data_start_lba : Z := 40.
Definition sb_root_inode_no : Z := 44.
Definition sb_dir_entry_size : Z := 48.

(** [struct partition] *)
Definition part_start_lba : Z := 8.
Definition part_sec_cnt : Z := 12.
Definition part_my_disk : Z := 16.
Definition part_sb : Z := 28.
Definition part_block_bitmap : Z := 32.
Definition part_inode_bitmap : Z := 40.
Definition part_open_inodes : Z := 48.

(** [struct inode] *)
Definition sizeof_inode : Z := 76.
Definition in_no : Z := 0.
Definition in_size : Z := 4.
Definition in_open_cnts : Z := 8.
Definition in_write_deny : Z := 12.
Definition in_sectors (i : Z) : Z := 16 + 4 * i.
Definition in_tag : Z := 68.

(** A field of the structure another field points to. *)
Definition field (a off : Z) : M mach Z := load32 (a + off).

Record inode_position := InodePosition { two_sec : bool; sec_lba : Z; off_size : Z }.

(** [inode_locate]; the position it fills in is the result. *)
Definition inode_locate (part inode_no : Z) : M mach inode_position :=
  ASSERT (bool_decide (inode_no < 4096)) "inode_no < 4096";;
  sb ← field part part_sb;
  inode_table_lba ← field sb sb_inode_table_lba;
  let inode_size := sizeof_inode in
  let off_size := u32 (inode_no * inode_size) in
  let off_sec := off_size / 512 in
  let off_size_in_sec := off_size mod 512 in
  mret (InodePosition (bool_decide (u32 (512 - off_size_in_sec) < inode_size))
          (u32 (inode_table_lba + off_sec)) off_size_in_sec).

(** [inode_init]: the [list_elem] is left as it is. *)
Fixpoint sectors_loop (n : nat) (new_inode sec_idx : Z) : M mach unit :=
  match n with
  | O => mret tt
  | S n => store32 (new_inode + in_sectors sec_idx) 0;; sectors_loop n new_inode (u8 (sec_idx + 1))
  end.

Definition inode_init (inode_no new_inode : Z) : M mach unit :=
  store32 (new_inode + in_no) inode_no;;
  store32 (new_inode + in_size) 0;;
  store32 (new_inode + in_open_cnts) 0;;
  store32 (new_inode + in_write_deny) 0;;
  sectors_loop 13 new_inode 0.

Section inode.
Context (hw : bus) (ln : ide_link).
(** Rounds of the disk driver, fuel for locks, the heap, the lists; the
    kernel's block descriptors. *)
Context (rounds lkfuel hfuel lfuel : nat) (k_block_descs : Z).

(** The copy of an inode that goes to the disk, on the stack at [pure]. *)
Definition purify (pure inode : Z) : M mach unit :=
  memcpy pure inode sizeof_inode;;
  store32 (pure + in_open_cnts) 0;;
  store32 (pure + in_write_deny) 0;;
  store32 (pure + in_tag + 4) 0;;
  store32 (pure + in_tag) 0.

(** [inode_no] is a [uint8_t]. *)
Definition inode_sync (pure part inode io_buf : Z) : K unit :=
  n ← on_mach (field inode in_no);
  let inode_no := u8 n in
  pos ← on_mach (inode_locate part inode_no);
  start ← on_mach (field part part_start_lba);
  cnt ← on_mach (field part part_sec_cnt);
  KASSERT (bool_decide (sec_lba pos <= u32 (start + cnt)))
    "inode_pos.sec_lba <= (part->start_lba + part->sec_cnt)";;
  on_mach (purify pure inode);;
  let secs := if two_sec pos then 2 else 1 in
  hd ← on_mach (field part part_my_disk);
  ide_read hw ln rounds lkfuel hd (sec_lba pos) io_buf secs;;
  on_mach (memcpy (u32 (io_buf + off_size pos)) pure sizeof_inode);;
  hd ← on_mach (field part part_my_disk);
  ide_write hw ln rounds lkfuel hd (sec_lba pos) io_buf secs.

(** The search in the list of open inodes: the address of the inode, or 0. *)
Fixpoint find_open (fuel : nat) (part inode_no elem : Z) : M mach Z :=
  match fuel with
  | O => no_fuel
  | S fuel =>
      if decide (elem <> tail_of (part + part_open_inodes)) then
        let inode_found := elem - in_tag in
        n ← field inode_found in_no;
        if decide (n = inode_no) then mret inode_found
        else e ← get_next elem; find_open fuel part inode_no e
      else mret 0
  end.

Definition inode_open (part inode_no : Z) : K Z :=
  first ← on_mach (get_next (head_of (part + part_open_inodes)));
  found ← on_mach (find_open lfuel part inode_no first);
  if decide (found <> 0) then
    n ← on_mach (field found in_open_cnts);
    on_mach (store32 (found + in_open_cnts) (n + 1));;
    mret found
  else
    pos ← on_mach (inode_locate part inode_no);
    cur ← running_thread;
    t ← get_task cur;
    let cur_pagedir_bak := pgdir t in
    upd_task cur (set_pgdir 0);;
    inode_found ← sys_malloc k_block_descs lkfuel hfuel lfuel sizeof_inode;
    upd_task cur (set_pgdir cur_pagedir_bak);;
    let secs := if two_sec pos then 2 else 1 in
    inode_buf ← sys_malloc k_block_descs lkfuel hfuel lfuel (512 * secs);
    hd ← on_mach (field part part_my_disk);
    ide_read hw ln rounds lkfuel hd (sec_lba pos) inode_buf secs;;
    on_mach (memcpy inode_found (u32 (inode_buf + off_size pos)) sizeof_inode);;
    on_mach (list_push (part + part_open_inodes) (inode_found + in_tag));;
    on_mach (store32 (inode_found + in_open_cnts) 1);;
    sys_free lkfuel hfuel lfuel inode_buf;;
    mret inode_found.

Definition inode_close (inode : Z) : K unit :=
  kirqsave (
    n ← on_mach (field inode in_open_cnts);
    on_mach (store32 (inode + in_open_cnts) (n - 1));;
    n ← on_mach (field inode in_open_cnts);
    if decide (n = 0) then
      on_mach (list_remove (inode + in_tag));;
      cur ← running_thread;
      t ← get_task cur;
      let cur_pagedir_bak := pgdir t in
      upd_task cur (set_pgdir 0);;
      sys_free lkfuel hfuel lfuel inode;;
      upd_task cur (set_pgdir cur_pagedir_bak)
    else mret tt).
End inode.

(** ** The position of an inode *)

(** The code's sector and offset are the inode's place in the table, and the
    second sector is asked for exactly when the inode reaches into it. *)
Record located (table no : Z) (pos : inode_position) : Prop := {
  lo_offset : 0 <= off_size pos < 512;
  lo_place : 512 * sec_lba pos + off_size pos = 512 * table + sizeof_inode * no;
  lo_two : two_sec pos = bool_decide (512 < off_size pos + sizeof_inode)
}.

Lemma inode_locate_eq part no m :
  let table := ld32 (ram m) (ld32 (ram m) (part + part_sb) + sb_inode_table_lba) in
  0 <= no < 4096 -> table + 608 <= 4294967296 ->
  exists pos, inode_locate part no m = Ok (pos, m) /\ located table no pos.
Proof.
  cbv zeta. intros Hn Ht. unfold inode_locate, field. rewrite (bool_decide_true (no < 4096)) by lia.
  mstep. mstep. mstep. eexists. split; [reflexivity|].
  set (table := ld32 _ _) in *. assert (H0 : 0 <= table) by apply ld32_range.
  unfold sizeof_inode. rewrite (u32_id (no * 76)) by lia.
  assert (Hm : 0 <= no * 76 mod 512 < 512) by (apply Z.mod_pos_bound; lia).
  pose proof (Z.div_mod (no * 76) 512 ltac:(lia)) as Hq.
  split; cbn [off_size sec_lba two_sec].
  - exact Hm.
  - rewrite (u32_id (table + _)) by lia. unfold sizeof_inode. lia.
  - rewrite (u32_id (512 - _)) by lia. apply bool_decide_ext. unfold sizeof_inode. lia.
Qed.
