(* ===== verification/File.v ===== *)
(** * Descriptors and allocation: [fs/file.c]

    The process's descriptor table and the allocation of inodes and blocks of
    a partition.  [get_free_slot_in_global] compares a structure with a
    pointer, which is no C, and is left out. *)
From S2P Require Import Prelude Machine Global Str Bitmap KList Paging Kernel Thread Timer.
From S2P Require Import Sync Console Memory Arena Interrupt Syscall Printk Ide Inode.

Definition INODE_BITMAP : Z := 0.
Definition BLOCK_BITMAP : Z := 1.

(** A [struct bitmap] in memory. *)
Definition get_bitmap (a : Z) : M mach bitmap :=
  len ← field a 0; b ← field a 4; mret (Bitmap len b).

Definition inode_bitmap_alloc (part : Z) : M mach Z :=
  b ← get_bitmap (part + part_inode_bitmap);
  bit_idx ← bitmap_scan b 1;
  if decide (bit_idx = -1) then mret (-1)
  else bitmap_set b bit_idx 1;; mret bit_idx.

Definition block_bitmap_alloc (part : Z) : M mach Z :=
  b ← get_bitmap (part + part_block_bitmap);
  bit_idx ← bitmap_scan b 1;
  if decide (bit_idx = -1) then mret (-1)
  else
    bitmap_set b bit_idx 1;;
    sb ← field part part_sb;
    start ← field sb sb_data_start_lba;
    mret (i32 (u32 (start + bit_idx))).

Section file.
Context (im : image) (fr : frame_addrs) (lkfuel ffuel sfuel : nat).

(** The loop of [pcb_fd_install]: the first free descriptor from
    [local_fd_idx] on is taken. *)
Fixpoint install_loop (n : nat) (cur global_fd_idx : Z) (local_fd_idx : nat) : K nat :=
  match n with
  | O => mret local_fd_idx
  | S n =>
      t ← get_task cur;
      if decide (nth local_fd_idx (fd_table t) 0 = -1) then
        upd_task cur (fun t => set_fd_table (<[local_fd_idx := global_fd_idx]> (fd_table t)) t);;
        mret local_fd_idx
      else install_loop n cur global_fd_idx (S local_fd_idx)
  end.

Definition pcb_fd_install (global_fd_idx : Z) : K Z :=
  cur ← running_thread;
  local_fd_idx ← install_loop (MAX_FILES_OPEN_PER_PROC - 3) cur global_fd_idx 3;
  if decide (local_fd_idx = MAX_FILES_OPEN_PER_PROC) then
    printk_args im fr lkfuel ffuel sfuel (line "Exceed Max Opening Files_per_process") [];;
    mret (-1)
  else mret (Z.of_nat local_fd_idx).
End file.

Section sync.
Context (hw : bus) (ln : ide_link) (rounds lkfuel : nat).

(** [bitmap_sync]; for another [btmp] the code uses variables it has not
    set.  The offset in the sector is a number of bits, added to an address. *)
Definition bitmap_sync (part bit_idx btmp : Z) : K unit :=
  let off_sec := bit_idx / 4096 in
  let off_size := bit_idx mod 4096 in
  sb ← on_mach (field part part_sb);
  p ← (if decide (btmp = INODE_BITMAP) then
         lba ← on_mach (field sb sb_inode_bitmap_lba);
         b ← on_mach (get_bitmap (part + part_inode_bitmap));
         mret (u32 (lba + off_sec), u32 (bits b + off_size))
       else if decide (btmp = BLOCK_BITMAP) then
         lba ← on_mach (field sb sb_block_bitmap_lba);
         b ← on_mach (get_bitmap (part + part_block_bitmap));
         mret (u32 (lba + off_sec), u32 (bits b + off_size))
       else kpanic "sec_lba and bitmap_off are not set");
  hd ← on_mach (field part part_my_disk);
  ide_write hw ln rounds lkfuel hd p.1 p.2 1.
End sync.

(** ** Descriptors *)

(** The first free descriptor of a table from [i] on, below [n + i]. *)
Fixpoint first_free (n : nat) (fds : list Z) (i : nat) : option nat :=
  match n with
  | O => None
  | S n => if decide (nth i fds 0 = -1) then Some i else first_free n fds (S i)
  end.

Lemma install_loop_eq n cur g i k :
  install_loop n cur g i k =
  match first_free n (fd_table (task_at (kt k) cur)) i with
  | Some j => Done j (set_kt (upd_task_st cur (fun t => set_fd_table (<[j := g]> (fd_table t)) t) (kt k)) k)
  | None => Done (n + i)%nat k
  end.
Proof.
  revert i. induction n as [|n IH]; intros i; [done|]. cbn [install_loop first_free].
  unfold get_task. kstep. case_decide; [done|]. rewrite IH. destruct (first_free n _ (S i)); [done|].
  f_equal. lia.
Qed.

Lemma first_free_spec n fds i :
  match first_free n fds i with
  | Some j => (i <= j < n + i)%nat /\ nth j fds 0 = -1 /\
              forall l, (i <= l < j)%nat -> nth l fds 0 <> -1
  | None => forall l, (i <= l < n + i)%nat -> nth l fds 0 <> -1
  end.
Proof.
  revert i. induction n as [|n IH]; intros i; cbn [first_free]; [lia|]. case_decide as Hd.
  - split; [lia|]. split; [done|lia].
  - specialize (IH (S i)). destruct (first_free n fds (S i)) as [j|].
    + destruct IH as (H1 & H2 & H3). split; [lia|]. split; [done|]. intros l Hl.
      destruct (decide (l = i)) as [->|]; [done|]. apply H3. lia.
    + intros l Hl. destruct (decide (l = i)) as [->|]; [done|]. apply IH. lia.
Qed.

(** [pcb_fd_install] gives the running process the lowest of its
    descriptors 3 to 7 that is free, which from then on names the global
    slot; when none is free it prints a message and returns -1, and no
    descriptor changes. *)
Theorem pcb_fd_install_ok im fr lk ff sf g k :
  let cur := running (kt k) in
  let fds := fd_table (task_at (kt k) cur) in
  (exists j, (3 <= j < 8)%nat /\ nth j fds 0 = -1 /\ (forall l, (3 <= l < j)%nat -> nth l fds 0 <> -1) /\
     pcb_fd_install im fr lk ff sf g k =
       Done (Z.of_nat j) (set_kt (upd_task_st cur (fun t => set_fd_table (<[j := g]> (fd_table t)) t) (kt k)) k)) \/
  ((forall l, (3 <= l < 8)%nat -> nth l fds 0 <> -1) /\
     pcb_fd_install im fr lk ff sf g k =
       (printk_args im fr lk ff sf (line "Exceed Max Opening Files_per_process") [];; mret (-1)) k).
Proof.
  cbv zeta. unfold pcb_fd_install, running_thread. kstep. cbv beta.
  pose proof (install_loop_eq (MAX_FILES_OPEN_PER_PROC - 3) (running (kt k)) g 3 k) as Hl.
  pose proof (first_free_spec (MAX_FILES_OPEN_PER_PROC - 3) (fd_table (task_at (kt k) (running (kt k)))) 3) as Hf.
  change (MAX_FILES_OPEN_PER_PROC - 3)%nat with 5%nat in *.
  destruct (first_free _ _ _) as [j|].
  - left. destruct Hf as (H1 & H2 & H3). exists j. split; [lia|]. split; [done|]. split; [done|].
    rewrite (kbind_Done _ _ _ _ _ Hl). rewrite decide_False; [done|].
    unfold MAX_FILES_OPEN_PER_PROC. lia.
  - right. split; [exact Hf|]. rewrite (kbind_Done _ _ _ _ _ Hl). by rewrite decide_True.
Qed.
