(* ===== verification/FsDisk.v ===== *)
(** * The file system and its disk

    Sector transfers of the driver byte by byte, between changes of the
    thread's own memory, and what reaches the disk when an inode is written
    back. *)
From S2P Require Import Prelude Machine Global Str Stdio Bitmap KList Paging Kernel Thread Timer.
From S2P Require Import Sync Console Memory Arena Interrupt Syscall Printk Ide Run IdeSpec IdeLogic.
From S2P Require Import IdeRW Inode File.

(** ** Bytes of a drive *)

Definition word_byte (w par : Z) : Z := if decide (par = 0) then w mod 256 else w / 256 mod 256.
Definition drive_byte (a : ata) (dev q : Z) : Z := word_byte (u16 (a_words a dev (q / 2))) (q mod 2).

Lemma word_byte_ld16 r x par : par = 0 \/ par = 1 -> word_byte (ld16 r x) par = ld8 r (x + par).
Proof.
  intros Hp. unfold word_byte, ld16. pose proof (ld8_range r x). pose proof (ld8_range r (x + 1)).
  destruct Hp as [-> | ->]; [rewrite decide_True, Z.add_0_r by done|rewrite decide_False by done];
    Z.div_mod_to_equations; lia.
Qed.

Lemma halves j : j = 2 * (j / 2) + j mod 2 /\ (j mod 2 = 0 \/ j mod 2 = 1).
Proof. pose proof (Z.div_mod j 2 ltac:(lia)). pose proof (Z.mod_pos_bound j 2). lia. Qed.

Lemma drive_byte_half a dev lba j :
  drive_byte a dev (512 * lba + j) = word_byte (u16 (drive_word a dev lba (j / 2))) (j mod 2).
Proof.
  unfold drive_byte, drive_word. replace (512 * lba + j) with (j + (256 * lba) * 2) by lia.
  rewrite Z.div_add, Z.mod_add by lia. do 3 f_equal. lia.
Qed.

Section disk.
Context (hw : bus) (pb : Z) (a0 : ata) (ln : ide_link) (hd ch dev t : Z) (P : Z -> Prop).
Context (R : kst -> kst -> Prop).

Section transfers.
Context (HU : channel_use hw pb a0 hd ch t P R).
Context (rounds fuel : nat).

Lemma read_bytes a k lba buf cnt :
  ready_for pb a0 ln hd ch dev t P R a k -> transfer_ok hd ch P lba buf cnt rounds -> paced a0 cnt ->
  runs (absent pb a0 ln ch t P R) (fun _ k' => exists a',
      ready_for pb a0 ln hd ch dev t P R a' k' /\
      (forall e q, drive_byte a' e q = drive_byte a e q) /\
      agree (fun x => P x /\ ~ within buf (512 * cnt) x) (ram (km k)) (ram (km k')) /\
      forall j, 0 <= j < 512 * cnt -> ld8 (ram (km k')) (buf + j) = drive_byte a dev (512 * lba + j))
    (ide_read hw ln rounds (S (S fuel)) hd lba buf cnt k).
Proof.
  intros Hk Ht Hpc. eapply runs_conseq; [by apply (read_call hw pb a0 ln hd ch dev t P R HU)|].
  intros [] k' (a' & H & Hw & _ & Hag & Hv). exists a'. split_and!; [done| |done|].
  - intros e q. unfold drive_byte. by rewrite Hw.
  - intros j Hj. destruct (halves j) as [Hh Hp]. rewrite drive_byte_half, <- Hv by lia.
    rewrite word_byte_ld16 by done. f_equal. lia.
Qed.

Lemma write_bytes a k lba buf cnt :
  ready_for pb a0 ln hd ch dev t P R a k -> transfer_ok hd ch P lba buf cnt rounds -> paced a0 cnt ->
  runs_or (absent pb a0 ln ch t P R) (may_wait a0) (fun _ k' => exists a',
      ready_for pb a0 ln hd ch dev t P R a' k' /\ agree P (ram (km k)) (ram (km k')) /\
      (forall j, 0 <= j < 512 * cnt -> drive_byte a' dev (512 * lba + j) = ld8 (ram (km k)) (buf + j)) /\
      forall e q, e <> dev \/ ~ 512 * lba <= q < 512 * (lba + cnt) -> drive_byte a' e q = drive_byte a e q)
    (ide_write hw ln rounds (S (S fuel)) hd lba buf cnt k).
Proof.
  intros Hk Ht Hpc. eapply runs_conseq; [by apply (write_call hw pb a0 ln hd ch dev t P R HU rounds fuel a)|].
  intros [] k' (a' & H & _ & Hag & Hw & Ho). exists a'. split_and!; [done|done| |].
  - intros j Hj. destruct (halves j) as [Hh Hp]. rewrite drive_byte_half, Hw by lia.
    rewrite u16_id by apply ld16_range. rewrite word_byte_ld16 by done. f_equal. lia.
  - intros e q Hq. unfold drive_byte. destruct (halves q) as [Hh Hp]. rewrite Ho; [done|lia].
Qed.

End transfers.

Context (HR : frame_laws R).

(** The thread changes memory of its own that holds no structure of the
    driver. *)
Definition own (x : Z) : Prop :=
  P x /\ ~ within (hd + 8) 5 x /\ ~ within (ch + 8) 2 x /\ ~ within (ch + 12) 4 x.

Lemma ready_ram a k r' (W : Z -> Prop) :
  ready_for pb a0 ln hd ch dev t P R a k -> agree (fun x => ~ W x) (ram (km k)) r' ->
  (forall x, W x -> own x) ->
  ready_for pb a0 ln hd ch dev t P R a (set_km (set_ram r' (km k)) k).
Proof.
  intros [[H1 H2 H3 H4 H5 [H6 H6'] H7 H8 H9] Hd] Hag HW. split.
  - split; try done; [|by eapply (fl_here _ HR), (fl_km _ HR)]. split; [|exact H6']. unfold expecting. cbn [km set_km ram set_ram].
    rewrite <- H6. eapply agree_ld32; [exact Hag|]. intros i Hi Hw. by destruct (HW i Hw) as (_ & _ & _ & ?).
  - cbn [km set_km ram set_ram]. eapply disk_at_agree; [exact Hag|..|exact Hd]; intros x Hx Hw;
      by destruct (HW x Hw) as (_ & ? & ? & _).
Qed.

(** A step of the thread on memory of its own. *)
Lemma own_step (x : M mach unit) a k r' (W : Z -> Prop) :
  ready_for pb a0 ln hd ch dev t P R a k -> x (km k) = Ok (tt, set_ram r' (km k)) ->
  agree (fun b => ~ W b) (ram (km k)) r' -> (forall b, W b -> own b) ->
  exists k', on_mach x k = Done tt k' /\ ready_for pb a0 ln hd ch dev t P R a k' /\ ram (km k') = r'.
Proof.
  intros Hk Hx Hag HW. exists (set_km (set_ram r' (km k)) k).
  split; [by apply on_mach_Ok|]. split; [by eapply ready_ram|done].
Qed.

Lemma field_run a off k : on_mach (field a off) k = Done (ld32 (ram (km k)) (a + off)) k.
Proof. rewrite (on_mach_Ok _ _ (ld32 (ram (km k)) (a + off)) (km k)); [by rewrite set_km_id|done]. Qed.
End disk.

(** ** Writing back an inode *)

(** Byte [j] of the inode as it goes to the disk: not open, no writer, in no
    list. *)
Definition pure_byte (r : gmap Z Z) (inode j : Z) : Z :=
  if decide (8 <= j < 16 \/ 68 <= j < 76) then 0 else ld8 r (inode + j).

Lemma ld8_zero_word r a b : ld8 (st32 r a 0) b = if decide (within a 4 b) then 0 else ld8 r b.
Proof.
  unfold within. destruct (decide _) as [Hb|Hb]; [|apply ld8_st32_ne; lia].
  unfold st32. repeat (rewrite ld8_st8; case_decide; [done|]). lia.
Qed.

Lemma purify_eq pure inode m :
  pure <> 0 -> inode <> 0 -> apart pure 76 inode 76 ->
  exists r', purify pure inode m = Ok (tt, set_ram r' m) /\
    agree (fun x => ~ within pure 76 x) (ram m) r' /\
    forall j, 0 <= j < 76 -> ld8 r' (pure + j) = pure_byte (ram m) inode j.
Proof.
  intros Hp Hi Hap. unfold purify, sizeof_inode.
  rewrite (bind_Ok _ _ _ _ _ (memcpy_eq pure inode 76 m Hp Hi)). mstep. mstep. mstep.
  change (Z.to_nat 76) with 76%nat. unfold apart in Hap. unfold in_open_cnts, in_write_deny, in_tag.
  assert (Hc : forall x, ld8 (ram_copy (ram m) pure inode 76) x =
    if decide (within pure 76 x) then ld8 (ram m) (inode + (x - pure)) else ld8 (ram m) x).
  { intros x. rewrite ld8_ram_copy by (change (Z.of_nat 76) with 76; lia). unfold within.
    change (Z.of_nat 76) with 76. done. }
  eexists. split; [reflexivity|]. cbn [ram set_ram]. split.
  - intros x Hx. rewrite !ld8_zero_word, Hc. unfold within in *. by rewrite !decide_False by lia.
  - intros j Hj. rewrite !ld8_zero_word, Hc. unfold pure_byte, within.
    destruct (decide (8 <= j < 16 \/ 68 <= j < 76)) as [Hz|Hz].
    + repeat case_decide; try done; lia.
    + repeat case_decide; try lia. f_equal. lia.
Qed.

(** The memory a call of [inode_sync] uses, apart from the driver's: the
    partition, its super block, the inode, the copy of the inode on the
    stack, the buffer of two sectors. *)
Record sync_ok (hd ch : Z) (P : Z -> Prop) (rounds : nat) (r : gmap Z Z) (pure part inode io : Z) : Prop := {
  sy_disk : ld32 r (part + part_my_disk) = hd;
  sy_part : forall x, within (part + part_my_disk) 4 x -> P x /\ ~ within pure 76 x /\ ~ within io 1024 x;
  sy_pure : forall x, within pure 76 x -> own hd ch P x /\ ~ within io 1024 x;
  sy_inode : apart pure 76 inode 76;
  sy_null : 0 < pure /\ inode <> 0 /\ 0 < io;
  sy_io : io + 1024 <= 4294967296;
  sy_buf : forall x, within io 1024 x -> own hd ch P x;
  sy_rounds : (2 <= rounds)%nat
}.

(** Inode [no] does not reach into a second sector. *)
Definition in_one_sector (no : Z) : Prop := sizeof_inode * no mod 512 + sizeof_inode <= 512.

(** The inode's table in the partition: on the disk, and within the
    partition as the code checks it. *)
Record table_ok (r : gmap Z Z) (part table : Z) : Prop := {
  ta_lba : ld32 r (ld32 r (part + part_sb) + sb_inode_table_lba) = table;
  ta_disk : table + 608 <= max_lba + 1;
  ta_part : table + 37 <= u32 (ld32 r (part + part_start_lba) + ld32 r (part + part_sec_cnt))
}.

Section sync.
Context (hw : bus) (pb : Z) (a0 : ata) (ln : ide_link) (hd ch dev t : Z) (P : Z -> Prop) (R : kst -> kst -> Prop).
Context (HU : channel_use hw pb a0 hd ch t P R).
Context (rounds fuel : nat) (pure part inode io : Z).

Definition drive_after (table no : Z) (r : gmap Z Z) (a a' : ata) : Prop :=
  (forall j, 0 <= j < sizeof_inode ->
     drive_byte a' dev (512 * table + sizeof_inode * no + j) = pure_byte r inode j) /\
  forall e q, e <> dev \/ ~ within (512 * table + sizeof_inode * no) sizeof_inode q ->
    drive_byte a' e q = drive_byte a e q.

(** The sectors in the buffer, changed at the inode's place, go back. *)
Lemma patch_runs a k r pos secs :
  ready_for pb a0 ln hd ch dev t P R a k -> r = ram (km k) ->
  transfer_ok hd ch P (sec_lba pos) io secs rounds -> paced a0 secs ->
  0 <= off_size pos -> off_size pos + 76 <= 512 * secs -> secs <= 2 -> 0 < pure -> 0 < io ->
  (forall x, within pure 76 x -> ~ within io 1024 x) -> (forall x, within io 1024 x -> own hd ch P x) ->
  ld32 r (part + part_my_disk) = hd ->
  (forall x, within (part + part_my_disk) 4 x -> ~ within io 1024 x) ->
  (forall j, 0 <= j < 512 * secs -> ld8 r (io + j) = drive_byte a dev (512 * sec_lba pos + j)) ->
  runs_or (absent pb a0 ln ch t P R) (may_wait a0) (fun _ k' => exists a',
      ready_for pb a0 ln hd ch dev t P R a' k' /\
      agree (fun x => P x /\ ~ within io 1024 x) r (ram (km k')) /\
      (forall j, 0 <= j < 76 -> drive_byte a' dev (512 * sec_lba pos + off_size pos + j) = ld8 r (pure + j)) /\
      forall e q, e <> dev \/ ~ within (512 * sec_lba pos + off_size pos) 76 q ->
        drive_byte a' e q = drive_byte a e q)
    ((on_mach (memcpy (u32 (io + off_size pos)) pure sizeof_inode);;
      hd' ← on_mach (field part part_my_disk);
      ide_write hw ln rounds (S (S fuel)) hd' (sec_lba pos) io secs) k).
Proof.
  intros Hk Hr Htr Hpc Ho Ho' Hs Hp Hio Hpi Hown Hd Hpd Hb. pose proof (bo_high _ _ _ _ _ (to_buf _ _ _ _ _ _ _ Htr)) as Hhi.
  set (b := io + off_size pos). rewrite (u32_id b) by lia.
  assert (Hc : forall x, ld8 (ram_copy r b pure 76) x =
    if decide (within b 76 x) then ld8 r (pure + (x - b)) else ld8 r x).
  { intros x. rewrite ld8_ram_copy; [done|]. change (Z.of_nat 76) with 76.
    destruct (decide (pure + 76 <= b)); [lia|]. left. destruct (decide (b <= pure)); [done|].
    destruct (Hpi b); unfold within; lia. }
  assert (Hag : agree (fun x => ~ within b 76 x) r (ram_copy r b pure 76)).
  { intros x Hx. by rewrite Hc, decide_False. }
  destruct (own_step pb a0 ln hd ch dev t P R (cu_frame _ _ _ _ _ _ _ _ HU) (memcpy b pure sizeof_inode) a k (ram_copy r b pure 76) (within b 76) Hk)
    as (k1 & Hrun & Hk1 & Hr1).
  { rewrite Hr. apply memcpy_eq; lia. }
  { by rewrite <- Hr. }
  { intros x Hx. apply Hown. unfold within in *. lia. }
  rewrite (kbind_Done _ _ _ _ _ Hrun). cbv beta. rewrite (kbind_Done _ _ _ _ _ (field_run _ _ _)). cbv beta.
  rewrite Hr1. rewrite (agree_ld32 _ _ _ (part + part_my_disk) Hag), Hd.
  2:{ intros i Hi Hw. apply (Hpd i); [done|]. unfold within in *. lia. }
  eapply runs_conseq; [by apply (write_bytes hw pb a0 ln hd ch dev t P R HU rounds fuel a)|].
  intros [] k2 (a2 & Hk2 & Hag2 & Hb2 & Ho2). rewrite Hr1 in *. exists a2. split; [done|]. split; [|split].
  - transitivity (ram_copy r b pure 76).
    + eapply agree_weaken; [|exact Hag]. unfold within. cbv beta. lia.
    + eapply agree_weaken; [|exact Hag2]. by intros x [Hx _].
  - intros j Hj. rewrite <- Z.add_assoc, Hb2 by lia. rewrite Hc, decide_True by (unfold within; lia).
    f_equal. lia.
  - intros e q Hq. destruct (decide (e = dev)) as [->|He]; [|by apply Ho2; left].
    destruct (decide (512 * sec_lba pos <= q < 512 * (sec_lba pos + secs))) as [Hin|Hout]; [|by apply Ho2; right].
    destruct Hq as [Hq|Hq]; [congruence|].
    replace q with (512 * sec_lba pos + (q - 512 * sec_lba pos)) by lia.
    rewrite Hb2, Hc, decide_False by (unfold within in *; lia). rewrite Hb; [done|lia].
Qed.

Lemma sync_runs a k table :
  ready_for pb a0 ln hd ch dev t P R a k ->
  sync_ok hd ch P rounds (ram (km k)) pure part inode io -> table_ok (ram (km k)) part table ->
  in_one_sector (u8 (ld32 (ram (km k)) (inode + in_no))) \/ a_stream a0 = true ->
  runs_or (absent pb a0 ln ch t P R) (may_wait a0) (fun _ k' => exists a',
      ready_for pb a0 ln hd ch dev t P R a' k' /\
      agree (fun x => P x /\ ~ within pure 76 x /\ ~ within io 1024 x) (ram (km k)) (ram (km k')) /\
      drive_after table (u8 (ld32 (ram (km k)) (inode + in_no))) (ram (km k)) a a')
    (inode_sync hw ln rounds (S (S fuel)) pure part inode io k).
Proof.
  intros Hk [S1 S2 S3 S4 (S5 & S5' & S5'') S6 S7 S8] [T1 T2 T3] Hone. set (r := ram (km k)) in *.
  set (no := u8 (ld32 r (inode + in_no))). assert (Hno : 0 <= no < 256) by apply u8_range.
  change max_lba with 131071 in *. assert (Ht0 : 0 <= table) by (rewrite <- T1; apply ld32_range).
  destruct (inode_locate_eq part no (km k)) as (pos & Hloc & [L1 L2 L3]); [lia|fold r; lia|].
  fold r in L2. rewrite T1 in L2. unfold sizeof_inode in *.
  unfold inode_sync. rewrite (kbind_Done _ _ _ _ _ (field_run _ _ _)). cbv beta zeta. fold r. fold no.
  assert (Hl : on_mach (inode_locate part no) k = Done pos k).
  { rewrite (on_mach_Ok _ _ _ _ Hloc). by rewrite set_km_id. }
  rewrite (kbind_Done _ _ _ _ _ Hl). cbv beta.
  do 2 (rewrite (kbind_Done _ _ _ _ _ (field_run _ _ _)); cbv beta). fold r.
  rewrite bool_decide_true by lia. kstep.
  destruct (purify_eq pure inode (km k)) as (r1 & Hp1 & Hag1 & Hb1); [lia|done|done|]. fold r in Hag1, Hb1.
  destruct (own_step pb a0 ln hd ch dev t P R (cu_frame _ _ _ _ _ _ _ _ HU) _ a k r1 (within pure 76) Hk Hp1 Hag1) as (k1 & Hrun & Hk1 & Hr1).
  { intros x Hx. by apply S3. }
  rewrite (kbind_Done _ _ _ _ _ Hrun). cbv beta. clear Hrun Hk Hp1.
  assert (Hsecs : 1 <= (if two_sec pos then 2 else 1) <= 2 /\
    off_size pos + 76 <= 512 * (if two_sec pos then 2 else 1)).
  { rewrite L3. destruct (bool_decide _) eqn:E; [lia|]. apply bool_decide_eq_false in E. lia. }
  assert (Hpc : paced a0 (if two_sec pos then 2 else 1)).
  { destruct Hone as [Hone|Hst]; [left|by right]. rewrite L3, bool_decide_false; [done|].
    fold no in Hone. unfold in_one_sector, sizeof_inode in Hone. unfold sizeof_inode.
    replace (off_size pos) with (76 * no mod 512); [lia|].
    symmetry. apply (Z.mod_unique _ _ (sec_lba pos - table)); lia. }
  generalize dependent (if two_sec pos then 2 else 1). intros secs Hsecs Hpc.
  rewrite (kbind_Done _ _ _ _ _ (field_run _ _ _)). cbv beta. rewrite Hr1.
  rewrite (agree_ld32 _ _ _ (part + part_my_disk) Hag1), S1 by (intros i Hi; by apply S2).
  assert (Htr : transfer_ok hd ch P (sec_lba pos) io secs rounds).
  { split; [lia|lia|change max_lba with 131071; lia| |unfold rounds_for; lia]. split; [lia|lia|].
    intros x Hx. destruct (S7 x) as (? & ? & ? & ?); [unfold within in *; lia|done]. }
  eapply runs_bind; [eapply runs_weaken; [|by apply (read_bytes hw pb a0 ln hd ch dev t P R HU)]; done|].
  intros [] k2 (a2 & Hk2 & Hw2 & Hag2 & Hb2). rewrite Hr1 in Hag2.
  assert (Hag2' : agree (fun x => P x /\ ~ within io 1024 x) r1 (ram (km k2))).
  { eapply agree_weaken; [|exact Hag2]. unfold within. cbv beta. intros x [? ?]. split; [done|lia]. }
  clear Hag2. eapply runs_conseq; [eapply (patch_runs a2 k2 (ram (km k2)) pos secs); try done; try lia|].
  - intros x Hx. by apply S3.
  - rewrite (agree_ld32 _ _ _ (part + part_my_disk) Hag2').
    + rewrite <- S1. eapply agree_ld32; [exact Hag1|]. intros i Hi. by apply S2.
    + intros i Hi. destruct (S2 i Hi) as (? & _ & ?). by split.
  - intros x Hx. by apply S2.
  - intros j Hj. rewrite Hb2 by done. by rewrite Hw2.
  - intros [] k4 (a4 & Hk4 & Hag4 & Hb4 & Ho4). exists a4. split; [done|].
    unfold drive_after, sizeof_inode. rewrite <- L2. split; [|split].
    + transitivity r1; [eapply agree_weaken; [|exact Hag1]; cbv beta; tauto|].
      transitivity (ram (km k2)); (eapply agree_weaken; [|eassumption]); cbv beta; tauto.
    + intros j Hj. rewrite Hb4 by done. rewrite <- Hb1 by done. apply Hag2'.
      destruct (S3 (pure + j)) as [[Hpp _] Hio]; [unfold within; lia|]. by split.
    + intros e q Hq. rewrite Ho4 by done. apply Hw2.
Qed.
End sync.

(** C24: [inode_sync] puts the inode, with its open count, writer flag and list
    links cleared, at its place in the inode table, and changes no other byte
    of either drive and no memory but the copy and the buffer.  An inode in one
    sector needs no more of the drive than the PIO handshake; one that reaches
    into a second sector is read and written with commands for two sectors and
    needs a drive that streams them.  Only the clock may keep the call from
    coming back, when the drive is busy after the write command.  The place is
    that of the inode's number modulo 256: the code keeps the number in a
    [uint8_t], so inode 256 overwrites inode 0, the root directory's. *)
Theorem inode_sync_ok hw pb a0 ln hd ch dev t P R rounds fuel pure part inode io a k table :
  channel_use hw pb a0 hd ch t P R -> ready_for pb a0 ln hd ch dev t P R a k ->
  sync_ok hd ch P rounds (ram (km k)) pure part inode io -> table_ok (ram (km k)) part table ->
  in_one_sector (ld32 (ram (km k)) (inode + in_no) mod 256) \/ a_stream a0 = true ->
  runs_or (absent pb a0 ln ch t P R) (may_wait a0) (fun _ k' => exists a',
      ready_for pb a0 ln hd ch dev t P R a' k' /\
      agree (fun x => P x /\ ~ within pure 76 x /\ ~ within io 1024 x) (ram (km k)) (ram (km k')) /\
      drive_after dev inode table (ld32 (ram (km k)) (inode + in_no) mod 256) (ram (km k)) a a')
    (inode_sync hw ln rounds (S (S fuel)) pure part inode io k).
Proof. intros HU. by apply sync_runs. Qed.

(** Inode 256 of a mounted partition, open twice. *)
Definition demo_inode_ram : gmap Z Z :=
  st32 (st32 (st32 (st32 (st32 (st32 (st32 demo_ide_ram 0x3010 demo_hd) 0x301c 0x3100) 0x3120 20)
    0x3008 0) 0x300c 1000) 0x3200 256) 0x3208 2.
Definition demo_sync : kst := set_km (set_ram demo_inode_ram (km demo_reader)) demo_reader.

Lemma demo_sync_ready :
  ready_for 0x1f0 demo_slow demo_ide demo_hd 0x2000 1 0xc009e000 demo_private no_frame demo_slow demo_sync.
Proof.
  apply (ready_ram 0x1f0 demo_slow demo_ide demo_hd 0x2000 1 0xc009e000 demo_private no_frame no_frame_laws demo_slow demo_reader
    demo_inode_ram (within 0x3000 0x400) (demo_ready false 3)).
  - unfold demo_inode_ram. repeat (etransitivity; [|apply agree_st32; unfold within; intros; lia]). done.
  - unfold own, demo_private, within, demo_hd, device_at, sizeof_disk. intros; lia.
Qed.

Lemma demo_sync_ok : sync_ok demo_hd 0x2000 demo_private 2 demo_inode_ram 0x3300 0x3000 0x3200 0x4000.
Proof.
  assert (Hd : ld32 demo_inode_ram (0x3000 + part_my_disk) = demo_hd) by (by vm_compute).
  split; [exact Hd|..]; unfold own, demo_private, within, apart, part_my_disk, demo_hd, device_at, sizeof_disk;
    intros; lia.
Qed.

Lemma demo_table_ok : table_ok demo_inode_ram 0x3000 20.
Proof. split; by vm_compute. Qed.

Lemma inode_sync_ok_witness :
  runs_or (absent 0x1f0 demo_slow demo_ide 0x2000 0xc009e000 demo_private no_frame) (may_wait demo_slow) (fun _ k' => exists a',
      ready_for 0x1f0 demo_slow demo_ide demo_hd 0x2000 1 0xc009e000 demo_private no_frame a' k' /\
      agree (fun x => demo_private x /\ ~ within 0x3300 76 x /\ ~ within 0x4000 1024 x)
        (ram (km demo_sync)) (ram (km k')) /\
      drive_after 1 0x3200 20 (ld32 (ram (km demo_sync)) (0x3200 + in_no) mod 256) (ram (km demo_sync))
        demo_slow a')
    (inode_sync (ata_answers 0x1f0 demo_slow) demo_ide 2 2 0x3300 0x3000 0x3200 0x4000 demo_sync).
Proof.
  apply (inode_sync_ok _ 0x1f0 demo_slow demo_ide demo_hd 0x2000 1 0xc009e000 demo_private no_frame 2 0);
    [by apply demo_use|exact demo_sync_ready|exact demo_sync_ok|exact demo_table_ok|left; by vm_compute].
Defined.

(** ** Writing back a bitmap *)

(** The bitmap of kind [btmp] of a partition, in memory at [base] and on the
    disk from sector [lba]. *)
Record bitmap_on_disk (hd : Z) (r : gmap Z Z) (part btmp base lba : Z) : Prop := {
  bd_disk : ld32 r (part + part_my_disk) = hd;
  bd_kind : btmp = INODE_BITMAP /\ ld32 r (part + part_inode_bitmap + 4) = base /\
              ld32 r (ld32 r (part + part_sb) + sb_inode_bitmap_lba) = lba \/
            btmp = BLOCK_BITMAP /\ ld32 r (part + part_block_bitmap + 4) = base /\
              ld32 r (ld32 r (part + part_sb) + sb_block_bitmap_lba) = lba
}.

Lemma get_bitmap_run a k :
  on_mach (get_bitmap a) k = Done (Bitmap (ld32 (ram (km k)) a) (ld32 (ram (km k)) (a + 4))) k.
Proof.
  rewrite (on_mach_Ok _ _ (Bitmap (ld32 (ram (km k)) a) (ld32 (ram (km k)) (a + 4))) (km k)); [by rewrite set_km_id|].
  unfold get_bitmap, field, load32. mstep. mstep. by rewrite Z.add_0_r.
Qed.

(** How far [bitmap_sync] reads from the sector it writes. *)
Definition sector_shift (bit_idx : Z) : Z := bit_idx mod 4096 - 512 * (bit_idx / 4096).

(** C28: [bitmap_sync] writes one sector of the disk's bitmap, the one with bit
    [bit_idx], and no other byte of either drive.  The sector's bytes in memory
    start [512 * (bit_idx / 4096)] bytes after the bitmap's beginning; the code
    takes the bytes that start [bit_idx mod 4096] bytes after it, a number of
    bits for a number of bytes: those [sector_shift bit_idx] bytes further on.
    The sector written is the bitmap's when the shift is 0, as it is for bit 0
    and for bit 4608; in a bitmap of one sector it is so for bit 0 alone. *)
Theorem bitmap_sync_shifted hw pb a0 ln hd ch dev t P R rounds fuel part bit_idx btmp base lba a k :
  channel_use hw pb a0 hd ch t P R -> ready_for pb a0 ln hd ch dev t P R a k ->
  bitmap_on_disk hd (ram (km k)) part btmp base lba -> 0 <= bit_idx ->
  transfer_ok hd ch P (lba + bit_idx / 4096) (base + bit_idx mod 4096) 1 rounds ->
  runs_or (absent pb a0 ln ch t P R) (may_wait a0) (fun _ k' => exists a',
      ready_for pb a0 ln hd ch dev t P R a' k' /\ agree P (ram (km k)) (ram (km k')) /\
      (forall j, 0 <= j < 512 -> drive_byte a' dev (512 * (lba + bit_idx / 4096) + j) =
         ld8 (ram (km k)) (base + 512 * (bit_idx / 4096) + j + sector_shift bit_idx)) /\
      (0 <= bit_idx < 4096 -> sector_shift bit_idx = 0 -> bit_idx = 0) /\
      forall e q, e <> dev \/ ~ within (512 * (lba + bit_idx / 4096)) 512 q ->
        drive_byte a' e q = drive_byte a e q)
    (bitmap_sync hw ln rounds (S (S fuel)) part bit_idx btmp k).
Proof.
  intros HU Hk [Hd Hkind] Hi Htr. pose proof Htr as [T1 T2 T3 [T4 T5 _] _]. change max_lba with 131071 in *.
  assert (Hp : bitmap_sync hw ln rounds (S (S fuel)) part bit_idx btmp k =
    ide_write hw ln rounds (S (S fuel)) hd (lba + bit_idx / 4096) (base + bit_idx mod 4096) 1 k).
  { unfold bitmap_sync. rewrite (kbind_Done _ _ _ _ _ (field_run _ _ _)). cbv beta.
    destruct Hkind as [(-> & Hb & Hl)|(-> & Hb & Hl)].
    - rewrite decide_True by done.
      rewrite (kbind_assoc _ _ _ _ _ _ (field_run _ _ _)). cbv beta.
      rewrite (kbind_assoc _ _ _ _ _ _ (get_bitmap_run _ _)). cbv beta. kstep.
      rewrite (kbind_Done _ _ _ _ _ (field_run _ _ _)). cbv beta. cbn [fst snd bits].
      by rewrite Hl, Hb, Hd, !u32_id by lia.
    - rewrite decide_False, decide_True by done.
      rewrite (kbind_assoc _ _ _ _ _ _ (field_run _ _ _)). cbv beta.
      rewrite (kbind_assoc _ _ _ _ _ _ (get_bitmap_run _ _)). cbv beta. kstep.
      rewrite (kbind_Done _ _ _ _ _ (field_run _ _ _)). cbv beta. cbn [fst snd bits].
      by rewrite Hl, Hb, Hd, !u32_id by lia. }
  rewrite Hp. eapply runs_conseq; [apply (write_bytes hw pb a0 ln hd ch dev t P R HU rounds fuel a); [done|done|by left]|].
  intros [] k' (a' & Hk' & Hag & Hw & Ho). exists a'.
  split; [done|]. split; [done|]. split; [|split].
  { intros j Hj. rewrite Hw by lia. f_equal. unfold sector_shift. lia. }
  { intros Hs. unfold sector_shift. rewrite Z.div_small, Z.mod_small by lia. lia. }
  intros e q Hq. apply Ho. unfold within in Hq. lia.
Qed.

(** Bit 8 of the inode bitmap. *)
Definition demo_bitmap_ram : gmap Z Z :=
  st32 (st32 (st32 (st32 demo_ide_ram 0x3010 demo_hd) 0x301c 0x3100) 0x302c 0x5000) 0x3118 30.
Definition demo_bitmap : kst := set_km (set_ram demo_bitmap_ram (km demo_reader)) demo_reader.

Lemma demo_bitmap_ready :
  ready_for 0x1f0 demo_drive demo_ide demo_hd 0x2000 1 0xc009e000 demo_private no_frame demo_drive demo_bitmap.
Proof.
  apply (ready_ram 0x1f0 demo_drive demo_ide demo_hd 0x2000 1 0xc009e000 demo_private no_frame no_frame_laws demo_drive demo_reader
    demo_bitmap_ram (within 0x3000 0x400) (demo_ready true 0)).
  - unfold demo_bitmap_ram. repeat (etransitivity; [|apply agree_st32; unfold within; intros; lia]). done.
  - unfold own, demo_private, within, demo_hd, device_at, sizeof_disk. intros; lia.
Qed.

Lemma demo_bitmap_transfer : transfer_ok demo_hd 0x2000 demo_private (30 + 8 / 4096) (0x5000 + 8 mod 4096) 1 2.
Proof.
  change (30 + 8 / 4096) with 30. change (0x5000 + 8 mod 4096) with 0x5008.
  split; [done..| |done]. split; [done..|]. unfold demo_private, within, demo_hd, device_at, sizeof_disk.
  intros x Hx. lia.
Qed.

Lemma bitmap_sync_shifted_witness :
  runs_or (absent 0x1f0 demo_drive demo_ide 0x2000 0xc009e000 demo_private no_frame) (may_wait demo_drive) (fun _ k' => exists a',
      ready_for 0x1f0 demo_drive demo_ide demo_hd 0x2000 1 0xc009e000 demo_private no_frame a' k' /\
      agree demo_private (ram (km demo_bitmap)) (ram (km k')) /\
      (forall j, 0 <= j < 512 -> drive_byte a' 1 (512 * (30 + 8 / 4096) + j) =
         ld8 (ram (km demo_bitmap)) (0x5000 + 512 * (8 / 4096) + j + sector_shift 8)) /\
      (0 <= 8 < 4096 -> sector_shift 8 = 0 -> 8 = 0) /\
      forall e q, e <> 1 \/ ~ within (512 * (30 + 8 / 4096)) 512 q ->
        drive_byte a' e q = drive_byte demo_drive e q)
    (bitmap_sync (ata_answers 0x1f0 demo_drive) demo_ide 2 2 0x3000 8 INODE_BITMAP demo_bitmap).
Proof.
  apply (bitmap_sync_shifted _ 0x1f0 demo_drive demo_ide demo_hd 0x2000 1 0xc009e000 demo_private no_frame 2 0);
    [by apply demo_use|exact demo_bitmap_ready| |lia|exact demo_bitmap_transfer].
  split; [by vm_compute|left; split; [done|split; by vm_compute]].
Defined.
