(* ===== verification/InodeOpen.v ===== *)
(** * The table of open inodes

    [inode_open] of an inode that is already open and [inode_close], on the
    partition's list of open inodes: the list in memory, its inodes blocks of
    the kernel's byte heap, as a table of inode numbers and counts. *)
From S2P Require Import Prelude Machine Global Str Bitmap KList Paging Kernel Thread Timer.
From S2P Require Import Sync Console Memory PageHeap PageAlloc Arena ArenaHeap HeapSpec Malloc.
From S2P Require Import Interrupt Syscall Printk Ide Inode.

(** ** The table *)

(** An open inode: its address, its number, how often it is open. *)
Record opened := Opened { o_at : Z; o_no : Z; o_cnt : Z }.
Definition set_cnt (n : Z) (x : opened) : opened := Opened (o_at x) (o_no x) n.

(** The address of inode [no] if it is open, or 0. *)
Fixpoint open_at (no : Z) (xs : list opened) : Z :=
  match xs with
  | [] => 0
  | x :: xs => if decide (o_no x = no) then o_at x else open_at no xs
  end.

(** Inode [no] is opened once more. *)
Fixpoint add_ref (no : Z) (xs : list opened) : list opened :=
  match xs with
  | [] => []
  | x :: xs => if decide (o_no x = no) then set_cnt (o_cnt x + 1) x :: xs else x :: add_ref no xs
  end.

(** The inode at [a] is closed: with its last reference it leaves the table. *)
Fixpoint drop_ref (a : Z) (xs : list opened) : list opened :=
  match xs with
  | [] => []
  | x :: xs => if decide (o_at x = a)
               then if decide (o_cnt x = 1) then xs else set_cnt (o_cnt x - 1) x :: xs
               else x :: drop_ref a xs
  end.

(** Every inode of the table is open. *)
Definition in_use (xs : list opened) : Prop := forall x, x ∈ xs -> 0 < o_cnt x.

Lemma open_at_app no xs x ys : no ∉ o_no <$> xs -> o_no x = no -> open_at no (xs ++ x :: ys) = o_at x.
Proof.
  intros Hn Hx. induction xs as [|y xs IH]; simpl; [by rewrite decide_True|].
  rewrite fmap_cons in Hn. rewrite decide_False by set_solver. apply IH. set_solver.
Qed.

Lemma add_ref_app no xs x ys : no ∉ o_no <$> xs -> o_no x = no ->
  add_ref no (xs ++ x :: ys) = xs ++ set_cnt (o_cnt x + 1) x :: ys.
Proof.
  intros Hn Hx. induction xs as [|y xs IH]; simpl; [by rewrite decide_True|].
  rewrite fmap_cons in Hn. rewrite decide_False by set_solver. rewrite IH; [done|set_solver].
Qed.

Lemma drop_ref_app xs x ys : o_at x ∉ o_at <$> xs ->
  drop_ref (o_at x) (xs ++ x :: ys) =
    xs ++ if decide (o_cnt x = 1) then ys else set_cnt (o_cnt x - 1) x :: ys.
Proof.
  intros Hn. induction xs as [|y xs IH]; simpl; [by rewrite decide_True|].
  rewrite fmap_cons in Hn. rewrite decide_False by set_solver. rewrite IH; [done|set_solver].
Qed.

(** ** The table in memory *)

Definition tag (x : opened) : Z := o_at x + in_tag.

Section table.
Context (D part : Z).

(** The bytes of the list and of the open inodes. *)
Definition list_byte (i : Z) : Prop := within (part + part_open_inodes) 16 i.
Definition table_byte (xs : list opened) (i : Z) : Prop :=
  list_byte i \/ exists x, x ∈ xs /\ within (o_at x) sizeof_inode i.

Abbreviation base s := (@pa_base PF_KERNEL _ s).
Abbreviation pages s := (@pa_pages PF_KERNEL _ s).
Abbreviation klive s G := (live (base s) G).

(** What memory [r] says of an open inode. *)
Record entry (r : gmap Z Z) (x : opened) : Prop := {
  en_no : ld32 r (o_at x + in_no) = o_no x;
  en_cnt : ld32 r (o_at x + in_open_cnts) = o_cnt x
}.

Record open_table (s : vm) (G : gheap) (xs : list opened) : Prop := {
  ot_list : list_at (ram (vmach s)) (part + part_open_inodes) (tag <$> xs);
  ot_entry x : x ∈ xs -> entry (ram (vmach s)) x;
  ot_live x : x ∈ xs -> exists n, klive s G (o_at x) n /\ sizeof_inode <= n;
  ot_nos : NoDup (o_no <$> xs);
  ot_part i : list_byte i -> ~ within D 168 i /\
    ~ within (base s) (4096 * pages s) i /\ ~ @pa_private PF_KERNEL _ s i
}.

Lemma ot_at s G xs : open_table s G xs -> NoDup (o_at <$> xs).
Proof.
  intros [[_ Hs _] _ _ _ _]. unfold nodes in Hs. destruct Hs as [_ Hs].
  apply sep_app in Hs as (Hs & _). clear -Hs. induction xs as [|x xs IH]; [constructor|].
  rewrite fmap_cons in *. destruct Hs as [Hx Hs]. constructor; [|by apply IH].
  intros (y & Ey & Hy)%list_elem_of_fmap. rewrite Forall_forall in Hx.
  destruct (Hx (tag y)); [by apply list_elem_of_fmap_2|unfold tag in *; lia..].
Qed.

Section facts.
Context (s : vm) (G : gheap) (xs : list opened).
Context (H : heap_inv PF_KERNEL D s G) (HT : open_table s G xs).

(** Blocks that can hold an inode do not overlap. *)
Lemma blocks_apart a b n m i : klive s G a n -> klive s G b m -> sizeof_inode <= n ->
  sizeof_inode <= m -> a <> b -> within a sizeof_inode i -> ~ within b sizeof_inode i.
Proof.
  intros Hn Hm Hn' Hm' Hne Hi Hj. unfold within in *.
  destruct (live_disjoint PF_KERNEL D s G _ _ _ _ H Hn Hm) as [[]|]; [done|lia].
Qed.

Lemma inodes_apart x y i : x ∈ xs -> y ∈ xs -> o_at x <> o_at y ->
  within (o_at x) sizeof_inode i -> ~ within (o_at y) sizeof_inode i.
Proof.
  intros Hx Hy. destruct (ot_live _ _ _ HT x Hx) as (n & Hn & Hn').
  destruct (ot_live _ _ _ HT y Hy) as (m & Hm & Hm'). by apply (blocks_apart _ _ n m).
Qed.

(** The table is none of the heap's own ground. *)
Lemma table_others i : table_byte xs i ->
  others (base s) (pages s) D G i /\ ~ @pa_private PF_KERNEL _ s i.
Proof.
  intros [Hi|(x & Hx & Hi)].
  - destruct (ot_part _ _ _ HT i Hi) as (H1 & H2 & H3). split; [|done]. right. unfold within in *. tauto.
  - destruct (ot_live _ _ _ HT x Hx) as (n & Hn & Hn'). unfold within in *.
    destruct (live_bytes PF_KERNEL D s G _ _ i H Hn) as (_ & _ & Hp); [lia|].
    split; [|done]. left. exists (o_at x), n. split; [done|lia].
Qed.

Lemma list_block_apart i a n : list_byte i -> klive s G a n -> sizeof_inode <= n ->
  ~ within a sizeof_inode i.
Proof.
  intros Hi Hn Hn' Hw. destruct (ot_part _ _ _ HT i Hi) as (_ & H2 & _). apply H2. unfold within in *.
  destruct (live_bytes PF_KERNEL D s G _ _ i H Hn) as (Hp & _); [lia|done].
Qed.

Lemma list_apart i x : list_byte i -> x ∈ xs -> ~ within (o_at x) sizeof_inode i.
Proof.
  intros Hi Hx. destruct (ot_live _ _ _ HT x Hx) as (n & Hn & Hn'). by apply (list_block_apart _ _ n).
Qed.

(** The list's links are the part's list and the inodes' tags. *)
Lemma links_bytes i : ~ outside (nodes (part + part_open_inodes) (tag <$> xs)) i ->
  list_byte i \/ exists x, x ∈ xs /\ within (tag x) 8 i.
Proof.
  unfold outside. intros Hn.
  destruct (decide (list_byte i)) as [|Hl]; [by left|right].
  apply not_Forall_Exists in Hn; [|apply _]. apply Exists_exists in Hn as (y & Hy & Hi).
  apply dec_stable in Hi. unfold nodes, head_of, tail_of in Hy.
  apply elem_of_cons in Hy as [->|[Hy|Hy%list_elem_of_singleton]%elem_of_app].
  - destruct Hl. unfold list_byte, within. lia.
  - apply list_elem_of_fmap in Hy as (x & -> & Hx). by exists x.
  - destruct Hl. subst y. unfold list_byte, within. lia.
Qed.

Lemma links_table i : ~ outside (nodes (part + part_open_inodes) (tag <$> xs)) i -> table_byte xs i.
Proof.
  intros [Hi|(x & Hx & Hi)]%links_bytes; [by left|right]. exists x. split; [done|].
  unfold tag, in_tag, sizeof_inode, within in *. lia.
Qed.

(** Changes within the table's bytes keep the heap. *)
Lemma heap_inv_table r : agree (fun i => ~ table_byte xs i) (ram (vmach s)) r ->
  heap_inv PF_KERNEL D (with_ram r s) G.
Proof.
  intros Hag. apply heap_inv_others; [done|]. eapply agree_weaken; [|exact Hag].
  intros i Hn Hi. by apply Hn, table_others.
Qed.
End facts.

Lemma entry_agree (P : Z -> Prop) r r' x : agree P r r' ->
  (forall i, within (o_at x) 12 i -> P i) -> entry r x -> entry r' x.
Proof.
  intros Hag HP [E1 E2]. unfold within in HP. split; [rewrite <- E1|rewrite <- E2];
    (eapply agree_ld32; [exact Hag|]); unfold in_no, in_open_cnts; intros i Hi; apply HP; lia.
Qed.

Lemma set_cnt_fields n x y xs ys :
  o_no <$> (xs ++ set_cnt n x :: ys) = o_no <$> (xs ++ x :: ys) /\
  tag <$> (xs ++ set_cnt n x :: ys) = tag <$> (xs ++ x :: ys) /\
  (y ∈ xs ++ set_cnt n x :: ys <-> y = set_cnt n x \/ y ∈ xs ++ ys).
Proof. rewrite !fmap_app, !fmap_cons. split_and!; [done|done|set_solver]. Qed.

Lemma at_ne xs x ys y : NoDup (o_at <$> xs ++ x :: ys) -> y ∈ xs ++ ys -> o_at x <> o_at y.
Proof.
  intros Hnd Hy E. rewrite fmap_app, fmap_cons in Hnd. apply NoDup_app in Hnd as (_ & Hd1 & Hd2).
  apply NoDup_cons in Hd2 as [Hd2 _]. apply elem_of_app in Hy as [Hy|Hy].
  - apply (Hd1 (o_at x)); [|set_solver]. rewrite E. by apply list_elem_of_fmap_2.
  - apply Hd2. rewrite E. by apply list_elem_of_fmap_2.
Qed.

(** Storing a count. *)
Lemma set_count_ok s G xs x ys n :
  heap_inv PF_KERNEL D s G -> open_table s G (xs ++ x :: ys) -> 0 <= n < 4294967296 ->
  let s' := with_ram (st32 (ram (vmach s)) (o_at x + in_open_cnts) n) s in
  heap_inv PF_KERNEL D s' G /\ open_table s' G (xs ++ set_cnt n x :: ys).
Proof.
  intros H HT Hn s'. set (r := st32 _ _ _) in *.
  assert (Hx : x ∈ xs ++ x :: ys) by set_solver. pose proof (ot_at _ _ _ HT) as Hnd.
  assert (Hag : agree (fun i => ~ within (o_at x + in_open_cnts) 4 i) (ram (vmach s)) r).
  { apply st32_agree. unfold within. tauto. }
  split.
  - apply (heap_inv_table s G _ H HT). eapply agree_weaken; [|exact Hag]. intros i Hi Hw. apply Hi. right.
    exists x. split; [done|]. unfold within, in_open_cnts, sizeof_inode in *. lia.
  - destruct (set_cnt_fields n x x xs ys) as (En & Et & _). split; rewrite ?En, ?Et.
    + eapply list_at_agree; [|apply HT]. eapply agree_weaken; [|exact Hag].
      intros i Hi Hw. destruct (links_bytes _ i Hi) as [Hl|(y & Hy & Hwy)].
      * apply (list_apart s G _ H HT i x Hl Hx). unfold within, in_open_cnts, sizeof_inode in *. lia.
      * destruct (decide (o_at x = o_at y)) as [E|Hne].
        { unfold within, tag, in_tag, in_open_cnts in *. lia. }
        apply (inodes_apart s G _ H HT x y i); [done..| |];
          unfold within, tag, in_tag, in_open_cnts, sizeof_inode in *; lia.
    + intros y [->|Hy]%(set_cnt_fields n x y xs ys).
      * destruct (ot_entry _ _ _ HT x Hx) as [E1 E2]. split.
        2:{ change (ld32 r (o_at x + in_open_cnts) = n). unfold r. by rewrite ld32_st32_eq, u32_id by lia. }
        change (ld32 r (o_at x + in_no) = o_no x). rewrite <- E1. apply ld32_st32_ne. unfold in_no, in_open_cnts. lia.
      * eapply entry_agree; [exact Hag| |apply (ot_entry _ _ _ HT); set_solver].
        intros i Hi Hw. apply (inodes_apart s G _ H HT x y i); [done|set_solver|..];
          try (unfold within, in_open_cnts, sizeof_inode in *; lia).
        by apply (at_ne xs x ys).
    + intros y [->|Hy]%(set_cnt_fields n x y xs ys); [by apply (ot_live _ _ _ HT x)|].
      apply (ot_live _ _ _ HT). set_solver.
    + apply HT.
    + apply HT.
Qed.

(** Taking an inode out of the list. *)
Lemma unlink_ok s G xs x ys :
  heap_inv PF_KERNEL D s G -> open_table s G (xs ++ x :: ys) ->
  exists r, list_remove (tag x) (vmach s) = Ok (tt, set_ram r (vmach s)) /\
    agree (fun i => ~ table_byte (xs ++ x :: ys) i) (ram (vmach s)) r /\
    heap_inv PF_KERNEL D (with_ram r s) G /\ open_table (with_ram r s) G (xs ++ ys).
Proof.
  intros H HT. pose proof (ot_list _ _ _ HT) as Hl. rewrite fmap_app, fmap_cons in Hl.
  destruct (list_remove_spec _ _ _ _ _ Hl) as (r & Hr & Hl' & Hag).
  rewrite <- fmap_cons, <- fmap_app in Hag. rewrite <- fmap_app in Hl'.
  assert (Hag' : agree (fun i => ~ table_byte (xs ++ x :: ys) i) (ram (vmach s)) r).
  { eapply agree_weaken; [|exact Hag]. intros i Hi. destruct (decide (outside (nodes (part + part_open_inodes)
      (tag <$> xs ++ x :: ys)) i)) as [|Hn]; [done|]. by destruct Hi; apply links_table. }
  exists r. split; [exact Hr|]. split; [exact Hag'|]. split; [by apply (heap_inv_table s G _ H HT)|].
  split; [exact Hl'| | | |apply HT].
  - intros y Hy. eapply entry_agree; [exact Hag| |apply (ot_entry _ _ _ HT); set_solver].
    intros i Hi. destruct (decide (outside (nodes (part + part_open_inodes) (tag <$> xs ++ x :: ys)) i))
      as [|[Hw|(z & Hz & Hw)]%links_bytes]; [done|..]; exfalso.
    + apply (list_apart s G _ H HT i y); [done|set_solver|]. unfold within, sizeof_inode in *. lia.
    + destruct (decide (o_at y = o_at z)) as [E|Hne]; [unfold within, tag, in_tag in *; lia|].
      apply (inodes_apart s G _ H HT y z i); [set_solver|done|done|..];
        unfold within, tag, in_tag, sizeof_inode in *; lia.
  - intros y Hy. apply (ot_live _ _ _ HT). set_solver.
  - eapply sublist_NoDup; [apply (ot_nos _ _ _ HT)|]. apply fmap_sublist, sublist_app; [done|].
    by apply sublist_cons.
Qed.

(** Freeing a block that is none of the table's. *)
Lemma free_table s s' G G' xs a :
  heap_inv PF_KERNEL D s G -> open_table s G xs -> released PF_KERNEL D s G s' G' a ->
  a ∉ o_at <$> xs -> open_table s' G' xs.
Proof.
  intros H HT R Ha. pose proof (re_kept _ _ _ _ _ _ _ R) as Hk.
  destruct (kept_static _ _ _ _ _ Hk) as (Eb & Ep & Epr).
  assert (Hlive : forall x, x ∈ xs -> exists n, klive s' G' (o_at x) n /\ sizeof_inode <= n).
  { intros x Hx. destruct (ot_live _ _ _ HT x Hx) as (n & Hn & Hn'). exists n. split; [|done].
    apply (re_live _ _ _ _ _ _ _ R). split; [done|]. intros <-. apply Ha. by apply list_elem_of_fmap_2. }
  assert (Hag : agree (table_byte xs) (ram (vmach s)) (ram (vmach s'))).
  { eapply agree_weaken; [|exact (k_ram _ _ _ _ _ Hk)]. intros i Hi.
    split; [|by apply (table_others s G xs H HT)]. destruct Hi as [Hi|(x & Hx & Hi)].
    - destruct (ot_part _ _ _ HT i Hi) as (H1 & H2 & _). right. unfold within in *. tauto.
    - left. destruct (Hlive x Hx) as (n & Hn & Hn'). rewrite Eb in Hn. exists (o_at x), n.
      split; [done|]. unfold within in Hi. lia. }
  split.
  - eapply list_at_agree; [|apply HT]. eapply agree_weaken; [|exact Hag]. apply links_table.
  - intros x Hx. eapply entry_agree; [exact Hag| |by apply HT]. intros i Hi. right. exists x. split; [done|].
    unfold within, sizeof_inode in *. lia.
  - exact Hlive.
  - apply HT.
  - intros i Hi. rewrite Eb, Ep, Epr. by apply (ot_part _ _ _ HT).
Qed.

Lemma apart_bytes a b : (forall i, within a 8 i -> ~ within b 8 i) -> KList.apart a b.
Proof.
  unfold within, KList.apart. intros Hd. destruct (decide (a + 8 <= b)); [by left|right].
  destruct (decide (b + 8 <= a)); [done|]. exfalso. apply (Hd (Z.max a b)); lia.
Qed.

(** A block with an inode that is not open enters the list. *)
Section link.
Context (s : vm) (G : gheap) (xs : list opened) (x : opened) (n : Z).
Context (H : heap_inv PF_KERNEL D s G) (HT : open_table s G xs).
Context (Hn : klive s G (o_at x) n) (Hn' : sizeof_inode <= n) (Ha : o_at x ∉ o_at <$> xs).

Lemma tag_bytes a i : within (a + in_tag) 8 i -> within a sizeof_inode i.
Proof. unfold within, in_tag, sizeof_inode. lia. Qed.

Lemma entry_bytes a i : within a 12 i -> within a sizeof_inode i.
Proof. unfold within, sizeof_inode. lia. Qed.

Lemma new_apart y i : y ∈ xs -> within (o_at x) sizeof_inode i -> ~ within (o_at y) sizeof_inode i.
Proof.
  intros Hy. destruct (ot_live _ _ _ HT y Hy) as (m & Hm & Hm').
  apply (blocks_apart s G H _ _ n m); [done..|]. intros E. apply Ha. rewrite E. by apply list_elem_of_fmap_2.
Qed.

Lemma new_list_apart i : list_byte i -> ~ within (o_at x) sizeof_inode i.
Proof. intros Hi. by apply (list_block_apart s G xs H HT i _ n). Qed.

Lemma new_fresh : fresh_elem (part + part_open_inodes) (tag <$> xs) (tag x).
Proof.
  split.
  - destruct (live_bytes PF_KERNEL D s G _ _ (tag x) H Hn) as (Hb & _);
      [unfold tag, in_tag, sizeof_inode in *; lia|].
    destruct (hi_layout _ _ _ _ H) as [[Hb0 _] Htop _]. unfold addr_ok. lia.
  - apply Forall_forall. unfold nodes, head_of, tail_of.
    intros b [->|[(y & -> & Hy)%list_elem_of_fmap| ->%list_elem_of_singleton]%elem_of_app]%elem_of_cons;
      apply apart_bytes; intros i Hi Hj; apply tag_bytes in Hi.
    + apply (new_list_apart i); [|done]. unfold list_byte, within in *. lia.
    + apply (new_apart y i); [done..|]. by apply tag_bytes.
    + apply (new_list_apart i); [|done]. unfold list_byte, within in *. lia.
Qed.

(** What a push changes. *)
Definition push_byte (i : Z) : Prop :=
  within (tag x) 8 i \/ list_byte i \/ exists y, y ∈ xs /\ within (tag y) 8 i.

Lemma push_table i : push_byte i -> table_byte (x :: xs) i.
Proof.
  intros [Hw|[Hw|(y & Hy & Hw)]]; [right; exists x|by left|right; exists y]; split;
    try (by apply tag_bytes); by constructor.
Qed.

Lemma new_table_others i : table_byte (x :: xs) i ->
  others (base s) (pages s) D G i /\ ~ @pa_private PF_KERNEL _ s i.
Proof.
  intros [Hw|(y & [->|Hy]%elem_of_cons & Hw)].
  - apply (table_others s G xs H HT). by left.
  - destruct (live_bytes PF_KERNEL D s G _ _ i H Hn) as (_ & _ & Hp);
      [unfold within, sizeof_inode in *; lia|].
    split; [|done]. left. exists (o_at x), n. split; [done|]. unfold within, sizeof_inode in *. lia.
  - apply (table_others s G xs H HT). right. by exists y.
Qed.

(** The numbers and counts are none of it. *)
Lemma push_entry y i : y ∈ x :: xs -> within (o_at y) 12 i -> ~ push_byte i.
Proof.
  intros Hy Hi Hp. pose proof (entry_bytes _ _ Hi) as Hi'.
  assert (Hsame : forall z, o_at y = o_at z -> ~ within (tag z) 8 i)
    by (unfold within, tag, in_tag in *; lia).
  apply elem_of_cons in Hy as [->|Hy]; destruct Hp as [Hw|[Hw|(z & Hz & Hw)]].
  - by apply (Hsame x).
  - by apply (new_list_apart i).
  - apply (new_apart z i); [done..|]. by apply tag_bytes.
  - apply (new_apart y i); [done|by apply tag_bytes|done].
  - by apply (list_apart s G xs H HT i y).
  - destruct (decide (o_at y = o_at z)) as [E|Hne]; [by apply (Hsame z)|].
    apply (inodes_apart s G xs H HT y z i); [done..|]. by apply tag_bytes.
Qed.

Lemma link_ok : entry (ram (vmach s)) x -> o_no x ∉ o_no <$> xs ->
  exists r, list_push (part + part_open_inodes) (tag x) (vmach s) = Ok (tt, set_ram r (vmach s)) /\
    agree (fun i => ~ table_byte (x :: xs) i) (ram (vmach s)) r /\
    heap_inv PF_KERNEL D (with_ram r s) G /\ open_table (with_ram r s) G (x :: xs).
Proof.
  intros He Hno. destruct (list_push_spec (part + part_open_inodes) (tag <$> xs) (tag x) (vmach s))
    as (r & Hr & Hl & Hag); [apply HT|exact new_fresh|].
  assert (Hp : agree (fun i => ~ push_byte i) (ram (vmach s)) r).
  { eapply agree_weaken; [|exact Hag]. intros i Hi. apply Forall_cons.
    split; [intros Hw; apply Hi; by left|].
    change (outside (nodes (part + part_open_inodes) (tag <$> xs)) i).
    destruct (decide (outside (nodes (part + part_open_inodes) (tag <$> xs)) i)) as [|Hx%links_bytes];
      [done|]. destruct Hi. by right. }
  assert (Ht : agree (fun i => ~ table_byte (x :: xs) i) (ram (vmach s)) r).
  { eapply agree_weaken; [|exact Hp]. intros i Hi Hb. by apply Hi, push_table. }
  exists r. split; [exact Hr|]. split; [exact Ht|]. split.
  - apply heap_inv_others; [done|]. eapply agree_weaken; [|exact Ht]. intros i Hi Hb.
    by apply Hi, new_table_others.
  - split; [exact Hl| | | |apply HT].
    + intros y Hy. eapply entry_agree; [exact Hp|intros i; by apply push_entry|].
      apply elem_of_cons in Hy as [->|Hy]; [exact He|by apply HT].
    + intros y [->|Hy]%elem_of_cons; [by exists n|by apply HT].
    + rewrite fmap_cons. constructor; [done|apply HT].
Qed.
End link.

(** ** The functions *)

Lemma find_open_spec fuel no xs ys m :
  list_at (ram m) (part + part_open_inodes) (tag <$> ys ++ xs) ->
  (forall x, x ∈ xs -> ld32 (ram m) (o_at x + in_no) = o_no x) -> (length xs < fuel)%nat ->
  find_open fuel part no (List.hd (tail_of (part + part_open_inodes)) (tag <$> xs)) m =
    Ok (open_at no xs, m).
Proof.
  revert fuel ys. induction xs as [|x xs IH]; intros fuel ys Hl Hno Hf; (destruct fuel as [|fuel]; [simpl in Hf; lia|]).
  { cbn [find_open fmap list_fmap List.hd]. by rewrite decide_False by auto. }
  cbn [find_open fmap list_fmap List.hd open_at].
  rewrite decide_True.
  2:{ intros E. apply (la_tail_notin _ _ _ Hl). rewrite <- E, fmap_app, fmap_cons. set_solver. }
  cbv zeta. replace (tag x - in_tag) with (o_at x) by (unfold tag; lia).
  unfold field, load32 at 1. mstep. rewrite (Hno x) by set_solver.
  case_decide; [done|]. unfold get_next, load32. mstep.
  rewrite fmap_app, fmap_cons in Hl. rewrite (la_step _ _ _ _ _ Hl).
  apply (IH fuel (ys ++ [x])); [|set_solver|simpl in Hf; lia].
  rewrite <- app_assoc. rewrite fmap_app. exact Hl.
Qed.
End table.

Lemma open_table_view D part s s' G xs :
  vmem s' = vmem s -> ram (vmach s') = ram (vmach s) ->
  open_table D part s G xs -> open_table D part s' G xs.
Proof.
  intros Em Er [H1 H2 H3 H4 H5]. destruct (static_view s s' Em) as (Eb & En & Ea).
  split; cbn [pa_base pa_pages pa_private kernel_PageAlloc] in *; rewrite ?Eb, ?En, ?Er; try done.
  intros i Hi. rewrite Ea. by apply H5.
Qed.

(** An entry of the table, with what comes before and after. *)
Lemma table_split D part s G xs x : open_table D part s G xs -> x ∈ xs ->
  exists ys zs, xs = ys ++ x :: zs /\ o_no x ∉ o_no <$> ys /\ o_at x ∉ o_at <$> ys.
Proof.
  intros HT (ys & zs & ->)%list_elem_of_split. exists ys, zs. split; [done|].
  pose proof (ot_nos _ _ _ _ _ HT) as Hn. pose proof (ot_at _ _ _ _ _ HT) as Ha.
  rewrite fmap_app, fmap_cons in Hn, Ha. apply NoDup_app in Hn as (_ & Hn & _), Ha as (_ & Ha & _).
  split; intros Hin; [apply (Hn _ Hin)|apply (Ha _ Hin)]; by apply list_elem_of_here.
Qed.

Section run.
Context (kd part : Z).

Lemma inode_open_hit hw ln rounds lk fuel lfuel k G xs x :
  heap_inv PF_KERNEL kd (vm_of k) G -> open_table kd part (vm_of k) G xs -> x ∈ xs ->
  0 <= o_cnt x < 4294967295 -> (length xs < lfuel)%nat ->
  let r := st32 (ram (km k)) (o_at x + in_open_cnts) (o_cnt x + 1) in
  let k' := set_km (set_ram r (km k)) k in
  inode_open hw ln rounds lk fuel lfuel kd part (o_no x) k = Done (o_at x) k' /\
  heap_inv PF_KERNEL kd (vm_of k') G /\ open_table kd part (vm_of k') G (add_ref (o_no x) xs).
Proof.
  intros H HT Hx Hc Hf r k'. destruct (table_split _ _ _ _ _ _ HT Hx) as (ys & zs & -> & Hno & Hat).
  destruct (set_count_ok kd part (vm_of k) G ys x zs (o_cnt x + 1) H HT) as [H' HT']; [lia|].
  rewrite add_ref_app by done. split; [|split; [exact H'|exact HT']].
  assert (Hpos : o_at x <> 0).
  { destruct (ot_live _ _ _ _ _ HT x Hx) as (n & Hn & Hn'). unfold sizeof_inode in Hn'.
    destruct (live_bytes PF_KERNEL kd _ G _ _ (o_at x) H Hn) as (Hb & _); [lia|].
    destruct (ly_base _ _ _ (hi_layout _ _ _ _ H)). lia. }
  unfold inode_open.
  assert (E1 : get_next (head_of (part + part_open_inodes)) (km k) =
    Ok (List.hd (tail_of (part + part_open_inodes)) (tag <$> ys ++ x :: zs), km k)).
  { unfold get_next, load32, gets. f_equal. f_equal. exact (la_next_hd _ _ _ (ot_list _ _ _ _ _ HT)). }
  assert (E2 : on_mach (get_next (head_of (part + part_open_inodes))) k =
    Done (List.hd (tail_of (part + part_open_inodes)) (tag <$> ys ++ x :: zs)) k).
  { unfold on_mach. erewrite lift_Ok by exact E1. by rewrite set_km_id. }
  rewrite (kbind_Done _ _ _ _ _ E2). cbv beta. clear E1 E2.
  assert (E : on_mach (find_open lfuel part (o_no x)
    (List.hd (tail_of (part + part_open_inodes)) (tag <$> ys ++ x :: zs))) k = Done (o_at x) k).
  { unfold on_mach. erewrite lift_Ok; [by rewrite set_km_id|].
    rewrite (find_open_spec part lfuel (o_no x) (ys ++ x :: zs) [] (km k)); [by rewrite open_at_app|apply HT| |done].
    intros y Hy. apply (ot_entry _ _ _ _ _ HT y Hy). }
  rewrite (kbind_Done _ _ _ _ _ E). cbv beta. rewrite decide_True by done. clear E.
  assert (E : on_mach (field (o_at x) in_open_cnts) k = Done (o_cnt x) k).
  { rewrite <- (en_cnt _ _ (ot_entry _ _ _ _ _ HT x Hx)). unfold on_mach.
    erewrite lift_Ok; [by rewrite set_km_id|done]. }
  rewrite (kbind_Done _ _ _ _ _ E). cbv beta. kstep. done.
Qed.

(** What closing the inode of [x] does: the table is [xs'] then, [freed] says
    whether its block goes back to the heap. *)
Record closed (xs : list opened) (x : opened) (freed : Prop) (k : kst) (G : gheap)
    (k' : kst) (G' : gheap) (xs' : list opened) : Prop := {
  cl_heap : heap_inv PF_KERNEL kd (vm_of k') G';
  cl_table : open_table kd part (vm_of k') G' xs';
  cl_live y m : live (page_addr (vm_of k') 0) G' y m <->
    live (page_addr (vm_of k) 0) G y m /\ ~ (freed /\ y = o_at x);
  cl_mach : km k' = set_ram (ram (km k')) (km k);
  cl_mem : kmem k' = kmem k;
  cl_aside : aside kernel_pool_lock k k';
  cl_ram : agree (fun i => others (page_addr (vm_of k) 0) (npages (vm_of k)) kd G' i /\
                           ~ bitmap_bytes (vm_of k) i /\ ~ table_byte part xs i)
             (ram (km k)) (ram (km k'))
}.

Lemma pgdir_restored th t : is_Some (tasks th !! t) ->
  upd_task_st t (set_pgdir (pgdir (task_at th t))) (upd_task_st t (set_pgdir 0) th) = th.
Proof.
  intros [t0 Ht]. unfold upd_task_st, set_tasks, task_at. simpl. rewrite lookup_insert_eq, Ht. simpl.
  rewrite insert_insert_eq, insert_id; [by destruct th|]. rewrite Ht. by destruct t0.
Qed.

(** The inode leaves the list and its block the heap, the page directory of
    the thread put aside meanwhile. *)
Definition discard (lkfuel hfuel lfuel : nat) (inode : Z) : K unit :=
  on_mach (list_remove (inode + in_tag));;
  cur ← running_thread;
  t ← get_task cur;
  let cur_pagedir_bak := pgdir t in
  upd_task cur (set_pgdir 0);;
  sys_free lkfuel hfuel lfuel inode;;
  upd_task cur (set_pgdir cur_pagedir_bak).

Lemma discard_run lk fuel lfuel k G xs x ys :
  IF (km k) = false -> lock_free kernel_pool_lock k -> running (kt k) <> 0 ->
  is_Some (tasks (kt k) !! running (kt k)) -> heap_inv PF_KERNEL kd (vm_of k) G ->
  open_table kd part (vm_of k) G (xs ++ x :: ys) -> K_HEAP_START <= page_addr (vm_of k) 0 ->
  (256 <= fuel)%nat -> 255 * npages (vm_of k) + 1 < Z.of_nat lfuel ->
  exists k' G', discard (S lk) fuel lfuel (o_at x) k = Done tt k' /\
    closed (xs ++ x :: ys) x True k G k' G' (xs ++ ys).
Proof.
  intros HI Hl Hr Ht H HT Hbase Hfu Hlf. assert (Hx : x ∈ xs ++ x :: ys) by set_solver.
  destruct (unlink_ok kd part (vm_of k) G xs x ys H HT) as (r1 & Hrm & Hag1 & H1 & HT1).
  set (k1 := set_km (set_ram r1 (km k)) k).
  assert (Erm : on_mach (list_remove (tag x)) k = Done tt k1).
  { unfold on_mach. by erewrite lift_Ok by exact Hrm. }
  set (t := running (kt k)) in *. set (k2 := set_kt (upd_task_st t (set_pgdir 0) (kt k)) k1).
  assert (Hcall : heap_caller PF_KERNEL k2).
  { split; [exact HI|exact Hl|exact Hr|]. cbn [kt set_kt k2]. unfold upd_task_st, set_tasks, task_at.
    cbn [tasks running]. rewrite lookup_insert_eq. done. }
  assert (H2 : heap_inv PF_KERNEL kd (vm_of k2) G) by (by apply (heap_inv_view kd (with_ram r1 (vm_of k)))).
  assert (HT2 : open_table kd part (vm_of k2) G (xs ++ ys))
    by (by apply (open_table_view kd part (with_ram r1 (vm_of k)))).
  destruct (ot_live _ _ _ _ _ HT x Hx) as (n & Hn & Hn').
  destruct (sys_free_run PF_KERNEL kd lk fuel lfuel (o_at x) n k2 G Hcall H2 Hn) as
    (k3 & G' & Hfree & Hcall3 & Hr3 & Has3 & R); [by intros _|done|exact Hlf|].
  assert (Hkt3 : kt k3 = kt k2).
  { apply (as_threads _ _ _ Has3). cbn [kt set_kt k2]. unfold upd_task_st, set_tasks. simpl.
    unfold t. by rewrite lookup_insert_eq. }
  assert (HT3 : open_table kd part (vm_of k3) G' (xs ++ ys)).
  { apply (free_table kd part (vm_of k2) _ G _ _ (o_at x) H2 HT2 R).
    intros (y & Ey & Hy)%list_elem_of_fmap.
    exact (at_ne xs x ys y (ot_at _ _ _ _ _ HT) Hy Ey). }
  set (k4 := set_kt (kt k) k3). exists k4, G'. split.
  - unfold discard. change (o_at x + in_tag) with (tag x). rewrite (kbind_Done _ _ _ _ _ Erm). cbv beta.
    unfold running_thread, get_task. kstep. kstep. cbv zeta. fold t.
    rewrite (kbind_Done (upd_task t (set_pgdir 0)) _ k1 tt k2 eq_refl). cbv beta.
    rewrite (kbind_Done _ _ _ _ _ Hfree). cbv beta. unfold upd_task, upd_kt, kmod. f_equal.
    unfold k4. f_equal. rewrite Hkt3. exact (pgdir_restored (kt k) t Ht).
  - destruct (kept_static _ _ _ _ _ (re_kept _ _ _ _ _ _ _ R)) as (Eb & Ep & Epr).
    destruct (re_kept _ _ _ _ _ _ _ R) as [K1 K2 _ K3 K4].
    split.
    + by apply (heap_inv_view kd (vm_of k3)); [..|apply R].
    + by apply (open_table_view kd part (vm_of k3)).
    + intros y m. pose proof (re_live _ _ _ _ _ _ _ R y m) as E. rewrite Eb in E.
      change (page_addr (vm_of k4) 0) with (@pa_base PF_KERNEL _ (vm_of k3)). rewrite Eb.
      etransitivity; [exact E|]. cbn [pa_base kernel_PageAlloc]. change (page_addr (vm_of k2) 0) with (page_addr (vm_of k) 0).
      naive_solver.
    + exact K3.
    + exact K1.
    + destruct Has3 as [A1 A2 A3 A4]. split; [exact A1|exact A2|done|exact A4].
    + intros i (Ho & Hp & Htb). change (ram (km k4)) with (ram (vmach (vm_of k3))).
      rewrite K4; [by apply Hag1|done].
Qed.

(** Enough of everything for [sys_free]. *)
Record can_free (k : kst) (fuel lfuel : nat) : Prop := {
  cf_lock : lock_free kernel_pool_lock k;
  cf_run : running (kt k) <> 0;
  cf_task : is_Some (tasks (kt k) !! running (kt k));
  cf_base : K_HEAP_START <= page_addr (vm_of k) 0;
  cf_fuel : (256 <= fuel)%nat;
  cf_lfuel : 255 * npages (vm_of k) + 1 < Z.of_nat lfuel
}.

(** The count is stored, with interrupts off. *)
Lemma count_down xs x ys k G :
  heap_inv PF_KERNEL kd (vm_of k) G -> open_table kd part (vm_of k) G (xs ++ x :: ys) ->
  0 < o_cnt x < 4294967296 -> IF (km k) = false ->
  let k1 := set_km (set_ram (st32 (ram (km k)) (o_at x + in_open_cnts) (o_cnt x - 1)) (km k)) k in
  (forall B (f : Z -> K B),
     (n ← on_mach (field (o_at x) in_open_cnts); on_mach (store32 (o_at x + in_open_cnts) (n - 1));;
      n ← on_mach (field (o_at x) in_open_cnts); f n) k = f (o_cnt x - 1) k1) /\
  closed (xs ++ x :: ys) x False k G k1 G (xs ++ set_cnt (o_cnt x - 1) x :: ys).
Proof.
  intros H HT Hc HI k1. assert (Hx : x ∈ xs ++ x :: ys) by set_solver.
  destruct (set_count_ok kd part (vm_of k) G xs x ys (o_cnt x - 1) H HT) as [H1 HT1]; [lia|].
  split.
  - intros B f. assert (E : forall q, on_mach (field (o_at x) in_open_cnts) q =
      Done (ld32 (ram (km q)) (o_at x + in_open_cnts)) q).
    { intros q. unfold on_mach. erewrite lift_Ok; [by rewrite set_km_id|done]. }
    rewrite (kbind_Done _ _ _ _ _ (E k)). cbv beta. pose proof (en_cnt _ _ (ot_entry _ _ _ _ _ HT x Hx)) as Ec.
    change (ram (vmach (vm_of k))) with (ram (km k)) in Ec. rewrite Ec.
    rewrite (kbind_Done (on_mach (store32 _ _)) _ k tt k1 eq_refl). cbv beta.
    rewrite (kbind_Done _ _ _ _ _ (E k1)). cbv beta. f_equal. cbn [km set_km ram set_ram k1].
    rewrite ld32_st32_eq. apply u32_id. lia.
  - split; [exact H1|exact HT1|intros y m; naive_solver|done|done|by split|].
    apply st32_agree. intros i (_ & _ & Hn) Hi. apply Hn. right. exists x. split; [done|].
    unfold within, in_open_cnts, sizeof_inode in *. lia.
Qed.

Lemma closed_trans xs xs1 xs2 x x1 k G r k2 G2 :
  let k1 := set_km (set_ram r (km k)) k in
  closed xs x False k G k1 G xs1 -> closed xs1 x1 True k1 G k2 G2 xs2 ->
  o_at x1 = o_at x -> (forall i, table_byte part xs1 i -> table_byte part xs i) ->
  closed xs x True k G k2 G2 xs2.
Proof.
  intros k1 [_ _ A3 A4 A7 A5 A6] [B1 B2 B3 B4 B7 B5 B6] Ea Ht. split; [done|done| |..].
  - intros y m. rewrite B3, Ea. done.
  - rewrite B4. done.
  - by rewrite B7.
  - destruct A5 as [C1 C2 C3 C4], B5 as [D1 D2 D3 D4].
    split; [by rewrite D1|by rewrite D2|intros Hk; by rewrite D3|by eapply locks_but_same].
  - intros i (Hi1 & Hi2 & Hi3). rewrite B6; [apply A6|]; cbv beta; split_and!; auto.
    destruct Hi1 as [(y & m & Hy & Hi)|Hi]; [left|by right]. exists y, m. split; [|done].
    assert (Eb : page_addr (vm_of k2) 0 = page_addr (vm_of k) 0) by (unfold page_addr; simpl; by rewrite B7).
    rewrite <- Eb in Hy. by apply B3 in Hy as [Hy _].
Qed.

Lemma closed_freed xs x (P Q : Prop) k G k1 G1 xs1 :
  (P <-> Q) -> closed xs x P k G k1 G1 xs1 -> closed xs x Q k G k1 G1 xs1.
Proof. intros E [B1 B2 B3 B4 B5 B6 B7]. split; try done. intros y m. rewrite B3. naive_solver. Qed.

(** Back under [intr_set_status]. *)
Lemma closed_irq xs x P k G k1 G1 xs1 :
  closed xs x P (set_km (irq_off (km k)) k) G k1 G1 xs1 ->
  closed xs x P k G (set_km (set_ram (ram (km k1)) (km k)) k1) G1 xs1.
Proof.
  intros [B1 B2 B3 B4 B7 B5 B6]. split.
  - by apply (heap_inv_view kd (vm_of k1)).
  - by apply (open_table_view kd part (vm_of k1)).
  - exact B3.
  - done.
  - exact B7.
  - destruct B5 as [D1 D2 D3 D4]. by split.
  - cbn [km set_km] in B6. rewrite irq_off_ram in B6. exact B6.
Qed.

Lemma inode_close_run lk fuel lfuel k G xs x :
  heap_inv PF_KERNEL kd (vm_of k) G -> open_table kd part (vm_of k) G xs -> x ∈ xs ->
  0 < o_cnt x < 4294967296 -> can_free k fuel lfuel ->
  exists k' G', inode_close (S lk) fuel lfuel (o_at x) k = Done tt k' /\
    closed xs x (o_cnt x = 1) k G k' G' (drop_ref (o_at x) xs).
Proof.
  intros H HT Hx Hc [F1 F2 F3 F4 F5 F6].
  destruct (table_split _ _ _ _ _ _ HT Hx) as (ys & zs & -> & _ & Hat). rewrite drop_ref_app by done.
  set (k0 := set_km (irq_off (km k)) k).
  assert (Er0 : ram (km k0) = ram (km k)) by apply irq_off_ram.
  destruct (count_down ys x zs k0 G) as [Hrun Hcl]; [by apply (heap_inv_view kd (vm_of k))|
    by apply (open_table_view kd part (vm_of k))|done|apply irq_off_IF|].
  set (k1 := set_km _ k0) in *.
  assert (Hlast : forall c k2,
    (if decide (o_cnt x - 1 = 0) then discard (S lk) fuel lfuel (o_at x) else mret tt) = c ->
    c k1 = Done tt k2 -> km k2 = set_ram (ram (km k2)) (km k0) ->
    inode_close (S lk) fuel lfuel (o_at x) k = Done tt (set_km (set_ram (ram (km k2)) (km k)) k2)).
  { intros c k2 <- H2 Hm2. unfold inode_close. apply kirqsave_ram; [|exact Hm2].
    rewrite <- H2. exact (Hrun unit (fun n => if decide (n = 0) then discard (S lk) fuel lfuel (o_at x) else mret tt)). }
  destruct (decide (o_cnt x = 1)) as [E1|E1].
  - assert (E2 : o_cnt x - 1 = 0) by lia.
    destruct (discard_run lk fuel lfuel k1 G ys (set_cnt (o_cnt x - 1) x) zs) as (k2 & G2 & H2 & Hcl2);
      [apply irq_off_IF|done|done|done|apply Hcl|apply Hcl|done..|].
    eexists _, G2. split; [apply (Hlast _ k2 (decide_True _ _ E2) H2), (cl_mach _ _ _ _ _ _ _ _ Hcl2)|].
    apply (closed_freed _ _ True); [done|]. apply closed_irq.
    apply (closed_trans _ _ _ _ _ _ _ _ _ _ Hcl Hcl2 eq_refl).
    intros i [Hi|(y & Hy & Hi)]; [by left|right].
    apply (set_cnt_fields _ x y ys zs) in Hy as [->|Hy]; [by exists x|]. exists y. split; [set_solver|done].
  - assert (E2 : o_cnt x - 1 <> 0) by lia.
    eexists _, G. split; [by apply (Hlast _ k1 (decide_False _ _ E2))|].
    apply (closed_freed _ _ False); [lia|]. by apply closed_irq.
Qed.
End run.

(** ** A partition with an open inode *)

(** A list just initialised is the empty table. *)
Lemma empty_table D part s G :
  heap_inv PF_KERNEL D s G -> addr_ok (part + part_open_inodes) -> addr_ok (part + part_open_inodes + 8) ->
  (forall i, list_byte part i -> ~ within D 168 i /\
    ~ within (page_addr s 0) (4096 * npages s) i /\ ~ bitmap_bytes s i) ->
  exists r, list_init (part + part_open_inodes) (vmach s) = Ok (tt, set_ram r (vmach s)) /\
    agree (fun i => ~ list_byte part i) (ram (vmach s)) r /\
    heap_inv PF_KERNEL D (with_ram r s) G /\ open_table D part (with_ram r s) G [].
Proof.
  intros H Ha Hb Hp. destruct (list_init_spec (part + part_open_inodes) (vmach s)) as (r & Hr & Hl & Hag); [done..|].
  assert (Hag' : agree (fun i => ~ list_byte part i) (ram (vmach s)) r).
  { eapply agree_weaken; [|exact Hag]. unfold list_byte, within, outside, nodes, head_of, tail_of.
    intros i Hi. simpl. rewrite Forall_cons, Forall_singleton. lia. }
  exists r. split; [exact Hr|]. split; [exact Hag'|]. split.
  - apply heap_inv_others; [done|]. eapply agree_weaken; [|exact Hag']. intros i Hi Hl'. apply Hi.
    destruct (Hp i Hl') as (H1 & H2 & H3). split; [|done]. right. unfold within in *. tauto.
  - split; [exact Hl|by intros x Hx%not_elem_of_nil|by intros x Hx%not_elem_of_nil|constructor|exact Hp].
Qed.

Definition demo_part : Z := 0xc0007000.

(** [k] with memory [r]. *)
Definition kram (r : gmap Z Z) (k : kst) : kst := set_km (set_ram r (km k)) k.

Lemma demo_open : exists k G a, heap_inv PF_KERNEL demo_descs (vm_of k) G /\
  open_table demo_descs demo_part (vm_of k) G [Opened a 5 1] /\ can_free k 256 2100.
Proof.
  destruct (sys_malloc_run PF_KERNEL demo_descs 0 256 255 76 demo_caller empty_heap)
    as (a & n & k & G & _ & _ & [Hn _] & Hc & Hr & Has & A).
  { exact demo_heap_caller. }
  { rewrite demo_heap_vm_of. exact demo_heap. }
  { split; [lia|]. vm_compute. reflexivity. }
  { rewrite demo_heap_vm_of. unfold enough_room. simpl. apply demo_room. lia. }
  { lia. } { lia. }
  rewrite demo_heap_vm_of in A.
  pose proof (al_inv _ _ _ _ _ _ _ _ A) as H. change (caller_descs _ _ _) with demo_descs in H.
  assert (Hl : live (page_addr (vm_of k) 0) G a n) by (apply (al_live _ _ _ _ _ _ _ _ A); by right).
  set (r1 := st32 (st32 (ram (km k)) (a + in_no) 5) (a + in_open_cnts) 1).
  assert (Hm : kmem k = vmem demo_heap_vm) by apply (k_mem _ _ _ _ _ (al_kept _ _ _ _ _ _ _ _ A)).
  assert (H1 : heap_inv PF_KERNEL demo_descs (vm_of (kram r1 k)) G).
  { apply (heap_inv_write PF_KERNEL demo_descs (vm_of k) G a n r1 H Hl).
    apply (agree_trans _ _ (st32 (ram (km k)) (a + in_no) 5)); apply st32_agree; unfold in_no, in_open_cnts; lia. }
  assert (Hb : page_addr (vm_of k) 0 = 0xc0100000 /\ npages (vm_of k) = 8 /\
    forall i, bitmap_bytes (vm_of k) i -> ~ list_byte demo_part i).
  { unfold page_addr, npages, bitmap_bytes, kbm, vbm. cbn [vmem vm_of]. rewrite Hm.
    split; [by vm_compute|]. split; [by vm_compute|]. unfold list_byte, within, demo_part. simpl.
    unfold part_open_inodes. lia. }
  destruct Hb as (Eb & En & Hbb).
  destruct (empty_table demo_descs demo_part (vm_of (kram r1 k)) G H1) as (r2 & _ & Hag2 & H2 & HT2).
  { by vm_compute. } { by vm_compute. }
  { intros i Hi. change (page_addr _ 0) with (page_addr (vm_of k) 0). change (npages _) with (npages (vm_of k)).
    rewrite Eb, En. split_and!; [..|intros Hx; by apply (Hbb i)]; revert Hi;
      unfold list_byte, within, demo_part, part_open_inodes, demo_descs; lia. }
  change (with_ram r2 (vm_of (kram r1 k))) with (vm_of (kram r2 k)) in *.
  assert (Ha : forall i, within a 12 i -> ~ list_byte demo_part i).
  { intros i Hi Hw. destruct (live_bytes PF_KERNEL demo_descs (vm_of k) G _ _ i H Hl) as (Hp & _);
      [unfold within in Hi; lia|]. cbn [pa_base pa_pages kernel_PageAlloc] in Hp. rewrite Eb in Hp.
    unfold list_byte, within, demo_part, part_open_inodes in *. lia. }
  assert (He : entry r2 (Opened a 5 1)).
  { eapply entry_agree; [exact Hag2|exact Ha|]. cbn [ram vmach vm_of km set_km kram set_ram]. unfold r1. split;
      cbn [o_at o_no o_cnt]; [rewrite ld32_st32_ne by (unfold in_no, in_open_cnts; lia)|]; by rewrite ld32_st32_eq. }
  destruct (link_ok demo_descs demo_part (vm_of (kram r2 k)) G [] (Opened a 5 1) n H2 HT2 Hl Hn)
    as (r3 & _ & _ & H3 & HT3); [by apply not_elem_of_nil|exact He|by apply not_elem_of_nil|].
  exists (kram r3 k), G, a. split; [exact H3|]. split; [exact HT3|].
  destruct Hc as [_ C2 C3 _]. split; [exact C2|exact C3| | |lia|].
  - change (is_Some (tasks (kt k) !! running (kt k))). rewrite (as_threads _ _ _ Has); by eexists.
  - change (page_addr _ 0) with (page_addr (vm_of k) 0). rewrite Eb. by vm_compute.
  - change (npages _) with (npages (vm_of k)). rewrite En. lia.
Qed.

(** ** Theorems *)

(** C26: [inode_open] of an inode that is in the partition's list of open
    inodes returns that inode and counts the reference, without reading the
    disk or allocating: the table of open inodes has the count one higher and
    nothing else of the kernel changes. *)
Theorem inode_open_again hw ln rounds lk fuel lfuel kd part k G xs x :
  heap_inv PF_KERNEL kd (vm_of k) G -> open_table kd part (vm_of k) G xs -> x ∈ xs ->
  0 <= o_cnt x < 4294967295 -> (length xs < lfuel)%nat ->
  let k' := kram (st32 (ram (km k)) (o_at x + in_open_cnts) (o_cnt x + 1)) k in
  inode_open hw ln rounds lk fuel lfuel kd part (o_no x) k = Done (o_at x) k' /\
  heap_inv PF_KERNEL kd (vm_of k') G /\ open_table kd part (vm_of k') G (add_ref (o_no x) xs).
Proof. apply inode_open_hit. Qed.

(** A machine whose ports read zero. *)
Definition silent_bus : bus := Bus (fun _ _ => 0) (fun _ _ => 0).
Definition silent_link : ide_link := IdeLink 0 0 0 0 0 0.

Lemma inode_open_again_witness : exists k G a,
  let k' := kram (st32 (ram (km k)) (a + in_open_cnts) 2) k in
  inode_open silent_bus silent_link 0 1 256 2100 demo_descs demo_part 5 k = Done a k' /\
  heap_inv PF_KERNEL demo_descs (vm_of k') G /\
  open_table demo_descs demo_part (vm_of k') G [Opened a 5 2].
Proof.
  destruct demo_open as (k & G & a & H & HT & _). exists k, G, a.
  apply (inode_open_again silent_bus silent_link 0 1 256 2100 demo_descs demo_part k G [Opened a 5 1] (Opened a 5 1) H HT).
  - by apply list_elem_of_here.
  - simpl. lia.
  - simpl. lia.
Defined.

(** C25: [inode_close] takes one reference off the inode's count; when it was
    the last one the inode leaves the partition's list and its block goes back
    to the kernel's heap, whatever page directory the thread has. The other
    open inodes, the other blocks of the heap, the threads, the interrupt
    flag and the other locks are as they were. *)
Theorem inode_close_ok kd part lk fuel lfuel k G xs x :
  heap_inv PF_KERNEL kd (vm_of k) G -> open_table kd part (vm_of k) G xs -> x ∈ xs ->
  0 < o_cnt x < 4294967296 -> can_free k fuel lfuel ->
  exists k' G', inode_close (S lk) fuel lfuel (o_at x) k = Done tt k' /\
    closed kd part xs x (o_cnt x = 1) k G k' G' (drop_ref (o_at x) xs).
Proof. apply inode_close_run. Qed.

Lemma inode_close_ok_witness : exists k G a k' G', inode_close 1 256 2100 a k = Done tt k' /\
  closed demo_descs demo_part [Opened a 5 1] (Opened a 5 1) (1 = 1) k G k' G' [].
Proof.
  destruct demo_open as (k & G & a & H & HT & Hf).
  destruct (inode_close_ok demo_descs demo_part 0 256 2100 k G [Opened a 5 1] (Opened a 5 1) H HT)
    as (k' & G' & H1 & H2).
  - by apply list_elem_of_here.
  - simpl. lia.
  - exact Hf.
  - exists k, G, a, k', G'. split; [exact H1|]. cbn [drop_ref o_at o_cnt] in H2.
    rewrite !decide_True in H2 by done. exact H2.
Defined.
