(* ===== verification/Fs.v ===== *)
(** * The file system's beginning and end of a partition: [fs/fs.c]

    Formatting a partition, mounting one, and the search at start-up.  The
    file [fs/fs.h] lacks two semicolons, so [fs/fs.c] does not compile as it
    stands; its functions are read as they are meant. *)
From S2P Require Import Prelude Machine Global Str Stdio Bitmap KList Paging Kernel Thread Timer.
From S2P Require Import Sync Console Memory Arena Interrupt Syscall Printk Ide Inode.

Definition MAX_FILES_PER_PART : Z := 4096.
Definition BITS_PER_SECTOR : Z := 4096.
Definition SECTOR_SIZE : Z := 512.
Definition FT_UNKNOWN : Z := 0.
Definition FT_REGULAR : Z := 1.
Definition FT_DIRECTORY : Z := 2.

(** [struct dir_entry]: [filename] 0, [i_no] 16, [f_type] 20. *)
Definition MAX_FILE_NAME_LEN : Z := 16.
Definition sizeof_dir_entry : Z := 24.
Definition de_i_no : Z := 16.
Definition de_f_type : Z := 20.

(** ** The super block *)

Record super_block := SuperBlock {
  magic : Z; sec_cnt : Z; inode_cnt : Z; part_lba_base : Z;
  block_bitmap_lba : Z; block_bitmap_sects : Z;
  inode_bitmap_lba : Z; inode_bitmap_sects : Z;
  inode_table_lba : Z; inode_table_sects : Z;
  data_start_lba : Z; root_inode_no : Z; dir_entry_size : Z
}.

(** The sizes [partition_format] computes first. *)
Record sizes := Sizes { sz_bitmap_sects : Z; sz_bit_len : Z; sz_inode_bitmap : Z; sz_inode_table : Z }.

Definition format_sizes (part_sec_cnt : Z) : sizes :=
  let boot_sector_sects := 1 in
  let super_block_sects := 1 in
  let inode_bitmap_sects := DIV_ROUND_UP MAX_FILES_PER_PART BITS_PER_SECTOR in
  let inode_table_sects := DIV_ROUND_UP (sizeof_inode * MAX_FILES_PER_PART) SECTOR_SIZE in
  let used_sects := boot_sector_sects + super_block_sects + inode_bitmap_sects + inode_table_sects in
  let free_sects := u32 (part_sec_cnt - used_sects) in
  let block_bitmap_sects := DIV_ROUND_UP free_sects BITS_PER_SECTOR in
  let block_bitmap_bit_len := u32 (free_sects - block_bitmap_sects) in
  let block_bitmap_sects := DIV_ROUND_UP block_bitmap_bit_len BITS_PER_SECTOR in
  Sizes block_bitmap_sects block_bitmap_bit_len inode_bitmap_sects inode_table_sects.

Definition format_super (part_start_lba part_sec_cnt : Z) : super_block :=
  let z := format_sizes part_sec_cnt in
  let block_bitmap_lba := u32 (part_start_lba + 2) in
  let inode_bitmap_lba := u32 (block_bitmap_lba + sz_bitmap_sects z) in
  let inode_table_lba := u32 (inode_bitmap_lba + sz_inode_bitmap z) in
  SuperBlock 0x19590318 part_sec_cnt MAX_FILES_PER_PART part_start_lba
    block_bitmap_lba (sz_bitmap_sects z) inode_bitmap_lba (sz_inode_bitmap z)
    inode_table_lba (sz_inode_table z)
    (u32 (inode_table_lba + sz_inode_table z + sz_inode_table z)) 0 sizeof_dir_entry.

(** The fields at the offsets of [struct super_block]; the padding is left
    as it is. *)
Definition put_super (a : Z) (sb : super_block) : M mach unit :=
  store32 (a + sb_magic) (magic sb);;
  store32 (a + sb_sec_cnt) (sec_cnt sb);;
  store32 (a + sb_inode_cnt) (inode_cnt sb);;
  store32 (a + sb_part_lba_base) (part_lba_base sb);;
  store32 (a + sb_block_bitmap_lba) (block_bitmap_lba sb);;
  store32 (a + sb_block_bitmap_sects) (block_bitmap_sects sb);;
  store32 (a + sb_inode_bitmap_lba) (inode_bitmap_lba sb);;
  store32 (a + sb_inode_bitmap_sects) (inode_bitmap_sects sb);;
  store32 (a + sb_inode_table_lba) (inode_table_lba sb);;
  store32 (a + sb_inode_table_sects) (inode_table_sects sb);;
  store32 (a + sb_data_start_lba) (data_start_lba sb);;
  store32 (a + sb_root_inode_no) (root_inode_no sb);;
  store32 (a + sb_dir_entry_size) (dir_entry_size sb).

(** ** The block bitmap *)

(** [buf[a] |= 1], and the loop [buf[...] &= ~(1 << bit_idx++)]. *)
Definition reserve_first (buf : Z) : M mach unit := v ← load8 buf; store8 buf (Z.lor v 0x01).

Fixpoint reset_bits (n : nat) (a bit_idx : Z) : M mach unit :=
  match n with
  | O => mret tt
  | S n =>
      v ← load8 a;
      store8 a (Z.land v (Z.lnot (Z.shiftl 1 bit_idx)));;
      reset_bits n a (bit_idx + 1)
  end.

Definition build_block_bitmap (buf block_bitmap_bit_len : Z) : M mach unit :=
  reserve_first buf;;
  let block_bitmap_last_byte := block_bitmap_bit_len / 8 in
  let block_bitmap_last_bit := u8 (block_bitmap_bit_len mod 8) in
  let last_size := u32 (SECTOR_SIZE - block_bitmap_last_byte mod SECTOR_SIZE) in
  memset (buf + block_bitmap_last_byte) 0xff last_size;;
  reset_bits (Z.to_nat block_bitmap_last_bit) (buf + block_bitmap_last_byte) 0.

(** The two entries of the root directory. *)
Definition root_entries (buf dot dotdot : Z) : M mach unit :=
  memcpy buf dot 1;;
  store32 (buf + de_i_no) 0;;
  store32 (buf + de_f_type) FT_DIRECTORY;;
  let p_de := buf + sizeof_dir_entry in
  memcpy p_de dotdot 2;;
  store32 (p_de + de_i_no) 0;;
  store32 (p_de + de_f_type) FT_DIRECTORY.

Definition root_inode (buf : Z) (sb : super_block) : M mach unit :=
  store32 (buf + in_size) (u32 (dir_entry_size sb * 2));;
  store32 (buf + in_no) 0;;
  store32 (buf + in_sectors 0) (data_start_lba sb).

(** The largest of the three areas, in bytes. *)
Definition format_buf_size (sb : super_block) : Z :=
  let buf_size :=
    if decide (block_bitmap_sects sb >= inode_bitmap_sects sb) then block_bitmap_sects sb
    else inode_bitmap_sects sb in
  u32 ((if decide (buf_size >= inode_table_sects sb) then buf_size else inode_table_sects sb) * SECTOR_SIZE).

Section fs.
Context (hw : bus) (ln : ide_link) (im : image) (fr : frame_addrs).
Context (rounds lkfuel ffuel sfuel hfuel lfuel : nat) (k_block_descs : Z).
(** The address of [cur_part], of the super block and of [default_part] on
    the stack. *)
Context (v_cur_part fr_sb fr_default : Z).

(** The calls with the parameters they share. *)
Definition print_args (format : string) (args : list Z) : K unit :=
  printk_args im fr lkfuel ffuel sfuel format args.
Definition new (size : Z) : K Z := sys_malloc k_block_descs lkfuel hfuel lfuel size.
Definition delete (ptr : Z) : K unit := sys_free lkfuel hfuel lfuel ptr.
Definition disk_read (hd lba buf cnt : Z) : K unit := ide_read hw ln rounds lkfuel hd lba buf cnt.
Definition disk_write (hd lba buf cnt : Z) : K unit := ide_write hw ln rounds lkfuel hd lba buf cnt.

Definition format_info : string :=
  (line "   magic:0x%x" ++ line "   part_lba_base:0x%x" ++ line "   all_sectors:0x%x" ++
   line "   inode_cnt:0x%x" ++ line "   block_bitmap_lba:0x%x" ++
   line "   block_bitmap_sectors:0x%x" ++ line "   inode_bitmap_lba:0x%x" ++
   line "   inode_bitmap_sectors:0x%x" ++ line "   inode_table_lba:0x%x" ++
   line "   inode_table_sectors:0x%x" ++ line "   data_start_lba:0x%x")%string.

Definition partition_format (part : Z) : K unit :=
  cnt ← on_mach (field part part_sec_cnt);
  start ← on_mach (field part part_start_lba);
  let sb := format_super start cnt in
  on_mach (put_super fr_sb sb);;
  print_args (line "%s info:") [part];;
  print_args format_info
    [magic sb; part_lba_base sb; sec_cnt sb; inode_cnt sb; block_bitmap_lba sb; block_bitmap_sects sb;
     inode_bitmap_lba sb; inode_bitmap_sects sb; inode_table_lba sb; inode_table_sects sb;
     data_start_lba sb];;
  hd ← on_mach (field part part_my_disk);
  disk_write hd (u32 (start + 1)) fr_sb 1;;
  print_args (line "   super_block_lba:0x%x") [u32 (start + 1)];;
  let buf_size := format_buf_size sb in
  buf ← new buf_size;
  on_mach (build_block_bitmap buf (sz_bit_len (format_sizes cnt)));;
  disk_write hd (block_bitmap_lba sb) buf (block_bitmap_sects sb);;
  on_mach (memset buf 0 buf_size);;
  on_mach (reserve_first buf);;
  disk_write hd (inode_bitmap_lba sb) buf (inode_bitmap_sects sb);;
  on_mach (memset buf 0 buf_size);;
  on_mach (root_inode buf sb);;
  disk_write hd (inode_table_lba sb) buf (inode_table_sects sb);;
  on_mach (memset buf 0 buf_size);;
  on_mach (root_entries buf (lit im ".") (lit im ".."));;
  disk_write hd (data_start_lba sb) buf 1;;
  print_args (line "   root_dir_lba:0x%x") [data_start_lba sb];;
  print_args (line "%s format done") [part];;
  delete buf.

(** [mount_partition], the callback of a traversal of [partition_list]. *)
Definition mount_bitmap (hd sb_buf lba_field sects_field bitmap : Z) : K unit :=
  sects ← on_mach (field sb_buf sects_field);
  b ← new (u32 (sects * SECTOR_SIZE));
  on_mach (store32 (bitmap + 4) b);;
  (if decide (b = 0) then print_args "alloc memory failed!" [] else mret tt);;
  on_mach (store32 bitmap (u32 (sects * SECTOR_SIZE)));;
  lba ← on_mach (field sb_buf lba_field);
  b ← on_mach (field bitmap 4);
  disk_read hd lba b sects.

Definition mount_partition (pelem part_name : Z) : K bool :=
  let part := pelem - 20 in
  c ← on_mach (strcmp sfuel part part_name);
  if decide (c = 0) then
    on_mach (store32 v_cur_part part);;
    hd ← on_mach (field part part_my_disk);
    sb_buf ← new sizeof_super_block;
    sb ← new sizeof_super_block;
    on_mach (store32 (part + part_sb) sb);;
    (if decide (sb = 0) then print_args "alloc memory failed!" [] else mret tt);;
    on_mach (memset sb_buf 0 sizeof_super_block);;
    start ← on_mach (field part part_start_lba);
    disk_read hd (u32 (start + 1)) sb_buf 1;;
    sb ← on_mach (field part part_sb);
    on_mach (memcpy sb sb_buf sizeof_super_block);;
    mount_bitmap hd sb_buf sb_block_bitmap_lba sb_block_bitmap_sects (part + part_block_bitmap);;
    mount_bitmap hd sb_buf sb_inode_bitmap_lba sb_inode_bitmap_sects (part + part_inode_bitmap);;
    on_mach (list_init (part + part_open_inodes));;
    print_args (line "mount %s done!") [part];;
    mret true
  else mret false.

Fixpoint mount_loop (fuel : nat) (elem part_name : Z) : K unit :=
  match fuel with
  | O => kno_fuel
  | S fuel =>
      if decide (elem <> tail_of (partition_list ln)) then
        found ← mount_partition elem part_name;
        if (found : bool) then mret tt
        else n ← on_mach (get_next elem); mount_loop fuel n part_name
      else mret tt
  end.

(** The innermost loop of [filesys_init]; [part_idx] lives across the disks. *)
Definition search_partition (hd part sb_buf : Z) : K unit :=
  cnt ← on_mach (field part part_sec_cnt);
  if decide (cnt <> 0) then
    on_mach (memset sb_buf 0 SECTOR_SIZE);;
    start ← on_mach (field part part_start_lba);
    disk_read hd (u32 (start + 1)) sb_buf 1;;
    m ← on_mach (field sb_buf sb_magic);
    if decide (m = 0x19590318) then print_args (line "%s has filesystem") [part]
    else
      print_args (line "formatting %s`s partition %s......") [hd; part];;
      partition_format part
  else mret tt.

Fixpoint search_loop (n : nat) (hd part part_idx sb_buf : Z) : K Z :=
  match n with
  | O => mret part_idx
  | S n =>
      if decide (part_idx < 12) then
        let part := if decide (part_idx = 4) then logic_part hd 0 else part in
        search_partition hd part sb_buf;;
        search_loop n hd (part + sizeof_partition) (u8 (part_idx + 1)) sb_buf
      else mret part_idx
  end.

(** The disks, of which those with number 0 are skipped. *)
Fixpoint search_channels (n : nat) (channel_no part_idx sb_buf : Z) : K unit :=
  match n with
  | O => mret tt
  | S n =>
      let hd := device_at (channels ln + sizeof_ide_channel * channel_no) 1 in
      part_idx ← search_loop 12 hd (prim_part hd 0) part_idx sb_buf;
      search_channels n (u8 (channel_no + 1)) part_idx sb_buf
  end.

Fixpoint store_bytes (a : Z) (l : list Z) : M mach unit :=
  match l with [] => mret tt | c :: l => store8 a c;; store_bytes (a + 1) l end.

Definition filesys_init : K unit :=
  sb_buf ← new sizeof_super_block;
  (if decide (sb_buf = 0) then kpanic "alloc memory failed!" else mret tt);;
  print_args (line "searching filesystem......") [];;
  search_channels 2 0 0 sb_buf;;
  delete sb_buf;;
  on_mach (store_bytes fr_default [115; 100; 98; 49; 0; 0; 0; 0]);;
  first ← on_mach (get_next (head_of (partition_list ln)));
  mount_loop lfuel first fr_default.
End fs.
