(* ===== verification/FsFormat.v ===== *)
(** * What formatting lays out

    The places of the areas of a partition, and the block bitmap that
    [partition_format] writes. *)
From S2P Require Import Prelude Machine Global Str Stdio Bitmap KList Paging Kernel Thread Timer.
From S2P Require Import Sync Console Memory Arena Interrupt Syscall Printk Ide Inode Fs.

(** ** The areas *)

Lemma div_round_up_4096 x : 0 <= x -> x + 4095 < 4294967296 ->
  exists q, DIV_ROUND_UP x 4096 = q /\ x <= 4096 * q < x + 4096.
Proof.
  intros H0 H1. unfold DIV_ROUND_UP. rewrite u32_id by lia. eexists. split; [done|].
  Z.div_mod_to_equations; lia.
Qed.

(** The sizes of a partition of [cnt] sectors. *)
Lemma format_sizes_eq cnt : 1024 <= cnt -> cnt <= 131072 ->
  exists bb0 bb, format_sizes cnt = Sizes bb (cnt - 611 - bb0) 1 608 /\
    1 <= bb <= bb0 /\ bb0 <= bb + 1 /\ bb0 <= cnt / 4096 + 1 /\
    cnt - 611 - bb0 <= 4096 * bb < cnt - 611 - bb0 + 4096.
Proof.
  intros H0 H1. unfold format_sizes.
  change (DIV_ROUND_UP MAX_FILES_PER_PART BITS_PER_SECTOR) with 1.
  change (DIV_ROUND_UP (sizeof_inode * MAX_FILES_PER_PART) SECTOR_SIZE) with 608.
  change (1 + 1 + 1 + 608) with 611. unfold BITS_PER_SECTOR. rewrite (u32_id (cnt - 611)) by lia.
  destruct (div_round_up_4096 (cnt - 611)) as (bb0 & -> & Hb0); [lia..|].
  rewrite (u32_id (cnt - 611 - bb0)) by lia.
  destruct (div_round_up_4096 (cnt - 611 - bb0)) as (bb & -> & Hb); [lia..|].
  exists bb0, bb. split; [done|]. split; [lia|]. split; [lia|]. split; [|done]. Z.div_mod_to_equations; lia.
Qed.

(** C27: For a partition the driver can reach, [partition_format] puts the super block, the block bitmap, the inode
    bitmap and the inode table one behind the other from the partition's
    second sector on, and the bitmap has a bit for each block it counts.  But
    the data area starts a whole inode table late, as the code adds the size
    of the table twice: the last 606 blocks the bitmap offers lie behind the
    end of the partition. *)
Theorem format_overruns start cnt :
  0 <= start -> 8192 <= cnt -> start + cnt <= max_lba + 1 ->
  let sb := format_super start cnt in
  let bit_len := sz_bit_len (format_sizes cnt) in
  block_bitmap_lba sb = start + 2 /\
  inode_bitmap_lba sb = block_bitmap_lba sb + block_bitmap_sects sb /\
  inode_table_lba sb = inode_bitmap_lba sb + inode_bitmap_sects sb /\
  data_start_lba sb = inode_table_lba sb + inode_table_sects sb + 608 /\
  sizeof_inode * inode_cnt sb = 512 * inode_table_sects sb /\
  inode_cnt sb <= 4096 * inode_bitmap_sects sb /\
  0 < bit_len <= 4096 * block_bitmap_sects sb /\
  data_start_lba sb < start + cnt /\
  forall block, bit_len - 606 <= block < bit_len -> start + cnt <= data_start_lba sb + block.
Proof.
  intros H0 H1 H2. change max_lba with 131071 in *. cbv zeta. destruct (format_sizes_eq cnt) as (bb0 & bb & E & Hb & Hb0 & Hq & Hl); [lia..|].
  unfold format_super. rewrite E.
  cbn [sz_bitmap_sects sz_bit_len sz_inode_bitmap sz_inode_table block_bitmap_lba inode_bitmap_lba
       inode_table_lba data_start_lba block_bitmap_sects inode_bitmap_sects inode_table_sects inode_cnt].
  assert (Hc : cnt / 4096 <= cnt) by (Z.div_mod_to_equations; lia).
  rewrite (u32_id (start + 2)) by lia. rewrite (u32_id (start + 2 + bb)) by lia.
  rewrite (u32_id (start + 2 + bb + 1)) by lia. rewrite (u32_id (start + 2 + bb + 1 + 608 + 608)) by lia.
  unfold sizeof_inode, MAX_FILES_PER_PART.
  split; [done|]. split; [done|]. split; [done|]. split; [done|]. split; [done|]. split; [done|].
  split; [Z.div_mod_to_equations; lia|]. split; [Z.div_mod_to_equations; lia|]. intros block Hbl. lia.
Qed.

(** A partition of 32 MB at sector 63. *)
Lemma format_overruns_witness :
  data_start_lba (format_super 63 65536) = 1298 /\
  63 + 65536 <= data_start_lba (format_super 63 65536) + (sz_bit_len (format_sizes 65536) - 1).
Proof.
  pose proof (format_overruns 63 65536 ltac:(lia) ltac:(lia) ltac:(change max_lba with 131071; lia)) as (_ & _ & _ & _ & _ & _ & _ & _ & Hover).
  split; [by vm_compute|]. apply Hover. lia.
Defined.

(** ** The block bitmap *)

Lemma u8_testbit x j : 0 <= j < 8 -> Z.testbit (u8 x) j = Z.testbit x j.
Proof. intros Hj. unfold u8. change 256 with (2 ^ 8). apply Z.mod_pow2_bits_low. lia. Qed.

Lemma reset_bits_ok n a b m : 0 <= b -> b + Z.of_nat n <= 8 ->
  exists r', reset_bits n a b m = Ok (tt, set_ram r' m) /\
    (forall j, 0 <= j < 8 -> Z.testbit (ld8 r' a) j =
       Z.testbit (ld8 (ram m) a) j && negb (bool_decide (b <= j < b + Z.of_nat n))) /\
    agree (fun x => x <> a) (ram m) r'.
Proof.
  revert b m. induction n as [|n IH]; intros b m Hb Hn; cbn [reset_bits].
  { exists (ram m). split; [by destruct m|]. split; [|done]. intros j Hj.
    by rewrite bool_decide_false, andb_true_r by lia. }
  mstep. mstep. destruct (IH (b + 1) (set_ram (st8 (ram m) a (Z.land (ld8 (ram m) a) (Z.lnot (Z.shiftl 1 b)))) m))
    as (r' & Hrun & Hv & Hag); [lia..|]. exists r'. split; [exact Hrun|]. cbn [ram set_ram] in Hv, Hag. split.
  - intros j Hj. rewrite Hv by done. rewrite ld8_st8_eq, u8_testbit, Z.land_spec, Z.lnot_spec, Z.shiftl_1_l by lia.
    rewrite Z.pow2_bits_eqb by lia. destruct (Z.eqb_spec b j) as [->|Hne].
    + rewrite andb_false_r, (bool_decide_true (j <= j < _)) by lia. by rewrite andb_false_r.
    + rewrite andb_true_r. do 2 f_equal. apply bool_decide_ext. lia.
  - transitivity (st8 (ram m) a (Z.land (ld8 (ram m) a) (Z.lnot (Z.shiftl 1 b)))); [|exact Hag].
    apply agree_st8. tauto.
Qed.

(** Sectors the code touches for a bitmap of [bit_len] bits. *)
Definition touched (bit_len : Z) : Z := bit_len / 4096 + 1.

(** In a cleared buffer [partition_format] builds the block bitmap it
    means to write: bit 0, the root directory's block, and every bit from
    the number of blocks to the end of the sector are set, all others are
    clear; nothing outside these sectors is written. *)
Theorem block_bitmap_built buf bit_len m :
  0 < buf -> 8 <= bit_len < 34359738368 ->
  (forall a, buf <= a < buf + 512 * touched bit_len -> ld8 (ram m) a = 0) ->
  exists r', build_block_bitmap buf bit_len m = Ok (tt, set_ram r' m) /\
    (forall i, 0 <= i < 4096 * touched bit_len ->
       rbit r' buf i = bool_decide (i = 0 \/ bit_len <= i)) /\
    agree (fun a => ~ buf <= a < buf + 512 * touched bit_len) (ram m) r'.
Proof.
  intros Hb Hl Hz. unfold touched in *. unfold build_block_bitmap, reserve_first, SECTOR_SIZE. cbv zeta.
  set (lb := bit_len / 8). set (q := bit_len / 4096) in *.
  assert (Hq : lb = 512 * q + lb mod 512 /\ 0 <= lb mod 512 < 512 /\ 1 <= lb /\ 0 <= q).
  { unfold lb, q. Z.div_mod_to_equations; lia. }
  assert (Hbit : bit_len = 8 * lb + bit_len mod 8 /\ 0 <= bit_len mod 8 < 8).
  { unfold lb. Z.div_mod_to_equations; lia. }
  set (o := lb mod 512) in *. set (b := bit_len mod 8) in *.
  rewrite (u32_id (512 - o)), (u8_id b) by lia.
  set (m1 := set_ram (st8 (ram m) buf 1) m).
  assert (H1 : (v ← load8 buf; store8 buf (Z.lor v 1)) m = Ok (tt, m1)).
  { unfold load8. mstep. rewrite Hz by lia. done. }
  rewrite (bind_Ok _ _ _ _ _ H1). cbv beta.
  rewrite (bind_Ok _ _ _ _ _ (memset_eq (buf + lb) 0xff (512 - o) m1 ltac:(lia))). cbv beta.
  set (m2 := set_ram _ m1). assert (Hr2 : forall a, ld8 (ram m2) a =
    if decide (buf + lb <= a < buf + 512 * (q + 1)) then 255 else if decide (a = buf) then 1 else ld8 (ram m) a).
  { intros a. unfold m2, m1. cbn [ram set_ram]. rewrite ld8_ram_fill, Z2Nat.id by lia.
    replace (buf + lb + (512 - o)) with (buf + 512 * (q + 1)) by lia.
    destruct (decide (buf + lb <= a < _)); [done|]. rewrite ld8_st8. by repeat case_decide. }
  destruct (reset_bits_ok (Z.to_nat b) (buf + lb) 0 m2) as (r' & Hrun & Hv & Hag); [lia..|].
  rewrite Z2Nat.id in Hv by lia. exists r'. split; [exact Hrun|]. split.
  - intros i Hi. unfold rbit. destruct (decide (i / 8 = lb)) as [E|E].
    + rewrite E, Hv by (apply Z.mod_pos_bound; lia). rewrite Hr2, decide_True by lia.
      assert (Hi8 : i = 8 * lb + i mod 8) by (rewrite <- E; Z.div_mod_to_equations; lia).
      assert (Hm8 : 0 <= i mod 8 < 8) by (apply Z.mod_pos_bound; lia).
      change 255 with (Z.ones 8). rewrite Z.ones_spec_low by lia. cbn [andb].
      rewrite <- bool_decide_not. apply bool_decide_ext. lia.
    + rewrite Hag by lia. rewrite Hr2. assert (Hm8 : 0 <= i mod 8 < 8) by (apply Z.mod_pos_bound; lia).
      assert (Hi8 : i = 8 * (i / 8) + i mod 8) by (Z.div_mod_to_equations; lia).
      assert (Hd8 : 0 <= i / 8 < 512 * (q + 1)) by (Z.div_mod_to_equations; lia).
      destruct (decide (buf + lb <= buf + i / 8 < _)) as [Hin|Hout].
      * change 255 with (Z.ones 8). rewrite Z.ones_spec_low by lia. symmetry. apply bool_decide_eq_true. lia.
      * case_decide as Hf.
        -- replace (i / 8) with 0 in Hi8 by lia. destruct (decide (i = 0)) as [->|Hi0].
           { symmetry. by apply bool_decide_eq_true; left. }
           rewrite bool_decide_false by lia. change 1 with (2 ^ 0). rewrite Z.pow2_bits_false; [done|lia].
        -- rewrite Hz by lia. rewrite Z.bits_0. symmetry. apply bool_decide_eq_false. lia.
  - intros a Ha. rewrite Hag by lia. rewrite Hr2, !decide_False by lia. done.
Qed.

Definition demo_buffer : mach := Mach {[ 4095 := 7 ]} 2 [] [].

Lemma block_bitmap_built_witness :
  exists r', build_block_bitmap 4096 100 demo_buffer = Ok (tt, set_ram r' demo_buffer) /\
    (forall i, 0 <= i < 4096 * touched 100 -> rbit r' 4096 i = bool_decide (i = 0 \/ 100 <= i)) /\
    agree (fun a => ~ 4096 <= a < 4096 + 512 * touched 100) (ram demo_buffer) r'.
Proof.
  apply (block_bitmap_built 4096 100 demo_buffer); [lia|lia|].
  intros a Ha. unfold demo_buffer. cbn [ram]. unfold ld8. rewrite lookup_singleton_ne by lia. done.
Defined.
