(* ===== verification/Dir.v ===== *)
(** * Directories: [fs/dir.c]

    The root directory, closing a directory, and adding an entry to one.
    [cur_part] is the variable of [fs/fs.c].  Left out are the functions that
    are no C at this commit: [dir_open] ([partm inode_no]),
    [search_dir_entry] (an undeclared variable, a pointer indexed as an
    integer) and [search_file] (a missing member).  The path functions are in
    Path.v. *)
From S2P Require Import Prelude Machine Global Str Stdio Bitmap KList Paging Kernel Thread Timer.
From S2P Require Import Sync Console Memory Arena Interrupt Syscall Printk Ide Inode File Fs.

(** [struct dir]: [inode] 0, [dir_pos] 4. *)
Definition dir_inode : Z := 0.
Definition dir_pos : Z := 4.

(** [create_dir_entry]: the name goes without a terminator. *)
Definition create_dir_entry (sfuel : nat) (filename inode_no file_types p_de : Z) : M mach unit :=
  n ← strlen sfuel filename;
  ASSERT (bool_decide (n <= MAX_FILE_NAME_LEN)) "strlen(filename) <= MAX_FILE_NAME_LEN";;
  n ← strlen sfuel filename;
  memcpy p_de filename n;;
  store32 (p_de + de_i_no) inode_no;;
  store32 (p_de + de_f_type) (u8 file_types).

Section dir.
Context (hw : bus) (ln : ide_link) (im : image) (fr : frame_addrs).
Context (rounds lkfuel ffuel sfuel hfuel lfuel : nat) (k_block_descs : Z).
(** Addresses of [cur_part], [root_dir] and, on the stack, [all_blocks]. *)
Context (v_cur_part root_dir all_blocks : Z).

Definition open_root_dir (part : Z) : K unit :=
  sb ← on_mach (field part part_sb);
  n ← on_mach (field sb sb_root_inode_no);
  i ← inode_open hw ln rounds lkfuel hfuel lfuel k_block_descs part n;
  on_mach (store32 (root_dir + dir_inode) i);;
  on_mach (store32 (root_dir + dir_pos) 0).

Definition dir_close (dir : Z) : K unit :=
  if decide (dir = root_dir) then mret tt
  else
    i ← on_mach (field dir dir_inode);
    inode_close lkfuel hfuel lfuel i;;
    sys_free lkfuel hfuel lfuel dir.

(** The sectors of the directory, the first twelve. *)
Fixpoint copy_sectors (n : nat) (inode block_idx : Z) : M mach unit :=
  match n with
  | O => mret tt
  | S n =>
      s ← field inode (in_sectors block_idx);
      store32 (all_blocks + 4 * block_idx) s;;
      copy_sectors n inode (u8 (block_idx + 1))
  end.

Definition part_field (off : Z) : K Z := cur ← on_mach (load32 v_cur_part); on_mach (field cur off).

Definition alloc_block : K Z :=
  cur ← on_mach (load32 v_cur_part); on_mach (block_bitmap_alloc cur).

Definition alloc_failed : K bool :=
  printk_args im fr lkfuel ffuel sfuel (line "alloc block bitmap for sync_dir_entry failed") [];;
  mret false.

(** The place of a block in the bitmap, and the bitmap's way to the disk. *)
Definition block_index (block_lba : Z) : K Z :=
  sb ← part_field part_sb;
  start ← on_mach (field sb sb_data_start_lba);
  mret (i32 (u32 (block_lba - start))).

Definition sync_block (block_lba : Z) : K unit :=
  block_bitmap_idx ← block_index block_lba;
  KASSERT (bool_decide (block_bitmap_idx <> -1)) "block_bitmap_idx != -1";;
  cur ← on_mach (load32 v_cur_part);
  bitmap_sync hw ln rounds lkfuel cur (u32 block_bitmap_idx) BLOCK_BITMAP.

Definition write_block (lba buf : Z) : K unit :=
  hd ← part_field part_my_disk; ide_write hw ln rounds lkfuel hd lba buf 1.

(** A block for the directory where it has none: false when there is none. *)
Definition add_block (inode block_idx block_lba : Z) : K bool :=
  sync_block block_lba;;
  if decide (block_idx < 12) then
    on_mach (store32 (all_blocks + 4 * block_idx) block_lba);;
    on_mach (store32 (inode + in_sectors block_idx) block_lba);;
    mret true
  else if decide (block_idx = 12) then
    on_mach (store32 (inode + in_sectors block_idx) block_lba);;
    block_lba ← alloc_block;
    if decide (block_lba = -1) then
      s ← on_mach (field inode (in_sectors 12));
      i ← block_index s;
      cur ← on_mach (load32 v_cur_part);
      b ← on_mach (get_bitmap (cur + part_block_bitmap));
      on_mach (bitmap_set b (u32 i) 0);;
      on_mach (store32 (inode + in_sectors 12) 0);;
      alloc_failed
    else
      sync_block block_lba;;
      on_mach (store32 (all_blocks + 4 * 12) block_lba);;
      s ← on_mach (field inode (in_sectors 12));
      write_block s (all_blocks + 4 * 12);;
      mret true
  else
    on_mach (store32 (all_blocks + 4 * block_idx) block_lba);;
    s ← on_mach (field inode (in_sectors 12));
    write_block s (all_blocks + 4 * 12);;
    mret true.

Definition grow (inode size : Z) : K bool :=
  n ← on_mach (field inode in_size);
  on_mach (store32 (inode + in_size) (n + size));;
  mret true.

(** The entries of a block: a free one is taken. *)
Fixpoint take_entry (n : nat) (inode p_de io_buf lba size dir_entry_idx per_sec : Z) : K bool :=
  match n with
  | O => mret false
  | S n =>
      if decide (dir_entry_idx < per_sec) then
        let e := io_buf + sizeof_dir_entry * dir_entry_idx in
        f ← on_mach (field e de_f_type);
        if decide (f = FT_UNKNOWN) then
          on_mach (memcpy e p_de size);;
          write_block lba io_buf;;
          grow inode size
        else take_entry n inode p_de io_buf lba size (u8 (dir_entry_idx + 1)) per_sec
      else mret false
  end.

Fixpoint entry_loop (n : nat) (inode p_de io_buf size per_sec block_idx : Z) : K bool :=
  match n with
  | O =>
      printk_args im fr lkfuel ffuel sfuel (line "directory is full!") [];; mret false
  | S n =>
      b ← on_mach (field all_blocks (4 * block_idx));
      if decide (b = 0) then
        block_lba ← alloc_block;
        if decide (block_lba = -1) then alloc_failed
        else
          ok ← add_block inode block_idx block_lba;
          if (ok : bool) then
            on_mach (memset io_buf 0 512);;
            on_mach (memcpy io_buf p_de size);;
            lba ← on_mach (field all_blocks (4 * block_idx));
            write_block lba io_buf;;
            grow inode size
          else mret false
      else
        hd ← part_field part_my_disk;
        ide_read hw ln rounds lkfuel hd b io_buf 1;;
        found ← take_entry 256 inode p_de io_buf b size 0 per_sec;
        if (found : bool) then mret true
        else entry_loop n inode p_de io_buf size per_sec (u8 (block_idx + 1))
  end.

Definition sync_dir_entry (parent_dir p_de io_buf : Z) : K bool :=
  inode ← on_mach (field parent_dir dir_inode);
  dir_size ← on_mach (field inode in_size);
  sb ← part_field part_sb;
  size ← on_mach (field sb sb_dir_entry_size);
  KASSERT (bool_decide (dir_size mod size = 0)) "dir_size % dir_entry_size == 0";;
  on_mach (memset_loop 560 all_blocks 0);;
  on_mach (copy_sectors 12 inode 0);;
  entry_loop 140 inode p_de io_buf size (512 / size) 0.
End dir.
