(* ===== verification/FsDir.v ===== *)
(** * Adding an entry to a directory

    What [sync_dir_entry] of [fs/dir.c] does to the disk when one of the
    directory's first twelve blocks has a free entry: the scan of the
    blocks read from the disk, the write of the one sector, the inode's size. *)
From S2P Require Import Prelude Machine Global Str Stdio Bitmap KList Paging Kernel Thread Timer.
From S2P Require Import Sync Console Memory Arena Interrupt Syscall Printk Ide Run IdeSpec IdeLogic.
From S2P Require Import IdeRW Inode File FsDisk Fs Dir.

(** The type of entry [e] of a block, in memory at [io] and on a drive at
    [lba]. *)
Definition entry_type (r : gmap Z Z) (io e : Z) : Z := ld32 r (io + sizeof_dir_entry * e + de_f_type).
Definition disk_type (a : ata) (dev lba e : Z) : Z :=
  let q := 512 * lba + sizeof_dir_entry * e + de_f_type in
  drive_byte a dev q + 256 * drive_byte a dev (q + 1) + 65536 * drive_byte a dev (q + 2) +
  16777216 * drive_byte a dev (q + 3).

Lemma entry_type_disk r a dev lba io e :
  (forall j, 0 <= j < 512 -> ld8 r (io + j) = drive_byte a dev (512 * lba + j)) -> 0 <= e < 21 ->
  entry_type r io e = disk_type a dev lba e.
Proof.
  intros H He. unfold entry_type, disk_type, ld32, sizeof_dir_entry, de_f_type. cbv zeta.
  assert (Hb : forall j, 0 <= j < 4 ->
    drive_byte a dev (512 * lba + 24 * e + 20 + j) = ld8 r (io + 24 * e + 20 + j)).
  { intros j Hj. replace (512 * lba + 24 * e + 20 + j) with (512 * lba + (24 * e + 20 + j)) by lia.
    rewrite <- H by lia. f_equal. lia. }
  rewrite <- (Z.add_0_r (512 * lba + 24 * e + 20)) at 1. rewrite !Hb by lia. by rewrite Z.add_0_r.
Qed.

Section entries.
Context (hw : bus) (ln : ide_link) (rounds lkfuel : nat) (v_cur_part : Z).

Lemma field_done a off k : on_mach (field a off) k = Done (ld32 (ram (km k)) (a + off)) k.
Proof. apply field_run. Qed.

(** Taken entries are passed over. *)
Lemma take_skip m n inode p_de io lba e per k :
  0 <= e -> e + Z.of_nat m <= per -> per <= 255 ->
  (forall x, e <= x < e + Z.of_nat m -> entry_type (ram (km k)) io x <> FT_UNKNOWN) ->
  take_entry hw ln rounds lkfuel v_cur_part (m + n) inode p_de io lba 24 e per k =
  take_entry hw ln rounds lkfuel v_cur_part n inode p_de io lba 24 (e + Z.of_nat m) per k.
Proof.
  revert e. induction m as [|m IH]; intros e He Hm Hp Ht; [by rewrite Z.add_0_r|].
  cbn [Nat.add take_entry]. rewrite decide_True by lia. cbv zeta.
  rewrite (kbind_Done _ _ _ _ _ (field_done _ _ _)). cbv beta.
  rewrite decide_False by (apply (Ht e); lia). rewrite u8_id by lia.
  rewrite IH by (lia || (intros x Hx; apply Ht; lia)). f_equal. lia.
Qed.

(** A block without a free entry. *)
Lemma take_none inode p_de io lba k :
  (forall e, 0 <= e < 21 -> entry_type (ram (km k)) io e <> FT_UNKNOWN) ->
  take_entry hw ln rounds lkfuel v_cur_part 256 inode p_de io lba 24 0 21 k = Done false k.
Proof.
  intros H. change 256%nat with (21 + 235)%nat. rewrite take_skip by (lia || done). done.
Qed.

(** The first free entry. *)
Lemma take_first fe inode p_de io lba k :
  0 <= fe < 21 -> (forall e, 0 <= e < fe -> entry_type (ram (km k)) io e <> FT_UNKNOWN) ->
  entry_type (ram (km k)) io fe = FT_UNKNOWN ->
  take_entry hw ln rounds lkfuel v_cur_part 256 inode p_de io lba 24 0 21 k =
  (on_mach (memcpy (io + sizeof_dir_entry * fe) p_de 24);;
   write_block hw ln rounds lkfuel v_cur_part lba io;; grow inode 24) k.
Proof.
  intros Hf Ht Hfe. replace 256%nat with (Z.to_nat fe + S (255 - Z.to_nat fe))%nat by lia.
  rewrite take_skip by (rewrite ?Z2Nat.id by lia; lia || (intros x Hx; apply Ht; lia)).
  rewrite Z.add_0_l, Z2Nat.id by lia. cbn [take_entry]. rewrite decide_True by lia. cbv zeta.
  rewrite (kbind_Done _ _ _ _ _ (field_done _ _ _)). cbv beta. by rewrite decide_True by exact Hfe.
Qed.
End entries.

(** ** The memory of a call *)

(** The words [sync_dir_entry] reads: [cur_part], the partition's disk and
    super block, the size of an entry, the directory's inode, the inode's first
    sectors, the new entry. *)
Record dir_reads (r : gmap Z Z) (v_cur_part parent_dir inode p_de x : Z) : Prop := DirReads {
  dr_in : let cur := ld32 r v_cur_part in let sb := ld32 r (cur + part_sb) in
    within v_cur_part 4 x \/ within (cur + part_my_disk) 4 x \/ within (cur + part_sb) 4 x \/
    within (sb + sb_dir_entry_size) 4 x \/ within (parent_dir + dir_inode) 4 x \/
    within (inode + in_sectors 0) 48 x \/ within p_de 24 x
}.

Record dir_ok (hd ch : Z) (P : Z -> Prop) (rounds : nat) (r : gmap Z Z)
    (v_cur_part ab parent_dir inode p_de io : Z) : Prop := {
  do_disk : ld32 r (ld32 r v_cur_part + part_my_disk) = hd;
  do_entry : ld32 r (ld32 r (ld32 r v_cur_part + part_sb) + sb_dir_entry_size) = 24;
  do_inode : ld32 r (parent_dir + dir_inode) = inode;
  do_size : ld32 r (inode + in_size) mod 24 = 0;
  do_reads : forall x, dir_reads r v_cur_part parent_dir inode p_de x ->
    P x /\ ~ within io 512 x /\ ~ within ab 560 x /\ ~ within (inode + in_size) 4 x;
  do_own : forall x, within io 512 x \/ within ab 560 x \/ within (inode + in_size) 4 x -> own hd ch P x;
  do_apart : apart io 512 ab 560 /\ apart io 512 (inode + in_size) 4 /\ apart ab 560 (inode + in_size) 4;
  do_null : 0 < p_de /\ 0 < io /\ io + 512 <= 4294967296;
  do_rounds : rounds_for 1 rounds
}.

Section call.
Context (hw : bus) (pb : Z) (a0 : ata) (ln : ide_link) (hd ch dev t : Z) (P : Z -> Prop) (R : kst -> kst -> Prop).
Context (HU : channel_use hw pb a0 hd ch t P R).
Context (im : image) (fr : frame_addrs) (rounds fuel ffuel sfuel : nat).
Context (v_cur_part ab parent_dir inode p_de io : Z) (r0 : gmap Z Z).
Context (Hok : dir_ok hd ch P rounds r0 v_cur_part ab parent_dir inode p_de io).

(** Memory as before the call, but for the buffer and the list of blocks. *)
Definition kept_reads (r : gmap Z Z) : Prop :=
  agree (fun x => P x /\ ~ within io 512 x /\ ~ within ab 560 x) r0 r.

Lemma kept_word r a : kept_reads r ->
  (forall x, within a 4 x -> dir_reads r0 v_cur_part parent_dir inode p_de x) ->
  ld32 r a = ld32 r0 a.
Proof.
  intros Hk Ha. eapply agree_ld32; [exact Hk|]. intros x Hx.
  destruct (do_reads _ _ _ _ _ _ _ _ _ _ _ Hok x) as (? & ? & ? & _); [by apply Ha|done].
Qed.

Lemma size_word r : kept_reads r -> ld32 r (inode + in_size) = ld32 r0 (inode + in_size).
Proof.
  intros Hk. eapply agree_ld32; [exact Hk|]. intros x Hx.
  destruct (do_apart _ _ _ _ _ _ _ _ _ _ _ Hok) as (_ & A1 & A2).
  destruct (do_own _ _ _ _ _ _ _ _ _ _ _ Hok x) as [Hp _]; [by right; right|].
  unfold apart, within in *. split; [done|lia].
Qed.

(** Reading through [cur_part]. *)
Lemma disk_field k : kept_reads (ram (km k)) -> part_field v_cur_part part_my_disk k = Done hd k.
Proof.
  intros Hk. unfold part_field.
  assert (Hc : on_mach (load32 v_cur_part) k = Done (ld32 r0 v_cur_part) k).
  { rewrite (on_mach_Ok _ _ (ld32 (ram (km k)) v_cur_part) (km k)) by done. rewrite set_km_id.
    rewrite (kept_word _ _ Hk); [done|]. intros x Hx. constructor. by left. }
  rewrite (kbind_Done _ _ _ _ _ Hc). cbv beta. rewrite field_done, (kept_word _ _ Hk).
  - by rewrite (do_disk _ _ _ _ _ _ _ _ _ _ _ Hok).
  - intros x Hx. constructor. by right; left.
Qed.

Lemma sb_field k : kept_reads (ram (km k)) ->
  part_field v_cur_part part_sb k = Done (ld32 r0 (ld32 r0 v_cur_part + part_sb)) k.
Proof.
  intros Hk. unfold part_field.
  assert (Hc : on_mach (load32 v_cur_part) k = Done (ld32 r0 v_cur_part) k).
  { rewrite (on_mach_Ok _ _ (ld32 (ram (km k)) v_cur_part) (km k)) by done. rewrite set_km_id.
    rewrite (kept_word _ _ Hk); [done|]. intros x Hx. constructor. by left. }
  rewrite (kbind_Done _ _ _ _ _ Hc). cbv beta. rewrite field_done, (kept_word _ _ Hk); [done|].
  intros x Hx. constructor. by right; right; left.
Qed.

(** The list of blocks as the loop finds it. *)
Definition lba_of (b : Z) : Z := ld32 r0 (inode + in_sectors b).

Lemma copy_sectors_ok n b m :
  kept_reads (ram m) -> 0 <= b -> b + Z.of_nat n <= 12 ->
  exists r, copy_sectors ab n inode b m = Ok (tt, set_ram r m) /\
    agree (fun x => ~ within ab 560 x) (ram m) r /\
    forall c, 0 <= c < 12 -> ld32 r (ab + 4 * c) =
      if decide (b <= c < b + Z.of_nat n) then lba_of c else ld32 (ram m) (ab + 4 * c).
Proof.
  revert b m. induction n as [|n IH]; intros b m Hk Hb Hn.
  { exists (ram m). split; [by destruct m|]. split; [done|]. intros c _. by rewrite decide_False by lia. }
  assert (Hs : ld32 (ram m) (inode + in_sectors b) = lba_of b).
  { apply (kept_word _ _ Hk). intros x Hx. constructor. do 5 right. left.
    unfold within, in_sectors in *. lia. }
  set (m1 := set_ram (st32 (ram m) (ab + 4 * b) (lba_of b)) m).
  assert (Hag : agree (fun x => ~ within ab 560 x) (ram m) (ram m1)).
  { apply agree_st32. unfold within. intros; lia. }
  destruct (IH (b + 1) m1) as (r & Hr & Hag2 & Hv); [|lia|lia|].
  { apply (agree_trans _ _ (ram m)); [exact Hk|]. eapply agree_weaken; [|exact Hag]. cbv beta. tauto. }
  exists r. split; [|split].
  - cbn [copy_sectors]. unfold field, load32. mstep. rewrite Hs. mstep. rewrite u8_id by lia. exact Hr.
  - eapply agree_trans; [exact Hag|exact Hag2].
  - intros c Hc. rewrite Hv by done. destruct (decide (c = b)) as [->|Hne].
    + rewrite (decide_False (P := b + 1 <= b < _)), decide_True by lia. cbn [m1 ram set_ram].
      rewrite ld32_st32_eq. apply u32_id, ld32_range.
    + rewrite (decide_ext (b + 1 <= c < b + 1 + Z.of_nat n) (b <= c < b + Z.of_nat (S n))) by lia.
      case_decide; [done|]. cbn [m1 ram set_ram]. by rewrite ld32_st32_ne by lia.
Qed.

Lemma io_apart_ab x : within ab 560 x -> P x /\ ~ within io 512 x.
Proof.
  intros Hx. destruct (do_apart _ _ _ _ _ _ _ _ _ _ _ Hok) as (A & _).
  destruct (do_own _ _ _ _ _ _ _ _ _ _ _ Hok x) as [Hp _]; [by right; left|].
  unfold apart, within in *. split; [done|lia].
Qed.

Lemma kept_step r r' : kept_reads r -> agree (fun x => P x /\ ~ within io 512 x) r r' -> kept_reads r'.
Proof.
  intros Hk Hag. apply (agree_trans _ _ r); [exact Hk|]. eapply agree_weaken; [|exact Hag]. cbv beta. tauto.
Qed.

(** What a successful call does: the 24 bytes of the entry [fe] of block
    [lba] on the disk are those at [p_de], the inode has grown. *)
Record entry_added (lba fe : Z) (a a' : ata) (ok : bool) (k' : kst) : Prop := {
  ea_result : ok = true;
  ea_ready : ready_for pb a0 ln hd ch dev t P R a' k';
  ea_entry : forall j, 0 <= j < 24 ->
    drive_byte a' dev (512 * lba + sizeof_dir_entry * fe + j) = ld8 r0 (p_de + j);
  ea_other : forall e q, e <> dev \/ ~ within (512 * lba + sizeof_dir_entry * fe) 24 q ->
    drive_byte a' e q = drive_byte a e q;
  ea_size : ld32 (ram (km k')) (inode + in_size) = u32 (ld32 r0 (inode + in_size) + 24);
  ea_memory : agree (fun x => P x /\ ~ within io 512 x /\ ~ within ab 560 x /\ ~ within (inode + in_size) 4 x)
    r0 (ram (km k'))
}.

Lemma grow_runs a a' k lba fe :
  ready_for pb a0 ln hd ch dev t P R a' k -> kept_reads (ram (km k)) ->
  (forall j, 0 <= j < 24 -> drive_byte a' dev (512 * lba + sizeof_dir_entry * fe + j) = ld8 r0 (p_de + j)) ->
  (forall e q, e <> dev \/ ~ within (512 * lba + sizeof_dir_entry * fe) 24 q ->
     drive_byte a' e q = drive_byte a e q) ->
  runs_or (absent pb a0 ln ch t P R) (may_wait a0) (entry_added lba fe a a') (grow inode 24 k).
Proof.
  intros Hk Hkr He Ho. unfold grow. rewrite (kbind_Done _ _ _ _ _ (field_done _ _ _)). cbv beta.
  rewrite (size_word _ Hkr). set (n := ld32 r0 (inode + in_size) + 24).
  destruct (own_step pb a0 ln hd ch dev t P R (cu_frame _ _ _ _ _ _ _ _ HU) (store32 (inode + in_size) n) a' k
    (st32 (ram (km k)) (inode + in_size) n) (within (inode + in_size) 4) Hk eq_refl) as (k' & Hrun & Hk' & Hr').
  { apply agree_st32. unfold within. intros; lia. }
  { intros x Hx. apply (do_own _ _ _ _ _ _ _ _ _ _ _ Hok). by right; right. }
  rewrite (kbind_Done _ _ _ _ _ Hrun). constructor. split; try done.
  - rewrite Hr'. by rewrite ld32_st32_eq.
  - apply (agree_trans _ _ (ram (km k))); [eapply agree_weaken; [|exact Hkr]; cbv beta; tauto|].
    rewrite Hr'. apply agree_st32. unfold within. intros; lia.
Qed.

Lemma io_transfer lba : 0 <= lba < max_lba + 1 -> transfer_ok hd ch P lba io 1 rounds.
Proof.
  intros Hl. destruct (do_null _ _ _ _ _ _ _ _ _ _ _ Hok) as (_ & H1 & H2).
  split; [lia..| |apply (do_rounds _ _ _ _ _ _ _ _ _ _ _ Hok)]. split; [lia|lia|]. intros x Hx.
  destruct (do_own _ _ _ _ _ _ _ _ _ _ _ Hok x) as (? & ? & ? & _); [|done].
  left. unfold within in *. lia.
Qed.

(** The list of blocks, in memory. *)
Definition list_kept (r : gmap Z Z) : Prop := forall c, 0 <= c < 12 -> ld32 r (ab + 4 * c) = lba_of c.

Lemma list_kept_step r r' : list_kept r -> agree (fun x => P x /\ ~ within io 512 x) r r' -> list_kept r'.
Proof.
  intros Hl Hag c Hc. rewrite <- Hl by done. eapply agree_ld32; [exact Hag|].
  intros x Hx. apply io_apart_ab. unfold within. lia.
Qed.

(** A block comes into the buffer. *)
Lemma read_block_runs a k lba :
  ready_for pb a0 ln hd ch dev t P R a k -> kept_reads (ram (km k)) -> list_kept (ram (km k)) ->
  0 <= lba < max_lba + 1 ->
  runs (absent pb a0 ln ch t P R) (fun _ k' => exists a', ready_for pb a0 ln hd ch dev t P R a' k' /\
      kept_reads (ram (km k')) /\ list_kept (ram (km k')) /\
      (forall e q, drive_byte a' e q = drive_byte a e q) /\
      forall j, 0 <= j < 512 -> ld8 (ram (km k')) (io + j) = drive_byte a' dev (512 * lba + j))
    (ide_read hw ln rounds (S (S fuel)) hd lba io 1 k).
Proof.
  intros Hk Hkr Hl Hlba.
  eapply runs_conseq; [apply (read_bytes hw pb a0 ln hd ch dev t P R HU rounds fuel a);
    [done|by apply io_transfer|by left]|].
  intros _ k' (a' & Hk' & Hd & Hag & Hb). exists a'. split; [done|].
  split; [by eapply kept_step|]. split; [by eapply list_kept_step|]. split; [done|].
  intros j Hj. rewrite Hd. by apply Hb.
Qed.

Lemma write_block_run lba k : kept_reads (ram (km k)) ->
  write_block hw ln rounds (S (S fuel)) v_cur_part lba io k = ide_write hw ln rounds (S (S fuel)) hd lba io 1 k.
Proof. intros Hk. unfold write_block. by rewrite (kbind_Done _ _ _ _ _ (disk_field k Hk)). Qed.

(** The entry goes into the buffer, the sector back to the disk. *)
Lemma put_runs a k lba fe :
  ready_for pb a0 ln hd ch dev t P R a k -> kept_reads (ram (km k)) ->
  0 <= lba < max_lba + 1 -> 0 <= fe < 21 ->
  (forall j, 0 <= j < 512 -> ld8 (ram (km k)) (io + j) = drive_byte a dev (512 * lba + j)) ->
  runs_or (absent pb a0 ln ch t P R) (may_wait a0) (fun ok k' => exists a', entry_added lba fe a a' ok k')
    ((on_mach (memcpy (io + sizeof_dir_entry * fe) p_de 24);;
      write_block hw ln rounds (S (S fuel)) v_cur_part lba io;; grow inode 24) k).
Proof.
  intros Hk Hkr Hlba Hfe Hb. destruct (do_null _ _ _ _ _ _ _ _ _ _ _ Hok) as (N1 & N2 & N3).
  set (d := io + sizeof_dir_entry * fe). set (r := ram (km k)) in *.
  assert (Hd : io <= d /\ d + 24 <= io + 512) by (unfold d, sizeof_dir_entry; lia).
  assert (Hpd : forall x, within p_de 24 x -> P x /\ ~ within io 512 x /\ ~ within ab 560 x).
  { intros x Hx. destruct (do_reads _ _ _ _ _ _ _ _ _ _ _ Hok x) as (? & ? & ? & _); [|done].
    constructor. by do 6 right. }
  assert (Hc : forall x, ld8 (ram_copy r d p_de 24) x =
    if decide (within d 24 x) then ld8 r (p_de + (x - d)) else ld8 r x).
  { intros x. rewrite ld8_ram_copy; [done|]. change (Z.of_nat 24) with 24.
    destruct (decide (p_de + 24 <= d)); [by right|]. left. destruct (decide (d <= p_de)); [done|].
    exfalso. destruct (Hpd d) as (_ & Hx & _); unfold within in *; lia. }
  assert (Hag : agree (fun x => ~ within d 24 x) r (ram_copy r d p_de 24)).
  { intros x Hx. by rewrite Hc, decide_False. }
  destruct (own_step pb a0 ln hd ch dev t P R (cu_frame _ _ _ _ _ _ _ _ HU) (memcpy d p_de 24) a k (ram_copy r d p_de 24) (within d 24) Hk)
    as (k1 & Hrun & Hk1 & Hr1); [by apply memcpy_eq; lia|exact Hag| |].
  { intros x Hx. apply (do_own _ _ _ _ _ _ _ _ _ _ _ Hok). left. unfold within in *. lia. }
  rewrite (kbind_Done _ _ _ _ _ Hrun). cbv beta.
  assert (Hkr1 : kept_reads (ram (km k1))).
  { rewrite Hr1. apply (kept_step r); [done|]. eapply agree_weaken; [|exact Hag].
    unfold within in *. cbv beta. intros x [_ Hx]. lia. }
  eapply runs_bind; [rewrite write_block_run by done;
    apply (write_bytes hw pb a0 ln hd ch dev t P R HU rounds fuel a); [done|by apply io_transfer|by left]|].
  intros _ k2 (a2 & Hk2 & Hag2 & Hw & Ho). rewrite Hr1 in Hag2, Hw. cbv beta.
  eapply runs_conseq; [apply (grow_runs a a2 k2 lba fe Hk2)|intros ok k3 H3; by exists a2].
  - apply (kept_step (ram (km k1)) _ Hkr1). rewrite Hr1. eapply agree_weaken; [|exact Hag2]. by intros x [Hx _].
  - intros j Hj. rewrite <- Z.add_assoc. rewrite Hw by (unfold sizeof_dir_entry; lia).
    rewrite Hc, decide_True by (unfold within, d; lia).
    replace (p_de + (io + (sizeof_dir_entry * fe + j) - d)) with (p_de + j) by (unfold d; lia).
    apply Hkr. destruct (Hpd (p_de + j)) as (? & ? & ?); [unfold within; lia|done].
  - intros e q Hq. destruct (decide (e = dev)) as [->|He]; [|by apply Ho; left].
    destruct (decide (512 * lba <= q < 512 * (lba + 1))) as [Hin|Hout]; [|by apply Ho; right].
    destruct Hq as [Hq|Hq]; [congruence|].
    replace q with (512 * lba + (q - 512 * lba)) by lia.
    rewrite Hw, Hc, decide_False by (unfold within, d in *; lia). rewrite Hb; [done|lia].
Qed.

(** Entry [fe] of block [b], the first free one of the first twelve blocks. *)
Record first_free (a : ata) (b0 b fe : Z) : Prop := {
  ff_range : b0 <= b < 12 /\ 0 <= fe < 21;
  ff_blocks : forall c, b0 <= c <= b -> 0 < lba_of c < max_lba + 1;
  ff_taken : forall c e, b0 <= c <= b -> 0 <= e < (if decide (c = b) then fe else 21) ->
     disk_type a dev (lba_of c) e <> FT_UNKNOWN;
  ff_free : disk_type a dev (lba_of b) fe = FT_UNKNOWN
}.

Lemma disk_type_same a a' lba e : (forall e q, drive_byte a' e q = drive_byte a e q) ->
  disk_type a' dev lba e = disk_type a dev lba e.
Proof. intros H. unfold disk_type. cbv zeta. by rewrite !H. Qed.

Lemma first_free_same a a' b0 b fe : (forall e q, drive_byte a' e q = drive_byte a e q) ->
  first_free a b0 b fe -> first_free a' b0 b fe.
Proof.
  intros H [F1 F2 F3 F4]. split; [done|done| |by rewrite (disk_type_same a)].
  intros c e Hc He. rewrite (disk_type_same a) by done. by apply F3.
Qed.

Lemma added_same a a' lba fe ok k : (forall e q, drive_byte a' e q = drive_byte a e q) ->
  (exists a2, entry_added lba fe a' a2 ok k) -> exists a2, entry_added lba fe a a2 ok k.
Proof.
  intros H (a2 & [E1 E2 E3 E4 E5 E6]). exists a2. split; try done.
  intros e q Hq. by rewrite E4, H.
Qed.

(** A block without a free entry is read and left, the one with the first
    free entry gets the new one. *)
Lemma loop_runs m n b0 b a k fe :
  b = b0 + Z.of_nat m -> 0 <= b0 ->
  ready_for pb a0 ln hd ch dev t P R a k -> kept_reads (ram (km k)) -> list_kept (ram (km k)) ->
  first_free a b0 b fe ->
  runs_or (absent pb a0 ln ch t P R) (may_wait a0) (fun ok k' => exists a', entry_added (lba_of b) fe a a' ok k')
    (entry_loop hw ln im fr rounds (S (S fuel)) ffuel sfuel v_cur_part ab (S m + n) inode p_de io 24 21 b0 k).
Proof.
  revert b0 a k. induction m as [|m IH]; intros b0 a k Eb Hb Hk Hkr Hl Hff.
  all: pose proof Hff as [[F1 F1'] F2 F3 F4]; pose proof (F2 b0 ltac:(lia)) as Hlba.
  all: cbn [Nat.add entry_loop]; rewrite (kbind_Done _ _ _ _ _ (field_done _ _ _)); cbv beta.
  all: rewrite Hl by lia; rewrite decide_False by lia.
  all: rewrite (kbind_Done _ _ _ _ _ (disk_field k Hkr)); cbv beta.
  all: eapply runs_bind; [eapply runs_weaken; [|apply (read_block_runs a k (lba_of b0)); [done|done|done|lia]]; done|].
  all: intros _ k2 (a2 & Hk2 & Hkr2 & Hl2 & Hsame & Hb2); cbv beta.
  all: assert (Htype : forall e, 0 <= e < 21 -> entry_type (ram (km k2)) io e = disk_type a dev (lba_of b0) e)
    by (intros e He; rewrite <- (disk_type_same a a2) by done; by apply entry_type_disk).
  - replace b with b0 in * by lia.
    eapply runs_bind with (Q := fun ok k' => exists a', entry_added (lba_of b0) fe a a' ok k').
    + rewrite (take_first _ _ _ _ _ fe); [|done| |by rewrite Htype by lia].
      * eapply runs_conseq; [apply (put_runs a2); done || lia|]. intros ok k3. by apply added_same.
      * intros e He. rewrite Htype by lia. apply F3; [lia|]. by rewrite decide_True by done.
    + intros ok k3 (a3 & H3). pose proof (ea_result _ _ _ _ _ _ H3) as ->. cbv iota. constructor. by exists a3.
  - assert (Hnone : forall e, 0 <= e < 21 -> entry_type (ram (km k2)) io e <> FT_UNKNOWN).
    { intros e He. rewrite Htype by done. apply F3; [lia|]. by rewrite decide_False by lia. }
    rewrite (kbind_Done _ _ _ _ _ (take_none _ _ _ _ _ inode p_de io (lba_of b0) k2 Hnone)).
    cbv beta iota. rewrite u8_id by lia.
    eapply runs_conseq; [apply (IH (b0 + 1) a2 k2); [lia|lia|done|done|done|]|intros ok k3; by apply added_same].
    apply (first_free_same a); [done|]. split; [lia|intros c Hc; apply F2; lia| |done].
    intros c e Hc He. apply F3; [lia|done].
Qed.

Lemma sync_dir_entry_runs a k b fe :
  r0 = ram (km k) -> ready_for pb a0 ln hd ch dev t P R a k -> first_free a 0 b fe ->
  runs_or (absent pb a0 ln ch t P R) (may_wait a0) (fun ok k' => exists a', entry_added (lba_of b) fe a a' ok k')
    (sync_dir_entry hw ln im fr rounds (S (S fuel)) ffuel sfuel v_cur_part ab parent_dir p_de io k).
Proof.
  intros Hr Hk Hff. assert (Hk0 : kept_reads (ram (km k))) by (rewrite <- Hr; done).
  pose proof Hok as [O1 O2 O3 O4 _ O6 _ _ _].
  unfold sync_dir_entry. rewrite (kbind_Done _ _ _ _ _ (field_done _ _ _)). cbv beta. rewrite <- Hr, O3.
  rewrite (kbind_Done _ _ _ _ _ (field_done _ _ _)). cbv beta. rewrite <- Hr.
  rewrite (kbind_Done _ _ _ _ _ (sb_field k Hk0)). cbv beta.
  rewrite (kbind_Done _ _ _ _ _ (field_done _ _ _)). cbv beta. rewrite <- Hr, O2.
  rewrite bool_decide_true by done. kstep.
  set (r1 := ram_fill r0 ab 0 560).
  assert (Hag1 : agree (fun x => ~ within ab 560 x) r0 r1).
  { intros x Hx. unfold r1. rewrite ld8_ram_fill, decide_False; [done|].
    change (Z.of_nat 560) with 560. exact Hx. }
  assert (Hown : forall x, within ab 560 x -> own hd ch P x) by (intros x Hx; apply O6; by right; left).
  destruct (own_step pb a0 ln hd ch dev t P R (cu_frame _ _ _ _ _ _ _ _ HU) (memset_loop 560 ab 0) a k r1 (within ab 560) Hk)
    as (k1 & Hrun & Hk1 & Hr1); [rewrite memset_loop_eq; by rewrite <- Hr|by rewrite <- Hr|done|].
  rewrite (kbind_Done _ _ _ _ _ Hrun). cbv beta.
  assert (Hk1r : kept_reads (ram (km k1))).
  { rewrite Hr1. eapply agree_weaken; [|exact Hag1]. cbv beta. tauto. }
  destruct (copy_sectors_ok 12 0 (km k1) Hk1r) as (r2 & Hc & Hag2 & Hv); [done|done|].
  destruct (own_step pb a0 ln hd ch dev t P R (cu_frame _ _ _ _ _ _ _ _ HU) _ a k1 r2 (within ab 560) Hk1 Hc Hag2 Hown)
    as (k2 & Hrun2 & Hk2 & Hr2).
  rewrite (kbind_Done _ _ _ _ _ Hrun2). cbv beta. change (512 / 24) with 21.
  pose proof (ff_range _ _ _ _ Hff) as [Hb _].
  replace 140%nat with (S (Z.to_nat b) + (139 - Z.to_nat b))%nat by lia.
  apply loop_runs; [lia|lia|done| |rewrite Hr2; intros c Hcc; by rewrite Hv, decide_True by lia|done].
  rewrite Hr2. apply (agree_trans _ _ (ram (km k1))); [exact Hk1r|].
  eapply agree_weaken; [|exact Hag2]. cbv beta. tauto.
Qed.
End call.

(** C29: [sync_dir_entry] puts a new entry where the directory's first twelve
    blocks have their first free one: the 24 bytes on the disk are those of
    the entry, no other byte of either drive changes, the inode grows by 24
    bytes and the result is true; in memory only the buffer, the list of
    blocks and the inode's size change.  The drive follows the PIO handshake;
    only the clock may keep the call from coming back, when the drive is busy
    after the write command ([may_wait]). *)
Theorem sync_dir_entry_ok hw pb a0 ln hd ch dev t P R im fr rounds fuel ffuel sfuel
    v_cur_part ab parent_dir inode p_de io a k b fe :
  channel_use hw pb a0 hd ch t P R -> ready_for pb a0 ln hd ch dev t P R a k ->
  dir_ok hd ch P rounds (ram (km k)) v_cur_part ab parent_dir inode p_de io ->
  first_free dev inode (ram (km k)) a 0 b fe ->
  runs_or (absent pb a0 ln ch t P R) (may_wait a0) (fun ok k' => exists a',
      entry_added pb a0 ln hd ch dev t P R ab inode p_de io (ram (km k))
        (lba_of inode (ram (km k)) b) fe a a' ok k')
    (sync_dir_entry hw ln im fr rounds (S (S fuel)) ffuel sfuel v_cur_part ab parent_dir p_de io k).
Proof. intros HU Hk Hok Hff. by apply (sync_dir_entry_runs hw pb a0 ln hd ch dev t P R HU). Qed.

(** A directory of two blocks, the first full, the second free. *)
Definition demo_dir_ram : gmap Z Z :=
  st32 (st32 (st32 (st32 (st32 (st32 (st32 (st32 (st32 (st32 demo_ide_ram 0x3400 0x3000) 0x3010 demo_hd)
    0x301c 0x3100) 0x3130 24) 0x3300 0x3200) 0x3204 48) 0x3210 7) 0x3214 65536) 0x3500 97) 0x3514 1.
Definition demo_dir_kst : kst := set_km (set_ram demo_dir_ram (km demo_reader)) demo_reader.

Lemma demo_dir_ready :
  ready_for 0x1f0 demo_drive demo_ide demo_hd 0x2000 1 0xc009e000 demo_private no_frame demo_drive demo_dir_kst.
Proof.
  apply (ready_ram 0x1f0 demo_drive demo_ide demo_hd 0x2000 1 0xc009e000 demo_private no_frame no_frame_laws demo_drive demo_reader
    demo_dir_ram (within 0x3000 0x600) (demo_ready true 0)).
  - unfold demo_dir_ram. repeat (etransitivity; [|apply agree_st32; unfold within; intros; lia]). done.
  - unfold own, demo_private, within, demo_hd, device_at, sizeof_disk. intros; lia.
Qed.

Lemma demo_dir_ok :
  dir_ok demo_hd 0x2000 demo_private 2 demo_dir_ram 0x3400 0x3800 0x3300 0x3200 0x3500 0x4000.
Proof.
  split; try (by vm_compute).
  - assert (E1 : ld32 demo_dir_ram 0x3400 = 0x3000) by (by vm_compute).
    assert (E2 : ld32 demo_dir_ram (0x3000 + part_sb) = 0x3100) by (by vm_compute).
    intros x [Hx]. rewrite E1 in Hx. cbv zeta in Hx. rewrite E2 in Hx.
    unfold demo_private, within, part_my_disk, part_sb, sb_dir_entry_size, dir_inode, in_sectors, in_size in *. lia.
  - unfold own, demo_private, within, in_size, demo_hd, device_at, sizeof_disk. intros; lia.
  - unfold apart, in_size. lia.
Qed.

Definition demo_vars : frame_addrs := FrameAddrs 0x5000 0x5100 0x5200 0x5300.

Lemma demo_first_free : first_free 1 0x3200 demo_dir_ram demo_drive 0 1 0.
Proof.
  split; [lia| | |by vm_compute].
  - intros c Hc. assert (E : c = 0 \/ c = 1) by lia. destruct E as [-> | ->]; by vm_compute.
  - intros c e Hc. case_decide as E; [lia|]. intros He. replace c with 0 by lia.
    assert (Hx : e ∈ seqZ 0 21) by (apply elem_of_seqZ; lia). clear He. revert e Hx.
    apply Forall_forall. refine (bool_decide_unpack (Forall _ _) _). by vm_compute.
Qed.

Lemma sync_dir_entry_ok_witness :
  runs_or (absent 0x1f0 demo_drive demo_ide 0x2000 0xc009e000 demo_private no_frame) (may_wait demo_drive) (fun ok k' => exists a',
      entry_added 0x1f0 demo_drive demo_ide demo_hd 0x2000 1 0xc009e000 demo_private no_frame 0x3800 0x3200 0x3500
        0x4000 (ram (km demo_dir_kst)) (lba_of 0x3200 (ram (km demo_dir_kst)) 1) 0 demo_drive a' ok k')
    (sync_dir_entry (ata_answers 0x1f0 demo_drive) demo_ide demo_image demo_vars 2 2 0 0 0x3400 0x3800 0x3300
       0x3500 0x4000 demo_dir_kst).
Proof.
  apply (sync_dir_entry_ok _ 0x1f0 demo_drive demo_ide demo_hd 0x2000 1 0xc009e000 demo_private no_frame);
    [by apply demo_use|exact demo_dir_ready|exact demo_dir_ok|exact demo_first_free].
Defined.
