(* ===== verification/Path.v ===== *)
(** * Path names: [path_parse] and [path_depth_cnt] of [fs/dir.c]

    The two functions as they stand at this commit: the loop of [path_parse]
    compares the pointer, not the character it points to, with ['/'], and its
    body compares where it means to copy; the test after it assigns.  Pointers
    are 32-bit and wrap. *)
From S2P Require Import Prelude Machine Str Global Paging Kernel Fs.

(** [while ( *(++pathname) == '/');] *)
Fixpoint skip_slashes (fuel : nat) (pathname : Z) : M mach Z :=
  match fuel with
  | O => no_fuel
  | S fuel =>
      let pathname := u32 (pathname + 1) in
      c ← load8 pathname;
      if decide (c = 47) then skip_slashes fuel pathname else mret pathname
  end.

(** [while (pathname != '/' && pathname != 0) *name_store++ == *pathname++;] *)
Fixpoint parse_loop (fuel : nat) (pathname name_store : Z) : M mach Z :=
  match fuel with
  | O => no_fuel
  | S fuel =>
      if decide (pathname <> 47 /\ pathname <> 0) then
        load8 name_store;; load8 pathname;;
        parse_loop fuel (u32 (pathname + 1)) (u32 (name_store + 1))
      else mret pathname
  end.

Definition path_parse (fuel : nat) (pathname name_store : Z) : M mach Z :=
  c ← load8 pathname;
  pathname ← (if decide (c = 48) then skip_slashes fuel pathname else mret pathname);
  pathname ← parse_loop fuel pathname name_store;
  store8 pathname 0;;
  if decide (0 <> 0) then mret 0 else mret pathname.

(** [while (name[0])] *)
Fixpoint depth_loop (n fuel : nat) (p name depth : Z) : M mach Z :=
  match n with
  | O => no_fuel
  | S n =>
      c ← load8 name;
      if decide (c <> 0) then
        memset name 0 MAX_FILE_NAME_LEN;;
        (if decide (p <> 0) then path_parse fuel p name;; mret tt else mret tt);;
        depth_loop n fuel p name (u32 (depth + 1))
      else mret depth
  end.

(** [name] is the address of the uninitialised array on the stack. *)
Definition path_depth_cnt (n fuel : nat) (name pathname : Z) : M mach Z :=
  ASSERT (bool_decide (pathname <> 0)) "pathname != NULL";;
  p ← path_parse fuel pathname name;
  depth ← depth_loop n fuel p name 0;
  mret (i32 depth).

(** ** What they do *)

(** The loop runs the pointer round to 0. *)
Lemma parse_loop_wraps fuel : forall pathname name m,
  47 < pathname < 4294967296 -> 4294967296 - pathname < Z.of_nat fuel ->
  parse_loop fuel pathname name m = Ok (0, m).
Proof.
  induction fuel as [|fuel IH]; intros p name m Hp Hf; [lia|]. simpl.
  rewrite decide_True by lia. do 2 mstep.
  destruct (decide (p = 4294967295)) as [->|].
  - by destruct fuel; [lia|].
  - rewrite (u32_id (p + 1)) by lia. apply IH; lia.
Qed.

(** The slashes behind a leading character 0 are skipped, no further than the
    path's end. *)
Lemma skip_slashes_run fuel : forall p s m,
  cstr (ram m) (p + 1) s -> 0 <= p -> p + 1 + Z.of_nat (length s) < 4294967296 ->
  (length s < fuel)%nat ->
  exists q, skip_slashes fuel p m = Ok (q, m) /\ p < q < 4294967296.
Proof.
  induction fuel as [|fuel IH]; intros p s m Hs Hp Hl Hf; [lia|]. cbn [skip_slashes].
  rewrite u32_id by lia. mstep. destruct s as [|c s]; cbn [cstr length] in *.
  - rewrite Hs. rewrite decide_False by done. exists (p + 1). split; [done|lia].
  - destruct Hs as (Hc & _ & Hs). rewrite Hc. case_decide; [|exists (p + 1); split; [done|lia]].
    destruct (IH (p + 1) s m Hs) as (q & Hq & Hr); [lia..|]. exists q. split; [exact Hq|lia].
Qed.

(** Whatever the path: no character of it is copied, a 0 goes to address 0
    and NULL is returned. *)
Lemma path_parse_wraps fuel pathname name s m :
  cstr (ram m) pathname s -> 47 < pathname -> pathname + Z.of_nat (length s) < 4294967296 ->
  4294967296 - pathname < Z.of_nat fuel ->
  path_parse fuel pathname name m = Ok (0, set_ram (st8 (ram m) 0 0) m).
Proof.
  intros Hs Hp Hl Hf. unfold path_parse. mstep.
  assert (Hq : exists q, (if decide (ld8 (ram m) pathname = 48) then skip_slashes fuel pathname else mret pathname) m =
    Ok (q, m) /\ pathname <= q < 4294967296).
  { case_decide as Hc; [|exists pathname; split; [done|lia]].
    destruct s as [|c s]; cbn [cstr length] in *; [congruence|]. destruct Hs as (_ & _ & Hs).
    destruct (skip_slashes_run fuel pathname s m Hs) as (q & Hq & Hr); [lia..|].
    exists q. split; [exact Hq|lia]. }
  destruct Hq as (q & Hq & Hr). rewrite (bind_Ok _ _ _ _ _ Hq).
  rewrite (bind_Ok _ _ _ _ _ (parse_loop_wraps fuel q name m ltac:(lia) ltac:(lia))). by mstep.
Qed.

(** A first byte that is not 0 has the array cleared, and the loop ends. *)
Lemma depth_loop_blind n fuel name depth m :
  0 < name ->
  depth_loop (S (S n)) fuel 0 name depth m =
  if decide (ld8 (ram m) name = 0) then Ok (depth, m)
  else Ok (u32 (depth + 1), set_ram (ram_fill (ram m) name 0 16) m).
Proof.
  intros Hn. simpl. mstep. destruct (decide (ld8 (ram m) name = 0)) as [E|E].
  { rewrite decide_False by (by intros ?). done. }
  rewrite decide_True by done.
  erewrite (bind_Ok (memset _ _ _)) by (apply memset_eq; lia). do 2 mstep. cbn [ram set_ram].
  rewrite decide_False; [done|].
  rewrite ld8_ram_fill, decide_True by (unfold MAX_FILE_NAME_LEN; lia). by intros ?.
Qed.

(** C30: [path_depth_cnt] does not look at the path: [path_parse] runs the
    pointer round to 0, writes a 0 to address 0 and returns NULL, with nothing
    copied into [name]; so for every path the answer is 0, with [name] as it
    was, or 1, with [name] cleared, decided by the byte the uninitialised
    array happens to start with.  No other byte changes. *)
Theorem path_depth_cnt_blind n fuel name pathname s m :
  cstr (ram m) pathname s -> 47 < pathname -> pathname + Z.of_nat (length s) < 4294967296 ->
  4294967296 - pathname < Z.of_nat fuel -> 0 < name ->
  path_parse fuel pathname name m = Ok (0, set_ram (st8 (ram m) 0 0) m) /\
  exists r', path_depth_cnt (S (S n)) fuel name pathname m =
      Ok (if decide (ld8 (ram m) name = 0) then 0 else 1, set_ram r' m) /\
    ld8 r' 0 = 0 /\
    (forall i, 0 <= i < 16 -> ld8 r' (name + i) =
       if decide (ld8 (ram m) name = 0) then ld8 (ram m) (name + i) else 0) /\
    agree (fun a => a <> 0 /\ ~ within name 16 a) (ram m) r'.
Proof.
  intros Hs Hp Hl Hf Hn. pose proof (path_parse_wraps fuel pathname name s m Hs Hp Hl Hf) as Hpp.
  split; [exact Hpp|]. unfold path_depth_cnt. rewrite bool_decide_true by lia. mstep. mstep.
  pose proof (depth_loop_blind n fuel name 0 (set_ram (st8 (ram m) 0 0) m) Hn) as Hd.
  cbn [ram set_ram] in Hd. rewrite ld8_st8_ne in Hd by lia.
  destruct (decide (ld8 (ram m) name = 0)) as [E|E]; rewrite (bind_Ok _ _ _ _ _ Hd).
  - exists (st8 (ram m) 0 0). split; [done|]. split; [apply ld8_st8_eq|]. split.
    + intros i Hi. by rewrite ld8_st8_ne by lia.
    + intros a [Ha _]. by rewrite ld8_st8_ne.
  - exists (ram_fill (st8 (ram m) 0 0) name 0 16). split; [done|]. split; [|split].
    + rewrite ld8_ram_fill, decide_False by lia. apply ld8_st8_eq.
    + intros i Hi. by rewrite ld8_ram_fill, decide_True by lia.
    + intros a [Ha Hw]. rewrite ld8_ram_fill, decide_False by (unfold within in Hw; lia).
      by rewrite ld8_st8_ne.
Qed.

(** The path "0//a", and 7 where the array lies. *)
Definition demo_path : mach :=
  set_ram (list_to_map [(0xc0101000, 48); (0xc0101001, 47); (0xc0101002, 47); (0xc0101003, 97);
    (0xc009e000, 7); (0, 3)]) demo_mach.

Lemma path_depth_cnt_blind_witness :
  exists r', path_depth_cnt 2 (Z.to_nat 4294967296) 0xc009e000 0xc0101000 demo_path =
      Ok (1, set_ram r' demo_path) /\ ld8 r' 0 = 0 /\ ld8 r' 0xc009e000 = 0 /\
    agree (fun a => a <> 0 /\ ~ within 0xc009e000 16 a) (ram demo_path) r'.
Proof.
  destruct (path_depth_cnt_blind 0 (Z.to_nat 4294967296) 0xc009e000 0xc0101000 [48; 47; 47; 97]
    demo_path) as (_ & r' & Hr & H0 & Hn & Ha);
    [by vm_compute|lia|simpl; lia|rewrite Z2Nat.id by lia; lia|lia|].
  exists r'. rewrite (decide_False (P := ld8 (ram demo_path) 0xc009e000 = 0)) in Hr by
    (vm_compute; discriminate).
  split; [exact Hr|]. split; [exact H0|]. split; [|exact Ha].
  rewrite <- (Z.add_0_r 0xc009e000), Hn by lia. by vm_compute.
Defined.
