(* ===== verification/Init.v ===== *)
(** * Start of the kernel: [kernel/init.c], [main] of [kernel/main.c] *)
From S2P Require Import Prelude Machine Global Str Stdio Bitmap KList Paging Kernel Thread Timer.
From S2P Require Import Sync Ioqueue Console Threads Memory Arena Interrupt Tss Syscall Spawn Printk.
From S2P Require Import Boot Ide Inode Fs.

Section init.
Context (hw : bus) (ln : ide_link) (im : image) (fr : frame_addrs).
Context (rounds lkfuel ffuel sfuel hfuel lfuel depth : nat) (k_block_descs : Z).
Context (v_cur_part fr_sb fr_default : Z).

(** [init_all] up to its [intr_enable()]. *)
Definition init_core : K unit :=
  on_mach (idt_init im);;
  on_mach (timer_init im);;
  mem_init k_block_descs;;
  thread_init im lkfuel sfuel;;
  console_init;;
  keyboard_init im;;
  tss_init im;;
  on_mach (syscall_init im).

Definition init_all : K unit :=
  init_core;;
  on_mach intr_enable;;
  irq_window;;
  ide_init hw ln im fr lkfuel ffuel sfuel hfuel lfuel k_block_descs depth;;
  filesys_init hw ln im fr rounds lkfuel ffuel sfuel hfuel lfuel k_block_descs v_cur_part fr_sb fr_default.

(** [main], up to its [while(1);]. *)
Definition main : K unit :=
  on_mach (put_line "I am kernel");;
  init_all;;
  on_mach intr_enable;;
  irq_window;;
  printk_args im fr lkfuel ffuel sfuel (line "test") [].
End init.
