(* ===== verification/Startup.v ===== *)
(** * The kernel at the end of [init_all]'s first part

    From the state the loader leaves, the initialisation of [kernel/init.c]
    up to the point where it enables interrupts: every table, the heaps, the
    threads and the locks are what the rest of the development takes for
    granted, and the system of threads that then starts never panics. *)
From S2P Require Import Prelude Machine Global Str Stdio Bitmap KList Paging Kernel Thread Timer.
From S2P Require Import Sync Ioqueue SyncLogic Console Threads Keyboard KbdLogic System Memory PageHeap PageAlloc.
From S2P Require Import Arena ArenaHeap HeapSpec Malloc MemInit Interrupt Tss Syscall Spawn SpawnLogic.
From S2P Require Import ThreadInit Printk Boot Ide Inode Fs Init.

(** ** Regions of memory that do not overlap *)

Definition region : Type := Z * Z.
Definition disjoint_regions (rs : list region) : Prop :=
  ForallOrdPairs (fun p q => apart (fst p) (snd p) (fst q) (snd q)) rs.

Lemma apart_sym a n b k : apart a n b k -> apart b k a n.
Proof. unfold apart. tauto. Qed.

Lemma disjoint_at rs : disjoint_regions rs -> forall i j p q,
  i <> j -> rs !! i = Some p -> rs !! j = Some q -> apart (fst p) (snd p) (fst q) (snd q).
Proof.
  induction 1 as [|x l Hx _ IH]; intros i j p q Hne Hi Hj; [done|].
  rewrite List.Forall_forall in Hx.
  destruct i as [|i], j as [|j]; simpl in *; [done|..].
  - injection Hi as ->. by apply Hx, list_elem_of_In, (list_elem_of_lookup_2 _ j).
  - injection Hj as ->. by apply apart_sym, Hx, list_elem_of_In, (list_elem_of_lookup_2 _ i).
  - apply (IH i j); [congruence|done..].
Qed.

(** The kernel's data: link addresses, the block descriptors at [kd], the two
    literals [thread_init] copies, the loader's [GDT]; all below the heap's
    bitmaps. *)
Definition kernel_data (im : image) (kd : Z) : list region :=
  [(idt im, 1032); (idt_table im, 516); (intr_name im, 516); (intr_entry_table im, 192);
   (tss im, 108); (syscall_table im, 16); (kd, 168); (GDT, 56);
   (lit im "main", 5); (lit im "idle", 5)].

Record linked (im : image) (kd : Z) : Prop := {
  ln_apart : disjoint_regions (kernel_data im kd);
  ln_below : Forall (fun p => 0 < fst p /\ fst p + snd p <= MEM_BITMAP_BASE) (kernel_data im kd);
  ln_handler : 0 <= syscall_handler im < 4294967296;
  ln_calls : calls_linked im
}.

Section data.
Context (im : image) (kd : Z) (L : linked im kd).

(** An address of one region is in no other. *)
Lemma only_in i p a j q :
  kernel_data im kd !! i = Some p -> within (fst p) (snd p) a -> i <> j ->
  kernel_data im kd !! j = Some q -> ~ within (fst q) (snd q) a.
Proof.
  intros Hi Ha Hne Hj. pose proof (disjoint_at _ (ln_apart _ _ L) i j p q Hne Hi Hj) as Hd.
  unfold apart, within in *. lia.
Qed.

Lemma below i p : kernel_data im kd !! i = Some p -> 0 < fst p /\ fst p + snd p <= MEM_BITMAP_BASE.
Proof. intros Hi. apply (Forall_lookup_1 _ _ i p (ln_below _ _ L) Hi). Qed.

Lemma linked_image : image_ok im.
Proof.
  pose proof (disjoint_at _ (ln_apart _ _ L)) as Hd.
  split; [|exact (Hd 0 3 _ _ ltac:(done) eq_refl eq_refl)%nat|
    exact (Hd 0 1 _ _ ltac:(done) eq_refl eq_refl)%nat|
    exact (Hd 0 2 _ _ ltac:(done) eq_refl eq_refl)%nat|
    exact (Hd 1 2 _ _ ltac:(done) eq_refl eq_refl)%nat|apply L].
  destruct (below 0 _ eq_refl) as [H1 H2]. cbn [fst snd] in *. unfold MEM_BITMAP_BASE in H2. lia.
Qed.

Lemma linked_tss : tss_placed im.
Proof.
  destruct (below 4 _ eq_refl) as [H1 H2]. cbn [fst snd] in *. unfold MEM_BITMAP_BASE in H2.
  split; [done|]. split; [unfold sizeof_tss; lia|].
  exact (disjoint_at _ (ln_apart _ _ L) 4 7 _ _ ltac:(done) eq_refl eq_refl)%nat.
Qed.

Lemma linked_descs : 0 < kd /\ kd + 168 <= MEM_BITMAP_BASE.
Proof. apply (below 6 _ eq_refl). Qed.
End data.

(** ** The steps *)

Definition pit_words : list port_io := [Outb 0x43 0x34; Outb 0x40 0x9b; Outb 0x40 0].

Lemma timer_init_run im m :
  exists m', timer_init im m = Ok (tt, m') /\
    ram m' = st32 (ram m) (idt_table im + 4 * 0x20) (fn im "intr_timer_handler") /\
    ports m' = ports m ++ pit_words /\ eflags m' = eflags m.
Proof.
  eexists. split; [reflexivity|]. split; [done|]. split; [|done].
  cbn [ports print set_ram set_ports]. by rewrite <-!app_assoc.
Qed.

(** What the steps without a theorem of their own leave alone. *)
Definition same_kernel (k k' : kst) : Prop :=
  kt k' = kt k /\ kp k' = kp k /\ kmem k' = kmem k /\
  eflags (km k') = eflags (km k) /\ ports (km k') = ports (km k).

Lemma keyboard_init_run im k :
  exists k', keyboard_init im k = Done tt k' /\ same_kernel k k' /\
    ram (km k') = st32 (ram (km k)) (idt_table im + 4 * 0x21) (fn im "intr_keyboard_handler") /\
    kbd_buf (kdev k') = IOQueue 0 0 (buf (kbd_buf (kdev k))) 0 0 /\
    lock_free kbd_buf_lock k' /\ locks_but [kbd_buf_lock] (ks k) (ks k').
Proof.
  set (k1 := set_km (print (codes "keyboard init start" ++ [10]) (km k)) k).
  destruct (lock_init_free kbd_buf_lock k1) as (s & Hl & Hf & Ho).
  set (k2 := upd_ioq_st (fun q => IOQueue 0 0 (buf q) 0 0) (set_ks s k1)).
  exists (set_km (print (codes "keyboard init done" ++ [10]) (set_ram (st32 (ram (km k2))
    (idt_table im + 4 * 0x21) (fn im "intr_keyboard_handler")) (km k2))) k2).
  split; [|split; [|split; [|split; [|split; [exact Hf|exact Ho]]]]].
  - unfold keyboard_init, ioqueue_init. kstep. fold k1.
    rewrite (kbind_Done _ _ _ tt k2); [by kstep|]. rewrite (kbind_Done _ _ _ _ _ Hl). reflexivity.
  - by repeat split.
  - done.
  - done.
Qed.

Lemma syscall_init_run im k :
  calls_linked im ->
  exists k', on_mach (syscall_init im) k = Done tt k' /\ same_kernel k k' /\ ks k' = ks k /\
    kdev k' = kdev k /\ tss_esp0 k' = tss_esp0 k /\ table_set im (ram (km k')) /\
    agree (fun a => ~ within (syscall_table im) 16 a) (ram (km k)) (ram (km k')).
Proof.
  intros Hc. destruct (syscall_init_table im (km k) Hc) as (m' & Hm & Ht & Ha & He & Hp).
  exists (set_km m' k). split; [unfold on_mach; by erewrite lift_Ok by exact Hm|].
  unfold same_kernel. by split_and!.
Qed.

(** ** The threads' locks *)

Definition no_waiters (s : sync_st) : Prop := forall i, waiters (sema_at s i) = [].

Lemma no_waiters_step ls k k' :
  no_waiters (ks k) -> locks_but ls (ks k) (ks k') -> (forall l, l ∈ ls -> lock_free l k') ->
  no_waiters (ks k').
Proof.
  intros H [_ Hs] Hf i. destruct i as [l|c].
  - destruct (decide (l ∈ ls)) as [Hl|Hl]; [by destruct (Hf l Hl) as [_ ->]|].
    rewrite Hs; [apply H|]. by intros l' [= <-].
  - rewrite Hs; [apply H|done].
Qed.

Definition boot_locks : gset lock_id :=
  {[ pid_lock; console_lock; kbd_buf_lock; kernel_pool_lock; user_pool_lock ]}.

(** Threads with nothing held and nothing awaited, running with interrupts
    on: a system that can start. *)
Lemma start_system k t T M TM p e :
  kt k = ThreadSt (<[t := T]> {[ M := TM ]}) M [t] [M; t] M t p e -> sched_inv (kt k) ->
  pgdir T = 0 -> pgdir TM = 0 -> stack_magic T = STACK_MAGIC -> stack_magic TM = STACK_MAGIC ->
  no_waiters (ks k) -> (forall l, l ∈ boot_locks -> lock_free l k) ->
  ioq_wf (kbd_buf (kdev k)) -> producer (kbd_buf (kdev k)) = 0 -> consumer (kbd_buf (kdev k)) = 0 ->
  booted boot_locks t (Cfg M (Done tt (set_km (irq_on (km k)) k)) {[ t := thread_entry ]}).
Proof.
  intros Ek Hs Hd HdM Hg HgM Hw Hf Hq Hp Hc.
  assert (HT : forall u tk, tasks (kt k) !! u = Some tk -> (u = t /\ tk = T) \/ (u = M /\ tk = TM)).
  { intros u tk. rewrite Ek. cbn [tasks]. rewrite lookup_insert, lookup_singleton.
    repeat case_decide; naive_solver. }
  eexists. split; [reflexivity|]. split; [|split; [cbn [kt set_km]; by rewrite Ek|]].
  - split; [|split; [cbn [kt set_km thr]; by rewrite Ek|apply (set_if_IF true)]]. split.
    + exact Hs.
    + exists (fun d => d = cr3 (kp k) \/ d = 0x100000). split; [by left|]. split; [by right|].
      intros u tk E. destruct (HT u tk E) as [[_ ->]|[_ ->]]; done.
    + intros u [tk E]. unfold task_at. cbn [kt set_km] in *. rewrite E. simpl.
      by destruct (HT u tk E) as [[_ ->]|[_ ->]].
    + split; intros; cbn [ks set_km] in *; rewrite ?Hw in *;
        [constructor|by apply not_elem_of_nil in H|by apply not_elem_of_nil in H].
    + intros u st Hu Hst Hb. unfold status_of in Hst. cbn [kt set_km] in *.
      destruct (tasks (kt k) !! u) as [tk|] eqn:E; [|done]. injection Hst as <-.
      destruct Hs as [Hso Hrun].
      destruct (HT u tk E) as [[-> ->]|[-> ->]].
      * destruct Hu. by rewrite Ek.
      * rewrite Ek in Hrun. unfold status_of in Hrun. rewrite Ek in E. cbn [tasks running] in *.
        rewrite E in Hrun. injection Hrun as Hrun. by rewrite Hrun in Hb.
    + intros l Hl. left. cbn [ks set_km]. destruct (Hf l Hl) as [-> ->]. done.
    + split; [exact Hq|exact Hp|]. cbn [kdev set_km]. by rewrite Hc.
  - intros u Hu [tk E]. cbn [thr conts] in *. destruct (HT u tk E) as [[-> _]|[-> _]]; [|done].
    apply lookup_singleton_eq.
Qed.

(** ** The run *)

(** What the loader leaves: the page tables, cleared variables, the literals
    of the kernel's image; the boot code runs with interrupts off on the
    stack of [main_pcb]'s page. *)
Record before_boot (im : image) (k : kst) : Prop := {
  bb_if : IF (km k) = false;
  bb_run : running (kt k) = main_pcb;
  bb_tasks : tasks (kt k) = ∅;
  bb_tables : loader_tables (kp k) 3840;
  bb_waiters : no_waiters (ks k);
  bb_buf : length (buf (kbd_buf (kdev k))) = 64%nat;
  bb_main : cstr (ram (km k)) (lit im "main") (codes "main");
  bb_idle : cstr (ram (km k)) (lit im "idle") (codes "idle")
}.

(** Handlers: the clock's, the keyboard's, the general one. *)
Definition handler_of (im : image) (v : Z) : Z :=
  u32 (fn im (if decide (v = 0x20) then "intr_timer_handler"
              else if decide (v = 0x21) then "intr_keyboard_handler" else "general_intr_handler")%string).

(** An empty byte heap in a page heap that has changed. *)
Lemma heap_inv_variant D s s' :
  heap_inv PF_KERNEL D s empty_heap -> heap_variant s s' ->
  agree (within D 168) (ram (vmach s)) (ram (vmach s')) -> heap_inv PF_KERNEL D s' empty_heap.
Proof.
  intros [H1 H2 H3 [cnt [H4 H5]] H6 H7] Hv Hag. destruct (variant_views _ _ Hv) as (En & Ea & Eb).
  assert (Hno : forall p k, arenas empty_heap !! p = Some k -> False).
  { intros p k. simpl. by rewrite lookup_empty. }
  split; cbn [pa_inv pa_base pa_pages pa_private pa_used kernel_PageAlloc] in *.
  - apply (hv_pages _ _ Hv).
  - by rewrite Ea, En.
  - by rewrite Ea, En.
  - exists cnt. rewrite Ea. split; [|done].
    eapply (heap_repr_agree _ _ _ _ H3 (fun i => ~ within D 168 i)); [exact H4|..].
    + eapply agree_weaken; [|exact Hag]. cbv beta. unfold within. intros. lia.
    + unfold within, desc_at, sizeof_mem_block_desc. intros. lia.
    + intros c i Hc Hx. destruct (changed_loc _ _ _ _ H3 c i Hc Hx) as [Hd|(p & Hp & _)].
      * unfold within, desc_at, sizeof_mem_block_desc in *. lia.
      * by apply Hno in Hp.
    + by intros p k i ?%Hno.
  - intros a Ha. rewrite Eb. by apply H6.
  - by intros p k j ?%Hno.
Qed.

Section boot.
Context (im : image) (kd : Z) (L : linked im kd).

(** After [idt_init] and [timer_init]. *)
Record tables_made (k k' : kst) : Prop := {
  tm_kernel : kt k' = kt k /\ kp k' = kp k /\ kmem k' = kmem k /\ ks k' = ks k /\ kdev k' = kdev k;
  tm_cpu : eflags (km k') = eflags (km k) /\ ports (km k') = ports (km k) ++ pic_words ++ pit_words;
  tm_gates : entry_gates im (ram (km k)) (ram (km k'));
  tm_syscall : gate_at (ram (km k')) (idt im + 8 * 0x80) =
    Gate SELECTOR_K_CODE (syscall_handler im) (interrupt_gate 3);
  tm_handlers : forall v, 0 <= v < 129 -> v <> 0x21 ->
    ld32 (ram (km k')) (idt_table im + 4 * v) = handler_of im v;
  tm_memory : agree (fun a => ~ within (idt im) 1032 a /\ ~ within (idt_table im) 516 a /\
    ~ within (intr_name im) 516 a) (ram (km k)) (ram (km k'))
}.

Lemma tables_run k :
  exists k', tables_made k k' /\ forall A (m : K A),
    (on_mach (idt_init im);; on_mach (timer_init im);; m) k = m k'.
Proof.
  destruct (idt_init_run im (km k) (linked_image im kd L)) as (op & m1 & H1 & _ & [G1 G2 G3 G4 [G5 G6]]).
  destruct (timer_init_run im m1) as (m2 & H2 & R2 & P2 & E2).
  assert (Hslot : agree (fun a => ~ within (idt_table im + 4 * 0x20) 4 a) (ram m1) (ram m2)).
  { rewrite R2. apply agree_st32. unfold within. tauto. }
  pose proof (disjoint_at _ (ln_apart _ _ L) 0 1 _ _ ltac:(done) eq_refl eq_refl)%nat as Hd.
  unfold apart in Hd. cbn [fst snd] in Hd.
  exists (set_km m2 k). split.
  - split; cbn [km set_km].
    + split_and!; reflexivity.
    + split; [congruence|]. by rewrite P2, G5, app_assoc.
    + apply (entry_gates_same im _ (ram m1) _ G1). intros v Hv. apply gate_agree with (1 := Hslot).
      unfold within. intros; lia.
    + rewrite (gate_agree _ (ram m1) (ram m2)) by (exact Hslot || (unfold within; intros; lia)). done.
    + intros v Hv Hne. unfold handler_of. destruct (decide (v = 0x20)) as [->|Hn].
      * rewrite R2. apply ld32_st32_eq.
      * rewrite decide_False by done. rewrite (agree_ld32 _ (ram m1) (ram m2)) by
          (exact Hslot || (unfold within; intros; lia)). by apply G3.
    + apply (agree_trans _ _ (ram m1)); [exact G4|]. eapply agree_weaken; [|exact Hslot].
      unfold within. intros a (_ & Ha & _). lia.
  - intros A m. erewrite (kbind_Done (on_mach (idt_init im))) by (unfold on_mach; by erewrite lift_Ok by exact H1).
    cbv beta. erewrite (kbind_Done (on_mach (timer_init im))) by
      (unfold on_mach; by erewrite lift_Ok by exact H2). by destruct k.
Qed.

(** ** The heaps and the threads *)

Definition low (a : Z) : Prop := a < MEM_BITMAP_BASE /\ ~ within kd 168 a.

Lemma before_threads_ready k k' :
  before_boot im k -> heap_ready k 480 k' ->
  cstr (ram (km k')) (lit im "main") (codes "main") ->
  cstr (ram (km k')) (lit im "idle") (codes "idle") ->
  before_threads im k' main_pcb.
Proof.
  intros B [H1 (N1 & _ & N3 & _) Hroom _ _ Hbm (Et & _ & _ & Hfl & _)] Hm Hi.
  assert (Hlit : forall i p, kernel_data im kd !! i = Some p -> snd p = 5 ->
    forall s, length s = 4%nat -> cstr (ram (km k')) (fst p) s -> literal k' main_pcb (fst p) s).
  { intros i p Hi' Hp s Hs Hc. destruct (below im kd L i p Hi') as [B1 B2].
    unfold MEM_BITMAP_BASE in B2. split; [lia|done| |unfold apart, u_block_descs, main_pcb; lia].
    intros x Hx. unfold within in Hx. split; [|rewrite N3; unfold K_HEAP_START; lia].
    intros Hy%Hbm. unfold MEM_BITMAP_BASE in Hy. lia. }
  split.
  - unfold IF. rewrite Hfl. apply (bb_if _ _ B).
  - rewrite Et. split; [apply (bb_run _ _ B)|done].
  - rewrite Et. apply (bb_tasks _ _ B).
  - exact H1.
  - by apply Hroom.
  - rewrite N3. unfold K_HEAP_START, main_pcb. lia.
  - intros a Ha Hx%Hbm. unfold within, u_block_descs, MEM_BITMAP_BASE, main_pcb in *. lia.
  - by apply (Hlit 8%nat (lit im "main", 5)).
  - by apply (Hlit 9%nat (lit im "idle", 5)).
Qed.

(** After [mem_init] and [thread_init]. *)
Record threads_made (k : kst) (t : Z) (k' : kst) : Prop := {
  th_threads : kt k' = ThreadSt (<[t := set_self_kstack (kstack_of t)
      (new_task t (i16 (i16 (next_pid (kt k) + 1) + 1)) TASK_READY (codes "idle") 10)]>
      {[ main_pcb := new_task main_pcb (i16 (next_pid (kt k) + 1)) TASK_RUNING (codes "main") 31 ]})
    main_pcb [t] [main_pcb; t] main_pcb t (i16 (i16 (next_pid (kt k) + 1) + 1)) (esps (kt k));
  th_sched : sched_inv (kt k');
  th_frame : first_frame im (ram (km k')) (kstack_of t) (fn im "idle") 0;
  th_page : exists i, 0 <= i < 3840 /\ t = K_HEAP_START + 4096 * i;
  th_if : IF (km k') = false;
  th_io : ports (km k') = ports (km k) /\ kdev k' = kdev k;
  th_pages : kernel_pages (vm_of k') /\ page_addr (vm_of k') 0 = K_HEAP_START;
  th_room : kernel_room (vm_of k') 3839;
  th_bitmaps : forall a, bitmap_bytes (vm_of k') a -> MEM_BITMAP_BASE <= a;
  th_heap : heap_inv PF_KERNEL kd (vm_of k') empty_heap;
  th_pcbs : pcbs_allocated k';
  th_locks : lock_free kernel_pool_lock k' /\ lock_free user_pool_lock k' /\ lock_free pid_lock k';
  th_waiters : no_waiters (ks k');
  th_memory : agree low (ram (km k)) (ram (km k'))
}.

Lemma threads_made_of k k3 t k4 :
  before_boot im k -> heap_ready k 480 k3 -> heap_inv PF_KERNEL kd (vm_of k3) empty_heap ->
  agree low (ram (km k)) (ram (km k3)) -> threads_ready im k3 main_pcb t k4 ->
  threads_made k t k4.
Proof.
  intros B [H1 (N1 & N2 & N3 & N4) Hroom Hbelow (F1 & F2 & Hl3) Hbm (Et & Ep & Ed & _ & Hio)] Hi Hlow.
  intros [(i & Hr & Ei) T2 T3 T4 T5 T6 T7 T8 T9 T10 T11 [I1 I2]].
  destruct (variant_views _ _ T6) as (En & Ea & Eb).
  assert (Et0 : t = K_HEAP_START + 4096 * i) by (rewrite Ei; unfold page_addr in *; lia).
  assert (Hmem : agree (fun a => a < MEM_BITMAP_BASE) (ram (km k3)) (ram (km k4))).
  { eapply agree_weaken; [|exact T11]. cbv beta. intros a Ha. split; [intros Hx%Hbm; lia|].
    unfold within, u_block_descs, MEM_BITMAP_BASE, K_HEAP_START, main_pcb in *. lia. }
  destruct (linked_descs im kd L) as [D1 D2]. pose proof (qt_pid _ T4) as Fp.
  split.
  - rewrite T2. unfold main_task. by rewrite Et.
  - exact T3.
  - exact T10.
  - exists i. split; [lia|done].
  - apply (qt_if _ T4).
  - rewrite I1, I2, Ed. split; [exact Hio|done].
  - split; [apply (hv_pages _ _ T6)|]. by rewrite Ea.
  - apply T8; [lia|]. apply Hroom. lia.
  - intros a Ha%Eb%Hbm. lia.
  - apply (heap_inv_variant kd (vm_of k3)); [done..|]. eapply agree_weaken; [|exact Hmem].
    unfold within. cbv beta. lia.
  - exact T9.
  - split; [|split; [|done]]; (eapply (locks_but_free _ _ k3); [exact T5|set_solver|done]).
  - apply (no_waiters_step [pid_lock] k3 k4); [|exact T5|by intros l ->%list_elem_of_singleton].
    apply (no_waiters_step [kernel_pool_lock; user_pool_lock] k k3); [apply (bb_waiters _ _ B)|done|].
    intros l. rewrite !elem_of_cons, elem_of_nil. by intros [->|[->|[]]].
  - apply (agree_trans _ _ (ram (km k3))); [done|]. eapply agree_weaken; [|exact Hmem]. by intros a [? _].
Qed.

Lemma threads_run lk sf k :
  before_boot im k -> (5 <= sf)%nat ->
  exists t k', threads_made k t k' /\ forall A (m : K A), (mem_init kd;; thread_init im (S lk) sf;; m) k = m k'.
Proof.
  intros B Hsf. destruct (linked_descs im kd L) as [D1 D2].
  destruct (mem_init_run kd k (bb_tables _ _ B) D1 D2) as (k3 & H3 & Hh & Hi & Ha3).
  assert (Hlow : agree low (ram (km k)) (ram (km k3))).
  { eapply agree_weaken; [|exact Ha3]. unfold low. cbv beta. intros a [? ?]. split; [lia|done]. }
  assert (Hlit : forall i p s, kernel_data im kd !! i = Some p -> i <> 6%nat ->
    snd p = Z.of_nat (length s) + 1 -> cstr (ram (km k)) (fst p) s -> cstr (ram (km k3)) (fst p) s).
  { intros i p s Hp Hne Hl Hs. eapply cstr_agree; [|exact Hs].
    eapply agree_weaken; [|exact Hlow]. intros a Ha. pose proof (below im kd L i p Hp).
    split; [lia|]. apply (only_in im kd L i p a 6 (kd, 168)); [done| |done|done]. unfold within. lia. }
  pose proof (before_threads_ready k k3 B Hh (Hlit 8%nat (lit im "main", 5) (codes "main") eq_refl ltac:(done) eq_refl (bb_main _ _ B))
    (Hlit 9%nat (lit im "idle", 5) (codes "idle") eq_refl ltac:(done) eq_refl (bb_idle _ _ B))) as Hbt.
  destruct (thread_init_spec im lk sf k3 main_pcb Hbt Hsf) as (t & k4 & H4 & T).
  exists t, k4. split; [|intros A m; rewrite (kbind_Done _ _ _ _ _ H3); cbv beta; by rewrite (kbind_Done _ _ _ _ _ H4)].
  by apply (threads_made_of k k3).
Qed.
(** ** The console, the keyboard, the TSS and the system calls *)

Record devices_made (k k' : kst) : Prop := {
  dv_kernel : same_kernel k k';
  dv_locks : lock_free console_lock k' /\ lock_free kbd_buf_lock k' /\
    locks_but [console_lock; kbd_buf_lock] (ks k) (ks k');
  dv_queue : kbd_buf (kdev k') = IOQueue 0 0 (buf (kbd_buf (kdev k))) 0 0;
  dv_keyboard : ld32 (ram (km k')) (idt_table im + 4 * 0x21) = handler_of im 0x21;
  dv_tss : segment_at (ram (km k')) (descriptor_of GDT SELECTOR_TSS) =
    Segment (tss im) (107 * 4096 + 4095) (Access true 0 false 9);
  dv_code : segment_at (ram (km k')) (descriptor_of GDT SELECTOR_U_CODE) =
    Segment 0 4294967295 (Access true 3 true 8);
  dv_data : segment_at (ram (km k')) (descriptor_of GDT SELECTOR_U_DATA) =
    Segment 0 4294967295 (Access true 3 true 2);
  dv_stack : ld32 (ram (km k')) (tss im + 8) = SELECTOR_K_STACK /\ tss_esp0 k' = 0;
  dv_calls : table_set im (ram (km k'));
  dv_memory : agree (fun a => ~ within (idt_table im + 4 * 0x21) 4 a /\ ~ within (tss im) 108 a /\
    ~ within GDT 56 a /\ ~ within (syscall_table im) 16 a) (ram (km k)) (ram (km k'))
}.

(** The handlers' table and the tables of the devices' initialisation. *)
Lemma handlers_apart a : within (idt_table im) 516 a ->
  ~ within (tss im) 108 a /\ ~ within GDT 56 a /\ ~ within (syscall_table im) 16 a.
Proof.
  intros Ht. pose proof (fun j q => only_in im kd L 1 (idt_table im, 516) a j q eq_refl Ht) as Ho. split_and!.
  - exact (Ho 4%nat (tss im, 108) ltac:(done) eq_refl).
  - exact (Ho 7%nat (GDT, 56) ltac:(done) eq_refl).
  - exact (Ho 5%nat (syscall_table im, 16) ltac:(done) eq_refl).
Qed.

Lemma calls_apart i p a : kernel_data im kd !! i = Some p -> within (fst p) (snd p) a ->
  i <> 5%nat -> ~ within (syscall_table im) 16 a.
Proof. intros Hi Ha Hne. by apply (only_in im kd L i p a 5 (syscall_table im, 16)). Qed.

Lemma devices_run k :
  exists k', devices_made k k' /\
    (console_init;; keyboard_init im;; tss_init im;; on_mach (syscall_init im)) k = Done tt k'.
Proof.
  destruct (lock_init_free console_lock k) as (s5 & H5 & F5 & O5). set (k5 := set_ks s5 k) in *.
  destruct (keyboard_init_run im k5) as (k6 & H6 & K6 & R6 & Q6 & F6 & O6).
  change (same_kernel k k6) in K6. destruct K6 as (A1 & A2 & A3 & A4 & A5).
  destruct (tss_init_run im k6 (linked_tss im kd L)) as (k7 & H7 & _ & [S1 S2 S3 S4 S5 S6 [cs Ek7]]).
  destruct (syscall_init_run im k7 (ln_calls _ _ L))
    as (k8 & H8 & (B1 & B2 & B3 & B4 & B5) & Es & Ed & Et & C8 & M8).
  change sizeof_tss with 108 in S6.
  assert (H68 : agree (fun a => ~ within (tss im) 108 a /\ ~ within GDT 56 a /\
            ~ within (syscall_table im) 16 a) (ram (km k6)) (ram (km k8))).
  { apply (agree_trans _ _ (ram (km k7))); (eapply agree_weaken; [|eassumption]); cbv beta; tauto. }
  assert (Ek : kt k7 = kt k6 /\ kp k7 = kp k6 /\ kmem k7 = kmem k6 /\ ks k7 = ks k6 /\
            kdev k7 = kdev k6 /\ eflags (km k7) = eflags (km k6) /\ ports (km k7) = ports (km k6)).
  { rewrite Ek7. split_and!; reflexivity. }
  destruct Ek as (T1 & T2 & T3 & T4 & T5 & T6 & T7).
  assert (Hgdt : forall a, 0xc0000523 <= a <= 0xc0000533 ->
            segment_at (ram (km k8)) a = segment_at (ram (km k7)) a).
  { intros a Ha. apply (segment_agree _ _ _ _ M8). intros b Hb.
    apply (calls_apart 7%nat (GDT, 56)); [done| |done]. unfold within, GDT in *. simpl. lia. }
  exists k8. split.
  - split.
    + unfold same_kernel. split_and!; congruence.
    + unfold lock_free. rewrite Es, T4. split; [|split].
      * apply (locks_but_free [kbd_buf_lock] _ k5 k6); [exact O6|set_solver|exact F5].
      * exact F6.
      * apply (locks_but_trans _ [console_lock] [kbd_buf_lock] _ s5); [exact O5|exact O6|set_solver..].
    + rewrite Ed, T5. exact Q6.
    + rewrite (agree_ld32 _ (ram (km k6)) (ram (km k8)) (idt_table im + 4 * 0x21) H68).
      { rewrite R6. apply ld32_st32_eq. }
      intros a Ha. apply handlers_apart. unfold within. lia.
    + rewrite Hgdt by (by vm_compute). exact S1.
    + rewrite Hgdt by (by vm_compute). exact S2.
    + rewrite Hgdt by (by vm_compute). exact S3.
    + rewrite Et, S5. split; [|done]. rewrite <- S4. apply (agree_ld32 _ _ _ _ M8). intros a Ha.
      apply (calls_apart 4%nat (tss im, 108)); [done| |done]. unfold within. simpl. lia.
    + exact C8.
    + apply (agree_trans _ _ (ram (km k6))); [|eapply agree_weaken; [|exact H68]; cbv beta; tauto].
      rewrite R6. apply agree_st32; unfold within; lia.
  - unfold console_init. rewrite (kbind_Done _ _ _ _ _ H5). cbv beta. fold k5.
    rewrite (kbind_Done _ _ _ _ _ H6). cbv beta. by rewrite (kbind_Done _ _ _ _ _ H7).
Qed.
(** ** What [init_core] establishes *)

(** The processor's tables. *)
Record cpu_ready (k k' : kst) : Prop := {
  cr_gates : entry_gates im (ram (km k)) (ram (km k'));
  cr_syscall : gate_at (ram (km k')) (idt im + 8 * 0x80) =
    Gate SELECTOR_K_CODE (syscall_handler im) (interrupt_gate 3);
  cr_handlers : forall v, 0 <= v < 129 -> ld32 (ram (km k')) (idt_table im + 4 * v) = handler_of im v;
  cr_tss : segment_at (ram (km k')) (descriptor_of GDT SELECTOR_TSS) =
    Segment (tss im) (107 * 4096 + 4095) (Access true 0 false 9);
  cr_code : segment_at (ram (km k')) (descriptor_of GDT SELECTOR_U_CODE) =
    Segment 0 4294967295 (Access true 3 true 8);
  cr_data : segment_at (ram (km k')) (descriptor_of GDT SELECTOR_U_DATA) =
    Segment 0 4294967295 (Access true 3 true 2);
  cr_stack : ld32 (ram (km k')) (tss im + 8) = SELECTOR_K_STACK /\ tss_esp0 k' = 0;
  cr_calls : table_set im (ram (km k'));
  cr_ports : ports (km k') = ports (km k) ++ pic_words ++ pit_words
}.

(** The heaps and the threads; the system that starts when the flag is set. *)
Record kernel_ready (k : kst) (t : Z) (k' : kst) : Prop := {
  kr_threads : kt k' = ThreadSt (<[t := set_self_kstack (kstack_of t)
      (new_task t (i16 (i16 (next_pid (kt k) + 1) + 1)) TASK_READY (codes "idle") 10)]>
      {[ main_pcb := new_task main_pcb (i16 (next_pid (kt k) + 1)) TASK_RUNING (codes "main") 31 ]})
    main_pcb [t] [main_pcb; t] main_pcb t (i16 (i16 (next_pid (kt k) + 1) + 1)) (esps (kt k));
  kr_idle : first_frame im (ram (km k')) (kstack_of t) (fn im "idle") 0;
  kr_pages : kernel_pages (vm_of k') /\ kernel_room (vm_of k') 3839;
  kr_heap : heap_inv PF_KERNEL kd (vm_of k') empty_heap;
  kr_pcbs : pcbs_allocated k';
  kr_if : IF (km k') = false;
  kr_system : booted boot_locks t
    (Cfg main_pcb (Done tt (set_km (irq_on (km k')) k')) {[ t := thread_entry ]})
}.

(** The last steps touch neither the heap's bitmaps nor a thread's page. *)
Lemma devices_high k k' : devices_made k k' ->
  agree (fun a => MEM_BITMAP_BASE <= a) (ram (km k)) (ram (km k')).
Proof.
  intros D. eapply agree_weaken; [|apply (dv_memory _ _ D)]. cbv beta. intros a Ha.
  pose proof (below im kd L 1 _ eq_refl) as B1. pose proof (below im kd L 4 _ eq_refl) as B4.
  pose proof (below im kd L 5 _ eq_refl) as B5. cbn [fst snd] in *.
  unfold within, GDT, MEM_BITMAP_BASE in *. lia.
Qed.

(** Nor the other regions of the data. *)
Lemma devices_other k k' i p : devices_made k k' -> kernel_data im kd !! i = Some p ->
  i <> 4%nat -> i <> 5%nat -> i <> 7%nat ->
  agree (fun a => within (fst p) (snd p) a /\ ~ within (idt_table im + 4 * 0x21) 4 a)
    (ram (km k)) (ram (km k')).
Proof.
  intros D Hi H4 H5 H7. eapply agree_weaken; [|apply (dv_memory _ _ D)]. cbv beta. intros a [Ha Hs].
  pose proof (fun j q => only_in im kd L i p a j q Hi Ha) as Ho. split; [done|]. split_and!.
  - exact (Ho 4%nat (tss im, 108) H4 eq_refl).
  - exact (Ho 7%nat (GDT, 56) H7 eq_refl).
  - exact (Ho 5%nat (syscall_table im, 16) H5 eq_refl).
Qed.

Lemma heap_after k0 t k k' :
  threads_made k0 t k -> devices_made k k' ->
  heap_variant (vm_of k) (vm_of k') /\ kernel_room (vm_of k') 3839 /\
  forall i, 0 <= i < npages (vm_of k) -> vbit (vm_of k') i = vbit (vm_of k) i.
Proof.
  intros T D. destruct (dv_kernel _ _ D) as (_ & Ep & Em & _). set (r := ram (km k')).
  destruct (@pa_outside PF_KERNEL kernel_PageAlloc (vm_of k) r (proj1 (th_pages _ _ _ T)))
    as (P1 & P2 & P3).
  { eapply agree_weaken; [|by apply devices_high]. apply (th_bitmaps _ _ _ T). }
  destruct (kernel_pages_view (PageHeap.with_ram r (vm_of k)) (vm_of k')) as (V1 & V2 & V3);
    [exact Em|exact Ep|done|].
  split; [split; [exact Em|by apply V1]|]. split; [apply V2, (P3 3839), (th_room _ _ _ T)|].
  intros i Hi. rewrite V3. by apply P2.
Qed.

Lemma pcbs_after k k' :
  kt k' = kt k -> heap_variant (vm_of k) (vm_of k') ->
  (forall i, 0 <= i < npages (vm_of k) -> vbit (vm_of k') i = vbit (vm_of k) i) ->
  pcbs_allocated k -> pcbs_allocated k'.
Proof.
  intros Et Hv Hb [Q1 Q2]. destruct (variant_views _ _ Hv) as (En & Ea & _).
  unfold pcbs_allocated. rewrite Et. split; [|exact Q2]. intros i Hi Hf. rewrite Ea.
  rewrite En in Hi. apply Q1; [done|]. by rewrite <- Hb.
Qed.

Lemma system_after k0 t k k' :
  length (buf (kbd_buf (kdev k))) = 64%nat -> threads_made k0 t k -> devices_made k k' ->
  booted boot_locks t (Cfg main_pcb (Done tt (set_km (irq_on (km k')) k')) {[ t := thread_entry ]}).
Proof.
  intros Hbuf T D. destruct (dv_kernel _ _ D) as (Et & _).
  destruct (dv_locks _ _ D) as (F1 & F2 & Fo). destruct (th_locks _ _ _ T) as (F3 & F4 & F5).
  eapply start_system; [rewrite Et; apply (th_threads _ _ _ T)|rewrite Et; apply (th_sched _ _ _ T)|
    done|done|done|done|..]; rewrite ?(dv_queue _ _ D); try done.
  - apply (no_waiters_step [console_lock; kbd_buf_lock] k k'); [apply (th_waiters _ _ _ T)|exact Fo|].
    intros l. rewrite !elem_of_cons, elem_of_nil. by intros [->|[->|[]]].
  - intros l Hl. destruct (decide (l ∈ [console_lock; kbd_buf_lock])) as [Hin|Hnin].
    { revert Hin. rewrite !elem_of_cons, elem_of_nil. by intros [->|[->|[]]]. }
    apply (locks_but_free _ l k k' Fo Hnin). unfold boot_locks in Hl. set_solver.
Qed.

Lemma kernel_after k0 t k k' :
  length (buf (kbd_buf (kdev k))) = 64%nat -> threads_made k0 t k -> devices_made k k' ->
  kernel_ready k0 t k'.
Proof.
  intros Hbuf T D. destruct (dv_kernel _ _ D) as (Et & _ & _ & Ef & _).
  destruct (heap_after k0 t k k' T D) as (Hv & Hr & Hb). split.
  - rewrite Et. apply (th_threads _ _ _ T).
  - eapply first_frame_agree; [by apply devices_high| |apply (th_frame _ _ _ T)]. intros a Ha.
    destruct (th_page _ _ _ T) as (i & Hi & ->).
    unfold kstack_of, K_HEAP_START, MEM_BITMAP_BASE in *. lia.
  - split; [apply (hv_pages _ _ Hv)|exact Hr].
  - apply (heap_inv_variant kd (vm_of k)); [apply (th_heap _ _ _ T)|exact Hv|].
    eapply agree_weaken; [|apply (devices_other k k' 6 (kd, 168) D); done]. intros a Ha.
    split; [exact Ha|]. intros Hx. apply (only_in im kd L 6 (kd, 168) a 1 (idt_table im, 516));
      [done|exact Ha|done|done|]. unfold within in *. simpl. lia.
  - by apply (pcbs_after k k'), (th_pcbs _ _ _ T).
  - unfold IF. rewrite Ef. apply (th_if _ _ _ T).
  - by apply (system_after k0 t k).
Qed.

(** A table of the data, but for the keyboard's slot, from [tables_run] on. *)
Lemma table_kept k t k2 k3 k4 i p :
  threads_made k2 t k3 -> devices_made k3 k4 -> tables_made k k2 ->
  kernel_data im kd !! i = Some p -> (i <= 1)%nat ->
  agree (fun a => within (fst p) (snd p) a /\ ~ within (idt_table im + 4 * 0x21) 4 a)
    (ram (km k2)) (ram (km k4)).
Proof.
  intros T D _ Hi Hle. apply (agree_trans _ _ (ram (km k3))); [|apply (devices_other k3 k4 i p D Hi); lia].
  eapply agree_weaken; [|apply (th_memory _ _ _ T)]. intros a [Ha _]. pose proof (below im kd L i p Hi).
  split; [unfold within in Ha; lia|]. by apply (only_in im kd L i p a 6 (kd, 168)); [..|lia|].
Qed.

Lemma cpu_after k t k2 k3 k4 :
  tables_made k k2 -> threads_made k2 t k3 -> devices_made k3 k4 -> cpu_ready k k4.
Proof.
  intros M T D. pose proof (table_kept k t k2 k3 k4 0 _ T D M eq_refl ltac:(lia)) as K0.
  pose proof (table_kept k t k2 k3 k4 1 _ T D M eq_refl ltac:(lia)) as K1. cbn [fst snd] in K0, K1.
  pose proof (disjoint_at _ (ln_apart _ _ L) 0 1 _ _ ltac:(done) eq_refl eq_refl)%nat as Hd.
  unfold apart in Hd. cbn [fst snd] in Hd.
  assert (Hg : forall v, 0 <= v < 129 -> gate_at (ram (km k4)) (idt im + 8 * v) = gate_at (ram (km k2)) (idt im + 8 * v)).
  { intros v Hv. apply (gate_agree _ _ _ _ K0). unfold within. intros; lia. }
  split.
  - apply (entry_gates_same im _ _ _ (tm_gates _ _ M)). intros v Hv. by rewrite Hg by lia.
  - rewrite Hg by lia. apply (tm_syscall _ _ M).
  - intros v Hv. destruct (decide (v = 0x21)) as [->|Hne]; [apply (dv_keyboard _ _ D)|].
    rewrite <- (tm_handlers _ _ M v Hv Hne). apply (agree_ld32 _ _ _ _ K1). unfold within. intros; lia.
  - apply (dv_tss _ _ D).
  - apply (dv_code _ _ D).
  - apply (dv_data _ _ D).
  - apply (dv_stack _ _ D).
  - apply (dv_calls _ _ D).
  - destruct (dv_kernel _ _ D) as (_ & _ & _ & _ & E). rewrite E, (proj1 (th_io _ _ _ T)).
    apply (tm_cpu _ _ M).
Qed.

Lemma before_tables k k2 : before_boot im k -> tables_made k k2 -> before_boot im k2.
Proof.
  intros [B1 B2 B3 B4 B5 B6 B7 B8] [(Et & Ep & _ & Es & Ed) [Ef _] _ _ _ Hag].
  assert (Hlit : forall i p s, kernel_data im kd !! i = Some p -> (2 < i)%nat ->
    snd p = Z.of_nat (length s) + 1 -> cstr (ram (km k)) (fst p) s -> cstr (ram (km k2)) (fst p) s).
  { intros i p s Hp Hne Hl Hs. eapply cstr_agree; [|exact Hs].
    eapply agree_weaken; [|exact Hag]. intros a Ha.
    assert (Hw : within (fst p) (snd p) a) by (unfold within; lia).
    pose proof (fun j q => only_in im kd L i p a j q Hp Hw) as Ho. split_and!.
    - exact (Ho 0%nat (idt im, 1032) ltac:(lia) eq_refl).
    - exact (Ho 1%nat (idt_table im, 516) ltac:(lia) eq_refl).
    - exact (Ho 2%nat (intr_name im, 516) ltac:(lia) eq_refl). }
  split; rewrite ?Et, ?Ep, ?Es, ?Ed; try done.
  - unfold IF. by rewrite Ef.
  - by apply (Hlit 8%nat (lit im "main", 5)); [|lia|..].
  - by apply (Hlit 9%nat (lit im "idle", 5)); [|lia|..].
Qed.

Lemma init_core_run lk sf k :
  before_boot im k -> (5 <= sf)%nat ->
  exists t k', init_core im (S lk) sf kd k = Done tt k' /\ cpu_ready k k' /\ kernel_ready k t k'.
Proof.
  intros B Hsf. destruct (tables_run k) as (k2 & M & R2).
  pose proof (before_tables k k2 B M) as B2.
  destruct (threads_run lk sf k2 B2 Hsf) as (t & k3 & T & R3).
  destruct (devices_run k3) as (k4 & D & R4). exists t, k4. split; [|split].
  - unfold init_core. by rewrite R2, R3.
  - by apply (cpu_after k t k2 k3).
  - assert (Hn : kt k2 = kt k) by apply (tm_kernel _ _ M).
    destruct (kernel_after k2 t k3 k4) as [X1 X2 X3 X4 X5 X6 X7]; [|done|done|].
    + rewrite (proj2 (th_io _ _ _ T)). apply (bb_buf _ _ B2).
    + rewrite Hn in X1. by split.
Qed.
End boot.

(** ** The loader's state, with the kernel's data laid out *)

Definition demo_kernel : image :=
  Image 0xc0010000 0xc0010800 0xc0010a80 0xc0010e00 0xc0001500 0xc0011100 0xc0011200
    (fun s => if decide (s = "sys_getpid"%string) then 0xc0003000
              else if decide (s = "sys_write"%string) then 0xc0003100
              else if decide (s = "sys_malloc"%string) then 0xc0003200
              else if decide (s = "sys_free"%string) then 0xc0003300 else 0xc0002000)
    (fun s => if decide (s = "main"%string) then 0xc0005000
              else if decide (s = "idle"%string) then 0xc0005010 else 0xc0008000).

Lemma demo_data : kernel_data demo_kernel demo_descs =
  [(0xc0010000, 1032); (0xc0010e00, 516); (0xc0010800, 516); (0xc0010a80, 192); (0xc0011100, 108);
   (0xc0011200, 16); (0xc0006000, 168); (0xc0000503, 56); (0xc0005000, 5); (0xc0005010, 5)].
Proof. by vm_compute. Qed.

Lemma demo_kernel_linked : linked demo_kernel demo_descs.
Proof.
  split; rewrite ?demo_data.
  - unfold disjoint_regions, apart. repeat first [apply FOP_nil|apply FOP_cons|apply List.Forall_nil|
      apply List.Forall_cons|cbn [fst snd]; lia].
  - unfold MEM_BITMAP_BASE. repeat first [apply Forall_nil_2|apply Forall_cons_2|cbn [fst snd]; lia].
  - by vm_compute.
  - split; simpl; [intros f; repeat case_decide; lia|done..].
Qed.

Lemma demo_before_boot : before_boot demo_kernel demo_loaded.
Proof.
  split; [reflexivity|reflexivity|reflexivity|exact demo_loader_tables| |reflexivity|by vm_compute|by vm_compute].
  intros i. by vm_compute.
Qed.

(** ** Theorems *)

(** C3: From what the loader leaves, [init_all] up to its [intr_enable()]
    runs to its end and brings up the kernel.  The processor's tables name
    the kernel's entry points, handlers, segments and system calls, and the
    controllers and the clock are programmed.  The page heap is ready with
    one page in use, the byte heap ready and empty.  The main thread runs,
    the idle thread is ready to enter [idle].  All locks are free, nobody
    waits, the keyboard's queue is empty: with the interrupt flag set this is
    a system of threads in the state the theorems on such systems start
    from. *)
Theorem init_core_ok im kd lk sf k :
  linked im kd -> before_boot im k -> (5 <= sf)%nat ->
  exists t k', init_core im (S lk) sf kd k = Done tt k' /\ cpu_ready im k k' /\
    kernel_ready im kd k t k'.
Proof. intros L. by apply init_core_run. Qed.

Lemma init_core_ok_witness :
  exists t k', init_core demo_kernel 1 9 demo_descs demo_loaded = Done tt k' /\
    cpu_ready demo_kernel demo_loaded k' /\ kernel_ready demo_kernel demo_descs demo_loaded t k'.
Proof.
  apply (init_core_ok demo_kernel demo_descs 0 9 demo_loaded);
    [exact demo_kernel_linked|exact demo_before_boot|lia].
Defined.


