(* ===== verification/Programs.v ===== *)
(** * The test threads and programs of [kernel/main.c]

    Two kernel threads and two user programs that allocate three blocks, say
    where, wait, and free them.  Each is modelled up to its [while(1);].  The
    addresses of [printf]'s buffer and argument area on a program's stack are
    the fields of [frame_addrs]. *)
From S2P Require Import Prelude Machine Global Str Stdio Bitmap KList Paging Kernel Thread Timer.
From S2P Require Import Sync Console Memory Arena Interrupt Syscall Printk Ide.

(** [int cpu_delay = 100000; while (cpu_delay-- > 0);]: an interrupt may come
    in every round. *)
Fixpoint delay_loop (cpu_delay : nat) : K unit :=
  irq_window;; match cpu_delay with O => mret tt | S cpu_delay => delay_loop cpu_delay end.
Definition cpu_delay : nat := Z.to_nat 100000.

Section programs.
Context (im : image) (fr : frame_addrs).
Context (lkfuel ffuel sfuel hfuel lfuel : nat) (k_block_descs eax0 : Z).

Definition console_put_lit (s : string) : K unit :=
  console_put_str lkfuel sfuel (lit im s).

(** ** Kernel threads *)

Definition k_alloc (size : Z) : K Z := sys_malloc k_block_descs lkfuel hfuel lfuel size.
Definition k_release (addr : Z) : K unit := sys_free lkfuel hfuel lfuel addr.

(** The body the two threads share but for the line they print. *)
Definition k_thread_body (message : string) : K unit :=
  addr1 ← k_alloc 256;
  addr2 ← k_alloc 255;
  addr3 ← k_alloc 254;
  console_put_lit message;;
  console_put_int lkfuel addr1;;
  console_put_char lkfuel 44;;
  console_put_int lkfuel addr2;;
  console_put_char lkfuel 44;;
  console_put_int lkfuel addr3;;
  console_put_char lkfuel 10;;
  delay_loop cpu_delay;;
  k_release addr1;;
  k_release addr2;;
  k_release addr3.

Definition k_thread_a (arg : Z) : K unit := k_thread_body " thread_a malloc addr:0x".
Definition k_thread_b (arg : Z) : K unit := k_thread_body " thread_b malloc addr:0x".

(** ** User programs *)

Definition u_alloc (size : Z) : K Z := malloc im k_block_descs lkfuel hfuel lfuel sfuel eax0 size.
Definition u_release (ptr : Z) : K unit := free im k_block_descs lkfuel hfuel lfuel sfuel eax0 ptr.

Definition printf_args (format : string) (args : list Z) : K Z :=
  on_mach (push_args (fr_args fr) (lit im format :: args));;
  printf im k_block_descs lkfuel hfuel lfuel ffuel sfuel eax0 (fr_printk fr) (lit im format)
    (fr_args fr).

Definition u_prog_body (format : string) : K unit :=
  addr1 ← u_alloc 256;
  addr2 ← u_alloc 255;
  addr3 ← u_alloc 254;
  printf_args (line format) [addr1; addr2; addr3];;
  delay_loop cpu_delay;;
  u_release addr1;;
  u_release addr2;;
  u_release addr3.

Definition u_prog_a : K unit := u_prog_body " prog_a malloc addr:0x%x,0x%x,0x%x".
Definition u_prog_b : K unit := u_prog_body " prog_b malloc addr:0x%x,0x%x,0x%x".
End programs.
